(* ===== verification/_CoqProject ===== *)
-Q . S2P
Prelude.v
RustStr.v
Net.v
Reconnect.v
Models.v
Routes.v
Signing.v
Api.v
Requests.v
Login.v
Interface.v
Dialer.v
DnsConfig.v
DnsResolver.v
DnsServer.v
Outbound.v
Platforms.v
TunDns.v
VpnState.v
Negotiate.v
HttpClients.v
CallTypes.v
Persist.v
Faults.v
AuthMachine.v
Transport.v
FeilianRecv.v
Session.v
Footprint.v
Supervisor.v
Store.v
Daemon.v
ConnectTask.v
NoTrace.v
System.v
Startup.v
AuthService.v
AuthInvariant.v
AuthFlows.v
VpnService.v
MetaService.v
WholeDaemon.v
DaemonRuns.v
