(* ===== verification/Prelude.v ===== *)
(** * Rustylink: a verification library

    Rustylink is a VPN client written in Rust: a daemon
    ([src/crates/daemon]) that activates and logs in against a tenant's server,
    picks an access node ("dot"), brings up a WireGuard tunnel over UDP or over
    the FeiLian TCP transport, watches it, reconnects it, and serves a user
    interface over RPC.  This library translates the crates' own logic into
    Rocq definitions and proves what makes it correct.  Paths below are
    relative to [src/crates].

    ** The parts and how they interact

    - [daemon/src/main.rs] loads two files, builds the daemon, resumes a
      session and a tunnel, serves, and takes the tunnel down at the end.
    - [daemon/src/service] answers the RPCs by calling the daemon's operations
      under one lock.
    - [daemon/src/daemon.rs] owns the serialised state: the auth coordinator and
      the VPN machine ([daemon/src/state.rs]), the configuration and the spawned
      connect task; it saves through [daemon/src/persist.rs].
    - The connect task repeats an attempt: negotiate a node ([core/src/vpn.rs],
      ranked by [daemon/src/latency.rs]), start a session
      ([tunnel/src/session.rs]), supervise it ([daemon/src/supervisor.rs]),
      stop it, and ask the controller ([tunnel/src/reconnect.rs]) what next.
    - A session puts together the TUN device, the routes ([tunnel/src/route.rs]),
      the DNS interception and the probe ([tunnel/src/dns.rs], [dns/src]), the
      transport ([tunnel/src/transport.rs]) and the outbound context
      ([outbound/src]): the sockets that must stay out of the tunnel.
    - Every request to the server goes through [api/src/client.rs], signed by
      [api/src/signing.rs].

    ** How the code is modelled

    A state is a [Record] with the struct's fields, an enum an [Inductive] with
    its variants, an operation a [Definition] over explicit state in the monad
    [M W E A] of this file ([W → W * result E A]): an error keeps the world it
    happened in, as an early return does.  Integers are [Z] with the width's
    saturation or wrap written out (durations are nanoseconds), strings and
    bytes are exact.  A spawned task is a value in the state; what the rest of
    the daemon does while a task waits ([pause], [wait], [next_turn],
    [sleep_unless_cancelled], [serving]) is an argument, and the theorems say
    what they assume of it.  A comment before each definition names the lines it
    translates.

    Code that is not under [src] is behind a class, and what is relied on is a
    law of the class or a named hypothesis:
    [Urls], [Http], [Serde], [Crypto], [Random] (url, reqwest, serde, the
    cryptographic crates), [Sockets], [Udp], [Scheduler], [DnsCodec] (system
    calls, tokio's scheduling, hickory), [IpNet], [RouteManager] with the laws
    [RouteTable], [IpRule] with [RuleTable], [TunDriver], [KeyCodec],
    [Etherparse], [TcpNet] with [StreamLaws], [PersistSerde], [Host],
    [Machine], [UdpSocket], [WgStatus], [RouteCmd] with [ScopedRoutes].  The
    client of the files is proved against the interface [Store] and its laws
    [StoreLaws], which the implementation of [persist.rs] discharges; the
    session against [RouteBypassT] and its laws [BypassLaws], which every
    platform's bypass discharges.  [Footprint] and [Untouched] say which
    operations change what a tunnel holds of the machine (routes, rules, TUN
    and WireGuard devices, DNS servers, probes); a TUN device that is dropped
    ([tun_drop]) takes its routes with it.

    A law says what a call did when it works and that it did nothing when it
    fails: a deletion that fails leaves its route, rule or scoped route where
    it is.  That a deletion works is never a law; where a theorem needs it, it
    is a hypothesis of its own ([deletes_present], [platform_obeys]), and the
    theorems say what stays otherwise ([bypass_left], [platform_left],
    [rules_within]).

    ** The files, by component

    - This file: results, the monad with its equivalence and laws, its program
      logic ([keeps], [hoare]), options, widths, sorting, the hint database
      [rust].  [RustStr], [Net]: the parts of
      Rust's [str] and [std::net] the code uses; nothing of the repository.
    - API: [Models] and [Requests] ([api/src/models]), [Signing]
      ([signing.rs]), [Api] ([client.rs], [identity.rs]).  [send_outcome]: every
      way a call ends, and what it leaves in the jar; [sign_decision]: which
      requests are signed, with which key, over which bytes.  [HttpClients]:
      how a client is built over an outbound interface, a resolver and a pinned
      address; a node's client dials only that node.
    - Login: [Login] ([core/src/auth.rs], [core/src/state/auth.rs]),
      [AuthMachine] (auth half of [daemon/src/state.rs]).  [login_ops_atomic]: a
      login step that fails changes nothing but the cookies, and the completion
      of an OAuth login uses its pending flow up.
    - RPC services: [AuthService] (the handlers of [service/auth.rs]),
      [AuthInvariant] (the coordinator stays well-formed in every reachable
      daemon; a session has a client as long as no activation is served while a
      device login waits and stored addresses are usable), [AuthFlows] (a device login ends, a login survives a restart, a
      logout), [VpnService] ([service/vpn.rs]: the ranking of the probes, the watch
      stream),
      [MetaService] ([service/meta.rs]: a configuration update, its round trip,
      and the reconnect it causes).
    - Process: [Startup] ([main.rs], [token.rs], [ui.rs]): the start and the end
      on every branch, and the signals that end it.
    - Files: [Persist] ([persist.rs] over a file system with a volatile and a
      durable content per inode: a write is atomic, two overlapping ones are
      not), [Store] (the interface, its implementation, and the refinement of
      the file by one value that survives).
    - Daemon: [VpnState] ([core/src/state/vpn.rs] and the VPN half of
      [state.rs]), [Faults] ([error.rs]), [Daemon] ([daemon.rs], [latency.rs]:
      the loop ends at rest, ends when cancelled, gives up after nine attempts; a
      restart resumes the tunnel; connecting on every branch), [ConnectTask]
      (the spawned task refines the state machine a client sees, also while
      a disconnect begins), [System] (the critical sections of the task and the
      tunnel RPCs as interleaved steps; which errors end an attempt, and when,
      is left open, so that the steps say what can happen at most: at most one
      tunnel runs if connects come in calm moments, and [failed_attempt_race]
      is what happens in the others), [WholeDaemon] (the same for the other
      RPCs, the device logins that wait and the writes under way, on one state
      with [System], in an environment [Env]: what holds in every interleaving,
      what holds if connects come in calm moments and if tenants are kept; the
      handlers are runs of the sections; a late write undoes a logout),
      [DaemonRuns] (the connect task with its requests, its session and its
      sleeps, and the tunnel RPCs with their waits, are runs of that system, so
      that its invariants hold of them).
    - Tunnel: [Reconnect], [Negotiate] ([core/src/vpn.rs]), [Session],
      [Footprint], [Supervisor], [Routes], [TunDns], [Transport], [FeilianRecv],
      [NoTrace].  The negotiated node is one that was asked for; a start that
      fails and a stop release what they hold; routes are restored, and rolled
      back when one is refused; the reader of the TCP transport returns exactly
      the datagrams that were sent, also when the bytes come in pieces and
      several readers share the bounded channel.  [Footprint] composes routes,
      rules, devices, servers and probes over a session, and [NoTrace] over the
      whole connect loop: the machine comes back as it was, but for rules of the
      bypass that the system refuses to install or remove, or that a start
      leaves which fails after its routes were applied
      ([failed_start_keeps_bypass]).
    - DNS: [DnsConfig] ([dns/src/config.rs]), [DnsResolver] ([synthesis.rs],
      [forwarder.rs], [resolver.rs]): a query goes only to the servers of its
      side; [DnsServer] ([server.rs] as loops, tasks and an owner that step in
      any order): every datagram is answered at most once, and a shutdown ends.
    - Outbound: [Interface] ([interface.rs], [snapshot.rs]: the tunnel's own
      device is never chosen), [Dialer] ([dialer.rs]: a socket is bound before it
      connects), [Outbound] ([context.rs], [resolver.rs], [connector.rs],
      [bypass/linux.rs]), [Platforms] (the bypass, the socket binding and the
      device names of macOS, Windows and other systems, under one contract),
      [CallTypes] (every socket call is made with arguments of its type).

    ** Bounds and fuel

    - [connect_loop] counts attempts: nine are exactly enough for a tunnel that
      never works ([gives_up_after_nine]); one that works is retried for ever.
    - [poll_token] counts polls: 61 are enough, one at the start and one every
      two seconds for two minutes ([device_login_ends]); more change nothing.
    - [supervise] counts the turns of the supervisor's loop, which runs until
      something ends it; [None] is a session still supervised.
    - The frame reader's fuel is bounded by the bytes received
      ([read_frames_stops]); the number of requests of a negotiation is bounded
      ([negotiation_bounded]).
    - Other recursion is structural, or with fuel from the length of its input.

    ** Not modelled

    - TLS and the connection pool of hyper; the axum, tower and Connect wiring
      (so also what a graceful shutdown of the server waits for); clap;
      tracing: third-party configuration.
    - The daemon runs on Linux in this model: [Platforms] holds the branches of
      [cfg(target_os)] on their own.
    - The generated protocol messages and the derived serde code (their fields
      appear where the program fills them in), the user interface, the tests.
    - Concurrency beyond the daemon's sections, the readers of [FeilianRecv],
      the loops of [DnsServer] and the writers of [Persist]: elsewhere an
      operation is run whole but where the source waits.  Probes that run at
      once are made one after the other on the shared jar; the order in which
      they finish is arbitrary.
    - Waiting as such: a session's start and stop, which the source makes without
      the lock, happen at one point of a run; no theorem says that a
      disconnect that waits is answered, for an attempt under way does not look
      at its token and may hang.  Two
      writes of the configuration that wait at once are steps of [WholeDaemon]
      in either order; the one made later wins, and no theorem says which is
      right.
    - What of the mapped files no definition translates: their imports, error
      aliases, getters, trait headers, log lines
      and unit tests. *)

From stdpp Require Export base list option decidable strings gmap sets sorting.
From Stdlib Require Export ZArith Lia.
From Stdlib Require Import Morphisms.

#[global] Open Scope Z_scope.
#[global] Open Scope list_scope.

Declare Scope rust_scope.
Delimit Scope rust_scope with rust.
#[global] Open Scope rust_scope.

(** ** [Result] *)

(** Rust's [Result<A, E>]; the error type comes first so that [result E] is
    the type constructor of the error monad. *)
Inductive result (E A : Type) : Type :=
  | Ok (a : A)
  | Err (e : E).
Arguments Ok {E A} a.
Arguments Err {E A} e.

#[export] Instance result_eq_dec `{EqDecision E, EqDecision A} :
  EqDecision (result E A).
Proof. solve_decision. Defined.

(** The [?] operator. *)
Definition result_bind {E A B} (r : result E A) (k : A → result E B) : result E B :=
  match r with Ok a => k a | Err e => Err e end.

Definition map_err {E F A} (f : E → F) (r : result E A) : result F A :=
  match r with Ok a => Ok a | Err e => Err (f e) end.

Definition result_ok {E A} (r : result E A) : option A :=
  match r with Ok a => Some a | Err _ => None end.

(** [Option::ok_or] / snafu's [OptionExt::context]. *)
Definition ok_or {E A} (o : option A) (e : E) : result E A :=
  match o with Some a => Ok a | None => Err e end.

Definition is_ok {E A} (r : result E A) : bool :=
  match r with Ok _ => true | Err _ => false end.

Notation "'let?' x := r 'in' k" := (result_bind r (λ x, k))
  (at level 10, x name, r at level 100, k at level 200) : rust_scope.

(** ** Effects: state passing with errors

    A call that touches the outside world is a function from the world [W] to
    the world after the call and its [Result]; as in Rust, what the call did
    to the world stays done when it returns an error. *)
Definition M (W E A : Type) : Type := W → W * result E A.

Section Monad.
Context {W : Type}.

Definition m_ret {E A} (a : A) : M W E A := λ w, (w, Ok a).
Definition m_fail {E A} (e : E) : M W E A := λ w, (w, Err e).
Definition m_lift {E A} (r : result E A) : M W E A := λ w, (w, r).
Definition m_bind {E A B} (m : M W E A) (k : A → M W E B) : M W E B :=
  λ w, match m w with
       | (w', Ok a) => k a w'
       | (w', Err e) => (w', Err e)
       end.
(** [match call() { Ok(..) => .., Err(..) => .. }]: run [m], hand its
    [Result] on as a value. *)
Definition m_try {E F A} (m : M W E A) : M W F (result E A) :=
  λ w, let '(w', r) := m w in (w', Ok r).
Definition m_map_err {E F A} (f : E → F) (m : M W E A) : M W F A :=
  λ w, let '(w', r) := m w in (w', map_err f r).
Definition m_gets {E A} (f : W → A) : M W E A := λ w, (w, Ok (f w)).
Definition m_modify {E} (f : W → W) : M W E unit := λ w, (f w, Ok tt).

(** [for x in l { f(x)?; }] *)
Fixpoint m_for {E A} (l : list A) (f : A → M W E unit) : M W E unit :=
  match l with
  | [] => m_ret tt
  | x :: l' => m_bind (f x) (λ _, m_for l' f)
  end.
End Monad.
Arguments m_ret {W E A} a _ /.
Arguments m_fail {W E A} e _ /.
Arguments m_lift {W E A} r _ /.
Arguments m_bind {W E A B} m k _ /.
Arguments m_gets {W E A} f _ /.
Arguments m_modify {W E} f _ /.

Notation "'let!' x := m 'in' k" := (m_bind m (λ x, k))
  (at level 10, x name, m at level 100, k at level 200) : rust_scope.
Notation "'do!' m 'in' k" := (m_bind m (λ _, k))
  (at level 10, m at level 100, k at level 200) : rust_scope.

(** Two effectful computations are equal when they agree on every world. *)
Definition m_equiv {W E A} : relation (M W E A) := pointwise_relation W eq.
Infix "≡ₘ" := m_equiv (at level 70) : rust_scope.

#[export] Instance m_equiv_equivalence {W E A} : Equivalence (@m_equiv W E A).
Proof. unfold m_equiv. apply _. Qed.

#[export] Instance m_bind_proper {W E A B} :
  Proper (m_equiv ==> pointwise_relation A m_equiv ==> m_equiv) (@m_bind W E A B).
Proof.
  intros m1 m2 Hm k1 k2 Hk w. unfold m_bind. rewrite (Hm w).
  destruct (m2 w) as [w' [a|e]]; [apply Hk|done].
Qed.

Lemma m_bind_ret_l {W E A B} (a : A) (k : A → M W E B) : m_bind (m_ret a) k ≡ₘ k a.
Proof. intros w. done. Qed.

Lemma m_bind_ret_r {W E A} (m : M W E A) : m_bind m m_ret ≡ₘ m.
Proof. intros w. cbn. destruct (m w) as [w' [a|e]]; done. Qed.

Lemma m_bind_assoc {W E A B C} (m : M W E A) (k : A → M W E B) (k' : B → M W E C) :
  m_bind (m_bind m k) k' ≡ₘ m_bind m (λ a, m_bind (k a) k').
Proof. intros w. cbn. destruct (m w) as [w' [a|e]]; done. Qed.

(** A sequence that answers: both parts did. *)
Lemma m_bind_ok {W E A B} (m : M W E A) (k : A → M W E B) s s' b :
  m_bind m k s = (s', Ok b) → ∃ s1 a, m s = (s1, Ok a) ∧ k a s1 = (s', Ok b).
Proof. unfold m_bind. destruct (m s) as [s1 [a|e]]; [eauto|done]. Qed.

Lemma m_for_app {W E A} (l1 l2 : list A) (f : A → M W E unit) :
  m_for (l1 ++ l2) f ≡ₘ m_bind (m_for l1 f) (λ _, m_for l2 f).
Proof.
  induction l1 as [|x l1 IH]; cbn [m_for app].
  - intros w. done.
  - rewrite m_bind_assoc. apply m_bind_proper; [done|]. intros []. exact IH.
Qed.

(** *** A program logic

    [keeps obs m]: whatever [m] answers, the part [obs] of the state is what it
    was.  [hoare P m Q R]: from a state that satisfies [P], [m] ends in one
    that satisfies [Q] with its answer, or [R] with its error. *)
Definition keeps {S O E A} (obs : S → O) (m : M S E A) : Prop := ∀ s, obs (m s).1 = obs s.
Definition hoare {S E A} (P : S → Prop) (m : M S E A) (Q : A → S → Prop) (R : E → S → Prop) : Prop :=
  ∀ s, P s → match m s with (s', Ok a) => Q a s' | (s', Err e) => R e s' end.

Section keeps.
Context {S O : Type} (obs : S → O).

Lemma keeps_ret {E A} (a : A) : keeps (E:=E) obs (m_ret a).
Proof. done. Qed.
Lemma keeps_fail {E A} (e : E) : keeps (A:=A) obs (m_fail e).
Proof. done. Qed.
Lemma keeps_lift {E A} (r : result E A) : keeps obs (m_lift r).
Proof. done. Qed.
Lemma keeps_bind {E A B} (m : M S E A) (k : A → M S E B) :
  keeps obs m → (∀ a, keeps obs (k a)) → keeps obs (m_bind m k).
Proof.
  intros Hm Hk s. unfold m_bind. specialize (Hm s). destruct (m s) as [s' [a|e]]; [|exact Hm].
  by rewrite Hk.
Qed.
Lemma keeps_map_err {E F A} (f : E → F) (m : M S E A) : keeps obs m → keeps obs (m_map_err f m).
Proof. intros Hm s. unfold m_map_err. specialize (Hm s). by destruct (m s). Qed.
Lemma keeps_try {E F A} (m : M S E A) : keeps obs m → keeps (E:=F) obs (m_try m).
Proof. intros Hm s. unfold m_try. specialize (Hm s). by destruct (m s). Qed.
Lemma keeps_if {E A} (b : bool) (m1 m2 : M S E A) :
  keeps obs m1 → keeps obs m2 → keeps obs (if b then m1 else m2).
Proof. by destruct b. Qed.
Lemma keeps_for {E A} (l : list A) (f : A → M S E unit) :
  Forall (λ a, keeps obs (f a)) l → keeps obs (m_for l f).
Proof. induction 1 as [|a l Ha _ IH]; [done|]. by apply keeps_bind. Qed.
End keeps.

Section hoare.
Context {S E : Type}.

Lemma hoare_ret {A} (a : A) (P : S → Prop) Q R : (∀ s, P s → Q a s) → hoare (E:=E) P (m_ret a) Q R.
Proof. intros H s Hs. by apply H. Qed.
Lemma hoare_lift {A} (r : result E A) (P : S → Prop) Q R :
  (∀ a s, r = Ok a → P s → Q a s) → (∀ e s, P s → R e s) → hoare P (m_lift r) Q R.
Proof. intros H1' H2' s Hs. cbn. destruct r; auto. Qed.
Lemma hoare_bind {A B} (m : M S E A) (k : A → M S E B) P Q' Q R :
  hoare P m Q' R → (∀ a, hoare (Q' a) (k a) Q R) → hoare P (m_bind m k) Q R.
Proof.
  intros Hm Hk s Hs. specialize (Hm s Hs). unfold m_bind. destruct (m s) as [s' [a|e]]; [|exact Hm].
  by apply Hk.
Qed.
Lemma hoare_conseq {A} (m : M S E A) (P' P : S → Prop) Q' Q R' R :
  hoare P' m Q' R' → (∀ s, P s → P' s) → (∀ a s, Q' a s → Q a s) → (∀ e s, R' e s → R e s) →
  hoare P m Q R.
Proof.
  intros Hm HP HQ HR s Hs. specialize (Hm s (HP s Hs)). destruct (m s) as [s' [a|e]]; auto.
Qed.
End hoare.

(** ** [Option] *)

Definition is_some_and {A} (o : option A) (p : A → bool) : bool :=
  match o with Some a => p a | None => false end.
Definition is_none_or {A} (o : option A) (p : A → bool) : bool :=
  match o with Some a => p a | None => true end.
Definition opt_filter {A} (p : A → bool) (o : option A) : option A :=
  match o with Some a => if p a then Some a else None | None => None end.
Definition or_else {A} (o1 o2 : option A) : option A :=
  match o1 with Some a => Some a | None => o2 end.
Definition is_some {A} (o : option A) : bool :=
  match o with Some _ => true | None => false end.
Definition is_none {A} (o : option A) : bool := negb (is_some o).

Definition filter_map {A B} (f : A → option B) : list A → list B := omap f.

(** ** Machine integers

    A [w]-bit integer is a [Z] in its range; a conversion that can fail
    ([try_from]) is an [option], a saturating operation clamps. *)
Definition u32_max : Z := 4294967295.
Definition i32_max : Z := 2147483647.
Definition u32_saturating_add (a b : Z) : Z := Z.min (a + b) u32_max.
Definition u32_saturating_sub (a b : Z) : Z := Z.max (a - b) 0.
Definition u8_try_from (z : Z) : option Z := if decide (0 ≤ z < 256) then Some z else None.
Definition u16_try_from (z : Z) : option Z := if decide (0 ≤ z < 65536) then Some z else None.
Definition u32_try_from (z : Z) : option Z := if decide (0 ≤ z ≤ u32_max) then Some z else None.
Definition u64_try_from (z : Z) : option Z := if decide (0 ≤ z < 2 ^ 64) then Some z else None.
(** [i64] arithmetic of a release build: two's complement wrap-around. *)
Definition i64_wrap (z : Z) : Z := (z + 2 ^ 63) mod 2 ^ 64 - 2 ^ 63.
Definition i32_try_from (z : Z) : option Z :=
  if decide (- 2147483648 ≤ z ≤ i32_max) then Some z else None.

(** ** [std::time::Duration]

    A duration is its number of nanoseconds, at most [u64::MAX] seconds and
    999999999 nanoseconds. *)
Abbreviation duration := Z (only parsing).
Definition nanos_per_sec : Z := 1000000000.
Definition duration_max : duration := (2 ^ 64 - 1) * nanos_per_sec + 999999999.
Definition from_secs (s : Z) : duration := s * nanos_per_sec.
Definition from_mins (m : Z) : duration := from_secs (m * 60).
Definition duration_saturating_mul (d : duration) (k : Z) : duration :=
  Z.min (d * k) duration_max.

(** ** [std::io::Error]

    An I/O error is its kind and its message; kinds the program never tests
    are numbered. *)
Inductive io_kind : Type :=
  | NotFound
  | PermissionDenied
  | AlreadyExists
  | AddrInUse
  | ConnectionAborted
  | InvalidInput
  | InvalidData
  | UnexpectedEof
  | WriteZero
  | OtherKind
  | Unlisted (n : nat).

#[export] Instance io_kind_eq_dec : EqDecision io_kind.
Proof. solve_decision. Defined.

Record io_error : Type := IoError { io_error_kind : io_kind; io_message : string }.

#[export] Instance io_error_eq_dec : EqDecision io_error.
Proof. solve_decision. Defined.

(** ** Automation *)

Create HintDb rust.
Create Rewrite HintDb rust.

(** Case analysis on the innermost [match] or [if] of the goal or of a
    hypothesis, keeping the equation. *)
Ltac break_match :=
  match goal with
  | |- context [match ?x with _ => _ end] =>
      lazymatch x with context [match _ with _ => _ end] => fail | _ => destruct x eqn:? end
  | H : context [match ?x with _ => _ end] |- _ =>
      lazymatch x with context [match _ with _ => _ end] => fail | _ => destruct x eqn:? end
  end.

Ltac break_all := repeat (break_match; simplify_eq/=).

(** Split boolean connectives in the context. *)
Ltac bool_hyps :=
  repeat match goal with
  | H : (_ && _)%bool = true |- _ => apply andb_true_iff in H as [? ?]
  | H : (_ || _)%bool = false |- _ => apply orb_false_iff in H as [? ?]
  | H : negb _ = true |- _ => apply negb_true_iff in H
  | H : negb _ = false |- _ => apply negb_false_iff in H
  | H : bool_decide _ = true |- _ => apply bool_decide_eq_true in H
  | H : bool_decide _ = false |- _ => apply bool_decide_eq_false in H
  end.

(** ** Generic lemmas *)

Lemma i64_wrap_small z : - 2 ^ 63 ≤ z < 2 ^ 63 → i64_wrap z = z.
Proof. intros H. unfold i64_wrap. rewrite Z.mod_small by lia. lia. Qed.

(** The clock correction of a wrapped difference is the wrapped sum. *)
Lemma i64_wrap_add_wrap a b : i64_wrap (a + i64_wrap b) = i64_wrap (a + b).
Proof.
  unfold i64_wrap. f_equal.
  replace (a + ((b + 2 ^ 63) mod 2 ^ 64 - 2 ^ 63) + 2 ^ 63) with (a + (b + 2 ^ 63) mod 2 ^ 64) by lia.
  rewrite Zplus_mod_idemp_r. f_equal. lia.
Qed.

Lemma filter_map_app {A B} (f : A → option B) (l1 l2 : list A) :
  filter_map f (l1 ++ l2) = filter_map f l1 ++ filter_map f l2.
Proof. apply omap_app. Qed.

Lemma is_some_true {A} (o : option A) : is_some o = true ↔ ∃ a, o = Some a.
Proof. destruct o; naive_solver. Qed.

#[export] Hint Rewrite @filter_map_app : rust.
#[export] Hint Resolve m_bind_ret_l m_bind_ret_r m_bind_assoc : rust.
#[export] Hint Resolve keeps_ret keeps_fail keeps_lift keeps_bind keeps_map_err keeps_try keeps_if keeps_for : rust.

Lemma NoDup_snoc {A} (l : list A) x : NoDup l → x ∉ l → NoDup (l ++ [x]).
Proof.
  intros Hl Hx. apply NoDup_app. split; [done|]. split; [|apply NoDup_singleton].
  intros y Hy Hyx. apply list_elem_of_singleton in Hyx. by subst.
Qed.

(** ** Stable sorting

    [slice::sort_by] with the comparison [le]: the stable sort, as insertion
    sort. *)
Fixpoint sort_insert {A} (le : A → A → bool) (x : A) (l : list A) : list A :=
  match l with
  | [] => [x]
  | y :: l' => if le x y then x :: y :: l' else y :: sort_insert le x l'
  end.
Definition sort_by {A} (le : A → A → bool) (l : list A) : list A := foldr (sort_insert le) [] l.

Section sort_by.
Context {A : Type} (le : A → A → bool).

Lemma sort_insert_perm x l : sort_insert le x l ≡ₚ x :: l.
Proof.
  induction l as [|y l IH]; cbn [sort_insert]; [done|]. destruct (le x y); [done|].
  rewrite IH. apply Permutation_swap.
Qed.

Lemma sort_by_perm l : sort_by le l ≡ₚ l.
Proof. induction l as [|x l IH]; [done|]. cbn [sort_by foldr]. rewrite sort_insert_perm. by constructor. Qed.

Lemma sort_by_length l : length (sort_by le l) = length l.
Proof. apply Permutation_length, sort_by_perm. Qed.

Lemma sort_by_elem x l : x ∈ sort_by le l ↔ x ∈ l.
Proof. by rewrite sort_by_perm. Qed.

Lemma sort_by_sorted l :
  (∀ x y, le x y = false → le y x = true) → (∀ x y z, le x y = true → le y z = true → le x z = true) →
  StronglySorted (λ x y, le x y = true) (sort_by le l).
Proof.
  intros Htot Htrans. induction l as [|x l IH]; [constructor|]. cbn [sort_by foldr].
  fold (sort_by le l). revert IH. generalize (sort_by le l). clear l. intros l.
  induction l as [|y l IHl]; intros Hs; cbn [sort_insert]; [repeat constructor|].
  inversion_clear Hs as [|? ? Hs' Hall]. destruct (le x y) eqn:Hxy.
  - constructor; [by constructor|]. constructor; [done|].
    eapply Forall_impl; [exact Hall|]. intros z Hz. by eapply Htrans.
  - constructor; [by apply IHl|]. rewrite sort_insert_perm. constructor; [by apply Htot|done].
Qed.

(** Stability: elements that compare equal keep their order. *)
Lemma sort_by_stable (p : A → bool) l :
  (∀ x y, p x = true → p y = true → le x y = true) →
  List.filter p (sort_by le l) = List.filter p l.
Proof.
  intros Hp. induction l as [|x l IH]; [done|]. cbn [sort_by foldr]. fold (sort_by le l).
  cbn [List.filter]. rewrite <- IH. generalize (sort_by le l). clear IH l. intros l.
  induction l as [|y l IHl]; cbn [sort_insert List.filter]; [done|].
  destruct (le x y) eqn:Hxy; cbn [List.filter]; [done|]. rewrite IHl.
  destruct (p x) eqn:Hx, (p y) eqn:Hy; try done. by rewrite Hp in Hxy.
Qed.
End sort_by.
#[export] Hint Rewrite @sort_by_length : rust.
#[export] Hint Resolve sort_by_perm : rust.
