(* ===== verification/RustStr.v ===== *)
(** * Rust strings

    A Rust [String] is the Rocq [string] of its UTF-8 bytes, so equality,
    [is_empty], prefixes, suffixes and ASCII case mapping are exact.  This
    file translates the [str] methods the program calls, with the lemmas the
    components share; nothing in it is code of the repository. *)

From S2P Require Import Prelude.
From Stdlib Require Export Ascii.
From Stdlib Require Import String.

#[global] Open Scope string_scope.
#[global] Open Scope list_scope.
#[global] Open Scope Z_scope.
#[global] Open Scope rust_scope.

Definition bytes_of (s : string) : list ascii := list_ascii_of_string s.
Definition of_bytes (l : list ascii) : string := string_of_list_ascii l.

(** [str::is_empty]. *)
Definition str_is_empty (s : string) : bool :=
  match s with EmptyString => true | String _ _ => false end.

(** The code of a byte. *)
Definition code (c : ascii) : Z := Z.of_nat (nat_of_ascii c).

(** [char::is_ascii_uppercase], [is_ascii_digit]. *)
Definition is_ascii_upper (c : ascii) : bool := (65 <=? code c) && (code c <=? 90).
Definition is_ascii_digit (c : ascii) : bool := (48 <=? code c) && (code c <=? 57).
Definition is_ascii (s : string) : bool := forallb (λ c, code c <? 128) (bytes_of s).

(** [str::to_ascii_lowercase]. *)
Definition lower (c : ascii) : ascii :=
  if is_ascii_upper c then ascii_of_nat (nat_of_ascii c + 32) else c.
Definition to_ascii_lowercase (s : string) : string := of_bytes (map lower (bytes_of s)).

(** [str::eq_ignore_ascii_case]. *)
Definition eq_ignore_ascii_case (s t : string) : bool :=
  bool_decide (to_ascii_lowercase s = to_ascii_lowercase t).

(** [str::strip_prefix], [strip_suffix], [starts_with], [ends_with]. *)
Fixpoint strip_prefix (p s : string) : option string :=
  match p, s with
  | EmptyString, _ => Some s
  | String a p', String b s' => if Ascii.eqb a b then strip_prefix p' s' else None
  | String _ _, EmptyString => None
  end.
Definition str_rev (s : string) : string := of_bytes (rev (bytes_of s)).
Definition strip_suffix (p s : string) : option string :=
  str_rev <$> strip_prefix (str_rev p) (str_rev s).
Definition starts_with (s p : string) : bool := is_some (strip_prefix p s).
Definition ends_with (s p : string) : bool := is_some (strip_suffix p s).

(** [str::contains]. *)
Fixpoint contains (s p : string) : bool :=
  starts_with s p ||
  match s with EmptyString => false | String _ s' => contains s' p end.
Definition contains_char (s : string) (c : ascii) : bool :=
  existsb (Ascii.eqb c) (bytes_of s).

(** [str::split(c)]: never empty. *)
Fixpoint split_bytes (c : ascii) (l : list ascii) : list (list ascii) :=
  match l with
  | [] => [[]]
  | a :: l' =>
      match split_bytes c l' with
      | [] => [[a]]
      | w :: ws => if Ascii.eqb a c then [] :: w :: ws else (a :: w) :: ws
      end
  end.
Definition split (c : ascii) (s : string) : list string := map of_bytes (split_bytes c (bytes_of s)).

(** [str::split_once(c)]. *)
Fixpoint split_once (c : ascii) (s : string) : option (string * string) :=
  match s with
  | EmptyString => None
  | String a s' =>
      if Ascii.eqb a c then Some (EmptyString, s')
      else prod_map (String a) id <$> split_once c s'
  end.

(** [slice::join(sep)]. *)
Fixpoint join (sep : string) (l : list string) : string :=
  match l with
  | [] => ""
  | [s] => s
  | s :: l' => s +:+ sep +:+ join sep l'
  end.

(** ** [str::trim]

    The characters with the Unicode property [White_Space], by their UTF-8
    encodings of one, two and three bytes. *)
Definition ws1 (a : ascii) : bool :=
  ((9 <=? code a) && (code a <=? 13)) || (code a =? 32).
Definition ws2 (a b : ascii) : bool :=
  (code a =? 194) && ((code b =? 133) || (code b =? 160)).
Definition ws3 (a b c : ascii) : bool :=
  ((code a =? 225) && (code b =? 154) && (code c =? 128))
  || ((code a =? 226) && (code b =? 128)
      && (((128 <=? code c) && (code c <=? 138))
          || (code c =? 168) || (code c =? 169) || (code c =? 175)))
  || ((code a =? 226) && (code b =? 129) && (code c =? 159))
  || ((code a =? 227) && (code b =? 128) && (code c =? 128)).

Fixpoint trim_start_bytes (l : list ascii) : list ascii :=
  match l with
  | [] => []
  | a :: l1 =>
      if ws1 a then trim_start_bytes l1
      else match l1 with
           | [] => l
           | b :: l2 =>
               if ws2 a b then trim_start_bytes l2
               else match l2 with
                    | [] => l
                    | c :: l3 => if ws3 a b c then trim_start_bytes l3 else l
                    end
           end
  end.
(** From the end the encodings are read backwards. *)
Fixpoint trim_end_rev (l : list ascii) : list ascii :=
  match l with
  | [] => []
  | c :: l1 =>
      if ws1 c then trim_end_rev l1
      else match l1 with
           | [] => l
           | b :: l2 =>
               if ws2 b c then trim_end_rev l2
               else match l2 with
                    | [] => l
                    | a :: l3 => if ws3 a b c then trim_end_rev l3 else l
                    end
           end
  end.
Definition trim (s : string) : string :=
  of_bytes (rev (trim_end_rev (rev (trim_start_bytes (bytes_of s))))).

(** [trim_start_matches(c)], [trim_end_matches(c)]. *)
Fixpoint drop_while_byte (c : ascii) (l : list ascii) : list ascii :=
  match l with
  | a :: l' => if Ascii.eqb a c then drop_while_byte c l' else l
  | [] => []
  end.
Definition trim_start_matches (c : ascii) (s : string) : string :=
  of_bytes (drop_while_byte c (bytes_of s)).
Definition trim_end_matches (c : ascii) (s : string) : string :=
  of_bytes (rev (drop_while_byte c (rev (bytes_of s)))).

(** The filter [!s.trim().is_empty()] of the option chains of the program. *)
Definition non_blank (s : string) : bool := negb (str_is_empty (trim s)).

(** [u8], [u16] ... in decimal ([to_string]). *)
Fixpoint digits_of (fuel : nat) (n : Z) : list ascii :=
  match fuel with
  | O => []
  | S f =>
      let d := ascii_of_nat (48 + Z.to_nat (n mod 10)) in
      if n <? 10 then [d] else digits_of f (n / 10) ++ [d]
  end.
Definition show_nat (n : Z) : string := of_bytes (digits_of 20 n).
Definition show_int (n : Z) : string :=
  if n <? 0 then "-" +:+ show_nat (- n) else show_nat n.

(** ** Lemmas *)

Lemma of_bytes_of s : of_bytes (bytes_of s) = s.
Proof. apply string_of_list_ascii_of_string. Qed.
Lemma bytes_of_of l : bytes_of (of_bytes l) = l.
Proof. apply list_ascii_of_string_of_list_ascii. Qed.
#[export] Hint Rewrite of_bytes_of bytes_of_of : rust.

(** stdpp keeps [String.append] folded; its two equations. *)
Lemma append_nil t : "" +:+ t = t.
Proof. done. Qed.
Lemma append_cons a s t : String a s +:+ t = String a (s +:+ t).
Proof. done. Qed.
#[export] Hint Rewrite append_nil append_cons : rust.

Lemma bytes_of_app s t : bytes_of (s +:+ t) = bytes_of s ++ bytes_of t.
Proof.
  induction s as [|a s IH]; [done|].
  change (a :: bytes_of (s +:+ t) = a :: (bytes_of s ++ bytes_of t)). by rewrite IH.
Qed.
#[export] Hint Rewrite bytes_of_app : rust.

Lemma bytes_of_inj s t : bytes_of s = bytes_of t → s = t.
Proof. intros H. rewrite <- (of_bytes_of s), <- (of_bytes_of t). by rewrite H. Qed.

Lemma strip_prefix_spec p s t : strip_prefix p s = Some t ↔ s = p +:+ t.
Proof.
  revert s. induction p as [|a p IH]; intros s.
  { rewrite append_nil. cbn. split; congruence. }
  rewrite append_cons. destruct s as [|b s]; cbn; [done|].
  destruct (Ascii.eqb_spec a b) as [->|Hne].
  - rewrite IH. split; [by intros ->|by intros [= ->]].
  - split; [done|]. intros [= ? ?]. congruence.
Qed.

Lemma strip_suffix_spec p s t : strip_suffix p s = Some t ↔ s = t +:+ p.
Proof.
  unfold strip_suffix. rewrite fmap_Some. split.
  - intros (u & Hu & ->). apply strip_prefix_spec in Hu.
    apply (f_equal bytes_of) in Hu. unfold str_rev in *.
    autorewrite with rust in Hu. apply bytes_of_inj. autorewrite with rust.
    apply (f_equal (@rev _)) in Hu. rewrite rev_app_distr, !rev_involutive in Hu. done.
  - intros ->. exists (str_rev t). unfold str_rev. autorewrite with rust.
    rewrite rev_involutive, of_bytes_of. split; [|done]. apply strip_prefix_spec.
    apply bytes_of_inj. autorewrite with rust. by rewrite rev_app_distr.
Qed.

Lemma starts_with_spec s p : starts_with s p = true ↔ ∃ t, s = p +:+ t.
Proof.
  unfold starts_with. rewrite is_some_true. by setoid_rewrite strip_prefix_spec.
Qed.

Lemma ends_with_spec s p : ends_with s p = true ↔ ∃ t, s = t +:+ p.
Proof.
  unfold ends_with. rewrite is_some_true. by setoid_rewrite strip_suffix_spec.
Qed.

Lemma lower_idemp c : lower (lower c) = lower c.
Proof. destruct c as [[] [] [] [] [] [] [] []]; reflexivity. Qed.

Lemma to_ascii_lowercase_idemp s :
  to_ascii_lowercase (to_ascii_lowercase s) = to_ascii_lowercase s.
Proof.
  unfold to_ascii_lowercase. autorewrite with rust. f_equal. rewrite map_map.
  apply map_ext. apply lower_idemp.
Qed.
#[export] Hint Rewrite to_ascii_lowercase_idemp : rust.

Lemma str_is_empty_true s : str_is_empty s = true ↔ s = "".
Proof. destruct s; split; done. Qed.

(** [trim] leaves nothing to trim at the start. *)
Lemma trim_start_bytes_suffix l : ∃ k, l = k ++ trim_start_bytes l.
Proof.
  induction l as [l IH] using (induction_ltof1 _ (@List.length ascii)); unfold ltof in IH.
  destruct l as [|a l1]; [by exists []|]. cbn [trim_start_bytes].
  destruct (ws1 a).
  { destruct (IH l1) as [k Hk]; [cbn; lia|]. exists (a :: k). cbn. by f_equal. }
  destruct l1 as [|b l2]; [by exists []|]. destruct (ws2 a b).
  { destruct (IH l2) as [k Hk]; [cbn; lia|]. exists (a :: b :: k). cbn. by do 2 f_equal. }
  destruct l2 as [|c l3]; [by exists []|]. destruct (ws3 a b c).
  { destruct (IH l3) as [k Hk]; [cbn; lia|]. exists (a :: b :: c :: k). cbn. by do 3 f_equal. }
  by exists [].
Qed.

Lemma trim_end_rev_suffix l : ∃ k, l = k ++ trim_end_rev l.
Proof.
  induction l as [l IH] using (induction_ltof1 _ (@List.length ascii)); unfold ltof in IH.
  destruct l as [|a l1]; [by exists []|]. cbn [trim_end_rev].
  destruct (ws1 a).
  { destruct (IH l1) as [k Hk]; [cbn; lia|]. exists (a :: k). cbn. by f_equal. }
  destruct l1 as [|b l2]; [by exists []|]. destruct (ws2 b a).
  { destruct (IH l2) as [k Hk]; [cbn; lia|]. exists (a :: b :: k). cbn. by do 2 f_equal. }
  destruct l2 as [|c l3]; [by exists []|]. destruct (ws3 c b a).
  { destruct (IH l3) as [k Hk]; [cbn; lia|]. exists (a :: b :: c :: k). cbn. by do 3 f_equal. }
  by exists [].
Qed.

(** A text that does not start with white space. *)
Definition starts_solid (l : list ascii) : bool :=
  match l with
  | [] => true
  | a :: l1 => negb (ws1 a) && match l1 with
      | [] => true
      | b :: l2 => negb (ws2 a b) && match l2 with [] => true | c :: _ => negb (ws3 a b c) end
      end
  end.
Lemma starts_solid_trim l : starts_solid l = true → trim_start_bytes l = l.
Proof.
  destruct l as [|a [|b [|c l]]]; cbn; [done|by destruct (ws1 a)|by destruct (ws1 a), (ws2 a b)|].
  by destruct (ws1 a), (ws2 a b), (ws3 a b c).
Qed.
Lemma trim_starts_solid l : starts_solid (trim_start_bytes l) = true.
Proof.
  induction l as [l IH] using (induction_ltof1 _ (@List.length ascii)); unfold ltof in IH.
  destruct l as [|a l1]; [done|]. cbn [trim_start_bytes].
  destruct (ws1 a) eqn:H1; [apply IH; cbn; lia|]. destruct l1 as [|b l2]; [cbn; by rewrite H1|].
  destruct (ws2 a b) eqn:H2; [apply IH; cbn; lia|]. destruct l2 as [|c l3]; [cbn; by rewrite H1, H2|].
  destruct (ws3 a b c) eqn:H3; [apply IH; cbn; lia|]. cbn. by rewrite H1, H2, H3.
Qed.
Lemma starts_solid_prefix p q : starts_solid (p ++ q) = true → starts_solid p = true.
Proof.
  destruct p as [|a [|b [|c p]]]; cbn; [done| | |done]; rewrite !andb_true_iff; tauto.
Qed.
Lemma trim_end_rev_idemp l : trim_end_rev (trim_end_rev l) = trim_end_rev l.
Proof.
  induction l as [l IH] using (induction_ltof1 _ (@List.length ascii)); unfold ltof in IH.
  destruct l as [|a l1]; [done|]. cbn [trim_end_rev].
  destruct (ws1 a) eqn:H1; [apply IH; cbn; lia|]. destruct l1 as [|b l2]; [cbn; by rewrite H1|].
  destruct (ws2 b a) eqn:H2; [apply IH; cbn; lia|]. destruct l2 as [|c l3]; [cbn; by rewrite H1, H2|].
  destruct (ws3 c b a) eqn:H3; [apply IH; cbn; lia|]. cbn. by rewrite H1, H2, H3.
Qed.

(** Trimming twice is trimming once. *)
Lemma trim_idemp s : trim (trim s) = trim s.
Proof.
  unfold trim. rewrite bytes_of_of. f_equal.
  pose proof (trim_starts_solid (bytes_of s)) as Hs. set (l := trim_start_bytes (bytes_of s)) in *. clearbody l.
  destruct (trim_end_rev_suffix (rev l)) as [k Hk]. set (r := trim_end_rev (rev l)) in *.
  assert (Hl : l = rev r ++ rev k) by (rewrite <- rev_app_distr, <- Hk; symmetry; apply rev_involutive).
  rewrite Hl in Hs. apply starts_solid_prefix, starts_solid_trim in Hs. rewrite Hs, rev_involutive.
  unfold r. by rewrite trim_end_rev_idemp.
Qed.
#[export] Hint Rewrite trim_idemp : rust.


