(* ===== verification/Net.v ===== *)
(** * Internet addresses ([std::net])

    Addresses as numbers of their width, the classification predicates and the
    textual form of the Rust standard library.  The parser follows the
    grammar [IpAddr::from_str] accepts: dotted quads without leading zeros,
    and IPv6 groups with one [::] and an optional embedded IPv4 tail. *)

From S2P Require Import Prelude RustStr.

(** [V4 a] with [0 ≤ a < 2^32], [V6 a] with [0 ≤ a < 2^128]. *)
Inductive IpAddr : Type := V4 (a : Z) | V6 (a : Z).

#[export] Instance IpAddr_eq_dec : EqDecision IpAddr.
Proof. solve_decision. Defined.

Definition ip_wf (ip : IpAddr) : Prop :=
  match ip with V4 a => 0 ≤ a < 2 ^ 32 | V6 a => 0 ≤ a < 2 ^ 128 end.

(** [scope] is the scope id of an IPv6 socket address, 0 otherwise. *)
Record SocketAddr : Type := { ip : IpAddr; port : Z; scope : Z }.
(** [SocketAddr::new], [SocketAddr::from((ip, port))]. *)
Definition sock (i : IpAddr) (p : Z) : SocketAddr := {| ip := i; port := p; scope := 0 |}.

#[export] Instance SocketAddr_eq_dec : EqDecision SocketAddr.
Proof. solve_decision. Defined.

Definition is_ipv4 (i : IpAddr) : bool := match i with V4 _ => true | V6 _ => false end.

(** The octets of an IPv4 address and the segments of an IPv6 address. *)
Definition octet (a : Z) (i : Z) : Z := Z.land (Z.shiftr a (8 * (3 - i))) 255.
Definition segment (a : Z) (i : Z) : Z := Z.land (Z.shiftr a (16 * (7 - i))) 65535.

Definition v4 (a b c d : Z) : Z := ((a * 256 + b) * 256 + c) * 256 + d.

(** [Ipv4Addr::is_loopback] ... [is_broadcast]. *)
Definition v4_is_loopback (a : Z) : bool := octet a 0 =? 127.
Definition v4_is_link_local (a : Z) : bool := (octet a 0 =? 169) && (octet a 1 =? 254).
Definition v4_is_multicast (a : Z) : bool := (224 <=? octet a 0) && (octet a 0 <=? 239).
Definition v4_is_unspecified (a : Z) : bool := a =? 0.
Definition v4_is_broadcast (a : Z) : bool := a =? 4294967295.

(** [Ipv6Addr::is_loopback], [is_multicast], [is_unspecified]. *)
Definition v6_is_loopback (a : Z) : bool := a =? 1.
Definition v6_is_multicast (a : Z) : bool := Z.land (segment a 0) 65280 =? 65280.
Definition v6_is_unspecified (a : Z) : bool := a =? 0.

(** [IpAddr::is_loopback], [IpAddr::is_unspecified]. *)
Definition ip_is_loopback (i : IpAddr) : bool :=
  match i with V4 a => v4_is_loopback a | V6 a => v6_is_loopback a end.
Definition ip_is_unspecified (i : IpAddr) : bool :=
  match i with V4 a => v4_is_unspecified a | V6 a => v6_is_unspecified a end.

(** ** Parsing *)

Definition hex_digit (c : ascii) : option Z :=
  let z := code c in
  if (48 <=? z) && (z <=? 57) then Some (z - 48)
  else if (97 <=? z) && (z <=? 102) then Some (z - 87)
  else if (65 <=? z) && (z <=? 70) then Some (z - 55)
  else None.
Definition radix_digit (radix : Z) (c : ascii) : option Z :=
  opt_filter (λ d, d <? radix) (hex_digit c).

(** The longest run of digits at the start, at most [fuel + 1] of them, as its
    value and its number of digits. *)
Fixpoint take_digits (fuel : nat) (radix acc n : Z) (l : list ascii) : Z * Z * list ascii :=
  match l with
  | [] => (acc, n, [])
  | c :: l' =>
      match radix_digit radix c with
      | None => (acc, n, l)
      | Some d =>
          match fuel with
          | O => (acc * radix + d, n + 1, l')
          | S f => take_digits f radix (acc * radix + d) (n + 1) l'
          end
      end
  end.

(** [Parser::read_number]: at least one digit and at most [maxd], the value at
    most [bound], and no leading zero unless [zero_prefix]. *)
Definition read_number (radix : Z) (maxd : nat) (bound : Z) (zero_prefix : bool) (l : list ascii) :
    option (Z * list ascii) :=
  let '(v, n, rest) := take_digits maxd radix 0 0 l in
  if (n =? 0) || (Z.of_nat maxd <? n) || (bound <? v) then None
  else if negb zero_prefix && (1 <? n)
       && match l with c :: _ => Ascii.eqb c "0"%char | [] => false end then None
  else Some (v, rest).

Definition read_char (c : ascii) (l : list ascii) : option (list ascii) :=
  match l with a :: l' => if Ascii.eqb a c then Some l' else None | [] => None end.

Definition read_ipv4 (l : list ascii) : option (Z * list ascii) :=
  '(a, l) ← read_number 10 3 255 false l; l ← read_char "." l;
  '(b, l) ← read_number 10 3 255 false l; l ← read_char "." l;
  '(c, l) ← read_number 10 3 255 false l; l ← read_char "." l;
  '(d, l) ← read_number 10 3 255 false l;
  Some (v4 a b c d, l).

(** Read a separator unless this is the first group. *)
Definition read_sep (first : bool) (l : list ascii) : option (list ascii) :=
  if first then Some l else read_char ":" l.

(** [read_groups]: up to [limit] groups; an IPv4 address may stand for the last
    two.  The groups read, whether they end in an IPv4 address, and the rest. *)
Fixpoint read_groups (limit : nat) (first : bool) (l : list ascii) :
    list Z * bool * list ascii :=
  match limit with
  | O => ([], false, l)
  | S limit' =>
      let embedded :=
        match limit' with
        | O => None
        | S _ => l1 ← read_sep first l; read_ipv4 l1
        end in
      match embedded with
      | Some (a, rest) => ([Z.shiftr a 16; Z.land a 65535], true, rest)
      | None =>
          match (l1 ← read_sep first l; read_number 16 4 65535 true l1) with
          | Some (g, rest) =>
              let '(gs, v4_tail, rest') := read_groups limit' false rest in
              (g :: gs, v4_tail, rest')
          | None => ([], false, l)
          end
      end
  end.

Definition of_groups (gs : list Z) : Z := foldl (λ acc g, acc * 65536 + g) 0 gs.

Definition read_ipv6 (l : list ascii) : option (Z * list ascii) :=
  let '(head, head_v4, l) := read_groups 8 true l in
  if (length head =? 8)%nat then Some (of_groups head, l)
  else if head_v4 then None
  else
    l ← read_char ":" l; l ← read_char ":" l;
    let '(tail, _, l) := read_groups (7 - length head) true l in
    Some (of_groups (head ++ replicate (8 - length head - length tail) 0 ++ tail), l).

Definition all_read {A} (r : option (A * list ascii)) : option A :=
  match r with Some (a, []) => Some a | _ => None end.

(** [s.parse::<Ipv4Addr>()], [parse::<Ipv6Addr>()], [parse::<IpAddr>()]. *)
Definition parse_ipv4 (s : string) : option Z := all_read (read_ipv4 (bytes_of s)).
Definition parse_ipv6 (s : string) : option Z := all_read (read_ipv6 (bytes_of s)).
Definition parse_ip (s : string) : option IpAddr :=
  match parse_ipv4 s with Some a => Some (V4 a) | None => V6 <$> parse_ipv6 s end.

(** A non-empty run of decimal digits with a value up to [bound]. *)
Definition parse_digits (bound : Z) (l : list ascii) : option Z :=
  match l with
  | [] => None
  | _ =>
      foldl (λ acc c, acc ← acc; d ← radix_digit 10 c;
                      opt_filter (λ v, v <=? bound) (Some (acc * 10 + d)))
            (Some 0) l
  end.

(** [s.parse::<u16>()] and the like: an optional [+], digits, in range. *)
Definition parse_uint (bound : Z) (s : string) : option Z :=
  match bytes_of s with
  | (c :: (_ :: _)) as l => parse_digits bound (if Ascii.eqb c "+"%char then List.tl l else l)
  | l => parse_digits bound l
  end.
(** [s.parse::<i32>()]. *)
Definition parse_i32 (s : string) : option Z :=
  match bytes_of s with
  | c :: l => if Ascii.eqb c "-"%char then Z.opp <$> parse_digits 2147483648 l
              else parse_uint i32_max s
  | [] => None
  end.
Definition parse_u16 (s : string) : option Z := parse_uint 65535 s.

(** [s.parse::<SocketAddr>()]: [a.b.c.d:p], [[v6]:p] or [[v6%scope]:p]. *)
Definition read_port (l : list ascii) : option (Z * list ascii) :=
  l ← read_char ":" l; read_number 10 (length l) 65535 true l.
Definition read_scope_id (l : list ascii) : Z * list ascii :=
  match (l ← read_char "%" l; read_number 10 (length l) u32_max true l) with
  | Some (z, rest) => (z, rest)
  | None => (0, l)
  end.
Definition parse_socket_addr (s : string) : option SocketAddr :=
  let l := bytes_of s in
  match all_read ('(a, l1) ← read_ipv4 l; '(p, l2) ← read_port l1; Some ((a, p), l2)) with
  | Some (a, p) => Some (sock (V4 a) p)
  | None =>
      all_read (l1 ← read_char "[" l; '(a, l2) ← read_ipv6 l1;
                let '(z, l3) := read_scope_id l2 in
                l4 ← read_char "]" l3; '(p, l5) ← read_port l4;
                Some ({| ip := V6 a; port := p; scope := z |}, l5))
  end.

(** [Ipv4Addr::to_string]. *)
Definition show_ipv4 (a : Z) : string :=
  join "." (map show_nat [octet a 0; octet a 1; octet a 2; octet a 3]).

Example parse_examples :
  parse_ip "127.0.0.53" = Some (V4 (v4 127 0 0 53)) ∧
  parse_ip "01.2.3.4" = None ∧ parse_ip "1.2.3.256" = None ∧
  parse_ip "::1" = Some (V6 1) ∧ parse_ip "fe80::1" = Some (V6 (65152 * 2 ^ 112 + 1)) ∧
  parse_ip "::ffff:1.2.3.4" = Some (V6 (65535 * 2 ^ 32 + v4 1 2 3 4)) ∧
  parse_ip "1:2:3:4:5:6:7:8:9" = None ∧ parse_ip "1::2::3" = None ∧
  parse_socket_addr "[::1]:0053" = Some (sock (V6 1) 53) ∧
  parse_u16 "5353" = Some 5353 ∧ parse_u16 "+7" = Some 7 ∧ parse_u16 "+" = None ∧
  parse_u16 "65536" = None ∧ parse_i32 "-12" = Some (-12).
Proof. repeat split; vm_compute; done. Qed.

(** ** Lemmas *)

Lemma octet0_range a : 0 ≤ a < 2 ^ 32 → octet a 0 = a / 2 ^ 24.
Proof.
  intros Ha. unfold octet. change (8 * (3 - 0)) with 24.
  rewrite Z.shiftr_div_pow2 by lia. change 255 with (Z.ones 8).
  rewrite Z.land_ones by lia. apply Z.mod_small.
  split; [apply Z.div_pos; lia|]. apply Z.div_lt_upper_bound; lia.
Qed.

Lemma octet1_mod a : 0 ≤ a < 2 ^ 32 → octet a 1 = (a / 2 ^ 16) mod 2 ^ 8.
Proof.
  intros Ha. unfold octet. change (8 * (3 - 1)) with 16.
  rewrite Z.shiftr_div_pow2 by lia. change 255 with (Z.ones 8). by rewrite Z.land_ones by lia.
Qed.

Lemma segment0_range a : 0 ≤ a < 2 ^ 128 → segment a 0 = a / 2 ^ 112.
Proof.
  intros Ha. unfold segment. change (16 * (7 - 0)) with 112.
  rewrite Z.shiftr_div_pow2 by lia. change 65535 with (Z.ones 16).
  rewrite Z.land_ones by lia. apply Z.mod_small.
  split; [apply Z.div_pos; lia|]. apply Z.div_lt_upper_bound; lia.
Qed.

(** Masking the low bits off a segment compares its high bits. *)
Lemma land_high_mask s k : 0 ≤ s < 2 ^ 16 → 0 ≤ k ≤ 16 →
  Z.land s (Z.shiftl (Z.ones (16 - k)) k) = (s / 2 ^ k) * 2 ^ k.
Proof.
  intros Hs Hk. rewrite <- Z.shiftl_mul_pow2, <- Z.shiftr_div_pow2 by lia.
  apply Z.bits_inj'. intros n Hn. rewrite Z.land_spec, !Z.shiftl_spec by lia.
  destruct (Z.ltb_spec n k) as [Hlt|Hge].
  - rewrite !(Z.testbit_neg_r _ (n - k)) by lia. apply andb_false_r.
  - rewrite Z.shiftr_spec by lia. replace (n - k + k) with n by lia.
    destruct (Z.ltb_spec n 16) as [Hlt|Hge'].
    + rewrite Z.ones_spec_low by lia. apply andb_true_r.
    + rewrite Z.ones_spec_high by lia. rewrite andb_false_r.
      symmetry. apply (Z.testbit_false); [lia|].
      rewrite Z.div_small; [done|]. split; [lia|].
      assert (2 ^ 16 ≤ 2 ^ n) by (apply Z.pow_le_mono_r; lia). lia.
Qed.

Lemma foldl_parse_bound bound l acc v :
  0 ≤ bound →
  (∀ a, acc = Some a → 0 ≤ a ≤ bound) →
  foldl (λ acc c, acc ← acc; d ← radix_digit 10 c;
                  opt_filter (λ v, v <=? bound) (Some (acc * 10 + d))) acc l = Some v →
  0 ≤ v ≤ bound.
Proof.
  intros Hb. revert acc. induction l as [|c l IH]; intros acc Hacc Hv; cbn [foldl] in Hv; [eauto|].
  eapply IH; [|exact Hv]. intros a1 Ha. destruct acc as [a0|]; [|done].
  specialize (Hacc a0 eq_refl). cbn in Ha.
  destruct (radix_digit 10 c) as [d|] eqn:Hd; [|done]. cbn in Ha.
  assert (0 ≤ d).
  { unfold radix_digit, hex_digit in Hd.
    repeat (case_match; cbn in *; simplify_eq; bool_hyps); lia. }
  destruct (Z.leb_spec (a0 * 10 + d) bound); simplify_eq; lia.
Qed.

Lemma parse_digits_bound bound l v : 0 ≤ bound → parse_digits bound l = Some v → 0 ≤ v ≤ bound.
Proof.
  intros Hb. destruct l as [|c l]; [done|].
  apply foldl_parse_bound; [done|]. intros ? [= <-]. lia.
Qed.

Lemma parse_uint_bound bound s v : 0 ≤ bound → parse_uint bound s = Some v → 0 ≤ v ≤ bound.
Proof.
  intros Hb. unfold parse_uint.
  destruct (bytes_of s) as [|c [|c' l]]; by apply parse_digits_bound.
Qed.

Lemma parse_i32_bound s v : parse_i32 s = Some v → - 2147483648 ≤ v ≤ i32_max.
Proof.
  unfold parse_i32. destruct (bytes_of s) as [|c l]; [done|]. destruct (Ascii.eqb c _).
  - intros Hv. apply fmap_Some in Hv as (x & Hx & ->). apply parse_digits_bound in Hx; [|lia].
    unfold i32_max. lia.
  - intros Hv. apply parse_uint_bound in Hv; unfold i32_max in *; lia.
Qed.

(** ** Addresses that are read are well-formed *)

(** The fields of a socket address are in the range of their types. *)
Definition sock_wf (a : SocketAddr) : Prop :=
  ip_wf (ip a) ∧ 0 ≤ port a < 65536 ∧ 0 ≤ scope a ≤ u32_max.

Lemma radix_digit_nonneg r c d : radix_digit r c = Some d → 0 ≤ d.
Proof.
  unfold radix_digit, hex_digit. intros Hd.
  repeat (case_match; cbn in *; simplify_eq; bool_hyps); lia.
Qed.

Lemma take_digits_nonneg fuel r acc n l : 0 ≤ r → 0 ≤ acc → 0 ≤ (take_digits fuel r acc n l).1.1.
Proof.
  intros Hr. revert fuel acc n. induction l as [|c l IH]; intros fuel acc n Ha.
  { by destruct fuel. }
  destruct fuel as [|fuel]; cbn [take_digits];
    destruct (radix_digit r c) as [d|] eqn:Hd; try done; apply radix_digit_nonneg in Hd; cbn; [nia|].
  apply IH. nia.
Qed.

Lemma read_number_bound r maxd bound z l v rest :
  0 ≤ r → read_number r maxd bound z l = Some (v, rest) → 0 ≤ v ≤ bound.
Proof.
  intros Hr. unfold read_number. pose proof (take_digits_nonneg maxd r 0 0 l Hr) as Hn.
  destruct (take_digits maxd r 0 0 l) as [[v' n] rest']. cbn in Hn.
  destruct (_ || _)%bool eqn:Hc; [done|]. destruct (_ && _)%bool; [done|]. intros [= <- _].
  bool_hyps. lia.
Qed.

Lemma read_ipv4_bound l a rest : read_ipv4 l = Some (a, rest) → 0 ≤ a < 2 ^ 32.
Proof.
  unfold read_ipv4. intros Ha.
  repeat match type of Ha with
  | (mbind _ (read_number ?r ?m ?b ?z ?l) = _) =>
      let E := fresh "E" in destruct (read_number r m b z l) as [[? ?]|] eqn:E; cbn [mbind option_bind] in Ha; [|done];
      apply read_number_bound in E; [|lia]
  | (mbind _ (read_char ?c ?l) = _) => destruct (read_char c l); cbn [mbind option_bind] in Ha; [|done]
  end.
  injection Ha as <- _. unfold v4. lia.
Qed.

Lemma read_groups_bound limit first l gs b rest :
  read_groups limit first l = (gs, b, rest) →
  Forall (λ g, 0 ≤ g < 65536) gs ∧ (length gs ≤ limit)%nat.
Proof.
  revert first l gs b rest. induction limit as [|limit IH]; intros first l gs b rest; cbn [read_groups].
  { intros [= <- _ _]. split; [constructor|cbn; lia]. }
  destruct (match limit with O => None | S _ => _ end) as [[a rest0]|] eqn:Hemb.
  - intros [= <- _ _]. destruct limit as [|limit]; [done|].
    destruct (read_sep first l) as [l1|]; [|done]. cbn in Hemb. apply read_ipv4_bound in Hemb.
    split; [|cbn; lia]. repeat constructor.
    + apply Z.shiftr_nonneg. lia.
    + rewrite Z.shiftr_div_pow2 by lia. apply Z.div_lt_upper_bound; lia.
    + apply Z.land_nonneg. lia.
    + change 65535 with (Z.ones 16). rewrite Z.land_ones by lia. apply Z.mod_pos_bound. lia.
  - destruct (l1 ← read_sep first l; read_number 16 4 65535 true l1) as [[g rest1]|] eqn:Hg.
    2:{ intros [= <- _ _]. split; [constructor|cbn; lia]. }
    destruct (read_groups limit false rest1) as [[gs' b'] rest'] eqn:Hr. intros [= <- _ _].
    apply IH in Hr as [Hall Hlen]. split; [|cbn; lia]. constructor; [|done].
    destruct (read_sep first l) as [l1|]; [|done]. cbn in Hg. apply read_number_bound in Hg; lia.
Qed.

Lemma of_groups_bound gs : Forall (λ g, 0 ≤ g < 65536) gs → 0 ≤ of_groups gs < 65536 ^ Z.of_nat (length gs).
Proof.
  unfold of_groups. induction gs as [|g gs IH] using rev_ind; intros Hall; [done|].
  apply Forall_app in Hall as [Hall Hg]. rewrite Forall_singleton in Hg. specialize (IH Hall).
  rewrite foldl_snoc, length_app, Nat.add_1_r, Nat2Z.inj_succ, Z.pow_succ_r by apply Nat2Z.is_nonneg.
  cbv beta in Hg. set (P := 65536 ^ Z.of_nat (length gs)) in *. set (f := foldl _ 0 gs) in *. lia.
Qed.

Lemma read_ipv6_bound l a rest : read_ipv6 l = Some (a, rest) → 0 ≤ a < 2 ^ 128.
Proof.
  unfold read_ipv6. destruct (read_groups 8 true l) as [[head h4] l1] eqn:Hh.
  apply read_groups_bound in Hh as [Hall Hlen]. change (2 ^ 128) with (65536 ^ Z.of_nat 8).
  destruct (Nat.eqb_spec (length head) 8) as [H8|H8].
  { intros [= <- _]. rewrite <- H8. by apply of_groups_bound. }
  destruct h4; [done|]. destruct (read_char ":" l1) as [l2|]; [|done]. cbn.
  destruct (read_char ":" l2) as [l3|]; [|done]. cbn.
  destruct (read_groups (7 - length head) true l3) as [[tl t4] l4] eqn:Ht.
  apply read_groups_bound in Ht as [Htall Htlen]. intros [= <- _].
  set (gs := head ++ _ ++ tl). assert (Hl : length gs = 8%nat).
  { unfold gs. rewrite !length_app, length_replicate. lia. }
  rewrite <- Hl. apply of_groups_bound. unfold gs. apply Forall_app. split; [done|]. apply Forall_app.
  split; [|done]. apply Forall_replicate. lia.
Qed.

Lemma all_read_some {A} (r : option (A * list ascii)) a : all_read r = Some a → r = Some (a, []).
Proof. destruct r as [[x [|c l]]|]; cbn; congruence. Qed.

Lemma parse_ip_wf s i : parse_ip s = Some i → ip_wf i.
Proof.
  unfold parse_ip, parse_ipv4, parse_ipv6. destruct (all_read (read_ipv4 _)) as [a|] eqn:H4.
  - intros [= <-]. apply all_read_some in H4. by apply read_ipv4_bound in H4.
  - intros Hs. apply fmap_Some in Hs as (a & H6 & ->). apply all_read_some in H6. by apply read_ipv6_bound in H6.
Qed.
