(* ===== verification/Reconnect.v ===== *)
(** * The reconnect controller ([tunnel/src/reconnect.rs])

    The back-off policy of the tunnel: each lost session is recorded, and the
    answer is to retry the same node, to switch node, or to stop.  The
    operations are translated as they are, with [u32] counters kept at their
    width; then come the closed form of a run of [record]s, the bounds on the
    delays and the point at which a run stops. *)

From S2P Require Import Prelude.

Module Reconnect.

(* @tunnel/src/reconnect.rs:5-12 ReconnectEvent *)
Inductive ReconnectEvent : Type :=
  | HandshakeTimeout
  | IdleTimeout
  | ServerKickOut
  | NetworkChanged
  | TransportFailed.

#[export] Instance ReconnectEvent_eq_dec : EqDecision ReconnectEvent.
Proof. solve_decision. Defined.

(* @tunnel/src/reconnect.rs:14-19 ReconnectDecision *)
Inductive ReconnectDecision : Type :=
  | Retry (after : duration) (attempt : Z)
  | SwitchNode (after : duration) (attempt : Z)
  | Stop.

#[export] Instance ReconnectDecision_eq_dec : EqDecision ReconnectDecision.
Proof. solve_decision. Defined.

(* @tunnel/src/reconnect.rs:21-27 ReconnectPolicy *)
Record ReconnectPolicy : Type := {
  max_attempts : Z;        (* u32 *)
  base_delay : duration;
  max_delay : duration;
  switch_node_after : Z;   (* u32 *)
}.

(* @tunnel/src/reconnect.rs:29-33 ReconnectController *)
Record ReconnectController : Type := {
  policy : ReconnectPolicy;
  attempts : Z;            (* u32 *)
}.

(* @tunnel/src/reconnect.rs:35-51 ReconnectPolicy::android_compatible_default *)
Definition android_compatible_default : ReconnectPolicy := {|
  max_attempts := 8;
  base_delay := from_secs 2;
  max_delay := from_mins 1;
  switch_node_after := 3;
|}.

(* @tunnel/src/reconnect.rs:54-60 ReconnectController::new *)
Definition new (p : ReconnectPolicy) : ReconnectController :=
  {| policy := p; attempts := 0 |}.

(** [u32::saturating_pow]. *)
Definition u32_saturating_pow (b e : Z) : Z := Z.min (b ^ e) u32_max.

(* @tunnel/src/reconnect.rs:87-94 ReconnectController::delay_for_attempt *)
Definition delay_for_attempt (c : ReconnectController) (attempt : Z) : duration :=
  let exponent := Z.min (u32_saturating_sub attempt 1) 5 in
  let factor := u32_saturating_pow 2 exponent in
  Z.min (duration_saturating_mul c.(policy).(base_delay) factor) c.(policy).(max_delay).

(* @tunnel/src/reconnect.rs:62-81 ReconnectController::record *)
Definition record (c : ReconnectController) (event : ReconnectEvent) :
    ReconnectController * ReconnectDecision :=
  let c := {| policy := c.(policy); attempts := u32_saturating_add c.(attempts) 1 |} in
  if c.(policy).(max_attempts) <? c.(attempts) then (c, Stop)
  else
    let delay := delay_for_attempt c c.(attempts) in
    if (match event with ServerKickOut => true | _ => false end
        || (c.(policy).(switch_node_after) <=? c.(attempts)))%bool
    then (c, SwitchNode delay c.(attempts))
    else (c, Retry delay c.(attempts)).

(* @tunnel/src/reconnect.rs:83-85 ReconnectController::reset *)
Definition reset (c : ReconnectController) : ReconnectController :=
  {| policy := c.(policy); attempts := 0 |}.

(** The decisions of a run of events without a reset. *)
Fixpoint record_all (c : ReconnectController) (es : list ReconnectEvent) :
    ReconnectController * list ReconnectDecision :=
  match es with
  | [] => (c, [])
  | e :: es' =>
      let '(c1, d) := record c e in
      let '(c2, ds) := record_all c1 es' in (c2, d :: ds)
  end.

(** ** Well-formedness: the fields are in the range of their Rust types. *)
Definition policy_wf (p : ReconnectPolicy) : Prop :=
  0 ≤ max_attempts p ≤ u32_max ∧ 0 ≤ switch_node_after p ≤ u32_max ∧
  0 ≤ base_delay p ≤ duration_max ∧ 0 ≤ max_delay p ≤ duration_max.
Definition controller_wf (c : ReconnectController) : Prop :=
  policy_wf (policy c) ∧ 0 ≤ attempts c ≤ u32_max.

(** What the [n]-th event since the last reset is answered with. *)
Definition nth_decision (p : ReconnectPolicy) (n : Z) (e : ReconnectEvent) : ReconnectDecision :=
  if max_attempts p <? n then Stop
  else
    let d := Z.min (base_delay p * 2 ^ Z.min (n - 1) 5) (max_delay p) in
    if decide (e = ServerKickOut ∨ switch_node_after p ≤ n) then SwitchNode d n else Retry d n.

Definition decision_delay (d : ReconnectDecision) : option duration :=
  match d with Retry a _ | SwitchNode a _ => Some a | Stop => None end.

(** ** Lemmas *)

Lemma u32_saturating_pow_2 k : 0 ≤ k ≤ 5 → u32_saturating_pow 2 k = 2 ^ k.
Proof.
  intros Hk. unfold u32_saturating_pow, u32_max.
  assert (2 ^ k ≤ 2 ^ 5) by (apply Z.pow_le_mono_r; lia). lia.
Qed.

(** The delay is the exponential back-off, capped at the sixth step and at
    [max_delay]; the saturation of the product is invisible. *)
Lemma delay_for_attempt_eq c n :
  policy_wf (policy c) → 1 ≤ n →
  delay_for_attempt c n =
    Z.min (base_delay (policy c) * 2 ^ Z.min (n - 1) 5) (max_delay (policy c)).
Proof.
  intros (_ & _ & ? & ?) Hn. unfold delay_for_attempt, u32_saturating_sub, duration_saturating_mul.
  rewrite Z.max_l by lia. rewrite u32_saturating_pow_2 by lia. lia.
Qed.

Lemma delay_for_attempt_bounds c n :
  policy_wf (policy c) → 1 ≤ n →
  0 ≤ delay_for_attempt c n ≤ max_delay (policy c).
Proof.
  intros Hp Hn. rewrite delay_for_attempt_eq by done. destruct Hp as (_ & _ & ? & ?).
  pose proof (Z.pow_nonneg 2 (Z.min (n - 1) 5)). nia.
Qed.

Lemma delay_for_attempt_mono c n m :
  policy_wf (policy c) → 1 ≤ n ≤ m → delay_for_attempt c n ≤ delay_for_attempt c m.
Proof.
  intros Hp Hn. rewrite !delay_for_attempt_eq by (done || lia).
  destruct Hp as (_ & _ & ? & ?).
  assert (2 ^ Z.min (n - 1) 5 ≤ 2 ^ Z.min (m - 1) 5) by (apply Z.pow_le_mono_r; lia).
  nia.
Qed.

Lemma record_wf c e : controller_wf c → controller_wf (record c e).1.
Proof.
  intros [Hp Ha]. unfold record, controller_wf, u32_saturating_add. cbn [policy attempts].
  repeat case_match; cbn; (split; [done|unfold u32_max in *; lia]).
Qed.

Lemma record_policy c e : policy (record c e).1 = policy c.
Proof. unfold record. repeat case_match; done. Qed.

Lemma record_attempts c e : attempts (record c e).1 = u32_saturating_add (attempts c) 1.
Proof. unfold record. repeat case_match; done. Qed.

(** One [record] answers with the decision of its position in the run. *)
Lemma record_decision c e :
  controller_wf c → (record c e).2 = nth_decision (policy c) (u32_saturating_add (attempts c) 1) e.
Proof.
  intros [Hp Ha]. unfold record, nth_decision. cbn [policy attempts].
  set (n := u32_saturating_add (attempts c) 1).
  assert (1 ≤ n) by (unfold n, u32_saturating_add, u32_max; lia).
  rewrite delay_for_attempt_eq by done. cbn [policy].
  destruct (_ <? n); [done|].
  destruct (Z.leb_spec (switch_node_after (policy c)) n) as [Hle|Hle]; cbn [snd];
    destruct e; cbn; rewrite ?decide_True by tauto; try done;
    rewrite decide_False by (intros [?|?]; [done|lia]); done.
Qed.

Lemma record_all_lookup c es i :
  controller_wf c → attempts c + Z.of_nat (length es) ≤ u32_max →
  (record_all c es).2 !! i =
    (λ e, nth_decision (policy c) (attempts c + Z.of_nat i + 1) e) <$> es !! i.
Proof.
  revert c i. induction es as [|e es IH]; intros c i Hwf Hlen; [done|].
  cbn [record_all]. destruct (record c e) as [c1 d] eqn:Hr.
  destruct (record_all c1 es) as [c2 ds] eqn:Hra.
  assert (Hc1 : c1 = (record c e).1) by by rewrite Hr.
  assert (Hd : d = (record c e).2) by by rewrite Hr.
  assert (Ha : attempts c1 = attempts c + 1).
  { rewrite Hc1, record_attempts. unfold u32_saturating_add. cbn [length] in Hlen. lia. }
  destruct i as [|i]; cbn [snd lookup list_lookup].
  - cbn. rewrite Hd, record_decision by done. unfold u32_saturating_add.
    cbn [length] in Hlen. do 2 f_equal. lia.
  - change (ds !! i = (λ e0, nth_decision (policy c) (attempts c + Z.of_nat (S i) + 1) e0) <$> es !! i).
    replace ds with (record_all c1 es).2 by (by rewrite Hra).
    rewrite IH.
    + rewrite Hc1, record_policy, <- Hc1, Ha. destruct (es !! i); cbn; [|done].
      do 2 f_equal. lia.
    + rewrite Hc1. by apply record_wf.
    + cbn [length] in Hlen. lia.
Qed.

Lemma nth_decision_stop p n e : nth_decision p n e = Stop ↔ max_attempts p < n.
Proof. unfold nth_decision. destruct (Z.ltb_spec (max_attempts p) n); repeat case_decide; split; (done || lia). Qed.

(** ** Properties *)

(** C21: A run of [record]s since a reset is answered, event by event, by the
    closed form [nth_decision]: the [n]-th event is answered [Stop] exactly
    when [n] exceeds [max_attempts], else with the exponential back-off
    [min (base * 2^min(n-1,5)) max_delay], and with a node switch exactly when
    the server kicked us out or [n] reached [switch_node_after]; the [u32]
    and [Duration] saturations never show in runs shorter than [u32::MAX]. *)
Theorem record_all_closed_form p es i e :
  policy_wf p → Z.of_nat (length es) ≤ u32_max → es !! i = Some e →
  (record_all (new p) es).2 !! i = Some (nth_decision p (Z.of_nat i + 1) e) ∧
  ((record_all (new p) es).2 !! i = Some Stop ↔ max_attempts p < Z.of_nat i + 1).
Proof.
  intros Hp Hlen He.
  assert (H : (record_all (new p) es).2 !! i = Some (nth_decision p (Z.of_nat i + 1) e)).
  { assert (Hwf : controller_wf (new p)) by (split; [done|cbn; unfold u32_max; lia]).
    rewrite (record_all_lookup _ _ _ Hwf), He; cbn; [do 2 f_equal; lia|lia]. }
  rewrite H, <- nth_decision_stop. split; [done|split; [by intros [= ->]|by intros ->]].
Qed.

Lemma record_all_closed_form_witness :
  (record_all (new android_compatible_default) (replicate 9 NetworkChanged)).2 !! 7%nat
  = Some (SwitchNode (from_mins 1) 8).
Proof.
  destruct (record_all_closed_form android_compatible_default (replicate 9 NetworkChanged) 7
    NetworkChanged) as [H _]; [|done|done|].
  - repeat split; vm_compute; done.
  - rewrite H. vm_compute. done.
Defined.

(** In a well-formed policy every delay a decision carries is between 0
    and [max_delay], and a later event of the same run never waits less than
    an earlier one. *)
Theorem delays_bounded_monotone p n m e e' d d' :
  policy_wf p → 1 ≤ n ≤ m ≤ max_attempts p →
  decision_delay (record {| policy := p; attempts := n - 1 |} e).2 = Some d →
  decision_delay (record {| policy := p; attempts := m - 1 |} e').2 = Some d' →
  0 ≤ d ≤ d' ∧ d' ≤ max_delay p.
Proof.
  intros Hp Hnm Hd Hd'.
  assert (Hdel : ∀ k ev x, 1 ≤ k ≤ max_attempts p →
     decision_delay (record {| policy := p; attempts := k - 1 |} ev).2 = Some x →
     x = delay_for_attempt (new p) k).
  { intros k ev x Hk. rewrite record_decision
      by (split; [done|cbn; destruct Hp as (? & _); lia]).
    cbn [policy attempts].
    assert (u32_saturating_add (k - 1) 1 = k) as ->
      by (unfold u32_saturating_add; destruct Hp as (? & _); lia).
    rewrite delay_for_attempt_eq by (done || lia).
    unfold nth_decision. destruct (Z.ltb_spec (max_attempts p) k); [lia|].
    case_decide; cbn; congruence. }
  apply Hdel in Hd; [|lia]. apply Hdel in Hd'; [|lia]. subst.
  pose proof (delay_for_attempt_bounds (new p) n Hp ltac:(lia)).
  pose proof (delay_for_attempt_bounds (new p) m Hp ltac:(lia)).
  pose proof (delay_for_attempt_mono (new p) n m Hp ltac:(lia)). cbn in *. lia.
Qed.

Lemma delays_bounded_monotone_witness : 0 ≤ from_secs 4 ≤ from_secs 60 ∧ from_secs 60 ≤ from_mins 1.
Proof.
  apply (delays_bounded_monotone android_compatible_default 2 7 IdleTimeout ServerKickOut).
  - repeat split; vm_compute; done.
  - vm_compute; done.
  - vm_compute; done.
  - vm_compute; done.
Defined.

(** The whole schedule of the default policy. *)
Lemma android_schedule :
  (record_all (new android_compatible_default) (replicate 10 NetworkChanged)).2 =
  [Retry (from_secs 2) 1; Retry (from_secs 4) 2; SwitchNode (from_secs 8) 3;
   SwitchNode (from_secs 16) 4; SwitchNode (from_secs 32) 5; SwitchNode (from_secs 60) 6;
   SwitchNode (from_secs 60) 7; SwitchNode (from_secs 60) 8; Stop; Stop].
Proof. vm_compute. done. Qed.

End Reconnect.
