(* ===== verification/Models.v ===== *)
(** * The wire models of the server's API ([api/src/models])

    The request and response types with the fields the source gives them, and
    the [SendableRequest] interface every request implements: its HTTP method,
    path, query pairs and JSON body.  JSON values are [json]; turning them
    into bytes is the serializer's business. *)

From S2P Require Import Prelude RustStr Net.

Module Models.

(** [serde_json::Value]: a number is an integer ([as_i64] answers it) or a
    token that is not one. *)
Inductive json : Type :=
  | JNull
  | JBool (b : bool)
  | JInt (z : Z)
  | JFloat (token : string)
  | JString (s : string)
  | JArray (l : list json)
  | JObject (fields : list (string * json)).

(* @api/src/models/common.rs:7-7 JsonObject *)
Definition JsonObject : Type := list (string * json).

(** ** [common.rs] *)

(* @api/src/models/common.rs:22-28 LogoutReason *)
Record LogoutReason : Type := { lr_reason : option string; lr_message : option string }.

(* @api/src/models/common.rs:9-20 BaseResponse *)
Record BaseResponse (T : Type) : Type := {
  code : Z;                 (* i32 *)
  message : option string;
  data : option T;
  action : option string;
  logout_reason : option LogoutReason;
  extra : option JsonObject;
}.
Arguments code {T} _.
Arguments message {T} _.
Arguments data {T} _.
Arguments action {T} _.
Arguments logout_reason {T} _.
Arguments extra {T} _.
Arguments Build_BaseResponse {T} _ _ _ _ _ _.

(* @api/src/models/common.rs:31-40 BaseResponse::default *)
Definition base_response_default {T} : BaseResponse T := {|
  code := 0; message := None; data := None; action := None; logout_reason := None; extra := None |}.

(* @api/src/models/common.rs:44-48 BaseResponse::is_force_logout *)
Definition is_force_logout {T} (r : BaseResponse T) : bool :=
  bool_decide (action r = Some "logout").

(** What the client asks of every response; only an envelope can force a
    logout. *)
(* @api/src/models/common.rs:51-58 ApiResponse *)
Class ApiResponse (R : Type) : Type := {
  resp_code : R → Z;
  resp_message : R → option string;
  resp_is_force_logout : R → bool;
}.
(* @api/src/models/common.rs:60-73 BaseResponse::ApiResponse *)
#[export] Instance base_response_api {T} : ApiResponse (BaseResponse T) := {
  resp_code := code; resp_message := message; resp_is_force_logout := is_force_logout;
}.

(** ** [otp.rs] and [profile.rs] *)

(* @api/src/models/otp.rs:23-33 OtpProvision *)
Record OtpProvision : Type := { prov_url : string; prov_timestamp : Z }.

(* @api/src/models/profile.rs:36-44 LoginSetting *)
Record LoginSetting : Type := { login_version : option string; ls_raw : option JsonObject }.

(* @api/src/models/profile.rs:47-51 LoginSetting::is_v1 *)
Definition is_v1 (s : LoginSetting) : bool := bool_decide (login_version s = Some "v1").

(* @api/src/models/profile.rs:54-63 UserInfo *)
Record UserInfo : Type := {
  ui_uid : option string; ui_name : option string; ui_email : option string;
  ui_mobile : option string; ui_raw : option JsonObject;
}.
Definition user_info_default : UserInfo :=
  {| ui_uid := None; ui_name := None; ui_email := None; ui_mobile := None; ui_raw := None |}.

(* @api/src/models/profile.rs:85-96 SigningRule *)
Record SigningRule : Type := {
  sr_urls : option (list string);
  sr_enable_signing : option bool;
  sr_signing_input_params : option Z;    (* i32 *)
  sr_max_time_desync : option Z;         (* i32 *)
}.

(* @api/src/models/profile.rs:74-83 TenantSigningConfig *)
Record TenantSigningConfig : Type := {
  tsc_enable : option bool;
  tsc_algorithms : option (list string);
  tsc_rules : option (list SigningRule);
  tsc_rules_map : option JsonObject;
}.

(* @api/src/models/profile.rs:65-72 TenantConfig *)
Record TenantConfigData : Type := {
  tc_signing_config : option TenantSigningConfig; tc_raw : option JsonObject;
}.

(** ** [vpn.rs] *)

(* @api/src/models/vpn.rs:46-65 VpnSetting *)
Record VpnSetting : Type := {
  vs_enable : option bool; vs_mode : option string; vs_split_only : option bool;
  vs_vpn_status : option Z; vs_admin_enable : option bool; vs_vpn_domain : option string;
  vs_raw : option JsonObject;
}.

(* @api/src/models/vpn.rs:102-110 IpDelayRoutingPolicy *)
Record IpDelayRoutingPolicy : Type := { is_operator : option bool; policy_type : option Z }.

(* @api/src/models/vpn.rs:116-121 IpDelayRoutingPolicy::is_operator_routing *)
Definition is_operator_routing (p : IpDelayRoutingPolicy) : bool :=
  default false (is_operator p) && bool_decide (policy_type p = Some 1).

(* @api/src/models/vpn.rs:67-100 VpnDot *)
Record VpnDot : Type := {
  dot_id : option Z; dot_ip : string; dot_api_ip : option string; dot_api_port : option Z;
  dot_vpn_port : option Z; dot_protocol_mode : option Z; dot_timeout : option Z;
  dot_mode : option Z; dot_type : option string; dot_name : option string;
  dot_display_name : option string; dot_fast_ip : option string; dot_ip4_domain : option string;
  dot_reconnect : option bool; dot_exclude : option bool; dot_dedicated : option bool;
  dot_backup_ips : option (list string);
  dot_ip_delay_routing_policy : option IpDelayRoutingPolicy; dot_raw : option JsonObject;
}.

(* @api/src/models/vpn.rs:252-271 CentralDns *)
Record CentralDns : Type := {
  cd_tenant_id : string; cd_cpe_id : Z; cd_dnat_ip : string; cd_dns : list string;
  cd_second_bloom : string; cd_third_bloom : string; cd_bloom_num : Z; cd_version : string;
}.

(* @api/src/models/vpn.rs:277-288 IpNat *)
Record IpNat : Type := { nat_ips : list string; nat_is_default : bool; nat_ip : string }.

(** A [HashMap<String, Vec<String>>] in the order its iteration visits it; the
    keys are distinct. *)
Definition domain_table : Type := list (string * list string).

(* @api/src/models/vpn.rs:290-343 VpnConnSetting *)
Record VpnConnSetting : Type := {
  vpn_mtu : Z;              (* i32 *)
  vpn_dns : option string;
  vpn_dns_backup : option string;
  vpn_dns_domain_split : option (list string);
  vpn_route_full : option (list string);
  vpn_route_split : option (list string);
  v6_route_full : option (list string);
  v6_route_split : option (list string);
  vpn_dynamic_domain_route_split : option domain_table;
  v6_vpn_dynamic_domain_route_split : option domain_table;
  vpn_wildcard_dynamic_domain_route_split : option domain_table;
  suffix_wildcard_dynamic_domain_route_split : option domain_table;
  dynamic_domain : option domain_table;
  central_dns : option CentralDns;
  ip_nats : option (list IpNat);
}.

(* @api/src/models/vpn.rs:185-203 VpnConnResponse *)
Record VpnConnResponse : Type := {
  conn_ip : string;
  conn_ipv6 : option string;
  conn_ip_mask : option Z;  (* i32 *)
  conn_public_key : string;
  conn_preshared_key : option string;
  conn_sign_token : option string;
  conn_protocol_version : option string;
  conn_setting : VpnConnSetting;
  conn_raw : option JsonObject;
}.

(* @api/src/models/vpn.rs:205-219 deserialize_flexible_opt_i32 *)
Definition flexible_opt_i32 (v : option json) : option Z :=
  match v with
  | Some (JInt z) => i32_try_from z
  | Some (JFloat _) => None
  | Some (JString text) => parse_i32 (trim text)
  | _ => None
  end.

(** [from_str] and [from_value] are the deserializer of the target type. *)
(* @api/src/models/vpn.rs:221-243 deserialize_stringified_json *)
Definition stringified_json {T} (from_str : string → option T) (from_value : json → option T)
    (v : option json) : option T :=
  match v with
  | Some (JString text) =>
      let text := trim text in
      if str_is_empty text then None else from_str text
  | Some JNull | None => None
  | Some other => from_value other
  end.

(* @api/src/models/vpn.rs:166-175 VpnReportType *)
Inductive VpnReportType : Type := ReportConnected | ReportDisconnected.

(* @api/src/models/vpn.rs:178-182 VpnReportType::wire *)
Definition report_wire (t : VpnReportType) : string :=
  match t with ReportConnected => "100" | ReportDisconnected => "101" end.

(** ** The results of the login requests ([auth.rs]) *)

(* @api/src/models/auth.rs:36-53 ActivateInfo *)
Record ActivateInfo : Type := {
  activate_host : option string; activate_backup_domain : option string;
  activate_enable_backup_domain : option bool; tenant_name : option string;
  ai_name : option string; zh_name : option string; en_name : option string;
  domain : option string; enable_self_signed : option bool; self_signed_cert : option string;
  enable_public_key : option bool; ai_public_key : option string; ai_raw : option JsonObject;
}.

(* @api/src/models/auth.rs:434-439 CommonStringResult *)
Record CommonStringResult : Type := { csr_result : option string }.

(* @api/src/models/auth.rs:449-465 LoginV2Next *)
Record LoginV2Next : Type := {
  next_action : option string; can_skip : option bool; auth_list : option (list string);
  mobile : option string; email : option string; password_rule : option JsonObject;
  link : option string; passkey_uid : option string;
}.

(* @api/src/models/auth.rs:441-447 LoginV2Result *)
Record LoginV2Result : Type := { v2_result : option string; v2_next : option LoginV2Next }.

(* @api/src/models/auth.rs:467-486 LoginResult *)
Record LoginResult : Type := {
  login_result : option string; lr_url : option string; lr_auth : option json;
  lr_timestamp : option Z; need_verify : option bool; lr_token : option string;
  vpn_token : option string; csrf_token : option string; lr_uid : option string;
  need_mfa : option bool; mfa_token : option string; lr_raw : option JsonObject;
}.

(* @api/src/models/auth.rs:488-514 ThirdPartyLoginInfo *)
Record ThirdPartyLoginInfo : Type := {
  tp_alias : option string; tp_alias_key : option string; tp_name : option string;
  tp_link : option string; tp_url : option string; tp_login_url : option string;
  tp_token : option string; tp_state : option string; tp_schema : option string;
  tp_appid : option string; tp_agentid : option string; tp_scope : option string;
  tp_notice : option string; tp_is_custom : option bool; tp_full_title : option string;
  tp_icon : option string; tp_abbreviation : option string; tp_raw : option JsonObject;
}.

End Models.
