(* ===== verification/Routes.v ===== *)
(** * Tunnel routes ([tunnel/src/route.rs])

    Which networks the tunnel captures, and their installation in and removal
    from the system routing table.  The CIDR type of the [ipnetwork] crate is
    behind [IpNet]; the routing table is behind [RouteManager], whose laws
    [RouteTable] say what a successful and a failed call do to the table. *)

From S2P Require Import Prelude RustStr Net Models.
Import Models.

Module Routes.

(** [ipnetwork::IpNetwork]. *)
Class IpNet : Type := {
  IpNetwork : Type;
  net_parse : string → option IpNetwork;
  net_of_ip : IpAddr → IpNetwork;      (* the host network: /32 or /128 *)
  net_is_v4 : IpNetwork → bool;
  net_network : IpNetwork → IpAddr;
  net_prefix : IpNetwork → Z;
}.

(* @tunnel/src/route.rs:38-42 VpnRouteMode *)
Inductive VpnRouteMode : Type := RouteFull | RouteSplit.

(* @tunnel/src/route.rs:44-48 AddressFamily *)
Inductive AddressFamily : Type := FamilyV4 | FamilyV6.

#[export] Instance AddressFamily_eq_dec : EqDecision AddressFamily.
Proof. solve_decision. Defined.

(* @tunnel/src/route.rs:51-56 AddressFamily::name *)
Definition family_name (f : AddressFamily) : string :=
  match f with FamilyV4 => "V4" | FamilyV6 => "V6" end.

(** A [route_manager::Route] as the program builds it. *)
Record Route : Type := { rt_destination : IpAddr; rt_prefix : Z; rt_if_name : string }.

#[export] Instance Route_eq_dec : EqDecision Route.
Proof. solve_decision. Defined.
#[export] Instance IpAddr_countable : Countable IpAddr.
Proof.
  refine (inj_countable' (λ i, match i with V4 a => inl a | V6 a => inr a end)
            (λ s : Z + Z, match s with inl a => V4 a | inr a => V6 a end) _).
  by intros [].
Defined.
#[export] Instance Route_countable : Countable Route.
Proof.
  refine (inj_countable' (λ r, (rt_destination r, rt_prefix r, rt_if_name r))
            (λ t, {| rt_destination := t.1.1; rt_prefix := t.1.2; rt_if_name := t.2 |}) _).
  by intros [].
Defined.

(* @tunnel/src/route.rs:8-34 Error *)
Inductive RouteError : Type :=
  | RouteManagerError (source : io_error)
  | InvalidRoute (cidr : string)
  | InvalidRouteFamily (cidr family : string)
  | AddRoute (route : Route) (source : io_error)
  | DeleteRoute (route : Route) (source : io_error).

(* @tunnel/src/route.rs:59-63 AppliedRoutes *)
Record AppliedRoutes : Type := { interface_name : string; routes : list Route }.

(** ** Selecting the networks *)
Section networks.
Context `{IpNet}.

(* @tunnel/src/route.rs:168-181 parse_network *)
Definition parse_network (value : string) (family : AddressFamily) : result RouteError IpNetwork :=
  let? network := ok_or (net_parse value) (InvalidRoute value) in
  if (net_is_v4 network && bool_decide (family = FamilyV4))
     || (negb (net_is_v4 network) && bool_decide (family = FamilyV6))
  then Ok network
  else Err (InvalidRouteFamily value (family_name family)).

(* @tunnel/src/route.rs:159-166 add_networks *)
Fixpoint add_networks (routes : list IpNetwork) (cidrs : list string) (family : AddressFamily) :
    result RouteError (list IpNetwork) :=
  match cidrs with
  | [] => Ok routes
  | cidr :: cidrs' =>
      let? n := parse_network cidr family in
      add_networks (routes ++ [n]) cidrs' family
  end.

(* @tunnel/src/route.rs:65-84 networks_from_vpn_conn *)
Definition networks_from_vpn_conn (conn : VpnConnResponse) (mode : VpnRouteMode)
    (ipv6_enabled : bool) : result RouteError (list IpNetwork) :=
  let s := conn_setting conn in
  let '(v4_cidrs, v6_cidrs) :=
    match mode with
    | RouteFull => (default [] (vpn_route_full s), default [] (v6_route_full s))
    | RouteSplit => (default [] (vpn_route_split s), default [] (v6_route_split s))
    end in
  let? routes := add_networks [] v4_cidrs FamilyV4 in
  if ipv6_enabled then add_networks routes v6_cidrs FamilyV6 else Ok routes.

(* @tunnel/src/route.rs:86-97 dns_host_routes *)
Definition dns_host_routes (servers : list IpAddr) (ipv6_enabled : bool) : list IpNetwork :=
  map net_of_ip (List.filter (λ i, ipv6_enabled || is_ipv4 i) servers).

(* @tunnel/src/route.rs:190-193 system_route *)
Definition system_route (network : IpNetwork) (ifname : string) : Route :=
  {| rt_destination := net_network network; rt_prefix := net_prefix network; rt_if_name := ifname |}.

(* @tunnel/src/route.rs:183-188 system_routes *)
Definition system_routes (ifname : string) (networks : list IpNetwork) : list Route :=
  map (λ n, system_route n ifname) networks.

End networks.

(** ** Installing and removing them *)

(** [route_manager::AsyncRouteManager]. *)
Class RouteManager (W : Type) : Type := {
  manager_new : M W io_error unit;
  route_add : Route → M W io_error unit;
  route_delete : Route → M W io_error unit;
}.

Section apply.
Context {W : Type} `{RouteManager W}.

(* @tunnel/src/route.rs:195-205 rollback_added_routes *)
Fixpoint rollback_added_routes (rs : list Route) (w : W) : W :=
  match rs with
  | [] => w
  | r :: rs' => rollback_added_routes rs' (route_delete r w).1
  end.

(** The loop of [apply]; [added] is in the order the routes were added. *)
Fixpoint apply_loop (rs added : list Route) (w : W) : W * result RouteError (list Route) :=
  match rs with
  | [] => (w, Ok added)
  | route :: rs' =>
      match route_add route w with
      | (w1, Ok _) => apply_loop rs' (added ++ [route]) w1
      | (w1, Err source) =>
          if bool_decide (io_error_kind source = AlreadyExists) then apply_loop rs' added w1
          else (rollback_added_routes (rev added) w1, Err (AddRoute route source))
      end
  end.

(* @tunnel/src/route.rs:99-138 apply *)
Definition apply `{IpNet} (ifname : string) (networks : list IpNetwork) :
    M W RouteError AppliedRoutes :=
  let rs := system_routes ifname networks in
  do! m_map_err RouteManagerError manager_new in
  let! added := apply_loop rs [] in
  m_ret {| interface_name := ifname; routes := added |}.

(* @tunnel/src/route.rs:141-155 AppliedRoutes::remove *)
Definition remove (a : AppliedRoutes) : M W RouteError unit :=
  do! m_map_err RouteManagerError manager_new in
  m_for (rev (routes a)) (λ r, m_map_err (DeleteRoute r) (route_delete r)).

End apply.

(** The laws of the routing table: a route is added or it is not, an
    [AlreadyExists] answer is true, a route that was deleted is gone, and a
    failed call changes nothing. *)
Class RouteTable (W : Type) `{RouteManager W} : Type := {
  table : W → gset Route;
  table_new w : table (manager_new w).1 = table w;
  table_add_ok r w w' : route_add r w = (w', Ok tt) → r ∉ table w ∧ table w' = ({[r]} ∪ table w);
  table_add_err r w w' e :
    route_add r w = (w', Err e) →
    table w' = table w ∧ (io_error_kind e = AlreadyExists → r ∈ table w);
  table_delete_ok r w w' : route_delete r w = (w', Ok tt) → table w' = table w ∖ {[r]};
  table_delete_err r w w' e : route_delete r w = (w', Err e) → table w' = table w;
}.

(** Deleting a route that is there works. *)
Definition deletes_present (W : Type) `{RouteTable W} : Prop :=
  ∀ r w, r ∈ table w → is_ok (route_delete r w).2 = true.

(** ** Lemmas *)

Lemma add_networks_spec `{IpNet} acc cidrs f :
  match add_networks acc cidrs f with
  | Ok l => ∃ l', l = acc ++ l' ∧
      Forall2 (λ c n, net_parse c = Some n ∧ net_is_v4 n = bool_decide (f = FamilyV4)) cidrs l'
  | Err e => ∃ c, c ∈ cidrs ∧
      (e = InvalidRoute c ∧ net_parse c = None ∨
       ∃ f n, e = InvalidRouteFamily c f ∧ net_parse c = Some n)
  end.
Proof.
  revert acc. induction cidrs as [|c cs IH]; intros acc; cbn [add_networks].
  { exists []. by rewrite app_nil_r. }
  unfold parse_network. destruct (net_parse c) as [n|] eqn:Hp; cbn [ok_or result_bind].
  2:{ exists c. split; [left|]. by left. }
  destruct (net_is_v4 n) eqn:Hv, f;
    change (bool_decide (FamilyV4 = FamilyV4)) with true in *;
    change (bool_decide (FamilyV6 = FamilyV6)) with true in *;
    change (bool_decide (FamilyV4 = FamilyV6)) with false in *;
    change (bool_decide (FamilyV6 = FamilyV4)) with false in *; cbn.
  2, 3: exists c; split; [left|right; by eexists _, _].
  all: specialize (IH (acc ++ [n])).
  all: match goal with |- context [add_networks ?a ?cs ?f] =>
         destruct (add_networks a cs f) as [l|e] end.
  1, 3: destruct IH as (l' & -> & Hl); exists (n :: l'); rewrite <- app_assoc;
    split; [done|constructor; [done|exact Hl]].
  all: destruct IH as (c' & Hc & He); exists c'; split; [by right|exact He].
Qed.

Section lemmas.
Context {W : Type} `{RouteTable W}.

Lemma rollback_table rs w :
  deletes_present W → list_to_set rs ⊆ table w → NoDup rs →
  table (rollback_added_routes rs w) = table w ∖ list_to_set rs.
Proof.
  intros Hdel. revert w. induction rs as [|r rs IH]; intros w Hin Hnd; cbn [rollback_added_routes].
  { cbn. set_solver. }
  apply NoDup_cons in Hnd as [Hr Hnd]. pose proof (Hdel r w) as Hok.
  destruct (route_delete r w) as [w1 [[]|e]] eqn:Hd; cbn in Hok |- *.
  2:{ rewrite (Hok ltac:(set_solver)) || (specialize (Hok ltac:(set_solver)); done). }
  apply table_delete_ok in Hd. rewrite IH; [set_solver| |done].
  rewrite Hd. intros x Hx. apply elem_of_difference.
  split; [set_solver|]. intros ->%elem_of_singleton. apply elem_of_list_to_set in Hx. done.
Qed.

(** What the rollback can leave behind when deletions fail: no more than what
    was added. *)
Lemma rollback_table_bounds rs w :
  table w ∖ list_to_set rs ⊆ table (rollback_added_routes rs w) ⊆ table w.
Proof.
  revert w. induction rs as [|r rs IH]; intros w; cbn [rollback_added_routes]; [set_solver|].
  specialize (IH (route_delete r w).1).
  destruct (route_delete r w) as [w1 [[]|e]] eqn:Hd; cbn in *;
    [apply table_delete_ok in Hd|apply table_delete_err in Hd]; rewrite Hd in IH; set_solver.
Qed.

(** The invariant of the loop: what it added was not there before, and the
    table is the original one and that. *)
Lemma apply_loop_ok rs added w w' added' t0 :
  table w = t0 ∪ list_to_set added → NoDup added → t0 ## list_to_set added →
  apply_loop rs added w = (w', Ok added') →
  table w' = t0 ∪ list_to_set added' ∧ NoDup added' ∧ t0 ## list_to_set added' ∧
  list_to_set rs ⊆ table w' ∧ list_to_set added ⊆@{gset Route} list_to_set added'.
Proof.
  revert added w. induction rs as [|r rs IH]; intros added w Ht Hnd Hdisj; cbn [apply_loop].
  { intros [= <- <-]. split_and!; [done..|apply empty_subseteq|done]. }
  destruct (route_add r w) as [w1 [[]|e]] eqn:Ha; intros Hl.
  - apply table_add_ok in Ha as [Hr Ht1]. rewrite Ht in Hr, Ht1.
    destruct (IH (added ++ [r]) w1) as (Htbl & Hnd1 & Hd1 & Hrs & Hsub); [| | |done|].
    + rewrite Ht1, list_to_set_app_L. clear. set_solver.
    + apply NoDup_snoc; [done|]. intros Hin. apply Hr, elem_of_union_r. by apply elem_of_list_to_set.
    + rewrite list_to_set_app_L. clear -Hdisj Hr. set_solver.
    + rewrite list_to_set_app_L in Hsub.
      split_and!; [done..| |]; clear -Htbl Hrs Hsub; set_solver.
  - apply table_add_err in Ha as [Ht1 Hex]. case_bool_decide as Hk; [|done].
    specialize (Hex Hk). rewrite Ht in Hex.
    destruct (IH added w1) as (Htbl & Hnd1 & Hd1 & Hrs & Hsub); [by rewrite Ht1|done..|].
    split_and!; [done..| |done]. clear -Htbl Hrs Hsub Hex. set_solver.
Qed.

Lemma apply_loop_err rs added w w' e t0 :
  deletes_present W →
  table w = t0 ∪ list_to_set added → NoDup added → t0 ## list_to_set added →
  apply_loop rs added w = (w', Err e) → table w' = t0.
Proof.
  intros Hdel. revert added w. induction rs as [|r rs IH]; intros added w Ht Hnd Hdisj;
    cbn [apply_loop]; [done|].
  destruct (route_add r w) as [w1 [[]|e1]] eqn:Ha.
  - apply table_add_ok in Ha as [Hr Ht1]. rewrite Ht in Hr, Ht1. apply IH.
    + rewrite Ht1, list_to_set_app_L. clear. set_solver.
    + apply NoDup_snoc; [done|]. intros Hin. apply Hr, elem_of_union_r. by apply elem_of_list_to_set.
    + rewrite list_to_set_app_L. clear -Hdisj Hr. set_solver.
  - apply table_add_err in Ha as [Ht1 _]. case_bool_decide.
    + apply IH; [by rewrite Ht1|done|done].
    + intros [= <- <-].
      assert (Hrev : list_to_set (rev added) =@{gset Route} list_to_set added)
        by (apply list_to_set_perm_L; symmetry; apply Permutation_rev).
      assert (Hin : list_to_set (rev added) ⊆ table w1)
        by (rewrite Hrev, Ht1, Ht; apply union_subseteq_r).
      assert (Hnd' : NoDup (rev added)) by (rewrite <- (Permutation_rev added); done).
      rewrite (rollback_table _ _ Hdel Hin Hnd'), Hrev, Ht1, Ht. clear -Hdisj. set_solver.
Qed.

Lemma apply_loop_sub rs added w w' added' :
  apply_loop rs added w = (w', Ok added') →
  (list_to_set added' : gset Route) ⊆ list_to_set added ∪ list_to_set rs.
Proof.
  revert added w. induction rs as [|r rs IH]; intros added w; cbn [apply_loop].
  { intros [= <- <-]. cbn. clear. set_solver. }
  destruct (route_add r w) as [w1 [[]|e]] eqn:Ha.
  - intros Hl. apply IH in Hl. rewrite list_to_set_app_L in Hl. clear -Hl. set_solver.
  - case_bool_decide; [|done]. intros Hl. apply IH in Hl. clear -Hl. set_solver.
Qed.

Lemma remove_loop_ok rs w w' :
  m_for rs (λ r, m_map_err (DeleteRoute r) (route_delete r)) w = (w', Ok tt) →
  table w' = table w ∖ list_to_set rs.
Proof.
  revert w. induction rs as [|r rs IH]; intros w; cbn [m_for]; [intros [= <-]; cbn; set_solver|].
  unfold m_bind, m_map_err. destruct (route_delete r w) as [w1 [[]|e]] eqn:Hd; cbn; [|done].
  intros Hl. apply table_delete_ok in Hd. rewrite (IH _ Hl), Hd. set_solver.
Qed.

(** Applying, when it works. *)
Lemma apply_ok_spec `{IpNet} ifname networks w w1 a :
  apply ifname networks w = (w1, Ok a) →
  interface_name a = ifname ∧ NoDup (routes a) ∧ table w ## list_to_set (routes a) ∧
  table w1 = table w ∪ list_to_set (routes a) ∧
  table w1 = table w ∪ list_to_set (system_routes ifname networks).
Proof.
  unfold apply, m_bind, m_map_err, m_ret.
  pose proof (table_new w) as Hw. destruct (manager_new w) as [w0 [[]|e]]; cbn in Hw |- *; [|done].
  destruct (apply_loop _ [] w0) as [wa [added|e]] eqn:Hl; [|done]. intros [= <- <-]. cbn [routes interface_name].
  destruct (apply_loop_ok (system_routes ifname networks) [] w0 wa added (table w0)) as (Ht & Hnd & Hd & Hrs & _);
    [by rewrite list_to_set_nil, union_empty_r_L|constructor|apply disjoint_empty_r|exact Hl|].
  apply apply_loop_sub in Hl. rewrite list_to_set_nil, union_empty_l_L in Hl. rewrite Hw in *.
  split_and!; [done..|]. rewrite Ht in *. clear -Hrs Hl. set_solver.
Qed.

(** Applying, when it fails: everything was taken back. *)
Lemma apply_err_spec `{IpNet} ifname networks w w' e :
  deletes_present W → apply ifname networks w = (w', Err e) → table w' = table w.
Proof.
  intros Hdel. unfold apply, m_bind, m_map_err, m_ret.
  pose proof (table_new w) as Hw. destruct (manager_new w) as [w0 [[]|e0]]; cbn in Hw |- *.
  2:{ by intros [= <- _]. }
  destruct (apply_loop _ [] w0) as [wa [added|ea]] eqn:Hl; [done|]. intros [= <- _].
  rewrite <- Hw. eapply apply_loop_err; [done|..|exact Hl].
  - by rewrite list_to_set_nil, union_empty_r_L.
  - constructor.
  - apply disjoint_empty_r.
Qed.

(** Removing routes that are there always works, when a manager can be had. *)
Lemma remove_present a w :
  deletes_present W → is_ok (manager_new w).2 = true →
  NoDup (routes a) → list_to_set (routes a) ⊆ table w →
  ∃ w', remove a w = (w', Ok tt) ∧ table w' = table w ∖ list_to_set (routes a).
Proof.
  intros Hdel Hm Hnd Hin. unfold remove. unfold m_bind at 1, m_map_err.
  pose proof (table_new w) as Hw. destruct (manager_new w) as [w0 [[]|e]]; cbn in Hm, Hw |- *; [|done].
  rewrite <- Hw in *. clear w Hw Hm.
  assert (Hrev : list_to_set (rev (routes a)) =@{gset Route} list_to_set (routes a))
    by (apply list_to_set_perm_L; symmetry; apply Permutation_rev).
  rewrite <- Hrev in *. assert (Hnd' : NoDup (rev (routes a))) by (rewrite <- (Permutation_rev (routes a)); done).
  clear Hrev Hnd. revert w0 Hin Hnd'. induction (rev (routes a)) as [|r rs IH]; intros w Hin Hnd; cbn [m_for].
  { exists w. cbn. split; [done|]. set_solver. }
  apply NoDup_cons in Hnd as [Hr Hnd]. unfold m_bind at 1.
  pose proof (Hdel r w ltac:(set_solver)) as Hok.
  destruct (route_delete r w) as [w1 [[]|e]] eqn:Hd; cbn in Hok |- *; [|done].
  apply table_delete_ok in Hd. destruct (IH w1) as (w' & -> & Ht); [|done|].
  - rewrite Hd. clear -Hin Hr. intros x Hx. apply elem_of_difference. split; [set_solver|].
    intros ->%elem_of_singleton. by apply elem_of_list_to_set in Hx.
  - exists w'. split; [done|]. rewrite Ht, Hd. clear. set_solver.
Qed.

End lemmas.

(** Removing routes that are not there changes nothing, whether or not it
    works. *)
Lemma remove_absent {W} `{RouteTable W} a (w : W) :
  table w ## list_to_set (routes a) → table (remove a w).1 = table w.
Proof.
  unfold remove, m_bind, m_map_err. pose proof (table_new w) as Hw.
  destruct (manager_new w) as [w0 [[]|e]]; cbn [map_err fst] in *; [|done]. rewrite <- Hw. clear w Hw.
  assert (Hrev : list_to_set (rev (routes a)) =@{gset Route} list_to_set (routes a))
    by (apply list_to_set_perm_L; symmetry; apply Permutation_rev).
  rewrite <- Hrev. clear Hrev. revert w0. induction (rev (routes a)) as [|r rs IH]; intros w Hd; cbn [m_for]; [done|].
  unfold m_bind at 1. destruct (route_delete r w) as [w1 [[]|e]] eqn:Hr; cbn [map_err].
  - apply table_delete_ok in Hr. assert (Ht : table w1 = table w) by (rewrite Hr; set_solver).
    rewrite IH; [done|]. rewrite Ht. set_solver.
  - cbn [fst]. by apply table_delete_err in Hr.
Qed.

(** When every route is missing and deleting a missing route is refused, the
    removal fails at the first one. *)
Definition refuses_absent (W : Type) `{RouteTable W} : Prop :=
  ∀ r w, r ∉ table w → is_ok (route_delete r w).2 = false.
Lemma remove_absent_fails {W} `{RouteTable W} a (w : W) :
  refuses_absent W → table w ## list_to_set (routes a) → routes a ≠ [] → is_ok (remove a w).2 = false.
Proof.
  intros Href Hd Hne. unfold remove, m_bind, m_map_err. pose proof (table_new w) as Hw.
  destruct (manager_new w) as [w0 [[]|e]]; cbn [map_err fst] in *; [|done].
  assert (Hr : ∃ r rs, rev (routes a) = r :: rs).
  { destruct (rev (routes a)) as [|r rs] eqn:E; [|by exists r, rs].
    apply (f_equal (@rev _)) in E. by rewrite rev_involutive in E. }
  destruct Hr as (r & rs & Hr). rewrite Hr. cbn [m_for]. unfold m_bind.
  assert (Hin : r ∈ routes a).
  { rewrite (Permutation_rev (routes a)), Hr. apply list_elem_of_here. }
  pose proof (Href r w0) as Hx. destruct (route_delete r w0) as [w1 [[]|e]]; [|done].
  exfalso. enough (true = false) by done. apply Hx. rewrite Hw. intros Ht. apply (Hd r Ht). by apply elem_of_list_to_set.
Qed.

(** What the calls for the routes that satisfy [P] leave alone, such routes
    being applied and removed leaves alone. *)
Section untouched.
Context {W : Type} `{RouteManager W} {O : Type} (obs : W → O) (P : Route → Prop).
Hypothesis new_keeps : keeps obs manager_new.
Hypothesis add_keeps : ∀ r, P r → keeps obs (route_add r).
Hypothesis delete_keeps : ∀ r, P r → keeps obs (route_delete r).

Lemma keeps_rollback rs w : Forall P rs → obs (rollback_added_routes rs w) = obs w.
Proof.
  intros Hp. revert w. induction Hp as [|r rs Hr _ IH]; intros w; cbn [rollback_added_routes]; [done|].
  rewrite IH. by apply delete_keeps.
Qed.

Lemma keeps_apply `{IpNet} ifname networks :
  Forall P (system_routes ifname networks) → keeps obs (apply ifname networks).
Proof.
  intros Hp. unfold apply. apply keeps_bind; [by apply keeps_map_err|intros _].
  apply keeps_bind; [|intros added; apply keeps_ret].
  assert (Hnil : Forall P []) by constructor. revert Hnil. generalize (@nil Route).
  induction Hp as [|r rs Hr _ IH]; intros added Hadded w; cbn [apply_loop]; [done|].
  pose proof (add_keeps r Hr w) as Ha. destruct (route_add r w) as [w1 [[]|e]]; cbn [fst] in Ha.
  - rewrite IH; [done|]. apply Forall_app. by rewrite Forall_singleton.
  - case_bool_decide; [by rewrite IH|]. cbn [fst]. rewrite keeps_rollback; [done|]. by apply Forall_rev.
Qed.

Lemma keeps_remove a : Forall P (routes a) → keeps obs (remove a).
Proof.
  intros Hp. unfold remove. apply keeps_bind; [by apply keeps_map_err|intros _].
  apply keeps_for, Forall_rev, (Forall_impl _ _ _ Hp). intros r Hr. by apply keeps_map_err, delete_keeps.
Qed.
End untouched.

(** A routing table as a list of routes, which refuses prefixes above 32. *)
Module ListTable.
#[global] Instance manager : RouteManager (list Route) := {
  manager_new w := (w, Ok tt);
  route_add r w :=
    if decide (32 < rt_prefix r) then (w, Err (IoError InvalidInput "prefix"))
    else if decide (r ∈ w) then (w, Err (IoError AlreadyExists "exists"))
    else (r :: w, Ok tt);
  route_delete r w :=
    if decide (r ∈ w) then (filter (λ x, x ≠ r) w, Ok tt) else (w, Err (IoError NotFound "missing"));
}.
#[global] Instance laws : RouteTable (list Route).
Proof.
  refine {| table w := list_to_set w |}; cbn.
  - done.
  - intros r w w'. repeat case_decide; intros [= <-]. by rewrite elem_of_list_to_set.
  - intros r w w' e. repeat case_decide; intros [= <- <-]; rewrite ?elem_of_list_to_set; done.
  - intros r w w'. case_decide; intros [= <-]. apply set_eq. intros x.
    rewrite elem_of_difference, !elem_of_list_to_set, list_elem_of_filter, elem_of_singleton.
    clear. tauto.
  - intros r w w' e. case_decide; intros [= <- <-]; done.
Defined.
Lemma deletes : deletes_present (list Route).
Proof. intros r w Hr. cbn in *. apply elem_of_list_to_set in Hr. by rewrite decide_True. Qed.
End ListTable.

(** CIDRs for the witnesses: an address and a prefix. *)
Module SimpleNet.
#[global] Instance net : IpNet := {
  IpNetwork := IpAddr * Z;
  net_parse s := match split_once "/" s with
                 | Some (a, p) => i ← parse_ip a; n ← parse_uint 128 p; Some (i, n)
                 | None => i ← parse_ip s; Some (i, if is_ipv4 i then 32 else 128)
                 end;
  net_of_ip i := (i, if is_ipv4 i then 32 else 128);
  net_is_v4 n := is_ipv4 n.1;
  net_network n := n.1;
  net_prefix n := n.2;
}.
End SimpleNet.

(** ** Properties *)

(** Installing the tunnel's routes and removing them again leaves the
    routing table exactly as it was, whatever was in it: routes that already
    existed are neither claimed nor removed; while they are installed every
    wanted route is in the table and nothing else was added. *)
Theorem apply_remove_restores {W} `{RouteTable W} `{IpNet} ifname networks w w1 a w2 :
  apply ifname networks w = (w1, Ok a) → remove a w1 = (w2, Ok tt) →
  table w1 = table w ∪ list_to_set (system_routes ifname networks) ∧
  table w ## list_to_set (routes a) ∧ table w2 = table w.
Proof.
  intros Ha Hr. destruct (apply_ok_spec _ _ _ _ _ Ha) as (_ & Hnd & Hd & Ht & Hs).
  split; [exact Hs|]. split; [exact Hd|].
  unfold remove, m_bind, m_map_err in Hr. pose proof (table_new w1) as Hw.
  destruct (manager_new w1) as [wb [[]|e]]; cbn in Hw, Hr; [|done].
  rewrite (remove_loop_ok _ _ _ Hr), Hw, Ht.
  assert (Hrev : list_to_set (rev (routes a)) =@{gset Route} list_to_set (routes a))
    by (apply list_to_set_perm_L; symmetry; apply Permutation_rev).
  rewrite Hrev. clear -Hd. set_solver.
Qed.

Definition lan : IpNetwork := (V4 (v4 10 0 0 0), 8).
Definition wan : IpNetwork := (V4 0, 1).
Definition lan_route : Route := {| rt_destination := V4 (v4 10 0 0 0); rt_prefix := 8; rt_if_name := "wg0" |}.
Definition wan_route : Route := {| rt_destination := V4 0; rt_prefix := 1; rt_if_name := "wg0" |}.

Lemma apply_remove_restores_witness :
  ∃ w1 a w2, apply "wg0" [lan; wan] [ lan_route ] = (w1, Ok a) ∧
    routes a = [wan_route] ∧ remove a w1 = (w2, Ok tt) ∧ table w2 = table [ lan_route ].
Proof.
  eexists _, _, _. split; [vm_compute; reflexivity|]. split; [reflexivity|].
  split; [vm_compute; reflexivity|].
  eapply (apply_remove_restores "wg0" [lan; wan]); vm_compute; reflexivity.
Defined.

(** When a route cannot be added, the routes added before it are taken
    back: the table is left exactly as it was, provided that deleting a route
    that is present works. *)
Theorem apply_failure_rolls_back {W} `{RouteTable W} `{IpNet} ifname networks w w' e :
  deletes_present W → apply ifname networks w = (w', Err e) → table w' = table w.
Proof. apply apply_err_spec. Qed.

Lemma apply_failure_rolls_back_witness :
  ∃ w' e, apply "wg0" [wan; (V4 0, 33)] [ lan_route ] = (w', Err e) ∧
    table w' = table [ lan_route ].
Proof.
  eexists _, _. split; [vm_compute; reflexivity|].
  eapply (apply_failure_rolls_back "wg0" [wan; (V4 0, 33)]); [apply ListTable.deletes|].
  vm_compute. reflexivity.
Defined.

(** The networks of a tunnel are, in order, the IPv4 CIDRs of its mode's
    list, each parsed as IPv4, then, only when the tunnel has an IPv6 address,
    its IPv6 CIDRs, each parsed as IPv6; one bad or wrong-family CIDR refuses
    the whole configuration. *)
Theorem networks_from_vpn_conn_spec `{IpNet} conn mode (ipv6 : bool) :
  let s := conn_setting conn in
  let v4s := default [] (match mode with RouteFull => vpn_route_full s | RouteSplit => vpn_route_split s end) in
  let v6s := if (ipv6 : bool) then default [] (match mode with RouteFull => v6_route_full s | RouteSplit => v6_route_split s end)
             else [] in
  match networks_from_vpn_conn conn mode ipv6 with
  | Ok l => ∃ l4 l6, l = l4 ++ l6 ∧
      Forall2 (λ c n, net_parse c = Some n ∧ net_is_v4 n = true) v4s l4 ∧
      Forall2 (λ c n, net_parse c = Some n ∧ net_is_v4 n = false) v6s l6
  | Err e => ∃ c, c ∈ v4s ++ v6s ∧
      (e = InvalidRoute c ∧ net_parse c = None ∨
       ∃ f n, e = InvalidRouteFamily c f ∧ net_parse c = Some n)
  end.
Proof.
  unfold networks_from_vpn_conn. destruct mode; cbn.
  all: match goal with |- context [add_networks ?a ?l FamilyV4] =>
         pose proof (add_networks_spec a l FamilyV4) as H4; destruct (add_networks a l FamilyV4) as [r4|e4] end.
  all: cbn in H4 |- *.
  2, 4: destruct H4 as (c & Hc & He); exists c; split; [apply elem_of_app; by left|exact He].
  all: destruct H4 as (l4 & -> & Hl4); destruct ipv6; [|exists l4, []; rewrite app_nil_r; eauto].
  all: match goal with |- context [add_networks ?a ?l FamilyV6] =>
         pose proof (add_networks_spec a l FamilyV6) as H6; destruct (add_networks a l FamilyV6) as [r6|e6] end.
  2, 4: destruct H6 as (c & Hc & He); exists c; split; [apply elem_of_app; by right|exact He].
  all: destruct H6 as (l6 & -> & Hl6); exists l4, l6; eauto.
Qed.

End Routes.
