(* ===== verification/Signing.v ===== *)
(** * Request signing ([api/src/signing.rs])

    When a request is signed, over which bytes, and with which key.  The
    cryptographic primitives, the text encodings and the generated protobuf
    encoder are behind the interface [Crypto]. *)

From S2P Require Import Prelude RustStr.

Module Signing.

Abbreviation bytes := (list ascii) (only parsing).

(** [Hmac::new_from_slice] answers the keyed function, or refuses the key. *)
Class Crypto : Type := {
  hmac_new : bytes → option (bytes → bytes);
  sha256 : bytes → bytes;
  sha1 : bytes → bytes;
  base64_encode : bytes → string;
  base64_decode : string → result string bytes;
  hex_encode : bytes → string;
  aes256_cbc_pkcs7 : bytes → bytes → bytes → option bytes;   (* key, iv, plaintext *)
  (** The generated encoder of the [HttpSignHeader] message. *)
  http_sign_header_to_vec : Z → Z → bytes → bytes;           (* version, flags, signature *)
}.

(* @api/src/signing.rs:18-18 AES_CBC_BLOCK_SIZE *)
Definition AES_CBC_BLOCK_SIZE : nat := 16.
(* @api/src/signing.rs:19-19 DEFAULT_ROOT_KEY_VERSION *)
Definition DEFAULT_ROOT_KEY_VERSION : Z := 1.
(* @api/src/signing.rs:20-20 FIXED_PASSWORD_KEY *)
Definition FIXED_PASSWORD_KEY : string := "8bfa9ad090fbbf87e518f1ce24a93eee".
(* @api/src/signing.rs:21-21 HTTP_SIGN_HKDF_SECRET *)
Definition HTTP_SIGN_HKDF_SECRET : bytes := bytes_of "ygicehnydny4fj".

(** A flag set is its [u64]; [contains] asks for all the bits of the mask. *)
(* @api/src/signing.rs:23-37 SigningInputFlags *)
Definition SigningInputFlags : Type := Z.
Definition METHOD : Z := Z.shiftl 1 1.
Definition PATH : Z := Z.shiftl 1 2.
Definition QUERY : Z := Z.shiftl 1 3.
Definition BODY_SHA256 : Z := Z.shiftl 1 4.
Definition COOKIE : Z := Z.shiftl 1 5.
Definition ANDROID_RESERVED_6 : Z := Z.shiftl 1 6.
Definition CSRF_TOKEN : Z := Z.shiftl 1 7.
Definition KNOCK_TOKEN : Z := Z.shiftl 1 8.
Definition JWT_TOKEN : Z := Z.shiftl 1 9.
Definition has_flag (flags mask : Z) : bool := Z.land flags mask =? mask.

(* @api/src/signing.rs:265-274 default_signing_input_flags *)
Definition default_signing_input_flags : SigningInputFlags :=
  Z.lor METHOD (Z.lor PATH (Z.lor QUERY (Z.lor BODY_SHA256 (Z.lor COOKIE
    (Z.lor ANDROID_RESERVED_6 (Z.lor CSRF_TOKEN KNOCK_TOKEN)))))).

(* @api/src/signing.rs:52-58 SigningRuleConfig *)
Record SigningRuleConfig : Type := {
  rule_urls : list string;
  rule_enable_signing : bool;
  rule_signing_input_params : Z;      (* u64 *)
  rule_max_time_desync : option Z;    (* u64 *)
}.

(* @api/src/signing.rs:39-50 SigningConfig *)
Record SigningConfig : Type := {
  enabled : bool;
  root_key_version : Z;               (* u64 *)
  signing_input_params : Z;           (* u64 *)
  algorithms : list string;
  rules : list SigningRuleConfig;
  activation_code : option string;
  device_id : option string;
  hmac_key_base64 : option string;
  shared_secret : option string;
}.
Definition signing_config_default : SigningConfig := {|
  enabled := false; root_key_version := 0; signing_input_params := 0; algorithms := []; rules := [];
  activation_code := None; device_id := None; hmac_key_base64 := None; shared_secret := None |}.

(* @api/src/signing.rs:65-76 SigningError *)
Inductive SigningError : Type :=
  | MissingSecret
  | InvalidBase64 (source : string)
  | InvalidKey.

(* @api/src/signing.rs:78-86 PasswordCipherError *)
Inductive PasswordCipherError : Type :=
  | Padding
  | InvalidKeyLength (length : Z).

(* @api/src/signing.rs:88-92 SignedHeader *)
Record SignedHeader : Type := { sh_name : string; sh_value : string }.

(** What signing reads of a URL: its path and its query. *)
Record UrlParts : Type := { url_path : string; url_query : option string }.

(** What signing reads of the headers: the text of a header by its lower-case
    name, [None] when it is absent or not visible ASCII. *)
Definition Headers : Type := string → option string.

(* @api/src/signing.rs:283-286 is_multipart *)
Definition is_multipart (headers : Headers) : bool :=
  is_some_and (headers "content-type") (λ v, starts_with (to_ascii_lowercase v) "multipart/").

(** [if flags.contains(F) { out.extend(part) }]. *)
Definition part (flags mask : Z) (p : option bytes) : bytes :=
  if has_flag flags mask then default [] p else [].

Section signing.
Context `{Crypto}.

(* @api/src/signing.rs:223-263 signing_input *)
Definition signing_input (method : string) (url : UrlParts) (headers : Headers) (body : bytes)
    (flags : SigningInputFlags) : bytes :=
  part flags METHOD (Some (bytes_of method))
  ++ part flags PATH (Some (bytes_of (url_path url)))
  ++ part flags QUERY (bytes_of <$> url_query url)
  ++ part flags BODY_SHA256 (if bool_decide (body = []) then None else Some (sha256 body))
  ++ part flags COOKIE (bytes_of <$> headers "cookie")
  ++ part flags CSRF_TOKEN (bytes_of <$> headers "csrf-token")
  ++ part flags KNOCK_TOKEN (bytes_of <$> headers "knock-token")
  ++ part flags JWT_TOKEN ((λ v, bytes_of (trim v)) <$> headers "jwt-token").

(** The expand loop; [counter] is a [u8] that wraps. *)
Fixpoint hkdf_expand (fuel : nat) (mac : bytes → bytes) (info previous : bytes) (counter : Z)
    (okm : bytes) (length_ : nat) : bytes :=
  match fuel with
  | O => okm
  | S fuel' =>
      if (length_ <=? length okm)%nat then okm
      else
        let previous := mac (previous ++ info ++ [ascii_of_nat (Z.to_nat counter)]) in
        hkdf_expand fuel' mac info previous ((counter + 1) mod 256) (okm ++ previous) length_
  end.

(** Every block is at least one byte long, so [length_] rounds are enough. *)
(* @api/src/signing.rs:307-329 hkdf_sha256 *)
Definition hkdf_sha256 (ikm salt info : bytes) (length_ : nat) : result SigningError bytes :=
  let? extract := ok_or (hmac_new salt) InvalidKey in
  let prk := extract ikm in
  let? mac := ok_or (hmac_new prk) InvalidKey in
  Ok (take length_ (hkdf_expand length_ mac info [] 1 [] length_)).

(* @api/src/signing.rs:299-305 generate_http_sign_key_bytes *)
Definition generate_http_sign_key_bytes (code dev : string) : result SigningError bytes :=
  let normalized_code := to_ascii_lowercase (trim code) in
  let info := normalized_code +:+ "|" +:+ dev in
  hkdf_sha256 HTTP_SIGN_HKDF_SECRET [] (bytes_of info) 32.

(* @api/src/signing.rs:135-154 SigningContext::hmac_key *)
Definition hmac_key (c : SigningConfig) : result SigningError bytes :=
  match hmac_key_base64 c with
  | Some encoded => map_err InvalidBase64 (base64_decode encoded)
  | None =>
      match activation_code c, device_id c with
      | Some code, Some dev => generate_http_sign_key_bytes code dev
      | _, _ => ok_or (bytes_of <$> shared_secret c) MissingSecret
      end
  end.

(* @api/src/signing.rs:156-162 SigningContext::root_key_version *)
Definition effective_root_key_version (c : SigningConfig) : Z :=
  if root_key_version c =? 0 then DEFAULT_ROOT_KEY_VERSION else root_key_version c.

Definition flags_or_default (params : Z) : SigningInputFlags :=
  if params =? 0 then default_signing_input_flags else params.

(* @api/src/signing.rs:164-187 SigningContext::signing_input_flags *)
Definition signing_input_flags (c : SigningConfig) (url : UrlParts) : option SigningInputFlags :=
  match rules c with
  | [] => Some (flags_or_default (signing_input_params c))
  | rs =>
      (λ rule, flags_or_default (rule_signing_input_params rule)) <$>
      List.find (λ rule, rule_enable_signing rule
                         && existsb (λ u, bool_decide (u = url_path url)) (rule_urls rule)) rs
  end.

(* @api/src/signing.rs:331-341 encode_http_sign_header *)
Definition encode_http_sign_header (version : Z) (flags : SigningInputFlags) (signature : bytes) :
    bytes := http_sign_header_to_vec version flags signature.

(* @api/src/signing.rs:110-133 SigningContext::sign *)
Definition sign (c : SigningConfig) (method : string) (url : UrlParts) (headers : Headers)
    (body : bytes) : result SigningError (list SignedHeader) :=
  if negb (enabled c) then Ok []
  else if eq_ignore_ascii_case method "PUT" || is_multipart headers then Ok []
  else
    match signing_input_flags c url with
    | None => Ok []
    | Some flags =>
        let? key := hmac_key c in
        let input := signing_input method url headers body flags in
        let? mac := ok_or (hmac_new key) InvalidKey in
        let signature := mac input in
        let header := encode_http_sign_header (effective_root_key_version c) flags signature in
        Ok [{| sh_name := "Sign"; sh_value := "v1;" +:+ base64_encode header |}]
    end.

(** ** Password encryption *)

(* @api/src/signing.rs:288-297 aes_cbc_iv *)
Definition aes_cbc_iv (key : string) : bytes :=
  let digest_hex := bytes_of (hex_encode (sha1 (bytes_of key))) in
  take AES_CBC_BLOCK_SIZE digest_hex
  ++ replicate (AES_CBC_BLOCK_SIZE - length digest_hex) Ascii.zero.

(* @api/src/signing.rs:94-97 PasswordCipher *)
Record PasswordCipher : Type := { fixed_string : string }.
(* @api/src/signing.rs:191-194 PasswordCipher::new *)
Definition password_cipher_new (s : string) : PasswordCipher := {| fixed_string := s |}.
(* @api/src/signing.rs:196-199 PasswordCipher::generated *)
Definition password_cipher_generated : PasswordCipher := password_cipher_new FIXED_PASSWORD_KEY.

(* @api/src/signing.rs:201-215 PasswordCipher::encrypt_aes_cbc *)
Definition encrypt_aes_cbc (c : PasswordCipher) (plaintext : string) : result PasswordCipherError string :=
  let key := bytes_of (fixed_string c) in
  if negb (length key =? 32)%nat then Err (InvalidKeyLength (Z.of_nat (length key)))
  else
    let iv := aes_cbc_iv (fixed_string c) in
    let? ciphertext := ok_or (aes256_cbc_pkcs7 key iv (bytes_of plaintext)) Padding in
    Ok (hex_encode ciphertext).

(** [PasswordCipher::generated().encrypt_aes_cbc(..)]. *)
Definition encrypt_password (plaintext : string) : result PasswordCipherError string :=
  encrypt_aes_cbc password_cipher_generated plaintext.

End signing.

(** ** Lemmas *)

(** The default input covers everything but the JWT. *)
Lemma default_flags_parts :
  forallb (has_flag default_signing_input_flags)
    [METHOD; PATH; QUERY; BODY_SHA256; COOKIE; CSRF_TOKEN; KNOCK_TOKEN] = true ∧
  has_flag default_signing_input_flags JWT_TOKEN = false.
Proof. split; reflexivity. Qed.

(** The blocks of the HKDF expansion, RFC 5869 with the counter in one byte. *)
Fixpoint hkdf_blocks (mac : bytes → bytes) (info previous : bytes) (counter : Z) (n : nat) :
    list (list ascii) :=
  match n with
  | O => []
  | S n' =>
      let b := mac (previous ++ info ++ [ascii_of_nat (Z.to_nat counter)]) in
      b :: hkdf_blocks mac info b ((counter + 1) mod 256) n'
  end.

Lemma hkdf_expand_blocks fuel mac info previous counter okm len :
  (∀ m, length (mac m) ≠ 0%nat) → (len ≤ length okm + fuel)%nat →
  ∃ n, hkdf_expand fuel mac info previous counter okm len
       = okm ++ concat (hkdf_blocks mac info previous counter n) ∧
       (len ≤ length (hkdf_expand fuel mac info previous counter okm len))%nat.
Proof.
  intros Hmac. revert previous counter okm. induction fuel as [|fuel IH]; intros prev c okm Hlen;
    cbn [hkdf_expand].
  { exists 0%nat. cbn. rewrite app_nil_r. split; [done|lia]. }
  destruct (Nat.leb_spec len (length okm)).
  { exists 0%nat. cbn. by rewrite app_nil_r. }
  set (b := mac _). pose proof (Hmac (prev ++ info ++ [ascii_of_nat (Z.to_nat c)])) as Hb.
  fold b in Hb. destruct (IH b ((c + 1) mod 256) (okm ++ b)) as (n & Hn & Hl).
  { rewrite length_app. lia. }
  exists (S n). split; [|exact Hl]. rewrite Hn. cbn [hkdf_blocks concat].
  fold b. by rewrite app_assoc.
Qed.

(** The conditions under which a request is signed. *)
Definition wants_signature (c : SigningConfig) (method : string) (url : UrlParts) (headers : Headers) :
    Prop :=
  enabled c = true ∧ eq_ignore_ascii_case method "PUT" = false ∧ is_multipart headers = false ∧
  (rules c = [] ∨
   ∃ r, r ∈ rules c ∧ rule_enable_signing r = true ∧ url_path url ∈ rule_urls r).

Lemma signing_input_flags_some c url :
  is_some (signing_input_flags c url) = true ↔
  rules c = [] ∨ ∃ r, r ∈ rules c ∧ rule_enable_signing r = true ∧ url_path url ∈ rule_urls r.
Proof.
  unfold signing_input_flags. destruct (rules c) as [|r rs]; [split; [by left|done]|].
  set (p := λ rule, rule_enable_signing rule && _). split.
  - destruct (List.find p (r :: rs)) as [r'|] eqn:Hf; [|done]. intros _. right.
    apply find_some in Hf as [Hin Hp]. exists r'. split; [by apply list_elem_of_In|].
    subst p. cbn in Hp. apply andb_true_iff in Hp as [Hen Hu]. split; [done|]. apply existsb_exists in Hu as (u & Hu & He).
    bool_hyps. subst. by apply list_elem_of_In.
  - intros [?|(r' & Hin & Hen & Hu)]; [done|].
    destruct (List.find p (r :: rs)) eqn:Hf; [done|].
    apply list_elem_of_In in Hin. apply (find_none _ _ Hf) in Hin. subst p. cbn in Hin.
    rewrite Hen in Hin. cbn in Hin. apply not_true_iff_false in Hin. exfalso. apply Hin.
    apply existsb_exists. exists (url_path url). split; [by apply list_elem_of_In|].
    by apply bool_decide_eq_true.
Qed.

(** ** Properties *)

(** *** What is signed, said again

    The specification of the signature: bit 1 of the flags asks for the method,
    and so on, in this order; the key and the flags by their sources. *)
Definition signed_bytes `{Crypto} (method : string) (url : UrlParts) (headers : Headers) (body : bytes) (flags : Z) :
    bytes :=
  let at_bit n (o : option bytes) := if Z.testbit flags n then default [] o else [] in
  concat [at_bit 1 (Some (bytes_of method)); at_bit 2 (Some (bytes_of (url_path url)));
          at_bit 3 (bytes_of <$> url_query url); at_bit 4 (if bool_decide (body = []) then None else Some (sha256 body));
          at_bit 5 (bytes_of <$> headers "cookie"); at_bit 7 (bytes_of <$> headers "csrf-token");
          at_bit 8 (bytes_of <$> headers "knock-token"); at_bit 9 ((λ v, bytes_of (trim v)) <$> headers "jwt-token")].

(** The flags are those of the first enabled rule that lists the path, or,
    without rules, the configuration's; 0 stands for the bits 1 to 8. *)
Inductive flags_of (c : SigningConfig) (path : string) : Z → Prop :=
  | FlagsOfConfig : rules c = [] → signing_input_params c ≠ 0 → flags_of c path (signing_input_params c)
  | FlagsDefault : rules c = [] → signing_input_params c = 0 → flags_of c path 510
  | FlagsOfRule l1 r l2 flags :
      rules c = l1 ++ r :: l2 → rule_enable_signing r = true → path ∈ rule_urls r →
      (∀ r', r' ∈ l1 → rule_enable_signing r' = true → path ∉ rule_urls r') →
      flags = (if decide (rule_signing_input_params r = 0) then 510 else rule_signing_input_params r) →
      flags_of c path flags.

(** A given key before the one derived from the activation, before the shared
    secret. *)
Inductive key_of `{Crypto} (c : SigningConfig) : result SigningError bytes → Prop :=
  | KeyGiven text : hmac_key_base64 c = Some text → key_of c (map_err InvalidBase64 (base64_decode text))
  | KeyDerived code dev :
      hmac_key_base64 c = None → activation_code c = Some code → device_id c = Some dev →
      key_of c (hkdf_sha256 (bytes_of "ygicehnydny4fj") [] (bytes_of (to_ascii_lowercase (trim code) +:+ "|" +:+ dev)) 32)
  | KeyShared secret :
      hmac_key_base64 c = None → activation_code c = None ∨ device_id c = None → shared_secret c = Some secret →
      key_of c (Ok (bytes_of secret))
  | KeyMissing :
      hmac_key_base64 c = None → activation_code c = None ∨ device_id c = None → shared_secret c = None →
      key_of c (Err MissingSecret).

Lemma has_flag_testbit flags n : 0 ≤ n → has_flag flags (Z.shiftl 1 n) = Z.testbit flags n.
Proof.
  intros Hn. unfold has_flag. rewrite Z.shiftl_1_l. apply eq_true_iff_eq. rewrite Z.eqb_eq. split.
  - intros Hl. rewrite <- (Z.pow2_bits_true n Hn), <- Hl, Z.land_spec, Z.pow2_bits_true by done. by rewrite andb_true_r.
  - intros Hb. apply Z.bits_inj'. intros m Hm. rewrite Z.land_spec.
    destruct (Z.eqb_spec m n) as [->|Hne]; [by rewrite Hb|].
    by rewrite Z.pow2_bits_false, andb_false_r by done.
Qed.

Lemma signing_input_spec `{Crypto} method url headers body flags :
  signing_input method url headers body flags = signed_bytes method url headers body flags.
Proof.
  unfold signing_input, signed_bytes, part, METHOD, PATH, QUERY, BODY_SHA256, COOKIE, CSRF_TOKEN, KNOCK_TOKEN, JWT_TOKEN.
  rewrite !has_flag_testbit by lia. cbn [concat]. by rewrite app_nil_r.
Qed.

Lemma flags_spec c url flags : signing_input_flags c url = Some flags → flags_of c (url_path url) flags.
Proof.
  unfold signing_input_flags. destruct (rules c) as [|r0 rs0] eqn:Hr.
  { unfold flags_or_default. destruct (Z.eqb_spec (signing_input_params c) 0) as [H0|H0]; intros [= <-];
      [by apply FlagsDefault|by apply FlagsOfConfig]. }
  rewrite <- Hr. clear Hr r0 rs0. set (p := λ rule, rule_enable_signing rule && _).
  assert (Hp : ∀ r, p r = true ↔ rule_enable_signing r = true ∧ url_path url ∈ rule_urls r).
  { intros r. unfold p. rewrite andb_true_iff, existsb_exists. setoid_rewrite bool_decide_eq_true.
    setoid_rewrite list_elem_of_In. naive_solver. }
  assert (Hfind : ∀ l r, List.find p l = Some r → ∃ l1 l2, l = l1 ++ r :: l2 ∧ p r = true ∧ ∀ r', r' ∈ l1 → p r' = false).
  { intros l r. induction l as [|x l IH]; cbn; [done|]. destruct (p x) eqn:Hx.
    - intros [= ->]. exists [], l. split; [done|]. split; [done|]. intros r' Hin. by apply elem_of_nil in Hin.
    - intros Hf. destruct (IH Hf) as (l1 & l2 & -> & Hpr & Hall). exists (x :: l1), l2. split; [done|]. split; [done|].
      intros r' [->|Hin]%elem_of_cons; auto. }
  destruct (List.find p (rules c)) as [r|] eqn:Hf; [|done]. intros [= <-].
  destruct (Hfind _ _ Hf) as (l1 & l2 & Hl & [Hen Hin]%Hp & Hall).
  apply (FlagsOfRule c _ l1 r l2); [done|done|done| |].
  - intros r' Hr' Hen' Hin'. specialize (Hall r' Hr'). by rewrite (proj2 (Hp r') (conj Hen' Hin')) in Hall.
  - unfold flags_or_default. destruct (Z.eqb_spec (rule_signing_input_params r) 0), (decide _); done.
Qed.

Lemma key_spec `{Crypto} c : key_of c (hmac_key c).
Proof.
  unfold hmac_key. destruct (hmac_key_base64 c) as [text|] eqn:Hk; [by apply KeyGiven|].
  destruct (activation_code c) as [code|] eqn:Ha, (device_id c) as [dev|] eqn:Hd; [by apply KeyDerived| | |].
  all: destruct (shared_secret c) as [x|] eqn:Hs; cbn; [apply KeyShared|apply KeyMissing]; auto.
Qed.

(** C32: A request is signed exactly when signing is enabled, the method is not
    PUT, the body is not multipart, and either there are no rules or an
    enabled rule lists the path; it then carries exactly one header, [Sign],
    with the signature of exactly the bytes its flags ask for - method, path,
    query, digest of a body, cookie, CSRF, knock and JWT token, in this order -
    under the given key, else the one derived from the activation code and the
    device, else the shared secret; or the request fails for want of a usable
    key.  Otherwise no header is added and signing cannot fail. *)
Theorem sign_decision `{Crypto} c method url headers body :
  (¬ wants_signature c method url headers → sign c method url headers body = Ok []) ∧
  (wants_signature c method url headers →
   match sign c method url headers body with
   | Ok hs => ∃ flags key mac, flags_of c (url_path url) flags ∧ key_of c (Ok key) ∧ hmac_new key = Some mac ∧
       hs = [{| sh_name := "Sign";
                sh_value := "v1;" +:+ base64_encode (http_sign_header_to_vec
                  (if decide (root_key_version c = 0) then 1 else root_key_version c) flags
                  (mac (signed_bytes method url headers body flags))) |}]
   | Err e => key_of c (Err e) ∨ e = InvalidKey ∧ ∃ key, key_of c (Ok key) ∧ hmac_new key = None
   end).
Proof.
  pose proof (signing_input_flags_some c url) as Hsome. unfold sign, wants_signature.
  destruct (enabled c); cbn [negb]; [|split; [done|by intros (? & _)]].
  destruct (eq_ignore_ascii_case method "PUT"); cbn [orb]; [split; [done|by intros (_ & ? & _)]|].
  destruct (is_multipart headers); [split; [done|by intros (_ & _ & ? & _)]|].
  destruct (signing_input_flags c url) as [flags|] eqn:Hflags; cbn in Hsome.
  - split; [intros Hn; exfalso; apply Hn; tauto|]. intros _. apply flags_spec in Hflags.
    pose proof (key_spec c) as Hkey. destruct (hmac_key c) as [key|e]; cbn; [|by left].
    destruct (hmac_new key) as [mac|] eqn:Hk; cbn; [|right; eauto].
    exists flags, key, mac. split; [done|]. split; [done|]. split; [done|].
    rewrite signing_input_spec. unfold encode_http_sign_header, effective_root_key_version.
    by destruct (Z.eqb_spec (root_key_version c) 0), (decide (root_key_version c = 0)).
  - split; [done|]. intros (_ & _ & _ & Hr). by apply Hsome in Hr.
Qed.

(** A toy primitive for the witnesses: a keyed function of 32 bytes. *)
#[local] Instance toy_crypto : Crypto := {
  hmac_new k := Some (λ m, take 32 (m ++ k ++ replicate 32 Ascii.zero));
  sha256 b := b; sha1 b := b;
  base64_encode b := of_bytes b; base64_decode s := Ok (bytes_of s);
  hex_encode b := of_bytes b; aes256_cbc_pkcs7 k iv p := Some p;
  http_sign_header_to_vec v f s := s;
}.

(** A key that is given, one rule that does not list the path and one that
    does, asking for method, path and cookie. *)
Definition signing_sample : SigningConfig := {|
  enabled := true; root_key_version := 0; signing_input_params := 0; algorithms := [];
  rules := [ {| rule_urls := ["/b"]; rule_enable_signing := true; rule_signing_input_params := 0; rule_max_time_desync := None |};
             {| rule_urls := ["/a"]; rule_enable_signing := true; rule_signing_input_params := 38; rule_max_time_desync := None |} ];
  activation_code := Some "CODE"; device_id := Some "dev"; hmac_key_base64 := Some "key"; shared_secret := Some "s" |}.
Definition cookie_header : Headers := λ n, if bool_decide (n = "cookie") then Some "id=1" else None.

Lemma sign_decision_witness :
  ∃ flags key mac, flags_of signing_sample "/a" flags ∧ key_of signing_sample (Ok key) ∧ hmac_new key = Some mac ∧
    sign signing_sample "GET" {| url_path := "/a"; url_query := Some "q" |} cookie_header (bytes_of "body")
      = Ok [{| sh_name := "Sign"; sh_value := "v1;" +:+ base64_encode (mac (bytes_of "GET/aid=1")) |}].
Proof.
  destruct (sign_decision signing_sample "GET" {| url_path := "/a"; url_query := Some "q" |} cookie_header (bytes_of "body"))
    as [_ Hs].
  assert (Hw : wants_signature signing_sample "GET" {| url_path := "/a"; url_query := Some "q" |} cookie_header).
  { do 3 (split; [reflexivity|]). right. eexists. split; [right; left|]. split; [reflexivity|left]. }
  specialize (Hs Hw).
  assert (Hok : is_ok (sign signing_sample "GET" {| url_path := "/a"; url_query := Some "q" |} cookie_header
      (bytes_of "body")) = true) by (vm_compute; reflexivity).
  destruct (sign _ _ _ _ _) as [hs|e]; [|discriminate Hok].
  destruct Hs as (flags & key & mac & Hf & Hk & Hm & ->).
  exists flags, key, mac. split; [exact Hf|]. split; [exact Hk|]. split; [exact Hm|].
  assert (flags = 38) as ->.
  { inversion Hf as [Hr|Hr|l1 r l2 fl Hr Hen Hin Hall He]; [discriminate Hr|discriminate Hr|].
    destruct l1 as [|r1 l1]; injection Hr as <- Hr.
    - cbn in Hin. apply list_elem_of_singleton in Hin. discriminate Hin.
    - destruct l1 as [|r2 l1]; injection Hr as <- Hr; [rewrite He; reflexivity|by destruct l1]. }
  reflexivity.
Defined.

(** The signing key schedule is total: when the MAC has 32-byte outputs,
    expanding to [length] bytes returns exactly that many, cut from the RFC 5869
    blocks in order; in particular the 32-byte key is the first block,
    [HMAC(prk, info ++ 0x01)]. *)
Theorem hkdf_output `{Crypto} ikm salt info len ext mac :
  hmac_new salt = Some ext → hmac_new (ext ikm) = Some mac → (∀ m, length (mac m) = 32%nat) →
  ∃ n okm, hkdf_sha256 ikm salt info len = Ok okm ∧ length okm = len ∧
    okm = take len (concat (hkdf_blocks mac info [] 1 n)) ∧
    (len = 32%nat → okm = mac (info ++ [ascii_of_nat 1])).
Proof.
  intros Hs He Hm. unfold hkdf_sha256. rewrite Hs. cbn. rewrite He. cbn.
  destruct (hkdf_expand_blocks len mac info [] 1 [] len) as (n & Hn & Hl);
    [intros m; by rewrite Hm|cbn; lia|].
  exists n, (take len (hkdf_expand len mac info [] 1 [] len)).
  split; [done|]. split; [rewrite length_take; lia|]. split; [by rewrite Hn|].
  intros ->. rewrite Hn in Hl |- *. destruct n as [|n]; [cbn in Hl; lia|].
  cbn [hkdf_blocks concat app]. rewrite take_app_le by (rewrite Hm; lia).
  apply take_ge. by rewrite Hm.
Qed.

Lemma hkdf_output_witness :
  ∃ okm, hkdf_sha256 HTTP_SIGN_HKDF_SECRET [] (bytes_of "code|dev") 40 = Ok okm
    ∧ length okm = 40%nat.
Proof.
  destruct (hkdf_output HTTP_SIGN_HKDF_SECRET [] (bytes_of "code|dev") 40
    (λ m, take 32 (m ++ [] ++ replicate 32 Ascii.zero))
    (λ m, take 32 (m ++ (take 32 (HTTP_SIGN_HKDF_SECRET ++ [] ++ replicate 32 Ascii.zero))
                     ++ replicate 32 Ascii.zero))) as (n & okm & Hok & Hlen & _).
  - reflexivity.
  - reflexivity.
  - intros m. rewrite length_take, !length_app, length_replicate. lia.
  - exists okm. split; [exact Hok|exact Hlen].
Defined.

End Signing.
