(* ===== verification/Api.v ===== *)
(** * The API client ([api/src/client.rs], [api/src/identity.rs])

    Endpoints and the addresses of VPN nodes, the shared cookie jar, the
    decoration of requests and the one path every API call takes: build,
    sign, send, absorb cookies, check the HTTP status, decode, check the API
    status.  URLs, HTTP and JSON decoding are behind [Urls] and [Http]. *)

From S2P Require Import Prelude RustStr Net Models Signing.
Import Models Signing.

Module Api.

(** ** URLs ([url::Url]) *)
Class Urls : Type := {
  Url : Type;
  url_parse : string → result string Url;
  url_join : Url → string → result string Url;
  url_append_pairs : Url → list (string * string) → Url;
  url_host_str : Url → option string;
  url_port : Url → option Z;                (* port_or_known_default *)
  url_parts : Url → UrlParts;
  url_to_string : Url → string;
  url_is_uri : Url → bool;                  (* the text parses as an [http::Uri] *)
}.

(* @api/src/client.rs:41-112 Error *)
Inductive ApiError : Type :=
  | InvalidBaseUrl (value source : string)
  | BuildHttpClient (source : string)
  | Encode (source : string)
  | BuildRequest (source : string)
  | Request (source : string)
  | Decode (source content : string)
  | HttpStatus (status : Z) (content : string)
  | HeaderValue (name : string)
  | HeaderName (name : string)
  | SignRequest (source : SigningError)
  | EncryptPassword (source : PasswordCipherError)
  | MissingVpnDotField (field : string)
  | InvalidPort (port : Z)
  | ApiStatus (code : Z) (message : string) (response : BaseResponse json).

(* @api/src/client.rs:25-25 DEFAULT_MATCH_BASE_URL *)
Definition DEFAULT_MATCH_BASE_URL : string := "https://corplink.volcengine.cn".

(** ** Nodes *)

(* @api/src/client.rs:658-661 MODE_FULL *)
Definition MODE_FULL : Z := 0.
Definition MODE_SPLIT : Z := 1.

Definition non_empty (o : option string) : option string := opt_filter (λ v, negb (str_is_empty v)) o.

(* @api/src/client.rs:664-675 VpnDot::api_host *)
Definition api_host (d : VpnDot) : string :=
  default (dot_ip d)
    (or_else (non_empty (dot_ip4_domain d))
       (or_else (non_empty (dot_fast_ip d)) (non_empty (dot_api_ip d)))).

(* @api/src/client.rs:677-685 VpnDot::should_use_vpn_ip_for_config_api *)
Definition should_use_vpn_ip_for_config_api (d : VpnDot) (is_auto_location : bool) : bool :=
  if is_auto_location || str_is_empty (dot_ip d) then false
  else is_some_and (dot_ip_delay_routing_policy d) is_operator_routing.

(* @api/src/client.rs:687-692 VpnDot::supports_reconnect *)
Definition supports_reconnect (d : VpnDot) : bool :=
  default false (dot_reconnect d) && negb (default false (dot_dedicated d))
  && negb (default false (dot_exclude d)).

(* @api/src/client.rs:694-700 VpnDot::supports_android_mode *)
Definition supports_android_mode (d : VpnDot) (requested_mode : Z) : bool :=
  negb (is_some_and (dot_mode d) (λ m, m =? MODE_SPLIT) && (requested_mode =? MODE_FULL)).

Section endpoints.
Context `{Urls}.

(* @api/src/client.rs:707-711 parse_base_url *)
Definition parse_base_url (value : string) : result ApiError Url :=
  map_err (InvalidBaseUrl value) (url_parse value).

(* @api/src/client.rs:713-717 endpoint_url *)
Definition endpoint_url (base_url : Url) (path : string) : result ApiError Url :=
  map_err (InvalidBaseUrl path) (url_join base_url path).

(* @api/src/client.rs:804-821 url_from_host_port *)
Definition url_from_host_port (scheme host : string) (port : Z) : result ApiError Url :=
  let? port := ok_or (opt_filter (λ p, negb (p =? 0)) (u16_try_from port)) (InvalidPort port) in
  let host := trim host in
  if str_is_empty host then Err (MissingVpnDotField "host")
  else
    let authority := if is_some (parse_ipv6 host) then "[" +:+ host +:+ "]" else host in
    parse_base_url (scheme +:+ "://" +:+ authority +:+ ":" +:+ show_nat port +:+ "/").

(* @api/src/client.rs:372-376 DotEndpoint *)
Record DotEndpoint : Type := { api_base_url : Url; wireguard_endpoint : Url }.

(* @api/src/client.rs:421-442 DotEndpoint::from_dot *)
Definition from_dot (d : VpnDot) (use_vpn_ip_for_api : bool) : result ApiError DotEndpoint :=
  let? api_port := ok_or (dot_api_port d) (MissingVpnDotField "api_port") in
  let? vpn_port := ok_or (dot_vpn_port d) (MissingVpnDotField "vpn_port") in
  let host := if use_vpn_ip_for_api then dot_ip d else api_host d in
  let? api := url_from_host_port "https" host api_port in
  let? wg := url_from_host_port "udp" (dot_ip d) vpn_port in
  Ok {| api_base_url := api; wireguard_endpoint := wg |}.

End endpoints.

(** ** Identity *)

(* @api/src/identity.rs:25-38 ClientIdentity *)
Record ClientIdentity : Type := {
  os : string; os_version : string; app_version : string; brand : string; model : string;
  device_id : string; build_number : string; os_version_patch : string; client_source : string;
  language : string; user_agent : string;
}.

#[export] Instance ClientIdentity_eq_dec : EqDecision ClientIdentity.
Proof. solve_decision. Defined.

(** [machine_uid] is what [machine_uid::get] answers; only a failure is an
    empty identifier. *)
(* @api/src/identity.rs:7-23 DEFAULT_DEVICE_ID *)
Definition default_device_id `{Crypto} (machine_uid : result string string) : string :=
  let machine_uid := match machine_uid with Ok value => value | Err _ => "" end in
  let digest := hex_encode (sha256 (bytes_of "device-id-v1" ++ bytes_of (trim machine_uid))) in
  of_bytes (take 32 (bytes_of digest)).

(** The device id depends on the machine and is an argument. *)
(* @api/src/identity.rs:41-62 ClientIdentity::default *)
Definition identity_default (default_device_id : string) : ClientIdentity := {|
  os := "Android"; os_version := "35"; app_version := "3.2.16"; brand := "google";
  model := "Pixel 8"; device_id := default_device_id; build_number := "2008";
  os_version_patch := "2025-05-05"; client_source := "FeiLian"; language := "en";
  user_agent := "CorpLink/3.2.16 (googlePixel 8; Android 15; en)" |}.

(* @api/src/identity.rs:66-80 ClientIdentity::query_pairs *)
Definition identity_query_pairs (i : ClientIdentity) (now_seconds : Z) : list (string * string) :=
  [("os", os i); ("os_version", os_version i); ("app_version", app_version i); ("brand", brand i);
   ("model", model i); ("language", language i); ("build_number", build_number i);
   ("os_version_patch", os_version_patch i); ("timestamp", show_int now_seconds);
   ("client_source", client_source i)].

(** ** The cookie jar *)

(** A [BTreeMap<String, String>]: a finite map, iterated in the byte order of
    its keys. *)
Fixpoint bytes_le (a b : list ascii) : bool :=
  match a, b with
  | [], _ => true
  | _ :: _, [] => false
  | x :: a', y :: b' => if RustStr.code x <? RustStr.code y then true
                        else if RustStr.code y <? RustStr.code x then false else bytes_le a' b'
  end.
Definition btree_iter (m : gmap string string) : list (string * string) :=
  sort_by (λ p q, bytes_le (bytes_of p.1) (bytes_of q.1)) (map_to_list m).

(* @api/src/client.rs:160-163 CookieStore *)
Record CookieStore : Type := {
  values : gmap string string;
  has_listener : bool;
  notifications : nat;      (* how often the listener was called *)
}.

(* @api/src/client.rs:172-179 CookieStore::empty *)
Definition cookies_empty : CookieStore :=
  {| values := ∅; has_listener := false; notifications := 0 |}.

(* @api/src/client.rs:181-188 CookieStore::with_values *)
Definition with_values (m : gmap string string) : CookieStore :=
  {| values := m; has_listener := false; notifications := 0 |}.

(* @api/src/client.rs:190-195 CookieStore::set_listener *)
Definition set_listener (s : CookieStore) : CookieStore :=
  {| values := values s; has_listener := true; notifications := notifications s |}.

(* @api/src/client.rs:207-210 CookieStore::is_empty *)
Definition cookies_is_empty (s : CookieStore) : bool := bool_decide (values s = ∅).

(* @api/src/client.rs:212-216 CookieStore::clear *)
Definition cookies_clear (s : CookieStore) : CookieStore :=
  {| values := ∅; has_listener := has_listener s; notifications := notifications s |}.

(* @api/src/client.rs:241-246 CookieStore::notify *)
Definition notify (s : CookieStore) : CookieStore :=
  {| values := values s; has_listener := has_listener s;
     notifications := if has_listener s then S (notifications s) else notifications s |}.

(** The loop of [merge], with its [changed] flag. *)
Fixpoint merge_loop (m : gmap string string) (updates : list (string * string)) (changed : bool) :
    gmap string string * bool :=
  match updates with
  | [] => (m, changed)
  | (name, value) :: us =>
      if is_some_and (m !! name) (λ existing, bool_decide (existing = value))
      then merge_loop m us changed
      else merge_loop (<[name := value]> m) us true
  end.
(* @api/src/client.rs:218-239 CookieStore::merge *)
Definition merge (s : CookieStore) (updates : list (string * string)) : CookieStore :=
  let '(m, changed) := merge_loop (values s) updates false in
  let s := {| values := m; has_listener := has_listener s; notifications := notifications s |} in
  if changed then notify s else s.

(** ** Request decoration *)

(* @api/src/client.rs:774-789 device_name_cookie_value *)
Definition device_name_cookie_value (i : ClientIdentity) : string :=
  let is_ascii_whitespace (c : ascii) :=
    let z := RustStr.code c in
    (z =? 32) || (z =? 9) || (z =? 10) || (z =? 12) || (z =? 13) in
  let name :=
    of_bytes (List.filter (λ c, negb (Ascii.eqb c ";" || Ascii.eqb c "," || Ascii.eqb c "="))
      (map (λ c, if is_ascii_whitespace c then "-"%char else c) (bytes_of (model i)))) in
  if str_is_empty (trim name) then "unknow" else name.

(* @api/src/client.rs:752-772 device_cookie_header *)
Definition device_cookie_header (cookies : gmap string string) (i : ClientIdentity) : string :=
  join "; " (map (λ '(n, v), n +:+ "=" +:+ v)
    (btree_iter cookies
     ++ [("device_id", device_id i); ("device_name", device_name_cookie_value i)])).

(** Headers by lower-case name; [insert] replaces. *)
Abbreviation HeaderMap := (gmap string string).

(* @api/src/client.rs:268-274 ApiHooks *)
Record ApiHooks : Type := {
  identity : ClientIdentity;
  knock_token : option string;
  signer : SigningConfig;
}.

Section decoration.
(** [HeaderValue::from_str] and [HeaderName::from_bytes] accept the text. *)
Context (header_value_ok header_name_ok : string → bool).

Definition insert_header (name display value : string) (h : HeaderMap) : result ApiError HeaderMap :=
  if header_value_ok value then Ok (<[name := value]> h) else Err (HeaderValue display).

Definition insert_some (name : string) (value : option string) (h : HeaderMap) :
    result ApiError HeaderMap :=
  match value with Some v => insert_header name name v h | None => Ok h end.

(** The jar is the hooks' shared [cookies]. *)
(* @api/src/client.rs:277-339 ApiHooks::base_headers *)
Definition base_headers (hooks : ApiHooks) (jar : CookieStore) : result ApiError HeaderMap :=
  let cookies := values jar in
  let accept_language := if contains (language (identity hooks)) "zh" then "zh-CN" else "en-US" in
  let? h := insert_header "accept-language" "Accept-Language" accept_language ∅ in
  let? h := insert_header "user-agent" "User-Agent" (user_agent (identity hooks)) h in
  let? h := insert_header "cookie" "Cookie" (device_cookie_header cookies (identity hooks)) h in
  let? h := insert_some "csrf-token" (cookies !! "csrf-token") h in
  let? h := insert_some "knock-token" (knock_token hooks) h in
  insert_some "jwt-token" (cookies !! "vpn-token") h.

Fixpoint insert_signed (hs : list SignedHeader) (h : HeaderMap) : result ApiError HeaderMap :=
  match hs with
  | [] => Ok h
  | s :: hs' =>
      if negb (header_name_ok (sh_name s)) then Err (HeaderName (sh_name s))
      else if negb (header_value_ok (sh_value s)) then Err (HeaderValue (sh_name s))
      else insert_signed hs' (<[to_ascii_lowercase (sh_name s) := sh_value s]> h)
  end.
End decoration.

(** ** The client *)

(** A request as the client sees it: [SendableRequest]'s method, path, query
    pairs and serialized body. *)
(* @api/src/models/common.rs:74-95 SendableRequest *)
Record SendableRequest : Type := {
  METHOD_ : string;
  req_path : string;
  req_query_pairs : list (string * string);
  req_body : result string (option bytes);
}.

(** [set_cookie] holds the [Set-Cookie] headers, [None] for one that is not
    visible ASCII; [resp_body] fails when reading it fails. *)
Record HttpResponse : Type := {
  status : Z;
  set_cookie : list (option string);
  resp_body : result string bytes;
}.
(** [StatusCode::is_success]. *)
Definition is_success (st : Z) : bool := (200 <=? st) && (st <? 300).

Class Http (W : Type) `{Urls} : Type := {
  http_request : string → Url → HeaderMap → bytes → M W string HttpResponse;
  now_seconds : W → Z;
  cookie_parse : string → option (string * string);
  header_value_ok : string → bool;
  header_name_ok : string → bool;
  from_utf8_lossy : bytes → string;
  json_from_slice : bytes → option (BaseResponse json);
}.

Section client.
Context {W : Type} `{Urls} `{!Http W} `{Crypto}.

(** The jar is shared by every client built from the same hooks, so it is
    threaded beside the world. *)
(* @api/src/client.rs:346-351 ApiClient *)
Record ApiClient : Type := { base_url : Url; hooks : ApiHooks }.

Abbreviation M' E A := (M (CookieStore * W) E A).

Definition with_world {E A} (m : M W E A) : M' E A :=
  λ '(jar, w), let '(w', r) := m w in ((jar, w'), r).

(* @api/src/client.rs:249-259 parse_set_cookies *)
Definition parse_set_cookies (r : HttpResponse) : list (string * string) :=
  filter_map (λ raw, raw ← raw; cookie_parse raw) (set_cookie r).

(* @api/src/client.rs:791-802 response_content *)
Definition response_content (b : bytes) : string :=
  let max := 4096%nat in
  if (length b <=? max)%nat then from_utf8_lossy b
  else from_utf8_lossy (take max b) +:+ " ... [truncated " +:+
       show_nat (Z.of_nat (length b - max)) +:+ " bytes]".

(* @api/src/client.rs:719-725 decode_response *)
Definition decode_response {T} (decode : bytes → result string (BaseResponse T)) (b : bytes) :
    result ApiError (BaseResponse T) :=
  map_err (λ e, Decode e (response_content b)) (decode b).

(* @api/src/client.rs:727-750 check_api_status *)
Definition check_api_status {T} (r : BaseResponse T) (body : bytes) : result ApiError unit :=
  if Models.code r =? 0 then Ok tt
  else
    let msg := default "unknown API error" (message r) in
    let resp := default {| Models.code := Models.code r; message := Some msg; data := None;
                           action := None; logout_reason := None; extra := None |}
                        (json_from_slice body) in
    Err (ApiStatus (Models.code resp) msg resp).

(** Everything before the wire: the URL, headers and body that are sent. *)
Definition prepare (c : ApiClient) (r : SendableRequest) (jar : CookieStore) (now : Z) :
    result ApiError (Url * HeaderMap * bytes) :=
  let? url := endpoint_url (base_url c) (req_path r) in
  let url := url_append_pairs url
               (req_query_pairs r ++ identity_query_pairs (identity (hooks c)) now) in
  let? body_bytes := map_err Encode (req_body r) in
  let? headers := base_headers header_value_ok (hooks c) jar in
  let headers := <["accept" := "application/json"]> headers in
  let headers := if is_some body_bytes then <["content-type" := "application/json"]> headers
                 else headers in
  let body := default [] body_bytes in
  let? signed := map_err SignRequest
                   (sign (signer (hooks c)) (METHOD_ r) (url_parts url) (λ n, headers !! n) body) in
  let? headers := insert_signed header_value_ok header_name_ok signed headers in
  if url_is_uri url then Ok (url, headers, body) else Err (BuildRequest "invalid uri").

(* @api/src/client.rs:545-651 ApiClient::execute *)
Definition execute (c : ApiClient) (r : SendableRequest) : M' ApiError bytes :=
  λ '(jar, w),
    match prepare c r jar (now_seconds w) with
    | Err e => ((jar, w), Err e)
    | Ok (url, headers, body) =>
        match http_request (METHOD_ r) url headers body w with
        | (w1, Err e) => ((jar, w1), Err (Request e))
        | (w1, Ok response) =>
            let jar1 := merge jar (parse_set_cookies response) in
            match resp_body response with
            | Err e => ((jar1, w1), Err (Request e))
            | Ok b =>
                if negb (is_success (status response))
                then ((jar1, w1), Err (HttpStatus (status response) (response_content b)))
                else ((jar1, w1), Ok b)
            end
        end
    end.

(* @api/src/client.rs:531-543 ApiClient::send *)
Definition send {T} (decode : bytes → result string (BaseResponse T)) (c : ApiClient)
    (r : SendableRequest) : M' ApiError (BaseResponse T) :=
  let! body := execute c r in
  m_lift (let? decoded := decode_response decode body in
          let? _ := check_api_status decoded body in
          Ok decoded).

End client.
Arguments ApiClient {_}.

(** ** Lemmas *)

Lemma merge_loop_values m us b : (merge_loop m us b).1 = foldl (λ m p, <[p.1 := p.2]> m) m us.
Proof.
  revert m b. induction us as [|[n v] us IH]; intros m b; cbn [merge_loop foldl]; [done|].
  destruct (m !! n) as [x|] eqn:Hn; cbn [is_some_and]; [|apply IH].
  case_bool_decide as Hx; [|apply IH]. subst. rewrite insert_id by done. apply IH.
Qed.

Lemma merge_loop_changed m us b :
  (merge_loop m us b).2 = b || negb (forallb (λ p, bool_decide (m !! p.1 = Some p.2)) us).
Proof.
  revert m b. induction us as [|[n v] us IH]; intros m b; cbn [merge_loop forallb fst snd].
  { by rewrite orb_false_r. }
  destruct (m !! n) as [x|] eqn:Hn; cbn [is_some_and].
  - case_bool_decide as Hx.
    + subst. rewrite IH. rewrite (bool_decide_eq_true_2 (Some v = Some v)) by done. done.
    + rewrite IH, (bool_decide_eq_false_2 (Some x = Some v)) by congruence.
      cbn. by rewrite orb_true_r.
  - rewrite IH, (bool_decide_eq_false_2 (None = Some v)) by done. cbn. by rewrite orb_true_r.
Qed.

Lemma values_merge s us : values (merge s us) = foldl (λ m p, <[p.1 := p.2]> m) (values s) us.
Proof.
  unfold merge. pose proof (merge_loop_values (values s) us false) as Hv.
  destruct (merge_loop (values s) us false) as [m ch]. cbn in Hv. destruct ch; done.
Qed.

Lemma insert_header_ok ok n d v h h' :
  insert_header ok n d v h = Ok h' → h' = <[n := v]> h.
Proof. unfold insert_header. destruct (ok v); congruence. Qed.

Lemma insert_some_ok ok n o h h' :
  insert_some ok n o h = Ok h' → h' = match o with Some v => <[n := v]> h | None => h end.
Proof. unfold insert_some. destruct o; [apply insert_header_ok|congruence]. Qed.

(** The headers every request starts from. *)
Lemma base_headers_ok ok hk jar h :
  base_headers ok hk jar = Ok h →
  h !! "cookie" = Some (device_cookie_header (values jar) (identity hk)) ∧
  h !! "csrf-token" = values jar !! "csrf-token" ∧
  h !! "jwt-token" = values jar !! "vpn-token" ∧ h !! "knock-token" = knock_token hk ∧
  h !! "user-agent" = Some (user_agent (identity hk)).
Proof.
  unfold base_headers.
  repeat match goal with
  | |- context [result_bind (insert_header ?o ?n ?d ?v ?h0)] =>
      let E := fresh "E" in destruct (insert_header o n d v h0) eqn:E; [|done];
      cbn [result_bind]; apply insert_header_ok in E; subst
  | |- context [result_bind (insert_some ?o ?n ?v ?h0)] =>
      let E := fresh "E" in destruct (insert_some o n v h0) eqn:E; [|done];
      cbn [result_bind]; apply insert_some_ok in E; subst
  end.
  intros E. apply insert_some_ok in E. subst.
  destruct (values jar !! "csrf-token"), (values jar !! "vpn-token"), (knock_token hk);
    repeat split; rewrite ?lookup_insert_ne by discriminate;
    rewrite ?lookup_insert_eq; done.
Qed.

Lemma sign_names `{Crypto} c m u hd b hs :
  sign c m u hd b = Ok hs → Forall (λ s, sh_name s = "Sign") hs.
Proof.
  unfold sign. destruct (enabled c); [|intros [= <-]; constructor]. cbn [negb].
  destruct (_ || _); [intros [= <-]; constructor|].
  destruct (signing_input_flags c u); [|intros [= <-]; constructor].
  destruct (hmac_key c) as [k|]; [|done]. cbn [result_bind].
  destruct (hmac_new k); [|done]. cbn. intros [= <-]. by repeat constructor.
Qed.

Lemma insert_signed_other okv okn hs h h' k :
  Forall (λ s, sh_name s = "Sign") hs → k ≠ "sign" →
  insert_signed okv okn hs h = Ok h' → h' !! k = h !! k.
Proof.
  intros Hs Hk. revert h. induction Hs as [|s hs Hn Hs IH]; intros h; cbn [insert_signed]; [congruence|].
  destruct (negb _); [done|]. destruct (negb _); [done|]. intros Hi. apply IH in Hi.
  rewrite Hi, Hn. change (to_ascii_lowercase "Sign") with "sign".
  by rewrite lookup_insert_ne.
Qed.

(** ** Properties *)

(** One update of the jar makes the listener run once or not at all: it
    runs exactly when some cookie of the update is not already in the jar with
    that value; afterwards the jar holds the updates applied in order, and when
    nothing was new it is unchanged. *)
Theorem merge_notifies_once s us :
  let fresh := existsb (λ p, negb (bool_decide (values s !! p.1 = Some p.2))) us in
  values (merge s us) = foldl (λ m p, <[p.1 := p.2]> m) (values s) us ∧
  notifications (merge s us) = (if has_listener s && fresh then S (notifications s)
                                else notifications s) ∧
  (fresh = false → merge s us = s).
Proof.
  cbn zeta. split; [apply values_merge|]. unfold merge.
  pose proof (merge_loop_changed (values s) us false) as Hc.
  pose proof (merge_loop_values (values s) us false) as Hv.
  destruct (merge_loop (values s) us false) as [m ch]. cbn in Hc, Hv.
  assert (Hf : existsb (λ p, negb (bool_decide (values s !! p.1 = Some p.2))) us = ch).
  { subst ch. clear. induction us as [|p us IH]; [done|]. cbn. rewrite IH.
    by destruct (bool_decide _). }
  rewrite Hf. split; [destruct ch, (has_listener s); done|]. intros ->. destruct s as [vs l n]; cbn in *.
  f_equal. subst m. symmetry in Hc. apply negb_false_iff in Hc. clear Hf.
  induction us as [|p us IH]; [done|]. cbn in *. apply andb_true_iff in Hc as [Hp Hus]. bool_hyps.
  rewrite insert_id by done. by apply IH.
Qed.

(** Every request that reaches the wire carries the session: the Cookie
    header lists the whole jar and the device cookies, the CSRF and VPN cookies
    are mirrored into their headers and the knock token is sent, whether or not
    the request is signed. *)
Theorem prepared_headers {W} `{Urls} `{!Http W} `{Crypto} (c : ApiClient) r jar now url h body :
  prepare (W:=W) c r jar now = Ok (url, h, body) →
  h !! "cookie" = Some (device_cookie_header (values jar) (identity (hooks c))) ∧
  h !! "csrf-token" = values jar !! "csrf-token" ∧
  h !! "jwt-token" = values jar !! "vpn-token" ∧
  h !! "knock-token" = knock_token (hooks c) ∧ h !! "accept" = Some "application/json".
Proof.
  unfold prepare. destruct (endpoint_url _ _) as [u|]; [|done]. cbn [result_bind].
  destruct (map_err Encode _) as [bb|]; [|done]. cbn [result_bind].
  destruct (base_headers _ _ _) as [h0|] eqn:Hb; [|done]. cbn [result_bind].
  apply base_headers_ok in Hb as (Hc & Hcs & Hj & Hk & _).
  destruct (map_err SignRequest _) as [hs|] eqn:Hs; [|done]. cbn [result_bind].
  destruct (insert_signed _ _ _ _) as [h1|] eqn:Hi; [|done]. cbn [result_bind].
  destruct (url_is_uri _); [|done]. intros [= <- <- <-].
  assert (Hn : Forall (λ s, sh_name s = "Sign") hs).
  { destruct (sign _ _ _ _ _) as [hs'|] eqn:Hsg; [|done]. injection Hs as <-.
    by eapply sign_names. }
  pose proof (λ k Hne, insert_signed_other _ _ _ _ _ k Hn Hne Hi) as Hoth.
  rewrite !Hoth by discriminate.
  destruct (is_some bb); rewrite ?(lookup_insert_ne _ "content-type") by discriminate;
    rewrite ?(lookup_insert_ne _ "accept") by discriminate; rewrite ?lookup_insert_eq; done.
Qed.

(** C33: What a call does once the server answered, on every branch: the
    response's cookies are in the jar whatever the outcome; a body that cannot
    be read, a status outside 2xx, a body that does not decode and a non-zero
    API code are the four errors, in that order; a decoded response is returned
    only with code 0. *)
Theorem send_outcome {W T} `{Urls} `{!Http W} `{Crypto} (decode : bytes → result string (BaseResponse T))
    (c : ApiClient) r jar w url h body w1 resp :
  prepare c r jar (now_seconds w) = Ok (url, h, body) →
  http_request (METHOD_ r) url h body w = (w1, Ok resp) →
  ∃ res, send decode c r (jar, w) = ((merge jar (parse_set_cookies (W:=W) resp), w1), res) ∧
  match res with
  | Ok d => ∃ b, resp_body resp = Ok b ∧ is_success (status resp) = true ∧ decode b = Ok d ∧
                 Models.code d = 0
  | Err (Request e) => resp_body resp = Err e
  | Err (HttpStatus st _) => st = status resp ∧ is_success st = false ∧ ∃ b, resp_body resp = Ok b
  | Err (Decode e _) => is_success (status resp) = true ∧ ∃ b, resp_body resp = Ok b ∧ decode b = Err e
  | Err (ApiStatus _ msg _) => is_success (status resp) = true ∧
      ∃ b d, resp_body resp = Ok b ∧ decode b = Ok d ∧ Models.code d ≠ 0 ∧
             msg = default "unknown API error" (message d)
  | Err _ => False
  end.
Proof.
  intros Hp Hr. unfold send, execute, m_bind, m_lift. rewrite Hp, Hr. cbn zeta.
  destruct (resp_body resp) as [b|e]; cbn; [|eexists; split; [done|done]].
  destruct (is_success (status resp)) eqn:Hst; cbn.
  2:{ eexists; split; [done|]. split; [done|]. split; [done|]. by exists b. }
  eexists; split; [done|]. unfold decode_response.
  destruct (decode b) as [d|e] eqn:Hd; cbn; [|split; [done|]; by exists b].
  unfold check_api_status. destruct (Z.eqb_spec (Models.code d) 0) as [Hz|Hz]; cbn.
  - by exists b.
  - split; [done|]. exists b, d. done.
Qed.

(** A server for the witnesses: it answers every request with one cookie and
    an empty object. *)
Module Echo.
#[global] Instance urls : Urls := {
  Url := string; url_parse s := Ok s; url_join b p := Ok (b +:+ p);
  url_append_pairs u ps := u; url_host_str u := Some u; url_port u := Some 443;
  url_parts u := {| url_path := u; url_query := None |}; url_to_string u := u; url_is_uri _ := true;
}.
#[global] Instance http : Http nat := {
  http_request m u h b w := (S w, Ok {| status := 200; set_cookie := [Some "vpn-token=1"];
                                        resp_body := Ok [] |});
  now_seconds w := Z.of_nat w; cookie_parse s := split_once "=" s;
  header_value_ok _ := true; header_name_ok _ := true;
  from_utf8_lossy := of_bytes; json_from_slice _ := None;
}.
#[global] Instance crypto : Crypto := {
  hmac_new k := Some (λ m, m); sha256 b := b; sha1 b := b; base64_encode := of_bytes;
  base64_decode s := Ok (bytes_of s); hex_encode := of_bytes;
  aes256_cbc_pkcs7 k iv p := Some p; http_sign_header_to_vec v f s := s;
}.
Definition client : ApiClient := {|
  base_url := ("https://h" : Url);
  hooks := {| identity := identity_default "id"; knock_token := Some "k";
              signer := signing_config_default |} |}.
Definition ping : SendableRequest :=
  {| METHOD_ := "GET"; req_path := "/vpn/ping"; req_query_pairs := []; req_body := Ok None |}.
End Echo.

Lemma prepared_headers_witness :
  ∃ url h body, prepare (W:=nat) Echo.client Echo.ping cookies_empty 0 = Ok (url, h, body) ∧
    h !! "knock-token" = Some "k".
Proof.
  assert (Hok : is_ok (prepare (W:=nat) Echo.client Echo.ping cookies_empty 0) = true) by (vm_compute; reflexivity).
  destruct (prepare (W:=nat) Echo.client Echo.ping cookies_empty 0) as [[[u h] b]|e] eqn:E.
  - exists u, h, b. split; [reflexivity|].
    destruct (prepared_headers (W:=nat) Echo.client Echo.ping cookies_empty 0 u h b E)
      as (_ & _ & _ & Hk & _). exact Hk.
  - discriminate Hok.
Defined.

Lemma send_outcome_witness :
  ∃ res, send (W:=nat) (λ _, Ok (base_response_default (T:=json))) Echo.client Echo.ping
           (cookies_empty, 0%nat)
    = ((merge cookies_empty (parse_set_cookies (W:=nat)
          {| status := 200; set_cookie := [Some "vpn-token=1"]; resp_body := Ok [] |}), 1%nat), res).
Proof.
  assert (Hok : is_ok (prepare (W:=nat) Echo.client Echo.ping cookies_empty 0) = true) by (vm_compute; reflexivity).
  destruct (prepare (W:=nat) Echo.client Echo.ping cookies_empty 0) as [[[u h] b]|e] eqn:E.
  - destruct (send_outcome (W:=nat) (λ _, Ok (base_response_default (T:=json))) Echo.client Echo.ping
      cookies_empty 0%nat u h b 1%nat
      {| status := 200; set_cookie := [Some "vpn-token=1"]; resp_body := Ok [] |} E eq_refl)
      as (res & Hs & _). exists res. exact Hs.
  - discriminate Hok.
Defined.

End Api.
