(* ===== verification/Requests.v ===== *)
(** * The requests of the API ([api/src/models])

    Every request struct with its method, path, query pairs and JSON body, and
    the constructors that encrypt a password.  Serialization and the decoding
    of responses (serde, percent-encoding) are the interface [Serde]. *)

From S2P Require Import Prelude RustStr Net Models Signing Api.
Import Models Signing Api.

Module Requests.

Abbreviation bytes := (list ascii) (only parsing).
Definition decoder (T : Type) : Type := list ascii → result string (BaseResponse T).

Class Serde : Type := {
  json_to_vec : json → result string bytes;
  utf8_percent_encode : string → (ascii → bool) → string;   (* the bytes of the set are encoded *)
  de_activate : decoder ActivateInfo;
  de_v2 : decoder LoginV2Result;
  de_string : decoder CommonStringResult;
  de_value : decoder json;
  de_login : decoder LoginResult;
  de_links : decoder (list ThirdPartyLoginInfo);
  de_login_setting : decoder LoginSetting;
  de_user : decoder UserInfo;
  de_tenant : decoder TenantConfigData;
  de_otp : decoder OtpProvision;
  de_vpn_setting : decoder VpnSetting;
  de_dots : decoder (list VpnDot);
  de_conn : decoder VpnConnResponse;
  de_object : decoder JsonObject;
}.

(** [skip_serializing_none]: absent fields are not written. *)
Definition opt_field (name : string) (v : option json) : list (string * json) :=
  match v with Some j => [(name, j)] | None => [] end.
Definition str_field (name value : string) : list (string * json) := [(name, JString value)].

(* @api/src/models/auth.rs:12-20 PATH_SEGMENT *)
Definition PATH_SEGMENT (c : ascii) : bool :=
  let z := RustStr.code c in
  negb (((65 <=? z) && (z <=? 90)) || ((97 <=? z) && (z <=? 122)) || ((48 <=? z) && (z <=? 57))
        || (z =? 45) || (z =? 46) || (z =? 95) || (z =? 126)).

Section requests.
Context `{Serde} `{Crypto}.

(* @api/src/models/mod.rs:1-18 impl_json_request *)
Definition json_request (method path : string) (fields : list (string * json)) : SendableRequest :=
  {| METHOD_ := method; req_path := path; req_query_pairs := [];
     req_body := match json_to_vec (JObject fields) with
                 | Ok b => Ok (Some b) | Err e => Err e
                 end |}.

(* @api/src/models/mod.rs:20-33 impl_empty_request *)
Definition empty_request (method path : string) : SendableRequest :=
  {| METHOD_ := method; req_path := path; req_query_pairs := []; req_body := Ok None |}.

Definition get_request (path : string) (query : list (string * string)) : SendableRequest :=
  {| METHOD_ := "GET"; req_path := path; req_query_pairs := query; req_body := Ok None |}.

(** ** Activation and the legacy login *)

(* @api/src/models/auth.rs:24-34 ActivateRequest *)
Definition ActivateRequest (code : string) : SendableRequest :=
  json_request "POST" "/api/match" (str_field "code" code).

Definition login_fields (login_scene account_type account password : string) : list (string * json) :=
  str_field "login_scene" login_scene ++ str_field "account_type" account_type
  ++ str_field "account" account ++ str_field "password" password.

(** The encrypted password of the login requests. *)
Definition seal_password (password : string) : result ApiError string :=
  map_err EncryptPassword (encrypt_password password).

(* @api/src/models/auth.rs:59-88 PasswordLoginRequest *)
Definition PasswordLoginRequest (login_scene account_type account password : string) :
    result ApiError SendableRequest :=
  let? password := seal_password password in
  Ok (json_request "POST" "/api/login" (login_fields login_scene account_type account password)).

Definition code_fields (login_scene account_type login_type account : string) : list (string * json) :=
  str_field "login_scene" login_scene ++ str_field "account_type" account_type
  ++ str_field "login_type" login_type ++ str_field "account" account.

(* @api/src/models/auth.rs:90-103 SendCodeRequest *)
Definition SendCodeRequest (login_scene account_type login_type account : string) : SendableRequest :=
  json_request "POST" "/api/login/code/send" (code_fields login_scene account_type login_type account).

(* @api/src/models/auth.rs:105-119 VerifyCodeRequest *)
Definition VerifyCodeRequest (login_scene account_type login_type account code : string) : SendableRequest :=
  json_request "POST" "/api/login/code/verify"
    (code_fields login_scene account_type login_type account ++ str_field "code" code).

Definition mfa_fields (login_scene mfa_type account : string) (code password : option string) :
    list (string * json) :=
  str_field "login_scene" login_scene ++ str_field "mfa_type" mfa_type ++ str_field "account" account
  ++ opt_field "code" (JString <$> code) ++ opt_field "password" (JString <$> password).

(** [password.map(encrypt).transpose()?]. *)
Definition seal_opt (password : option string) : result ApiError (option string) :=
  match password with
  | None => Ok None
  | Some p => let? c := seal_password p in Ok (Some c)
  end.

(* @api/src/models/auth.rs:121-160 VerifyMfaRequest *)
Definition VerifyMfaRequest (login_scene mfa_type account : string) (code password : option string) :
    result ApiError SendableRequest :=
  let? password := seal_opt password in
  Ok (json_request "POST" "/api/mfa/code/verify" (mfa_fields login_scene mfa_type account code password)).

(** ** The v1 login *)

(* @api/src/models/auth.rs:166-196 V1LoginRequest *)
Definition V1LoginRequest (login_scene account_type account password : string) :
    result ApiError SendableRequest :=
  let? password := seal_password password in
  Ok (json_request "POST" "/api/v1/login" (login_fields login_scene account_type account password)).

(* @api/src/models/auth.rs:198-212 V1SendCodeRequest *)
Definition V1SendCodeRequest (login_scene account_type login_type account : string) : SendableRequest :=
  json_request "POST" "/api/v1/login/send" (code_fields login_scene account_type login_type account).

(* @api/src/models/auth.rs:214-229 V1VerifyCodeRequest *)
Definition V1VerifyCodeRequest (login_scene account_type login_type account code : string) : SendableRequest :=
  json_request "POST" "/api/v1/login/verify"
    (code_fields login_scene account_type login_type account ++ str_field "code" code).

(* @api/src/models/auth.rs:231-244 V1MfaSendRequest *)
Definition V1MfaSendRequest (login_scene mfa_type account : string) : SendableRequest :=
  json_request "POST" "/api/v1/login/mfa/send"
    (str_field "login_scene" login_scene ++ str_field "mfa_type" mfa_type ++ str_field "account" account).

(* @api/src/models/auth.rs:246-286 V1MfaVerifyRequest *)
Definition V1MfaVerifyRequest (login_scene mfa_type account : string) (code password : option string) :
    result ApiError SendableRequest :=
  let? password := seal_opt password in
  Ok (json_request "POST" "/api/v1/login/mfa/verify" (mfa_fields login_scene mfa_type account code password)).

(* @api/src/models/auth.rs:288-300 V1LoginSkipRequest *)
Definition V1LoginSkipRequest (login_scene account : string) : SendableRequest :=
  json_request "POST" "/api/v1/login/skip"
    (str_field "login_scene" login_scene ++ str_field "account" account).

(** ** Logout and third-party login *)

(* @api/src/models/auth.rs:306-325 LogoutRequest *)
Definition LogoutRequest (logout_all : bool) : SendableRequest :=
  get_request "/api/logout" [("logout_all", if logout_all then "true" else "false")].

(* @api/src/models/auth.rs:331-344 OAuthCallbackRequest *)
Definition OAuthCallbackRequest (alias_key code state code_verifier : string) : SendableRequest :=
  json_request "POST" "/api/tpslogin/callback"
    (str_field "alias_key" alias_key ++ str_field "code" code ++ str_field "state" state
     ++ str_field "code_verifier" code_verifier).

(* @api/src/models/auth.rs:346-369 OAuthQueryCallbackRequest *)
Definition OAuthQueryCallbackRequest (alias code state : string) : SendableRequest :=
  get_request ("/api/tpslogin/callback/" +:+ utf8_percent_encode alias PATH_SEGMENT)
    [("code", code); ("state", state)].

(* @api/src/models/auth.rs:371-387 DeviceOAuthCallbackRequest *)
Definition DeviceOAuthCallbackRequest (alias_key code state : string) (code_verifier : option string) :
    SendableRequest :=
  json_request "POST" "/api/tpslogin/device/callback"
    (str_field "alias_key" alias_key ++ str_field "code" code ++ str_field "state" state
     ++ opt_field "code_verifier" (JString <$> code_verifier)).

(* @api/src/models/auth.rs:389-416 GetThirdPartyLoginLinksRequest *)
Definition GetThirdPartyLoginLinksRequest (code_challenge : option string) : SendableRequest :=
  get_request "/api/tpslogin/link"
    match code_challenge with
    | Some challenge => if str_is_empty challenge then [] else [("code_challenge", challenge)]
    | None => []
    end.

(* @api/src/models/auth.rs:418-428 ThirdPartyTokenCheckRequest *)
Definition ThirdPartyTokenCheckRequest (token : string) : SendableRequest :=
  json_request "POST" "/api/tpslogin/token/check" (str_field "token" token).

(** ** Profile, one-time codes, VPN, security report *)

(* @api/src/models/profile.rs:6-14 GetLoginSettingRequest *)
Definition GetLoginSettingRequest : SendableRequest := empty_request "GET" "/api/login/setting".
(* @api/src/models/profile.rs:16-24 GetUserInfoRequest *)
Definition GetUserInfoRequest : SendableRequest := empty_request "GET" "/api/info/me".
(* @api/src/models/profile.rs:26-34 GetTenantConfigRequest *)
Definition GetTenantConfigRequest : SendableRequest := empty_request "GET" "/api/tenant/config".
(* @api/src/models/otp.rs:6-21 FetchOtpRequest *)
Definition FetchOtpRequest : SendableRequest := empty_request "POST" "/api/v2/p/otp".
(* @api/src/models/vpn.rs:26-34 GetVpnSettingRequest *)
Definition GetVpnSettingRequest : SendableRequest := empty_request "GET" "/api/setting".
(* @api/src/models/vpn.rs:36-44 GetVpnLocationsRequest *)
Definition GetVpnLocationsRequest : SendableRequest := empty_request "GET" "/api/vpn/list".

(* @api/src/models/vpn.rs:124-144 VpnConnRequest *)
Definition VpnConnRequest (mode : option string) (public_key : string) (otp : option string)
    (export_id : Z) (sign_token : option string) (not_auto : option bool) : SendableRequest :=
  json_request "POST" "/vpn/conn"
    (opt_field "mode" (JString <$> mode) ++ str_field "public_key" public_key
     ++ opt_field "otp" (JString <$> otp) ++ [("export_id", JInt export_id)]
     ++ opt_field "sign_token" (JString <$> sign_token) ++ opt_field "not_auto" (JBool <$> not_auto)).

(* @api/src/models/vpn.rs:146-149 VpnPingRequest *)
Definition VpnPingRequest : SendableRequest := empty_request "GET" "/vpn/ping".

(* @api/src/models/vpn.rs:151-164 VpnReportRequest *)
Definition VpnReportRequest (ty ip public_key mode : string) : SendableRequest :=
  json_request "POST" "/vpn/report"
    (str_field "type" ty ++ str_field "ip" ip ++ str_field "public_key" public_key
     ++ str_field "mode" mode).

(* @api/src/models/security.rs:6-13 SecurityReportItem *)
Record SecurityReportItem : Type := {
  sr_key : string; sr_level : Z; sr_data : option JsonObject;
}.
Definition item_json (i : SecurityReportItem) : json :=
  JObject (str_field "key" (sr_key i) ++ [("level", JInt (sr_level i))]
           ++ opt_field "data" (JObject <$> sr_data i)).
(* @api/src/models/security.rs:15-30 SecurityReportRequest *)
Definition SecurityReportRequest (status : option string) (items : list SecurityReportItem)
    (raw : option JsonObject) : SendableRequest :=
  json_request "POST" "/api/security/report"
    (opt_field "status" (JString <$> status) ++ [("items", JArray (map item_json items))]
     ++ opt_field "raw" (JObject <$> raw)).

End requests.

End Requests.
