(* ===== verification/Login.v ===== *)
(** * Login flows ([core/src/auth.rs], [core/src/state/auth.rs])

    The pure authentication state, the decision taken on a login response and
    the orchestration functions: each sends its requests through the API
    client and returns the next state or the pending flow. *)

From S2P Require Import Prelude RustStr Net Models Signing Api Requests.
Import Models Signing Api Requests.

Module Login.

(* @core/src/auth.rs:10-27 Error *)
Inductive AuthError : Type :=
  | AuthApi (source : ApiError)
  | MissingOAuthVerifier
  | InvalidUrl (value source : string).

(* @core/src/state/auth.rs:72-89 Error *)
Inductive FlowError : Type :=
  | Auth (source : AuthError)
  | UnknownProvider (alias : string)
  | ProviderNoLoginUrl (alias : string)
  | ProviderNoDeviceLogin (alias : string).

(** ** Activation *)

(* @core/src/auth.rs:283-290 first_non_empty *)
Definition first_non_empty (values : list (option string)) : option string :=
  List.find (λ v, negb (str_is_empty v)) (map trim (omap id values)).

(* @core/src/auth.rs:35-45 ActivationTenantUpdate *)
Record ActivationTenantUpdate : Type := {
  up_base_url : option string; up_backup_url : option string;
  up_use_backup : option bool; up_name : option string;
}.

(* @core/src/auth.rs:47-64 extract_activation_update *)
Definition extract_activation_update (data : ActivateInfo) : ActivationTenantUpdate :=
  {| up_base_url := first_non_empty [activate_host data; domain data];
     up_backup_url := activate_backup_domain data;
     up_use_backup := activate_enable_backup_domain data;
     up_name := first_non_empty [tenant_name data; ai_name data; zh_name data; en_name data] |}.

(** ** The decision on a login response *)

(* @core/src/auth.rs:180-197 LoginStep *)
Inductive LoginStep : Type :=
  | LsAuthenticated
  | LsAwaitingMfa (mfa_type : string) (auth_list : list string) (can_skip : bool)
      (masked_mobile masked_email : string)
  | LsAwaitingOtp (masked_target login_type : string).

(* @core/src/auth.rs:256-261 is_mfa_action *)
Definition is_mfa_action (action : string) : bool :=
  bool_decide (to_ascii_lowercase action ∈ ["2fa"; "mfa"; "verify_mfa"]).
Definition is_link_action (action : string) : bool :=
  bool_decide (to_ascii_lowercase action ∈ ["goto_link"; "gotolink"]).

(* @core/src/auth.rs:210-254 next_login_step *)
Definition next_login_step (res : option LoginV2Result) : LoginStep :=
  match res with
  | None => LsAuthenticated
  | Some r =>
      match v2_next r with
      | None => LsAuthenticated
      | Some next =>
          let action := default "" (next_action next) in
          if is_mfa_action action then
            let l := default [] (auth_list next) in
            LsAwaitingMfa (default action (hd_error l)) l (default false (can_skip next))
              (default "" (mobile next)) (default "" (email next))
          else if is_link_action action then LsAuthenticated
          else if bool_decide (v2_result r = Some "success") then LsAuthenticated
          else
            match non_empty (mobile next), non_empty (email next) with
            | Some m, _ => LsAwaitingOtp m "mobile"
            | None, Some e => LsAwaitingOtp e "email"
            | None, None => LsAwaitingOtp "" "mobile"
            end
      end
  end.

(** ** The state *)

(* @core/src/state/auth.rs:21-28 LoginApiVersion *)
Inductive LoginApiVersion : Type := Legacy | V1.

(* @core/src/auth.rs:123-131 ThirdPartyLoginLinks *)
Record ThirdPartyLoginLinks : Type := {
  links_challenge : string;
  links_verifier : string;
  links_response : BaseResponse (list ThirdPartyLoginInfo);
}.

(* @core/src/state/auth.rs:32-40 OAuthPending *)
Record OAuthPending : Type := {
  oa_alias_key : string; oauth_state : string; oa_poll_token : string;
  pkce_verifier : string; oa_url : string;
}.

(* @core/src/state/auth.rs:43-48 DeviceLoginPending *)
Record DeviceLoginPending : Type := {
  dl_login_url : string; dl_alias_key : string; dl_poll_token : string;
}.

(* @core/src/state/auth.rs:51-70 AuthState *)
Inductive AuthState : Type :=
  | Unconfigured
  | Configured
  | AwaitingOtp (masked_target login_type : string)
  | AwaitingMfa (mfa_type : string) (auth_list : list string) (can_skip : bool)
      (masked_mobile masked_email : string)
  | AwaitingOauth
  | AwaitingDeviceLogin
  | Authenticated.

#[export] Instance AuthState_eq_dec : EqDecision AuthState.
Proof. solve_decision. Defined.
#[export] Instance LoginApiVersion_eq_dec : EqDecision LoginApiVersion.
Proof. solve_decision. Defined.

(* @core/src/state/auth.rs:94-119 next_auth_state *)
Definition next_auth_state (res : option LoginV2Result) : AuthState :=
  match next_login_step res with
  | LsAuthenticated => Authenticated
  | LsAwaitingMfa t l s m e => AwaitingMfa t l s m e
  | LsAwaitingOtp m t => AwaitingOtp m t
  end.

(** ** The flows *)

(** [rand::random::<[u8; 32]>()] and URL-safe base64 without padding. *)
Class Random (W : Type) : Type := {
  random_32 : W → W * list ascii;
  url_safe_no_pad : list ascii → string;
}.

Section flows.
Context {W : Type} `{Urls} `{!Http W} `{Crypto} `{Serde} `{Random W}.
Abbreviation flow A := (M (CookieStore * W) FlowError A).
Implicit Type client : ApiClient.

(** [.send(client).await.context(ApiSnafu).context(AuthSnafu)?]. *)
Definition send_to {T} (decode : decoder T) client (r : SendableRequest) : flow (BaseResponse T) :=
  m_map_err (Auth ∘ AuthApi) (send (W:=W) decode client r).
(** The same for a request whose construction can fail. *)
Definition send_built {T} (decode : decoder T) client (r : result ApiError SendableRequest) :
    flow (BaseResponse T) :=
  let! r := m_lift (map_err (Auth ∘ AuthApi) r) in
  send_to decode client r.

(* @core/src/auth.rs:275-277 random_token *)
Definition random_token (w : W) : W * string :=
  let '(w', b) := random_32 w in (w', hex_encode b).

(* @core/src/auth.rs:279-281 code_challenge *)
Definition code_challenge (verifier : string) : string := url_safe_no_pad (sha256 (bytes_of verifier)).

(* @core/src/auth.rs:267-271 pkce_pair *)
Definition pkce_pair (w : W) : W * (string * string) :=
  let '(w', verifier) := random_token w in (w', (verifier, code_challenge verifier)).

(** Run a computation on the world beside the cookie jar. *)
Definition on_world {A} (f : W → W * A) : flow A :=
  λ '(jar, w), let '(w', a) := f w in ((jar, w'), Ok a).

(* @core/src/auth.rs:94-100 OAuthStart *)
Record OAuthStart : Type := {
  os_url : string; os_alias_key : string; os_state : string; os_code_verifier : string;
}.

(* @core/src/auth.rs:102-121 start_oauth *)
Definition start_oauth_url (auth_url alias_key : string) (state : option string) (redirect_uri : string)
    (w : W) : W * result AuthError OAuthStart :=
  let '(w1, state_value) := match state with Some s => (w, s) | None => random_token w end in
  let '(w2, (verifier, challenge)) := pkce_pair w1 in
  match url_parse auth_url with
  | Err e => (w2, Err (InvalidUrl auth_url e))
  | Ok url =>
      let url := url_append_pairs url
        [("code_challenge", challenge); ("redirect_uri", redirect_uri); ("state", state_value)] in
      (w2, Ok {| os_url := url_to_string url; os_alias_key := alias_key; os_state := state_value;
                 os_code_verifier := verifier |})
  end.

(* @core/src/auth.rs:70-79 login_password *)
Definition login_password client (login_scene account_type account password : string) :
    flow (BaseResponse LoginV2Result) :=
  send_built de_v2 client (PasswordLoginRequest login_scene account_type account password).
(* @core/src/auth.rs:81-90 verify_mfa *)
Definition legacy_verify_mfa client (login_scene mfa_type account : string) (code password : option string) :
    flow (BaseResponse LoginV2Result) :=
  send_built de_v2 client (VerifyMfaRequest login_scene mfa_type account code password).
(* @core/src/auth.rs:152-161 v1_login_password *)
Definition v1_login_password client (login_scene account_type account password : string) :
    flow (BaseResponse LoginV2Result) :=
  send_built de_v2 client (V1LoginRequest login_scene account_type account password).
(* @core/src/auth.rs:163-172 v1_mfa_verify *)
Definition v1_mfa_verify client (login_scene mfa_type account : string) (code password : option string) :
    flow (BaseResponse LoginV2Result) :=
  send_built de_v2 client (V1MfaVerifyRequest login_scene mfa_type account code password).

(* @core/src/auth.rs:133-146 third_party_login_links *)
Definition third_party_login_links client : flow ThirdPartyLoginLinks :=
  let! pair_ := on_world pkce_pair in
  let! response := send_to de_links client (GetThirdPartyLoginLinksRequest (Some pair_.2)) in
  m_ret {| links_challenge := pair_.2; links_verifier := pair_.1; links_response := response |}.

(* @core/src/state/auth.rs:123-134 login *)
Definition login client (version : LoginApiVersion) (login_scene account_type account password : string) :
    flow AuthState :=
  let! response := match version with
                   | V1 => v1_login_password client login_scene account_type account password
                   | Legacy => login_password client login_scene account_type account password
                   end in
  m_ret (next_auth_state (data response)).

(* @core/src/state/auth.rs:136-164 send_login_code *)
Definition send_login_code client (version : LoginApiVersion)
    (login_scene account_type login_type account : string) : flow unit :=
  do! send_to de_string client
        match version with
        | V1 => V1SendCodeRequest login_scene account_type login_type account
        | Legacy => SendCodeRequest login_scene account_type login_type account
        end in
  m_ret tt.

(* @core/src/state/auth.rs:166-196 verify_login_code *)
Definition verify_login_code client (version : LoginApiVersion)
    (login_scene account_type login_type account code : string) : flow AuthState :=
  let! response := send_to de_v2 client
        match version with
        | V1 => V1VerifyCodeRequest login_scene account_type login_type account code
        | Legacy => VerifyCodeRequest login_scene account_type login_type account code
        end in
  m_ret (next_auth_state (data response)).

(* @core/src/state/auth.rs:198-217 send_mfa_code *)
Definition send_mfa_code client (version : LoginApiVersion) (login_scene mfa_type account : string) :
    flow unit :=
  match version with
  | Legacy => m_ret tt
  | V1 => do! send_to de_string client (V1MfaSendRequest login_scene mfa_type account) in m_ret tt
  end.

(* @core/src/state/auth.rs:220-231 verify_mfa *)
Definition verify_mfa client (version : LoginApiVersion) (login_scene mfa_type account : string)
    (code password : option string) : flow AuthState :=
  let! response := match version with
                   | V1 => v1_mfa_verify client login_scene mfa_type account code password
                   | Legacy => legacy_verify_mfa client login_scene mfa_type account code password
                   end in
  m_ret (next_auth_state (data response)).

(* @core/src/state/auth.rs:234-244 skip_challenge *)
Definition skip_challenge client (login_scene : string) : flow AuthState :=
  let! response := send_to de_v2 client (V1LoginSkipRequest login_scene "") in
  m_ret (next_auth_state (data response)).

(** The provider with the key or the alias. *)
Definition find_provider (alias_key : string) (providers : list ThirdPartyLoginInfo) :
    option ThirdPartyLoginInfo :=
  List.find (λ info, bool_decide (tp_alias_key info = Some alias_key)
                     || bool_decide (tp_alias info = Some alias_key)) providers.

(* @core/src/state/auth.rs:246-277 start_oauth *)
Definition start_oauth client (alias_key : string) : flow OAuthPending :=
  let! links := third_party_login_links client in
  let! provider := m_lift (ok_or (find_provider alias_key (default [] (data (links_response links))))
                                 (UnknownProvider alias_key)) in
  let! login_url := m_lift (ok_or (or_else (tp_login_url provider) (tp_url provider))
                                  (ProviderNoLoginUrl alias_key)) in
  m_ret {| oa_alias_key := alias_key; oauth_state := default "" (tp_state provider);
           oa_poll_token := default "" (tp_token provider); pkce_verifier := links_verifier links;
           oa_url := login_url |}.

(* @core/src/state/auth.rs:280-294 complete_oauth *)
Definition complete_oauth client (pending : OAuthPending) (code state : string) : flow unit :=
  do! send_to de_login client
        (OAuthCallbackRequest (oa_alias_key pending) code state (pkce_verifier pending)) in
  m_ret tt.

(* @core/src/state/auth.rs:296-329 start_device_login *)
Definition start_device_login client (alias_key : string) : flow DeviceLoginPending :=
  let! response := send_to de_links client (GetThirdPartyLoginLinksRequest None) in
  let! provider := m_lift (ok_or (find_provider alias_key (default [] (data response)))
                                 (UnknownProvider alias_key)) in
  let login_url := default "" (or_else (tp_login_url provider) (tp_url provider)) in
  let poll_token := default "" (tp_token provider) in
  if str_is_empty poll_token then m_fail (ProviderNoDeviceLogin alias_key)
  else m_ret {| dl_login_url := login_url; dl_alias_key := alias_key; dl_poll_token := poll_token |}.

End flows.

(** ** Properties *)

(** What a login response leads to, on every branch: a challenge exactly
    when there is a next step that is an MFA action (in any letter case), or
    one that is neither a link nor accompanied by "success"; an MFA challenge
    asks for the first offered method, or the action itself when none is
    offered; a one-time code goes to the mobile number when one is shown,
    else to the e-mail address when one is shown. *)
Theorem next_login_step_decides r next :
  let action := default "" (next_action next) in
  let step := next_login_step (Some {| v2_result := r; v2_next := Some next |}) in
  next_login_step None = LsAuthenticated ∧
  next_login_step (Some {| v2_result := r; v2_next := None |}) = LsAuthenticated ∧
  (step = LsAuthenticated ↔
     is_mfa_action action = false ∧ (is_link_action action = true ∨ r = Some "success")) ∧
  (∀ t l s m e, step = LsAwaitingMfa t l s m e →
     is_mfa_action action = true ∧ l = default [] (auth_list next) ∧
     (l = [] → t = action) ∧ (∀ x l', l = x :: l' → t = x)) ∧
  (∀ target ty, step = LsAwaitingOtp target ty →
     (ty = "mobile" ∧ (mobile next = Some target ∧ target ≠ "" ∨
        target = "" ∧ default "" (mobile next) = "" ∧ default "" (email next) = ""))
     ∨ (ty = "email" ∧ email next = Some target ∧ target ≠ "" ∧ default "" (mobile next) = "")).
Proof.
  cbn zeta. cbn [next_login_step v2_next v2_result].
  set (action := default "" (next_action next)). split; [done|]. split; [done|].
  destruct (is_mfa_action action) eqn:Hm.
  { split; [split; [done|by intros [? _]]|]. split; [|done].
    intros t l s m e [= <- <- _ _ _]. split; [done|]. split; [done|].
    destruct (default [] (auth_list next)); cbn; split; congruence. }
  destruct (is_link_action action) eqn:Hl.
  { split; [split; [by auto|done]|]. done. }
  case_bool_decide as Hr; [by (split; [split; [by auto|done]|])|].
  assert (Hne : ∀ o, match non_empty o with
    | Some x => o = Some x ∧ x ≠ "" | None => default "" o = "" end).
  { intros [[|a x]|]; cbn; by auto. }
  pose proof (Hne (mobile next)) as H1. pose proof (Hne (email next)) as H2.
  destruct (non_empty (mobile next)) as [x|], (non_empty (email next)) as [y|];
    (split; [split; [done|intros (_ & [?|?]); done]|]); (split; [done|]);
    intros target ty [= <- <-]; naive_solver.
Qed.

End Login.
