(* ===== verification/Interface.v ===== *)
(** * Outbound interface selection and network snapshots
    ([outbound/src/interface.rs], [outbound/src/snapshot.rs])

    Which physical interface the traffic that must not enter the tunnel leaves
    through, and the fingerprint by which the supervisor notices that the
    network changed.  The operating system's interface list and its default
    interface are inputs. *)

From S2P Require Import Prelude RustStr Net.

Module Interface.

(** What the program reads of a [default_net::Interface]: its identity, the
    answers of [is_up], [is_loopback] and [is_tun], its addresses and the
    address of its gateway. *)
Record NetInterface : Type := {
  ni_name : string;
  ni_index : Z;            (* u32 *)
  ni_is_up : bool;
  ni_is_loopback : bool;
  ni_is_tun : bool;
  ni_ipv4 : list Z;
  ni_ipv6 : list Z;
  ni_gateway : option IpAddr;
}.

(* @outbound/src/interface.rs:19-34 Error *)
Inductive InterfaceError : Type :=
  | InterfaceNotFound (name : string)
  | UnusableInterface (name : string)
  | MissingInterfaceIndex (name : string)
  | NoUsableInterface.

#[export] Instance InterfaceError_eq_dec : EqDecision InterfaceError.
Proof. solve_decision. Defined.

(* @outbound/src/interface.rs:42-58 OutboundInterface *)
Record OutboundInterface : Type := {
  name : string;
  index : Z;               (* u32 *)
  gateway_v4 : option IpAddr;
  gateway_v6 : option IpAddr;
}.

#[export] Instance OutboundInterface_eq_dec : EqDecision OutboundInterface.
Proof. solve_decision. Defined.

(* @outbound/src/interface.rs:109-130 OutboundInterface::from_interface *)
Definition from_interface (i : NetInterface) : result InterfaceError OutboundInterface :=
  if ni_index i =? 0 then Err (MissingInterfaceIndex (ni_name i))
  else
    let '(g4, g6) :=
      match ni_gateway i with
      | None => (None, None)
      | Some (V4 a) => (Some (V4 a), None)
      | Some (V6 a) => (None, Some (V6 a))
      end in
    Ok {| name := ni_name i; index := ni_index i; gateway_v4 := g4; gateway_v6 := g6 |}.

(* @outbound/src/interface.rs:222-235 is_wan_candidate *)
Definition is_wan_candidate (i : NetInterface) (excluded_tun : option string) : bool :=
  if is_some_and excluded_tun (λ ex, bool_decide (ni_name i = ex)) then false
  else
    ni_is_up i && negb (ni_is_loopback i) && negb (ni_is_tun i)
    && (negb (bool_decide (ni_ipv4 i = [])) || negb (bool_decide (ni_ipv6 i = []))).

(** [sort_by_key(|i| i.gateway.is_none())]: [false] before [true], stable. *)
Definition gateway_first (a b : NetInterface) : bool :=
  negb (is_none (ni_gateway a)) || is_none (ni_gateway b).

(* @outbound/src/interface.rs:196-220 best_fallback_interface *)
Definition best_fallback_interface (interfaces : list NetInterface) (excluded_tun : option string) :
    option OutboundInterface :=
  let candidates := List.filter (λ i, is_wan_candidate i excluded_tun) interfaces in
  let candidates := sort_by gateway_first candidates in
  match candidates with
  | [] => None
  | selected :: _ => result_ok (from_interface selected)
  end.

(** [interfaces] and [default_if] are the answers of
    [default_net::get_interfaces] and [get_default_interface]. *)
(* @outbound/src/interface.rs:137-194 resolve_blocking *)
Definition resolve_blocking (interfaces : list NetInterface) (default_if : option NetInterface)
    (configured excluded_tun : option string) (full_tunnel : bool) :
    result InterfaceError (option OutboundInterface) :=
  match configured with
  | Some nm =>
      let? interface :=
        ok_or (List.find (λ i, bool_decide (ni_name i = nm)) interfaces) (InterfaceNotFound nm) in
      if negb (is_wan_candidate interface excluded_tun) then Err (UnusableInterface nm)
      else let? outbound := from_interface interface in Ok (Some outbound)
  | None =>
      let fallback :=
        let res := best_fallback_interface interfaces excluded_tun in
        if is_none res && full_tunnel then Err NoUsableInterface else Ok res in
      match default_if with
      | Some interface =>
          if is_wan_candidate interface excluded_tun
          then let? outbound := from_interface interface in Ok (Some outbound)
          else fallback
      | None => fallback
      end
  end.

(** The blocking task is joined; a panicked task counts as no interface. *)
(* @outbound/src/interface.rs:77-91 OutboundInterface::resolve *)
Definition resolve (interfaces : list NetInterface) (default_if : option NetInterface)
    (configured excluded_tun : option string) (full_tunnel : bool) :
    result InterfaceError (option OutboundInterface) :=
  let configured := opt_filter (λ v, negb (str_is_empty v)) (trim <$> configured) in
  resolve_blocking interfaces default_if configured excluded_tun full_tunnel.

(* @outbound/src/interface.rs:93-107 OutboundInterface::lookup *)
Definition lookup (interfaces : list NetInterface) (nm : string) : option OutboundInterface :=
  i ← List.find (λ i, bool_decide (ni_name i = nm) && (0 <? ni_index i)) interfaces;
  result_ok (from_interface i).

(* @outbound/src/interface.rs:269-282 InterfaceInfo *)
Record InterfaceInfo : Type := {
  ii_name : string; ii_index : Z; ii_is_up : bool; ii_is_loopback : bool; ii_is_tun : bool;
  ii_has_gateway : bool; ii_is_default : bool;
  ii_ipv4_addrs : list IpAddr; ii_ipv6_addrs : list IpAddr;
}.

(* @outbound/src/interface.rs:237-267 list_interfaces *)
Definition list_interfaces (interfaces : list NetInterface) (default_if : option NetInterface) :
    list InterfaceInfo :=
  map (λ i, {|
    ii_name := ni_name i; ii_index := ni_index i; ii_is_up := ni_is_up i;
    ii_is_loopback := ni_is_loopback i; ii_is_tun := ni_is_tun i;
    ii_has_gateway := is_some (ni_gateway i);
    ii_is_default := is_some_and default_if (λ d, ni_index d =? ni_index i);
    ii_ipv4_addrs := map V4 (ni_ipv4 i); ii_ipv6_addrs := map V6 (ni_ipv6 i) |}) interfaces.

(** ** Snapshots *)

(* @outbound/src/snapshot.rs:36-42 InterfaceFingerprint *)
Record InterfaceFingerprint : Type := {
  f_name : string; f_index : Z; f_gateway : option IpAddr; f_addrs : list IpAddr;
}.

#[export] Instance InterfaceFingerprint_eq_dec : EqDecision InterfaceFingerprint.
Proof. solve_decision. Defined.

(* @outbound/src/snapshot.rs:30-34 NetworkSnapshot *)
Record NetworkSnapshot : Type := { default_interface : option InterfaceFingerprint }.

#[export] Instance NetworkSnapshot_eq_dec : EqDecision NetworkSnapshot.
Proof. solve_decision. Defined.

(** The derived order of [IpAddr]: IPv4 before IPv6, then numerically. *)
Definition ip_le (a b : IpAddr) : bool :=
  match a, b with
  | V4 x, V4 y | V6 x, V6 y => x <=? y
  | V4 _, V6 _ => true
  | V6 _, V4 _ => false
  end.

(* @outbound/src/snapshot.rs:58-78 NetworkSnapshot::capture_blocking *)
Definition capture_blocking (default_if : option NetInterface) : NetworkSnapshot :=
  match default_if with
  | None => {| default_interface := None |}
  | Some i => {| default_interface := Some {|
      f_name := ni_name i; f_index := ni_index i; f_gateway := ni_gateway i;
      f_addrs := sort_by ip_le (map V4 (ni_ipv4 i) ++ map V6 (ni_ipv6 i)) |} |}
  end.

(* @outbound/src/snapshot.rs:81-92 pinned_present *)
Definition pinned_present (interfaces : list NetInterface) (nm : string) : bool :=
  existsb (λ i, bool_decide (ni_name i = nm)) interfaces.

(** ** Lemmas *)

Lemma from_interface_ok i o :
  from_interface i = Ok o → name o = ni_name i ∧ index o = ni_index i ∧ ni_index i ≠ 0.
Proof.
  unfold from_interface. destruct (Z.eqb_spec (ni_index i) 0); [done|].
  destruct (ni_gateway i) as [[a|a]|]; intros [= <-]; done.
Qed.

Lemma is_wan_candidate_spec i excl :
  is_wan_candidate i excl = true ↔
  excl ≠ Some (ni_name i) ∧ ni_is_up i = true ∧ ni_is_loopback i = false ∧ ni_is_tun i = false ∧
  (ni_ipv4 i ≠ [] ∨ ni_ipv6 i ≠ []).
Proof.
  unfold is_wan_candidate. destruct excl as [ex|]; cbn [is_some_and];
    [case_bool_decide as He; [split; [done|intros [? _]; congruence]|]|];
    destruct (ni_is_up i), (ni_is_loopback i), (ni_is_tun i); cbn;
    repeat case_bool_decide; cbn; split; intros; destruct_and?; try done;
    repeat split; try done; try congruence; tauto.
Qed.

Lemma best_fallback_some interfaces excl o :
  best_fallback_interface interfaces excl = Some o →
  ∃ i, i ∈ interfaces ∧ is_wan_candidate i excl = true ∧ from_interface i = Ok o.
Proof.
  unfold best_fallback_interface.
  destruct (sort_by _ _) as [|i l] eqn:Hs; [done|].
  destruct (from_interface i) as [o'|] eqn:Hf; [|done]. intros [= ->].
  assert (Hi : i ∈ List.filter (λ i, is_wan_candidate i excl) interfaces)
    by (rewrite <- (sort_by_elem gateway_first), Hs; left).
  apply list_elem_of_In, filter_In in Hi as [Hi ?]. exists i.
  split; [by apply list_elem_of_In|done].
Qed.

(** The fallback has a gateway whenever some candidate has one. *)
Lemma best_fallback_gateway interfaces excl i :
  i ∈ interfaces → is_wan_candidate i excl = true → is_some (ni_gateway i) = true →
  match sort_by gateway_first (List.filter (λ i, is_wan_candidate i excl) interfaces) with
  | [] => False
  | sel :: _ => is_some (ni_gateway sel) = true
  end.
Proof.
  intros Hi Hc Hg. set (cs := List.filter _ _).
  assert (Hin : i ∈ cs) by (apply list_elem_of_In, filter_In; split; [by apply list_elem_of_In|done]).
  rewrite <- (sort_by_elem gateway_first) in Hin.
  pose proof (sort_by_sorted gateway_first cs) as Hs.
  destruct (sort_by gateway_first cs) as [|sel l]; [by apply not_elem_of_nil in Hin|].
  apply elem_of_cons in Hin as [<-|Hin]; [done|].
  assert (Hsort : StronglySorted (λ x y, gateway_first x y = true) (sel :: l)).
  { apply Hs; unfold gateway_first, is_none;
      intros; repeat match goal with x : NetInterface |- _ => destruct (ni_gateway x); clear x end;
      done. }
  inversion_clear Hsort as [|? ? _ Hall]. rewrite Forall_forall in Hall. specialize (Hall _ Hin).
  unfold gateway_first, is_none in Hall. rewrite Hg in Hall.
  destruct (is_some (ni_gateway sel)); done.
Qed.

Lemma ip_le_total a b : ip_le a b = false → ip_le b a = true.
Proof. destruct a, b; cbn; try done; rewrite Z.leb_gt, Z.leb_le; lia. Qed.
Lemma ip_le_trans a b c : ip_le a b = true → ip_le b c = true → ip_le a c = true.
Proof. destruct a, b, c; cbn; try done; rewrite !Z.leb_le; lia. Qed.
#[export] Instance ip_le_antisym : AntiSymm (=) (λ a b, ip_le a b = true).
Proof. intros [a|a] [b|b]; cbn; try done; rewrite !Z.leb_le; intros; f_equal; lia. Qed.

Definition addrs_of (i : NetInterface) : list IpAddr := map V4 (ni_ipv4 i) ++ map V6 (ni_ipv6 i).

Lemma sort_ips_eq l l' : sort_by ip_le l = sort_by ip_le l' ↔ l ≡ₚ l'.
Proof.
  split; intros H.
  - rewrite <- (sort_by_perm ip_le l), H. apply sort_by_perm.
  - apply (StronglySorted_unique (λ a b, ip_le a b = true)).
    + apply sort_by_sorted; [apply ip_le_total|apply ip_le_trans].
    + apply sort_by_sorted; [apply ip_le_total|apply ip_le_trans].
    + by rewrite !sort_by_perm.
Qed.

(** What interface selection promises, case by case. *)
Lemma resolve_spec interfaces default_if configured excl full :
  match resolve interfaces default_if configured excl full with
  | Ok (Some o) =>
      (∃ i, (i ∈ interfaces ∨ default_if = Some i) ∧ from_interface i = Ok o ∧
            is_wan_candidate i excl = true) ∧
      excl ≠ Some (name o) ∧ index o ≠ 0 ∧
      (∀ nm, configured = Some nm → trim nm ≠ "" → name o = trim nm)
  | Ok None => full = false
  | Err _ => True
  end.
Proof.
  assert (Hok : ∀ i o, from_interface i = Ok o → is_wan_candidate i excl = true →
            excl ≠ Some (name o) ∧ index o ≠ 0).
  { intros i o Hf Hc. apply from_interface_ok in Hf as (Hn & -> & ?).
    apply is_wan_candidate_spec in Hc as (? & _). by rewrite Hn. }
  unfold resolve. destruct (opt_filter _ (trim <$> configured)) as [nm|] eqn:Hconf; cbn.
  - destruct (List.find _ interfaces) as [i|] eqn:Hfind; [|done]. cbn.
    destruct (is_wan_candidate i excl) eqn:Hc; [|done]. cbn.
    destruct (from_interface i) as [o|] eqn:Hf; [|done]. cbn.
    apply find_some in Hfind as [Hi Hn]. bool_hyps.
    split; [exists i; split; [left; by apply list_elem_of_In|done]|].
    destruct (Hok i o) as [? ?]; [done..|]. split; [done|]. split; [done|].
    intros nm' -> Hne. cbn in Hconf. destruct (str_is_empty (trim nm')); [done|].
    apply from_interface_ok in Hf as (-> & _). simplify_eq/=. congruence.
  - assert (Hnone : ∀ nm, configured = Some nm → trim nm ≠ "" → False).
    { intros nm -> Hne. cbn in Hconf. destruct (str_is_empty (trim nm)) eqn:He; [|done].
      by apply str_is_empty_true in He. }
    assert (Hfb : match (if is_none (best_fallback_interface interfaces excl) && full
                   then Err NoUsableInterface else Ok (best_fallback_interface interfaces excl)) with
      | Ok (Some o) => (∃ i, (i ∈ interfaces ∨ default_if = Some i) ∧ from_interface i = Ok o ∧
            is_wan_candidate i excl = true) ∧ excl ≠ Some (name o) ∧ index o ≠ 0 ∧
            (∀ nm, configured = Some nm → trim nm ≠ "" → name o = trim nm)
      | Ok None => full = false | Err _ => True end).
    { destruct (best_fallback_interface interfaces excl) as [o|] eqn:Hb; cbn.
      - apply best_fallback_some in Hb as (i & Hi & Hc & Hf).
        split; [eauto 10|]. destruct (Hok i o) as [? ?]; [done..|]. naive_solver.
      - by destruct full. }
    destruct default_if as [d|]; [|exact Hfb].
    destruct (is_wan_candidate d excl) eqn:Hc; [|exact Hfb].
    destruct (from_interface d) as [o|] eqn:Hf; [|done]. cbn.
    split; [exists d; eauto|]. destruct (Hok d o) as [? ?]; [done..|]. naive_solver.
Qed.

(** ** Properties *)

(** C15: Interface selection is safe: what it selects is an interface the system
    reported that is up, not loopback, not a tunnel, has an address and an
    index, and is never the excluded TUN device; a pinned name is never
    replaced by another interface; and in full-tunnel mode it never answers
    "no interface" (which would send the encrypted traffic back into the
    tunnel) but fails. *)
Theorem resolve_safe interfaces default_if configured excl full :
  match resolve interfaces default_if configured excl full with
  | Ok (Some o) =>
      (∃ i, (i ∈ interfaces ∨ default_if = Some i) ∧ from_interface i = Ok o ∧
            is_wan_candidate i excl = true) ∧
      excl ≠ Some (name o) ∧ index o ≠ 0 ∧
      (∀ nm, configured = Some nm → trim nm ≠ "" → name o = trim nm)
  | Ok None => full = false
  | Err _ => True
  end.
Proof. apply resolve_spec. Qed.

(** Two captures of the default interface differ exactly when its name,
    index, gateway or set of addresses (with multiplicity) differ: the order
    in which the system lists the addresses is never a change. *)
Theorem snapshot_changes_iff i j :
  capture_blocking (Some i) = capture_blocking (Some j) ↔
  ni_name i = ni_name j ∧ ni_index i = ni_index j ∧ ni_gateway i = ni_gateway j ∧
  addrs_of i ≡ₚ addrs_of j.
Proof.
  unfold capture_blocking. rewrite <- sort_ips_eq. unfold addrs_of. split.
  - intros [= -> -> -> ->]. done.
  - intros (-> & -> & -> & ->). done.
Qed.

End Interface.
