(* ===== verification/Dialer.v ===== *)
(** * Sockets that leave through the chosen interface
    ([outbound/src/dialer.rs])

    The dialer creates every socket whose traffic must stay out of the tunnel.
    Socket system calls are events [SockE T] with an answer of type [T],
    performed by the interface [Sockets]; [SocketLog] is the record of the
    calls made, which the theorems about the order of calls read.  The
    platform is Linux ([cfg(target_os = "linux")]). *)

From S2P Require Import Prelude RustStr Net Interface.
Import Interface.

Module Dialer.

(* @outbound/src/dialer.rs:31-31 DEFAULT_CONNECT_TIMEOUT *)
Definition DEFAULT_CONNECT_TIMEOUT : duration := from_secs 10.
(* @outbound/src/dialer.rs:32-32 BIND_MAX_RETRIES *)
Definition BIND_MAX_RETRIES : Z := 10.
(* @outbound/src/bypass/linux.rs:28-35 BYPASS_FWMARK *)
Definition BYPASS_FWMARK : Z := 5678.

(* @outbound/src/dialer.rs:38-73 Error *)
Inductive DialerError : Type :=
  | SocketCreate (source : io_error)
  | InterfaceBind (interface : string) (source : io_error)
  | SocketBind (address : SocketAddr) (source : io_error)
  | ConnectTimeout (destination : SocketAddr) (timeout : duration)
  | Connect (destination : SocketAddr) (source : io_error)
  | SetOption (source : io_error)
  | Unsupported (interface : string).

(* @outbound/src/dialer.rs:81-88 Dialer *)
Record Dialer : Type := {
  interface : option OutboundInterface;
  connect_timeout : duration;
  tcp_nodelay : bool;
}.

(* @outbound/src/dialer.rs:91-97 Dialer::default *)
Definition dialer_default : Dialer :=
  {| interface := None; connect_timeout := DEFAULT_CONNECT_TIMEOUT; tcp_nodelay := true |}.
(* @outbound/src/dialer.rs:101-108 Dialer::new *)
Definition dialer_new (i : option OutboundInterface) : Dialer :=
  {| interface := i; connect_timeout := connect_timeout dialer_default;
     tcp_nodelay := tcp_nodelay dialer_default |}.
(* @outbound/src/dialer.rs:110-115 Dialer::with_connect_timeout *)
Definition with_connect_timeout (t : duration) (d : Dialer) : Dialer :=
  {| interface := interface d; connect_timeout := t; tcp_nodelay := tcp_nodelay d |}.
(* @outbound/src/dialer.rs:117-122 Dialer::with_tcp_nodelay *)
Definition with_tcp_nodelay (b : bool) (d : Dialer) : Dialer :=
  {| interface := interface d; connect_timeout := connect_timeout d; tcp_nodelay := b |}.
(* @outbound/src/dialer.rs:130-136 Dialer::interface_name_or_default *)
Definition interface_name_or_default (d : Dialer) : string :=
  match interface d with Some i => name i | None => "<default>" end.

(* @outbound/src/dialer.rs:236-258 should_bind *)
Definition should_bind (addr : IpAddr) : bool :=
  match addr with
  | V4 a =>
      negb (v4_is_loopback a) && negb (v4_is_link_local a) && negb (v4_is_multicast a)
      && negb (v4_is_unspecified a) && negb (v4_is_broadcast a)
  | V6 a =>
      let is_link_local := Z.land (segment a 0) 65472 =? 65152 in
      negb (v6_is_loopback a) && negb is_link_local && negb (v6_is_multicast a)
      && negb (v6_is_unspecified a)
  end.

(* @outbound/src/dialer.rs:264-268 SocketFamily *)
Inductive SocketFamily : Type := FamV4 | FamV6.

(* @outbound/src/dialer.rs:271-273 SocketFamily::from_addr *)
Definition from_addr (a : SocketAddr) : SocketFamily :=
  if is_ipv4 (ip a) then FamV4 else FamV6.

Inductive SocketType : Type := STREAM | DGRAM.

(** The system calls, each with the type of its answer. A socket is its
    descriptor. [EConnect] answers [false] when the timeout ran out. *)
Inductive SockE : Type → Type :=
  | ECreate (f : SocketFamily) (t : SocketType) : SockE Z
  | ESetNonblocking (s : Z) : SockE unit
  | EBindDevice (s : Z) (f : SocketFamily) (index : Z) : SockE unit
  | ESetMark (s : Z) (mark : Z) : SockE unit
  | ESetNodelay (s : Z) : SockE unit
  | ESetReuse (s : Z) : SockE unit
  | ESetOnlyV6 (s : Z) : SockE unit
  | EBind (s : Z) (a : SocketAddr) : SockE unit
  | ELocalPort (s : Z) : SockE Z
  | EConnect (s : Z) (dst : SocketAddr) (timeout : duration) : SockE bool
  | EFromStd (s : Z) : SockE unit.

Class Sockets (W : Type) : Type := sys : ∀ {T}, SockE T → M W io_error T.

Section dialer.
Context {W : Type} `{Sockets W}.

(* @outbound/src/dialer.rs:276-286 new_socket2 *)
Definition new_socket2 (f : SocketFamily) (t : SocketType) : M W DialerError Z :=
  let! s := m_map_err SocketCreate (sys (ECreate f t)) in
  do! m_map_err SetOption (sys (ESetNonblocking s)) in
  m_ret s.

(* @outbound/src/dialer.rs:306-335 bind_socket_to_interface_inner *)
Definition bind_socket_to_interface_inner (s : Z) (f : SocketFamily) (i : OutboundInterface) :
    M W DialerError unit :=
  if index i =? 0 then
    m_fail (InterfaceBind (name i)
      (IoError InvalidInput ("interface `" +:+ name i +:+ "` has no OS index")))
  else
    do! m_map_err (InterfaceBind (name i)) (sys (EBindDevice s f (index i))) in
    m_map_err SetOption (sys (ESetMark s BYPASS_FWMARK)).

(* @outbound/src/dialer.rs:288-302 bind_socket_to_interface *)
Definition bind_socket_to_interface (s : Z) (f : SocketFamily) (oi : option OutboundInterface) :
    M W DialerError unit :=
  match oi with
  | None => m_ret tt
  | Some i => bind_socket_to_interface_inner s f i
  end.

(* @outbound/src/dialer.rs:142-161 Dialer::connect_tcp *)
Definition connect_tcp (d : Dialer) (dst : SocketAddr) : M W DialerError Z :=
  let family := from_addr dst in
  let! s := new_socket2 family STREAM in
  do! (if should_bind (ip dst) then bind_socket_to_interface s family (interface d) else m_ret tt) in
  do! (if tcp_nodelay d then m_map_err SetOption (sys (ESetNodelay s)) else m_ret tt) in
  let! connected := m_map_err (Connect dst) (sys (EConnect s dst (connect_timeout d))) in
  if connected then m_ret s else m_fail (ConnectTimeout dst (connect_timeout d)).

(* @outbound/src/dialer.rs:167-179 Dialer::bind_udp *)
Definition bind_udp (d : Dialer) (bind_addr : SocketAddr) : M W DialerError Z :=
  let family := from_addr bind_addr in
  let! s := new_socket2 family DGRAM in
  do! m_map_err SetOption (sys (ESetReuse s)) in
  do! bind_socket_to_interface s family (interface d) in
  do! m_map_err (SocketBind bind_addr) (sys (EBind s bind_addr)) in
  do! m_map_err SocketCreate (sys (EFromStd s)) in
  m_ret s.

(* @outbound/src/dialer.rs:399-407 is_bind_retry *)
Definition is_bind_retry (e : DialerError) : bool :=
  match e with
  | SocketBind _ source => bool_decide (io_error_kind source = AddrInUse)
  | _ => false
  end.

(** The loop, counting down the retries that are left. *)
Fixpoint bind_pair_loop (d : Dialer) (addr_v4 addr_v6 p : Z) (left_ : nat) : M W DialerError (Z * Z) :=
  let! udp_v4 := bind_udp d (sock (V4 addr_v4) p) in
  let! bound_port := m_map_err SocketCreate (sys (ELocalPort udp_v4)) in
  λ w,
    match bind_udp d (sock (V6 addr_v6) bound_port) w with
    | (w1, Ok udp_v6) => (w1, Ok (udp_v4, udp_v6))
    | (w1, Err error) =>
        match left_ with
        | S left' =>
            if (p =? 0) && is_bind_retry error then bind_pair_loop d addr_v4 addr_v6 p left' w1
            else (w1, Err error)
        | O => (w1, Err error)
        end
    end.
(* @outbound/src/dialer.rs:181-203 Dialer::bind_udp_pair *)
Definition bind_udp_pair (d : Dialer) (addr_v4 addr_v6 p : Z) : M W DialerError (Z * Z) :=
  bind_pair_loop d addr_v4 addr_v6 p (Z.to_nat BIND_MAX_RETRIES).

(* @outbound/src/dialer.rs:209-229 Dialer::bind_udp_to *)
Definition bind_udp_to (d : Dialer) (server : SocketAddr) : M W DialerError Z :=
  let bind_addr := if is_ipv4 (ip server) then sock (V4 0) 0 else sock (V6 0) 0 in
  let family := from_addr bind_addr in
  let! s := new_socket2 family DGRAM in
  do! m_map_err SetOption (sys (ESetReuse s)) in
  do! (if should_bind (ip server) then bind_socket_to_interface s family (interface d)
       else m_ret tt) in
  do! m_map_err (SocketBind bind_addr) (sys (EBind s bind_addr)) in
  do! m_map_err SocketCreate (sys (EFromStd s)) in
  m_ret s.

End dialer.

(** The record of the calls made: every call, whatever its answer, is appended. *)
Definition call : Type := { T : Type & SockE T }.
Definition mk {T} (e : SockE T) : call := existT T e.

Class SocketLog (W : Type) `{Sockets W} : Type := {
  calls : W → list call;
  sys_calls : ∀ {T} (e : SockE T) w, calls (sys e w).1 = calls w ++ [mk e];
}.

(** ** Lemmas: runs of calls

    [runs m post]: whatever the world, [m] appends some calls, and [post]
    holds of them and of the answer. *)
Section log.
Context {W : Type} `{SocketLog W}.

Definition runs {E A} (m : M W E A) (post : list call → result E A → Prop) : Prop :=
  ∀ w, ∃ cs, calls (m w).1 = calls w ++ cs ∧ post cs (m w).2.

Lemma runs_ret {E A} (a : A) (post : list call → result E A → Prop) :
  post [] (Ok a) → runs (m_ret a) post.
Proof. intros Hp w. exists []. by rewrite app_nil_r. Qed.

Lemma runs_fail {E A} (e : E) (post : list call → result E A → Prop) :
  post [] (Err e) → runs (m_fail e) post.
Proof. intros Hp w. exists []. by rewrite app_nil_r. Qed.

Lemma runs_sys {T E} (f : io_error → E) (e : SockE T) (post : list call → result E T → Prop) :
  (∀ r, post [mk e] r) → runs (m_map_err f (sys e)) post.
Proof.
  intros Hp w. exists [mk e]. unfold m_map_err.
  pose proof (sys_calls e w) as Hc. destruct (sys e w) as [w' r]. split; [exact Hc|apply Hp].
Qed.

Lemma runs_bind {E A B} (m : M W E A) (k : A → M W E B) post1 (post : list call → result E B → Prop) :
  runs m post1 →
  (∀ cs e, post1 cs (Err e) → post cs (Err e)) →
  (∀ cs a, post1 cs (Ok a) → runs (k a) (λ cs', post (cs ++ cs'))) →
  runs (m_bind m k) post.
Proof.
  intros Hm Herr Hk w. destruct (Hm w) as (cs & Hcs & Hp). unfold m_bind.
  destruct (m w) as [w' [a|e]]; cbn in *.
  - destruct (Hk _ _ Hp w') as (cs' & Hcs' & Hp'). exists (cs ++ cs').
    split; [by rewrite Hcs', Hcs, app_assoc|exact Hp'].
  - exists cs. eauto.
Qed.

Lemma runs_mono {E A} (m : M W E A) (post post' : list call → result E A → Prop) :
  runs m post → (∀ cs r, post cs r → post' cs r) → runs m post'.
Proof. intros Hm Hi w. destruct (Hm w) as (cs & ? & ?). eauto. Qed.

Lemma runs_equiv {E A} (m m' : M W E A) (post : list call → result E A → Prop) :
  m ≡ₘ m' → runs m post → runs m' post.
Proof. intros Heq Hm w. rewrite <- (Heq w). apply Hm. Qed.

(** [m] follows a script: it makes a prefix of the calls, all of them when it
    succeeds. *)
Definition follows {E A} (script : list call) (cs : list call) (r : result E A) : Prop :=
  cs `prefix_of` script ∧ (is_ok r = true → cs = script).

Lemma follows_err {E A B} s s' cs (e : E) :
  @follows E A s cs (Err e) → @follows E B (s ++ s') cs (Err e).
Proof. intros [Hp _]. split; [by apply prefix_app_r|done]. Qed.

Lemma follows_ok {E A B} s s' cs cs' (a : A) (r : result E B) :
  @follows E A s cs (Ok a) → @follows E B s' cs' r → @follows E B (s ++ s') (cs ++ cs') r.
Proof.
  intros [_ Hs] [Hp Hs']. rewrite (Hs eq_refl). split; [by apply prefix_app|].
  intros Hr. by rewrite (Hs' Hr).
Qed.

Lemma runs_follow_bind {E A B} (m : M W E A) (k : A → M W E B) s s' :
  runs m (follows s) → (∀ a, runs (k a) (follows s')) → runs (m_bind m k) (follows (s ++ s')).
Proof.
  intros Hm Hk. eapply runs_bind; [exact Hm| |].
  - intros cs e. apply follows_err.
  - intros cs a Hf. eapply runs_mono; [apply Hk|]. intros cs' r. by apply follows_ok with a.
Qed.

Lemma runs_follow_sys {T E} (f : io_error → E) (e : SockE T) :
  runs (m_map_err f (sys e)) (follows [mk e]).
Proof. apply runs_sys. intros r. split; done. Qed.

Lemma runs_follow_ret {E A} (a : A) : runs (E:=E) (m_ret a) (follows []).
Proof. apply runs_ret. split; done. Qed.

(** The calls of each operation, on the socket [s] it creates. *)
Definition new_script (f : SocketFamily) (t : SocketType) (s : Z) : list call :=
  [mk (ECreate f t); mk (ESetNonblocking s)].
Definition bind_script (s : Z) (f : SocketFamily) (oi : option OutboundInterface) : list call :=
  match oi with
  | None => []
  | Some i => [mk (EBindDevice s f (index i)); mk (ESetMark s BYPASS_FWMARK)]
  end.
Definition connect_script (d : Dialer) (dst : SocketAddr) (s : Z) : list call :=
  new_script (from_addr dst) STREAM s
  ++ (if should_bind (ip dst) then bind_script s (from_addr dst) (interface d) else [])
  ++ (if tcp_nodelay d then [mk (ESetNodelay s)] else [])
  ++ [mk (EConnect s dst (connect_timeout d))].
Definition udp_script (d : Dialer) (a : SocketAddr) (bound : bool) (s : Z) : list call :=
  new_script (from_addr a) DGRAM s ++ [mk (ESetReuse s)]
  ++ (if bound then bind_script s (from_addr a) (interface d) else [])
  ++ [mk (EBind s a)] ++ [mk (EFromStd s)].

Lemma runs_bind_socket s f oi : runs (bind_socket_to_interface s f oi) (follows (bind_script s f oi)).
Proof.
  destruct oi as [i|]; cbn [bind_socket_to_interface bind_script]; [|apply runs_follow_ret].
  unfold bind_socket_to_interface_inner. destruct (index i =? 0).
  - apply runs_fail. split; [apply prefix_nil|done].
  - apply (runs_follow_bind _ _ [_] [_]); intros; apply runs_follow_sys.
Qed.

Lemma runs_new_socket {B} f t (k : Z → M W DialerError B) (rest : Z → list call) :
  (∀ s, runs (k s) (follows (rest s))) →
  runs (let! s := new_socket2 f t in k s)
    (λ cs r, ∃ s, follows (new_script f t s ++ rest s) cs r).
Proof.
  intros Hk w. unfold new_socket2, m_bind, m_map_err.
  pose proof (sys_calls (ECreate f t) w) as H1. destruct (sys (ECreate f t) w) as [w1 [s|e]]; cbn in *.
  2:{ exists [mk (ECreate f t)]. split; [done|]. exists 0. split; [|done].
      by exists (mk (ESetNonblocking 0) :: rest 0). }
  pose proof (sys_calls (ESetNonblocking s) w1) as H2.
  destruct (sys (ESetNonblocking s) w1) as [w2 [[]|e]]; cbn in *.
  - destruct (Hk s w2) as (cs & Hcs & Hf). exists (new_script f t s ++ cs).
    split; [by rewrite Hcs, H2, H1, <- !app_assoc|]. exists s.
    destruct Hf as [[rest' Hp] Hs]. split.
    + exists rest'. by rewrite <- app_assoc, <- Hp.
    + intros Hr. by rewrite Hs.
  - exists (new_script f t s). split; [by rewrite H2, H1, <- app_assoc|]. exists s.
    split; [by exists (rest s)|done].
Qed.

Lemma runs_follow_if {E} (b : bool) (m : M W E unit) s :
  runs m (follows s) → runs (if b then m else m_ret tt) (follows (if b then s else [])).
Proof. destruct b; [done|]. intros _. apply runs_follow_ret. Qed.

Lemma runs_connect_tcp d dst :
  runs (connect_tcp d dst) (λ cs r, ∃ s, follows (connect_script d dst s) cs r).
Proof.
  unfold connect_tcp, connect_script. apply runs_new_socket. intros s.
  apply runs_follow_bind; [apply runs_follow_if, runs_bind_socket|intros _].
  apply runs_follow_bind; [apply runs_follow_if, runs_follow_sys|intros _].
  rewrite <- (app_nil_r [mk (EConnect _ _ _)]).
  apply (runs_follow_bind _ _ [mk (EConnect _ _ _)] []); [apply runs_follow_sys|intros []; [apply runs_follow_ret|]].
  apply runs_fail. split; done.
Qed.

Lemma runs_udp_tail d a (bound : bool) s :
  runs (do! m_map_err SetOption (sys (ESetReuse s)) in
        do! (if bound then bind_socket_to_interface s (from_addr a) (interface d) else m_ret tt) in
        do! m_map_err (SocketBind a) (sys (EBind s a)) in
        do! m_map_err SocketCreate (sys (EFromStd s)) in m_ret s)
    (follows ([mk (ESetReuse s)]
      ++ (if bound then bind_script s (from_addr a) (interface d) else [])
      ++ [mk (EBind s a)] ++ [mk (EFromStd s)])).
Proof.
  apply runs_follow_bind; [apply runs_follow_sys|intros _].
  apply runs_follow_bind; [apply runs_follow_if, runs_bind_socket|intros _].
  apply runs_follow_bind; [apply runs_follow_sys|intros _].
  rewrite <- (app_nil_r [mk (EFromStd s)]).
  apply runs_follow_bind; [apply runs_follow_sys|intros _; apply runs_follow_ret].
Qed.

Lemma runs_bind_udp d a :
  runs (bind_udp d a) (λ cs r, ∃ s, follows (udp_script d a true s) cs r).
Proof. apply runs_new_socket. intros s. apply (runs_udp_tail d a true). Qed.

Lemma runs_bind_udp_to d server :
  runs (bind_udp_to d server) (λ cs r, ∃ s,
    follows (udp_script d (if is_ipv4 (ip server) then sock (V4 0) 0 else sock (V6 0) 0)
               (should_bind (ip server)) s) cs r).
Proof. apply runs_new_socket. intros s. apply runs_udp_tail. Qed.

(** The number of IPv4 sockets a run created. *)
Definition is_create_v4 (c : call) : bool :=
  match projT2 c with ECreate FamV4 _ => true | _ => false end.
Definition v4_creates (cs : list call) : nat := length (List.filter is_create_v4 cs).

Lemma v4_creates_app cs cs' : v4_creates (cs ++ cs') = (v4_creates cs + v4_creates cs')%nat.
Proof. unfold v4_creates. by rewrite List.filter_app, length_app. Qed.

Lemma v4_creates_udp d a s cs :
  cs `prefix_of` udp_script d a true s →
  (v4_creates cs ≤ if is_ipv4 (ip a) then 1 else 0)%nat.
Proof.
  intros [rest Hr].
  assert (Hle : (v4_creates cs ≤ v4_creates (udp_script d a true s))%nat)
    by (rewrite Hr, v4_creates_app; lia).
  etrans; [exact Hle|]. unfold udp_script, from_addr.
  destruct (is_ipv4 (ip a)), (interface d); cbn; lia.
Qed.

(** One attempt to bind the pair creates one IPv4 socket, besides what [rest]
    does after a failed IPv6 bind. *)
Lemma runs_bind_attempt d a4 a6 p (rest : DialerError → M W DialerError (Z * Z)) (n : nat) :
  (∀ e, runs (rest e) (λ cs _, (v4_creates cs ≤ n)%nat)) →
  runs (let! udp_v4 := bind_udp d (sock (V4 a4) p) in
        let! bound_port := m_map_err SocketCreate (sys (ELocalPort udp_v4)) in
        λ w, match bind_udp d (sock (V6 a6) bound_port) w with
             | (w1, Ok udp_v6) => (w1, Ok (udp_v4, udp_v6))
             | (w1, Err e) => rest e w1
             end) (λ cs _, (v4_creates cs ≤ S n)%nat).
Proof.
  intros Hrest. eapply runs_bind; [apply runs_bind_udp| |].
  { intros cs e (s & Hp & _). apply v4_creates_udp in Hp. cbn in Hp. lia. }
  intros cs u4 (s & Hp & _). apply v4_creates_udp in Hp. cbn in Hp.
  apply (runs_bind _ _ (λ cs1 _, v4_creates cs1 = 0%nat)); [by apply runs_sys| |].
  { intros cs1 e Hz. rewrite v4_creates_app. lia. }
  intros cs1 bp Hz w.
  destruct (runs_bind_udp d (sock (V6 a6) bp) w) as (cs2 & Hcs2 & s2 & Hp2 & _).
  apply v4_creates_udp in Hp2. cbn in Hp2.
  destruct (bind_udp d _ w) as [w1 [u6|e]]; cbn in Hcs2.
  - exists cs2. split; [done|]. rewrite !v4_creates_app. lia.
  - destruct (Hrest e w1) as (cs3 & Hcs3 & Hn). exists (cs2 ++ cs3).
    split; [by rewrite Hcs3, Hcs2, app_assoc|]. rewrite !v4_creates_app. lia.
Qed.

Lemma runs_bind_pair d a4 a6 p n :
  runs (bind_pair_loop d a4 a6 p n)
    (λ cs _, (v4_creates cs ≤ if (p =? 0)%Z then S n else 1)%nat).
Proof.
  revert p. induction n as [|n IH]; intros p; cbn [bind_pair_loop].
  - eapply runs_mono; [apply (runs_bind_attempt _ _ _ _ m_fail 0)|].
    + intros e. by apply runs_fail.
    + cbn. intros cs _ Hn. by destruct (p =? 0).
  - destruct (Z.eqb_spec p 0) as [->|Hne]; cbn [andb].
    + eapply runs_equiv; [|apply (runs_bind_attempt d a4 a6 0
        (λ e, if is_bind_retry e then bind_pair_loop d a4 a6 0 n else m_fail e) (S n))].
      { apply m_bind_proper; [done|]. intros u4. apply m_bind_proper; [done|]. intros bp w.
        destruct (bind_udp d _ w) as [w1 [u6|e]]; [done|]. by destruct (is_bind_retry e). }
      intros e. destruct (is_bind_retry e); [apply IH|by apply runs_fail; cbn; lia].
    + apply (runs_bind_attempt _ _ _ _ m_fail 0). intros e. by apply runs_fail.
Qed.

End log.

#[export] Hint Resolve runs_follow_sys runs_follow_ret : rust.

(** *** What the calls leave alone

    Whatever part of the world the system calls do not touch, the operations
    do not touch. *)
Section untouched.
Context {W : Type} `{Sockets W} {O : Type} (obs : W → O).
Hypothesis sys_keeps : ∀ {T} (e : SockE T), keeps obs (sys e).

Lemma keeps_sys {T E} (f : io_error → E) (e : SockE T) : keeps obs (m_map_err f (sys e)).
Proof. apply keeps_map_err, sys_keeps. Qed.
#[local] Hint Resolve keeps_sys : rust.
#[local] Hint Extern 1 (keeps _ (m_bind _ _)) => apply keeps_bind; [|intros ?] : rust.

Lemma keeps_bind_to_interface s f oi : keeps obs (bind_socket_to_interface s f oi).
Proof.
  destruct oi as [i|]; cbn [bind_socket_to_interface]; [|auto with rust].
  unfold bind_socket_to_interface_inner. destruct (index i =? 0); auto with rust.
Qed.
#[local] Hint Resolve keeps_bind_to_interface : rust.

Lemma keeps_bind_udp_to d server : keeps obs (bind_udp_to d server).
Proof. unfold bind_udp_to, new_socket2. cbn zeta. auto 10 with rust. Qed.

Lemma keeps_connect_tcp d dst : keeps obs (connect_tcp d dst).
Proof.
  unfold connect_tcp, new_socket2. cbn zeta. repeat (apply keeps_bind; [auto with rust|intros ?]).
  all: auto 10 with rust.
Qed.
End untouched.

(** A world that grants every call, for the witnesses: descriptor 3, port
    40000, and every connect succeeds. *)
Module Granting.
Definition answer {T} (e : SockE T) : T :=
  match e in SockE T return T with
  | ECreate _ _ => 3
  | ELocalPort _ => 40000
  | EConnect _ _ _ => true
  | ESetNonblocking _ | EBindDevice _ _ _ | ESetMark _ _ | ESetNodelay _ | ESetReuse _
  | ESetOnlyV6 _ | EBind _ _ | EFromStd _ => tt
  end.
#[global] Instance sockets : Sockets (list call) := λ T e w, (w ++ [mk e], Ok (answer e)).
#[global] Instance log : SocketLog (list call) := { calls w := w; sys_calls T e w := eq_refl }.
End Granting.

(** ** Properties *)

(** A destination gets no interface binding exactly when it is loopback
    (127/8, ::1), link-local (169.254/16, fe80::/10), multicast (224/4,
    ff00::/8), unspecified or the broadcast address; every other address, the
    private ranges included, is bound. *)
Theorem should_bind_ranges a :
  (0 ≤ a < 2 ^ 32 →
   should_bind (V4 a) = true ↔
   ¬ (v4 127 0 0 0 ≤ a ≤ v4 127 255 255 255) ∧ ¬ (v4 169 254 0 0 ≤ a ≤ v4 169 254 255 255) ∧
   ¬ (v4 224 0 0 0 ≤ a ≤ v4 239 255 255 255) ∧ a ≠ 0 ∧ a ≠ v4 255 255 255 255) ∧
  (0 ≤ a < 2 ^ 128 →
   should_bind (V6 a) = true ↔
   a ≠ 0 ∧ a ≠ 1 ∧ ¬ (65152 * 2 ^ 112 ≤ a < 65216 * 2 ^ 112) ∧ a < 65280 * 2 ^ 112).
Proof.
  split; intros Ha; cbn [should_bind].
  - unfold v4_is_loopback, v4_is_link_local, v4_is_multicast, v4_is_unspecified, v4_is_broadcast.
    rewrite octet0_range, octet1_mod by done.
    rewrite !andb_true_iff, !negb_true_iff, !andb_false_iff, !Z.eqb_neq, !Z.leb_gt.
    unfold v4. pose proof (Z.div_mod a (2 ^ 24)). pose proof (Z.mod_pos_bound a (2 ^ 24)).
    pose proof (Z.div_mod a (2 ^ 16)). pose proof (Z.mod_pos_bound a (2 ^ 16)).
    pose proof (Z.div_mod (a / 2 ^ 16) (2 ^ 8)). pose proof (Z.mod_pos_bound (a / 2 ^ 16) (2 ^ 8)).
    assert (a / 2 ^ 16 / 2 ^ 8 = a / 2 ^ 24) by (rewrite Z.div_div by lia; done).
    lia.
  - unfold v6_is_loopback, v6_is_multicast, v6_is_unspecified.
    rewrite segment0_range by done.
    assert (Hs : 0 ≤ a / 2 ^ 112 < 2 ^ 16).
    { split; [apply Z.div_pos; lia|apply Z.div_lt_upper_bound; lia]. }
    change 65472 with (Z.shiftl (Z.ones (16 - 6)) 6). change 65280 with (Z.shiftl (Z.ones (16 - 8)) 8) at 1 2.
    rewrite !land_high_mask by lia.
    rewrite !andb_true_iff, !negb_true_iff, !Z.eqb_neq.
    change (Z.shiftl (Z.ones (16 - 8)) 8) with 65280.
    pose proof (Z.div_mod a (2 ^ 112)). pose proof (Z.mod_pos_bound a (2 ^ 112)).
    set (q := a / 2 ^ 112) in *.
    pose proof (Z.div_mod q (2 ^ 6)). pose proof (Z.mod_pos_bound q (2 ^ 6)).
    pose proof (Z.div_mod q (2 ^ 8)). pose proof (Z.mod_pos_bound q (2 ^ 8)).
    lia.
Qed.

Lemma should_bind_ranges_witness :
  should_bind (V4 (v4 10 0 0 1)) = true ∧ should_bind (V6 (64768 * 2 ^ 112 + 1)) = true.
Proof.
  split.
  - apply (proj2 (proj1 (should_bind_ranges (v4 10 0 0 1)) ltac:(vm_compute; split; congruence))).
    unfold v4. lia.
  - apply (proj2 (proj2 (should_bind_ranges (64768 * 2 ^ 112 + 1)) ltac:(lia))). lia.
Defined.

(** C16: No bypass connection is made unbound: with an outbound interface and a
    destination that is to be bound, dialing makes its calls in the order
    create, non-blocking, bind to the interface, mark, no-delay, connect, and
    stops at the first that fails; so [connect] is reached only on a socket
    already bound to that interface and marked. *)
Theorem connect_tcp_bound_first {W} `{SocketLog W} d i dst w :
  interface d = Some i → should_bind (ip dst) = true →
  ∃ s cs, calls (connect_tcp d dst w).1 = calls w ++ cs ∧
    let script :=
      [mk (ECreate (from_addr dst) STREAM); mk (ESetNonblocking s);
       mk (EBindDevice s (from_addr dst) (index i)); mk (ESetMark s BYPASS_FWMARK)]
      ++ (if tcp_nodelay d then [mk (ESetNodelay s)] else [])
      ++ [mk (EConnect s dst (connect_timeout d))] in
    cs `prefix_of` script ∧ (is_ok (connect_tcp d dst w).2 = true → cs = script).
Proof.
  intros Hi Hb. destruct (runs_connect_tcp d dst w) as (cs & Hcs & s & Hf).
  exists s, cs. split; [exact Hcs|]. unfold connect_script in Hf. rewrite Hi, Hb in Hf. exact Hf.
Qed.

Definition en0 : OutboundInterface :=
  {| name := "en0"; index := 4; gateway_v4 := None; gateway_v6 := None |}.

Lemma connect_tcp_bound_first_witness :
  ∃ s cs, calls (connect_tcp (dialer_new (Some en0)) (sock (V4 (v4 10 0 0 1)) 443) []).1 = [] ++ cs
    ∧ length cs = 6%nat ∧ nth_error cs 5 =
      Some (mk (EConnect s (sock (V4 (v4 10 0 0 1)) 443) DEFAULT_CONNECT_TIMEOUT)).
Proof.
  destruct (connect_tcp_bound_first (dialer_new (Some en0)) en0 (sock (V4 (v4 10 0 0 1)) 443) [])
    as (s & cs & Hcs & _ & Hok); [done|done|].
  exists s, cs. split; [exact Hcs|]. specialize (Hok eq_refl). subst cs.
  split; reflexivity.
Defined.

(** Binding the IPv4/IPv6 socket pair takes at most eleven attempts on a
    system-chosen port and exactly one on a given port, whatever the system
    answers. *)
Theorem bind_udp_pair_attempts {W} `{SocketLog W} d a4 a6 p w :
  ∃ cs, calls (bind_udp_pair d a4 a6 p w).1 = calls w ++ cs ∧
    (v4_creates cs ≤ if (p =? 0)%Z then 11 else 1)%nat.
Proof. apply runs_bind_pair. Qed.

End Dialer.
