(* ===== verification/DnsConfig.v ===== *)
(** * DNS configuration ([dns/src/config.rs], [dns/src/lib.rs])

    What the tunnel learns about DNS from a [/vpn/conn] response: the resolver
    endpoints, the split-domain matchers and the tables of names that are
    answered locally.  The [url] and [wildmatch] crates and the host lookup
    are behind interfaces. *)

From S2P Require Import Prelude RustStr Net Models.
Import Models.

Module DnsConfig.

(** ** Strings and sets the parser uses *)

(** [str::to_lowercase] is ASCII lower-casing on ASCII text; elsewhere it is
    the Unicode table's. *)
Class Unicode : Type := {
  to_lowercase : string → string;
  to_lowercase_ascii s : is_ascii s = true → to_lowercase s = to_ascii_lowercase s;
}.

Definition double_quote : ascii := ascii_of_nat 34.

(** [trim_matches(c)] and [trim_start_matches("*.")]. *)
Definition trim_matches (c : ascii) (s : string) : string := trim_end_matches c (trim_start_matches c s).
Fixpoint drop_star_dot (l : list ascii) : list ascii :=
  match l with
  | "*"%char :: "."%char :: l' => drop_star_dot l'
  | _ => l
  end.

(** A [BTreeSet<String>] as the sorted list of its elements. *)
Fixpoint btree_insert (s : string) (l : list string) : list string :=
  match l with
  | [] => [s]
  | t :: l' =>
      match String.compare s t with
      | Lt => s :: l
      | Eq => l
      | Gt => t :: btree_insert s l'
      end
  end.

(** Keep the first of equal values: the [seen.insert(..)] filter. *)
Fixpoint dedup {A} `{EqDecision A} (seen l : list A) : list A :=
  match l with
  | [] => []
  | x :: l' => if decide (x ∈ seen) then dedup seen l' else x :: dedup (x :: seen) l'
  end.

(** ** The crates used *)

(** [url::Url], as far as an endpoint is read from it. *)
Inductive Host : Type := HostDomain (d : string) | HostIpv4 (a : Z) | HostIpv6 (a : Z).
Record ParsedUrl : Type := {
  url_scheme : string; url_path : string; url_port : option Z; url_host : option Host;
}.
Class UrlParser : Type := url_parse : string → option ParsedUrl.

(** [wildmatch]: [*] matches any run of characters, [?] exactly one, anything
    else itself. *)
Definition wildcard_free (s : string) : bool :=
  negb (contains_char s "*") && negb (contains_char s "?").
Class WildMatch : Type := {
  wm_matches : string → string → bool;
  wm_literal p s : wildcard_free p = true → wm_matches p s = bool_decide (p = s);
  wm_star p s : wildcard_free p = true → wm_matches ("*" +:+ p) s = ends_with s p;
}.

(** ** Textual forms of addresses ([std::net]'s [Display]) *)

(** The first longest run of zero groups, as its start and length. *)
Fixpoint zero_run (gs : list Z) : nat :=
  match gs with g :: gs' => if g =? 0 then S (zero_run gs') else O | [] => O end.
Fixpoint longest_zero_run (i : nat) (gs : list Z) (best : nat * nat) : nat * nat :=
  match gs with
  | [] => best
  | _ :: gs' =>
      let n := zero_run gs in
      longest_zero_run (S i) gs' (if (best.2 <? n)%nat then (i, n) else best)
  end.
Definition hex_char (d : Z) : ascii :=
  ascii_of_nat (Z.to_nat (if d <? 10 then 48 + d else 87 + d)).
Fixpoint hex_digits (fuel : nat) (n : Z) : list ascii :=
  match fuel with
  | O => []
  | S f => if n <? 16 then [hex_char n] else hex_digits f (n / 16) ++ [hex_char (n mod 16)]
  end.
Definition show_group (g : Z) : string := of_bytes (hex_digits 4 g).
Definition show_ipv6 (a : Z) : string :=
  if Z.shiftr a 32 =? 65535 then "::ffff:" +:+ show_ipv4 (Z.land a 4294967295)
  else
    let gs := map (segment a) [0; 1; 2; 3; 4; 5; 6; 7] in
    let '(start, len) := longest_zero_run 0 gs (0%nat, 0%nat) in
    if (1 <? len)%nat then
      join ":" (map show_group (firstn start gs)) +:+ "::"
        +:+ join ":" (map show_group (skipn (start + len) gs))
    else join ":" (map show_group gs).
Definition show_socket_addr (a : SocketAddr) : string :=
  match ip a with
  | V4 x => show_ipv4 x +:+ ":" +:+ show_nat (port a)
  | V6 x =>
      "[" +:+ show_ipv6 x +:+ (if scope a =? 0 then "" else "%" +:+ show_nat (scope a)) +:+ "]:"
        +:+ show_nat (port a)
  end.

Example show_socket_addr_examples :
  show_socket_addr (sock (V4 (v4 8 8 8 8)) 53) = "8.8.8.8:53" ∧
  (show_socket_addr <$> (flip sock 53 <$> parse_ip "2001:4860:4860:0:0:0:0:8888"))
    = Some "[2001:4860:4860::8888]:53" ∧
  (show_socket_addr <$> (flip sock 53 <$> parse_ip "0:0:0:0:0:0:0:1")) = Some "[::1]:53".
Proof. repeat split; vm_compute; reflexivity. Qed.

(** ** The configuration *)

Definition DNS_PORT : Z := 53.

(* @dns/src/config.rs:29-44 DynamicDomainTables *)
Record DynamicDomainTables : Type := {
  exact_v4 : gmap string (list string);
  exact_v6 : gmap string (list string);
  wildcard_v4 : list (string * list string);
  suffix_v4 : list (string * list string);
}.

(** [None] is the [name] that matches no entry; the pattern test of the
    linear scans. *)
Definition pattern_matches (name pattern : string) : bool :=
  negb (str_is_empty pattern)
  && (bool_decide (name = pattern) || ends_with name ("." +:+ pattern)).
Definition scan (name : string) (table : list (string * list string)) : option (list string) :=
  snd <$> List.find (λ e, pattern_matches name e.1) table.

(* @dns/src/config.rs:48-61 DynamicDomainTables::lookup_v4 *)
Definition lookup_v4 (t : DynamicDomainTables) (name : string) : option (list string) :=
  or_else (exact_v4 t !! name) (or_else (scan name (wildcard_v4 t)) (scan name (suffix_v4 t))).

(* @dns/src/config.rs:64-66 DynamicDomainTables::lookup_v6 *)
Definition lookup_v6 (t : DynamicDomainTables) (name : string) : option (list string) :=
  exact_v6 t !! name.

(* @dns/src/config.rs:68-73 DynamicDomainTables::is_empty *)
Definition tables_is_empty (t : DynamicDomainTables) : bool :=
  bool_decide (exact_v4 t = ∅) && bool_decide (exact_v6 t = ∅)
  && match wildcard_v4 t, suffix_v4 t with [], [] => true | _, _ => false end.

(* @dns/src/config.rs:79-93 DnsConfig *)
Record DnsConfig : Type := {
  full_tunnel : bool;
  vpn_servers : list string;
  split_matchers : list string;   (* the patterns the [WildMatch]es compile *)
  dynamic : DynamicDomainTables;
  cfg_central_dns : option CentralDns;
  cfg_ip_nats : list IpNat;
}.

Section config.
Context `{Unicode} `{UrlParser} `{WildMatch}.

(* @dns/src/config.rs:217-226 normalize_domain *)
Definition normalize_domain (value : string) : string :=
  let s := trim_matches "'" (trim_matches double_quote (trim value)) in
  let s := of_bytes (drop_star_dot (bytes_of s)) in
  to_lowercase (trim_end_matches "." (trim_start_matches "." s)).

(* @dns/src/config.rs:274-285 accept_domain *)
Definition accept_domain (value : string) (out : list string) : list string :=
  let domain := normalize_domain value in
  if str_is_empty domain || contains_char domain "/" || negb (contains_char domain ".")
     || is_some (parse_ip domain) || is_some (parse_socket_addr domain)
  then out
  else btree_insert domain out.

(* @dns/src/config.rs:287-294 normalized_entries *)
Definition normalized_entries (m : option domain_table) : list (string * list string) :=
  filter_map (λ '(key, values),
    let domain := normalize_domain key in
    if str_is_empty domain then None else Some (domain, values)) (default [] m).

(** The separators of a server list: [;], [,] and white space. *)
Fixpoint split_tokens (cur l : list ascii) : list (list ascii) :=
  match l with
  | [] => [rev cur]
  | a :: l1 =>
      if Ascii.eqb a ";" || Ascii.eqb a "," || ws1 a then rev cur :: split_tokens [] l1
      else match l1 with
           | b :: l2 =>
               if ws2 a b then rev cur :: split_tokens [] l2
               else match l2 with
                    | c :: l3 => if ws3 a b c then rev cur :: split_tokens [] l3
                                 else split_tokens (a :: cur) l1
                    | [] => split_tokens (a :: cur) l1
                    end
           | [] => split_tokens (a :: cur) l1
           end
  end.
(* @dns/src/config.rs:301-307 split_config_tokens *)
Definition split_config_tokens (value : string) : list string :=
  List.filter (λ s, negb (str_is_empty s)) (map trim (map of_bytes (split_tokens [] (bytes_of value)))).

(* @dns/src/config.rs:246-271 parse_dns_endpoint *)
Definition parse_dns_endpoint (value : string) : option string :=
  let value := trim_matches "'" (trim_matches double_quote (trim value)) in
  if str_is_empty value || (contains value "/" && negb (contains value "://")) then None
  else if is_some (parse_socket_addr value) then Some value
  else match parse_ip value with
  | Some i => Some (show_socket_addr (sock i DNS_PORT))
  | None =>
      u ← (if contains value "://" then url_parse value else url_parse ("dns://" +:+ value));
      if negb (bool_decide (url_scheme u = "dns") || bool_decide (url_scheme u = "udp"))
         || negb (bool_decide (url_path u = "") || bool_decide (url_path u = "/"))
      then None
      else
        let port := default DNS_PORT (url_port u) in
        host ← url_host u;
        Some match host with
             | HostDomain d => d +:+ ":" +:+ show_nat port
             | HostIpv4 a => show_socket_addr (sock (V4 a) port)
             | HostIpv6 a => show_socket_addr (sock (V6 a) port)
             end
  end.

(* @dns/src/config.rs:231-244 collect_vpn_servers *)
Definition collect_vpn_servers (sources : list (option string)) : list string :=
  dedup [] (filter_map parse_dns_endpoint (concat (map split_config_tokens (omap id sources)))).

(** [entry(domain).or_default().extend(values)]. *)
Definition extend_entry (m : gmap string (list string)) (e : string * list string) :
    gmap string (list string) :=
  <[e.1 := default [] (m !! e.1) ++ e.2]> m.

(* @dns/src/config.rs:98-153 DnsConfig::from_vpn_conn *)
Definition from_vpn_conn (conn : VpnConnResponse) (local_dns : option string) (full : bool) : DnsConfig :=
  let setting := conn_setting conn in
  let split := foldl (λ out raw, accept_domain raw out) []
                     (default [] (vpn_dns_domain_split setting)) in
  {| full_tunnel := full;
     vpn_servers := collect_vpn_servers [local_dns; vpn_dns setting; vpn_dns_backup setting];
     split_matchers := concat (map (λ domain, [domain; "*." +:+ domain]) split);
     dynamic := {|
       exact_v4 := foldl extend_entry ∅
         (normalized_entries (dynamic_domain setting)
          ++ normalized_entries (vpn_dynamic_domain_route_split setting));
       exact_v6 := foldl (λ m e, <[e.1 := e.2]> m) ∅
         (normalized_entries (v6_vpn_dynamic_domain_route_split setting));
       wildcard_v4 := normalized_entries (vpn_wildcard_dynamic_domain_route_split setting);
       suffix_v4 := normalized_entries (suffix_wildcard_dynamic_domain_route_split setting);
     |};
     cfg_central_dns := central_dns setting;
     cfg_ip_nats := default [] (ip_nats setting) |}.

(* @dns/src/config.rs:156-159 DnsConfig::is_disabled *)
Definition is_disabled (c : DnsConfig) : bool :=
  match vpn_servers c with [] => true | _ => false end.

(* @dns/src/config.rs:162-165 DnsConfig::split_matcher_count *)
Definition split_matcher_count (c : DnsConfig) : nat := length (split_matchers c).

(** [lookup_host] is the system's resolver. *)
(* @dns/src/config.rs:180-198 DnsConfig::resolve_vpn_servers *)
Definition resolve_vpn_servers {W} (lookup_host : string → M W io_error (list SocketAddr))
    (c : DnsConfig) (w : W) : W * list SocketAddr :=
  let '(w', found) := foldl (λ '(w, found) spec,
      match lookup_host spec w with
      | (w1, Ok addrs) => (w1, found ++ addrs)
      | (w1, Err _) => (w1, found)
      end) (w, []) (vpn_servers c) in
  (w', dedup [] found).

(* @dns/src/config.rs:205-210 DnsConfig::matches_split *)
Definition matches_split (c : DnsConfig) (domain : string) : bool :=
  let domain := normalize_domain domain in
  existsb (λ p, wm_matches p domain) (split_matchers c).

(* @dns/src/config.rs:201-203 DnsConfig::route_through_vpn *)
Definition route_through_vpn (c : DnsConfig) (domain : option string) : bool :=
  full_tunnel c || is_some_and domain (matches_split c).

End config.

(* @dns/src/config.rs:297-299 value_token *)
Definition value_token (value : string) : string :=
  trim (default value (hd_error (split "/" value))).

(** ** The system's servers ([dns/src/lib.rs]) *)

(* @dns/src/lib.rs:30-30 DEFAULT_FALLBACK_DNS *)
Definition DEFAULT_FALLBACK_DNS : IpAddr := V4 (v4 223 5 5 5).

(** [sys_conf] is what the system's configuration reads as. *)
(* @dns/src/lib.rs:66-83 read_system_dns_ips *)
Definition read_system_dns_ips (sys_conf : result io_error (list IpAddr)) : list IpAddr :=
  match sys_conf with Ok ips => dedup [] ips | Err _ => [] end.

(* @dns/src/lib.rs:38-64 capture_system_dns *)
Definition capture_system_dns (sys_conf : result io_error (list IpAddr))
    (fallback : option (list string)) : list IpAddr :=
  let servers := List.filter (λ i, negb (ip_is_loopback i) && negb (ip_is_unspecified i))
                             (read_system_dns_ips sys_conf) in
  match servers with
  | _ :: _ => servers
  | [] =>
      match filter_map parse_ip (default [] fallback) with
      | (_ :: _) as parsed => parsed
      | [] => [DEFAULT_FALLBACK_DNS]
      end
  end.

(** ** Lemmas *)

Lemma btree_insert_elem x s l : x ∈ btree_insert s l ↔ x = s ∨ x ∈ l.
Proof.
  induction l as [|t l IH]; cbn [btree_insert].
  { rewrite list_elem_of_singleton, elem_of_nil. tauto. }
  destruct (String.compare s t) eqn:Hc;
    [apply String.compare_eq_iff in Hc as ->| |]; rewrite ?elem_of_cons, ?IH; naive_solver.
Qed.

Lemma dedup_elem {A} `{EqDecision A} (seen l : list A) x : x ∈ dedup seen l ↔ x ∈ l ∧ x ∉ seen.
Proof.
  revert seen. induction l as [|y l IH]; intros seen; cbn [dedup].
  { rewrite elem_of_nil. naive_solver. }
  destruct (decide (y ∈ seen)) as [Hy|Hy]; rewrite ?elem_of_cons, IH, ?elem_of_cons.
  - naive_solver.
  - destruct (decide (x = y)) as [->|]; naive_solver.
Qed.

Lemma dedup_NoDup {A} `{EqDecision A} (seen l : list A) : NoDup (dedup seen l).
Proof.
  revert seen. induction l as [|y l IH]; intros seen; cbn [dedup]; [constructor|].
  destruct (decide (y ∈ seen)); [apply IH|]. constructor; [|apply IH].
  rewrite dedup_elem, elem_of_cons. naive_solver.
Qed.

Section lemmas.
Context `{Unicode} `{UrlParser} `{WildMatch}.

(** What [accept_domain] takes as a split domain. *)
Definition is_split_domain (domain : string) : bool :=
  negb (str_is_empty domain || contains_char domain "/" || negb (contains_char domain ".")
        || is_some (parse_ip domain) || is_some (parse_socket_addr domain)).

Lemma accept_domain_elem x raw out :
  x ∈ accept_domain raw out ↔
  (x = normalize_domain raw ∧ is_split_domain x = true) ∨ x ∈ out.
Proof.
  unfold accept_domain, is_split_domain. cbn zeta.
  destruct (_ || _) eqn:E; [|rewrite btree_insert_elem].
  - split; [by right|]. intros [[-> Hs]|?]; [|done]. rewrite E in Hs. done.
  - split; intros [Hx|?]; try (by right); left; [|naive_solver].
    subst x. split; [done|]. by rewrite E.
Qed.

Lemma accept_domains_elem x raws out :
  x ∈ foldl (λ out raw, accept_domain raw out) out raws ↔
  (∃ raw, raw ∈ raws ∧ x = normalize_domain raw ∧ is_split_domain x = true) ∨ x ∈ out.
Proof.
  revert out. induction raws as [|raw raws IH]; intros out; cbn [foldl].
  { split; [by right|]. intros [(? & Hn & _)|?]; [by apply elem_of_nil in Hn|done]. }
  rewrite IH, accept_domain_elem. setoid_rewrite elem_of_cons. naive_solver.
Qed.

Lemma matchers_match (split : list string) q :
  (∀ d, d ∈ split → wildcard_free d = true) →
  existsb (λ p, wm_matches p q) (concat (map (λ d, [d; "*." +:+ d]) split)) = true ↔
  ∃ d, d ∈ split ∧ (q = d ∨ ends_with q ("." +:+ d) = true).
Proof.
  induction split as [|d split IH]; intros Hw; cbn [map concat existsb app].
  { split; [done|]. intros (? & Hn & _). by apply elem_of_nil in Hn. }
  assert (Hd : wildcard_free d = true) by (apply Hw; left).
  rewrite !orb_true_iff, IH by (intros ? ?; apply Hw; by right).
  change ("*." +:+ d) with ("*" +:+ ("." +:+ d)). rewrite wm_literal, wm_star; [|exact Hd|exact Hd].
  rewrite bool_decide_eq_true. split.
  - intros [Hq|[Hq|(d' & Hin & Hq)]]; [exists d; split; [left|auto]..|exists d'; split; [by right|done]].
  - intros (d' & [->|Hin]%elem_of_cons & Hq); [|right; right; by eauto].
    destruct Hq as [->|Hq]; [by left|right; by left].
Qed.

(** All the values of the entries for [name], in order. *)
Definition entries_for (name : string) (es : list (string * list string)) : list (list string) :=
  map snd (List.filter (λ e, bool_decide (e.1 = name)) es).

Lemma entries_for_app name es es' :
  entries_for name (es ++ es') = entries_for name es ++ entries_for name es'.
Proof. unfold entries_for. by rewrite List.filter_app, map_app. Qed.

Lemma extend_entries_lookup es (m : gmap string (list string)) name :
  foldl extend_entry m es !! name =
    match entries_for name es with
    | [] => m !! name
    | vs => Some (default [] (m !! name) ++ concat vs)
    end.
Proof.
  revert m. induction es as [|[k v] es IH]; intros m; [done|]. cbn [foldl]. rewrite IH.
  unfold entries_for. cbn [List.filter fst]. unfold extend_entry. cbn [fst snd].
  destruct (decide (k = name)) as [->|Hne].
  - rewrite (bool_decide_eq_true_2 (name = name)) by done. rewrite lookup_insert_eq. cbn [map snd concat].
    destruct (map snd _) as [|w ws]; cbn [concat default]; [by rewrite app_nil_r|].
    cbn [id]. by rewrite <- app_assoc.
  - rewrite (bool_decide_eq_false_2 (k = name)) by done. by rewrite lookup_insert_ne.
Qed.

Lemma scan_spec name table values :
  scan name table = Some values →
  ∃ pattern, (pattern, values) ∈ table ∧ pattern ≠ "" ∧
             (name = pattern ∨ ends_with name ("." +:+ pattern) = true).
Proof.
  unfold scan. intros Hs. apply fmap_Some in Hs as ([p v] & Hf & ->).
  apply find_some in Hf as [Hin Hm]. unfold pattern_matches in Hm. cbn in Hm.
  exists p. split; [by apply list_elem_of_In|]. apply andb_true_iff in Hm as [Hp Hm].
  split; [by intros ->|]. apply orb_true_iff in Hm as [Hm|Hm]; [|by right].
  left. by apply bool_decide_eq_true in Hm.
Qed.

End lemmas.
#[export] Hint Resolve dedup_NoDup : rust.

(** ** A concrete instance of the crates

    ASCII text, URLs of the shape [scheme://host[:port]], and a glob
    matcher. *)
Module Plain.
Definition ascii_lower (s : string) : string := to_ascii_lowercase s.
#[global] Instance unicode : Unicode := {
  to_lowercase := ascii_lower; to_lowercase_ascii s _ := eq_refl;
}.
#[global] Instance urls : UrlParser := λ s,
  '(scheme, rest) ← split_once ":" s;
  rest ← strip_prefix "//" rest;
  let '(host, port) := match split_once ":" rest with
                       | Some (h, p) => (h, parse_u16 p)
                       | None => (rest, None)
                       end in
  Some {| url_scheme := scheme; url_path := ""; url_port := port;
          url_host := Some match parse_ipv4 host with
                           | Some a => HostIpv4 a
                           | None => HostDomain host
                           end |}.
Fixpoint glob (p : list ascii) : list ascii → bool :=
  match p with
  | [] => λ s, match s with [] => true | _ => false end
  | "*"%char :: p' =>
      fix star s := glob p' s || match s with [] => false | _ :: s' => star s' end
  | "?"%char :: p' => λ s, match s with [] => false | _ :: s' => glob p' s' end
  | c :: p' => λ s, match s with [] => false | a :: s' => Ascii.eqb c a && glob p' s' end
  end.
Definition wildcard (c : ascii) : bool := Ascii.eqb "*" c || Ascii.eqb "?" c.

Lemma glob_cons c p s : wildcard c = false →
  glob (c :: p) s = match s with [] => false | a :: s' => Ascii.eqb c a && glob p s' end.
Proof. destruct c as [[] [] [] [] [] [] [] []]; try reflexivity; intros [=]. Qed.

Lemma glob_literal p s : forallb (λ c, negb (wildcard c)) p = true →
  glob p s = bool_decide (p = s).
Proof.
  revert s. induction p as [|c p IH]; intros s Hp.
  { destruct s; reflexivity. }
  cbn in Hp. apply andb_true_iff in Hp as [Hc Hp]. apply negb_true_iff in Hc.
  rewrite glob_cons by done. destruct s as [|a s]; [done|]. rewrite IH by done.
  destruct (Ascii.eqb_spec c a) as [->|Hne]; cbn [andb];
    [apply bool_decide_ext|symmetry; apply bool_decide_eq_false]; naive_solver.
Qed.

Lemma glob_star p s : forallb (λ c, negb (wildcard c)) p = true →
  glob ("*"%char :: p) s = true ↔ ∃ k, s = k ++ p.
Proof.
  intros Hp. induction s as [|a s IH].
  - change (glob ("*"%char :: p) []) with (glob p [] || false). rewrite orb_false_r, glob_literal by done.
    rewrite bool_decide_eq_true. split; [intros ->; by exists []|].
    intros [k Hk]. symmetry in Hk. by apply app_eq_nil in Hk as [_ ->].
  - change (glob ("*"%char :: p) (a :: s)) with (glob p (a :: s) || glob ("*"%char :: p) s).
    rewrite orb_true_iff, IH, glob_literal, bool_decide_eq_true by done. split.
    + intros [->|[k ->]]; [by exists []|by exists (a :: k)].
    + intros [[|b k] Hk]; cbn in Hk; [by left|]. injection Hk as -> ->. right. by exists k.
Qed.

Lemma wildcard_free_bytes p : wildcard_free p = true →
  forallb (λ c, negb (wildcard c)) (bytes_of p) = true.
Proof.
  unfold wildcard_free, contains_char. induction (bytes_of p) as [|c l IH]; [done|]. cbn [existsb forallb].
  unfold wildcard at 1. destruct (Ascii.eqb "*" c), (Ascii.eqb "?" c); cbn [negb orb andb]; try done.
  all: by rewrite ?andb_false_r.
Qed.

Lemma glob_str_literal p s : wildcard_free p = true →
  glob (bytes_of p) (bytes_of s) = bool_decide (p = s).
Proof.
  intros Hp. rewrite glob_literal by (by apply wildcard_free_bytes).
  apply bool_decide_ext. split; [apply bytes_of_inj|by intros ->].
Qed.

Lemma glob_str_star p s : wildcard_free p = true →
  glob (bytes_of ("*" +:+ p)) (bytes_of s) = ends_with s p.
Proof.
  intros Hp. apply eq_true_iff_eq. rewrite bytes_of_app.
  change (bytes_of "*" ++ bytes_of p) with ("*"%char :: bytes_of p).
  rewrite glob_star by (by apply wildcard_free_bytes). rewrite ends_with_spec. split.
  - intros [k Hk]. exists (of_bytes k). apply bytes_of_inj. by autorewrite with rust.
  - intros [t ->]. exists (bytes_of t). by autorewrite with rust.
Qed.

#[global] Instance wild : WildMatch := {
  wm_matches p s := glob (bytes_of p) (bytes_of s);
  wm_literal := glob_str_literal; wm_star := glob_str_star;
}.
End Plain.

Example normalizes_domain_patterns :
  normalize_domain " *.Example.COM." = "example.com" ∧
  parse_dns_endpoint "8.8.8.8" = Some "8.8.8.8:53" ∧
  parse_dns_endpoint "dns.example:5353" = Some "dns.example:5353" ∧
  parse_dns_endpoint "udp://8.8.8.8:5353" = Some "8.8.8.8:5353" ∧
  parse_dns_endpoint "https://dns.example/dns-query" = None ∧
  split_config_tokens "10.0.0.1; 10.0.0.2,,dns.example " = ["10.0.0.1"; "10.0.0.2"; "dns.example"].
Proof. repeat split; vm_compute; reflexivity. Qed.

(** ** Properties *)

(** C36: Split DNS routing: outside full-tunnel mode a query is sent to the
    VPN's resolver exactly when its normalized name is one of the accepted
    split domains of the response or a subdomain of one, for split domains
    without wildcard characters; in full-tunnel mode every query is. *)
Theorem split_routing `{Unicode} `{UrlParser} `{WildMatch} conn local_dns full query :
  (∀ raw, raw ∈ default [] (vpn_dns_domain_split (conn_setting conn)) →
          wildcard_free (normalize_domain raw) = true) →
  route_through_vpn (from_vpn_conn conn local_dns full) query = true ↔
  full = true ∨ ∃ q raw, query = Some q ∧
    raw ∈ default [] (vpn_dns_domain_split (conn_setting conn)) ∧
    is_split_domain (normalize_domain raw) = true ∧
    (normalize_domain q = normalize_domain raw
     ∨ ends_with (normalize_domain q) ("." +:+ normalize_domain raw) = true).
Proof.
  intros Hw. unfold route_through_vpn. cbn [full_tunnel from_vpn_conn]. rewrite orb_true_iff.
  apply or_iff_compat_l. destruct query as [q|]; cbn [is_some_and];
    [|split; [done|intros (? & ? & ? & _); done]].
  unfold matches_split. cbn [split_matchers from_vpn_conn].
  assert (Hel : ∀ d, d ∈ foldl (λ out raw, accept_domain raw out) []
                            (default [] (vpn_dns_domain_split (conn_setting conn))) ↔
    ∃ raw, raw ∈ default [] (vpn_dns_domain_split (conn_setting conn)) ∧ d = normalize_domain raw
           ∧ is_split_domain d = true).
  { intros d. rewrite accept_domains_elem, elem_of_nil. tauto. }
  rewrite matchers_match.
  - split.
    + intros (d & (raw & Hin & -> & Hs)%Hel & Hq). eauto 10.
    + intros (? & raw & [= <-] & Hin & Hs & Hq). exists (normalize_domain raw).
      split; [apply Hel; eauto|exact Hq].
  - intros d (raw & Hin & -> & _)%Hel. by apply Hw.
Qed.

Definition split_conn : VpnConnResponse :=
  {| conn_ip := "10.0.0.2"; conn_ipv6 := None; conn_ip_mask := Some 24; conn_public_key := "k";
     conn_preshared_key := None; conn_sign_token := None; conn_protocol_version := None;
     conn_setting := {|
       vpn_mtu := 1400; vpn_dns := Some "10.0.0.53"; vpn_dns_backup := None;
       vpn_dns_domain_split := Some ["*.Corp.example"; "localhost"; "10.0.0.1"];
       vpn_route_full := None; vpn_route_split := None; v6_route_full := None;
       v6_route_split := None;
       vpn_dynamic_domain_route_split := Some [("V4only.corp", ["10.3.3.3/32"])];
       v6_vpn_dynamic_domain_route_split := None;
       vpn_wildcard_dynamic_domain_route_split := Some [("*.wild.corp", ["10.1.1.1"])];
       suffix_wildcard_dynamic_domain_route_split := None;
       dynamic_domain := Some [("v4only.corp", ["10.9.9.9"])];
       central_dns := None; ip_nats := None |};
     conn_raw := None |}.

Lemma split_routing_witness :
  route_through_vpn (from_vpn_conn split_conn None false) (Some "Host.corp.example.") = true ∧
  route_through_vpn (from_vpn_conn split_conn None false) (Some "example.com") = false.
Proof.
  assert (Hw : ∀ raw, raw ∈ default [] (vpn_dns_domain_split (conn_setting split_conn)) →
                      wildcard_free (normalize_domain raw) = true).
  { intros raw Hr. cbn in Hr. rewrite !elem_of_cons, elem_of_nil in Hr.
    destruct Hr as [->|[->|[->|[]]]]; vm_compute; reflexivity. }
  pose proof (split_routing split_conn None false (Some "Host.corp.example.") Hw) as [_ Hr].
  split; [|vm_compute; reflexivity]. apply Hr. right. exists "Host.corp.example.", "*.Corp.example".
  split; [done|]. split; [left|]. split; [vm_compute; reflexivity|]. right. vm_compute. reflexivity.
Defined.

(** The answer table: a name listed exactly (under either exact table of
    the response, after normalization) is answered with all its values, those
    of [dynamic_domain] first; only an unlisted name falls to the wildcard
    entries and then the suffix entries, and what these answer belongs to an
    entry that is the name or a parent domain of it. *)
Theorem answer_table_lookup `{Unicode} `{UrlParser} `{WildMatch} conn local_dns full name :
  let setting := conn_setting conn in
  let exact := entries_for name (normalized_entries (dynamic_domain setting))
               ++ entries_for name (normalized_entries (vpn_dynamic_domain_route_split setting)) in
  let found := lookup_v4 (dynamic (from_vpn_conn conn local_dns full)) name in
  (exact ≠ [] → found = Some (concat exact)) ∧
  (exact = [] → ∀ values, found = Some values →
     ∃ pattern,
       (pattern, values) ∈
         normalized_entries (vpn_wildcard_dynamic_domain_route_split setting)
         ++ normalized_entries (suffix_wildcard_dynamic_domain_route_split setting) ∧
       pattern ≠ "" ∧ (name = pattern ∨ ends_with name ("." +:+ pattern) = true)).
Proof.
  cbn zeta. unfold lookup_v4. cbn [dynamic from_vpn_conn exact_v4 wildcard_v4 suffix_v4].
  rewrite extend_entries_lookup, entries_for_app.
  destruct (entries_for _ _ ++ entries_for _ _) as [|v vs]; split; try done.
  intros _ values Hv. rewrite lookup_empty in Hv. cbn [or_else] in Hv.
  destruct (scan name _) as [vs|] eqn:Hs; cbn [or_else] in Hv; simplify_eq.
  - apply scan_spec in Hs as (p & Hin & Hp). exists p. rewrite elem_of_app. tauto.
  - apply scan_spec in Hv as (p & Hin & Hp). exists p. rewrite elem_of_app. tauto.
Qed.

Lemma answer_table_lookup_witness :
  lookup_v4 (dynamic (from_vpn_conn split_conn None false)) "v4only.corp"
    = Some ["10.9.9.9"; "10.3.3.3/32"].
Proof.
  destruct (answer_table_lookup split_conn None false "v4only.corp") as [He _].
  etransitivity; [apply He; vm_compute; congruence|]. vm_compute. reflexivity.
Defined.

End DnsConfig.
