(* ===== verification/DnsResolver.v ===== *)
(** * The DNS resolver ([dns/src/synthesis.rs], [forwarder.rs], [resolver.rs],
      [server.rs])

    A query is answered from the tables of [DnsConfig], or sent to every
    server of one side, the VPN's or the system's, and the first answer is
    taken, or it gets SERVFAIL.  The wire codec (hickory) is the interface
    [DnsCodec]; sockets are [Dialer.Sockets] and [Udp]; the order in which
    concurrent tasks finish is the interface [Scheduler]. *)

From S2P Require Import Prelude RustStr Net Models Interface Dialer DnsConfig.
Import Models Interface Dialer DnsConfig.

Module DnsResolver.

Abbreviation bytes := (list Z) (only parsing).

(** ** Messages ([hickory_proto]) *)

Inductive RecordType : Type := RtA | RtAAAA | RtOther (code : Z).
Inductive RData : Type := RdA (a : Z) | RdAAAA (a : Z) | RdOther (code : Z) (data : bytes).
Inductive MessageType : Type := MtQuery | MtResponse.
Inductive ResponseCode : Type := NoError | ServFail | RcOther (code : Z).

#[export] Instance RecordType_eq_dec : EqDecision RecordType.
Proof. solve_decision. Defined.

Record Record_ (Name : Type) : Type := { rname : Name; ttl : Z; rdata : RData }.
Arguments rname {Name} _.
Arguments ttl {Name} _.
Arguments rdata {Name} _.

(** The fields the resolver reads or sets; the others are [rest]. *)
Record Message (Name Rest : Type) : Type := {
  message_type : MessageType;
  response_code : ResponseCode;
  recursion_available : bool;
  queries : list (Name * RecordType);
  answers : list (Record_ Name);
  rest : Rest;
}.
Arguments message_type {Name Rest} _.
Arguments response_code {Name Rest} _.
Arguments recursion_available {Name Rest} _.
Arguments queries {Name Rest} _.
Arguments answers {Name Rest} _.
Arguments rest {Name Rest} _.

Class DnsCodec : Type := {
  Name : Type;
  Rest : Type;
  name_to_ascii : Name → string;
  from_vec : bytes → option (Message Name Rest);
  to_vec : Message Name Rest → option bytes;
}.

(* @dns/src/synthesis.rs:16-17 DYNAMIC_TTL *)
Definition DYNAMIC_TTL : Z := 3600.

Section synthesis.
Context `{Unicode} `{UrlParser} `{WildMatch} `{DnsCodec}.

(** Turn a request into a response with a code, keeping the rest. *)
Definition as_response (m : Message Name Rest) (c : ResponseCode) (extra : list (Record_ Name)) :
    Message Name Rest :=
  {| message_type := MtResponse; response_code := c; recursion_available := true;
     queries := queries m; answers := answers m ++ extra; rest := rest m |}.

(* @dns/src/synthesis.rs:70-79 build_response *)
Definition build_response (request : Message Name Rest) (records : list (Record_ Name)) : option bytes :=
  to_vec (as_response request NoError records).

(** The records of a table entry: the values that parse, in order. *)
Definition records_of (qname : Name) (parse : string → option RData) (values : list string) :
    list (Record_ Name) :=
  map (λ d, {| rname := qname; ttl := DYNAMIC_TTL; rdata := d |})
      (filter_map (λ v, parse (value_token v)) values).
Definition parse_a (s : string) : option RData := RdA <$> parse_ipv4 s.
Definition parse_aaaa (s : string) : option RData := RdAAAA <$> parse_ipv6 s.

(* @dns/src/synthesis.rs:19-67 synthesize *)
Definition synthesize (config : DnsConfig) (payload : bytes) : option bytes :=
  if tables_is_empty (dynamic config) then None
  else
    request ← from_vec payload;
    '(qname, qtype) ← hd_error (queries request);
    let name := normalize_domain (name_to_ascii qname) in
    if str_is_empty name then None
    else match qtype with
    | RtA =>
        values ← lookup_v4 (dynamic config) name;
        match records_of qname parse_a values with
        | [] => None
        | records => build_response request records
        end
    | RtAAAA =>
        match lookup_v6 (dynamic config) name with
        | Some values => build_response request (records_of qname parse_aaaa values)
        | None => if is_some (lookup_v4 (dynamic config) name) then build_response request [] else None
        end
    | RtOther _ => None
    end.

(* @dns/src/synthesis.rs:82-92 synthesize_failure *)
Definition synthesize_failure (query_payload : bytes) (c : ResponseCode) : bytes :=
  match from_vec query_payload with
  | Some m => default query_payload (to_vec (as_response m c []))
  | None => query_payload
  end.

(* @dns/src/synthesis.rs:95-101 parse_question_domain *)
Definition parse_question_domain (payload : bytes) : option string :=
  m ← from_vec payload;
  '(qname, _) ← hd_error (queries m);
  Some (normalize_domain (name_to_ascii qname)).

End synthesis.

(** ** Upstream queries *)

(* @dns/src/forwarder.rs:9-10 DNS_TIMEOUT *)
Definition DNS_TIMEOUT : duration := from_secs 3.
(* @dns/src/forwarder.rs:11-12 MAX_DNS_PACKET *)
Definition MAX_DNS_PACKET : nat := 4096%nat.

(* @dns/src/forwarder.rs:14-45 Error *)
Inductive ForwarderError : Type :=
  | BindSocket (server : SocketAddr) (source : io_error)
  | BindDirected (server : SocketAddr) (source : DialerError)
  | Send (server : SocketAddr) (source : io_error)
  | Recv (server : SocketAddr) (source : io_error)
  | Timeout (server : SocketAddr)
  | AllFailed.

(** Datagrams: binding a plain socket, sending, receiving into a buffer of a
    size before a timeout ([None] when it ran out). *)
Class Udp (W : Type) : Type := {
  udp_bind : SocketAddr → M W io_error Z;
  udp_send : Z → bytes → SocketAddr → M W io_error unit;
  udp_recv : Z → nat → duration → M W io_error (option bytes);
}.
(** The order in which tasks started together finish. *)
Class Scheduler (W : Type) : Type := {
  schedule : W → list SocketAddr → list SocketAddr;
  schedule_perm w l : schedule w l ≡ₚ l;
}.

Section forwarder.
Context {W : Type} `{Sockets W} `{Udp W} `{Scheduler W}.

(* @dns/src/forwarder.rs:50-62 query_single *)
Definition query_single (socket : Z) (server : SocketAddr) (request : bytes) : M W ForwarderError bytes :=
  do! m_map_err (Send server) (udp_send socket request server) in
  let! reply := m_map_err (Recv server) (udp_recv socket MAX_DNS_PACKET DNS_TIMEOUT) in
  m_lift (ok_or reply (Timeout server)).

(* @dns/src/forwarder.rs:65-71 unspecified_bind_addr *)
Definition unspecified_bind_addr (server : SocketAddr) : SocketAddr :=
  if is_ipv4 (ip server) then sock (V4 0) 0 else sock (V6 0) 0.

Definition routed_task (request : bytes) (server : SocketAddr) : M W ForwarderError bytes :=
  let! socket := m_map_err (BindSocket server) (udp_bind (unspecified_bind_addr server)) in
  query_single socket server request.
Definition directed_task (d : Dialer) (request : bytes) (server : SocketAddr) : M W ForwarderError bytes :=
  let! socket := m_map_err (BindDirected server) (bind_udp_to d server) in
  query_single socket server request.

(** Run the tasks, in the order in which they finish, and collect what they
    send on the channel. *)
Fixpoint run_tasks (task : SocketAddr → M W ForwarderError bytes) (order : list SocketAddr) (w : W) :
    W * list (result ForwarderError bytes) :=
  match order with
  | [] => (w, [])
  | s :: order' =>
      let '(w1, r) := task s w in
      let '(w2, rs) := run_tasks task order' w1 in (w2, r :: rs)
  end.
(** The receive loop: the first [Ok], else all failed. *)
Fixpoint first_ok (rs : list (result ForwarderError bytes)) : result ForwarderError bytes :=
  match rs with
  | [] => Err AllFailed
  | Ok r :: _ => Ok r
  | Err _ :: rs' => first_ok rs'
  end.
Definition parallel_query (task : SocketAddr → M W ForwarderError bytes) (servers : list SocketAddr) :
    M W ForwarderError bytes := λ w,
  match servers with
  | [] => (w, Err AllFailed)
  | [server] => task server w
  | _ => let '(w', rs) := run_tasks task (schedule w servers) w in (w', first_ok rs)
  end.

(* @dns/src/forwarder.rs:75-110 parallel_query_routed *)
Definition parallel_query_routed (servers : list SocketAddr) (request : bytes) : M W ForwarderError bytes :=
  parallel_query (routed_task request) servers.
(* @dns/src/forwarder.rs:115-150 parallel_query_directed *)
Definition parallel_query_directed (servers : list SocketAddr) (request : bytes) (d : Dialer) :
    M W ForwarderError bytes :=
  parallel_query (directed_task d request) servers.

End forwarder.

(** ** The resolver *)

(* @dns/src/resolver.rs:21-33 DnsResolver *)
Record DnsResolver : Type := {
  config : DnsConfig;
  r_vpn_servers : list SocketAddr;
  system_servers : list SocketAddr;
  vpn_dns_ips : list IpAddr;
  directed_dialer : Dialer;
}.

(* @dns/src/resolver.rs:36-59 DnsResolver::build *)
Definition build (config : DnsConfig) (servers : list SocketAddr) (system : list IpAddr) (d : Dialer) :
    option DnsResolver :=
  if is_disabled config then None
  else Some {| config := config; r_vpn_servers := servers;
               system_servers := map (λ i, sock i DNS_PORT) system;
               vpn_dns_ips := map ip servers; directed_dialer := d |}.

Section resolver.
Context `{Unicode} `{UrlParser} `{WildMatch} `{DnsCodec}.
Context {W : Type} `{Sockets W} `{Udp W} `{Scheduler W}.

(* @dns/src/resolver.rs:68-119 DnsResolver::resolve *)
Definition resolve (r : DnsResolver) (payload : bytes) (w : W) : W * bytes :=
  match synthesize (config r) payload with
  | Some answer => (w, answer)
  | None =>
      let domain := parse_question_domain payload in
      let '(w', res) :=
        if route_through_vpn (config r) domain
        then parallel_query_routed (r_vpn_servers r) payload w
        else parallel_query_directed (system_servers r) payload (directed_dialer r) w in
      match res with
      | Ok response => (w', response)
      | Err _ => (w', synthesize_failure payload ServFail)
      end
  end.

(** ** The standalone server ([server.rs]) *)

(* @dns/src/server.rs:80-106 bind_udp *)
Definition server_bind_udp (addr : SocketAddr) : M W (SocketAddr * io_error) Z :=
  m_map_err (pair addr) (
    let! s := sys (ECreate (from_addr addr) DGRAM) in
    do! sys (ESetReuse s) in
    do! (if is_ipv4 (ip addr) then m_ret tt else sys (ESetOnlyV6 s)) in
    do! sys (ESetNonblocking s) in
    do! sys (EBind s addr) in
    do! sys (EFromStd s) in
    m_ret s).

(** The sockets the two receive loops serve. *)
(* @dns/src/server.rs:34-53 DnsServer::start *)
Definition server_start (bind_v4 bind_v6 : SocketAddr) : M W (SocketAddr * io_error) (Z * Z) :=
  let! s4 := server_bind_udp bind_v4 in
  let! s6 := server_bind_udp bind_v6 in
  m_ret (s4, s6).

(** What a turn of the receive loop sees first. *)
Inductive ServeEvent : Type :=
  | Cancelled
  | RecvFailed (e : io_error)
  | Datagram (payload : bytes) (client : SocketAddr).

(** The answers in the order their tasks were started. *)
(* @dns/src/server.rs:109-136 serve_loop *)
Fixpoint serve_loop (r : DnsResolver) (socket : Z) (events : list ServeEvent) (w : W) : W :=
  match events with
  | [] | Cancelled :: _ => w
  | RecvFailed _ :: events' => serve_loop r socket events' w
  | Datagram payload client :: events' =>
      let '(w1, response) := resolve r payload w in
      let '(w2, _) := udp_send socket response client w1 in
      serve_loop r socket events' w2
  end.

End resolver.

(** ** Lemmas *)

(** The record of the datagrams sent: sends append to it, whatever their
    outcome, and nothing else touches it. *)
Class UdpLog (W : Type) `{Sockets W} `{Udp W} : Type := {
  sent : W → list (bytes * SocketAddr);
  sent_udp_send s p a w : sent (udp_send s p a w).1 = sent w ++ [(p, a)];
  sent_udp_bind a w : sent (udp_bind a w).1 = sent w;
  sent_udp_recv s n t w : sent (udp_recv s n t w).1 = sent w;
  sent_sys {T} (e : SockE T) w : sent (sys e w).1 = sent w;
}.

Section log.
Context {W : Type} `{UdpLog W} `{!Scheduler W}.

(** [quiet m]: [m] sends no datagram. *)
Abbreviation quiet m := (keeps sent m).

Lemma quiet_bind_udp_to d server : quiet (bind_udp_to d server).
Proof. apply keeps_bind_udp_to. intros T e w. apply sent_sys. Qed.

Lemma quiet_connect_tcp d dst : quiet (connect_tcp d dst).
Proof. apply keeps_connect_tcp. intros T e w. apply sent_sys. Qed.

(** A task sends at most the request, once, to its server. *)
Definition single_send (request : bytes) (task : SocketAddr → M W ForwarderError bytes) : Prop :=
  ∀ server w, ∃ cs, sent (task server w).1 = sent w ++ cs ∧ cs `prefix_of` [(request, server)].

Lemma query_single_sends sk request server w :
  ∃ cs, sent (query_single sk server request w).1 = sent w ++ cs ∧ cs `prefix_of` [(request, server)].
Proof.
  exists [(request, server)]. split; [|done]. unfold query_single, m_bind, m_map_err.
  pose proof (sent_udp_send sk request server w) as Hs.
  destruct (udp_send sk request server w) as [w1 [[]|e]]; cbn [fst map_err] in *; [|exact Hs].
  pose proof (sent_udp_recv sk MAX_DNS_PACKET DNS_TIMEOUT w1) as Hr.
  destruct (udp_recv sk _ _ w1) as [w2 [r|e]]; cbn [fst map_err m_lift] in *; congruence.
Qed.

Lemma socket_then_query_sends (open : SocketAddr → M W ForwarderError Z) request :
  (∀ server, quiet (open server)) →
  single_send request (λ server, m_bind (open server) (λ sk, query_single sk server request)).
Proof.
  intros Hq server w. unfold m_bind. specialize (Hq server w).
  destruct (open server w) as [w1 [sk|e]]; cbn [fst] in *.
  - destruct (query_single_sends sk request server w1) as (cs & Hs & Hp).
    exists cs. by rewrite Hs, Hq.
  - exists []. rewrite app_nil_r. split; [done|]. by exists [(request, server)].
Qed.

Lemma routed_task_sends request : single_send request (routed_task request).
Proof.
  apply socket_then_query_sends. intros server w. unfold m_map_err.
  pose proof (sent_udp_bind (unspecified_bind_addr server) w) as Hb.
  destruct (udp_bind _ w). exact Hb.
Qed.

Lemma directed_task_sends d request : single_send request (directed_task d request).
Proof.
  apply socket_then_query_sends. intros server w. unfold m_map_err.
  pose proof (quiet_bind_udp_to d server w) as Hb. destruct (bind_udp_to d server w). exact Hb.
Qed.

Lemma run_tasks_sends request task order w :
  single_send request task →
  ∃ cs, sent (run_tasks task order w).1 = sent w ++ cs ∧
        cs `sublist_of` map (pair request) order.
Proof.
  intros Ht. revert w. induction order as [|s order IH]; intros w; cbn [run_tasks map].
  { exists []. rewrite app_nil_r. by split. }
  destruct (Ht s w) as (cs1 & Hs1 & Hp1). destruct (task s w) as [w1 r]. cbn [fst] in Hs1.
  destruct (IH w1) as (cs2 & Hs2 & Hp2). destruct (run_tasks task order w1) as [w2 rs]. cbn [fst] in *.
  exists (cs1 ++ cs2). split; [by rewrite Hs2, Hs1, app_assoc|].
  change ((request, s) :: map (pair request) order) with ([(request, s)] ++ map (pair request) order).
  apply sublist_app; [|exact Hp2]. destruct Hp1 as [k ->]. by apply sublist_inserts_r.
Qed.

Lemma parallel_query_sends request task servers w :
  single_send request task →
  ∃ cs, sent (parallel_query task servers w).1 = sent w ++ cs ∧
        cs ⊆+ map (pair request) servers.
Proof.
  intros Ht. destruct servers as [|s [|s' servers]].
  - exists []. cbn. by rewrite app_nil_r.
  - destruct (Ht s w) as (cs & Hs & [k Hk]). exists cs. split; [exact Hs|]. cbn. rewrite Hk.
    apply submseteq_inserts_r. done.
  - cbn [parallel_query].
    destruct (run_tasks_sends request task (schedule w (s :: s' :: servers)) w Ht) as (cs & Hs & Hp).
    destruct (run_tasks _ _ w) as [w' rs]. exists cs. split; [exact Hs|].
    transitivity (map (pair request) (schedule w (s :: s' :: servers)));
      [by apply sublist_submseteq|]. apply Permutation_submseteq, fmap_Permutation, schedule_perm.
Qed.

End log.

Lemma first_ok_spec rs :
  match first_ok rs with
  | Ok r => ∃ before after, rs = before ++ Ok r :: after ∧ Forall (λ x, is_ok x = false) before
  | Err e => e = AllFailed ∧ Forall (λ x, is_ok x = false) rs
  end.
Proof.
  induction rs as [|[r|e] rs IH]; cbn [first_ok]; [by split|by exists [], rs|].
  destruct (first_ok rs) as [r|e'].
  - destruct IH as (b & a & -> & Hb). exists (Err e :: b), a. split; [done|]. by constructor.
  - destruct IH as [-> Hf]. split; [done|]. by constructor.
Qed.

(** A world for the witnesses: every socket call succeeds, sends are logged,
    no reply ever comes; names are themselves. *)
Module Silent.
Definition world : Type := list call * list (list Z * SocketAddr).
#[global] Instance sockets : Sockets world :=
  λ T e w, ((w.1 ++ [mk e], w.2), Ok (Granting.answer e)).
#[global] Instance sockets_log : SocketLog world := { calls w := w.1; sys_calls T e w := eq_refl }.
#[global] Instance udp : Udp world := {
  udp_bind a w := (w, Ok 3);
  udp_send s p a w := ((w.1, w.2 ++ [(p, a)]), Ok tt);
  udp_recv s n t w := (w, Ok None);
}.
#[global] Instance udp_log : UdpLog world := {
  sent w := w.2; sent_udp_send s p a w := eq_refl; sent_udp_bind a w := eq_refl;
  sent_udp_recv s n t w := eq_refl; sent_sys T e w := eq_refl;
}.
#[global] Instance in_order : Scheduler world := { schedule w l := l; schedule_perm w l := Permutation_refl l }.
End Silent.

(** ** Properties *)

(** What the resolver answers from its tables: the request itself, turned
    into a NOERROR response with recursion available, with one record appended
    per table value that parses as an address of the asked family, in table
    order, all under the asked name with a TTL of 3600.  An A answer is never
    empty; an AAAA answer is empty when no AAAA value parses or the name is
    listed for IPv4 only. *)
Theorem synthesize_sound `{Unicode} `{UrlParser} `{WildMatch} `{DnsCodec} c payload out :
  synthesize c payload = Some out →
  ∃ m qname qtype ips,
    from_vec payload = Some m ∧ hd_error (queries m) = Some (qname, qtype) ∧
    let name := normalize_domain (name_to_ascii qname) in
    to_vec (as_response m NoError
      (map (λ d, {| rname := qname; ttl := 3600; rdata := d |}) ips)) = Some out ∧
    ((qtype = RtA ∧ ips ≠ [] ∧ ∃ values, lookup_v4 (dynamic c) name = Some values ∧
        ips = filter_map (λ v, RdA <$> parse_ipv4 (value_token v)) values)
     ∨ (qtype = RtAAAA ∧ ∃ values, lookup_v6 (dynamic c) name = Some values ∧
        ips = filter_map (λ v, RdAAAA <$> parse_ipv6 (value_token v)) values)
     ∨ (qtype = RtAAAA ∧ ips = [] ∧ lookup_v6 (dynamic c) name = None ∧
        lookup_v4 (dynamic c) name ≠ None)).
Proof.
  unfold synthesize. destruct (tables_is_empty _); [done|].
  intros (m & Hm & Hs)%bind_Some. apply bind_Some in Hs as ([qname qtype] & Hq & Hs).
  exists m, qname, qtype. destruct (str_is_empty _) eqn:Hn; [done|].
  destruct qtype as [| |rt]; [| |done].
  - apply bind_Some in Hs as (values & Hv & Hs).
    exists (filter_map (λ v, RdA <$> parse_ipv4 (value_token v)) values).
    do 2 (split; [done|]). unfold records_of, parse_a in Hs. unfold parse_a in Hs.
    destruct (filter_map _ values) as [|d0 ds] eqn:Hi; [done|]. cbn zeta. split; [exact Hs|].
    left. split; [done|]. split; [done|]. exists values. by rewrite <- Hi.
  - destruct (lookup_v6 _ _) as [values|] eqn:Hv.
    + exists (filter_map (λ v, RdAAAA <$> parse_ipv6 (value_token v)) values).
      do 2 (split; [done|]). cbn zeta. split; [exact Hs|]. right. left. eauto.
    + exists []. do 2 (split; [done|]). cbn zeta.
      destruct (lookup_v4 _ _) eqn:H4; cbn in Hs; [|done]. split; [exact Hs|]. right. right. done.
Qed.

(** A codec for the witnesses: a query is the code of its type and the bytes
    of its name, a response the addresses of its records. *)
Module Toy.
#[global] Instance codec : DnsCodec := {
  Name := string; Rest := unit; name_to_ascii n := n;
  from_vec p :=
    match p with
    | [] => None
    | t :: name =>
        Some {| message_type := MtQuery; response_code := NoError; recursion_available := false;
                queries := [(of_bytes (map (λ z, ascii_of_nat (Z.to_nat z)) name),
                             if t =? 1 then RtA else if t =? 28 then RtAAAA else RtOther t)];
                answers := []; rest := tt |}
    end;
  to_vec m := Some (map (λ r, match rdata r with RdA a | RdAAAA a => a | RdOther _ _ => 0 end) (answers m));
}.
Definition query (t : Z) (name : string) : list Z := t :: map RustStr.code (bytes_of name).
End Toy.

Lemma synthesize_sound_witness :
  ∃ m qname ips, from_vec (Toy.query 1 "V4only.corp.") = Some m ∧
    to_vec (as_response m NoError
      (map (λ d, {| rname := qname; ttl := 3600; rdata := d |}) ips))
    = Some [v4 10 9 9 9; v4 10 3 3 3].
Proof.
  destruct (synthesize_sound (from_vpn_conn split_conn None false) (Toy.query 1 "V4only.corp.")
    [v4 10 9 9 9; v4 10 3 3 3]) as (m & qn & qt & ips & Hm & _ & Hout & _);
    [vm_compute; reflexivity|].
  exists m, qn, ips. split; [exact Hm|exact Hout].
Defined.

(** C12: No DNS leak: resolving sends the query to nobody when the tables
    answer it; otherwise it sends it unchanged, at most once to each server,
    to the VPN's servers only when the name is routed through the VPN and to
    the system's servers only when it is not, whatever order the servers
    answer in. *)
Theorem resolve_contacts `{Unicode} `{UrlParser} `{WildMatch} `{DnsCodec}
    {W} `{UdpLog W} `{!Scheduler W} r payload (w : W) :
  ∃ cs, sent (resolve r payload w).1 = sent w ++ cs ∧
    match synthesize (config r) payload with
    | Some _ => cs = []
    | None =>
        cs ⊆+ map (pair payload)
          (if route_through_vpn (config r) (parse_question_domain payload)
           then r_vpn_servers r else system_servers r)
    end.
Proof.
  unfold resolve. destruct (synthesize _ payload) as [a|].
  { exists []. by rewrite app_nil_r. }
  destruct (route_through_vpn _ _).
  - destruct (parallel_query_sends payload _ (r_vpn_servers r) w (routed_task_sends payload))
      as (cs & Hs & Hp). exists cs. split; [|exact Hp]. unfold parallel_query_routed.
    destruct (parallel_query _ _ w) as [w' [x|e]]; exact Hs.
  - destruct (parallel_query_sends payload _ (system_servers r) w
      (directed_task_sends (directed_dialer r) payload))
      as (cs & Hs & Hp). exists cs. split; [|exact Hp]. unfold parallel_query_directed.
    destruct (parallel_query _ _ w) as [w' [x|e]]; exact Hs.
Qed.

Lemma resolve_contacts_witness :
  let r := {| config := from_vpn_conn split_conn None false; r_vpn_servers := [sock (V4 1) 53];
              system_servers := [sock (V4 2) 53]; vpn_dns_ips := [V4 1];
              directed_dialer := dialer_new None |} in
  ∃ cs, sent (resolve (W:=Silent.world) r (Toy.query 1 "example.com.") ([], [])).1 = [] ++ cs ∧
    cs ⊆+ [(Toy.query 1 "example.com.", sock (V4 2) 53)].
Proof.
  cbn zeta. set (r := {| config := _ |}).
  destruct (resolve_contacts (W:=Silent.world) r (Toy.query 1 "example.com.") ([], [])) as (cs & Hs & Hc).
  exists cs. split; [exact Hs|].
  assert (Hn : synthesize (config r) (Toy.query 1 "example.com.") = None) by (vm_compute; reflexivity).
  rewrite Hn in Hc.
  assert (Hr : route_through_vpn (config r) (parse_question_domain (Toy.query 1 "example.com.")) = false)
    by (vm_compute; reflexivity).
  rewrite Hr in Hc. exact Hc.
Defined.

(** Asking several servers at once succeeds exactly when one of them
    answers: the result is the first successful answer in the order in which
    the tasks finish, and it is [AllFailed] only when every task failed; no
    server at all is [AllFailed], a single server's own result is returned. *)
Theorem parallel_query_outcome {W} `{Scheduler W} task servers (w : W) :
  let '(w', rs) := run_tasks task (schedule w servers) w in
  length rs = length servers ∧
  (2 ≤ length servers → (parallel_query task servers w).1 = w')%nat ∧
  match (parallel_query task servers w).2 with
  | Ok reply => ∃ before after, rs = before ++ Ok reply :: after ∧ Forall (λ x, is_ok x = false) before
  | Err e => Forall (λ x, is_ok x = false) rs ∧ (length servers ≠ 1%nat → e = AllFailed)
  end.
Proof.
  assert (Hlen : ∀ order w, length (run_tasks task order w).2 = length order).
  { induction order as [|s order IH]; intros w0; [done|]. cbn [run_tasks].
    destruct (task s w0) as [w1 x]. specialize (IH w1).
    destruct (run_tasks task order w1). cbn in *. by rewrite IH. }
  pose proof (schedule_perm w servers) as Hp. specialize (Hlen (schedule w servers) w).
  destruct (run_tasks task (schedule w servers) w) as [w' rs] eqn:Hr. cbn [snd] in Hlen.
  rewrite (Permutation_length Hp) in Hlen. split; [exact Hlen|].
  destruct servers as [|s [|s' servers]].
  - split; [cbn; lia|]. destruct rs; [|done]. cbn. by split.
  - apply Permutation_singleton_r in Hp. rewrite Hp in Hr. cbn [run_tasks] in Hr.
    split; [cbn; lia|]. cbn [parallel_query]. destruct (task s w) as [w1 x]. simplify_eq. cbn [snd].
    destruct x; [by exists [], []|]. split; [by repeat constructor|done].
  - cbn [parallel_query]. rewrite Hr. split; [done|]. cbn [snd]. pose proof (first_ok_spec rs) as Hf.
    destruct (first_ok rs); [exact Hf|]. by destruct Hf.
Qed.

Lemma parallel_query_outcome_witness :
  (parallel_query (W:=Silent.world) (λ s, if port s =? 53 then m_fail AllFailed else m_ret [port s])
     [sock (V4 1) 53; sock (V4 2) 5353; sock (V4 3) 5454] ([], [])).2 = Ok [5353].
Proof.
  pose proof (parallel_query_outcome (W:=Silent.world)
    (λ s, if port s =? 53 then m_fail AllFailed else m_ret [port s])
    [sock (V4 1) 53; sock (V4 2) 5353; sock (V4 3) 5454] ([], [])) as (Hl & _).
  reflexivity.
Defined.

End DnsResolver.
