(* ===== verification/DnsServer.v ===== *)
(** * The DNS listener as tasks ([dns/src/server.rs])

    A running [DnsServer] is two receive loops, one per family, a token that
    stops them, and one task per datagram received.  [DnsResolver.serve_loop]
    is one loop on its own; here the loops, the tasks and the owner of the
    server (who shuts it down, waits for it, or just drops it) take their steps
    in any order.  A step is a function of the state; [step] says which are
    possible, and [run] is its closure with the datagrams that went in and
    out. *)

From S2P Require Import Prelude RustStr Net Models Interface Dialer DnsConfig DnsResolver.
Import Interface Dialer DnsConfig DnsResolver.

Module DnsServer.

(** ** State *)

(** A receive loop: its socket, whether it still runs, and whether its handle
    was aborted, which ends it the next time it is scheduled. *)
Record Loop : Type := { l_socket : Z; l_alive : bool; l_aborted : bool }.

(** What is to be answered: the socket it came in on, the query, the client. *)
Record Query : Type := { q_socket : Z; q_payload : bytes; q_client : SocketAddr }.

(** The task of a datagram: before and after the resolver's answer. *)
Inductive Task : Type := Asked (q : Query) | Resolved (q : Query) (response : bytes).

(** The owner: holding the server, inside [shutdown] waiting for a loop, past
    it, or having dropped the server. *)
Inductive Phase : Type := Held | Awaiting (h : nat) | Joined | Dropped.

(** The handles are the indices of the loops; the token is shared with them. *)
(* @dns/src/server.rs:27-31 DnsServer *)
Record DnsServer : Type := {
  shutdown : bool;
  handle_v4 : option nat;
  handle_v6 : option nat;
  phase : Phase;
  loops : list Loop;
  tasks : list Task;
}.

Definition set_phase (p : Phase) (h4 h6 : option nat) (s : DnsServer) : DnsServer :=
  {| shutdown := shutdown s; handle_v4 := h4; handle_v6 := h6; phase := p; loops := loops s; tasks := tasks s |}.
Definition set_loops (l : list Loop) (s : DnsServer) : DnsServer :=
  {| shutdown := shutdown s; handle_v4 := handle_v4 s; handle_v6 := handle_v6 s; phase := phase s;
     loops := l; tasks := tasks s |}.
Definition set_tasks (l : list Task) (s : DnsServer) : DnsServer :=
  {| shutdown := shutdown s; handle_v4 := handle_v4 s; handle_v6 := handle_v6 s; phase := phase s;
     loops := loops s; tasks := l |}.
Definition cancel (s : DnsServer) : DnsServer :=
  {| shutdown := true; handle_v4 := handle_v4 s; handle_v6 := handle_v6 s; phase := phase s;
     loops := loops s; tasks := tasks s |}.

(** ** The owner *)

Definition spawned (socket : Z) : Loop := {| l_socket := socket; l_alive := true; l_aborted := false |}.

(* @dns/src/server.rs:34-53 DnsServer::start *)
Definition start {W} `{Sockets W} (bind_v4 bind_v6 : SocketAddr) : M W (SocketAddr * io_error) DnsServer :=
  let! sockets := server_start bind_v4 bind_v6 in
  m_ret {| shutdown := false; handle_v4 := Some 0%nat; handle_v6 := Some 1%nat; phase := Held;
           loops := [spawned sockets.1; spawned sockets.2]; tasks := [] |}.

(** Take the next handle and wait for it; past both, [self] is dropped with no
    handle left. *)
Definition await_next (s : DnsServer) : DnsServer :=
  match handle_v4 s, handle_v6 s with
  | Some h, _ => set_phase (Awaiting h) None (handle_v6 s) s
  | None, Some h => set_phase (Awaiting h) None None s
  | None, None => set_phase Joined None None s
  end.
(** The call, up to its first wait. *)
(* @dns/src/server.rs:56-65 DnsServer::shutdown *)
Definition shutdown_begin (s : DnsServer) : option DnsServer :=
  match phase s with Held => Some (await_next (cancel s)) | _ => None end.
(** Past a wait: the loop waited for has ended. *)
(* @dns/src/server.rs:56-65 DnsServer::shutdown *)
Definition shutdown_continue (s : DnsServer) : option DnsServer :=
  match phase s with
  | Awaiting h => if is_some_and (loops s !! h) l_alive then None else Some (await_next s)
  | _ => None
  end.

Definition abort (h : option nat) (l : list Loop) : list Loop :=
  match h with
  | Some i => alter (λ x, {| l_socket := l_socket x; l_alive := l_alive x; l_aborted := true |}) i l
  | None => l
  end.
(** Dropping the server, or the future of [shutdown] with the handle it waits
    for: only the handles that are left are aborted. *)
(* @dns/src/server.rs:69-77 DnsServer::drop *)
Definition drop_server (s : DnsServer) : option DnsServer :=
  match phase s with
  | Held | Awaiting _ =>
      Some (set_phase Dropped None None (set_loops (abort (handle_v6 s) (abort (handle_v4 s) (loops s))) (cancel s)))
  | Joined | Dropped => None
  end.

(** ** The loops and the tasks *)

Definition end_loop (x : Loop) : Loop :=
  {| l_socket := l_socket x; l_alive := false; l_aborted := l_aborted x |}.

(** One turn of the loop [i] on what its select answered; [None]: it cannot. *)
(* @dns/src/server.rs:109-136 serve_loop *)
Definition serve_turn (i : nat) (e : ServeEvent) (s : DnsServer) : option DnsServer :=
  match loops s !! i with
  | Some x =>
      if negb (l_alive x) then None
      else
        match e with
        | Cancelled => if shutdown s then Some (set_loops (alter end_loop i (loops s)) s) else None
        | RecvFailed _ => Some s
        | Datagram buf client =>
            Some (set_tasks (tasks s ++ [Asked {| q_socket := l_socket x; q_payload := firstn MAX_DNS_PACKET buf;
                                                  q_client := client |}]) s)
        end
  | None => None
  end.
(** An aborted loop ends instead of being polled. *)
Definition abort_turn (i : nat) (s : DnsServer) : option DnsServer :=
  match loops s !! i with
  | Some x => if l_alive x && l_aborted x then Some (set_loops (alter end_loop i (loops s)) s) else None
  | None => None
  end.

Section tasks.
Context `{Unicode} `{UrlParser} `{WildMatch} `{DnsCodec}.
Context {W : Type} `{Sockets W} `{Udp W} `{Scheduler W}.

(** The resolver's answer to the [k]-th task. *)
Definition task_resolve (r : DnsResolver) (k : nat) (s : DnsServer) (w : W) : option (DnsServer * W) :=
  match tasks s !! k with
  | Some (Asked q) =>
      let '(w1, response) := resolve r (q_payload q) w in
      Some (set_tasks (<[k := Resolved q response]> (tasks s)) s, w1)
  | _ => None
  end.
(** It is sent back, and the task is over whether that worked or not. *)
Definition task_send (k : nat) (s : DnsServer) (w : W) : option (DnsServer * W * (Query * bytes)) :=
  match tasks s !! k with
  | Some (Resolved q response) =>
      let '(w1, _) := udp_send (q_socket q) response (q_client q) w in
      Some (set_tasks (delete k (tasks s)) s, w1, (q, response))
  | _ => None
  end.

(** ** Runs *)

(** What a step lets in or out. *)
Inductive Label : Type := Silent | Received (q : Query) | Answered (q : Query) (response : bytes).

Inductive step (r : DnsResolver) : DnsServer * W → Label → DnsServer * W → Prop :=
  | step_shutdown s s' w : shutdown_begin s = Some s' → step r (s, w) Silent (s', w)
  | step_continue s s' w : shutdown_continue s = Some s' → step r (s, w) Silent (s', w)
  | step_drop s s' w : drop_server s = Some s' → step r (s, w) Silent (s', w)
  | step_cancelled i s s' w : serve_turn i Cancelled s = Some s' → step r (s, w) Silent (s', w)
  | step_failed i e s s' w : serve_turn i (RecvFailed e) s = Some s' → step r (s, w) Silent (s', w)
  | step_datagram i x buf client s s' w :
      loops s !! i = Some x → serve_turn i (Datagram buf client) s = Some s' →
      step r (s, w)
        (Received {| q_socket := l_socket x; q_payload := firstn MAX_DNS_PACKET buf; q_client := client |}) (s', w)
  | step_aborted i s s' w : abort_turn i s = Some s' → step r (s, w) Silent (s', w)
  | step_resolve k s w s' w' : task_resolve r k s w = Some (s', w') → step r (s, w) Silent (s', w')
  | step_send k s w s' w' q response :
      task_send k s w = Some (s', w', (q, response)) → step r (s, w) (Answered q response) (s', w')
  (** Everything else that happens in the program meanwhile. *)
  | step_world s w w' : step r (s, w) Silent (s, w').

Inductive run (r : DnsResolver) (c : DnsServer * W) : list Label → DnsServer * W → Prop :=
  | run_nil : run r c [] c
  | run_snoc tr c1 l c2 : run r c tr c1 → step r c1 l c2 → run r c (tr ++ [l]) c2.

End tasks.

Definition received (l : Label) : option Query := match l with Received q => Some q | _ => None end.
Definition answered (l : Label) : option (Query * bytes) := match l with Answered q a => Some (q, a) | _ => None end.
Definition task_query (t : Task) : Query := match t with Asked q | Resolved q _ => q end.

(** ** Lemmas *)

(** The loop [i] has ended. *)
Definition ended (s : DnsServer) (i : nat) : Prop := is_some_and (loops s !! i) l_alive = false.

(** What the phase says of the token, the handles and the loops. *)
Definition phase_ok (s : DnsServer) : Prop :=
  match phase s with
  | Held => handle_v4 s = Some 0%nat ∧ handle_v6 s = Some 1%nat
  | Awaiting h =>
      shutdown s = true ∧ handle_v4 s = None ∧
      (h = 0%nat ∧ handle_v6 s = Some 1%nat ∨ h = 1%nat ∧ handle_v6 s = None ∧ ended s 0)
  | Joined => shutdown s = true ∧ ended s 0 ∧ ended s 1
  | Dropped => shutdown s = true
  end.

(** No step brings a loop back. *)
Definition tame (f : Loop → Loop) : Prop := ∀ x, l_alive (f x) = true → l_alive x = true.

Lemma ended_alter f i j s s' : tame f → loops s' = alter f i (loops s) → ended s j → ended s' j.
Proof.
  unfold ended. intros Hf -> He. destruct (decide (i = j)) as [<-|Hne].
  - rewrite list_lookup_alter_eq. destruct (loops s !! i) as [x|]; [|done]. cbn in *.
    specialize (Hf x). destruct (l_alive (f x)); [|done]. by rewrite Hf in He.
  - by rewrite list_lookup_alter_ne.
Qed.

Lemma end_loop_tame : tame end_loop.
Proof. by intros x. Qed.

Lemma phase_ok_loops f i s : tame f → phase_ok s → phase_ok (set_loops (alter f i (loops s)) s).
Proof.
  intros Hf. set (s' := set_loops _ s). assert (He : ∀ j, ended s j → ended s' j).
  { intros j. by apply (ended_alter f i). }
  unfold phase_ok. cbn. destruct (phase s); naive_solver.
Qed.

Lemma phase_ok_tasks l s : phase_ok s → phase_ok (set_tasks l s).
Proof. done. Qed.

Lemma abort_loops h l : length (abort h l) = length l.
Proof. destruct h; cbn; [by rewrite length_alter|done]. Qed.

Lemma omap_snoc {A B} (f : A → option B) l x : omap f (l ++ [x]) = omap f l ++ option_list (f x).
Proof. rewrite omap_app. cbn. by destruct (f x). Qed.

Section lemmas.
Context `{Unicode} `{UrlParser} `{WildMatch} `{DnsCodec}.
Context {W : Type} `{Sockets W} `{Udp W} `{Scheduler W}.
Context (r : DnsResolver).

(** The part of a step that is not about the tasks. *)
Lemma phase_step s w l s' w' : step r (s, w) l (s', w') → phase_ok s → phase_ok s'.
Proof.
  intros Hstep Hok. inversion Hstep; subst; try done.
  - unfold shutdown_begin, await_next in *. unfold phase_ok in Hok. destruct (phase s); simplify_eq.
    destruct Hok as [E4 E6]. cbn in *. rewrite E4, E6 in *. simplify_eq. unfold phase_ok. cbn. auto.
  - unfold shutdown_continue, await_next in *. unfold phase_ok in Hok. destruct (phase s) as [|h| |]; simplify_eq.
    destruct (is_some_and _ _) eqn:He; [done|]. destruct Hok as (Hs & E4 & [[-> E6]|(-> & E6 & He0)]).
    + rewrite E4, E6 in *. simplify_eq. unfold phase_ok. cbn. auto 6.
    + rewrite E4, E6 in *. simplify_eq. unfold phase_ok. cbn. auto.
  - unfold drop_server in *. by destruct (phase s); simplify_eq.
  - unfold serve_turn in *. destruct (loops s !! i); [|done]. destruct (negb _); [done|].
    destruct (shutdown s); simplify_eq. apply phase_ok_loops; [apply end_loop_tame|done].
  - unfold serve_turn in *. destruct (loops s !! i); [|done]. by destruct (negb _); simplify_eq.
  - unfold serve_turn in *. destruct (loops s !! i); [|done]. by destruct (negb _); simplify_eq.
  - unfold abort_turn in *. destruct (loops s !! i); [|done]. destruct (_ && _)%bool; simplify_eq.
    apply phase_ok_loops; [apply end_loop_tame|done].
  - unfold task_resolve in *. destruct (tasks s !! k) as [[q|]|]; [|done..].
    destruct (resolve _ _ _). by simplify_eq.
  - unfold task_send in *. destruct (tasks s !! k) as [[|q0]|]; [done| |done].
    destruct (udp_send _ _ _ _). by simplify_eq.
Qed.

Lemma loops_step s w l s' w' : step r (s, w) l (s', w') → length (loops s') = length (loops s).
Proof.
  intros Hstep. inversion Hstep; subst; try done;
    unfold shutdown_begin, shutdown_continue, await_next, drop_server, serve_turn, abort_turn, task_resolve, task_send in *;
    repeat case_match; simplify_eq; cbn; by rewrite ?abort_loops, ?length_alter.
Qed.

(** The answer of a resolved task is the resolver's. *)
Definition answer_of (q : Query) (a : bytes) : Prop := ∃ w : W, a = (resolve r (q_payload q) w).2.
Definition task_ok (t : Task) : Prop := match t with Asked _ => True | Resolved q a => answer_of q a end.

(** What a step does to the traffic. *)
Lemma traffic_step s w l s' w' : step r (s, w) l (s', w') → Forall task_ok (tasks s) →
  Forall task_ok (tasks s') ∧ (∀ q a, answered l = Some (q, a) → answer_of q a) ∧
  option_list (received l) ++ map task_query (tasks s)
    ≡ₚ map fst (option_list (answered l)) ++ map task_query (tasks s').
Proof.
  intros Hstep Hok. inversion Hstep; subst; cbn [received answered option_list map app]; try done.
  - unfold shutdown_begin, await_next in *. destruct (phase s); simplify_eq. cbn.
    destruct (handle_v4 s), (handle_v6 s); simplify_eq; done.
  - unfold shutdown_continue, await_next in *. destruct (phase s) as [|h| |]; simplify_eq.
    destruct (is_some_and _ _); [done|]. destruct (handle_v4 s), (handle_v6 s); simplify_eq; done.
  - unfold drop_server in *. destruct (phase s); simplify_eq; done.
  - unfold serve_turn in *. destruct (loops s !! i); [|done]. destruct (negb _); [done|].
    destruct (shutdown s); simplify_eq; done.
  - unfold serve_turn in *. destruct (loops s !! i); [|done]. destruct (negb _); simplify_eq; done.
  - unfold serve_turn in *. destruct (loops s !! i); simplify_eq. destruct (negb _); simplify_eq.
    cbn. split; [by apply Forall_app_2, Forall_singleton|]. split; [done|].
    rewrite map_app. cbn. by rewrite <- Permutation_cons_append.
  - unfold abort_turn in *. destruct (loops s !! i); [|done]. destruct (_ && _)%bool; simplify_eq; done.
  - unfold task_resolve in *. destruct (tasks s !! k) as [[q|]|] eqn:Hk; [|done..].
    destruct (resolve r (q_payload q) w) as [w1 a] eqn:Ha. simplify_eq. cbn. split; [|split; [done|]].
    + apply Forall_insert; [done|]. exists w. by rewrite Ha.
    + rewrite list_fmap_insert. cbn. rewrite list_insert_id; [done|]. by rewrite list_lookup_fmap, Hk.
  - unfold task_send in *. destruct (tasks s !! k) as [[|q' a]|] eqn:Hk; [done| |done].
    destruct (udp_send _ _ _ _) as [w1 res]. simplify_eq. cbn. split; [by apply Forall_delete|].
    split; [intros ? ? [= <- <-]; by apply (Forall_lookup_1 _ _ _ _ Hok Hk)|].
    by rewrite (delete_Permutation _ _ _ Hk) at 1.
Qed.

(** Along a run from a server that has just started. *)
Lemma run_ok s0 w0 tr c : run r (s0, w0) tr c →
  phase_ok s0 → length (loops s0) = 2%nat → tasks s0 = [] →
  phase_ok c.1 ∧ length (loops c.1) = 2%nat ∧ Forall task_ok (tasks c.1) ∧
  omap received tr ≡ₚ map fst (omap answered tr) ++ map task_query (tasks c.1) ∧
  Forall (λ qa, answer_of qa.1 qa.2) (omap answered tr).
Proof.
  intros Hrun Hp Hl Ht. induction Hrun as [|tr [s w] l [s' w'] Hrun IH Hs].
  { cbn. rewrite Ht. by repeat constructor. }
  destruct IH as (IHp & IHl & IHt & IHq & IHa). cbn [fst] in *.
  destruct (traffic_step _ _ _ _ _ Hs IHt) as (Ht' & Ha & Hq).
  split; [by eapply phase_step|]. split; [by rewrite (loops_step _ _ _ _ _ Hs)|]. split; [done|].
  rewrite !omap_snoc. split.
  - rewrite IHq, map_app, <- app_assoc. rewrite (Permutation_app_comm (map task_query (tasks s))), Hq.
    by rewrite <- app_assoc.
  - apply Forall_app_2; [done|]. destruct (answered l) as [[q a]|] eqn:E; [|constructor].
    apply Forall_singleton. by apply Ha.
Qed.

(** A loop ends by itself once the token is cancelled. *)
Lemma loop_can_end i s (w : W) : shutdown s = true → (i < length (loops s))%nat →
  ∃ s' tr, run r (s, w) tr (s', w) ∧ (length tr ≤ 1)%nat ∧ omap received tr = [] ∧ ended s' i ∧
    length (loops s') = length (loops s) ∧ (∀ j, ended s j → ended s' j) ∧
    shutdown s' = true ∧ phase s' = phase s ∧ handle_v4 s' = handle_v4 s ∧ handle_v6 s' = handle_v6 s.
Proof.
  intros Hs [x Hx]%lookup_lt_is_Some. destruct (l_alive x) eqn:Ha.
  - exists (set_loops (alter end_loop i (loops s)) s), ([] ++ [Silent]).
    split; [|split; [done|split; [done|split]]].
    + eapply run_snoc; [apply run_nil|]. apply (step_cancelled r i). unfold serve_turn. by rewrite Hx, Ha, Hs.
    + unfold ended. cbn. by rewrite list_lookup_alter_eq, Hx.
    + cbn. rewrite length_alter. split; [done|]. split; [|done].
      intros j. by apply (ended_alter end_loop i _ _ _ end_loop_tame).
  - exists s, []. split; [apply run_nil|]. unfold ended. rewrite Hx. cbn. auto 10.
Qed.

Lemma run_app c1 tr1 c2 tr2 c3 : run r c1 tr1 c2 → run (W:=W) r c2 tr2 c3 → run r c1 (tr1 ++ tr2) c3.
Proof.
  intros Hr1. induction 1 as [|tr c l c' Hr IH Hs]; [by rewrite app_nil_r|].
  rewrite app_assoc. by eapply run_snoc.
Qed.

(** The wait of [shutdown] for one loop. *)
Lemma wait_can_end h s (w : W) : phase s = Awaiting h → shutdown s = true → (h < length (loops s))%nat →
  ∃ s1 tr, run r (s, w) tr (await_next s1, w) ∧ (length tr ≤ 2)%nat ∧ omap received tr = [] ∧
    length (loops s1) = length (loops s) ∧ shutdown s1 = true ∧ handle_v4 s1 = handle_v4 s ∧ handle_v6 s1 = handle_v6 s.
Proof.
  intros Hph Hs Hh. destruct (loop_can_end h s w Hs Hh) as (s1 & tr & Hr & Hlen & Hrec & He & Hl & _ & Hs1 & Hp1 & E4 & E6).
  exists s1, (tr ++ [Silent]). split; [|split; [rewrite length_app; cbn; lia|split; [by rewrite omap_app, Hrec|done]]].
  eapply run_snoc; [exact Hr|]. apply step_continue. unfold shutdown_continue. unfold ended in He. by rewrite Hp1, Hph, He.
Qed.

Lemma shutdown_can_end h s (w : W) : phase s = Awaiting h → phase_ok s → length (loops s) = 2%nat →
  ∃ s' tr, run r (s, w) tr (s', w) ∧ (length tr ≤ 4)%nat ∧ omap received tr = [] ∧ phase s' = Joined.
Proof.
  intros Hph Hok Hl. unfold phase_ok in Hok. rewrite Hph in Hok. destruct Hok as (Hs & E4 & Hcase).
  destruct (wait_can_end h s w Hph Hs) as (s1 & tr & Hr & Hlen & Hrec & Hl1 & Hs1 & F4 & F6).
  { rewrite Hl. destruct Hcase as [[-> _]|[-> _]]; lia. }
  rewrite E4 in F4. destruct Hcase as [[-> E6]|(-> & E6 & _)]; rewrite E6 in F6.
  - assert (Ha : await_next s1 = set_phase (Awaiting 1) None None s1) by (unfold await_next; by rewrite F4, F6).
    rewrite Ha in Hr. destruct (wait_can_end 1 (set_phase (Awaiting 1) None None s1) w eq_refl Hs1)
      as (s2 & tr2 & Hr2 & Hlen2 & Hrec2 & _ & _ & G4 & G6); [cbn; rewrite Hl1, Hl; lia|].
    exists (await_next s2), (tr ++ tr2). split; [by eapply run_app|].
    split; [rewrite length_app; lia|]. split; [by rewrite omap_app, Hrec, Hrec2|].
    unfold await_next. cbn in G4, G6. by rewrite G4, G6.
  - exists (await_next s1), tr. split; [done|]. split; [lia|]. split; [done|]. unfold await_next. by rewrite F4, F6.
Qed.

Lemma joined_ended s i x : phase s = Joined → phase_ok s → length (loops s) = 2%nat →
  loops s !! i = Some x → l_alive x = false.
Proof.
  unfold phase_ok, ended. intros -> (_ & He0 & He1) Hl Hx. pose proof (lookup_lt_Some _ _ _ Hx) as Hi.
  destruct i as [|[|i]]; [by rewrite Hx in He0|by rewrite Hx in He1|lia].
Qed.

(** Past a shutdown. *)
Lemma joined_step s w l s' w' : step r (s, w) l (s', w') →
  phase s = Joined → phase_ok s → length (loops s) = 2%nat → option_list (received l) = [] ∧ phase s' = Joined.
Proof.
  intros Hstep Hj Hok Hl. pose proof (joined_ended s) as Hend. inversion Hstep; subst; try done;
    unfold shutdown_begin, shutdown_continue, drop_server, serve_turn, abort_turn, task_resolve, task_send in *;
    rewrite ?Hj in *; try done.
  all: repeat case_match; simplify_eq; cbn; try done.
  by rewrite (Hend i x) in *.
Qed.

End lemmas.

(** ** Properties *)

(** C14: The DNS listener answers every datagram at most once, and stops.  In
    any interleaving of its loops, its tasks, its owner and the rest of the
    program: the datagrams received so far are, as a multiset, those answered
    and those whose task is still there; each answer is what the resolver says
    to the first 4096 bytes of its own datagram, and goes to its client on the
    socket it came in on.  A [shutdown] that has begun can always finish within
    four steps of the server, without another datagram being received; when it
    has returned no loop runs and no datagram is ever received again. *)
Theorem server_lifecycle `{Unicode} `{UrlParser} `{WildMatch} `{DnsCodec} {W} `{Sockets W} `{Udp W} `{Scheduler W}
    (r : DnsResolver) b4 b6 (w w0 w' : W) s0 s tr :
  start b4 b6 w = (w0, Ok s0) → run r (s0, w0) tr (s, w') →
  omap received tr ≡ₚ map fst (omap answered tr) ++ map task_query (tasks s) ∧
  Forall (λ qa, ∃ v : W, qa.2 = (resolve r (q_payload qa.1) v).2) (omap answered tr) ∧
  (∀ h, phase s = Awaiting h →
     ∃ s' tr', run r (s, w') tr' (s', w') ∧ (length tr' ≤ 4)%nat ∧ omap received tr' = [] ∧ phase s' = Joined) ∧
  (phase s = Joined →
     Forall (λ x, l_alive x = false) (loops s) ∧
     ∀ tr' c, run r (s, w') tr' c → omap received tr' = []).
Proof.
  intros Hs Hr.
  assert (Hs0 : phase_ok s0 ∧ length (loops s0) = 2%nat ∧ tasks s0 = []).
  { unfold start, m_bind in Hs. destruct (server_start b4 b6 w) as [w1 [[x4 x6]|e]]; [|done].
    cbn in Hs. by simplify_eq. }
  destruct Hs0 as (Hp0 & Hl0 & Ht0).
  destruct (run_ok r s0 w0 tr _ Hr Hp0 Hl0 Ht0) as (Hp & Hl & _ & Hq & Ha). cbn [fst] in *.
  split; [exact Hq|]. split; [exact Ha|]. split; [intros h Hh; by apply (shutdown_can_end r h)|].
  intros Hj. split.
  { apply Forall_lookup. intros i x Hx. by eapply joined_ended. }
  intros tr' c Hr'.
  assert (Hc : omap received tr' = [] ∧ phase c.1 = Joined ∧ phase_ok c.1 ∧ length (loops c.1) = 2%nat).
  { induction Hr' as [|tr' [s1 w1] l [s2 w2] Hr' (IHr & IHj & IHp & IHl) Hstep]; [done|]. cbn [fst] in *.
    pose proof (phase_step r _ _ _ _ _ Hstep IHp) as Hp2. pose proof (loops_step r _ _ _ _ _ Hstep) as Hl2.
    rewrite omap_snoc, IHr. rewrite IHl in Hl2.
    destruct (joined_step r _ _ _ _ _ Hstep IHj IHp IHl) as [-> Hj2]. done. }
  apply Hc.
Qed.

(** ** Witnesses *)

(** A listener on two ports that gets one datagram and is shut down. *)
Module Listening.
Definition any4 : SocketAddr := sock (V4 (v4 127 0 0 1)) 5353.
Definition any6 : SocketAddr := sock (V6 1) 5353.
Definition client : SocketAddr := sock (V4 (v4 127 0 0 1)) 40000.
Definition nobody : DnsResolver :=
  {| config := from_vpn_conn split_conn None false; r_vpn_servers := []; system_servers := [];
     vpn_dns_ips := []; directed_dialer := dialer_new None |}.
End Listening.

Lemma server_lifecycle_witness :
  ∃ (w0 w' : Silent.world) s0 s q,
    start Listening.any4 Listening.any6 (([], []) : Silent.world) = (w0, Ok s0) ∧
    q_payload q = Toy.query 1 "a." ∧ map task_query (tasks s) = [q] ∧ phase s = Awaiting 0 ∧
    ∃ s' tr', run Listening.nobody (s, w') tr' (s', w') ∧ phase s' = Joined.
Proof.
  set (st := start Listening.any4 Listening.any6 (([], []) : Silent.world)).
  destruct st as [w0 [s0|e]] eqn:E; [|discriminate E]. subst st.
  pose proof E as E'. injection E' as _ <-.
  set (s0 := {| shutdown := _; handle_v4 := _; handle_v6 := _; phase := _; loops := _; tasks := _ |}) in *.
  set (q := {| q_socket := 3; q_payload := Toy.query 1 "a."; q_client := Listening.client |}).
  destruct (serve_turn 0 (Datagram (Toy.query 1 "a.") Listening.client) s0) as [s1|] eqn:E1; [|discriminate E1].
  destruct (shutdown_begin s1) as [s2|] eqn:E2; [|injection E1 as <-; discriminate E2].
  exists w0, w0, s0, s2, q. split; [reflexivity|]. split; [reflexivity|].
  assert (Hr : run Listening.nobody (s0, w0) ([] ++ [Received q] ++ [Silent]) (s2, w0)).
  { rewrite app_assoc. eapply run_snoc; [eapply run_snoc; [apply run_nil|]|by apply step_shutdown].
    by apply (step_datagram _ 0 (spawned 3) (Toy.query 1 "a.")). }
  destruct (server_lifecycle _ _ _ _ _ _ _ _ _ E Hr) as (_ & _ & Hend & _).
  injection E1 as <-. injection E2 as <-. split; [reflexivity|]. split; [reflexivity|].
  destruct (Hend 0%nat eq_refl) as (s' & tr' & Hr' & _ & _ & Hj). by exists s', tr'.
Defined.

End DnsServer.
