(* ===== verification/Outbound.v ===== *)
(** * Outbound context, bound resolver, HTTP connector and route bypass
    ([outbound/src/context.rs], [resolver.rs], [connector.rs], [bypass.rs],
    [bypass/linux.rs])

    What is built on the dialer for the traffic that must stay out of the
    tunnel: the per-connect context with its two dialers, the resolver that
    asks over bound sockets and honours pinned hosts, the connector of the
    HTTP client, and the policy-routing rules of the bypass. *)

From S2P Require Import Prelude RustStr Net Interface Dialer DnsConfig DnsResolver.
Import Interface Dialer DnsConfig DnsResolver.

Module Outbound.

(** ** The bound resolver *)

(* @outbound/src/resolver.rs:32-76 Error *)
Inductive ResolverError : Type :=
  | NoServers
  | SystemConfig (source : string)
  | RBind (server : SocketAddr) (source : DialerError)
  | RSend (server : SocketAddr) (source : io_error)
  | RRecv (server : SocketAddr) (source : io_error)
  | RQueryTimeout (server : SocketAddr)
  | RDecode (server : SocketAddr)
  | QueryBuild
  | NoRecords (host : string).

(* @outbound/src/resolver.rs:92-97 Resolver *)
Record Resolver : Type := {
  dialer : Dialer;
  servers : list SocketAddr;
  overrides : gmap string (list SocketAddr);
}.

(* @outbound/src/resolver.rs:101-108 Resolver::new *)
Definition resolver_new (d : Dialer) (servers : list SocketAddr) : Resolver :=
  {| dialer := d; servers := servers; overrides := ∅ |}.

(** [sys_conf] is what the system's resolver configuration reads as. *)
(* @outbound/src/resolver.rs:279-303 system_dns_servers *)
Definition system_dns_servers (sys_conf : result string (list IpAddr)) :
    result ResolverError (list SocketAddr) :=
  let? config := map_err SystemConfig sys_conf in
  match List.filter (λ a, negb (ip_is_loopback (ip a)) && negb (ip_is_unspecified (ip a)))
                    (map (λ i, sock i 53) config) with
  | [] => Ok [sock (V4 (v4 8 8 8 8)) 53]
  | servers => Ok servers
  end.

(* @outbound/src/resolver.rs:111-121 Resolver::from_system *)
Definition from_system (sys_conf : result string (list IpAddr)) (d : Dialer) :
    result ResolverError Resolver :=
  let? servers := system_dns_servers sys_conf in
  match servers with
  | [] => Err NoServers
  | _ => Ok {| dialer := d; servers := servers; overrides := ∅ |}
  end.

(* @outbound/src/resolver.rs:132-139 Resolver::with_override *)
Definition with_override (hostname : string) (pinned : SocketAddr) (r : Resolver) : Resolver :=
  {| dialer := dialer r; servers := servers r;
     overrides := <[hostname := default [] (overrides r !! hostname) ++ [pinned]]> (overrides r) |}.

(** [Name::from_ascii], and the fields of [Message::query()] with recursion
    desired that the model of messages leaves to [Rest]. *)
Class DnsNames `{DnsCodec} : Type := {
  name_from_ascii : string → result string Name;
  query_rest : Rest;
}.

Definition rdata_type (d : RData) : RecordType :=
  match d with RdA _ => RtA | RdAAAA _ => RtAAAA | RdOther c _ => RtOther c end.

Section resolver.
Context `{DnsNames}.

(* @outbound/src/resolver.rs:252-259 build_query *)
Definition build_query (name : Name) (t : RecordType) : result ResolverError (list Z) :=
  ok_or (to_vec {| message_type := MtQuery; response_code := NoError; recursion_available := false;
                   queries := [(name, t)]; answers := []; rest := query_rest |}) QueryBuild.

(* @outbound/src/resolver.rs:261-272 extract_addrs *)
Definition extract_addrs (m : Message Name Rest) (t : RecordType) : list IpAddr :=
  filter_map (λ r, match rdata r with
                   | RdA a => Some (V4 a)
                   | RdAAAA a => Some (V6 a)
                   | RdOther _ _ => None
                   end)
             (List.filter (λ r, bool_decide (rdata_type (rdata r) = t)) (answers m)).

Context {W : Type} `{Sockets W} `{Udp W}.

(* @outbound/src/resolver.rs:225-245 Resolver::send_query *)
Definition send_query (r : Resolver) (server : SocketAddr) (wire : list Z) :
    M W ResolverError (Message Name Rest) :=
  let! socket := m_map_err (RBind server) (bind_udp_to (dialer r) server) in
  do! m_map_err (RSend server) (udp_send socket wire server) in
  let! reply := m_map_err (RRecv server) (udp_recv socket MAX_DNS_PACKET DNS_TIMEOUT) in
  let! buf := m_lift (ok_or reply (RQueryTimeout server)) in
  m_lift (ok_or (from_vec buf) (RDecode server)).

(** The loop over the servers; [last_err] is the error of the last one that
    failed. *)
Fixpoint query_servers (r : Resolver) (wire : list Z) (t : RecordType) (ss : list SocketAddr)
    (last_err : option ResolverError) (w : W) : W * result ResolverError (list IpAddr) :=
  match ss with
  | [] => (w, match last_err with None => Ok [] | Some e => Err e end)
  | server :: ss' =>
      match send_query r server wire w with
      | (w1, Ok response) =>
          match extract_addrs response t with
          | [] => query_servers r wire t ss' last_err w1
          | addrs => (w1, Ok addrs)
          end
      | (w1, Err e) => query_servers r wire t ss' (Some e) w1
      end
  end.
(* @outbound/src/resolver.rs:203-223 Resolver::query_record *)
Definition query_record (r : Resolver) (name : Name) (t : RecordType) : M W ResolverError (list IpAddr) :=
  let! wire := m_lift (build_query name t) in
  query_servers r wire t (servers r) None.

(** The addresses of one record type; a failed query gives none. *)
Definition socket_addrs (port : Z) (res : result ResolverError (list IpAddr)) : list SocketAddr :=
  match res with Ok l => map (λ i, sock i port) l | Err _ => [] end.
(* @outbound/src/resolver.rs:152-201 Resolver::resolve_host *)
Definition resolve_host (r : Resolver) (host : string) (port : Z) : M W ResolverError (list SocketAddr) :=
  match overrides r !! host with
  | Some addrs => m_ret addrs
  | None =>
      match parse_ip host with
      | Some i => m_ret [sock i port]
      | None =>
          let! name := m_lift (map_err (λ e, NoRecords (host +:+ ": " +:+ e)) (name_from_ascii host)) in
          let! a := m_try (query_record r name RtA) in
          let! aaaa := m_try (query_record r name RtAAAA) in
          match socket_addrs port a ++ socket_addrs port aaaa with
          | [] =>
              m_fail (match a, aaaa with
                      | Err e, _ => e
                      | Ok _, Err e => e
                      | Ok _, Ok _ => NoRecords host
                      end)
          | all => m_ret all
          end
      end
  end.

End resolver.

(** ** The connector *)

(** [http::Uri], as far as it is read. *)
Record Uri : Type := { uri_scheme : option string; uri_host : option string; uri_port : option Z }.

(* @outbound/src/connector.rs:24-46 Error *)
Inductive ConnectorError : Type :=
  | MissingHost
  | UnsupportedScheme (scheme : string)
  | Resolve (host : string) (source : ResolverError)
  | NoAddress (host : string)
  | CConnect (host : string) (source : DialerError).

(* @outbound/src/connector.rs:55-69 parse_uri_host_port *)
Definition parse_uri_host_port (uri : Uri) : result ConnectorError (string * Z) :=
  let? host := ok_or (uri_host uri) MissingHost in
  let port := default (if bool_decide (uri_scheme uri = Some "https") then 443 else 80) (uri_port uri) in
  let scheme := default "http" (uri_scheme uri) in
  if negb (bool_decide (scheme = "http")) && negb (bool_decide (scheme = "https"))
  then Err (UnsupportedScheme scheme)
  else Ok (host, port).

(* @outbound/src/connector.rs:75-82 HyperConnector *)
Record HyperConnector : Type := { hc_dialer : Dialer; hc_resolver : Resolver }.

Section connector.
Context `{DnsNames} {W : Type} `{Sockets W} `{Udp W}.

(** Dial in turn; [last] is the error so far, which the code's [expect] finds
    set after at least one address. *)
Fixpoint connect_any (d : Dialer) (host : string) (addrs : list SocketAddr) (last : ConnectorError)
    (w : W) : W * result ConnectorError Z :=
  match addrs with
  | [] => (w, Err last)
  | a :: addrs' =>
      match connect_tcp d a w with
      | (w1, Ok s) => (w1, Ok s)
      | (w1, Err e) => connect_any d host addrs' (CConnect host e) w1
      end
  end.
(* @outbound/src/connector.rs:91-122 HyperConnector::connect_to *)
Definition connect_to (c : HyperConnector) (uri : Uri) : M W ConnectorError Z :=
  let! hp := m_lift (parse_uri_host_port uri) in
  let '(host, port) := hp : string * Z in
  let! addrs := m_map_err (Resolve host) (resolve_host (hc_resolver c) host port) in
  connect_any (hc_dialer c) host addrs (NoAddress host).

End connector.

(** ** The context of a connect *)

(** What the context reads of the system: the interfaces, the default one,
    the resolver configuration; and sleeping. *)
Class Os (W : Type) : Type := {
  os_interfaces : W → list NetInterface;
  os_default_if : W → option NetInterface;
  os_dns_conf : W → result string (list IpAddr);
  os_sleep : duration → W → W;
}.

(* @outbound/src/context.rs:18-25 Error *)
Inductive ContextError : Type :=
  | CtxInterface (source : InterfaceError)
  | DnsDiscovery (source : ResolverError).

(* @outbound/src/context.rs:34-46 OutboundConfig *)
Record OutboundConfig : Type := {
  configured_interface : option string;
  excluded_tun : string;
  oc_full_tunnel : bool;
  oc_connect_timeout : duration;
}.

(* @outbound/src/context.rs:52-64 OutboundContext *)
Record OutboundContext : Type := {
  directed : Dialer;
  routed : Dialer;
  ctx_resolver : Resolver;
  ctx_interface : option OutboundInterface;
}.

(* @outbound/src/context.rs:66-68 TUN_LOOKUP_RETRIES *)
Definition TUN_LOOKUP_RETRIES : nat := 3%nat.
Definition TUN_LOOKUP_DELAY : duration := 100 * 1000000.

Section context.
Context {W : Type} `{Os W}.

Fixpoint lookup_tun (tun : string) (attempts : nat) (w : W) : W * option OutboundInterface :=
  match attempts with
  | O => (w, None)
  | S attempts' =>
      match lookup (os_interfaces w) tun with
      | Some i => (w, Some i)
      | None =>
          match attempts' with
          | O => (w, None)
          | S _ => lookup_tun tun attempts' (os_sleep TUN_LOOKUP_DELAY w)
          end
      end
  end.
(* @outbound/src/context.rs:170-191 lookup_tun_with_retry *)
Definition lookup_tun_with_retry (tun : string) (w : W) : W * option OutboundInterface :=
  lookup_tun tun TUN_LOOKUP_RETRIES w.

(* @outbound/src/context.rs:73-124 OutboundContext::build *)
Definition context_build (config : OutboundConfig) : M W ContextError OutboundContext := λ w,
  match Interface.resolve (os_interfaces w) (os_default_if w) (configured_interface config)
          (Some (excluded_tun config)) (oc_full_tunnel config) with
  | Err e => (w, Err (CtxInterface e))
  | Ok interface =>
      let '(w1, tun_outbound) := lookup_tun_with_retry (excluded_tun config) w in
      let directed := with_connect_timeout (oc_connect_timeout config) (dialer_new interface) in
      let routed := dialer_new tun_outbound in
      match system_dns_servers (os_dns_conf w1) with
      | Err e => (w1, Err (DnsDiscovery e))
      | Ok servers =>
          (w1, Ok {| directed := directed; routed := routed;
                     ctx_resolver := resolver_new directed servers; ctx_interface := interface |})
      end
  end.

End context.

(** ** The route bypass of Linux *)

(* @outbound/src/bypass/linux.rs:37-41 BYPASS_TABLE *)
Definition BYPASS_TABLE : Z := 5678.
(* @outbound/src/bypass/linux.rs:43-44 RULE_PRIORITY_FWMARK *)
Definition RULE_PRIORITY_FWMARK : Z := 9000.
(* @outbound/src/bypass/linux.rs:46-47 RULE_PRIORITY_MAIN_SUPPRESS *)
Definition RULE_PRIORITY_MAIN_SUPPRESS : Z := 9001.

(* @outbound/src/bypass/linux.rs:53-60 Error *)
Inductive BypassError : Type := AddRule (detail : string) | IpCommand (source : io_error).

(* @outbound/src/bypass/linux.rs:66-69 RouteBypass *)
Record RouteBypass : Type := { installed : bool }.

(** Running [ip rule ARGS]: whether it succeeded, and its standard error. *)
Class IpRule (W : Type) : Type := ip_rule : list string → M W io_error (bool * string).

Section bypass.
Context {W : Type} `{IpRule W}.

(* @outbound/src/bypass/linux.rs:155-183 ip_rule_add *)
Definition ip_rule_add (args : list string) : M W BypassError unit :=
  let! out := m_map_err IpCommand (ip_rule args) in
  let '(success, stderr) := out : bool * string in
  if negb success && negb (contains stderr "File exists") then m_fail (AddRule (trim stderr))
  else m_ret tt.

(* @outbound/src/bypass/linux.rs:185-208 ip_rule_del *)
Definition ip_rule_del (args : list string) (w : W) : W := (ip_rule args w).1.

Definition show_hex (n : Z) : string := "0x" +:+ of_bytes (hex_digits 8 n).
(** The two rules, without their [add] or [del]. *)
Definition fwmark_rule : list string :=
  ["not"; "fwmark"; show_hex BYPASS_FWMARK; "table"; show_nat BYPASS_TABLE; "priority";
   show_nat RULE_PRIORITY_FWMARK].
Definition suppress_rule : list string :=
  ["table"; "main"; "suppress_prefixlength"; "0"; "priority"; show_nat RULE_PRIORITY_MAIN_SUPPRESS].

(* @outbound/src/bypass/linux.rs:75-115 RouteBypass::setup *)
Definition bypass_setup (i : OutboundInterface) (full_tunnel : bool) : M W BypassError RouteBypass :=
  if negb full_tunnel then m_ret {| installed := false |}
  else
    do! ip_rule_add ("add" :: fwmark_rule) in
    do! ip_rule_add ("add" :: suppress_rule) in
    m_ret {| installed := true |}.

(* @outbound/src/bypass/linux.rs:117-148 RouteBypass::teardown *)
Definition bypass_teardown (b : RouteBypass) (w : W) : W :=
  if installed b then ip_rule_del ("del" :: suppress_rule) (ip_rule_del ("del" :: fwmark_rule) w)
  else w.

End bypass.

Example fwmark_rule_text :
  join " " ("add" :: fwmark_rule) = "add not fwmark 0x162e table 5678 priority 9000".
Proof. vm_compute. reflexivity. Qed.

(** ** Lemmas *)

Section log.
Context `{DnsNames} {W : Type} `{UdpLog W}.

Lemma send_query_sends r server wire w :
  ∃ cs, sent (send_query r server wire w).1 = sent w ++ cs ∧ cs `prefix_of` [(wire, server)].
Proof.
  unfold send_query, m_bind, m_map_err, m_lift.
  pose proof (quiet_bind_udp_to (dialer r) server w) as Hb.
  destruct (bind_udp_to (dialer r) server w) as [w1 [sk|e]]; cbn [fst map_err] in *.
  2: { exists []. rewrite app_nil_r. split; [done|]. by eexists. }
  exists [(wire, server)]. split; [|done]. rewrite <- Hb.
  pose proof (sent_udp_send sk wire server w1) as Hs.
  destruct (udp_send sk wire server w1) as [w2 [[]|e]]; cbn [fst map_err] in *; [|exact Hs].
  pose proof (sent_udp_recv sk MAX_DNS_PACKET DNS_TIMEOUT w2) as Hr.
  destruct (udp_recv sk _ _ w2) as [w3 [x|e]]; cbn [fst map_err] in *; [|congruence].
  destruct x as [buf|]; cbn; congruence.
Qed.

Lemma query_servers_sends r wire t ss last_err w :
  ∃ cs, sent (query_servers r wire t ss last_err w).1 = sent w ++ cs ∧
        cs `sublist_of` map (pair wire) ss.
Proof.
  revert last_err w. induction ss as [|s ss IH]; intros last_err w; cbn [query_servers map].
  { exists []. by rewrite app_nil_r. }
  destruct (send_query_sends r s wire w) as (cs1 & Hs1 & [k Hk]).
  assert (Hsub : ∀ cs2, cs2 `sublist_of` map (pair wire) ss →
                   cs1 ++ cs2 `sublist_of` (wire, s) :: map (pair wire) ss).
  { intros cs2 Hcs2. change ((wire, s) :: map (pair wire) ss) with ([(wire, s)] ++ map (pair wire) ss).
    apply sublist_app; [|exact Hcs2]. rewrite Hk. by apply sublist_inserts_r. }
  assert (Hrec : ∀ last_err w1, sent w1 = sent w ++ cs1 →
    ∃ cs, sent (query_servers r wire t ss last_err w1).1 = sent w ++ cs ∧
          cs `sublist_of` (wire, s) :: map (pair wire) ss).
  { intros le w1 Hw1. destruct (IH le w1) as (cs2 & Hs2 & Hp2). exists (cs1 ++ cs2).
    split; [by rewrite Hs2, Hw1, app_assoc|by apply Hsub]. }
  destruct (send_query r s wire w) as [w1 [m|e]]; cbn [fst] in Hs1; [|by apply Hrec].
  destruct (extract_addrs m t) as [|a l]; [by apply Hrec|].
  exists cs1. split; [exact Hs1|]. rewrite <- (app_nil_r cs1). apply Hsub, sublist_nil_l.
Qed.

Lemma query_record_sends r name t w :
  ∃ cs, sent (query_record r name t w).1 = sent w ++ cs ∧
        (∀ p a, (p, a) ∈ cs → a ∈ servers r) ∧ (length cs ≤ length (servers r))%nat.
Proof.
  unfold query_record. cbn. destruct (build_query name t) as [wire|e].
  2: { exists []. rewrite app_nil_r. split; [done|]. split; [|cbn; lia].
       intros p a Hin. by apply elem_of_nil in Hin. }
  destruct (query_servers_sends r wire t (servers r) None w) as (cs & Hs & Hp).
  exists cs. split; [exact Hs|]. split.
  - intros p a Hin. apply sublist_submseteq in Hp. apply (elem_of_submseteq _ _ _ Hin) in Hp as Hm.
    apply list_elem_of_fmap in Hm as (x & [= _ ->] & Hx). exact Hx.
  - apply sublist_length in Hp. by rewrite length_map in Hp.
Qed.

End log.

Lemma socket_addrs_port p res : Forall (λ x, port x = p) (socket_addrs p res).
Proof. destruct res as [l|e]; [|constructor]. apply Forall_map, Forall_true. done. Qed.

(** The destination of a connect call. *)
Definition connects_to (c : call) : option SocketAddr :=
  match c with existT _ (EConnect _ a _) => Some a | _ => None end.

Lemma connect_script_connects s d dst :
  filter_map connects_to (connect_script d dst s) = [dst].
Proof.
  unfold connect_script. destruct (should_bind (ip dst)), (interface d), (tcp_nodelay d); reflexivity.
Qed.

Lemma connect_any_connects {W} `{SocketLog W} d host addrs last w :
  ∃ cs, calls (connect_any d host addrs last w).1 = calls w ++ cs ∧
        filter_map connects_to cs `sublist_of` addrs.
Proof.
  revert last w. induction addrs as [|a addrs IH]; intros last w; cbn [connect_any].
  { exists []. by rewrite app_nil_r. }
  destruct (runs_connect_tcp d a w) as (cs1 & Hc1 & s & [[k Hk] _]).
  assert (H1 : filter_map connects_to cs1 `sublist_of` [a]).
  { rewrite <- (connect_script_connects s d a), Hk, filter_map_app. by apply sublist_inserts_r. }
  destruct (connect_tcp d a w) as [w1 [sk|e]]; cbn [fst] in Hc1.
  - exists cs1. split; [exact Hc1|]. change (a :: addrs) with ([a] ++ addrs).
    by apply sublist_inserts_r.
  - destruct (IH (CConnect host e) w1) as (cs2 & Hc2 & Hsub). exists (cs1 ++ cs2).
    split; [by rewrite Hc2, Hc1, app_assoc|]. rewrite filter_map_app.
    change (a :: addrs) with ([a] ++ addrs). by apply sublist_app.
Qed.

Lemma system_dns_servers_spec conf :
  match system_dns_servers conf with
  | Ok ss => ss ≠ [] ∧ Forall (λ a, ip_is_loopback (ip a) = false ∧ ip_is_unspecified (ip a) = false) ss
  | Err _ => is_ok conf = false
  end.
Proof.
  unfold system_dns_servers. destruct conf as [ips|e]; [|done]. cbn [map_err result_bind].
  destruct (List.filter _ _) as [|s ss] eqn:Hf.
  - split; [done|]. by repeat constructor.
  - split; [done|]. rewrite <- Hf. apply Forall_forall. intros a Ha.
    apply list_elem_of_In, filter_In in Ha as [_ Ha]. by bool_hyps.
Qed.

Lemma lookup_tun_spec {W} `{Os W} tun n (w : W) o :
  (lookup_tun tun n w).2 = Some o → name o = tun ∧ index o ≠ 0.
Proof.
  revert w. induction n as [|n IH]; intros w; cbn [lookup_tun]; [done|].
  destruct (lookup (os_interfaces w) tun) as [o'|] eqn:Hl.
  - intros [= ->]. unfold lookup in Hl. apply bind_Some in Hl as (ni & Hf & Ho).
    apply find_some in Hf as [_ Hf]. destruct (from_interface ni) as [o'|] eqn:Hfi; [|done].
    injection Ho as ->. apply from_interface_ok in Hfi as (-> & -> & ?). bool_hyps. by split.
  - destruct n as [|n]; [done|]. apply IH.
Qed.

(** ** Properties *)

(** Resolving a host for bypass traffic: a pinned host and an IP literal
    are answered without any query; otherwise the queries, at most one per
    configured server and record type, go to the configured servers only; an
    answer is the pinned list, or a non-empty list of addresses with the
    asked port, and only an unpinned name can fail. *)
Theorem resolve_host_contacts `{DnsNames} {W} `{UdpLog W} r host p (w : W) :
  ∃ cs, sent (resolve_host r host p w).1 = sent w ++ cs ∧
    (is_some (overrides r !! host) = true ∨ is_some (parse_ip host) = true → cs = []) ∧
    (∀ q a, (q, a) ∈ cs → a ∈ servers r) ∧ (length cs ≤ 2 * length (servers r))%nat ∧
    match (resolve_host r host p w).2 with
    | Ok addrs => overrides r !! host = Some addrs ∨ (addrs ≠ [] ∧ Forall (λ a, port a = p) addrs)
    | Err _ => overrides r !! host = None ∧ parse_ip host = None
    end.
Proof.
  assert (Hnil : ∀ q a, (q, a) ∈ ([] : list (list Z * SocketAddr)) → a ∈ servers r).
  { intros q a Hin. by apply elem_of_nil in Hin. }
  unfold resolve_host. destruct (overrides r !! host) as [addrs|] eqn:Ho.
  { exists []. cbn. rewrite app_nil_r. split_and!; [done|done|exact Hnil|cbn; lia|by left]. }
  destruct (parse_ip host) as [i|] eqn:Hip.
  { exists []. cbn. rewrite app_nil_r. split_and!; [done|done|exact Hnil|cbn; lia|]. right. by repeat constructor. }
  unfold m_bind, m_lift, m_try. destruct (name_from_ascii host) as [nm|e]; cbn [map_err].
  2: { exists []. rewrite app_nil_r. split_and!; [done|by intros [?|?]|exact Hnil|cbn; lia|done]. }
  destruct (query_record_sends r nm RtA w) as (cs1 & Hs1 & Hin1 & Hl1).
  destruct (query_record r nm RtA w) as [w1 a]. cbn [fst] in Hs1.
  destruct (query_record_sends r nm RtAAAA w1) as (cs2 & Hs2 & Hin2 & Hl2).
  destruct (query_record r nm RtAAAA w1) as [w2 aaaa]. cbn [fst] in Hs2.
  pose proof (proj2 (Forall_app _ _ _) (conj (socket_addrs_port p a) (socket_addrs_port p aaaa))) as Hall.
  exists (cs1 ++ cs2). rewrite app_assoc, <- Hs1.
  assert (Hlen : (length (cs1 ++ cs2) ≤ 2 * length (servers r))%nat) by (rewrite length_app; lia).
  assert (Hin : ∀ q x, (q, x) ∈ cs1 ++ cs2 → x ∈ servers r)
    by (intros q x [Hx|Hx]%elem_of_app; eauto).
  destruct (socket_addrs p a ++ socket_addrs p aaaa) as [|x l]; cbn [m_ret m_fail fst snd];
    (split; [exact Hs2|]);
    (split; [by intros [?|?]|]); (split; [exact Hin|]); (split; [exact Hlen|]); [done|by right].
Qed.

(** A pinned host is dialed at its pinned addresses only: connecting to a
    URL whose host has an override asks no DNS server and attempts
    connections to the override's addresses only, in their order and at most
    once each. *)
Theorem connect_to_pinned `{DnsNames} {W} `{UdpLog W} `{!SocketLog W} c uri host p addrs (w : W) :
  parse_uri_host_port uri = Ok (host, p) → overrides (hc_resolver c) !! host = Some addrs →
  sent (connect_to c uri w).1 = sent w ∧
  ∃ cs, calls (connect_to c uri w).1 = calls w ++ cs ∧
        filter_map connects_to cs `sublist_of` addrs.
Proof.
  intros Hu Ho. unfold connect_to, resolve_host. cbn. rewrite Hu. cbn. unfold m_map_err. rewrite Ho. cbn.
  split; [|apply connect_any_connects]. generalize (NoAddress host). clear Ho. revert w.
  induction addrs as [|a addrs IH]; intros w last; cbn [connect_any]; [done|].
  pose proof (quiet_connect_tcp (hc_dialer c) a w) as Hq.
  destruct (connect_tcp (hc_dialer c) a w) as [w1 [sk|e]]; cbn [fst] in *; [done|].
  by rewrite IH.
Qed.

Module Names.
#[global] Instance names : @DnsNames Toy.codec := { name_from_ascii s := Ok s; query_rest := tt }.
End Names.

Definition pinned_connector : HyperConnector :=
  {| hc_dialer := dialer_new (Some en0);
     hc_resolver := with_override "vpn.example" (sock (V4 (v4 192 0 2 7)) 8443)
                      (resolver_new (dialer_new (Some en0)) [sock (V4 (v4 8 8 8 8)) 53]) |}.

Lemma connect_to_pinned_witness :
  ∃ cs, calls (connect_to (W:=Silent.world) pinned_connector
                 {| uri_scheme := Some "https"; uri_host := Some "vpn.example"; uri_port := None |}
                 ([], [])).1 = [] ++ cs ∧
        filter_map connects_to cs `sublist_of` [sock (V4 (v4 192 0 2 7)) 8443].
Proof.
  destruct (connect_to_pinned (W:=Silent.world) pinned_connector
    {| uri_scheme := Some "https"; uri_host := Some "vpn.example"; uri_port := None |}
    "vpn.example" 443 [sock (V4 (v4 192 0 2 7)) 8443] ([], [])) as [_ Hc];
    [reflexivity|vm_compute; reflexivity|exact Hc].
Defined.

Lemma resolve_host_contacts_witness :
  ∃ cs, sent (resolve_host (W:=Silent.world) (hc_resolver pinned_connector) "other.example" 443
                ([], [])).1 = [] ++ cs ∧ (length cs ≤ 2)%nat.
Proof.
  destruct (resolve_host_contacts (W:=Silent.world) (hc_resolver pinned_connector)
    "other.example" 443 ([], [])) as (cs & Hs & _ & _ & Hl & _).
  exists cs. split; [exact Hs|exact Hl].
Defined.

(** The two dialers of a context keep apart: the directed dialer and the
    resolver use the same interface, which is never the TUN device and, in
    full-tunnel mode, always exists; the routed dialer is bound to an
    interface of the TUN's name or to none; at most three lookups are made. *)
Theorem context_build_separates {W} `{Os W} config (w : W) ctx w' :
  context_build config w = (w', Ok ctx) →
  (interface (directed ctx) = ctx_interface ctx ∧ dialer (ctx_resolver ctx) = directed ctx) ∧
  (∀ i, ctx_interface ctx = Some i → name i ≠ excluded_tun config ∧ index i ≠ 0) ∧
  (oc_full_tunnel config = true → ctx_interface ctx ≠ None) ∧
  (∀ i, interface (routed ctx) = Some i → name i = excluded_tun config ∧ index i ≠ 0) ∧
  servers (ctx_resolver ctx) ≠ [].
Proof.
  unfold context_build. pose proof (resolve_spec (os_interfaces w) (os_default_if w)
    (configured_interface config) (Some (excluded_tun config)) (oc_full_tunnel config)) as Hsafe.
  destruct (Interface.resolve _ _ _ _ _) as [i|e]; [|done].
  pose proof (lookup_tun_spec (excluded_tun config) TUN_LOOKUP_RETRIES w) as Htun.
  unfold lookup_tun_with_retry. destruct (lookup_tun _ _ w) as [w1 t]. cbn [snd] in Htun.
  pose proof (system_dns_servers_spec (os_dns_conf w1)) as Hdns.
  destruct (system_dns_servers _) as [ss|e]; [|done]. intros [= <- <-]. cbn.
  split; [done|]. split.
  { intros o ->. destruct Hsafe as (_ & Hn & Hi & _). split; congruence. }
  split; [intros Hf ->; cbn in Hsafe; congruence|]. split; [|by destruct Hdns].
  intros o ->. apply Htun. done.
Qed.

(** A machine with one Ethernet card whose TUN device is up. *)
Module OneCard.
Definition card : NetInterface :=
  {| ni_name := "eth0"; ni_index := 2; ni_is_up := true; ni_is_loopback := false; ni_is_tun := false;
     ni_ipv4 := [v4 192 0 2 10]; ni_ipv6 := []; ni_gateway := Some (V4 (v4 192 0 2 1)) |}.
Definition tun : NetInterface :=
  {| ni_name := "wg0"; ni_index := 7; ni_is_up := true; ni_is_loopback := false; ni_is_tun := true;
     ni_ipv4 := [v4 10 0 0 2]; ni_ipv6 := []; ni_gateway := None |}.
#[global] Instance os : Os nat := {
  os_interfaces _ := [card; tun]; os_default_if _ := Some card;
  os_dns_conf _ := Ok [V4 (v4 127 0 0 53)]; os_sleep _ w := S w;
}.
Definition config : OutboundConfig :=
  {| configured_interface := None; excluded_tun := "wg0"; oc_full_tunnel := true;
     oc_connect_timeout := from_secs 3 |}.
End OneCard.

Lemma context_build_separates_witness :
  ∃ ctx, context_build OneCard.config 0%nat = (0%nat, Ok ctx) ∧ ctx_interface ctx ≠ None.
Proof.
  destruct (context_build OneCard.config 0%nat) as [w' [ctx|e]] eqn:E; [|discriminate E].
  destruct (context_build_separates OneCard.config 0%nat ctx w' E) as (_ & _ & Hfull & _).
  exists ctx. split; [|by apply Hfull]. by injection E as <- _.
Defined.

Lemma union_both (f r : list string) (l : gset (list string)) :
  {[r]} ∪ ({[f]} ∪ l) = {[f]} ∪ ({[r]} ∪ l).
Proof. set_solver. Qed.

(** A command that ran and succeeded. *)
Definition cmd_ok (r : result io_error (bool * string)) : bool :=
  match r with Ok (true, _) => true | _ => false end.

(** The laws of the rule list: a rule that is added was not there, "File
    exists" is true, a rule is gone when the command that deletes it succeeds,
    and a command that fails changes nothing. *)
Class RuleTable (W : Type) `{IpRule W} : Type := {
  rules : W → gset (list string);
  rule_add_law r w :
    let '(w', res) := ip_rule ("add" :: r) w in
    match res with
    | Ok (true, _) => r ∉ rules w ∧ rules w' = {[r]} ∪ rules w
    | Ok (false, err) => rules w' = rules w ∧ (contains err "File exists" = true → r ∈ rules w)
    | Err _ => rules w' = rules w
    end;
  rule_del_law r w :
    let '(w', res) := ip_rule ("del" :: r) w in
    rules w' = (if cmd_ok res then rules w ∖ {[r]} else rules w);
}.

(** The rule, if the command that is to delete it from [w] fails. *)
Definition not_deleted {W} `{IpRule W} (r : list string) (w : W) : gset (list string) :=
  if cmd_ok (ip_rule ("del" :: r) w).2 then ∅ else {[r]}.
(** The rules that a teardown from [w] leaves. *)
Definition bypass_left {W} `{IpRule W} (b : RouteBypass) (w : W) : gset (list string) :=
  if installed b then not_deleted fwmark_rule w ∪ not_deleted suppress_rule (ip_rule_del ("del" :: fwmark_rule) w)
  else ∅.
(** Deleting a rule that is there works. *)
Definition rule_deletes (W : Type) `{RuleTable W} : Prop :=
  ∀ r w, r ∈ rules w → cmd_ok (ip_rule ("del" :: r) w).2 = true.

Lemma ip_rule_del_spec {W} `{RuleTable W} r (w : W) :
  rules (ip_rule_del ("del" :: r) w) = (rules w ∖ {[r]}) ∪ (not_deleted r w ∩ rules w).
Proof.
  unfold ip_rule_del, not_deleted. pose proof (rule_del_law r w) as Hl.
  destruct (ip_rule ("del" :: r) w) as [w' res]. cbn [fst snd]. rewrite Hl. destruct (cmd_ok res); [set_solver|].
  apply set_eq. intros x. destruct (decide (x = r)); set_solver.
Qed.

Lemma two_deletions (f r : list string) (l x1 x2 : gset (list string)) :
  f ∉ l → r ∉ l → f ≠ r → (x1 = ∅ ∨ x1 = {[f]}) → (x2 = ∅ ∨ x2 = {[r]}) →
  let l0 := {[f]} ∪ ({[r]} ∪ l) in
  let l1 := (l0 ∖ {[f]}) ∪ (x1 ∩ l0) in
  (l1 ∖ {[r]}) ∪ (x2 ∩ l1) = x1 ∪ x2 ∪ l.
Proof. intros ? ? ? [->| ->] [->| ->]; set_solver. Qed.

Lemma not_deleted_cases {W} `{IpRule W} r (w : W) : not_deleted r w = ∅ ∨ not_deleted r w = {[r]}.
Proof. unfold not_deleted. by destruct (cmd_ok _); [left|right]. Qed.

(** Taking the two rules back from a list that has both. *)
Lemma bypass_teardown_rules {W} `{RuleTable W} (b : RouteBypass) (l : gset (list string)) (v : W) :
  installed b = true → fwmark_rule ∉ l → suppress_rule ∉ l → rules v = {[fwmark_rule]} ∪ ({[suppress_rule]} ∪ l) →
  rules (bypass_teardown b v) = bypass_left b v ∪ l ∧ (rule_deletes W → bypass_left b v = ∅).
Proof.
  intros Hb Hf Hs Hv. unfold bypass_teardown, bypass_left. rewrite Hb. split.
  - rewrite !ip_rule_del_spec, Hv. apply two_deletions; [done|done|done|apply not_deleted_cases..].
  - intros Hd. assert (Hd' : ∀ r w, r ∈ rules w → not_deleted r w = ∅).
    { intros r w Hr. unfold not_deleted. by rewrite (Hd r w Hr). }
    rewrite (Hd' fwmark_rule v) by (rewrite Hv; set_solver). rewrite Hd'; [set_solver|].
    rewrite ip_rule_del_spec, Hv. assert (fwmark_rule ≠ suppress_rule) by done. set_solver.
Qed.

Lemma bypass_left_two {W} `{IpRule W} (b : RouteBypass) (w : W) :
  bypass_left b w ⊆ {[fwmark_rule]} ∪ {[suppress_rule]}.
Proof. unfold bypass_left, not_deleted. destruct (installed b); repeat destruct (cmd_ok _); set_solver. Qed.

Lemma ip_rule_add_spec {W} `{RuleTable W} r (w : W) :
  let '(w', res) := ip_rule_add ("add" :: r) w in
  rules w' = (if is_ok res then {[r]} ∪ rules w else rules w).
Proof.
  unfold ip_rule_add, m_bind, m_map_err. pose proof (rule_add_law r w) as Hl.
  destruct (ip_rule ("add" :: r) w) as [w' [[ok err]|e]]; cbn [map_err]; [|exact Hl].
  destruct ok; cbn [negb andb m_ret is_ok]; [by destruct Hl|]. destruct Hl as [Hs He].
  destruct (contains err "File exists"); cbn; [|done]. rewrite Hs.
  specialize (He eq_refl). apply set_eq. intros x. rewrite elem_of_union, elem_of_singleton.
  split; [by right|intros [->|?]; done].
Qed.

(** The rules, case by case. *)
Lemma bypass_rules_spec {W} `{RuleTable W} i full (w : W) :
  let '(w', res) := bypass_setup i full w in
  match res with
  | Ok b =>
      rules w' = (if full then {[fwmark_rule]} ∪ ({[suppress_rule]} ∪ rules w) else rules w) ∧
      (fwmark_rule ∉ rules w → suppress_rule ∉ rules w → ∀ v, rules v = rules w' →
       rules (bypass_teardown b v) = bypass_left b v ∪ rules w ∧ (rule_deletes W → bypass_left b v = ∅))
  | Err _ =>
      full = true ∧
      rules w' = (if is_ok (ip_rule_add ("add" :: fwmark_rule) w).2
                  then {[fwmark_rule]} ∪ rules w else rules w)
  end.
Proof.
  unfold bypass_setup. destruct full; cbn [negb].
  2:{ cbn. split; [done|]. intros _ _ v ->. split; [|done]. set_solver. }
  unfold m_bind. pose proof (ip_rule_add_spec fwmark_rule w) as H1.
  destruct (ip_rule_add ("add" :: fwmark_rule) w) as [w1 [[]|e1]]; cbn [is_ok snd] in *; [|done].
  pose proof (ip_rule_add_spec suppress_rule w1) as H2.
  destruct (ip_rule_add ("add" :: suppress_rule) w1) as [w2 [[]|e2]]; cbn [is_ok snd m_ret] in *;
    [|by rewrite H2, H1].
  rewrite H1, union_both in H2. split; [exact H2|]. intros Hf Hs v Hv.
  apply bypass_teardown_rules; [done..|congruence].
Qed.

(** The bypass rules come and go together: in split mode nothing is
    installed or removed; in full-tunnel mode a successful setup leaves both
    rules in the system's list and its teardown removes both but for those whose
    deletion fails, so that a list that had neither is restored when none does;
    a setup that fails leaves the list as it
    was or, when only the second rule was refused, with the first rule and no
    handle to remove it with. *)
Theorem bypass_rules {W} `{RuleTable W} i full (w : W) :
  let '(w', res) := bypass_setup i full w in
  match res with
  | Ok b =>
      rules w' = (if full then {[fwmark_rule]} ∪ ({[suppress_rule]} ∪ rules w) else rules w) ∧
      (fwmark_rule ∉ rules w → suppress_rule ∉ rules w → ∀ v, rules v = rules w' →
       rules (bypass_teardown b v) = bypass_left b v ∪ rules w ∧ (rule_deletes W → bypass_left b v = ∅))
  | Err _ =>
      full = true ∧
      rules w' = (if is_ok (ip_rule_add ("add" :: fwmark_rule) w).2
                  then {[fwmark_rule]} ∪ rules w else rules w)
  end.
Proof. apply bypass_rules_spec. Qed.

Module RuleSet.
Definition run (args : list string) (w : gset (list string)) :
    gset (list string) * result io_error (bool * string) :=
  match args with
  | verb :: r =>
      if decide (verb = "add") then
        if decide (r ∈ w) then (w, Ok (false, "RTNETLINK answers: File exists"))
        else ({[r]} ∪ w, Ok (true, ""))
      else if decide (verb = "del") then (w ∖ {[r]}, Ok (true, ""))
      else (w, Ok (false, "unknown command"))
  | [] => (w, Ok (false, "no command"))
  end.
#[global] Instance ip : IpRule (gset (list string)) := run.
Lemma add_law r w :
  let '(w', res) := run ("add" :: r) w in
  match res with
  | Ok (true, _) => r ∉ w ∧ w' = {[r]} ∪ w
  | Ok (false, err) => w' = w ∧ (contains err "File exists" = true → r ∈ w)
  | Err _ => w' = w
  end.
Proof. cbn. by destruct (decide (r ∈ w)). Qed.
Lemma del_law r w : let '(w', res) := run ("del" :: r) w in w' = (if cmd_ok res then w ∖ {[r]} else w).
Proof. done. Qed.
#[global] Instance laws : RuleTable (gset (list string)) := {
  rules w := w; rule_add_law := add_law; rule_del_law := del_law;
}.
End RuleSet.

Lemma bypass_rules_witness :
  ∃ b, (bypass_setup en0 true ∅).2 = Ok b ∧
    (bypass_setup en0 true ∅).1 = {[fwmark_rule]} ∪ ({[suppress_rule]} ∪ ∅).
Proof.
  pose proof (bypass_rules en0 true (∅ : gset (list string))) as Hr.
  assert (Hok : is_ok (bypass_setup en0 true (∅ : gset (list string))).2 = true)
    by (vm_compute; reflexivity).
  destruct (bypass_setup en0 true ∅) as [w' [b|e]]; [|discriminate Hok].
  exists b. split; [reflexivity|]. exact (proj1 Hr).
Defined.

End Outbound.
