(* ===== verification/Platforms.v ===== *)
(** * The platforms
    ([outbound/src/bypass.rs], [bypass/macos.rs], [bypass/windows.rs],
    [bypass/unsupported.rs], the [cfg(target_os)] branches of
    [outbound/src/dialer.rs] and [tunnel/src/session.rs])

    What the code does on the systems that are not Linux, and the contract
    that the trait [RouteBypassT] states for all of them: a class, with one
    instance per platform, and its laws, which each instance discharges.  The
    rest of the library is about the Linux instances. *)

From S2P Require Import Prelude RustStr Net Interface Dialer DnsConfig Outbound.
Import Interface Dialer Outbound.

Module Platforms.

(** The values of [target_os] that the code tells apart. *)
Inductive Platform : Type := MacOs | Linux | Windows | OtherOs.

(** ** The route bypass *)

(** The trait: [E] is its [Error], [H] the handle [Self]. *)
(* @outbound/src/bypass.rs:46-60 RouteBypassT *)
Class RouteBypassT (W E H : Type) : Type := {
  bt_setup : OutboundInterface → bool → M W E H;
  bt_teardown : H → M W E unit;
}.

(** *** macOS: a scoped default route *)

(* @outbound/src/bypass/macos.rs:20-27 Error *)
Inductive MacError : Type :=
  | AddScopedDefault (interface stderr : string)
  | RouteCommand (source : io_error).

(* @outbound/src/bypass/macos.rs:33-37 RouteBypass *)
Record MacBypass : Type := {
  mb_interface_name : string; mb_gateway_v4 : option IpAddr; mb_gateway_v6 : option IpAddr;
}.

(** Running [route ARGS]: whether it succeeded, and its standard error. *)
Class RouteCmd (W : Type) : Type := route_cmd : list string → M W io_error (bool * string).

(** [IpAddr::to_string]. *)
Definition show_ip (i : IpAddr) : string :=
  match i with V4 a => show_ipv4 a | V6 a => DnsConfig.show_ipv6 a end.

Definition route_args (verb iface : string) (gateway : IpAddr) (ipv6 : bool) : list string :=
  verb :: (if ipv6 then ["-inet6"] else []) ++ ["-ifscope"; iface; "default"; show_ip gateway].

Section mac.
Context {W : Type} `{RouteCmd W}.

(* @outbound/src/bypass/macos.rs:103-142 add_scoped_default *)
Definition add_scoped_default (iface : string) (gateway : IpAddr) (ipv6 : bool) : M W MacError unit :=
  let! out := m_map_err RouteCommand (route_cmd (route_args "add" iface gateway ipv6)) in
  let '(success, stderr) := out : bool * string in
  if negb success && negb (contains stderr "File exists")
  then m_fail (AddScopedDefault iface stderr) else m_ret tt.

(** A failed removal is only logged. *)
(* @outbound/src/bypass/macos.rs:144-170 remove_scoped_default *)
Definition remove_scoped_default (iface : string) (gateway : IpAddr) (ipv6 : bool) (w : W) : W :=
  (route_cmd (route_args "delete" iface gateway ipv6) w).1.

Definition add_if_some (iface : string) (g : option IpAddr) (ipv6 : bool) : M W MacError unit :=
  match g with Some gw => add_scoped_default iface gw ipv6 | None => m_ret tt end.
(* @outbound/src/bypass/macos.rs:43-82 RouteBypass::setup *)
Definition mac_setup (i : OutboundInterface) (full_tunnel : bool) : M W MacError MacBypass :=
  if negb full_tunnel then
    m_ret {| mb_interface_name := name i; mb_gateway_v4 := None; mb_gateway_v6 := None |}
  else
    do! add_if_some (name i) (gateway_v4 i) false in
    do! add_if_some (name i) (gateway_v6 i) true in
    m_ret {| mb_interface_name := name i; mb_gateway_v4 := gateway_v4 i; mb_gateway_v6 := gateway_v6 i |}.

Definition remove_if_some (iface : string) (g : option IpAddr) (ipv6 : bool) (w : W) : W :=
  match g with Some gw => remove_scoped_default iface gw ipv6 w | None => w end.
(* @outbound/src/bypass/macos.rs:84-96 RouteBypass::teardown *)
Definition mac_teardown (b : MacBypass) : M W MacError unit := λ w,
  (remove_if_some (mb_interface_name b) (mb_gateway_v6 b) true
     (remove_if_some (mb_interface_name b) (mb_gateway_v4 b) false w), Ok tt).

End mac.

(** *** Windows and the rest *)

(** [Infallible], and the unit structs [RouteBypass] and [Error]. *)
Inductive WinBypass : Type := TheWinBypass.
Inductive NoBypass : Type := TheNoBypass.
(* @outbound/src/bypass/unsupported.rs:7-9 Error *)
Inductive UnsupportedError : Type := BypassUnsupported.

(* @outbound/src/bypass/windows.rs:16-18 RouteBypass::setup *)
Definition win_setup {W} (i : OutboundInterface) (full_tunnel : bool) : M W Empty_set WinBypass :=
  m_ret TheWinBypass.
(* @outbound/src/bypass/windows.rs:20-22 RouteBypass::teardown *)
Definition win_teardown {W} (b : WinBypass) : M W Empty_set unit := m_ret tt.

(* @outbound/src/bypass/unsupported.rs:17-19 RouteBypass::setup *)
Definition unsupported_setup {W} (i : OutboundInterface) (full_tunnel : bool) :
    M W UnsupportedError NoBypass := m_fail BypassUnsupported.
(* @outbound/src/bypass/unsupported.rs:21-23 RouteBypass::teardown *)
Definition unsupported_teardown {W} (b : NoBypass) : M W UnsupportedError unit := m_ret tt.

#[export] Instance mac_bypass {W} `{RouteCmd W} : RouteBypassT W MacError MacBypass :=
  { bt_setup := mac_setup; bt_teardown := mac_teardown }.
#[export] Instance linux_bypass {W} `{IpRule W} : RouteBypassT W BypassError RouteBypass :=
  { bt_setup := bypass_setup; bt_teardown b w := (bypass_teardown b w, Ok tt) }.
#[export] Instance win_bypass {W} : RouteBypassT W Empty_set WinBypass :=
  { bt_setup := win_setup; bt_teardown := win_teardown }.
#[export] Instance no_bypass {W} : RouteBypassT W UnsupportedError NoBypass :=
  { bt_setup := unsupported_setup; bt_teardown := unsupported_teardown }.

(** The module the build selects. *)
(* @outbound/src/bypass.rs:24-42 imp *)
Definition imp_error (p : Platform) : Type :=
  match p with MacOs => MacError | Linux => BypassError | Windows => Empty_set | OtherOs => UnsupportedError end.
Definition imp_handle (p : Platform) : Type :=
  match p with MacOs => MacBypass | Linux => RouteBypass | Windows => WinBypass | OtherOs => NoBypass end.
#[export] Instance imp {W} `{RouteCmd W} `{IpRule W} (p : Platform) : RouteBypassT W (imp_error p) (imp_handle p) :=
  match p with MacOs => mac_bypass | Linux => linux_bypass | Windows => win_bypass | OtherOs => no_bypass end.

(* @outbound/src/bypass.rs:67-69 RouteBypass *)
Record PlatformBypass (p : Platform) : Type := { bp_inner : imp_handle p }.
Arguments bp_inner {p} _.

Section wrapper.
Context {W : Type} `{RouteCmd W} `{IpRule W} (p : Platform).

(* @outbound/src/bypass.rs:74-77 RouteBypass::setup *)
Definition platform_setup (i : OutboundInterface) (full_tunnel : bool) :
    M W (imp_error p) (PlatformBypass p) :=
  let! inner := bt_setup i full_tunnel in m_ret {| bp_inner := inner |}.
(* @outbound/src/bypass.rs:80-82 RouteBypass::teardown *)
Definition platform_teardown (b : PlatformBypass p) : M W (imp_error p) unit := bt_teardown (bp_inner b).

End wrapper.

(** ** Sockets *)

(* @outbound/src/dialer.rs:344-345 IP_UNICAST_IF *)
Definition IP_UNICAST_IF : Z := 31.
Definition IPV6_UNICAST_IF : Z := 31.

Inductive SockLevel : Type := IPPROTO_IP | IPPROTO_IPV6.
(** Windows' [setsockopt]: socket, level, option and the bytes of its value. *)
Class WinSock (W : Type) : Type := setsockopt : Z → SockLevel → Z → list Z → M W io_error unit.

(** [u32::to_be_bytes] and [to_le_bytes]; [to_ne_bytes] is one of them. *)
Definition u32_le_bytes (n : Z) : list Z :=
  [n mod 256; (n / 256) mod 256; (n / 65536) mod 256; (n / 16777216) mod 256].
Definition u32_be_bytes (n : Z) : list Z := rev (u32_le_bytes n).
Inductive Endian : Type := LittleEndian | BigEndian.
Definition u32_ne_bytes (e : Endian) (n : Z) : list Z :=
  match e with LittleEndian => u32_le_bytes n | BigEndian => u32_be_bytes n end.

Section dialer.
Context {W : Type} `{Sockets W} `{WinSock W} (endian : Endian).

(* @outbound/src/dialer.rs:337-387 bind_socket_to_interface_inner *)
Definition win_bind_socket (s : Z) (f : SocketFamily) (i : OutboundInterface) : M W DialerError unit :=
  m_map_err (InterfaceBind (name i))
    (match f with
     | FamV4 => setsockopt s IPPROTO_IP IP_UNICAST_IF (u32_be_bytes (index i))
     | FamV6 => setsockopt s IPPROTO_IPV6 IPV6_UNICAST_IF (u32_ne_bytes endian (index i))
     end).

(** Linux and macOS share the code but for the mark. *)
(* @outbound/src/dialer.rs:306-335 bind_socket_to_interface_inner *)
Definition mac_bind_socket (s : Z) (f : SocketFamily) (i : OutboundInterface) : M W DialerError unit :=
  if index i =? 0 then
    m_fail (InterfaceBind (name i)
      (IoError InvalidInput ("interface `" +:+ name i +:+ "` has no OS index")))
  else m_map_err (InterfaceBind (name i)) (sys (EBindDevice s f (index i))).

(* @outbound/src/dialer.rs:389-397 bind_socket_to_interface_inner *)
Definition unsupported_bind_socket (s : Z) (f : SocketFamily) (i : OutboundInterface) :
    M W DialerError unit := m_fail (Unsupported (name i)).

Definition bind_socket_on (p : Platform) (s : Z) (f : SocketFamily) (i : OutboundInterface) :
    M W DialerError unit :=
  match p with
  | Linux => bind_socket_to_interface_inner s f i
  | MacOs => mac_bind_socket s f i
  | Windows => win_bind_socket s f i
  | OtherOs => unsupported_bind_socket s f i
  end.

(* @outbound/src/dialer.rs:399-407 is_bind_retry *)
Definition is_bind_retry_on (p : Platform) (e : DialerError) : bool :=
  match e with
  | SocketBind _ source =>
      bool_decide (io_error_kind source = AddrInUse)
      || (match p with Windows => true | _ => false end && bool_decide (io_error_kind source = PermissionDenied))
  | _ => false
  end.

End dialer.

(** ** The name of the TUN device *)

(* @tunnel/src/session.rs:655-661 default_interface_name *)
Definition default_interface_name_on (p : Platform) : string :=
  match p with MacOs => "utun" | _ => "wg0" end.

(** The name the device is built with ([None]: the system picks one), and
    what the session makes of the name it got: an error, or the name its
    configuration and its routes use from then on. *)
Definition os_names (p : Platform) (requested : string) : bool :=
  match p with MacOs => bool_decide (requested = "utun") | _ => false end.
(* @tunnel/src/session.rs:598-600 TunnelSession::open_tun *)
Definition builder_name (p : Platform) (requested : string) : option string :=
  if os_names p requested then None else Some requested.
(* @tunnel/src/session.rs:608-626 TunnelSession::open_tun *)
Definition accept_tun_name (p : Platform) (requested actual : string) : result string string :=
  if bool_decide (actual = requested) then Ok actual
  else if negb (os_names p requested)
  then Err ("requested TUN interface `" +:+ requested +:+ "` but OS assigned `" +:+ actual +:+ "`")
  else Ok actual.

(** ** The contract of the bypass *)

(** What a platform keeps: without a full tunnel nothing is installed; a
    teardown does not fail; and it takes back what its setup installed, when
    none of it was there before ([bl_fresh]), but for the entries whose removal
    the system refuses ([bl_left]), of which there are none when it refuses to
    remove nothing that is there ([bl_obeys]). *)
Class BypassLaws (W E H T : Type) `{RouteBypassT W E H} `{!Union T, !Empty T} : Type := {
  bl_table : W → T;
  bl_fresh : OutboundInterface → W → Prop;
  bl_left : H → W → T;
  bl_obeys : Prop;
  bl_split i w : bl_table (bt_setup i false w).1 = bl_table w;
  bl_total h w : (bt_teardown h w).2 = Ok tt;
  bl_round i full w w' h v :
    bt_setup i full w = (w', Ok h) → bl_fresh i w → bl_table v = bl_table w' →
    bl_table (bt_teardown h v).1 = bl_left h v ∪ bl_table w ∧ (bl_obeys → bl_left h v = ∅);
}.

(** The scoped default routes of macOS, one for an interface and a family:
    one that is added was not there, "File exists" says that there is one (by
    whatever gateway), a route that is deleted by its own gateway is gone when
    the command succeeds, and a command that fails changes nothing. *)
Class ScopedRoutes (W : Type) `{RouteCmd W} : Type := {
  scoped : W → gmap (string * bool) string;
  scoped_add iface gw v6 w :
    let '(w', res) := route_cmd (route_args "add" iface gw v6) w in
    match res with
    | Ok (true, _) => scoped w !! (iface, v6) = None ∧ scoped w' = <[(iface, v6) := show_ip gw]> (scoped w)
    | Ok (false, err) =>
        scoped w' = scoped w ∧ (contains err "File exists" = true → is_Some (scoped w !! (iface, v6)))
    | Err _ => scoped w' = scoped w
    end;
  scoped_delete iface gw v6 w :
    scoped w !! (iface, v6) = Some (show_ip gw) →
    let '(w', res) := route_cmd (route_args "delete" iface gw v6) w in
    scoped w' = (if cmd_ok res then delete (iface, v6) (scoped w) else scoped w);
}.

(** The route by [g], if there is one and the command that is to delete it from
    [w] fails. *)
Definition kept {W} `{RouteCmd W} (iface : string) (g : option IpAddr) (v6 : bool) (w : W) :
    gmap (string * bool) string :=
  match g with
  | Some gw => if cmd_ok (route_cmd (route_args "delete" iface gw v6) w).2 then ∅ else {[(iface, v6) := show_ip gw]}
  | None => ∅
  end.
(** What a teardown from [w] leaves. *)
Definition mac_left {W} `{RouteCmd W} (b : MacBypass) (w : W) : gmap (string * bool) string :=
  kept (mb_interface_name b) (mb_gateway_v4 b) false w
  ∪ kept (mb_interface_name b) (mb_gateway_v6 b) true (remove_if_some (mb_interface_name b) (mb_gateway_v4 b) false w).
(** Deleting a route that is there works. *)
Definition scoped_deletes (W : Type) `{ScopedRoutes W} : Prop :=
  ∀ iface gw v6 (w : W), scoped w !! (iface, v6) = Some (show_ip gw) →
    cmd_ok (route_cmd (route_args "delete" iface gw v6) w).2 = true.

Section mac_facts.
Context {W : Type} `{ScopedRoutes W}.

Lemma add_if_some_spec iface g v6 (w : W) :
  let '(w', r) := add_if_some iface g v6 w in
  match g, r with
  | Some gw, Ok _ =>
      scoped w !! (iface, v6) = None ∧ scoped w' = <[(iface, v6) := show_ip gw]> (scoped w) ∨
      is_Some (scoped w !! (iface, v6)) ∧ scoped w' = scoped w
  | Some _, Err _ => scoped w' = scoped w
  | None, _ => scoped w' = scoped w ∧ r = Ok tt
  end.
Proof.
  destruct g as [gw|]; cbn [add_if_some]; [|done]. unfold add_scoped_default, m_bind, m_map_err.
  pose proof (scoped_add iface gw v6 w) as Hl.
  destruct (route_cmd _ w) as [w' [[[] err]|e]]; cbn [map_err negb andb]; [by left| |exact Hl].
  destruct Hl as [Hs He]. destruct (contains err "File exists"); cbn; [right; auto|done].
Qed.

(** Removing what is there: the rest is what it was, and the entry is what is
    kept. *)
Lemma remove_if_some_spec iface g v6 (w : W) :
  (∀ gw, g = Some gw → scoped w !! (iface, v6) = Some (show_ip gw)) →
  (g = None → scoped w !! (iface, v6) = None) →
  scoped (remove_if_some iface g v6 w) = kept iface g v6 w ∪ delete (iface, v6) (scoped w) ∧
  (scoped_deletes W → kept iface g v6 w = ∅).
Proof.
  intros Hg Hn. destruct g as [gw|]; cbn [remove_if_some kept].
  2:{ rewrite delete_id by auto. split; [by rewrite (left_id_L ∅ (∪))|done]. }
  specialize (Hg gw eq_refl). pose proof (scoped_delete iface gw v6 w Hg) as Hl. unfold remove_scoped_default.
  split.
  - destruct (route_cmd _ w) as [w' res]. cbn [fst snd]. rewrite Hl. destruct (cmd_ok res).
    + by rewrite (left_id_L ∅ (∪)).
    + rewrite <- insert_union_singleton_l. by rewrite insert_delete_id.
  - intros Hd. by rewrite (Hd _ _ _ _ Hg).
Qed.

(** The interface has no scoped default route. *)
Definition mac_fresh (i : OutboundInterface) (w : W) : Prop :=
  ∀ v6, scoped w !! (name i, v6) = None.

(** A setup on a fresh interface adds exactly the routes of its gateways. *)
Lemma mac_setup_adds i (w w' : W) h :
  mac_setup i true w = (w', Ok h) → mac_fresh i w →
  h = {| mb_interface_name := name i; mb_gateway_v4 := gateway_v4 i; mb_gateway_v6 := gateway_v6 i |} ∧
  scoped w' !! (name i, false) = show_ip <$> gateway_v4 i ∧
  scoped w' !! (name i, true) = show_ip <$> gateway_v6 i ∧
  delete (name i, true) (delete (name i, false) (scoped w')) = scoped w.
Proof.
  intros Hs Hf. unfold mac_setup in Hs. cbn [negb] in Hs.
  apply m_bind_ok in Hs as (w1 & [] & H1' & Hs). apply m_bind_ok in Hs as (w2 & [] & H2' & Hs).
  injection Hs as <- <-. split; [done|].
  pose proof (add_if_some_spec (name i) (gateway_v4 i) false w) as A1. rewrite H1' in A1.
  pose proof (add_if_some_spec (name i) (gateway_v6 i) true w1) as A2. rewrite H2' in A2.
  assert (E1 : scoped w1 = match gateway_v4 i with Some g => <[(name i, false) := show_ip g]> (scoped w) | None => scoped w end).
  { destruct (gateway_v4 i); [|tauto]. destruct A1 as [[_ ?]|[[x Hx] _]]; [done|]. by rewrite Hf in Hx. }
  assert (Hf1 : scoped w1 !! (name i, true) = None).
  { rewrite E1. destruct (gateway_v4 i); [rewrite lookup_insert_ne by congruence|]; apply Hf. }
  assert (E2 : scoped w2 = match gateway_v6 i with Some g => <[(name i, true) := show_ip g]> (scoped w1) | None => scoped w1 end).
  { destruct (gateway_v6 i); [|tauto]. destruct A2 as [[_ ?]|[[x Hx] _]]; [done|]. by rewrite Hf1 in Hx. }
  rewrite E2, E1. destruct (gateway_v4 i), (gateway_v6 i); cbn [fmap option_fmap option_map];
    repeat (rewrite lookup_insert_eq || rewrite lookup_insert_ne by congruence); rewrite ?Hf;
    do 2 (split; [done|]); apply map_eq; intros k;
    destruct (decide (k = (name i, true))) as [->|]; [by rewrite lookup_delete_eq, Hf| |by rewrite lookup_delete_eq, Hf|
      |by rewrite lookup_delete_eq, Hf| |by rewrite lookup_delete_eq, Hf|];
    rewrite lookup_delete_ne by done; destruct (decide (k = (name i, false))) as [->|];
    rewrite ?lookup_delete_eq, ?Hf, ?lookup_delete_ne, ?lookup_insert_ne by done; done.
Qed.

Lemma mac_round i full (w w' : W) h v :
  mac_setup i full w = (w', Ok h) → mac_fresh i w → scoped v = scoped w' →
  scoped (mac_teardown h v).1 = mac_left h v ∪ scoped w ∧ (scoped_deletes W → mac_left h v = ∅).
Proof.
  intros Hs Hf Hv. destruct full.
  2:{ injection Hs as <- <-. split; [|done]. cbn. unfold mac_left. cbn. by rewrite Hv, !(left_id_L ∅ (∪)). }
  destruct (mac_setup_adds _ _ _ _ Hs Hf) as (-> & H4 & H6 & Hd). rewrite <- Hv in H4, H6, Hd.
  unfold mac_teardown, mac_left. cbn [fst mb_interface_name mb_gateway_v4 mb_gateway_v6].
  destruct (remove_if_some_spec (name i) (gateway_v4 i) false v) as [R1 C1].
  { intros gw Hg. by rewrite H4, Hg. } { intros Hg. by rewrite H4, Hg. }
  set (v1 := remove_if_some (name i) (gateway_v4 i) false v) in *.
  assert (K1 : kept (name i) (gateway_v4 i) false v !! (name i, true) = None).
  { unfold kept. destruct (gateway_v4 i); [|done]. destruct (cmd_ok _); [done|]. by rewrite lookup_singleton_ne. }
  assert (H6' : scoped v1 !! (name i, true) = show_ip <$> gateway_v6 i).
  { rewrite R1, lookup_union_r by done. by rewrite lookup_delete_ne. }
  destruct (remove_if_some_spec (name i) (gateway_v6 i) true v1) as [R2 C2].
  { intros gw Hg. by rewrite H6', Hg. } { intros Hg. by rewrite H6', Hg. }
  split; [|intros Ho; by rewrite (C1 Ho), (C2 Ho)].
  rewrite R2, R1, delete_union, (delete_id (kept _ _ _ v)), Hd by done. rewrite !(assoc_L (∪)). f_equal.
  apply map_union_comm. unfold kept. destruct (gateway_v6 i), (gateway_v4 i);
    repeat destruct (cmd_ok _); (apply map_disjoint_empty_l || apply map_disjoint_empty_r || idtac).
  by apply map_disjoint_singleton_l_2, lookup_singleton_ne.
Qed.

End mac_facts.

(** *** Every platform discharges it *)

#[export] Instance mac_laws {W} `{ScopedRoutes W} : BypassLaws W MacError MacBypass (gmap (string * bool) string).
Proof.
  refine {| bl_table := scoped; bl_fresh := mac_fresh; bl_left := mac_left; bl_obeys := scoped_deletes W |};
    [done|done|]. exact mac_round.
Defined.

(** Neither rule of the bypass is there. *)
Definition linux_fresh {W} `{RuleTable W} (i : OutboundInterface) (w : W) : Prop :=
  fwmark_rule ∉ rules w ∧ suppress_rule ∉ rules w.

#[export] Instance linux_laws {W} `{RuleTable W} : BypassLaws W BypassError RouteBypass (gset (list string)).
Proof.
  refine {| bl_table := rules; bl_fresh := linux_fresh; bl_left := bypass_left; bl_obeys := rule_deletes W |};
    [done|done|].
  intros i full w w' h v Hs [Hf Hr] Hv. pose proof (bypass_rules_spec i full w) as Hb.
  cbn [bt_setup linux_bypass] in Hs. rewrite Hs in Hb. cbn. by apply Hb.
Defined.

(** A platform without a table. *)
Definition none_union : Union unit := λ _ _, tt.
Definition none_empty : Empty unit := tt.
#[export] Instance win_laws {W} : @BypassLaws W Empty_set WinBypass unit win_bypass none_union none_empty.
Proof. by refine (@Build_BypassLaws _ _ _ _ _ _ _ (λ _, tt) (λ _ _, True) (λ _ _, tt) True _ _ _). Defined.
#[export] Instance no_laws {W} : @BypassLaws W UnsupportedError NoBypass unit no_bypass none_union none_empty.
Proof. by refine (@Build_BypassLaws _ _ _ _ _ _ _ (λ _, tt) (λ _ _, True) (λ _ _, tt) True _ _ _). Defined.

Definition imp_table (p : Platform) : Type :=
  match p with MacOs => gmap (string * bool) string | Linux => gset (list string) | _ => unit end.
#[export] Instance imp_union (p : Platform) : Union (imp_table p) :=
  match p return Union (imp_table p) with
  | MacOs => map_union | Linux => gset_union | _ => none_union end.
#[export] Instance imp_empty (p : Platform) : Empty (imp_table p) :=
  match p return Empty (imp_table p) with
  | MacOs => gmap_empty | Linux => gset_empty | _ => none_empty end.
#[export] Instance imp_laws {W} `{ScopedRoutes W} `{RuleTable W} (p : Platform) :
  BypassLaws W (imp_error p) (imp_handle p) (imp_table p) :=
  match p return BypassLaws W (imp_error p) (imp_handle p) (imp_table p) with MacOs => mac_laws | Linux => linux_laws | Windows => win_laws | OtherOs => no_laws end.

(** What the bypass of a platform changes, the state it expects, what a teardown
    leaves because the system refuses to remove it, and a system that refuses
    to remove nothing that is there. *)
Definition platform_table {W} `{ScopedRoutes W} `{RuleTable W} (p : Platform) : W → imp_table p :=
  bl_table (BypassLaws := imp_laws p).
Definition platform_fresh {W} `{ScopedRoutes W} `{RuleTable W} (p : Platform) : OutboundInterface → W → Prop :=
  bl_fresh (BypassLaws := imp_laws p).

Definition platform_left {W} `{ScopedRoutes W} `{RuleTable W} (p : Platform) (b : PlatformBypass p) (w : W) : imp_table p :=
  bl_left (BypassLaws := imp_laws p) (bp_inner b) w.
Definition platform_obeys (W : Type) `{ScopedRoutes W} `{RuleTable W} (p : Platform) : Prop :=
  bl_obeys (BypassLaws := imp_laws (W:=W) p).

(** ** Properties *)

(** C18: On every platform the bypass keeps its contract: without a full tunnel
    nothing is installed; a system that is not supported refuses, Windows
    never does; and the teardown cannot fail and, on a system that had no entry
    of the bypass before the setup, leaves the table as it was before it but
    for the entries whose removal the system refused: a command that fails is
    only logged, and its rule or route stays.  On a system that refuses to
    remove nothing that is there, nothing stays. *)
Theorem platform_bypass_contract {W} `{ScopedRoutes W} `{RuleTable W} (p : Platform) i full (w : W) :
  let '(w', r) := platform_setup p i full w in
  (full = false → platform_table p w' = platform_table p w) ∧
  match r with
  | Ok b =>
      p ≠ OtherOs ∧
      ∀ v, (platform_teardown p b v).2 = Ok tt ∧
           (platform_fresh p i w → platform_table p v = platform_table p w' →
            platform_table p (platform_teardown p b v).1 = platform_left p b v ∪ platform_table p w ∧
            (platform_obeys W p → platform_left p b v = ∅))
  | Err _ => p ≠ Windows
  end.
Proof.
  unfold platform_setup, platform_teardown, platform_left, m_bind.
  pose proof (bl_split (BypassLaws := imp_laws p) i w) as Hsplit.
  destruct (bt_setup i full w) as [w' [h|e]] eqn:Hs; cbn [m_ret bp_inner].
  - split; [intros ->; by rewrite Hs in Hsplit|]. split; [by intros ->|].
    intros v. split; [apply (bl_total (BypassLaws := imp_laws p))|]. by apply (bl_round (BypassLaws := imp_laws p)) with full.
  - split; [intros ->; by rewrite Hs in Hsplit|]. by intros ->.
Qed.

(** On macOS a setup that is refused leaves nothing behind, because an
    interface of the system has one gateway. *)
Theorem mac_failed_setup_clean {W} `{ScopedRoutes W} ni i full (w w' : W) e :
  from_interface ni = Ok i → mac_setup i full w = (w', Err e) → scoped w' = scoped w.
Proof.
  unfold from_interface. destruct (ni_index ni =? 0); [done|].
  destruct (ni_gateway ni) as [[a|a]|]; intros [= <-]; unfold mac_setup; cbn [gateway_v4 gateway_v6 name];
    (destruct full; cbn [negb]; [|done]); cbn [add_if_some]; unfold m_bind, m_ret; cbn [add_if_some].
  - pose proof (add_if_some_spec (ni_name ni) (Some (V4 a)) false w) as Ha. cbn [add_if_some] in Ha.
    destruct (add_scoped_default _ _ _ w) as [w1 [[]|e1]]; [done|]. by intros [= <- _].
  - pose proof (add_if_some_spec (ni_name ni) (Some (V6 a)) true w) as Ha. cbn [add_if_some] in Ha.
    destruct (add_scoped_default _ _ _ w) as [w1 [[]|e1]]; [done|]. by intros [= <- _].
  - done.
Qed.

(** A scoped default route that the system already had by the same gateway is
    taken for one's own: the setup works, and its teardown deletes it. *)
Theorem mac_teardown_removes_foreign {W} `{ScopedRoutes W} i g (w w' : W) h :
  gateway_v4 i = Some g → gateway_v6 i = None → scoped w !! (name i, false) = Some (show_ip g) →
  mac_setup i true w = (w', Ok h) → scoped_deletes W →
  scoped (mac_teardown h w').1 = delete (name i, false) (scoped w).
Proof.
  intros H4 H6 Hw. unfold mac_setup. cbn [negb]. rewrite H4, H6. intros Hs Hdel.
  apply m_bind_ok in Hs as (w1 & [] & Ha & Hs). apply m_bind_ok in Hs as (w2 & [] & [= <-] & [= <- <-]).
  pose proof (add_if_some_spec (name i) (Some g) false w) as Hsp. rewrite Ha in Hsp.
  destruct Hsp as [[Hn _]|[_ Hs1]]; [congruence|].
  unfold mac_teardown. cbn [fst mb_gateway_v4 mb_gateway_v6 mb_interface_name].
  change (remove_if_some (name i) None true) with (@id W). unfold id.
  destruct (remove_if_some_spec (name i) (Some g) false w1) as [R C]; [intros gw [= <-]; by rewrite Hs1|done|].
  by rewrite R, C, Hs1, (left_id_L ∅ (∪)).
Qed.

(** The value of bytes, most significant first. *)
Definition of_be_bytes (l : list Z) : Z := foldl (λ acc b, acc * 256 + b) 0 l.
Definition of_ne_bytes (e : Endian) (l : list Z) : Z :=
  match e with BigEndian => of_be_bytes l | LittleEndian => of_be_bytes (rev l) end.

(** The option values Windows is given are four bytes that read back as the
    interface's index, in network order for IPv4 and in the machine's own for
    IPv6; and they are never the zero that would unbind the socket, since an
    interface that was chosen has an index. *)
Theorem win_index_roundtrip ni i e :
  from_interface ni = Ok i → 0 ≤ ni_index ni < 2 ^ 32 →
  ∀ l, l = u32_be_bytes (index i) ∨ l = u32_ne_bytes e (index i) →
  length l = 4%nat ∧ Forall (λ b, 0 ≤ b < 256) l ∧ l ≠ [0; 0; 0; 0] ∧
  of_be_bytes (u32_be_bytes (index i)) = ni_index ni ∧
  of_ne_bytes e (u32_ne_bytes e (index i)) = ni_index ni.
Proof.
  unfold from_interface. destruct (Z.eqb_spec (ni_index ni) 0) as [|Hne]; [done|].
  destruct (match ni_gateway ni with None => _ | Some _ => _ end) as [g4 g6].
  intros [= <-] Hr l Hl. cbn [index] in *. set (n := ni_index ni) in *.
  assert (Hv : of_be_bytes (u32_be_bytes n) = n).
  { unfold u32_be_bytes, u32_le_bytes, of_be_bytes. cbn.
    pose proof (Z.div_mod n 256). pose proof (Z.div_mod (n / 256) 256).
    pose proof (Z.div_mod (n / 65536) 256).
    replace (n / 65536) with (n / 256 / 256) in * by (rewrite Z.div_div by lia; done).
    replace (n / 16777216) with (n / 256 / 256 / 256) by (rewrite !Z.div_div by lia; done).
    assert (0 ≤ n / 256 / 256 / 256 < 256).
    { rewrite !Z.div_div by lia. split; [apply Z.div_pos; lia|apply Z.div_lt_upper_bound; lia]. }
    rewrite (Z.mod_small (n / 256 / 256 / 256)) by done. lia. }
  assert (Hbytes : Forall (λ b, 0 ≤ b < 256) (u32_le_bytes n)).
  { unfold u32_le_bytes. repeat constructor; apply Z.mod_pos_bound; lia. }
  assert (Hbe : Forall (λ b, 0 ≤ b < 256) (u32_be_bytes n)) by (apply Forall_rev, Hbytes).
  assert (Hnz : u32_le_bytes n ≠ [0; 0; 0; 0] ∧ u32_be_bytes n ≠ [0; 0; 0; 0]).
  { split; intros Hz; apply Hne; rewrite <- Hv.
    - unfold u32_be_bytes. by rewrite Hz.
    - by rewrite Hz. }
  assert (Hn : of_ne_bytes e (u32_ne_bytes e n) = n) by (destruct e; exact Hv).
  destruct Hl as [->| ->]; [|destruct e]; cbn [u32_ne_bytes]; tauto.
Qed.

(** ** Witnesses *)

(** A machine with both tables: scoped defaults, as macOS's [route] keeps
    them, and policy rules. *)
Module TwoTables.
Definition World : Type := gmap (string * bool) string * gset (list string).
Definition route_op (verb iface gw : string) (v6 : bool) (w : World) : World * result io_error (bool * string) :=
  if bool_decide (verb = "add") then
    match w.1 !! (iface, v6) with
    | Some _ => (w, Ok (false, "route: writing to routing socket: File exists"))
    | None => ((<[(iface, v6) := gw]> w.1, w.2), Ok (true, ""))
    end
  else ((delete (iface, v6) w.1, w.2), Ok (true, "")).
#[global] Instance route : RouteCmd World := λ args w,
  match args with
  | [verb; _; iface; _; gw] => route_op verb iface gw false w
  | [verb; _; _; iface; _; gw] => route_op verb iface gw true w
  | _ => (w, Ok (false, "usage"))
  end.
#[global] Instance scoped_routes : ScopedRoutes World.
Proof.
  refine {| scoped w := w.1 |}.
  - intros iface gw [] w; cbn; unfold route_op; rewrite bool_decide_eq_true_2 by done;
      destruct (w.1 !! _) eqn:E; cbn; eauto.
  - by intros iface gw [] w Hk.
Defined.
#[global] Instance rule_cmd : IpRule World := λ args w, let '(l, r) := RuleSet.run args w.2 in ((w.1, l), r).
#[global] Instance rule_table : RuleTable World.
Proof.
  refine {| rules w := w.2 |}; [|done]. intros r w. pose proof (RuleSet.add_law r w.2) as Hl.
  unfold ip_rule, rule_cmd. destruct (RuleSet.run ("add" :: r) w.2) as [l res]. exact Hl.
Defined.
Definition wifi : OutboundInterface :=
  {| name := "en1"; index := 5; gateway_v4 := Some (V4 (v4 192 168 1 1)); gateway_v6 := None |}.
Definition free : World := (∅, ∅).
Definition taken : World := ({[("en1", false) := "192.168.1.1"]}, ∅).
End TwoTables.

Lemma platform_bypass_contract_witness :
  ∃ w b, platform_setup MacOs TwoTables.wifi true TwoTables.free = (w, Ok b) ∧
    platform_table MacOs (platform_teardown MacOs b w).1 = platform_table MacOs TwoTables.free.
Proof.
  pose proof (platform_bypass_contract MacOs TwoTables.wifi true TwoTables.free) as Hc.
  assert (Hok : is_ok (platform_setup MacOs TwoTables.wifi true TwoTables.free).2 = true)
    by (vm_compute; reflexivity).
  destruct (platform_setup MacOs _ _ _) as [w [b|e]]; [|discriminate Hok].
  exists w, b. split; [reflexivity|]. destruct Hc as (_ & _ & Hc).
  destruct (Hc w) as [_ Hr]. destruct Hr as [-> Hl]; [intros v6; reflexivity|reflexivity|].
  rewrite Hl; [change ((∅ : gmap (string * bool) string) ∪ TwoTables.free.1 = TwoTables.free.1); apply map_empty_union|]. intros iface gw [] v _; reflexivity.
Defined.

Lemma win_index_roundtrip_witness :
  of_be_bytes [0; 0; 1; 4] = 260 ∧ of_ne_bytes LittleEndian [4; 1; 0; 0] = 260.
Proof.
  apply (win_index_roundtrip
           {| ni_name := "eth"; ni_index := 260; ni_is_up := true; ni_is_loopback := false; ni_is_tun := false;
              ni_ipv4 := []; ni_ipv6 := []; ni_gateway := None |}
           {| name := "eth"; index := 260; gateway_v4 := None; gateway_v6 := None |} LittleEndian)
    with (l := [0; 0; 1; 4]); [reflexivity|cbn; lia|left; reflexivity].
Defined.

Lemma mac_teardown_removes_foreign_witness :
  ∃ h, mac_setup TwoTables.wifi true TwoTables.taken = (TwoTables.taken, Ok h) ∧
       scoped (mac_teardown h TwoTables.taken).1 = delete (name TwoTables.wifi, false) (scoped TwoTables.taken).
Proof.
  eexists. split; [reflexivity|].
  apply (mac_teardown_removes_foreign TwoTables.wifi (V4 (v4 192 168 1 1))); try reflexivity.
  intros iface gw [] v _; reflexivity.
Defined.

End Platforms.
