(* ===== verification/TunDns.v ===== *)
(** * DNS interception on the TUN device and the liveness probe
    ([tunnel/src/dns.rs])

    The device wrapper answers UDP/53 packets through the DNS resolver and
    hands everything else to WireGuard; the probe asks the VPN's resolvers
    through the tunnel.  Packet parsing and building (etherparse) are the
    interface [Etherparse]. *)

From S2P Require Import Prelude RustStr Net Interface Dialer DnsConfig DnsResolver.
Import Interface Dialer DnsConfig DnsResolver.

Module TunDns.

(* @tunnel/src/dns.rs:31-31 DNS_RESPONSE_HOP_LIMIT *)
Definition DNS_RESPONSE_HOP_LIMIT : Z := 64.

(* @tunnel/src/dns.rs:36-69 Error *)
Inductive TunError : Type :=
  | TunBindSocket (source : DialerError)
  | SendQuery (server : SocketAddr) (source : io_error)
  | RecvReply (server : SocketAddr) (source : io_error)
  | QueryTimeout (server : SocketAddr)
  | BuildResponse (source : string)
  | AddressFamilyMismatch
  | InvalidIpPacket (reason : string).

(** ** Packets ([etherparse]) *)

Inductive NetSlice : Type := NetIpv4 (src dst : Z) | NetIpv6 (src dst : Z) | NetArp.
Inductive TransportSlice : Type := UdpSlice (src dst : Z) (payload : list Z) | OtherTransport.

(** [slice_ip] is [SlicedPacket::from_ip]; [build_udp4] and [build_udp6] are
    the packet builder; [try_into_ip] is gotatun's check of an IP packet.  A
    built packet slices into what it was built from. *)
Class Etherparse : Type := {
  slice_ip : list Z → option (option NetSlice * option TransportSlice);
  build_udp4 : ∀ (src dst hops sport dport : Z) (payload : list Z), result string (list Z);
  build_udp6 : ∀ (src dst hops sport dport : Z) (payload : list Z), result string (list Z);
  try_into_ip : list Z → result string (list Z);
  slice_build4 src dst hops sp dp pl p :
    build_udp4 src dst hops sp dp pl = Ok p →
    slice_ip p = Some (Some (NetIpv4 src dst), Some (UdpSlice sp dp pl));
  slice_build6 src dst hops sp dp pl p :
    build_udp6 src dst hops sp dp pl = Ok p →
    slice_ip p = Some (Some (NetIpv6 src dst), Some (UdpSlice sp dp pl));
}.

(* @tunnel/src/dns.rs:285-292 DnsWireQuery *)
Record DnsWireQuery : Type := {
  source : IpAddr;
  destination : IpAddr;
  source_port : Z;
  destination_port : Z;
  payload : list Z;
}.

(* @tunnel/src/dns.rs:202-208 VpnTun *)
Record VpnTun : Type := { tun_name : string; tun_mtu : Z; resolver : option DnsResolver }.

Section packets.
Context `{Etherparse}.

(* @tunnel/src/dns.rs:295-323 DnsWireQuery::from_ip_packet *)
Definition from_ip_packet (packet : list Z) : option DnsWireQuery :=
  match slice_ip packet with
  | Some (net, Some (UdpSlice sport dport pl)) =>
      if negb (dport =? DNS_PORT) then None
      else match net with
      | Some (NetIpv4 s d) =>
          Some {| source := V4 s; destination := V4 d; source_port := sport;
                  destination_port := dport; payload := pl |}
      | Some (NetIpv6 s d) =>
          Some {| source := V6 s; destination := V6 d; source_port := sport;
                  destination_port := dport; payload := pl |}
      | Some NetArp | None => None
      end
  | _ => None
  end.

(* @tunnel/src/dns.rs:350-358 write_udp_packet *)
Definition write_udp_packet (builder : list Z → result string (list Z)) (payload : list Z) :
    result TunError (list Z) := map_err BuildResponse (builder payload).

(* @tunnel/src/dns.rs:325-347 DnsWireQuery::response_packet *)
Definition response_packet (q : DnsWireQuery) (dns_payload : list Z) : result TunError (list Z) :=
  match source q, destination q with
  | V4 s, V4 d =>
      write_udp_packet
        (build_udp4 d s DNS_RESPONSE_HOP_LIMIT (destination_port q) (source_port q)) dns_payload
  | V6 s, V6 d =>
      write_udp_packet
        (build_udp6 d s DNS_RESPONSE_HOP_LIMIT (destination_port q) (source_port q)) dns_payload
  | _, _ => Err AddressFamilyMismatch
  end.

(** The packets [recv] keeps for itself. *)
Definition hijacked (t : VpnTun) (packet : list Z) : option (DnsResolver * DnsWireQuery) :=
  r ← resolver t;
  q ← from_ip_packet packet;
  if bool_decide (destination q ∈ vpn_dns_ips r) then None else Some (r, q).

(** One call of [recv] on what the device yields: the resolver tasks it
    starts, its result ([None]: still waiting), and the reads left. *)
(* @tunnel/src/dns.rs:238-274 VpnTun::recv *)
Fixpoint recv (t : VpnTun) (reads : list (result io_error (list Z))) :
    list (DnsResolver * DnsWireQuery) * option (result (io_error + TunError) (list Z))
    * list (result io_error (list Z)) :=
  match reads with
  | [] => ([], None, [])
  | Err e :: reads' => ([], Some (Err (inl e)), reads')
  | Ok packet :: reads' =>
      match hijacked t packet with
      | Some task => let '(tasks, res, left_) := recv t reads' in (task :: tasks, res, left_)
      | None => ([], Some (map_err (λ reason, inr (InvalidIpPacket reason)) (try_into_ip packet)), reads')
      end
  end.

End packets.

(** ** The task of a hijacked query, and the liveness probe *)

Section effects.
Context `{Unicode} `{UrlParser} `{WildMatch} `{DnsCodec} `{Etherparse}.
Context {W : Type} `{Sockets W} `{Udp W} `{Scheduler W}.

(** [device_send] writes a packet to the TUN; its error is only logged. *)
Variable device_send : list Z → W → W.

(** The spawned block of [recv]. *)
Definition answer_task (task : DnsResolver * DnsWireQuery) (w : W) : W :=
  let '(r, q) := task in
  let '(w1, response) := resolve r (payload q) w in
  match response_packet q response with
  | Ok packet => device_send packet w1
  | Err _ => w1
  end.

(* @tunnel/src/dns.rs:90-93 UdpDnsTransport *)
Record UdpDnsTransport : Type := { dt_dialer : Dialer }.
(* @tunnel/src/dns.rs:96-99 UdpDnsTransport::new *)
Definition dns_transport_new (dialer : Dialer) : UdpDnsTransport := {| dt_dialer := dialer |}.
(** [&dyn DnsQueryTransport]. *)
(* @tunnel/src/dns.rs:84-87 DnsQueryTransport *)
Class DnsQueryTransport (T : Type) : Type := transport_query : T → SocketAddr → list Z → M W TunError (list Z).
(* @tunnel/src/dns.rs:104-117 UdpDnsTransport::query *)
#[export] Instance udp_dns_query : DnsQueryTransport UdpDnsTransport := λ t server request,
  let! socket := m_map_err TunBindSocket (bind_udp_to (dt_dialer t) server) in
  do! m_map_err (SendQuery server) (udp_send socket request server) in
  let! reply := m_map_err (RecvReply server) (udp_recv socket MAX_DNS_PACKET DNS_TIMEOUT) in
  m_lift (ok_or reply (QueryTimeout server)).

(** One round over the servers: whether one replied. *)
Fixpoint probe_round {T} `{DnsQueryTransport T} (routed : T) (query : list Z) (servers : list SocketAddr) (w : W) : W * bool :=
  match servers with
  | [] => (w, false)
  | s :: servers' =>
      match transport_query routed s query w with
      | (w1, Ok _) => (w1, true)
      | (w1, Err _) => probe_round routed query servers' w1
      end
  end.

(** The rounds of [ticks] ticks of the interval; [now] reads the clock. *)
(* @tunnel/src/dns.rs:161-182 run_probe *)
Fixpoint run_probe (now : W → Z) {T} `{DnsQueryTransport T} (routed : T) (query : list Z) (servers : list SocketAddr)
    (ticks : nat) (last_rx : option Z) (w : W) : W * option Z :=
  match ticks with
  | O => (w, last_rx)
  | S ticks' =>
      let '(w1, replied) := probe_round routed query servers w in
      run_probe now routed query servers ticks' (if replied then Some (now w1) else last_rx) w1
  end.

(* @tunnel/src/dns.rs:184-191 liveness_probe_query *)
Definition liveness_probe_query (name_from_ascii : string → option Name) (query_rest : Rest) : option (list Z) :=
  name ← name_from_ascii "localhost.";
  to_vec {| message_type := MtQuery; response_code := NoError; recursion_available := false;
            queries := [(name, RtA)]; answers := []; rest := query_rest |}.

(* @tunnel/src/dns.rs:140-152 LivenessProbe::last_rx_elapsed *)
Definition last_rx_elapsed (now : Z) (last_rx : option Z) : option duration :=
  (λ rx, Z.max (now - rx) 0) <$> last_rx.

End effects.

(** A packet that is a DNS query to be answered here. *)
Definition is_query `{Etherparse} (t : VpnTun) (p : list Z) : Prop :=
  ∃ r s d sp pl net,
    resolver t = Some r ∧ slice_ip p = Some (Some net, Some (UdpSlice sp 53 pl)) ∧
    ((net = NetIpv4 s d ∧ V4 d ∉ vpn_dns_ips r) ∨ (net = NetIpv6 s d ∧ V6 d ∉ vpn_dns_ips r)).

Lemma hijacked_iff `{Etherparse} t p : hijacked t p ≠ None ↔ is_query t p.
Proof.
  unfold is_query, hijacked, from_ip_packet. split.
  - destruct (resolver t) as [r|]; cbn; [|done].
    destruct (slice_ip p) as [[net [[sp dp pl|]|]]|]; cbn; try done.
    unfold DNS_PORT. destruct (Z.eqb_spec dp 53) as [->|Hne]; cbn; [|done].
    destruct net as [[s d|s d|]|]; cbn; try done; case_bool_decide as Hin; try done; intros _;
      eexists r, s, d, sp, pl, _; (split; [done|]); (split; [done|]); auto.
  - intros (r & s & d & sp & pl & net & -> & -> & Hnet). cbn.
    destruct Hnet as [[-> Hin]|[-> Hin]]; cbn; by rewrite bool_decide_eq_false_2.
Qed.

(** ** Properties *)

(** C34: Interception is exact: on any run of packets read from the device one
    [recv] answers, in order, exactly the packets before the first one it
    hands on; a packet is answered exactly when there is a resolver and it is
    an IPv4 or IPv6 UDP packet to port 53 whose destination is none of the
    VPN's resolvers; so the resolver's own queries to these always pass. *)
Theorem recv_intercepts `{Etherparse} t packets :
  let '(tasks, res, left_) := recv t (map Ok packets) in
  ∃ answered, Forall2 (λ p task, hijacked t p = Some task) answered tasks ∧
    Forall (is_query t) answered ∧
    match res with
    | None => packets = answered ∧ left_ = []
    | Some r =>
        ∃ p rest_, packets = answered ++ p :: rest_ ∧ left_ = map Ok rest_ ∧ ¬ is_query t p ∧
          r = map_err (λ reason, inr (InvalidIpPacket reason)) (try_into_ip p)
    end.
Proof.
  induction packets as [|p packets IH]; cbn [map recv].
  { exists []. by repeat constructor. }
  destruct (hijacked t p) as [task|] eqn:Hh.
  - destruct (recv t (map Ok packets)) as [[tasks res] left_].
    destruct IH as (answered & H2 & Hq & Hres). exists (p :: answered).
    split; [by constructor|]. split; [constructor; [apply hijacked_iff; congruence|done]|].
    destruct res as [r|].
    + destruct Hres as (p' & rest_ & -> & Hl & Hn & Hr). by exists p', rest_.
    + destruct Hres as [-> Hl]. done.
  - exists []. split; [constructor|]. split; [constructor|]. exists p, packets.
    split; [done|]. split; [done|]. split; [|done]. rewrite <- hijacked_iff. congruence.
Qed.

(** The packet written back for an intercepted query is the reply its
    sender waits for: an IP packet of the same family from the address and
    port it was sent to, to the address and port it came from, carrying the
    resolver's answer unchanged; and building it never fails on a family
    mismatch. *)
Theorem response_packet_returns `{Etherparse} packet q answer :
  from_ip_packet packet = Some q →
  match response_packet q answer with
  | Ok p =>
      (∃ s d sp, slice_ip p = Some (Some (NetIpv4 d s), Some (UdpSlice 53 sp answer)) ∧
         ∃ pl, slice_ip packet = Some (Some (NetIpv4 s d), Some (UdpSlice sp 53 pl))) ∨
      (∃ s d sp, slice_ip p = Some (Some (NetIpv6 d s), Some (UdpSlice 53 sp answer)) ∧
         ∃ pl, slice_ip packet = Some (Some (NetIpv6 s d), Some (UdpSlice sp 53 pl)))
  | Err e => ∃ reason, e = BuildResponse reason
  end.
Proof.
  unfold from_ip_packet. destruct (slice_ip packet) as [[net [[sp dp pl|]|]]|] eqn:Hs; try done.
  unfold DNS_PORT. destruct (Z.eqb_spec dp 53) as [->|]; [|done]. cbn [negb].
  destruct net as [[s d|s d|]|]; [| |done..]; intros [= <-]; cbn; unfold write_udp_packet.
  - destruct (build_udp4 _ _ _ _ _ _) as [p|reason] eqn:Hb; cbn; [|eauto].
    left. exists s, d, sp. split; [by apply slice_build4 in Hb|]. eauto.
  - destruct (build_udp6 _ _ _ _ _ _) as [p|reason] eqn:Hb; cbn; [|eauto].
    right. exists s, d, sp. split; [by apply slice_build6 in Hb|]. eauto.
Qed.

(** The liveness probe asks the servers it was given and nobody else, in their
    order, each at most once a round, and a round ends at the first that
    replies; the time of the last reply is that of the last round with one. *)
Theorem probe_contacts `{UdpLog W} d query servers (w : W) :
  ∃ cs, sent (probe_round (dns_transport_new d) query servers w).1 = sent w ++ cs ∧
    cs `sublist_of` map (pair query) servers.
Proof.
  revert w. induction servers as [|s servers IH]; intros w; cbn [probe_round map].
  { exists []. by rewrite app_nil_r. }
  assert (Hq : ∃ cs, sent (transport_query (dns_transport_new d) s query w).1 = sent w ++ cs ∧ cs `sublist_of` [(query, s)]).
  { unfold transport_query, udp_dns_query. cbn [dt_dialer dns_transport_new]. unfold m_bind at 1, m_map_err at 1.
    pose proof (quiet_bind_udp_to d s w) as Hb. destruct (bind_udp_to d s w) as [w1 [k|e]]; cbn [map_err fst] in *.
    2:{ exists []. rewrite Hb, app_nil_r. split; [done|]. apply sublist_nil_l. }
    unfold m_bind at 1, m_map_err at 1. pose proof (sent_udp_send k query s w1) as Hsend. rewrite Hb in Hsend.
    destruct (udp_send k query s w1) as [w2 [[]|e]]; cbn [map_err fst] in *; [|by exists [(query, s)]].
    exists [(query, s)]. split; [|done]. unfold m_bind, m_map_err.
    pose proof (sent_udp_recv k MAX_DNS_PACKET DNS_TIMEOUT w2) as Hrecv. rewrite Hsend in Hrecv.
    destruct (udp_recv k MAX_DNS_PACKET DNS_TIMEOUT w2) as [w3 [o|e]]; cbn [map_err fst m_lift] in *; exact Hrecv. }
  destruct Hq as (cs & Hc & Hs). destruct (transport_query _ s query w) as [w1 [reply|e]]; cbn [fst] in *.
  - exists cs. split; [exact Hc|]. etrans; [exact Hs|]. apply sublist_skip, sublist_nil_l.
  - destruct (IH w1) as (cs' & Hc' & Hs'). exists (cs ++ cs'). split; [by rewrite Hc', Hc, app_assoc|].
    by apply (sublist_app cs [(query, s)]).
Qed.

(** A packet format for the witness: family, source, destination, ports,
    payload. *)
Module Frames.
Definition build (family src dst hops sp dp : Z) (pl : list Z) : result string (list Z) :=
  Ok (family :: src :: dst :: sp :: dp :: pl).
Definition slice (p : list Z) : option (option NetSlice * option TransportSlice) :=
  match p with
  | 4 :: s :: d :: sp :: dp :: pl => Some (Some (NetIpv4 s d), Some (UdpSlice sp dp pl))
  | 6 :: s :: d :: sp :: dp :: pl => Some (Some (NetIpv6 s d), Some (UdpSlice sp dp pl))
  | _ => None
  end.
Lemma slice_build f src dst hops sp dp pl p : build f src dst hops sp dp pl = Ok p →
  slice p = slice (f :: src :: dst :: sp :: dp :: pl).
Proof. intros [= <-]. reflexivity. Qed.
#[global] Instance etherparse : Etherparse := {
  slice_ip := slice; build_udp4 := build 4; build_udp6 := build 6; try_into_ip p := Ok p;
  slice_build4 := slice_build 4; slice_build6 := slice_build 6;
}.
End Frames.

Lemma response_packet_returns_witness :
  ∃ s d sp, slice_ip [4; 9; 7; 53; 5000; 42] = Some (Some (NetIpv4 d s), Some (UdpSlice 53 sp [42])) ∧
    ∃ pl, slice_ip [4; 7; 9; 5000; 53; 1; 2] = Some (Some (NetIpv4 s d), Some (UdpSlice sp 53 pl)).
Proof.
  pose proof (response_packet_returns [4; 7; 9; 5000; 53; 1; 2]
    {| source := V4 7; destination := V4 9; source_port := 5000; destination_port := 53;
       payload := [1; 2] |} [42] eq_refl) as Hr. cbn in Hr.
  destruct Hr as [Hr|(s & d & sp & Hr & _)]; [exact Hr|discriminate Hr].
Defined.

End TunDns.
