(* ===== verification/VpnState.v ===== *)
(** * The VPN connection state ([core/src/state/vpn.rs], the VPN half of
    [daemon/src/state.rs], and the conversions around it)

    The runtime-agnostic [VpnState] with its transitions, the daemon's
    [VpnMachine] that owns it, its projection to the [Tunnel] message clients
    see, and the conversions between a connect RPC, a [VpnRequest] and the form
    it is persisted in. *)

From S2P Require Import Prelude RustStr.

(** ** Modes *)
Module Modes.

(* @core/src/vpn.rs:11-32 VpnConnectMode *)
Inductive VpnConnectMode : Type := Full | Split.

#[export] Instance VpnConnectMode_eq_dec : EqDecision VpnConnectMode.
Proof. solve_decision. Defined.

(** The derived [Display] ([to_string = ..]). *)
Definition mode_to_string (m : VpnConnectMode) : string :=
  match m with Full => "Full" | Split => "Split" end.
(** The derived [EnumString], ASCII case-insensitive over both spellings. *)
Definition mode_parse (s : string) : option VpnConnectMode :=
  if eq_ignore_ascii_case s "Full" || eq_ignore_ascii_case s "full" then Some Full
  else if eq_ignore_ascii_case s "Split" || eq_ignore_ascii_case s "split" then Some Split
  else None.
(** The derived [FromRepr]. *)
Definition mode_from_repr (z : Z) : option VpnConnectMode :=
  if z =? 0 then Some Full else if z =? 1 then Some Split else None.

(* @core/src/vpn.rs:79-82 VpnConnectMode::android_id *)
Definition android_id (m : VpnConnectMode) : Z := match m with Full => 0 | Split => 1 end.

(* @core/src/vpn.rs:84-87 VpnConnectMode::android_name *)
Definition android_name (m : VpnConnectMode) : string := mode_to_string m.

(* @api/src/models/vpn.rs:19-24 ProtocolMode *)
Inductive ProtocolMode : Type := Udp | FeilianTcp.

#[export] Instance ProtocolMode_eq_dec : EqDecision ProtocolMode.
Proof. solve_decision. Defined.

(** [mode as i32]. *)
Definition protocol_repr (p : ProtocolMode) : Z := match p with Udp => 0 | FeilianTcp => 1 end.

Lemma mode_parse_to_string m : mode_parse (mode_to_string m) = Some m.
Proof. destruct m; vm_compute; done. Qed.
End Modes.
Export Modes.

(** ** The messages of the RPC schema the state is projected to *)
Module Pb.

Inductive VpnMode : Type := ModeUnspecified | ModeFull | ModeSplit.
Inductive PbProtocolMode : Type := ProtocolUnspecified | ProtocolUdp | ProtocolTcp.
Inductive TunnelState : Type :=
  | StateUnspecified | StateDisconnected | StateConnecting | StateConfiguring
  | StateConnected | StateReconnecting | StateDisconnecting | StateFailed.

#[export] Instance VpnMode_eq_dec : EqDecision VpnMode.
Proof. solve_decision. Defined.
#[export] Instance PbProtocolMode_eq_dec : EqDecision PbProtocolMode.
Proof. solve_decision. Defined.
#[export] Instance TunnelState_eq_dec : EqDecision TunnelState.
Proof. solve_decision. Defined.

(** The wire numbers of the enums. *)
Definition pb_protocol_number (p : PbProtocolMode) : Z :=
  match p with ProtocolUnspecified => 0 | ProtocolUdp => 1 | ProtocolTcp => 2 end.

Record Tunnel : Type := {
  t_state : TunnelState;
  t_mode : VpnMode;
  t_protocol_mode : PbProtocolMode;
  t_dot_id : Z;
  t_dot_name : string;
  t_endpoint : string;
  t_assigned_ip : string;
  t_connected_at : option Z;
  t_last_handshake_at : option Z;
  t_reconnect_attempts : Z;
  t_error : string;
  t_outbound_interface : string;
}.

(** [pb::Tunnel::default()]. *)
Definition tunnel_default : Tunnel := {|
  t_state := StateUnspecified; t_mode := ModeUnspecified;
  t_protocol_mode := ProtocolUnspecified; t_dot_id := 0; t_dot_name := "";
  t_endpoint := ""; t_assigned_ip := ""; t_connected_at := None;
  t_last_handshake_at := None; t_reconnect_attempts := 0; t_error := "";
  t_outbound_interface := "" |}.

#[export] Instance Tunnel_eq_dec : EqDecision Tunnel.
Proof. solve_decision. Defined.

End Pb.
Export Pb.

(** ** [core::state::vpn] *)
Module Core.

(* @core/src/state/vpn.rs:13-27 VpnRequest *)
Record VpnRequest : Type := {
  mode : VpnConnectMode;
  location_id : option Z;   (* i32 *)
  otp : option string;
  reconnect : bool;
  protocol_mode : ProtocolMode;
}.

#[export] Instance VpnRequest_eq_dec : EqDecision VpnRequest.
Proof. solve_decision. Defined.

(* @core/src/state/vpn.rs:30-38 VpnRequest::default *)
Definition vpn_request_default : VpnRequest := {|
  mode := Full; location_id := None; otp := None; reconnect := true; protocol_mode := Udp |}.

(* @core/src/state/vpn.rs:41-50 ActiveTunnel *)
Record ActiveTunnel : Type := {
  dot_id : Z;               (* i32 *)
  dot_name : string;
  endpoint : string;
  assigned_ip : string;
  active_protocol_mode : ProtocolMode;
}.

#[export] Instance ActiveTunnel_eq_dec : EqDecision ActiveTunnel.
Proof. solve_decision. Defined.

(* @core/src/state/vpn.rs:52-78 VpnState *)
Inductive VpnState : Type :=
  | Disconnected
  | Connecting (request : VpnRequest)
  | Configuring (request : VpnRequest)
  | Connected (request : VpnRequest) (tunnel_info : ActiveTunnel)
  | Reconnecting (request : VpnRequest) (attempts : Z)
  | Failed (request : VpnRequest) (error : string) (attempts : Z)
  | Disconnecting (request : VpnRequest).

#[export] Instance VpnState_eq_dec : EqDecision VpnState.
Proof. solve_decision. Defined.

(* @core/src/state/vpn.rs:83-87 VpnState::can_connect *)
Definition can_connect (s : VpnState) : bool :=
  match s with Disconnected | Failed _ _ _ => true | _ => false end.

(* @core/src/state/vpn.rs:89-96 VpnState::attempts *)
Definition attempts (s : VpnState) : Z :=
  match s with Reconnecting _ a | Failed _ _ a => a | _ => 0 end.

(* @core/src/state/vpn.rs:98-110 VpnState::current_request *)
Definition current_request (s : VpnState) : option VpnRequest :=
  match s with
  | Connecting r | Configuring r | Connected r _ | Reconnecting r _ | Failed r _ _
  | Disconnecting r => Some r
  | Disconnected => None
  end.

(* @core/src/state/vpn.rs:166-177 VpnState::into_request *)
Definition into_request (s : VpnState) : VpnRequest :=
  match s with
  | Disconnected => vpn_request_default
  | Connecting r | Configuring r | Connected r _ | Reconnecting r _ | Failed r _ _
  | Disconnecting r => r
  end.

(* @core/src/state/vpn.rs:114-118 VpnState::into_connecting *)
Definition into_connecting (r : VpnRequest) : VpnState := Connecting r.

(* @core/src/state/vpn.rs:120-126 VpnState::into_configuring *)
Definition into_configuring (s : VpnState) : VpnState := Configuring (into_request s).

(* @core/src/state/vpn.rs:128-135 VpnState::into_connected *)
Definition into_connected (s : VpnState) (info : ActiveTunnel) : VpnState :=
  Connected (into_request s) info.

(* @core/src/state/vpn.rs:137-145 VpnState::into_reconnecting *)
Definition into_reconnecting (s : VpnState) : VpnState :=
  let attempts := u32_saturating_add (attempts s) 1 in
  Reconnecting (into_request s) attempts.

(* @core/src/state/vpn.rs:147-156 VpnState::into_failed *)
Definition into_failed (s : VpnState) (error : string) : VpnState :=
  let attempts := attempts s in
  Failed (into_request s) error attempts.

(* @core/src/state/vpn.rs:158-164 VpnState::into_disconnecting *)
Definition into_disconnecting (s : VpnState) : VpnState := Disconnecting (into_request s).

End Core.
Export Core.

(** ** Conversions between the RPC, the core and the persisted forms *)
Module Convert.

(* @daemon/src/state.rs:646-652 vpn_mode_to_proto *)
Definition vpn_mode_to_proto (m : VpnConnectMode) : VpnMode :=
  match m with Full => ModeFull | Split => ModeSplit end.

(* @daemon/src/state.rs:654-661 protocol_mode_to_proto *)
Definition protocol_mode_to_proto (p : ProtocolMode) : PbProtocolMode :=
  match p with Udp => ProtocolUdp | FeilianTcp => ProtocolTcp end.

(* @daemon/src/state.rs:685-694 protocol_mode_to_api *)
Definition protocol_mode_to_api (p : option PbProtocolMode) : ProtocolMode :=
  match p with
  | Some ProtocolTcp => FeilianTcp
  | Some ProtocolUdp | Some ProtocolUnspecified | None => Udp
  end.

(* @daemon/src/state.rs:663-683 vpn_request_from_proto *)
Definition vpn_request_from_proto (m : option VpnMode) (p : option PbProtocolMode)
    (loc : option Z) (code : option string) (reconn : bool) : VpnRequest := {|
  mode := match m with Some ModeSplit => Split | _ => Full end;
  location_id := opt_filter (λ id, 0 <? id) loc;
  otp := opt_filter (λ s, negb (str_is_empty s)) code;
  reconnect := reconn;
  protocol_mode := protocol_mode_to_api p |}.

(* @daemon/src/persist.rs:236-247 PersistedVpnRequest *)
Record PersistedVpnRequest : Type := {
  p_mode : string;
  p_location_id : option Z;
  p_protocol_mode : ProtocolMode;
  p_reconnect : bool;
}.

#[export] Instance PersistedVpnRequest_eq_dec : EqDecision PersistedVpnRequest.
Proof. solve_decision. Defined.

(** The request [maybe_auto_resume] rebuilds from its persisted form. *)
(* @daemon/src/daemon.rs:257-266 Daemon::maybe_auto_resume *)
Definition resume_request (p : PersistedVpnRequest) : VpnRequest := {|
  mode := default Full (mode_parse (p_mode p));
  location_id := p_location_id p;
  otp := None;
  reconnect := p_reconnect p;
  protocol_mode := p_protocol_mode p |}.

(** [DOT_PROTOCOL_UDP], [DOT_PROTOCOL_TCP], [DOT_PROTOCOL_DUAL]. *)
(* @daemon/src/daemon.rs:990-995 DOT_PROTOCOL_DUAL *)
Definition DOT_PROTOCOL_DUAL : Z := 2.
Definition DOT_PROTOCOL_UDP : Z := protocol_repr Udp.
Definition DOT_PROTOCOL_TCP : Z := protocol_repr FeilianTcp.

(* @daemon/src/daemon.rs:976-988 effective_transport *)
Definition effective_transport (dot_mode : option Z) (requested : ProtocolMode) : ProtocolMode :=
  match dot_mode with
  | Some m =>
      if m =? DOT_PROTOCOL_UDP then Udp
      else if m =? DOT_PROTOCOL_TCP then FeilianTcp else requested
  | None => requested
  end.

(* @daemon/src/daemon.rs:964-974 protocol_modes_from_dot *)
Definition protocol_modes_from_dot (m : option Z) : PbProtocolMode * list PbProtocolMode :=
  match m with
  | Some z =>
      if z =? DOT_PROTOCOL_TCP then (ProtocolTcp, [ProtocolTcp])
      else if z =? DOT_PROTOCOL_DUAL then (ProtocolUdp, [ProtocolUdp; ProtocolTcp])
      else (ProtocolUdp, [ProtocolUdp])
  | None => (ProtocolUdp, [ProtocolUdp])
  end.

(* @daemon/src/daemon.rs:997-1003 mode_from_dot *)
Definition mode_from_dot (m : option Z) : VpnMode :=
  match m ≫= mode_from_repr with
  | Some Full => ModeFull
  | Some Split => ModeSplit
  | None => ModeUnspecified
  end.

End Convert.
Export Convert.

(** ** [VpnMachine] *)
Module Machine.
Section machine.
(** The API client and the tunnel session the machine owns are opaque to it;
    a cancellation token is its identity. *)
Context {C S : Type}.

(* @daemon/src/state.rs:486-498 VpnMachine *)
Record VpnMachine : Type := {
  state : VpnState;
  api_client : C;
  tunnel_session : option S;
  cancel_token : nat;
}.

(* @daemon/src/state.rs:501-510 VpnMachine::new *)
Definition vpn_machine_new (client : C) (token : nat) : VpnMachine := {|
  state := Disconnected; api_client := client; tunnel_session := None; cancel_token := token |}.

(* @daemon/src/state.rs:514-518 VpnMachine::can_connect *)
Definition vm_can_connect (m : VpnMachine) : bool := can_connect (state m).

(* @daemon/src/state.rs:520-531 VpnMachine::current_persisted_request *)
Definition current_persisted_request (m : VpnMachine) : option PersistedVpnRequest :=
  (λ r, {| p_mode := mode_to_string (mode r); p_location_id := location_id r;
           p_protocol_mode := protocol_mode r; p_reconnect := reconnect r |})
  <$> current_request (state m).

(* @daemon/src/state.rs:572-576 VpnMachine::transition *)
Definition transition (f : VpnState → VpnState) (m : VpnMachine) : VpnMachine := {|
  state := f (state m); api_client := api_client m;
  tunnel_session := tunnel_session m; cancel_token := cancel_token m |}.

(** [token] is the identity of the [CancellationToken::new()] of the call. *)
(* @daemon/src/state.rs:535-539 VpnMachine::set_connecting *)
Definition set_connecting (r : VpnRequest) (token : nat) (m : VpnMachine) : VpnMachine := {|
  state := into_connecting r; api_client := api_client m;
  tunnel_session := tunnel_session m; cancel_token := token |}.

(* @daemon/src/state.rs:541-544 VpnMachine::set_configuring *)
Definition set_configuring : VpnMachine → VpnMachine := transition into_configuring.

(* @daemon/src/state.rs:546-549 VpnMachine::set_connected *)
Definition set_connected (info : ActiveTunnel) : VpnMachine → VpnMachine :=
  transition (λ s, into_connected s info).

(* @daemon/src/state.rs:551-554 VpnMachine::set_reconnecting *)
Definition set_reconnecting : VpnMachine → VpnMachine := transition into_reconnecting.

(* @daemon/src/state.rs:556-559 VpnMachine::set_failed *)
Definition set_failed (e : string) : VpnMachine → VpnMachine := transition (λ s, into_failed s e).

(* @daemon/src/state.rs:561-564 VpnMachine::set_disconnecting *)
Definition set_disconnecting : VpnMachine → VpnMachine := transition into_disconnecting.

(* @daemon/src/state.rs:566-570 VpnMachine::set_disconnected *)
Definition set_disconnected (m : VpnMachine) : VpnMachine := {|
  state := Disconnected; api_client := api_client m;
  tunnel_session := None; cancel_token := cancel_token m |}.

(** The fields every in-flight state fills in from its request. *)
Definition tunnel_of (st : TunnelState) (r : VpnRequest) (p : ProtocolMode) : Tunnel := {|
  t_state := st; t_mode := vpn_mode_to_proto (mode r);
  t_protocol_mode := protocol_mode_to_proto p; t_dot_id := 0; t_dot_name := "";
  t_endpoint := ""; t_assigned_ip := ""; t_connected_at := None;
  t_last_handshake_at := None; t_reconnect_attempts := 0; t_error := "";
  t_outbound_interface := "" |}.

(* @daemon/src/state.rs:580-643 VpnMachine::to_tunnel_proto *)
Definition state_to_tunnel_proto (s : VpnState) : Tunnel :=
  match s with
  | Disconnected => {|
      t_state := StateDisconnected; t_mode := ModeUnspecified;
      t_protocol_mode := ProtocolUnspecified; t_dot_id := 0; t_dot_name := "";
      t_endpoint := ""; t_assigned_ip := ""; t_connected_at := None;
      t_last_handshake_at := None; t_reconnect_attempts := 0; t_error := "";
      t_outbound_interface := "" |}
  | Connecting r => tunnel_of StateConnecting r (protocol_mode r)
  | Configuring r => tunnel_of StateConfiguring r (protocol_mode r)
  | Connected r info => {|
      t_state := StateConnected; t_mode := vpn_mode_to_proto (mode r);
      t_protocol_mode := protocol_mode_to_proto (active_protocol_mode info);
      t_dot_id := dot_id info; t_dot_name := dot_name info; t_endpoint := endpoint info;
      t_assigned_ip := assigned_ip info; t_connected_at := None;
      t_last_handshake_at := None; t_reconnect_attempts := 0; t_error := "";
      t_outbound_interface := "" |}
  | Reconnecting r a => {|
      t_state := StateReconnecting; t_mode := vpn_mode_to_proto (mode r);
      t_protocol_mode := protocol_mode_to_proto (protocol_mode r);
      t_dot_id := 0; t_dot_name := ""; t_endpoint := ""; t_assigned_ip := "";
      t_connected_at := None; t_last_handshake_at := None; t_reconnect_attempts := a;
      t_error := ""; t_outbound_interface := "" |}
  | Failed r e a => {|
      t_state := StateFailed; t_mode := vpn_mode_to_proto (mode r);
      t_protocol_mode := protocol_mode_to_proto (protocol_mode r);
      t_dot_id := 0; t_dot_name := ""; t_endpoint := ""; t_assigned_ip := "";
      t_connected_at := None; t_last_handshake_at := None; t_reconnect_attempts := a;
      t_error := e; t_outbound_interface := "" |}
  | Disconnecting r => tunnel_of StateDisconnecting r (protocol_mode r)
  end.
Definition to_tunnel_proto (m : VpnMachine) : Tunnel := state_to_tunnel_proto (state m).

End machine.
Arguments VpnMachine : clear implicits.
End Machine.
Export Machine.

(** ** Lemmas *)

Lemma into_request_current s r : current_request s = Some r → into_request s = r.
Proof. destruct s; cbn; congruence. Qed.

(** The request survives every transition but the two that start or end a
    tunnel. *)
Lemma transitions_keep_request s e info :
  into_request (into_configuring s) = into_request s ∧
  into_request (into_connected s info) = into_request s ∧
  into_request (into_reconnecting s) = into_request s ∧
  into_request (into_failed s e) = into_request s ∧
  into_request (into_disconnecting s) = into_request s.
Proof. destruct s; done. Qed.

Lemma tunnel_proto_state s :
  t_state (state_to_tunnel_proto s) =
  match s with
  | Disconnected => StateDisconnected | Connecting _ => StateConnecting
  | Configuring _ => StateConfiguring | Connected _ _ => StateConnected
  | Reconnecting _ _ => StateReconnecting | Failed _ _ _ => StateFailed
  | Disconnecting _ => StateDisconnecting
  end.
Proof. destruct s; done. Qed.

#[export] Hint Rewrite mode_parse_to_string : rust.

(** ** Properties *)

(** What auto-resume rebuilds from a persisted tunnel is the request that
    was in flight, its mode, location, transport and reconnect flag, and never
    its one-time code; a machine with nothing in flight persists nothing. *)
Theorem persisted_request_roundtrip {C S} (m : VpnMachine C S) :
  resume_request <$> current_persisted_request m =
  (λ r, {| mode := mode r; location_id := location_id r; otp := None;
           reconnect := reconnect r; protocol_mode := protocol_mode r |})
  <$> current_request (state m).
Proof.
  unfold current_persisted_request. destruct (current_request (state m)) as [r|]; [|done].
  unfold resume_request. cbn -[mode_parse mode_to_string]. by rewrite mode_parse_to_string.
Qed.

(** On a dot whose advertised protocol is known (UDP 0, TCP 1, dual 2) the
    transport brought up is one the location list announces for that dot, and
    it is the requested one whenever the dot supports it. *)
Theorem effective_transport_supported z requested :
  0 ≤ z ≤ 2 →
  let sup := (protocol_modes_from_dot (Some z)).2 in
  protocol_mode_to_proto (effective_transport (Some z) requested) ∈ sup ∧
  (protocol_mode_to_proto requested ∈ sup → effective_transport (Some z) requested = requested).
Proof.
  intros Hz. assert (z = 0 ∨ z = 1 ∨ z = 2) as [->|[->| ->]] by lia;
    destruct requested; cbn; set_solver.
Qed.

Lemma effective_transport_supported_witness :
  effective_transport (Some 2) FeilianTcp = FeilianTcp.
Proof.
  destruct (effective_transport_supported 2 FeilianTcp) as [_ H]; [lia|].
  apply H. vm_compute. right. left.
Defined.

(** A dot that advertises no protocol is announced as UDP-only, yet a
    connect that asks for TCP brings TCP up on it. *)
Theorem unknown_dot_transport_not_announced :
  protocol_mode_to_proto (effective_transport None FeilianTcp)
    ∉ (protocol_modes_from_dot None).2.
Proof. vm_compute. intros H. inversion H as [|? ? ? H']; inversion H'. Qed.

(** The states a connect loop goes through: each attempt is configured, may
    connect, may fail, and is followed by another. *)
Inductive loop_state : VpnState → Prop :=
  | LoopStart r : loop_state (into_connecting r)
  | LoopConfigure s : loop_state s → loop_state (into_configuring s)
  | LoopConnect s i : loop_state (into_configuring s) → loop_state (into_connected (into_configuring s) i)
  | LoopFail s e : loop_state (into_configuring s) → loop_state (into_failed (into_configuring s) e)
  | LoopLost s i : loop_state (into_connected s i) → loop_state (into_reconnecting (into_connected s i))
  | LoopRetry s e : loop_state (into_failed (into_configuring s) e) →
      loop_state (into_reconnecting (into_failed (into_configuring s) e)).

(** The number of reconnect attempts a client sees never exceeds one,
    however long the loop has been retrying: configuring the next attempt
    drops the count. *)
Theorem shown_attempts_at_most_one s :
  loop_state s → 0 ≤ t_reconnect_attempts (state_to_tunnel_proto s) ≤ 1.
Proof. intros Hs. destruct Hs as [r|s|s i|s e|s i|s e]; vm_compute; (split; discriminate). Qed.

Lemma shown_attempts_at_most_one_witness :
  let s1 := into_reconnecting (into_failed (into_configuring (into_connecting vpn_request_default)) "x") in
  let s2 := into_reconnecting (into_failed (into_configuring s1) "y") in
  attempts s2 = 1 ∧ 0 ≤ t_reconnect_attempts (state_to_tunnel_proto s2) ≤ 1.
Proof.
  cbn zeta. split; [reflexivity|].
  apply (shown_attempts_at_most_one
    (into_reconnecting (into_failed (into_configuring
       (into_reconnecting (into_failed (into_configuring (into_connecting vpn_request_default)) "x"))) "y"))).
  apply LoopRetry, LoopFail, LoopConfigure, LoopRetry, LoopFail, LoopConfigure, LoopStart.
Defined.
