(* ===== verification/Negotiate.v ===== *)
(** * Choosing a node and negotiating the tunnel ([core/src/vpn.rs],
      [daemon/src/latency.rs], the node clients of [daemon/src/daemon.rs])

    The node ("dot") list is filtered, ranked by measured latency and tried
    in turn; each try posts [/vpn/conn] to the node.  How a client for a node
    is built, how candidates are ranked and the TOTP library are
    parameters, as they are in the source. *)

From S2P Require Import Prelude RustStr Net Models Signing Api Requests VpnState.
Import Models Signing Api Requests.

Module Negotiate.

(* @core/src/vpn.rs:8-8 MAX_DOT_ATTEMPTS *)
Definition MAX_DOT_ATTEMPTS : nat := 3%nat.
(* @core/src/vpn.rs:9-9 MAX_CONFIG_ATTEMPTS_PER_DOT *)
Definition MAX_CONFIG_ATTEMPTS_PER_DOT : nat := 3%nat.

(* @core/src/vpn.rs:34-45 VpnConfigRequest *)
Record VpnConfigRequest : Type := {
  cr_mode : VpnConnectMode;
  cr_public_key : string;
  cr_location_id : option Z;
  cr_otp : option string;
  cr_sign_token : option string;
  cr_not_auto : bool;
  cr_reconnect : bool;
}.

(* @core/src/vpn.rs:47-52 VpnConfigResult *)
Record VpnConfigResult `{Urls} : Type := {
  res_dot : VpnDot;
  res_endpoint : DotEndpoint;
  res_response : BaseResponse VpnConnResponse;
}.

(* @core/src/vpn.rs:54-74 Error *)
Inductive VpnError : Type :=
  | VpnApi (source : ApiError)
  | NoVpnDots
  | NoSupportedVpnDot (mode : string)
  | MissingVpnConfigData
  | MissingVpnDotListData.

(** ** Pure projections *)

(* @core/src/vpn.rs:94-101 SigningRuleUpdate *)
Record SigningRuleUpdate : Type := {
  ru_urls : list string; ru_enable_signing : bool; ru_signing_input_params : Z;
  ru_max_time_desync : option Z;
}.
(* @core/src/vpn.rs:103-112 SigningConfigUpdate *)
Record SigningConfigUpdate : Type := {
  cu_enabled : bool; cu_algorithms : list string; cu_rules : list SigningRuleUpdate;
}.
(* @core/src/vpn.rs:114-143 extract_signing_config_update *)
Definition extract_signing_config_update (current_enabled : bool) (d : TenantConfigData) :
    option SigningConfigUpdate :=
  config ← tc_signing_config d;
  Some {| cu_enabled := default current_enabled (tsc_enable config);
          cu_algorithms := default [] (tsc_algorithms config);
          cu_rules := map (λ rule, {|
            ru_urls := default [] (sr_urls rule);
            ru_enable_signing := default false (sr_enable_signing rule);
            ru_signing_input_params := default 0 (sr_signing_input_params rule ≫= u64_try_from);
            ru_max_time_desync := sr_max_time_desync rule ≫= u64_try_from |})
            (default [] (tsc_rules config)) |}.

(* @core/src/vpn.rs:149-157 TotpConfig *)
Record TotpConfig : Type := { totp_url : string; time_diff_seconds : Z }.

(* @core/src/vpn.rs:300-311 totp_from_provision *)
Definition totp_from_provision (now : Z) (p : OtpProvision) : option TotpConfig :=
  if str_is_empty (prov_url p) then None
  else Some {| totp_url := prov_url p;
               time_diff_seconds := if 0 <? prov_timestamp p then i64_wrap (prov_timestamp p - now) else 0 |}.

(** [totp] is [TOTP::from_url_unchecked(url)] and its [generate]. *)
(* @core/src/vpn.rs:313-325 generate_totp *)
Definition generate_totp (totp : string → option (Z → string)) (c : TotpConfig) (now_unix : Z) :
    option string :=
  corrected ← u64_try_from (i64_wrap (now_unix + time_diff_seconds c));
  gen ← totp (totp_url c);
  Some (gen corrected).

(** ** Latency ranking *)

(* @daemon/src/latency.rs:14-14 DEFAULT_PROBE_TIMEOUT *)
Definition DEFAULT_PROBE_TIMEOUT : duration := from_secs 3.

(* @daemon/src/latency.rs:71-78 cmp_latency *)
Definition cmp_latency (a b : option duration) : comparison :=
  match a, b with
  | Some a, Some b => Z.compare a b
  | Some _, None => Lt
  | None, Some _ => Gt
  | None, None => Eq
  end.

(** The order of the sort: by latency, then by position. *)
Definition rank_le (lat : list (option duration)) (a b : nat * VpnDot) : bool :=
  match cmp_latency (default None (lat !! a.1)) (default None (lat !! b.1)) with
  | Lt => true
  | Gt => false
  | Eq => (a.1 <=? b.1)%nat
  end.

(** The probes' answers written into the table, in the order they finished. *)
Definition fill_latencies (n : nat) (finished : list (nat * option duration)) : list (option duration) :=
  foldl (λ v f, <[f.1 := f.2]> v) (replicate n None) finished.

(** [finished] are the answers of the concurrent probes. *)
(* @daemon/src/latency.rs:35-67 rank_dots_by_latency *)
Definition rank_dots_by_latency (dots : list VpnDot) (finished : list (nat * option duration)) :
    list VpnDot :=
  if (length dots <=? 1)%nat then dots
  else map snd (sort_by (rank_le (fill_latencies (length dots) finished))
                        (zip (seq 0 (length dots)) dots)).

(** ** Negotiation *)

Section negotiate.
Context {W : Type} `{Urls} `{!Http W} `{Crypto} `{Serde}.
Abbreviation call A := (M (CookieStore * W) VpnError A).

(** What the caller supplies: the client of an endpoint and the ranking. *)
Variable build_dot_client : DotEndpoint → ApiClient.
Variable rank_dots : list VpnDot → CookieStore * W → (CookieStore * W) * list VpnDot.

(** The candidates of a request. *)
Definition candidates (r : VpnConfigRequest) (dots : list VpnDot) : list VpnDot :=
  List.filter (λ d, negb (cr_reconnect r) || supports_reconnect d)
    (List.filter (λ d, supports_android_mode d (android_id (cr_mode r)))
      (List.filter (λ d, is_none_or (cr_location_id r) (λ p, bool_decide (dot_id d = Some p))) dots)).

Definition conn_request (r : VpnConfigRequest) (d : VpnDot) : SendableRequest :=
  VpnConnRequest (Some (android_name (cr_mode r))) (cr_public_key r) (cr_otp r)
    (default 0 (dot_id d)) (cr_sign_token r) (Some (cr_not_auto r)).

(** The attempts on one node: [inl] its answer, [inr] the error of the last
    of [n] failed attempts. *)
Fixpoint dot_attempts (client : ApiClient) (req : SendableRequest) (n : nat) (last : option ApiError)
    (w : CookieStore * W) : (CookieStore * W) * (BaseResponse VpnConnResponse + option ApiError) :=
  match n with
  | O => (w, inr last)
  | S n' =>
      match send (W:=W) de_conn client req w with
      | (w1, Ok response) => (w1, inl response)
      | (w1, Err e) => dot_attempts client req n' (Some e) w1
      end
  end.

(** The loop over the nodes. *)
Fixpoint try_dots (r : VpnConfigRequest) (dots : list VpnDot) (last : option ApiError)
    (w : CookieStore * W) : (CookieStore * W) * result VpnError VpnConfigResult :=
  match dots with
  | [] =>
      (w, Err match last with
              | Some e => VpnApi e
              | None => NoSupportedVpnDot (android_name (cr_mode r))
              end)
  | d :: dots' =>
      let use_vpn_ip := should_use_vpn_ip_for_config_api d (negb (cr_not_auto r)) in
      match from_dot d use_vpn_ip with
      | Err e => (w, Err (VpnApi e))
      | Ok endpoint =>
          match dot_attempts (build_dot_client endpoint) (conn_request r d)
                  MAX_CONFIG_ATTEMPTS_PER_DOT last w with
          | (w1, inl response) =>
              match data response with
              | None => (w1, Err MissingVpnConfigData)
              | Some _ => (w1, Ok {| res_dot := d; res_endpoint := endpoint; res_response := response |})
              end
          | (w1, inr last) => try_dots r dots' last w1
          end
      end
  end.

(** Ranking, only without a pinned node and with a choice. *)
Definition order_candidates (r : VpnConfigRequest) (cs : list VpnDot) (w : CookieStore * W) :
    (CookieStore * W) * list VpnDot :=
  if is_none (cr_location_id r) && (1 <? length cs)%nat then rank_dots cs w else (w, cs).

(* @core/src/vpn.rs:183-277 vpn_config_from_dot_list *)
Definition vpn_config_from_dot_list (tenant_client : ApiClient) (r : VpnConfigRequest) :
    call VpnConfigResult :=
  let! locations := m_map_err VpnApi (send (W:=W) de_dots tenant_client GetVpnLocationsRequest) in
  let! dots := m_lift (ok_or (data locations) MissingVpnDotListData) in
  match dots with
  | [] => m_fail NoVpnDots
  | _ =>
      match candidates r dots with
      | [] => m_fail (NoSupportedVpnDot (android_name (cr_mode r)))
      | cs => λ w,
          let '(w1, ranked) := order_candidates r cs w in
          try_dots r (take MAX_DOT_ATTEMPTS ranked) None w1
      end
  end.

(* @core/src/vpn.rs:281-284 vpn_ping *)
Definition vpn_ping (client : ApiClient) : call unit :=
  do! m_map_err VpnApi (send (W:=W) de_object client VpnPingRequest) in m_ret tt.

(* @core/src/vpn.rs:293-296 fetch_totp *)
Definition fetch_totp (client : ApiClient) : call (option TotpConfig) :=
  let! response := m_map_err VpnApi (send (W:=W) de_otp client FetchOtpRequest) in
  λ '(jar, w), ((jar, w), Ok (data response ≫= totp_from_provision (now_seconds w))).

End negotiate.

(** ** The clients of the nodes *)

(* @daemon/src/daemon.rs:931-935 tls_host_for *)
Definition tls_host_for (vpn_domain : string) : string :=
  match strip_prefix "*." vpn_domain with
  | Some rest => "vpn." +:+ rest
  | None => vpn_domain
  end.

(** Which connection pool a client uses: the shared one, or one whose resolver
    pins a host name to an address ([build_dot_http_client]). *)
Inductive Pool : Type :=
  | SharedPool
  | PinnedPool (tls_host : string) (pinned : SocketAddr) (outbound : option string).

Section clients.
Context `{Urls}.

(** [pool_ok] is whether building the pinned pool works. *)
(* @daemon/src/daemon.rs:894-922 build_dot_api_client *)
Definition build_dot_api_client (pool_ok : bool) (endpoint : DotEndpoint) (h : ApiHooks)
    (vpn_domain outbound : option string) : ApiClient * Pool :=
  let plain := ({| base_url := api_base_url endpoint; hooks := h |}, SharedPool) in
  match vpn_domain, url_host_str (api_base_url endpoint) ≫= parse_ip, url_port (api_base_url endpoint) with
  | Some domain, Some i, Some port =>
      let tls_host := tls_host_for domain in
      match url_parse ("https://" +:+ tls_host +:+ ":" +:+ show_nat port) with
      | Ok tls_url =>
          if pool_ok then ({| base_url := tls_url; hooks := h |}, PinnedPool tls_host (sock i port) outbound)
          else plain
      | Err _ => plain
      end
  | _, _, _ => plain
  end.

(** The two factories of a connect: the configuration client of an endpoint,
    and the probe client of a node. *)
(* @daemon/src/daemon.rs:854-892 dot_client_builders *)
Definition dot_client_builders (pool_ok : bool) (h : ApiHooks) (vpn_domain outbound : option string) :
    (DotEndpoint → ApiClient * Pool) * (VpnDot → option (ApiClient * Pool)) :=
  let config endpoint := build_dot_api_client pool_ok endpoint h vpn_domain outbound in
  (config, λ d, config <$> result_ok (from_dot d false)).

End clients.

(** ** Ranking *)

Lemma fill_latencies_lookup n fin i :
  NoDup fin.*1 → fill_latencies n fin !! i =
    if decide (i < n)%nat then Some (default None (list_to_map (M:=gmap nat (option duration)) fin !! i))
    else None.
Proof.
  unfold fill_latencies. intros Hnd.
  assert (H : ∀ v, foldl (λ v f, <[f.1:=f.2]> v) v fin !! i =
    if decide (i < length v)%nat then
      (match list_to_map (M:=gmap nat (option duration)) fin !! i with Some x => Some x | None => v !! i end)
    else None).
  { induction fin as [|[k x] fin IH]; intros v.
    - cbn. case_decide as Hd; [done|]. apply lookup_ge_None_2. lia.
    - cbn [foldl fst snd]. apply NoDup_cons in Hnd as [Hk Hnd]. rewrite IH by done.
      rewrite length_insert. cbn [list_to_map foldr uncurry]. case_decide as Hd; [|done].
      change (foldr _ ∅ fin) with (list_to_map (M:=gmap nat (option duration)) fin).
      destruct (decide (k = i)) as [->|Hne].
      + rewrite lookup_insert_eq, (not_elem_of_list_to_map_1 _ _ Hk). by rewrite list_lookup_insert_eq.
      + rewrite lookup_insert_ne, list_lookup_insert_ne by done. done. }
  rewrite H, length_replicate. case_decide; [|done].
  destruct (_ !! i) as [x|] eqn:E; [done|]. by apply lookup_replicate_2.
Qed.

(** The order in which the probes finish does not matter. *)
Lemma fill_latencies_perm n fin fin' :
  NoDup fin.*1 → fin ≡ₚ fin' → fill_latencies n fin = fill_latencies n fin'.
Proof.
  intros Hnd Hp. apply list_eq. intros i. rewrite !fill_latencies_lookup; [|by rewrite <- Hp|done].
  by rewrite (list_to_map_proper fin fin').
Qed.

Lemma cmp_latency_antisym a b : cmp_latency b a = CompOpp (cmp_latency a b).
Proof. destruct a, b; cbn; try done. apply Z.compare_antisym. Qed.

Lemma rank_le_total lat x y : rank_le lat x y = false → rank_le lat y x = true.
Proof.
  unfold rank_le. rewrite (cmp_latency_antisym (default None (lat !! x.1))).
  destruct (cmp_latency _ _); cbn; try done. rewrite Nat.leb_gt, Nat.leb_le. lia.
Qed.

Lemma rank_le_trans lat x y z : rank_le lat x y = true → rank_le lat y z = true → rank_le lat x z = true.
Proof.
  unfold rank_le.
  destruct (default None (lat !! x.1)) as [a|], (default None (lat !! y.1)) as [b|],
    (default None (lat !! z.1)) as [c|]; cbn; try done;
    repeat match goal with |- context [(?a ?= ?b)] => destruct (Z.compare_spec a b) end;
    try done; try lia; rewrite ?Nat.leb_le; try lia.
Qed.

(** The automatic choice of a node: the ranked list is a permutation of
    the candidates, and it is sorted: reachable nodes before unreachable ones,
    by ascending round trip, ties in the server's order; and the order in
    which the concurrent probes happen to finish does not change it. *)
Theorem rank_dots_sorted dots finished :
  NoDup finished.*1 →
  (∃ order, rank_dots_by_latency dots finished = map snd order ∧
     order ≡ₚ zip (seq 0 (length dots)) dots ∧
     StronglySorted (λ a b,
       match default None (list_to_map (M:=gmap nat (option duration)) finished !! a.1),
             default None (list_to_map (M:=gmap nat (option duration)) finished !! b.1) with
       | Some x, Some y => x < y ∨ x = y ∧ (a.1 ≤ b.1)%nat
       | Some _, None => True
       | None, Some _ => False
       | None, None => (a.1 ≤ b.1)%nat
       end) order) ∧
  ∀ finished', finished ≡ₚ finished' →
    rank_dots_by_latency dots finished' = rank_dots_by_latency dots finished.
Proof.
  intros Hnd. split.
  2:{ intros fin' Hp. unfold rank_dots_by_latency. by rewrite (fill_latencies_perm _ _ _ Hnd Hp). }
  unfold rank_dots_by_latency. destruct (Nat.leb_spec (length dots) 1) as [Hl|Hl].
  { exists (zip (seq 0 (length dots)) dots). split; [|split; [done|]].
    - symmetry. apply snd_zip. by rewrite length_seq.
    - destruct dots as [|d [|d' ds]]; cbn in Hl |- *; [constructor|repeat constructor|lia]. }
  set (lat := fill_latencies (length dots) finished).
  set (ps := zip (seq 0 (length dots)) dots).
  exists (sort_by (rank_le lat) ps). split; [done|]. split; [apply sort_by_perm|].
  assert (Hin : Forall (λ p, (p.1 < length dots)%nat) (sort_by (rank_le lat) ps)).
  { rewrite sort_by_perm. apply Forall_forall. intros [i d] Hi.
    apply elem_of_zip_l in Hi. apply elem_of_seq in Hi. cbn. lia. }
  pose proof (sort_by_sorted (rank_le lat) ps (rank_le_total lat) (rank_le_trans lat)) as Hs.
  clearbody ps. generalize dependent (sort_by (rank_le lat) ps). intros l Hin Hs.
  induction Hs as [|a l Hs IH Hall]; [constructor|]. apply Forall_cons in Hin as [Ha Hin].
  constructor; [by apply IH|]. rewrite Forall_forall in Hall, Hin |- *. intros b Hb.
  specialize (Hall b Hb). specialize (Hin b Hb). revert Hall. unfold rank_le, lat.
  rewrite !fill_latencies_lookup by done. rewrite !decide_True by done. cbn [default].
  destruct (default None (_ !! a.1)) as [x|], (default None (_ !! b.1)) as [y|]; cbn; try done;
    [destruct (Z.compare_spec x y)|]; rewrite ?Nat.leb_le; (done || lia || auto).
Qed.

(** ** Negotiation *)

Section negotiate_facts.
Context {W : Type} `{Urls} `{!Http W} `{Crypto} `{Serde}.
Variable build_dot_client : DotEndpoint → ApiClient.
Variable rank_dots : list VpnDot → CookieStore * W → (CookieStore * W) * list VpnDot.
Implicit Types w : CookieStore * W.

(** [response] is what some attempt on [d] returned. *)
Definition obtained (r : VpnConfigRequest) (d : VpnDot) (endpoint : DotEndpoint)
    (response : BaseResponse VpnConnResponse) : Prop :=
  ∃ wa wb, send (W:=W) de_conn (build_dot_client endpoint) (conn_request r d) wa = (wb, Ok response).

Lemma dot_attempts_inl r d endpoint n last w w1 response :
  dot_attempts (build_dot_client endpoint) (conn_request r d) n last w = (w1, inl response) →
  obtained r d endpoint response.
Proof.
  revert last w. induction n as [|n IH]; intros last w; cbn [dot_attempts]; [done|].
  destruct (send _ _ _ w) as [w2 [x|e]] eqn:E; [|apply IH].
  intros [= -> ->]. by exists w, w1.
Qed.

Lemma try_dots_ok r dots last w w1 res :
  try_dots build_dot_client r dots last w = (w1, Ok res) →
  res_dot res ∈ dots ∧
  from_dot (res_dot res) (should_use_vpn_ip_for_config_api (res_dot res) (negb (cr_not_auto r)))
    = Ok (res_endpoint res) ∧
  is_some (data (res_response res)) = true ∧
  obtained r (res_dot res) (res_endpoint res) (res_response res).
Proof.
  revert last w. induction dots as [|d dots IH]; intros last w; cbn [try_dots]; [done|].
  destruct (from_dot d _) as [endpoint|e] eqn:Hf; [|done].
  destruct (dot_attempts _ _ _ _ _) as [w2 [response|last']] eqn:Ha.
  - destruct (data response) as [x|] eqn:Hd; [|done]. intros [= -> <-]. cbn.
    split; [left|]. split; [done|]. rewrite Hd. split; [done|]. by eapply dot_attempts_inl.
  - intros Ht. destruct (IH _ _ Ht) as (Hin & Hrest). split; [by right|done].
Qed.

Lemma candidates_spec r dots d :
  d ∈ candidates r dots ↔
  d ∈ dots ∧ (∀ p, cr_location_id r = Some p → dot_id d = Some p) ∧
  supports_android_mode d (android_id (cr_mode r)) = true ∧
  (cr_reconnect r = true → supports_reconnect d = true).
Proof.
  unfold candidates. rewrite !list_elem_of_In, !filter_In, <- list_elem_of_In.
  destruct (cr_location_id r) as [p|]; cbn [is_none_or]; rewrite ?bool_decide_eq_true;
    destruct (cr_reconnect r); cbn; naive_solver.
Qed.

(** C7: What a negotiated configuration is: the node comes from the tenant's
    list, is the pinned one if one is pinned, supports the requested mode and,
    for a reconnect, reconnection; the endpoint is that node's, and the
    configuration is what that endpoint answered, with its data present. *)
Theorem negotiation_sound tenant r w w1 res :
  (∀ ds w, (rank_dots ds w).2 ⊆ ds) →
  vpn_config_from_dot_list build_dot_client rank_dots tenant r w = (w1, Ok res) →
  ∃ w0 locations dots,
    send (W:=W) de_dots tenant GetVpnLocationsRequest w = (w0, Ok locations) ∧
    data locations = Some dots ∧ res_dot res ∈ dots ∧
    (∀ p, cr_location_id r = Some p → dot_id (res_dot res) = Some p) ∧
    supports_android_mode (res_dot res) (android_id (cr_mode r)) = true ∧
    (cr_reconnect r = true → supports_reconnect (res_dot res) = true) ∧
    from_dot (res_dot res) (should_use_vpn_ip_for_config_api (res_dot res) (negb (cr_not_auto r)))
      = Ok (res_endpoint res) ∧
    is_some (data (res_response res)) = true ∧
    obtained r (res_dot res) (res_endpoint res) (res_response res).
Proof.
  intros Hrank. unfold vpn_config_from_dot_list, m_bind, m_map_err, m_lift, m_fail.
  destruct (send de_dots tenant GetVpnLocationsRequest w) as [w0 [locations|e]]; [|done]. cbn [map_err].
  destruct (data locations) as [dots|] eqn:Hd; [|done]. cbn [ok_or].
  intros Hn. exists w0, locations, dots. split; [done|]. split; [done|].
  assert (Hc : res_dot res ∈ candidates r dots ∧
    from_dot (res_dot res) (should_use_vpn_ip_for_config_api (res_dot res) (negb (cr_not_auto r)))
      = Ok (res_endpoint res) ∧
    is_some (data (res_response res)) = true ∧
    obtained r (res_dot res) (res_endpoint res) (res_response res)).
  { destruct dots as [|d0 ds]; [done|]. destruct (candidates r (d0 :: ds)) as [|c cs]; [done|].
    destruct (order_candidates _ _ _ _) as [w2 ranked] eqn:Hr. unfold order_candidates in Hr.
    apply try_dots_ok in Hn as (Hin & Hrest). split; [|done].
    assert (Hin' : res_dot res ∈ ranked).
    { rewrite <- (take_drop MAX_DOT_ATTEMPTS ranked). apply elem_of_app. by left. }
    destruct (_ && _); [|by injection Hr as _ <-].
    apply (Hrank (c :: cs) w0). by rewrite Hr. }
  destruct Hc as (Hc & Hrest). apply candidates_spec in Hc as (? & ? & ? & ?). tauto.
Qed.

(** What the caller counts in its world, for instance the requests on the
    wire: one per HTTP exchange, [ranking_cost] for a ranking. *)
Variable count : W → nat.
Variable ranking_cost : nat.
Hypothesis http_cost : ∀ m u h b (w : W), (count (http_request m u h b w).1 ≤ S (count w))%nat.
Hypothesis rank_cost : ∀ ds w, (count (rank_dots ds w).1.2 ≤ count w.2 + ranking_cost)%nat.

Lemma send_cost {T} (decode : bytes → result string (BaseResponse T)) c q w :
  (count (send decode c q w).1.2 ≤ S (count w.2))%nat.
Proof.
  unfold send, execute, m_bind, m_lift. destruct w as [jar w].
  destruct (prepare _ _ _ _) as [[[u h] b]|e]; cbn [fst snd]; [|lia].
  pose proof (http_cost (METHOD_ q) u h b w) as Hc.
  destruct (http_request _ _ _ _ _) as [w1 [resp|e]]; cbn [fst snd] in *; [|done].
  destruct (resp_body resp); [|done]. destruct (negb _); done.
Qed.

Lemma dot_attempts_cost c q n last w :
  (count (dot_attempts c q n last w).1.2 ≤ count w.2 + n)%nat.
Proof.
  revert last w. induction n as [|n IH]; intros last w; cbn [dot_attempts fst]; [lia|].
  pose proof (send_cost de_conn c q w) as Hs.
  destruct (send _ _ _ w) as [w2 [x|e]]; cbn [fst] in *; [lia|].
  specialize (IH (Some e) w2). lia.
Qed.

Lemma try_dots_cost r dots last w :
  (count (try_dots build_dot_client r dots last w).1.2 ≤ count w.2 + length dots * MAX_CONFIG_ATTEMPTS_PER_DOT)%nat.
Proof.
  revert last w. induction dots as [|d dots IH]; intros last w; cbn [try_dots length fst]; [lia|].
  destruct (from_dot d _) as [endpoint|e]; cbn [fst]; [|lia].
  pose proof (dot_attempts_cost (build_dot_client endpoint) (conn_request r d)
    MAX_CONFIG_ATTEMPTS_PER_DOT last w) as Ha.
  destruct (dot_attempts _ _ _ _ _) as [w2 [response|last']]; cbn [fst] in *.
  - destruct (data response); cbn [fst]; lia.
  - specialize (IH last' w2). lia.
Qed.

(** Negotiation always ends, after at most one list request, the cost of
    ranking when no node is pinned, and nine configuration requests (three
    nodes, three attempts each). *)
Theorem negotiation_bounded tenant r w :
  (count (vpn_config_from_dot_list build_dot_client rank_dots tenant r w).1.2
     ≤ count w.2 + 1 + (if cr_location_id r then 0 else ranking_cost) + 9)%nat.
Proof.
  unfold vpn_config_from_dot_list, m_bind, m_map_err, m_lift, m_fail.
  pose proof (send_cost de_dots tenant GetVpnLocationsRequest w) as Hs.
  destruct (send _ tenant _ w) as [w0 [locations|e]]; cbn [map_err fst] in *; [|lia].
  destruct (data locations) as [[|d dots]|]; cbn [ok_or fst]; [lia| |lia].
  destruct (candidates r (d :: dots)) as [|c cs]; cbn [fst]; [lia|].
  assert (Hp : (count (order_candidates rank_dots r (c :: cs) w0).1.2 ≤ count w0.2 + (if cr_location_id r then 0 else ranking_cost))%nat).
  { unfold order_candidates. destruct (cr_location_id r) as [p|]; cbn [is_none is_some negb andb]; [cbn [fst]; lia|].
    destruct (1 <? length (c :: cs))%nat; [apply rank_cost|cbn [fst]; lia]. }
  destruct (order_candidates _ _ _ _) as [w2 ranked]. cbn [fst] in Hp.
  pose proof (try_dots_cost r (take MAX_DOT_ATTEMPTS ranked) None w2) as Ht.
  rewrite length_take in Ht. unfold MAX_DOT_ATTEMPTS, MAX_CONFIG_ATTEMPTS_PER_DOT in Ht.
  etransitivity; [exact Ht|]. lia.
Qed.
End negotiate_facts.

(** The clock correction of one-time codes: a code generated at local time
    [t'] from a provisioning received at local time [t] is the code of the
    server's time at that moment, [timestamp + (t' - t)], whatever the local
    clock's offset; without a server timestamp it is the local time's. *)
Theorem totp_clock_corrected totp now p now' :
  prov_url p ≠ "" → 0 ≤ prov_timestamp p →
  let target := if 0 <? prov_timestamp p then prov_timestamp p + (now' - now) else now' in
  0 ≤ target < 2 ^ 63 →
  (totp_from_provision now p ≫= λ c, generate_totp totp c now')
    = (λ gen, gen target) <$> totp (prov_url p).
Proof.
  intros Hu Hts target Ht. unfold totp_from_provision, str_is_empty.
  destruct (prov_url p) as [|a u] eqn:Hp; [done|]. cbn.
  unfold generate_totp. cbn [time_diff_seconds totp_url].
  assert (Hw : i64_wrap (now' + (if 0 <? prov_timestamp p then i64_wrap (prov_timestamp p - now) else 0)) = target).
  { unfold target in *. destruct (0 <? prov_timestamp p).
    - rewrite i64_wrap_add_wrap, i64_wrap_small; lia.
    - rewrite Z.add_0_r, i64_wrap_small; lia. }
  rewrite Hw. unfold u64_try_from. rewrite decide_True by lia. cbn.
  destruct (totp _); done.
Qed.

(** TLS of a node: when the tenant's VPN domain is known and the endpoint
    is an IP address, the client built for it asks for the domain's TLS name
    over a pool that resolves that one name to that address and nothing else;
    in every other case, a failed build included, it dials the endpoint's own
    URL over the shared pool. *)
Theorem dot_client_pins_tls `{Urls} pool_ok endpoint h vpn_domain outbound :
  let '(client, pool) := build_dot_api_client pool_ok endpoint h vpn_domain outbound in
  hooks client = h ∧
  match pool with
  | SharedPool => base_url client = api_base_url endpoint
  | PinnedPool host addr o =>
      o = outbound ∧ ∃ d i port, vpn_domain = Some d ∧ host = tls_host_for d ∧
        url_host_str (api_base_url endpoint) ≫= parse_ip = Some i ∧
        url_port (api_base_url endpoint) = Some port ∧ addr = sock i port ∧
        url_parse ("https://" +:+ host +:+ ":" +:+ show_nat port) = Ok (base_url client)
  end ∧
  (pool = SharedPool → pool_ok = true →
   ∀ d i port, vpn_domain = Some d → url_host_str (api_base_url endpoint) ≫= parse_ip = Some i →
     url_port (api_base_url endpoint) = Some port →
     ∃ e, url_parse ("https://" +:+ tls_host_for d +:+ ":" +:+ show_nat port) = Err e).
Proof.
  unfold build_dot_api_client. destruct vpn_domain as [d|]; [|split; [done|split; [done|]]; congruence].
  destruct (url_host_str _ ≫= parse_ip) as [i|]; [|split; [done|split; [done|]]; congruence].
  destruct (url_port _) as [port|]; [|split; [done|split; [done|]]; congruence].
  destruct (url_parse _) as [tls|e] eqn:Hu.
  - destruct pool_ok; cbn.
    + split; [done|]. split; [|done]. split; [done|]. by exists d, i, port.
    + split; [done|]. split; [done|]. done.
  - cbn. split; [done|]. split; [done|]. intros _ _ ? ? ? [= <-] [= <-] [= <-]. eauto.
Qed.

(** ** Witnesses *)

Module Sample.
Definition dot (id : Z) (mode : Z) : VpnDot :=
  {| dot_id := Some id; dot_ip := "192.0.2.1"; dot_api_ip := None; dot_api_port := Some 443;
     dot_vpn_port := Some 8443; dot_protocol_mode := None; dot_timeout := None;
     dot_mode := Some mode; dot_type := None; dot_name := None; dot_display_name := None;
     dot_fast_ip := None; dot_ip4_domain := None; dot_reconnect := Some true; dot_exclude := None;
     dot_dedicated := None; dot_backup_ips := None; dot_ip_delay_routing_policy := None;
     dot_raw := None |}.
Definition conn : VpnConnResponse :=
  {| conn_ip := "10.0.0.2"; conn_ipv6 := None; conn_ip_mask := Some 24; conn_public_key := "k";
     conn_preshared_key := None; conn_sign_token := None; conn_protocol_version := None;
     conn_setting := {|
       vpn_mtu := 1400; vpn_dns := None; vpn_dns_backup := None; vpn_dns_domain_split := None;
       vpn_route_full := None; vpn_route_split := None; v6_route_full := None;
       v6_route_split := None; vpn_dynamic_domain_route_split := None;
       v6_vpn_dynamic_domain_route_split := None; vpn_wildcard_dynamic_domain_route_split := None;
       suffix_wildcard_dynamic_domain_route_split := None; dynamic_domain := None;
       central_dns := None; ip_nats := None |};
     conn_raw := None |}.
Definition ok_with {T} (x : T) : BaseResponse T :=
  {| Models.code := 0; message := None; data := Some x; action := None; logout_reason := None;
     extra := None |}.
Definition fails {T} : decoder T := λ _, Err "no".
#[global] Instance serde : Serde := {
  json_to_vec _ := Ok []; utf8_percent_encode s _ := s;
  de_activate := fails; de_v2 := fails; de_string := fails; de_value := fails; de_login := fails;
  de_links := fails; de_login_setting := fails; de_user := fails; de_tenant := fails;
  de_otp := fails; de_vpn_setting := fails;
  de_dots _ := Ok (ok_with [dot 1 1; dot 2 0; dot 3 0]); de_conn _ := Ok (ok_with conn);
  de_object _ := Ok (ok_with []);
}.
Definition request : VpnConfigRequest :=
  {| cr_mode := Full; cr_public_key := "pk"; cr_location_id := None; cr_otp := None;
     cr_sign_token := None; cr_not_auto := false; cr_reconnect := true |}.
Definition build (e : DotEndpoint) : ApiClient := {| base_url := api_base_url e; hooks := hooks Echo.client |}.
Definition rank (ds : list VpnDot) (w : CookieStore * nat) : (CookieStore * nat) * list VpnDot :=
  ((w.1, S (S w.2)), reverse ds).
Definition run := vpn_config_from_dot_list (W:=nat) build rank Echo.client request (cookies_empty, 0%nat).
End Sample.

Lemma negotiation_sound_witness :
  ∃ res, Sample.run.2 = Ok res ∧ dot_id (res_dot res) = Some 3 ∧
    supports_android_mode (res_dot res) (android_id Full) = true.
Proof.
  assert (Hok : match Sample.run.2 with Ok res => bool_decide (dot_id (res_dot res) = Some 3) | _ => false end = true)
    by (vm_compute; reflexivity).
  destruct Sample.run as [w1 [res|e]] eqn:E; cbn in Hok; [|discriminate Hok].
  exists res. split; [reflexivity|]. split; [by apply bool_decide_eq_true in Hok|].
  assert (Hr : ∀ ds w, (Sample.rank ds w).2 ⊆ ds).
  { intros ds w x Hx. cbn [Sample.rank snd] in Hx. by rewrite elem_of_reverse in Hx. }
  destruct (negotiation_sound (W:=nat) Sample.build Sample.rank Echo.client Sample.request _ w1 res Hr E)
    as (_ & _ & _ & _ & _ & _ & _ & Hm & _). exact Hm.
Defined.

Lemma negotiation_bounded_witness : (Sample.run.1.2 ≤ 12)%nat.
Proof.
  assert (Hh : ∀ m u h b (w : nat), ((http_request m u h b w).1 ≤ S w)%nat) by (intros; cbn; lia).
  assert (Hr : ∀ ds (w : CookieStore * nat), ((Sample.rank ds w).1.2 ≤ w.2 + 2)%nat) by (intros; cbn; lia).
  exact (negotiation_bounded (W:=nat) Sample.build Sample.rank (λ n, n) 2%nat Hh Hr
    Echo.client Sample.request (cookies_empty, 0%nat)).
Defined.

Lemma rank_dots_sorted_witness :
  rank_dots_by_latency [Sample.dot 1 0; Sample.dot 2 0; Sample.dot 3 0]
    [(0%nat, None); (1%nat, Some 5); (2%nat, Some 3)] = [Sample.dot 3 0; Sample.dot 2 0; Sample.dot 1 0].
Proof.
  destruct (rank_dots_sorted [Sample.dot 1 0; Sample.dot 2 0; Sample.dot 3 0]
    [(2%nat, Some 3); (1%nat, Some 5); (0%nat, None)]) as [_ H].
  - apply (bool_decide_unpack _). vm_compute. exact I.
  - rewrite (H [(0%nat, None); (1%nat, Some 5); (2%nat, Some 3)]); [vm_compute; reflexivity|].
    apply (Permutation_rev [(2%nat, Some 3); (1%nat, Some 5); (0%nat, None)]).
Defined.

Lemma totp_clock_corrected_witness :
  (totp_from_provision 100 {| prov_url := "otpauth://x"; prov_timestamp := 160 |}
     ≫= λ c, generate_totp (λ _, Some (λ t, show_int t)) c 130) = Some "190".
Proof.
  rewrite (totp_clock_corrected (λ _, Some (λ t, show_int t)) 100
    {| prov_url := "otpauth://x"; prov_timestamp := 160 |} 130);
    [vm_compute; reflexivity | discriminate | cbn; lia | cbn; lia].
Defined.

End Negotiate.
