(* ===== verification/HttpClients.v ===== *)
(** * The HTTP clients and the UDP sockets of a tunnel
    ([api/src/client.rs], [tunnel/src/outbound.rs])

    How the clients that talk to the servers are put together from an outbound
    interface, the system's resolver configuration and, for a node, a pinned
    address; which endpoints they address; and the sockets that WireGuard's UDP
    transport is given.  TLS and the connection pool are the libraries'. *)

From S2P Require Import Prelude RustStr Net Models Signing Api Interface Dialer DnsConfig DnsResolver Outbound Negotiate.
Import Models Signing Api Interface Dialer DnsResolver Outbound Negotiate.

Module HttpClients.

(** ** The jar as a map of the protocol messages *)

(* @api/src/client.rs:120-123 SessionCookies *)
Record SessionCookies : Type := { sc_values : gmap string string }.
(** Both directions iterate over one map and collect into the other. *)
(* @api/src/client.rs:126-132 SessionCookies::from_map *)
Definition from_map (map : gmap string string) : SessionCookies :=
  {| sc_values := list_to_map (map_to_list map) |}.
(* @api/src/client.rs:134-141 SessionCookies::to_map *)
Definition to_map (c : SessionCookies) : gmap string string := list_to_map (btree_iter (sc_values c)).

(** ** Endpoints *)

Section endpoints.
Context `{Urls}.

(* @api/src/client.rs:358-360 ApiEndpoint *)
Class ApiEndpoint (T : Type) : Type := endpoint_base_url : T → Url.

(* @api/src/client.rs:362-365 MatchEndpoint *)
Record MatchEndpoint : Type := { me_base_url : Url }.
(* @api/src/client.rs:367-370 TenantEndpoint *)
Record TenantEndpoint : Type := { te_base_url : Url }.

(* @api/src/client.rs:379-381 MatchEndpoint::base_url *)
#[export] Instance match_endpoint : ApiEndpoint MatchEndpoint := me_base_url.
(* @api/src/client.rs:385-387 TenantEndpoint::base_url *)
#[export] Instance tenant_endpoint : ApiEndpoint TenantEndpoint := te_base_url.
(* @api/src/client.rs:391-393 DotEndpoint::base_url *)
#[export] Instance dot_endpoint : ApiEndpoint DotEndpoint := api_base_url.

(** [None]: the [expect] on the constant fails. *)
(* @api/src/client.rs:397-401 MatchEndpoint::default *)
Definition match_endpoint_default : option MatchEndpoint :=
  Build_MatchEndpoint <$> result_ok (url_parse DEFAULT_MATCH_BASE_URL).
(* @api/src/client.rs:405-409 MatchEndpoint::new *)
Definition match_endpoint_new (base_url : string) : result ApiError MatchEndpoint :=
  let? u := parse_base_url base_url in Ok {| me_base_url := u |}.
(* @api/src/client.rs:413-417 TenantEndpoint::new *)
Definition tenant_endpoint_new (base_url : string) : result ApiError TenantEndpoint :=
  let? u := parse_base_url base_url in Ok {| te_base_url := u |}.

End endpoints.

(** ** Clients *)

(** The connection pool, by the connector it opens connections with. *)
Record HttpClient : Type := { http_connector : HyperConnector }.

(* @api/src/client.rs:449-456 build_https_connector *)
Definition build_https_connector (c : HyperConnector) : HttpClient := {| http_connector := c |}.

Section clients.
Context {W : Type} `{Os W}.
Variable resolver_error_to_string : ResolverError → string.

(* @api/src/client.rs:458-477 build_dialer_and_resolver *)
Definition build_dialer_and_resolver (outbound_interface : option string) (w : W) :
    result ResolverError (Dialer * Resolver) :=
  let interface := outbound_interface ≫= lookup (os_interfaces w) in
  let d := dialer_new interface in
  let? servers := system_dns_servers (os_dns_conf w) in
  Ok (d, resolver_new d servers).

(* @api/src/client.rs:486-495 build_http_client *)
Definition build_http_client (outbound_interface : option string) (w : W) : result ApiError HttpClient :=
  let? dr := map_err (λ e, BuildHttpClient (resolver_error_to_string e))
                     (build_dialer_and_resolver outbound_interface w) in
  Ok (build_https_connector {| hc_dialer := dr.1; hc_resolver := dr.2 |}).

(* @api/src/client.rs:503-515 build_dot_http_client *)
Definition build_dot_http_client (tls_host : string) (pinned_addr : SocketAddr)
    (outbound_interface : option string) (w : W) : result ApiError HttpClient :=
  let? dr := map_err (λ e, BuildHttpClient (resolver_error_to_string e))
                     (build_dialer_and_resolver outbound_interface w) in
  let resolver := with_override tls_host pinned_addr dr.2 in
  Ok (build_https_connector {| hc_dialer := dr.1; hc_resolver := resolver |}).

End clients.

(** A client with the pool its requests go through. *)
Record PooledClient `{Urls} : Type := { pc_client : ApiClient; pc_pool : HttpClient }.
(* @api/src/client.rs:520-529 ApiClient::for_endpoint *)
Definition for_endpoint `{Urls} {T} `{!ApiEndpoint T} (endpoint : T) (pool : HttpClient) (h : ApiHooks) :
    PooledClient :=
  {| pc_client := {| base_url := endpoint_base_url endpoint; hooks := h |}; pc_pool := pool |}.

(** ** The UDP sockets of WireGuard *)

(* @tunnel/src/outbound.rs:11-14 BoundUdpSocketFactory *)
Record BoundUdpSocketFactory : Type := { buf_dialer : Dialer }.
(* @tunnel/src/outbound.rs:16-19 BoundUdpSocket *)
Record BoundUdpSocket : Type := { bus_inner : Z }.
(* @tunnel/src/outbound.rs:22-25 BoundUdpSocketFactory::new *)
Definition udp_factory_new (d : Dialer) : BoundUdpSocketFactory := {| buf_dialer := d |}.

(** Tokio's [UdpSocket]: sending answers the number of bytes sent; receiving
    takes the next datagram, of which the buffer gets what fits. *)
Class UdpSocket (W : Type) : Type := {
  us_send_to : Z → bytes → SocketAddr → M W io_error Z;
  us_next : Z → M W io_error (bytes * SocketAddr);
  us_local_addr : Z → M W io_error SocketAddr;
}.
(** [recv_from]: the buffer afterwards, and the length and the source. *)
Definition us_recv_from {W} `{UdpSocket W} (s : Z) (buf : bytes) : M W io_error (bytes * (nat * SocketAddr)) :=
  let! next := us_next s in
  let got := firstn (length buf) next.1 in
  m_ret (got ++ skipn (length got) buf, (length got, next.2)).

(** WireGuard's [UdpTransportFactoryParams]. *)
Record TransportParams : Type := { tp_addr_v4 : Z; tp_addr_v6 : Z; tp_port : Z }.

Section udp.
Context {W : Type} `{Sockets W} `{UdpSocket W}.
Variable dialer_error_to_string : DialerError → string.

(** The sending and the receiving half of a family are one socket. *)
(* @tunnel/src/outbound.rs:34-48 BoundUdpSocketFactory::bind *)
Definition udp_factory_bind (f : BoundUdpSocketFactory) (params : TransportParams) :
    M W io_error ((BoundUdpSocket * BoundUdpSocket) * (BoundUdpSocket * BoundUdpSocket)) :=
  let! pair := m_map_err (λ e, IoError OtherKind (dialer_error_to_string e))
                 (bind_udp_pair (buf_dialer f) (tp_addr_v4 params) (tp_addr_v6 params) (tp_port params)) in
  let udp_v4 := {| bus_inner := pair.1 |} in
  let udp_v6 := {| bus_inner := pair.2 |} in
  m_ret ((udp_v4, udp_v4), (udp_v6, udp_v6)).

(* @tunnel/src/outbound.rs:54-57 BoundUdpSocket::send_to *)
Definition udp_send_to (s : BoundUdpSocket) (packet : bytes) (destination : SocketAddr) : M W io_error unit :=
  do! us_send_to (bus_inner s) packet destination in m_ret tt.

(* @tunnel/src/outbound.rs:59-61 BoundUdpSocket::local_addr *)
Definition udp_local_addr (s : BoundUdpSocket) : M W io_error (option SocketAddr) :=
  let! a := us_local_addr (bus_inner s) in m_ret (Some a).

(** [pooled] is what the buffer taken from the pool still holds. *)
(* @tunnel/src/outbound.rs:67-74 BoundUdpSocket::recv_from *)
Definition udp_recv_from (s : BoundUdpSocket) (pooled : bytes) : M W io_error (bytes * SocketAddr) :=
  let! r := us_recv_from (bus_inner s) (repeat 0 (Z.to_nat 65535)) in
  let '(buf, (len, source)) := r : bytes * (nat * SocketAddr) in
  let packet := firstn 0 pooled in
  m_ret (packet ++ firstn len buf, source).

End udp.

(** ** Lemmas *)

Lemma build_dialer_spec {W} `{Os W} o (w : W) :
  match build_dialer_and_resolver o w with
  | Ok (d, r) =>
      interface d = o ≫= lookup (os_interfaces w) ∧ dialer r = d ∧ overrides r = ∅ ∧
      servers r ≠ [] ∧ Forall (λ a, ip_is_loopback (ip a) = false ∧ ip_is_unspecified (ip a) = false) (servers r)
  | Err _ => is_ok (os_dns_conf w) = false
  end.
Proof.
  unfold build_dialer_and_resolver. pose proof (system_dns_servers_spec (os_dns_conf w)) as Hd.
  destruct (system_dns_servers _) as [ss|e]; cbn [result_bind]; [|exact Hd]. cbn. tauto.
Qed.

(** Dialing the only address of a host. *)
Lemma connect_any_one {W} `{SocketLog W} d host a last (w : W) :
  ∃ s cs, calls (connect_any d host [a] last w).1 = calls w ++ cs ∧
          cs `prefix_of` connect_script d a s.
Proof.
  cbn [connect_any]. destruct (runs_connect_tcp d a w) as (cs & Hc & s & [Hp _]).
  exists s, cs. split; [|exact Hp]. by destruct (connect_tcp d a w) as [w1 [sk|e]].
Qed.

(** ** Properties *)

(** The jar survives the trip through a protocol message. *)
Theorem cookies_map_roundtrip m c : to_map (from_map m) = m ∧ from_map (to_map c) = c.
Proof.
  assert (Hb : ∀ v, list_to_map (btree_iter v) =@{gmap string string} v).
  { intros v. unfold btree_iter. rewrite <- (list_to_map_to_list v) at 2. apply list_to_map_proper.
    - rewrite sort_by_perm. apply NoDup_fst_map_to_list.
    - apply sort_by_perm. }
  split.
  - unfold to_map, from_map. cbn. by rewrite list_to_map_to_list, Hb.
  - destruct c as [v]. unfold to_map, from_map. cbn. by rewrite list_to_map_to_list, Hb.
Qed.

(** C13: A node is only ever reached where the tenant's list says: when its
    client got a pinned pool, every connection that client opens, whatever it
    is asked for on the node's TLS name, asks no DNS server and dials one
    address, the IP of the node's own endpoint, from a socket that is bound
    first to the outbound interface of that name, if the system has one. *)
Theorem dot_client_contacts `{Urls} `{DnsNames} {W} `{Os W} `{UdpLog W} `{!SocketLog W}
    show pool_ok endpoint h vpn_domain o client host addr (w0 : W) http :
  build_dot_api_client pool_ok endpoint h vpn_domain o = (client, PinnedPool host addr o) →
  build_dot_http_client show host addr o w0 = Ok http →
  url_host_str (api_base_url endpoint) ≫= parse_ip = Some (ip addr) ∧
  url_port (api_base_url endpoint) = Some (port addr) ∧
  ∀ uri p (w : W), parse_uri_host_port uri = Ok (host, p) →
    sent (connect_to (http_connector http) uri w).1 = sent w ∧
    ∃ s d cs, interface d = o ≫= lookup (os_interfaces w0) ∧
      calls (connect_to (http_connector http) uri w).1 = calls w ++ cs ∧
      cs `prefix_of` connect_script d addr s.
Proof.
  intros Hb Hh. pose proof (dot_client_pins_tls pool_ok endpoint h vpn_domain o) as Hp.
  rewrite Hb in Hp. destruct Hp as (_ & (_ & dom & i & prt & _ & _ & Hi & Hprt & -> & _) & _).
  split; [done|]. split; [done|]. unfold build_dot_http_client in Hh.
  pose proof (build_dialer_spec o w0) as Hd.
  destruct (build_dialer_and_resolver o w0) as [[d r]|e]; cbn in Hh; [|done]. injection Hh as <-.
  cbn [http_connector build_https_connector]. destruct Hd as (Hif & _ & Hov & _). intros uri p w Hu.
  set (c := {| hc_dialer := d; hc_resolver := _ |}).
  assert (Hc : overrides (hc_resolver c) !! host = Some [sock i prt]).
  { cbn. by rewrite Hov, lookup_insert_eq. }
  split; [by apply (connect_to_pinned c uri host p [sock i prt])|].
  destruct (connect_any_one d host (sock i prt) (NoAddress host) w) as (s & cs & Hcs & Hpre).
  exists s, d, cs. split; [exact Hif|]. split; [|exact Hpre]. rewrite <- Hcs.
  unfold connect_to, m_bind, m_lift, m_map_err. rewrite Hu. cbv beta iota. unfold resolve_host. by rewrite Hc.
Qed.

(** A client that is built depends on the system's resolver configuration
    alone: it is refused exactly when that cannot be read.  An interface name
    that the system does not have is not an error: the client is built with no
    interface, and none of its connections is bound to one. *)
Theorem unknown_interface_unbound `{DnsNames} {W} `{Os W} `{SocketLog W} show nm (w0 : W) :
  is_ok (build_http_client show (Some nm) w0) = is_ok (os_dns_conf w0) ∧
  (lookup (os_interfaces w0) nm = None →
   ∀ http, build_http_client show (Some nm) w0 = Ok http →
   ∀ a (w : W), ∃ cs s, calls (connect_tcp (hc_dialer (http_connector http)) a w).1 = calls w ++ cs ∧
     cs `prefix_of` (new_script (from_addr a) STREAM s ++ [mk (ESetNodelay s)]
                     ++ [mk (EConnect s a DEFAULT_CONNECT_TIMEOUT)])).
Proof.
  unfold build_http_client, build_dialer_and_resolver. split.
  - unfold system_dns_servers. destruct (os_dns_conf w0) as [ips|e]; [|done]. cbn.
    by destruct (List.filter _ _).
  - intros Hl http Hh a w. cbn [mbind option_bind] in Hh. rewrite Hl in Hh.
    destruct (system_dns_servers _) as [ss|e]; cbn in Hh; [|done]. injection Hh as <-.
    destruct (runs_connect_tcp (dialer_new None) a w) as (cs & Hc & s & [Hp _]).
    exists cs, s. split; [exact Hc|]. unfold connect_script in Hp. cbn in Hp.
    destruct (should_bind (ip a)); exact Hp.
Qed.

(** A datagram is handed to WireGuard exactly as it arrived, whatever was
    left in the pooled buffer: the receive buffer holds the largest datagram
    UDP can carry, and only what would exceed it is cut off. *)
Theorem udp_recv_exact {W} `{UdpSocket W} s pooled (w w' : W) d a :
  us_next (bus_inner s) w = (w', Ok (d, a)) →
  udp_recv_from s pooled w = (w', Ok (firstn (Z.to_nat 65535) d, a)) ∧
  (Z.of_nat (length d) ≤ 65535 → udp_recv_from s pooled w = (w', Ok (d, a))).
Proof.
  intros Hn.
  assert (Hr : udp_recv_from s pooled w = (w', Ok (firstn (Z.to_nat 65535) d, a))).
  { unfold udp_recv_from, us_recv_from, m_bind, m_ret. rewrite Hn. cbn [fst snd app].
    rewrite repeat_length, firstn_0, app_nil_l, firstn_app, firstn_all, Nat.sub_diag, firstn_0.
    by rewrite app_nil_r. }
  split; [exact Hr|]. intros Hl. rewrite Hr. rewrite firstn_all2 by lia. done.
Qed.

(** ** Witnesses *)

Module Pinned.
#[global] Instance os : Os Silent.world := {
  os_interfaces _ := [OneCard.card; OneCard.tun]; os_default_if _ := Some OneCard.card;
  os_dns_conf _ := Ok [V4 (v4 9 9 9 9)]; os_sleep _ w := w;
}.
(** URLs as text, of which every one has the host 192.0.2.7. *)
#[global] Instance urls : Urls := {
  Url := string; url_parse s := Ok s; url_join b p := Ok (b +:+ p); url_append_pairs u ps := u;
  url_host_str u := Some "192.0.2.7"; url_port u := Some 8443;
  url_parts u := {| url_path := u; url_query := None |}; url_to_string u := u; url_is_uri _ := true;
}.
Definition endpoint : DotEndpoint :=
  {| api_base_url := ("https://192.0.2.7:8443/" : Url); wireguard_endpoint := ("udp://192.0.2.7:51820/" : Url) |}.
Definition plain_hooks : ApiHooks :=
  {| identity := identity_default "id"; knock_token := None; signer := signing_config_default |}.
Definition uri : Uri := {| uri_scheme := Some "https"; uri_host := Some "vpn.example.com"; uri_port := Some 8443 |}.
Definition client : ApiClient := {| base_url := ("https://vpn.example.com:8443" : Url); hooks := plain_hooks |}.
Definition show (e : ResolverError) : string := "resolver".
End Pinned.

Lemma dot_client_contacts_witness :
  ∃ http s d cs, build_dot_http_client Pinned.show "vpn.example.com" (sock (V4 (v4 192 0 2 7)) 8443) (Some "eth0")
      (([], []) : Silent.world) = Ok http ∧
    (name <$> interface d) = Some "eth0" ∧
    calls (connect_to (W:=Silent.world) (http_connector http) Pinned.uri ([], [])).1 = [] ++ cs ∧
    cs `prefix_of` connect_script d (sock (V4 (v4 192 0 2 7)) 8443) s.
Proof.
  set (built := build_dot_http_client _ _ _ _ _). assert (Hok : is_ok built = true) by (vm_compute; reflexivity).
  destruct built as [http|e] eqn:E; [|discriminate Hok]. subst built.
  destruct (dot_client_contacts (W:=Silent.world) Pinned.show true Pinned.endpoint Pinned.plain_hooks
    (Some "*.example.com") (Some "eth0") Pinned.client
    "vpn.example.com" (sock (V4 (v4 192 0 2 7)) 8443) ([], []) http eq_refl E) as (_ & _ & Hc).
  destruct (Hc Pinned.uri 8443 ([], []) eq_refl) as (_ & s & d & cs & Hd & Hcs & Hp).
  exists http, s, d, cs. split; [reflexivity|]. rewrite Hd. split; [reflexivity|]. split; [exact Hcs|exact Hp].
Defined.

(** Sockets on which a three-byte datagram waits. *)
#[global] Instance waiting : UdpSocket nat := {
  us_send_to s p a w := (S w, Ok (Z.of_nat (length p)));
  us_next s w := (S w, Ok ([1; 2; 3], sock (V4 (v4 192 0 2 7)) 51820));
  us_local_addr s w := (w, Ok (sock (V4 0) 40000));
}.

Lemma udp_recv_exact_witness :
  udp_recv_from {| bus_inner := 3 |} [9; 9; 9; 9] 0%nat = (1%nat, Ok ([1; 2; 3], sock (V4 (v4 192 0 2 7)) 51820)).
Proof.
  apply (udp_recv_exact {| bus_inner := 3 |} [9; 9; 9; 9] 0%nat 1%nat); [reflexivity|cbn; lia].
Defined.

End HttpClients.
