(* ===== verification/CallTypes.v ===== *)
(** * The types of the socket calls

    Addresses, ports, interface indices, marks and timeouts are integers of the
    model; here it is shown that what reaches the operating system through a
    dialer is always in the range of the type the code gives it, provided that
    what the system, the DNS codec and the URI parser answered is.  The judgment
    [well_typed m V] is a Hoare triple on the log of the calls. *)

From S2P Require Import Prelude RustStr Net Interface Dialer DnsConfig DnsResolver Outbound Negotiate Signing Api HttpClients.
Import Interface Dialer DnsResolver Outbound HttpClients.

Module CallTypes.

(** ** Types *)

Definition u16 (z : Z) : Prop := 0 ≤ z < 65536.
Definition u32 (z : Z) : Prop := 0 ≤ z ≤ u32_max.
Definition nonzero_u32 (z : Z) : Prop := 0 < z ≤ u32_max.
Definition time_wf (d : duration) : Prop := 0 ≤ d ≤ duration_max.

Definition interface_wf (i : OutboundInterface) : Prop := u32 (index i).
Definition dialer_wf (d : Dialer) : Prop :=
  (∀ i, interface d = Some i → interface_wf i) ∧ time_wf (connect_timeout d).
Definition resolver_wf (r : Resolver) : Prop :=
  dialer_wf (dialer r) ∧ Forall sock_wf (servers r) ∧ map_Forall (λ _ l, Forall sock_wf l) (overrides r).

(** The arguments of a call; a device is bound by an index that is not 0. *)
Definition call_wf (c : call) : Prop :=
  match projT2 c with
  | EBindDevice _ _ i => nonzero_u32 i
  | ESetMark _ m => u32 m
  | EBind _ a => sock_wf a
  | EConnect _ a t => sock_wf a ∧ time_wf t
  | ECreate _ _ | ESetNonblocking _ | ESetNodelay _ | ESetReuse _ | ESetOnlyV6 _ | ELocalPort _
  | EFromStd _ => True
  end.

(** What is relied on: a local port is a [u16]; datagrams are not among the
    calls; the codec decodes records of their type. *)
Class TypedSockets (W : Type) `{SocketLog W} : Prop :=
  local_port_u16 s (w w' : W) p : sys (ELocalPort s) w = (w', Ok p) → u16 p.
Class DatagramsApart (W : Type) `{SocketLog W} `{Udp W} : Prop := {
  apart_send s p a : keeps calls (udp_send (W:=W) s p a);
  apart_recv s n t : keeps calls (udp_recv (W:=W) s n t);
}.
Definition rdata_wf (d : RData) : Prop :=
  match d with RdA a => ip_wf (V4 a) | RdAAAA a => ip_wf (V6 a) | RdOther _ _ => True end.
Class TypedCodec `{DnsCodec} : Prop :=
  from_vec_wf b m : from_vec b = Some m → Forall (λ r, rdata_wf (rdata r)) (answers m).

Lemma sock_is_wf i p : ip_wf i → u16 p → sock_wf (sock i p).
Proof. intros Hi Hp. split; [exact Hi|]. split; [exact Hp|]. cbn. unfold u32_max. lia. Qed.

(** ** The judgment *)

Section judgment.
Context {W : Type} `{SocketLog W}.

Definition log_wf (w : W) : Prop := Forall call_wf (calls w).
Definition well_typed {E A} (m : M W E A) (V : A → Prop) : Prop :=
  hoare log_wf m (λ a w, log_wf w ∧ V a) (λ _, log_wf).

Lemma typed_ret {E A} (a : A) (V : A → Prop) : V a → well_typed (E:=E) (m_ret a) V.
Proof. intros Ha. by apply hoare_ret. Qed.
Lemma typed_fail {E A} (e : E) (V : A → Prop) : well_typed (m_fail e) V.
Proof. by intros w Hw. Qed.
Lemma typed_lift {E A} (r : result E A) (V : A → Prop) : (∀ a, r = Ok a → V a) → well_typed (m_lift r) V.
Proof. intros Hr. apply hoare_lift; auto. Qed.
Lemma typed_bind {E A B} (m : M W E A) (k : A → M W E B) (V : A → Prop) V' :
  well_typed m V → (∀ a, V a → well_typed (k a) V') → well_typed (m_bind m k) V'.
Proof. intros Hm Hk. eapply hoare_bind; [exact Hm|]. intros a w [Hw Ha]. by apply Hk. Qed.
Lemma typed_map_err {E F A} (f : E → F) (m : M W E A) V : well_typed m V → well_typed (m_map_err f m) V.
Proof. intros Hm w Hw. specialize (Hm w Hw). unfold m_map_err. by destruct (m w) as [w' [a|e]]. Qed.
Lemma typed_try {E F A} (m : M W E A) (V : A → Prop) :
  well_typed m V → well_typed (E:=F) (m_try m) (λ r, ∀ a, r = Ok a → V a).
Proof.
  intros Hm w Hw. specialize (Hm w Hw). unfold m_try. destruct (m w) as [w' [a|e]]; [|done].
  destruct Hm. split; [done|]. congruence.
Qed.
Lemma typed_mono {E A} (m : M W E A) (V V' : A → Prop) :
  well_typed m V → (∀ a, V a → V' a) → well_typed m V'.
Proof. intros Hm HV. eapply hoare_conseq; [exact Hm|done| |done]. intros a w []. auto. Qed.
Lemma typed_sys {T} (e : SockE T) : call_wf (mk e) → well_typed (sys (W:=W) e) (λ _, True).
Proof.
  intros He w Hw. pose proof (sys_calls e w) as Hc.
  assert (Hw' : log_wf (sys e w).1) by (unfold log_wf; rewrite Hc; by apply Forall_app_2, Forall_singleton).
  by destruct (sys e w) as [w' [a|x]].
Qed.
Lemma typed_keeps {E A} (m : M W E A) : keeps calls m → well_typed m (λ _, True).
Proof.
  intros Hm w Hw. assert (Hw' : log_wf (m w).1) by (unfold log_wf; by rewrite Hm).
  by destruct (m w) as [w' [a|e]].
Qed.
(** A step whose answer is not used. *)
Lemma typed_seq {E A B} (m : M W E A) (k : A → M W E B) V' :
  well_typed m (λ _, True) → (∀ a, well_typed (k a) V') → well_typed (m_bind m k) V'.
Proof. intros Hm Hk. by eapply typed_bind; [exact Hm|intros a _]. Qed.
Lemma typed_if {E A} (b : bool) (m1 m2 : M W E A) V :
  (b = true → well_typed m1 V) → (b = false → well_typed m2 V) → well_typed (if b then m1 else m2) V.
Proof. destruct b; auto. Qed.

End judgment.

(** ** The dialer *)

Section dialer.
Context {W : Type} `{SocketLog W}.

Lemma typed_new_socket f t : well_typed (new_socket2 (W:=W) f t) (λ _, True).
Proof. unfold new_socket2. repeat (apply typed_seq; [by apply typed_map_err, typed_sys|intros]). by apply typed_ret. Qed.

Lemma typed_bind_interface s f oi : (∀ i, oi = Some i → interface_wf i) →
  well_typed (bind_socket_to_interface (W:=W) s f oi) (λ _, True).
Proof.
  intros Hi. destruct oi as [i|]; [|by apply typed_ret]. specialize (Hi i eq_refl).
  cbn [bind_socket_to_interface]. unfold bind_socket_to_interface_inner.
  apply typed_if; intros Hz; [apply typed_fail|]. apply typed_seq.
  - apply typed_map_err, typed_sys. unfold interface_wf, u32 in *. cbn. unfold nonzero_u32. lia.
  - intros _. apply typed_map_err, typed_sys. by vm_compute.
Qed.

Lemma typed_connect_tcp d dst : dialer_wf d → sock_wf dst → well_typed (connect_tcp (W:=W) d dst) (λ _, True).
Proof.
  intros [Hi Ht] Hdst. unfold connect_tcp. apply typed_seq; [apply typed_new_socket|intros s].
  apply typed_seq; [apply typed_if; intros _; [by apply typed_bind_interface|by apply typed_ret]|intros _].
  apply typed_seq; [apply typed_if; intros _; [by apply typed_map_err, typed_sys|by apply typed_ret]|intros _].
  apply typed_seq; [by apply typed_map_err, typed_sys|intros []]; [by apply typed_ret|apply typed_fail].
Qed.

(** What [bind_udp] and [bind_udp_to] have in common. *)
Lemma typed_udp_tail d a (bound : bool) s : dialer_wf d → sock_wf a →
  well_typed (W:=W)
    (do! m_map_err SetOption (sys (ESetReuse s)) in
     do! (if bound then bind_socket_to_interface s (from_addr a) (interface d) else m_ret tt) in
     do! m_map_err (SocketBind a) (sys (EBind s a)) in
     do! m_map_err SocketCreate (sys (EFromStd s)) in m_ret s) (λ _, True).
Proof.
  intros [Hi _] Ha. apply typed_seq; [by apply typed_map_err, typed_sys|intros _].
  apply typed_seq; [apply typed_if; intros _; [by apply typed_bind_interface|by apply typed_ret]|intros _].
  repeat (apply typed_seq; [by apply typed_map_err, typed_sys|intros _]). by apply typed_ret.
Qed.

Lemma typed_bind_udp d a : dialer_wf d → sock_wf a → well_typed (bind_udp (W:=W) d a) (λ _, True).
Proof.
  intros Hd Ha. apply typed_seq; [apply typed_new_socket|intros s]. by apply (typed_udp_tail d a true).
Qed.

Lemma typed_bind_udp_to d server : dialer_wf d → well_typed (bind_udp_to (W:=W) d server) (λ _, True).
Proof.
  intros Hd. apply typed_seq; [apply typed_new_socket|intros s]. apply typed_udp_tail; [done|].
  destruct (is_ipv4 _); apply sock_is_wf; cbn; unfold u16; lia.
Qed.

Lemma typed_local_port `{!TypedSockets W} {E} (f : io_error → E) s :
  well_typed (m_map_err f (sys (W:=W) (ELocalPort s))) u16.
Proof.
  apply typed_map_err. intros w Hw. pose proof (typed_sys (ELocalPort s) I w Hw) as Hl.
  pose proof (local_port_u16 s w) as Hp. destruct (sys (ELocalPort s) w) as [w' [p|e]]; [|done].
  split; [apply Hl|by apply (Hp w')].
Qed.

Lemma typed_bind_pair `{!TypedSockets W} d a4 a6 p :
  dialer_wf d → ip_wf (V4 a4) → ip_wf (V6 a6) → u16 p → well_typed (bind_udp_pair (W:=W) d a4 a6 p) (λ _, True).
Proof.
  intros Hd H4 H6 Hp. unfold bind_udp_pair. induction (Z.to_nat BIND_MAX_RETRIES) as [|n IH]; cbn [bind_pair_loop].
  all: apply typed_seq; [apply typed_bind_udp; [done|by apply sock_is_wf]|intros u4].
  all: eapply typed_bind; [apply typed_local_port|intros q Hq w Hw].
  all: pose proof (typed_bind_udp d (sock (V6 a6) q) Hd (sock_is_wf _ _ H6 Hq) w Hw) as Hb.
  all: destruct (bind_udp d (sock (V6 a6) q) w) as [w1 [u6|e]]; [exact Hb|]; try exact Hb.
  destruct (_ && _)%bool; [by apply IH|exact Hb].
Qed.

End dialer.

(** ** The resolver and the connector *)

Section resolver.
Context `{DnsNames} `{!TypedCodec} {W : Type} `{SocketLog W} `{Udp W} `{!DatagramsApart W}.

Lemma extract_addrs_wf m t : Forall (λ r, rdata_wf (rdata r)) (answers m) → Forall ip_wf (extract_addrs m t).
Proof.
  intros Hm. apply Forall_forall. intros i (r & Hr & Hi)%list_elem_of_omap.
  apply list_elem_of_In, filter_In in Hr as [Hr _]. rewrite Forall_forall in Hm.
  specialize (Hm r (proj2 (list_elem_of_In _ _) Hr)). destruct (rdata r); simplify_eq/=; exact Hm.
Qed.

Lemma typed_send_query r server wire : resolver_wf r →
  well_typed (send_query (W:=W) r server wire) (λ m, Forall (λ x, rdata_wf (rdata x)) (answers m)).
Proof.
  intros (Hd & _). apply typed_seq; [by apply typed_map_err, typed_bind_udp_to|intros s].
  apply typed_seq; [apply typed_map_err, typed_keeps, apart_send|intros _].
  apply typed_seq; [apply typed_map_err, typed_keeps, apart_recv|intros reply].
  apply typed_seq; [by apply typed_lift|intros buf]. apply typed_lift. intros m Hm.
  destruct (from_vec buf) eqn:Hv; [|done]. injection Hm as ->. by apply from_vec_wf in Hv.
Qed.

Lemma typed_query_servers r wire t ss last : resolver_wf r →
  well_typed (query_servers (W:=W) r wire t ss last) (Forall ip_wf).
Proof.
  intros Hr. revert last. induction ss as [|server ss IH]; intros last; cbn [query_servers].
  { intros w Hw. by destruct last. }
  intros w Hw. pose proof (typed_send_query r server wire Hr w Hw) as Hq.
  destruct (send_query r server wire w) as [w1 [m|e]]; [|by apply IH]. destruct Hq as [Hw1 Hm].
  pose proof (extract_addrs_wf m t Hm) as Hx. destruct (extract_addrs m t); [by apply IH|done].
Qed.

Lemma socket_addrs_wf p res : u16 p → (∀ l, res = Ok l → Forall ip_wf l) → Forall sock_wf (socket_addrs p res).
Proof.
  intros Hp Hl. destruct res as [l|e]; [|constructor]. apply Forall_map. eapply Forall_impl; [by apply Hl|].
  intros i Hi. by apply sock_is_wf.
Qed.

Lemma typed_resolve_host r host p : resolver_wf r → u16 p →
  well_typed (resolve_host (W:=W) r host p) (Forall sock_wf).
Proof.
  intros Hr Hp. unfold resolve_host. destruct (overrides r !! host) as [addrs|] eqn:Ho.
  { apply typed_ret. by apply (proj2 (proj2 Hr) host). }
  destruct (parse_ip host) as [i|] eqn:Hi.
  { apply typed_ret, (socket_addrs_wf p (Ok [i])); [done|]. intros l [= <-].
    apply Forall_singleton. by apply (parse_ip_wf host). }
  apply typed_seq; [by apply typed_lift|intros n].
  assert (Hq : ∀ t, well_typed (W:=W) (query_record r n t) (Forall ip_wf)).
  { intros t. apply typed_seq; [by apply typed_lift|intros wire]. by apply typed_query_servers. }
  eapply typed_bind; [apply typed_try, Hq|intros a Ha]. eapply typed_bind; [apply typed_try, Hq|intros b Hb].
  pose proof (Forall_app_2 _ _ _ (socket_addrs_wf p a Hp Ha) (socket_addrs_wf p b Hp Hb)) as Hall.
  destruct (_ ++ _); [apply typed_fail|by apply typed_ret].
Qed.

Lemma typed_connect_any d host addrs last : dialer_wf d → Forall sock_wf addrs →
  well_typed (connect_any (W:=W) d host addrs last) (λ _, True).
Proof.
  intros Hd. revert last. induction addrs as [|a addrs IH]; intros last Ha w Hw; [done|].
  inversion_clear Ha. cbn [connect_any]. pose proof (typed_connect_tcp d a Hd ltac:(done) w Hw) as Hc.
  destruct (connect_tcp d a w) as [w1 [s|e]]; [exact Hc|by apply IH].
Qed.

Lemma typed_connect_to c uri : dialer_wf (hc_dialer c) → resolver_wf (hc_resolver c) →
  (∀ p, uri_port uri = Some p → u16 p) → well_typed (connect_to (W:=W) c uri) (λ _, True).
Proof.
  intros Hd Hr Hu. apply (typed_bind _ _ (λ hp, u16 hp.2)).
  - apply typed_lift. intros [host p] Hp. unfold parse_uri_host_port in Hp.
    destruct (uri_host uri); [|done]. cbn in Hp. destruct (_ && _)%bool; [done|]. injection Hp as _ <-. cbn.
    destruct (uri_port uri); [by apply Hu|]. unfold u16. cbn. destruct (bool_decide _); lia.
  - intros [host p] Hp. eapply typed_bind; [by apply typed_map_err, typed_resolve_host|intros addrs Ha].
    by apply typed_connect_any.
Qed.

End resolver.

(** ** What the system answers *)

Class TypedOs (W : Type) `{Os W} : Prop := {
  interfaces_u32 (w : W) : Forall (λ i, u32 (ni_index i)) (os_interfaces w);
  default_u32 (w : W) i : os_default_if w = Some i → u32 (ni_index i);
  dns_conf_wf (w : W) ips : os_dns_conf w = Ok ips → Forall ip_wf ips;
}.

Section system.
Context {W : Type} `{TypedOs W}.

Lemma from_interface_u32 i o : from_interface i = Ok o → u32 (ni_index i) → interface_wf o.
Proof. intros Ho Hi. unfold interface_wf. apply from_interface_ok in Ho. by destruct Ho as (_ & -> & _). Qed.

Lemma lookup_wf (w : W) nm o : lookup (os_interfaces w) nm = Some o → interface_wf o.
Proof.
  unfold lookup. intros (i & Hi & Ho)%bind_Some. apply find_some in Hi as [Hi _].
  apply (from_interface_u32 i); [by destruct (from_interface i); simplify_eq/=|].
  pose proof (interfaces_u32 w) as Hall. rewrite Forall_forall in Hall. by apply Hall, list_elem_of_In.
Qed.

Lemma system_servers_wf (w : W) ss : system_dns_servers (os_dns_conf w) = Ok ss → Forall sock_wf ss.
Proof.
  unfold system_dns_servers. destruct (os_dns_conf w) as [ips|e] eqn:Hc; [|done]. cbn.
  apply dns_conf_wf in Hc. intros Hs.
  assert (Hmap : Forall sock_wf (map (λ i, sock i 53) ips)).
  { apply Forall_map. eapply Forall_impl; [exact Hc|]. intros i Hi. apply sock_is_wf; [done|]. unfold u16. lia. }
  destruct (List.filter _ _) as [|s l] eqn:Hf.
  - injection Hs as <-. apply Forall_singleton, sock_is_wf; split; by vm_compute.
  - injection Hs as <-. rewrite <- Hf. rewrite !Forall_forall in *. intros a Ha.
    apply list_elem_of_In, filter_In in Ha as [Ha _]. by apply Hmap, list_elem_of_In.
Qed.

Lemma dialer_new_wf oi : (∀ i, oi = Some i → interface_wf i) → dialer_wf (dialer_new oi).
Proof. intros Hi. split; [exact Hi|]. split; vm_compute; discriminate. Qed.

Lemma build_wf o (w : W) d r : build_dialer_and_resolver o w = Ok (d, r) → dialer_wf d ∧ resolver_wf r.
Proof.
  unfold build_dialer_and_resolver. destruct (system_dns_servers _) as [ss|e] eqn:Hs; [|done].
  intros [= <- <-].
  assert (Hd : dialer_wf (dialer_new (o ≫= lookup (os_interfaces w)))).
  { apply dialer_new_wf. intros i (nm & _ & Hi)%bind_Some. by apply lookup_wf in Hi. }
  split; [exact Hd|]. split; [exact Hd|]. split; [by apply system_servers_wf in Hs|]. apply map_Forall_empty.
Qed.

Lemma context_directed_wf config (w w' : W) ctx :
  time_wf (oc_connect_timeout config) → context_build config w = (w', Ok ctx) → dialer_wf (directed ctx).
Proof.
  intros Ht. unfold context_build.
  pose proof (resolve_spec (os_interfaces w) (os_default_if w) (configured_interface config)
    (Some (excluded_tun config)) (oc_full_tunnel config)) as Hr.
  destruct (Interface.resolve _ _ _ _ _) as [oi|e]; [|done]. destruct (lookup_tun_with_retry _ w) as [w1 t].
  destruct (system_dns_servers _); [|done]. intros [= _ <-]. split; [|exact Ht]. cbn. intros i ->.
  destruct Hr as ((n & Hn & Hi & _) & _). apply (from_interface_u32 n); [done|].
  destruct Hn as [Hn|Hn]; [|by apply default_u32 in Hn].
  pose proof (interfaces_u32 w) as Hall. rewrite Forall_forall in Hall. by apply Hall.
Qed.

End system.

(** A client that the code can build on [w0]: for the tenant's server, or for a
    node with its address pinned. *)
Definition built_client {W} `{Os W} show (o : option string) (w0 : W) (http : HttpClient) : Prop :=
  build_http_client show o w0 = Ok http ∨
  ∃ host addr, sock_wf addr ∧ build_dot_http_client show host addr o w0 = Ok http.

Lemma built_client_wf {W} `{TypedOs W} show o (w0 : W) http : built_client show o w0 http →
  dialer_wf (hc_dialer (http_connector http)) ∧ resolver_wf (hc_resolver (http_connector http)).
Proof.
  assert (Hb : ∀ d r, build_dialer_and_resolver o w0 = Ok (d, r) → dialer_wf d ∧ resolver_wf r) by apply build_wf.
  intros [Hh|(host & addr & Ha & Hh)]; unfold build_http_client, build_dot_http_client in Hh.
  - destruct (build_dialer_and_resolver o w0) as [[d r]|e]; [|done]. injection Hh as <-. by apply Hb.
  - destruct (build_dialer_and_resolver o w0) as [[d r]|e]; [|done]. injection Hh as <-.
    destruct (Hb d r eq_refl) as (Hd & Hrd & Hs & Ho). split; [exact Hd|]. split; [exact Hrd|]. split; [exact Hs|].
    apply map_Forall_insert_2; [|exact Ho]. apply Forall_app_2; [|by apply Forall_singleton].
    destruct (overrides r !! host) as [l|] eqn:Hl; [|constructor]. by apply (Ho host).
Qed.

(** ** Properties *)

(** C17: Every call on a socket is made with arguments of its type: given typed
    answers of the system, the DNS codec and the URI parser, a client built for
    the tenant or for a node, whatever it is asked to connect to, and the
    sockets of WireGuard opened over the connect's own interface, bind a device
    only by a non-zero index, bind and dial well-formed addresses, and wait no
    longer than a duration can say. *)
Theorem calls_typed `{DnsNames} `{!TypedCodec} {W} `{TypedOs W} `{SocketLog W} `{Udp W}
    `{!DatagramsApart W} `{!TypedSockets W} show o (w0 : W) http config w1 ctx :
  built_client show o w0 http →
  time_wf (oc_connect_timeout config) → context_build config w0 = (w1, Ok ctx) →
  ∀ w, log_wf w →
    (∀ uri, (∀ p, uri_port uri = Some p → u16 p) → log_wf (connect_to (http_connector http) uri w).1) ∧
    (∀ to_string params, ip_wf (V4 (tp_addr_v4 params)) → ip_wf (V6 (tp_addr_v6 params)) → u16 (tp_port params) →
      log_wf (udp_factory_bind to_string (udp_factory_new (directed ctx)) params w).1).
Proof.
  intros Hh Ht Hc w Hw. apply built_client_wf in Hh as [Hd Hr]. apply context_directed_wf in Hc; [|done]. split.
  - intros uri Hu. pose proof (typed_connect_to _ uri Hd Hr Hu w Hw) as Hk.
    destruct (connect_to _ uri w) as [w' [s|e]]; [apply Hk|exact Hk].
  - intros to_string params Ha4 Ha6 Hp.
    assert (Hk : well_typed (udp_factory_bind to_string (udp_factory_new (directed ctx)) params) (λ _, True)).
    { apply typed_seq; [by apply typed_map_err, typed_bind_pair|intros; by apply typed_ret]. }
    specialize (Hk w Hw). destruct (udp_factory_bind _ _ params w) as [w' [s|e]]; [apply Hk|exact Hk].
Qed.

(** ** Witnesses *)

#[local] Instance silent_ports : TypedSockets Silent.world.
Proof. intros s w w' p [= _ <-]. cbn. unfold u16. lia. Qed.
#[local] Instance silent_apart : DatagramsApart Silent.world.
Proof. by split. Qed.
#[local] Instance pinned_os : TypedOs Silent.world.
Proof.
  split; intros w.
  - repeat constructor; vm_compute; discriminate.
  - intros i [= <-]. split; vm_compute; discriminate.
  - intros ips [= <-]. repeat constructor; vm_compute; discriminate.
Qed.
#[local] Instance toy_typed : @TypedCodec Toy.codec.
Proof. intros [|t l] m; cbn; [done|]. intros [= <-]. constructor. Qed.

Lemma calls_typed_witness :
  ∃ http ctx, build_dot_http_client Pinned.show "vpn.example.com" (sock (V4 (v4 192 0 2 7)) 8443) (Some "eth0")
      (([], []) : Silent.world) = Ok http ∧
    log_wf (connect_to (W:=Silent.world) (http_connector http) Pinned.uri ([], [])).1 ∧
    log_wf (udp_factory_bind (W:=Silent.world) (λ _, "dialer") (udp_factory_new (directed ctx))
              {| tp_addr_v4 := 0; tp_addr_v6 := 0; tp_port := 0 |} ([], [])).1.
Proof.
  set (built := build_dot_http_client _ _ _ _ _). assert (Hok : is_ok built = true) by (vm_compute; reflexivity).
  destruct built as [http|e] eqn:E; [|discriminate Hok]. subst built.
  set (con := context_build OneCard.config (([], []) : Silent.world)).
  assert (Hc : is_ok con.2 = true) by (vm_compute; reflexivity).
  destruct con as [w1 [ctx|e]] eqn:Ec; [|discriminate Hc]. subst con. exists http, ctx. split; [reflexivity|].
  assert (Hw : log_wf (([], []) : Silent.world)) by constructor.
  assert (Hb : built_client (W:=Silent.world) Pinned.show (Some "eth0") ([], []) http).
  { right. exists "vpn.example.com", (sock (V4 (v4 192 0 2 7)) 8443). split; [|exact E].
    split; [split; vm_compute; [discriminate|reflexivity]|]. split; split; vm_compute; (discriminate || reflexivity). }
  assert (Ht : time_wf (oc_connect_timeout OneCard.config)) by (split; vm_compute; discriminate).
  destruct (calls_typed (W:=Silent.world) Pinned.show (Some "eth0") ([], []) http OneCard.config w1 ctx Hb Ht Ec
    ([], []) Hw) as [Hk Hu].
  split.
  - apply Hk. intros p [= <-]. split; vm_compute; (discriminate || reflexivity).
  - apply Hu; split; vm_compute; (discriminate || reflexivity).
Defined.

End CallTypes.
