(* ===== verification/Persist.v ===== *)
(** * Persistence ([daemon/src/persist.rs], the configuration half of
      [daemon/src/daemon.rs])

    The two files of the daemon and the write that replaces them.  A file
    system is a directory of inodes with volatile and durable contents, so
    that a crash, a power loss and two writers can be told apart.  The JSON
    codec (serde) is the interface [PersistSerde]. *)

From S2P Require Import Prelude RustStr Net Models Signing Api Login VpnState.
Import Models Signing Api Login.

Module Persist.

Abbreviation bytes := (list ascii) (only parsing).

(** ** The file system ([std::fs], [tokio::fs]) *)

Record Inode : Type := { volatile : list ascii; durable : list ascii; mode_bits : Z }.
(** [past_dirs]: the directory as it was before each of its changes.  Nothing
    syncs the directory, so a power loss may bring any of them back. *)
Record Fs : Type := {
  dir : gmap string nat; past_dirs : list (gmap string nat); inodes : gmap nat Inode; next_ino : nat;
}.
Definition set_dir (d : gmap string nat) (fs : Fs) : Fs :=
  {| dir := d; past_dirs := dir fs :: past_dirs fs; inodes := inodes fs; next_ino := next_ino fs |}.

(** What reading a path gives now, and what it may give after a power loss. *)
Definition content (fs : Fs) (path : string) : option (list ascii) :=
  i ← dir fs !! path; volatile <$> inodes fs !! i.
Definition survives (fs : Fs) (path : string) (b : option (list ascii)) : Prop :=
  ∃ d, d ∈ dir fs :: past_dirs fs ∧ b = (i ← d !! path; durable <$> inodes fs !! i).

Inductive FileOp : Type :=
  | CreateDirAll (path : string)
  | OpenTruncate (path : string) (mode : Z)
  | WriteChunk (data : list ascii)
  | SyncAll
  | SetPermissions (path : string) (mode : Z)
  | Rename (src dst : string).

(** A writer: its open file, if any. *)
Definition handle : Type := option nat.

Definition upd_inode (fs : Fs) (i : nat) (f : Inode → Inode) : Fs :=
  {| dir := dir fs; past_dirs := past_dirs fs; inodes := alter f i (inodes fs); next_ino := next_ino fs |}.

(** One operation of a writer that succeeds; [None]: it cannot (a missing
    path). *)
Definition file_step (op : FileOp) (h : handle) (fs : Fs) : option (handle * Fs) :=
  match op with
  | CreateDirAll _ => Some (h, fs)
  | OpenTruncate path mode =>
      match dir fs !! path with
      | Some i =>
          Some (Some i, upd_inode fs i (λ n,
            {| volatile := []; durable := durable n; mode_bits := mode_bits n |}))
      | None =>
          let i := next_ino fs in
          Some (Some i, {| dir := <[path := i]> (dir fs); past_dirs := dir fs :: past_dirs fs;
                           inodes := <[i := {| volatile := []; durable := []; mode_bits := mode |}]> (inodes fs);
                           next_ino := S i |})
      end
  | WriteChunk data =>
      i ← h;
      Some (h, upd_inode fs i (λ n,
        {| volatile := volatile n ++ data; durable := durable n; mode_bits := mode_bits n |}))
  | SyncAll =>
      i ← h;
      Some (h, upd_inode fs i (λ n,
        {| volatile := volatile n; durable := volatile n; mode_bits := mode_bits n |}))
  | SetPermissions path mode =>
      i ← dir fs !! path;
      Some (h, upd_inode fs i (λ n,
        {| volatile := volatile n; durable := durable n; mode_bits := mode |}))
  | Rename src dst =>
      i ← dir fs !! src;
      Some (h, set_dir (<[dst := i]> (delete src (dir fs))) fs)
  end.

(** ** Errors and paths *)

(* @daemon/src/persist.rs:20-55 Error *)
Inductive PersistError : Type :=
  | Read (path : string) (source : io_error)
  | Write (path : string) (source : io_error)
  | CreateDir (path : string) (source : io_error)
  | Parse (path source : string)
  | Serialize (source : string)
  | Delete (path : string) (source : io_error).

(** [Path::parent] and [Path::with_extension]: the directory of a path and
    the path with its extension replaced. *)
Fixpoint split_last (c : ascii) (l : list ascii) : option (list ascii * list ascii) :=
  match l with
  | [] => None
  | a :: l' =>
      match split_last c l' with
      | Some (x, y) => Some (a :: x, y)
      | None => if Ascii.eqb a c then Some ([], l') else None
      end
  end.
Definition path_parent (path : string) : option string :=
  (λ p, of_bytes p.1) <$> split_last "/" (bytes_of path).
Definition with_extension (path ext : string) : string :=
  let '(d, name) := match split_last "/" (bytes_of path) with
                    | Some (d, n) => (d ++ bytes_of "/", n)
                    | None => ([], bytes_of path)
                    end in
  let stem := match split_last "." name with Some (s, _) => s | None => name end in
  of_bytes (d ++ stem) +:+ "." +:+ ext.

(** ** [atomic_write] *)

(** The world of a writer: its handle, the file system and the fate of its
    next operations ([Some e]: the operation fails). *)
Record Writer : Type := { w_handle : handle; w_fs : Fs; w_faults : list (option io_error) }.

Definition file_op (op : FileOp) : M Writer io_error unit := λ w,
  let faults := tl (w_faults w) in
  let stuck e := ({| w_handle := w_handle w; w_fs := w_fs w; w_faults := faults |}, Err e) in
  match hd None (w_faults w) with
  | Some e => stuck e
  | None =>
      match file_step op (w_handle w) (w_fs w) with
      | Some (h, fs) => ({| w_handle := h; w_fs := fs; w_faults := faults |}, Ok tt)
      | None => stuck (IoError NotFound "No such file or directory")
      end
  end.

(** The operations of a write whose data reaches the file in [chunks]. *)
Definition write_script (path : string) (chunks : list (list ascii)) : list (FileOp * (io_error → PersistError)) :=
  let tmp := with_extension path "tmp" in
  match path_parent path with Some p => [(CreateDirAll p, CreateDir p)] | None => [] end
  ++ [(OpenTruncate tmp 384, Write tmp)]
  ++ map (λ c, (WriteChunk c, Write tmp)) chunks
  ++ [(SyncAll, Write tmp); (SetPermissions tmp 384, Write tmp); (Rename tmp path, Write path)].
(* @daemon/src/persist.rs:322-366 atomic_write *)
Definition atomic_write (path : string) (chunks : list (list ascii)) : M Writer PersistError unit :=
  m_for (write_script path chunks) (λ step, m_map_err step.2 (file_op step.1)).

(** ** The files *)

(* @daemon/src/persist.rs:98-123 DeviceIdentityConfig *)
Record DeviceIdentityConfig : Type := {
  di_device_id : string; di_os : option string; di_os_version : option string;
  di_app_version : option string; di_brand : option string; di_model : option string;
  di_build_number : option string; di_os_version_patch : option string;
  di_client_source : option string; di_language : option string; di_user_agent : option string;
}.

(* @daemon/src/persist.rs:64-90 DaemonConfig *)
Record DaemonConfig : Type := {
  dc_identity : DeviceIdentityConfig;
  dc_outbound_interface : option string;
  dc_fallback_dns : option (list string);
  dc_tun_interface : option string;
  dc_auto_reconnect : bool;
  dc_dns_listen_port : option Z;
  dc_dns_listen_host : option string;
  dc_route_system_dns : option bool;
}.

Definition identity_config_default : DeviceIdentityConfig :=
  {| di_device_id := ""; di_os := None; di_os_version := None; di_app_version := None;
     di_brand := None; di_model := None; di_build_number := None; di_os_version_patch := None;
     di_client_source := None; di_language := None; di_user_agent := None |}.
Definition config_default : DaemonConfig :=
  {| dc_identity := identity_config_default; dc_outbound_interface := None; dc_fallback_dns := None;
     dc_tun_interface := None; dc_auto_reconnect := false; dc_dns_listen_port := None;
     dc_dns_listen_host := None; dc_route_system_dns := None |}.

(* @daemon/src/persist.rs:127-148 DeviceIdentityConfig::is_full *)
Definition is_full (c : DeviceIdentityConfig) : bool :=
  non_blank (di_device_id c)
  && forallb (λ f, is_some_and f non_blank)
       [di_os c; di_os_version c; di_app_version c; di_brand c; di_model c; di_build_number c;
        di_os_version_patch c; di_client_source c; di_language c; di_user_agent c].

(* @daemon/src/persist.rs:178-182 merge_field *)
Definition merge_field (slot : option string) (default : string) : option string :=
  if is_none_or slot (λ v, negb (non_blank v)) then Some default else slot.

(** [dev] is the machine's default device id. *)
(* @daemon/src/persist.rs:155-174 DeviceIdentityConfig::ensure_full *)
Definition ensure_full (dev : string) (c : DeviceIdentityConfig) : DeviceIdentityConfig * bool :=
  if is_full c then (c, false)
  else
    let d := identity_default dev in
    ({| di_device_id := if non_blank (di_device_id c) then di_device_id c else device_id d;
        di_os := merge_field (di_os c) (os d);
        di_os_version := merge_field (di_os_version c) (os_version d);
        di_app_version := merge_field (di_app_version c) (app_version d);
        di_brand := merge_field (di_brand c) (brand d);
        di_model := merge_field (di_model c) (model d);
        di_build_number := merge_field (di_build_number c) (build_number d);
        di_os_version_patch := merge_field (di_os_version_patch c) (os_version_patch d);
        di_client_source := merge_field (di_client_source c) (client_source d);
        di_language := merge_field (di_language c) (language d);
        di_user_agent := merge_field (di_user_agent c) (user_agent d) |}, true).

(* @daemon/src/daemon.rs:780-813 DaemonConfig::to_client_identity *)
Definition to_client_identity (dev : string) (c : DaemonConfig) : ClientIdentity :=
  let d := identity_default dev in
  let id := dc_identity c in
  let or_default value fallback := default fallback (opt_filter non_blank value) in
  {| os := or_default (di_os id) (os d); os_version := or_default (di_os_version id) (os_version d);
     app_version := or_default (di_app_version id) (app_version d);
     brand := or_default (di_brand id) (brand d); model := or_default (di_model id) (model d);
     device_id := if non_blank (di_device_id id) then di_device_id id else device_id d;
     build_number := or_default (di_build_number id) (build_number d);
     os_version_patch := or_default (di_os_version_patch id) (os_version_patch d);
     client_source := or_default (di_client_source id) (client_source d);
     language := or_default (di_language id) (language d);
     user_agent := or_default (di_user_agent id) (user_agent d) |}.

(* @daemon/src/persist.rs:206-217 TenantConfig *)
Record TenantConfig : Type := {
  tc_base_url : string; tc_backup_url : option string; tc_use_backup : bool; tc_name : string;
}.
(* @daemon/src/persist.rs:219-225 PersistedSigningConfig *)
Record PersistedSigningConfig : Type := {
  ps_enabled : bool; ps_activation_code : string; ps_device_id : string;
}.
(* @daemon/src/persist.rs:227-234 PersistedTotpConfig *)
Record PersistedTotpConfig : Type := { pt_url : string; pt_time_diff_seconds : Z }.

(* @daemon/src/persist.rs:262-281 PersistedCredentials *)
Record PersistedCredentials : Type := {
  pc_tenant : TenantConfig;
  pc_signing : PersistedSigningConfig;
  pc_cookies : gmap string string;
  pc_knock_token : option string;
  pc_totp : option PersistedTotpConfig;
  pc_login_api_version : LoginApiVersion;
  pc_last_vpn_request : option PersistedVpnRequest;
  pc_saved_at : string;
}.

(** The JSON codec: what it writes it reads back. *)
Class PersistSerde : Type := {
  config_to_json : DaemonConfig → result string (list ascii);
  config_of_json : list ascii → result string DaemonConfig;
  creds_to_json : PersistedCredentials → result string (list ascii);
  creds_of_json : list ascii → result string PersistedCredentials;
  config_json_roundtrip c b : config_to_json c = Ok b → config_of_json b = Ok c;
  creds_json_roundtrip c b : creds_to_json c = Ok b → creds_of_json b = Ok c;
}.

(** [tokio::fs::read], [tokio::fs::remove_file]; [fault] is a failure that is
    not a missing file. *)
Definition fs_read (fs : Fs) (path : string) (fault : option io_error) : result io_error (list ascii) :=
  match fault with
  | Some e => Err e
  | None => ok_or (content fs path) (IoError NotFound "No such file or directory")
  end.
Definition fs_remove (fs : Fs) (path : string) (fault : option io_error) : Fs * result io_error unit :=
  match fault with
  | Some e => (fs, Err e)
  | None =>
      match dir fs !! path with
      | Some _ => (set_dir (delete path (dir fs)) fs, Ok tt)
      | None => (fs, Err (IoError NotFound "No such file or directory"))
      end
  end.

Section files.
Context `{PersistSerde}.

(* @daemon/src/persist.rs:186-197 DaemonConfig::load_or_default *)
Definition load_or_default (fs : Fs) (path : string) (fault : option io_error) :
    result PersistError DaemonConfig :=
  match fs_read fs path fault with
  | Ok b => map_err (Parse path) (config_of_json b)
  | Err e => if bool_decide (io_error_kind e = NotFound) then Ok config_default else Err (Read path e)
  end.

(** How [write_all] cuts the data; any cut gives back the data. *)
Variable cut : list ascii → list (list ascii).

(* @daemon/src/persist.rs:199-203 DaemonConfig::save *)
Definition config_save (c : DaemonConfig) (path : string) : M Writer PersistError unit :=
  let! b := m_lift (map_err Serialize (config_to_json c)) in
  atomic_write path (cut b).

(* @daemon/src/persist.rs:284-299 PersistedCredentials::load *)
Definition creds_load (fs : Fs) (path : string) (fault : option io_error) :
    result PersistError (option PersistedCredentials) :=
  match fs_read fs path fault with
  | Ok b => let? c := map_err (Parse path) (creds_of_json b) in Ok (Some c)
  | Err e => if bool_decide (io_error_kind e = NotFound) then Ok None else Err (Read path e)
  end.

(* @daemon/src/persist.rs:302-305 PersistedCredentials::save *)
Definition creds_save (c : PersistedCredentials) (path : string) : M Writer PersistError unit :=
  let! b := m_lift (map_err Serialize (creds_to_json c)) in
  atomic_write path (cut b).

(* @daemon/src/persist.rs:307-319 PersistedCredentials::delete *)
Definition creds_delete (fs : Fs) (path : string) (fault : option io_error) :
    Fs * result PersistError unit :=
  match fs_remove fs path fault with
  | (fs', Ok _) => (fs', Ok tt)
  | (fs', Err e) =>
      if bool_decide (io_error_kind e = NotFound) then (fs', Ok tt) else (fs', Err (Delete path e))
  end.

End files.

Example tmp_names :
  with_extension "/etc/rustylink/credentials.json" "tmp" = "/etc/rustylink/credentials.tmp" ∧
  path_parent "/etc/rustylink/config.json" = Some "/etc/rustylink".
Proof. split; vm_compute; reflexivity. Qed.

(** ** Two writes at once

    The daemon releases its lock before it saves, so that two saves of one
    file can overlap.  [overlap] runs the operations of two writers in the
    order of a schedule; a writer whose operation fails stops. *)
Fixpoint overlap (sched : list bool) (p1 p2 : list FileOp) (h1 h2 : handle) (fs : Fs) : Fs :=
  match sched with
  | [] => fs
  | true :: sched' =>
      match p1 with
      | [] => overlap sched' [] p2 h1 h2 fs
      | op :: p1' =>
          match file_step op h1 fs with
          | Some (h1', fs') => overlap sched' p1' p2 h1' h2 fs'
          | None => overlap sched' [] p2 h1 h2 fs
          end
      end
  | false :: sched' =>
      match p2 with
      | [] => overlap sched' p1 [] h1 h2 fs
      | op :: p2' =>
          match file_step op h2 fs with
          | Some (h2', fs') => overlap sched' p1 p2' h1 h2' fs'
          | None => overlap sched' p1 [] h1 h2 fs
          end
      end
  end.
Definition write_ops (path : string) (data : list ascii) : list FileOp :=
  map fst (write_script path [data]).

(** ** Lemmas: a write and the target file *)

(** A path in good order: it is not its own temporary file, and no version of
    the directory gives the two the same file. *)
Definition path_ok (path : string) (fs : Fs) : Prop :=
  let tmp := with_extension path "tmp" in
  tmp ≠ path ∧
  ∀ d, d ∈ dir fs :: past_dirs fs →
    (∀ i, d !! path = Some i → (i < next_ino fs)%nat ∧ dir fs !! tmp ≠ Some i ∧ d !! tmp ≠ Some i) ∧
    (∀ i, d !! tmp = Some i → (i < next_ino fs)%nat ∧ is_Some (inodes fs !! i)).

Section runs.
Variable untouched : Fs → Prop.

(** A list of operations started in [P] ends in [Q], or stops with
    [untouched]. *)
Definition safe (l : list (FileOp * (io_error → PersistError))) (P Q : handle → Fs → Prop) : Prop :=
  ∀ w, P (w_handle w) (w_fs w) →
    match m_for l (λ step, m_map_err step.2 (file_op step.1)) w with
    | (w', Ok _) => Q (w_handle w') (w_fs w')
    | (w', Err _) => untouched (w_fs w')
    end.

Lemma safe_app l1 l2 P Q R : safe l1 P Q → safe l2 Q R → safe (l1 ++ l2) P R.
Proof.
  intros H1 H2 w HP. specialize (H1 w HP). rewrite (m_for_app l1 l2 _ w). cbn.
  destruct (m_for l1 _ w) as [w1 [[]|e]]; [by apply H2|exact H1].
Qed.

Lemma safe_nil P : safe [] P P.
Proof. intros w HP. exact HP. Qed.

Lemma safe_op op e P Q :
  (∀ h fs, P h fs → untouched fs) →
  (∀ h fs h' fs', P h fs → file_step op h fs = Some (h', fs') → Q h' fs') →
  safe [(op, e)] P Q.
Proof.
  intros HP HQ w Hw. cbn [m_for]. unfold m_bind, m_map_err, file_op. cbn [fst snd].
  destruct (hd None (w_faults w)) as [e'|]; [by eapply HP|].
  destruct (file_step op (w_handle w) (w_fs w)) as [[h' fs']|] eqn:Hs; cbn; [by eapply HQ|by eapply HP].
Qed.

End runs.

Section crash.
Variables (fs0 : Fs) (path : string).
Abbreviation tmp := (with_extension path "tmp").

(** The target file reads as it did at the start; it reads as [data], and may
    read after a power loss as that or as it did. *)
Definition untouched (fs : Fs) : Prop :=
  path_ok path fs ∧ content fs path = content fs0 path ∧
  ∀ b, survives fs path b → survives fs0 path b.
Definition replaced (data : list ascii) (fs : Fs) : Prop :=
  path_ok path fs ∧ content fs path = Some data ∧
  ∀ b, survives fs path b → b = Some data ∨ survives fs0 path b.

(** The temporary file is open and holds [data]; the target is another file,
    as it was, in every version of the directory. *)
Definition writing (data : list ascii) (synced : bool) (h : handle) (fs : Fs) : Prop :=
  path_ok path fs0 ∧ (next_ino fs0 ≤ next_ino fs)%nat ∧ dir fs !! path = dir fs0 !! path ∧
  (∀ i, is_Some (inodes fs0 !! i) → is_Some (inodes fs !! i)) ∧
  ∃ j n, (∀ d, d ∈ dir fs :: past_dirs fs → ∃ d0, d0 ∈ dir fs0 :: past_dirs fs0 ∧
            d !! path = d0 !! path ∧ (d !! tmp = d0 !! tmp ∨ d !! tmp = Some j)) ∧
    h = Some j ∧ dir fs !! tmp = Some j ∧ (j < next_ino fs)%nat ∧
    inodes fs !! j = Some n ∧ volatile n = data ∧ (synced = true → durable n = data) ∧
    ∀ d0 i, d0 ∈ dir fs0 :: past_dirs fs0 → d0 !! path = Some i →
            (i < next_ino fs0)%nat ∧ i ≠ j ∧ inodes fs !! i = inodes fs0 !! i.

Lemma writing_reads data b h fs (d d0 : gmap string nat) :
  writing data b h fs → d0 ∈ dir fs0 :: past_dirs fs0 → d !! path = d0 !! path →
  (i ← d !! path; inodes fs !! i) = (i ← d0 !! path; inodes fs0 !! i).
Proof.
  intros (_ & _ & _ & _ & j & n & _ & _ & _ & _ & _ & _ & _ & Hi) Hd0 ->.
  destruct (d0 !! path) as [i|] eqn:Hp; [|done]. cbn. by destruct (Hi d0 i Hd0 Hp) as (_ & _ & ->).
Qed.

Lemma writing_survives data b h fs c :
  writing data b h fs → survives fs path c → survives fs0 path c.
Proof.
  intros Hw (d & Hd & ->). pose proof Hw as (_ & _ & _ & _ & j & n & Hdirs & _).
  destruct (Hdirs d Hd) as (d0 & Hd0 & Hp & _). exists d0. split; [done|].
  pose proof (writing_reads _ _ _ _ _ _ Hw Hd0 Hp) as Hr. rewrite Hp in *.
  destruct (d0 !! path) as [i|]; cbn in *; [by rewrite Hr|done].
Qed.

Lemma writing_untouched data b h fs : writing data b h fs → untouched fs.
Proof.
  intros Hw. pose proof Hw as ([Hne Hok] & Hle & Hp & Hdom & j & n & Hdirs & _ & Ht & Hj & Hn & _ & _ & Hi).
  split; [|split; [|by intros c; apply (writing_survives _ _ _ _ _ Hw)]].
  - split; [done|]. rewrite Ht. intros d Hd. destruct (Hdirs d Hd) as (d0 & Hd0 & Heq & Htmp).
    destruct (Hok d0 Hd0) as [Hpath Htmp0]. split.
    + intros i Hdi. rewrite Heq in Hdi. destruct (Hi d0 i Hd0 Hdi) as (Hlt & Hij & _).
      destruct (Hpath i Hdi) as (_ & _ & Hdt). split; [lia|]. split; [congruence|].
      destruct Htmp as [->| ->]; congruence.
    + intros i Hdi. destruct Htmp as [Htmp|Htmp]; rewrite Htmp in Hdi; [|injection Hdi as <-; by rewrite Hn].
      destruct (Htmp0 i Hdi) as [Hlt Hsome]. split; [lia|by apply Hdom].
  - assert (Hd0 : dir fs0 ∈ dir fs0 :: past_dirs fs0) by left.
    pose proof (writing_reads _ _ _ _ _ _ Hw Hd0 Hp) as Hr. unfold content. rewrite Hp in *.
    destruct (dir fs0 !! path) as [i|]; cbn in *; [by rewrite Hr|done].
Qed.

Abbreviation safe := (safe untouched).

Lemma writing_upd data data' b b' h fs j f :
  writing data b h fs → h = Some j →
  (∀ n, volatile n = data → (b = true → durable n = data) →
        volatile (f n) = data' ∧ (b' = true → durable (f n) = data')) →
  writing data' b' h (upd_inode fs j f).
Proof.
  intros (Hok & Hle & Hp & Hdom & j' & n & Hdirs & -> & Ht & Hlt & Hj & Hv & Hd & Hi) [= <-] Hf.
  destruct (Hf n Hv Hd) as [Hv' Hd']. do 3 (split; [done|]). split.
  { intros i Hsome. cbn. rewrite lookup_alter_is_Some. by apply Hdom. }
  exists j', (f n). do 4 (split; [done|]). split; [by cbn; rewrite lookup_alter_eq, Hj|]. do 2 (split; [done|]).
  intros d0 i Hd0 Hpi. destruct (Hi d0 i Hd0 Hpi) as (Hl & Hij & Heq). do 2 (split; [done|]).
  cbn. by rewrite lookup_alter_ne.
Qed.

Lemma safe_chunks e x chunks :
  safe (map (λ c, (WriteChunk c, e)) chunks) (writing x false) (writing (x ++ concat chunks) false).
Proof.
  revert x. induction chunks as [|c chunks IH]; intros x; cbn [map concat].
  { rewrite app_nil_r. apply safe_nil. }
  rewrite app_assoc. apply (safe_app _ [_]) with (Q := writing (x ++ c) false); [|apply IH].
  apply safe_op; [intros ? ?; apply writing_untouched|]. intros h fs h' fs' Hw Hs. cbn in Hs.
  destruct h as [j|]; [|done]. injection Hs as <- <-.
  eapply writing_upd; [exact Hw|done|]. intros n <- _. done.
Qed.

Lemma open_writing mode h fs h' fs' :
  path_ok path fs0 → fs = fs0 → file_step (OpenTruncate tmp mode) h fs = Some (h', fs') →
  writing [] false h' fs'.
Proof.
  intros Hok -> Hs. pose proof Hok as [Hne Hall]. cbn in Hs.
  assert (Hd0 : dir fs0 ∈ dir fs0 :: past_dirs fs0) by left.
  assert (Hcur : ∀ d, d ∈ dir fs0 :: past_dirs fs0 →
    ∃ d0, d0 ∈ dir fs0 :: past_dirs fs0 ∧ d !! path = d0 !! path ∧
          (d !! tmp = d0 !! tmp ∨ d !! tmp = Some (default 0%nat h'))) by (intros d Hd; eauto).
  destruct (dir fs0 !! tmp) as [i|] eqn:Ht; injection Hs as <- <-.
  - destruct (proj2 (Hall _ Hd0) i Ht) as [Hlt [n Hn]]. do 3 (split; [done|]). split.
    { intros k Hk. cbn. by rewrite lookup_alter_is_Some. }
    exists i, {| volatile := []; durable := durable n; mode_bits := mode_bits n |}. cbn.
    do 4 (split; [done|]). rewrite lookup_alter_eq, Hn. do 3 (split; [done|]). intros d0 k Hk0 Hk.
    destruct (proj1 (Hall d0 Hk0) k Hk) as (Hlk & Hki & _). assert (k ≠ i) by congruence.
    do 2 (split; [done|]). by rewrite lookup_alter_ne.
  - split; [done|]. cbn. split; [lia|]. rewrite lookup_insert_ne by done. split; [done|]. split.
    { intros k Hk. destruct (decide (k = next_ino fs0)) as [->|]; [by rewrite lookup_insert_eq|].
      by rewrite lookup_insert_ne. }
    exists (next_ino fs0), {| volatile := []; durable := []; mode_bits := mode |}.
    rewrite !lookup_insert_eq. split; [|split; [done|]; split; [done|]; split; [lia|]; do 3 (split; [done|])].
    { intros d Hd. apply elem_of_cons in Hd as [->|Hd]; [|by eauto].
      exists (dir fs0). rewrite lookup_insert_ne, lookup_insert_eq by done. split; [by left|]. by split; [|right]. }
    intros d0 k Hk0 Hk. destruct (proj1 (Hall d0 Hk0) k Hk) as [Hlt _]. assert (k ≠ next_ino fs0) by lia.
    do 2 (split; [done|]). by rewrite lookup_insert_ne.
Qed.

Lemma rename_replaced data h fs h' fs' :
  writing data true h fs → file_step (Rename tmp path) h fs = Some (h', fs') → replaced data fs'.
Proof.
  intros Hw. destruct (writing_untouched _ _ _ _ Hw) as ([Hne Hok] & _).
  pose proof Hw as (_ & Hle & _ & _ & j & n & Hdirs & -> & Ht & Hlt & Hj & Hv & Hd & Hi).
  cbn. rewrite Ht. cbn. intros [= <- <-]. split; [|split].
  - split; [done|]. cbn. rewrite lookup_insert_ne, lookup_delete_eq by done.
    intros d Hdi. apply elem_of_cons in Hdi as [->|Hdi].
    + rewrite lookup_insert_eq, lookup_insert_ne, lookup_delete_eq by done.
      by split; [intros i [= <-]|].
    + destruct (Hok d Hdi) as [Hp Htmp]. split; [|done].
      intros i Hdp. destruct (Hp i Hdp) as (? & _ & ?). done.
  - unfold content. cbn. rewrite lookup_insert_eq. cbn. by rewrite Hj, <- Hv.
  - intros c (d & Hdi & ->). cbn in Hdi. apply elem_of_cons in Hdi as [->|Hdi].
    + left. cbn. rewrite lookup_insert_eq. cbn. rewrite Hj. cbn. by rewrite Hd.
    + right. apply (writing_survives _ _ _ _ _ Hw). by exists d.
Qed.

Lemma safe_write_script chunks :
  path_ok path fs0 →
  safe (write_script path chunks) (λ _ fs, fs = fs0) (λ _ fs, replaced (concat chunks) fs).
Proof.
  intros Hok. unfold write_script. cbn zeta.
  assert (H0 : ∀ (h : handle) fs, fs = fs0 → untouched fs) by (intros h fs ->; split; [exact Hok|]; split; [done|]; by intros b).
  assert (Hw : ∀ x b (h : handle) fs, writing x b h fs → untouched fs)
    by (intros x b h fs; apply writing_untouched).
  apply safe_app with (Q := λ _ fs, fs = fs0).
  { destruct (path_parent path); [|apply safe_nil].
    apply safe_op; [done|]. intros h fs h' fs' -> Hs. cbn in Hs. congruence. }
  apply safe_app with (Q := writing [] false).
  { apply safe_op; [done|]. intros h fs h' fs' Hfs Hs. by eapply open_writing. }
  apply safe_app with (Q := writing (concat chunks) false); [apply (safe_chunks _ [])|].
  apply (safe_app _ [_]) with (Q := writing (concat chunks) true).
  { apply safe_op; [by apply Hw|]. intros h fs h' fs' Hi Hs. cbn in Hs.
    destruct h as [j|]; [|done]. injection Hs as <- <-.
    eapply writing_upd; [exact Hi|done|]. intros n <- _. done. }
  apply (safe_app _ [_]) with (Q := writing (concat chunks) true).
  { apply safe_op; [by apply Hw|]. intros h fs h' fs' Hi Hs. cbn in Hs.
    pose proof Hi as (_ & _ & _ & _ & j & n & _ & Hh & Ht & _). rewrite Ht in Hs. cbn in Hs. injection Hs as <- <-.
    eapply writing_upd; [exact Hi|done|]. intros k <- Hd. done. }
  apply safe_op; [by apply Hw|]. intros h fs h' fs'. apply rename_replaced.
Qed.

End crash.

(** A write leaves every other file alone. *)
Section apart.
Variables (path other : string) (fs0 : Fs).
Abbreviation tmp := (with_extension path "tmp").

(** [other] is neither the target nor its temporary file, and not the same
    file as the latter. *)
Definition apart (fs : Fs) : Prop :=
  other ≠ path ∧ other ≠ tmp ∧
  ∀ i, dir fs !! other = Some i → (i < next_ino fs)%nat ∧ dir fs !! tmp ≠ Some i.
Definition left_alone (fs : Fs) : Prop := apart fs ∧ content fs other = content fs0 other.
Definition opened (h : handle) (fs : Fs) : Prop :=
  left_alone fs ∧ ∃ j, h = Some j ∧ dir fs !! tmp = Some j.

Lemma upd_left_alone fs j f : left_alone fs → dir fs !! tmp = Some j → left_alone (upd_inode fs j f).
Proof.
  intros [(Hp & Ht & Hall) Hc] Hj. split; [done|]. rewrite <- Hc. unfold content. cbn.
  destruct (dir fs !! other) as [i|] eqn:Ho; [|done]. cbn.
  destruct (Hall i eq_refl) as [_ Hij]. rewrite lookup_alter_ne; [done|congruence].
Qed.

Lemma open_left_alone mode h fs h' fs' :
  left_alone fs → file_step (OpenTruncate tmp mode) h fs = Some (h', fs') → opened h' fs'.
Proof.
  intros Hl. cbn. destruct (dir fs !! tmp) as [i|] eqn:Ht; intros [= <- <-].
  { split; [by apply upd_left_alone|]. by exists i. }
  destruct Hl as [(Hp & Htmp & Hall) Hc]. split; [|exists (next_ino fs); split; [done|apply lookup_insert_eq]].
  split; [split; [done|split; [done|]]|].
  - cbn. intros i. rewrite lookup_insert_ne, lookup_insert_eq by done. intros Hi.
    destruct (Hall i Hi) as [Hlt _]. split; [lia|]. intros [=]. lia.
  - rewrite <- Hc. unfold content. cbn. rewrite lookup_insert_ne by done.
    destruct (dir fs !! other) as [i|] eqn:Ho; [|done]. cbn. destruct (Hall i eq_refl) as [Hlt _].
    rewrite lookup_insert_ne; [done|lia].
Qed.

Lemma opened_step op h fs h' fs' :
  (∀ p m, op ≠ OpenTruncate p m) → (∀ p m, op = SetPermissions p m → p = tmp) → (∀ a b, op ≠ Rename a b) →
  opened h fs → file_step op h fs = Some (h', fs') → opened h' fs'.
Proof.
  intros Ho Hs Hr (Hl & j & -> & Hj). destruct op as [p|p m|c| |p m|a b];
    [| by destruct (Ho p m) | | | | by destruct (Hr a b)]; cbn.
  - intros [= <- <-]. split; [done|]. by exists j.
  - intros [= <- <-]. split; [by apply upd_left_alone|]. by exists j.
  - intros [= <- <-]. split; [by apply upd_left_alone|]. by exists j.
  - rewrite (Hs p m eq_refl), Hj. cbn. intros [= <- <-]. split; [by apply upd_left_alone|]. by exists j.
Qed.

Lemma write_leaves_alone chunks (w : Writer) :
  left_alone (w_fs w) → left_alone (w_fs (atomic_write path chunks w).1).
Proof.
  intros Hl. assert (Hs : safe left_alone (write_script path chunks) (λ _, left_alone) (λ _, left_alone)).
  { unfold write_script. cbn zeta. assert (Hop : ∀ h fs, opened h fs → left_alone fs) by (by intros h fs [? _]).
    apply safe_app with (Q := λ _, left_alone).
    { destruct (path_parent path); [|apply safe_nil]. apply safe_op; [done|]. intros h fs h' fs' Hf. by intros [= _ <-]. }
    apply safe_app with (Q := opened).
    { apply safe_op; [done|]. intros h fs h' fs'. apply open_left_alone. }
    apply safe_app with (Q := opened).
    { induction chunks as [|c chunks IH]; [apply safe_nil|]. apply (safe_app _ [_]) with (Q := opened); [|exact IH].
      apply safe_op; [done|]. intros h fs h' fs'. by apply opened_step. }
    apply (safe_app _ [_]) with (Q := opened).
    { apply safe_op; [done|]. intros h fs h' fs'. by apply opened_step. }
    apply (safe_app _ [_]) with (Q := opened).
    { apply safe_op; [done|]. intros h fs h' fs'. apply opened_step; [done|by intros p m [=]|done]. }
    apply safe_op; [done|]. intros h fs h' fs' ([(Hp & Ht & Hall) Hc] & j & -> & Hj). cbn. rewrite Hj. cbn.
    intros [= <- <-]. split; [split; [done|split; [done|]]|].
    - cbn. intros i. rewrite lookup_insert_ne, lookup_delete_ne by done. intros Hi.
      destruct (Hall i Hi) as [Hlt _]. split; [done|]. destruct (decide (path = tmp)) as [Heq|Hne].
      + rewrite <- Heq, lookup_insert_eq. destruct (Hall i Hi). congruence.
      + by rewrite lookup_insert_ne, lookup_delete_eq.
    - rewrite <- Hc. unfold content. cbn. by rewrite lookup_insert_ne, lookup_delete_ne. }
  specialize (Hs w Hl). unfold atomic_write. by destruct (m_for _ _ w) as [w' [u|e]].
Qed.
End apart.

(** ** Properties *)

(** C11: Replacing a file is atomic: whatever operation of the write fails, or
    is the last one before a crash, the file reads as before, and what a power
    loss can leave of it is what it could leave before; when the write succeeds
    the file reads as exactly the new data, however the data was cut into
    chunks, and a power loss leaves it with the new data or, the directory not
    being synced, with what it could leave before, never with a part of
    either.  The path stays in good order for the next write. *)
Theorem atomic_write_crash_safe path chunks (w : Writer) :
  path_ok path (w_fs w) →
  let '(w', r) := atomic_write path chunks w in
  path_ok path (w_fs w') ∧
  match r with
  | Ok _ => content (w_fs w') path = Some (concat chunks) ∧
            ∀ b, survives (w_fs w') path b → b = Some (concat chunks) ∨ survives (w_fs w) path b
  | Err _ => content (w_fs w') path = content (w_fs w) path ∧
             ∀ b, survives (w_fs w') path b → survives (w_fs w) path b
  end.
Proof.
  intros Hok. pose proof (safe_write_script (w_fs w) path chunks Hok w eq_refl) as Hs. unfold atomic_write.
  destruct (m_for _ _ w) as [w' [u|e]]; exact Hs.
Qed.

Definition empty_fs : Fs := {| dir := ∅; past_dirs := []; inodes := ∅; next_ino := 0 |}.
Definition fresh_writer (faults : list (option io_error)) : Writer :=
  {| w_handle := None; w_fs := empty_fs; w_faults := faults |}.

Lemma empty_path_ok path : with_extension path "tmp" ≠ path → path_ok path empty_fs.
Proof.
  intros Hne. split; [exact Hne|]. cbn. intros d Hd.
  apply elem_of_cons in Hd as [->|Hd]; [|by apply elem_of_nil in Hd].
  split; intros i Hi; by rewrite lookup_empty in Hi.
Qed.

Lemma atomic_write_crash_safe_witness :
  content (w_fs (atomic_write "c.json" [bytes_of "ab"; bytes_of "c"] (fresh_writer [])).1) "c.json"
    = Some (bytes_of "abc").
Proof.
  pose proof (atomic_write_crash_safe "c.json" [bytes_of "ab"; bytes_of "c"] (fresh_writer [])
    (empty_path_ok "c.json" ltac:(discriminate))) as Hs.
  assert (Hr : is_ok (atomic_write "c.json" [bytes_of "ab"; bytes_of "c"]
    (fresh_writer [])).2 = true) by (vm_compute; reflexivity).
  destruct (atomic_write "c.json" _ (fresh_writer [])) as [w' [u|e]]; [|discriminate Hr].
  apply Hs.
Defined.

(** Two overlapping saves of one file are not atomic: both use the same
    temporary file, so there is an order of their operations in which the
    second truncates what the first is about to rename; the file then reads
    as empty, which is neither the old content nor either new one. *)
Theorem overlapping_saves_tear old d1 d2 :
  let path := "credentials.json" in
  let saved := overlap (replicate 5 true) (write_ops path old) [] None None empty_fs in
  content saved path = Some old ∧
  ∃ sched, content (overlap sched (write_ops path d1) (write_ops path d2) None None saved) path = Some [].
Proof.
  cbn zeta. split; [vm_compute; reflexivity|].
  exists [true; true; true; true; false; true]. vm_compute. reflexivity.
Qed.

Lemma merge_field_full slot d : non_blank d = true → is_some_and (merge_field slot d) non_blank = true.
Proof.
  intros Hd. unfold merge_field. destruct slot as [v|]; cbn; [|exact Hd].
  destruct (non_blank v) eqn:Hv; cbn; [exact Hv|exact Hd].
Qed.

Lemma merge_field_or_default slot d :
  non_blank d = true →
  default d (opt_filter non_blank (merge_field slot d)) = default d (opt_filter non_blank slot).
Proof.
  intros Hd. unfold merge_field. destruct slot as [v|]; cbn; [|by rewrite Hd].
  destruct (non_blank v) eqn:Hv; cbn; by rewrite ?Hv, ?Hd.
Qed.

(** Completing the stored identity at startup leaves it complete, does
    nothing to an identity that already was, and never changes the identity
    the requests carry. *)
Theorem ensure_full_completes dev c :
  non_blank dev = true →
  let '(id', filled) := ensure_full dev (dc_identity c) in
  is_full id' = true ∧ filled = negb (is_full (dc_identity c)) ∧
  (filled = false → id' = dc_identity c) ∧
  to_client_identity dev
    {| dc_identity := id'; dc_outbound_interface := dc_outbound_interface c;
       dc_fallback_dns := dc_fallback_dns c; dc_tun_interface := dc_tun_interface c;
       dc_auto_reconnect := dc_auto_reconnect c; dc_dns_listen_port := dc_dns_listen_port c;
       dc_dns_listen_host := dc_dns_listen_host c; dc_route_system_dns := dc_route_system_dns c |}
  = to_client_identity dev c.
Proof.
  intros Hdev. unfold ensure_full. destruct (is_full (dc_identity c)) eqn:Hf.
  { split; [exact Hf|]. by destruct c. }
  split; [|split; [done|split; [done|]]].
  - unfold is_full. cbn -[merge_field non_blank]. rewrite !merge_field_full by reflexivity.
    destruct (non_blank (di_device_id (dc_identity c))) eqn:Hd; by rewrite ?Hd, ?Hdev.
  - unfold to_client_identity. cbn -[merge_field non_blank default].
    rewrite !merge_field_or_default by reflexivity.
    destruct (non_blank (di_device_id (dc_identity c))) eqn:Hd; by rewrite ?Hd, ?Hdev.
Qed.

Lemma ensure_full_completes_witness :
  is_full (ensure_full "device-1" identity_config_default).1 = true.
Proof.
  pose proof (ensure_full_completes "device-1" config_default eq_refl) as Hf.
  destruct (ensure_full "device-1" (dc_identity config_default)) as [id' b] eqn:E.
  change identity_config_default with (dc_identity config_default). rewrite E. apply Hf.
Defined.

End Persist.
