(* ===== verification/Faults.v ===== *)
(** * Errors and what a client sees of them ([daemon/src/error.rs])

    The error enums of the daemon, the classification of upstream failures and
    the mapping to Connect codes, with the [Display] texts of the errors that
    reach a message. *)

From S2P Require Import Prelude RustStr Net Models Signing Api Requests Login VpnState Negotiate Persist.
Import Models Signing Api Requests Login Negotiate Persist.

Module Faults.

(** [Display] of the errors of other crates that the texts quote. *)
Class ErrorText : Type := {
  status_display : Z → string;       (* http::StatusCode *)
  header_value_error : string;       (* http::header::InvalidHeaderValue *)
  header_name_error : string;        (* http::header::InvalidHeaderName *)
  hmac_key_error : string;           (* hmac::digest::InvalidLength *)
}.

Section display.
Context `{ErrorText}.

(* @api/src/signing.rs:65-76 SigningError *)
Definition signing_error_to_string (e : SigningError) : string :=
  match e with
  | MissingSecret => "no signing secret configured"
  | InvalidBase64 source => "invalid base64 signing key: " +:+ source
  | InvalidKey => "invalid HMAC key: " +:+ hmac_key_error
  end.

(* @api/src/signing.rs:78-86 PasswordCipherError *)
Definition password_error_to_string (e : PasswordCipherError) : string :=
  match e with
  | Padding => "AES-CBC padding failed"
  | InvalidKeyLength n => "invalid AES key length " +:+ show_int n +:+ "; expected 32 bytes"
  end.

(* @api/src/client.rs:41-112 Error *)
Definition api_error_to_string (e : ApiError) : string :=
  match e with
  | InvalidBaseUrl value source => "invalid base URL `" +:+ value +:+ "`: " +:+ source
  | BuildHttpClient source => "failed to build HTTP client: " +:+ source
  | Encode source => "failed to encode API request body: " +:+ source
  | BuildRequest source => "failed to build API request: " +:+ source
  | Request source => "API request failed: " +:+ source
  | Decode source content => "failed to decode response (content: " +:+ content +:+ "): " +:+ source
  | HttpStatus st content => "HTTP API status " +:+ status_display st +:+ ": " +:+ content
  | HeaderValue name => "failed to build header `" +:+ name +:+ "`: " +:+ header_value_error
  | HeaderName name => "failed to build header name `" +:+ name +:+ "`: " +:+ header_name_error
  | SignRequest source => "failed to sign request: " +:+ signing_error_to_string source
  | EncryptPassword source => "failed to encrypt password: " +:+ password_error_to_string source
  | MissingVpnDotField field => "VPN dot is missing required field `" +:+ field +:+ "`"
  | InvalidPort port => "invalid VPN dot port `" +:+ show_int port +:+ "`"
  | ApiStatus c msg _ => "API returned code " +:+ show_int c +:+ ": " +:+ msg
  end.

(* @core/src/auth.rs:10-27 Error *)
Definition auth_error_to_string (e : AuthError) : string :=
  match e with
  | AuthApi source => "API operation failed: " +:+ api_error_to_string source
  | MissingOAuthVerifier => "no OAuth verifier is stored; run login oauth-start first"
  | InvalidUrl value source => "invalid URL `" +:+ value +:+ "`: " +:+ source
  end.

(* @core/src/state/auth.rs:72-89 Error *)
Definition flow_error_to_string (e : FlowError) : string :=
  match e with
  | Auth source => auth_error_to_string source
  | UnknownProvider alias => "unknown provider alias `" +:+ alias +:+ "`"
  | ProviderNoLoginUrl alias => "provider `" +:+ alias +:+ "` has no login url"
  | ProviderNoDeviceLogin alias => "provider `" +:+ alias +:+ "` does not support device login"
  end.

(* @core/src/vpn.rs:54-74 Error *)
Definition vpn_error_to_string (e : VpnError) : string :=
  match e with
  | VpnApi source => "API operation failed: " +:+ api_error_to_string source
  | NoVpnDots => "no VPN dots were returned by /api/vpn/list"
  | NoSupportedVpnDot mode => "no VPN dot supports requested mode `" +:+ mode +:+ "`"
  | MissingVpnConfigData => "VPN config response did not contain data"
  | MissingVpnDotListData => "VPN dot list response did not contain data"
  end.

(* @daemon/src/persist.rs:20-55 Error *)
Definition persist_error_to_string (e : PersistError) : string :=
  match e with
  | Read path source => "failed to read " +:+ path +:+ ": " +:+ io_message source
  | Write path source => "failed to write " +:+ path +:+ ": " +:+ io_message source
  | CreateDir path source => "failed to create directory " +:+ path +:+ ": " +:+ io_message source
  | Parse path source => "failed to parse " +:+ path +:+ ": " +:+ source
  | Serialize source => "failed to serialize data: " +:+ source
  | Delete path source => "failed to delete " +:+ path +:+ ": " +:+ io_message source
  end.

(** ** Faults and internal errors *)

(* @daemon/src/error.rs:26-43 RpcFault *)
Inductive RpcFault : Type :=
  | InvalidArgument (msg : string)
  | NotConfigured
  | NotAuthenticated
  | Unauthenticated (msg : string)
  | Unavailable (msg : string).

(* @daemon/src/error.rs:60-83 InternalError *)
Inductive InternalError : Type :=
  | TunnelError (msg : string)
  | PersistFailed (source : PersistError)
  | AuthFailed (source : AuthError)
  | VpnFailed (source : VpnError).

(* @daemon/src/error.rs:89-102 DaemonError *)
Inductive DaemonError : Type :=
  | Fault (source : RpcFault)
  | Internal (source : InternalError).

(** [connectrpc::ErrorCode], the codes the daemon uses. *)
Inductive ErrorCode : Type :=
  | CodeInvalidArgument | CodeFailedPrecondition | CodeUnauthenticated | CodeUnavailable | CodeInternal.

(* @daemon/src/error.rs:46-53 RpcFault::code *)
Definition fault_code (f : RpcFault) : ErrorCode :=
  match f with
  | InvalidArgument _ => CodeInvalidArgument
  | NotConfigured | NotAuthenticated => CodeFailedPrecondition
  | Unauthenticated _ => CodeUnauthenticated
  | Unavailable _ => CodeUnavailable
  end.

(* @daemon/src/error.rs:26-43 RpcFault *)
Definition fault_to_string (f : RpcFault) : string :=
  match f with
  | InvalidArgument m => "invalid argument: " +:+ m
  | NotConfigured => "no tenant configured; call Activate first"
  | NotAuthenticated => "not authenticated; complete login first"
  | Unauthenticated m => "upstream authentication failed: " +:+ m
  | Unavailable m => "upstream temporarily unavailable: " +:+ m
  end.

(* @daemon/src/error.rs:60-83 InternalError *)
Definition internal_to_string (e : InternalError) : string :=
  match e with
  | TunnelError m => "tunnel error: " +:+ m
  | PersistFailed s => "state persistence failed: " +:+ persist_error_to_string s
  | AuthFailed s => "authentication flow error: " +:+ auth_error_to_string s
  | VpnFailed s => "VPN flow error: " +:+ vpn_error_to_string s
  end.

(* @daemon/src/error.rs:89-102 DaemonError *)
Definition daemon_error_to_string (e : DaemonError) : string :=
  match e with Fault f => fault_to_string f | Internal i => internal_to_string i end.

(** ** Classification *)

(* @daemon/src/error.rs:162-181 classify_api *)
Definition classify_api (e : ApiError) : option RpcFault :=
  let msg := api_error_to_string e in
  match e with
  | Request _ | BuildHttpClient _ => Some (Unavailable msg)
  | HttpStatus st _ => if (st =? 401) || (st =? 403) then Some (Unauthenticated msg) else None
  | ApiStatus c _ _ => if c <? 0 then Some (Unauthenticated msg) else None
  | _ => None
  end.

(* @daemon/src/error.rs:183-188 auth_api *)
Definition auth_api (e : AuthError) : option ApiError :=
  match e with AuthApi s => Some s | _ => None end.
(* @daemon/src/error.rs:190-195 vpn_api *)
Definition vpn_api (e : VpnError) : option ApiError :=
  match e with VpnApi s => Some s | _ => None end.

(* @daemon/src/error.rs:107-113 DaemonError::from *)
Definition from_persist (e : PersistError) : DaemonError := Internal (PersistFailed e).
(* @daemon/src/error.rs:117-126 DaemonError::from *)
Definition from_auth (e : AuthError) : DaemonError :=
  match auth_api e ≫= classify_api with
  | Some fault => Fault fault
  | None => Internal (AuthFailed e)
  end.
(* @daemon/src/error.rs:130-142 DaemonError::from *)
Definition from_flow (e : FlowError) : DaemonError :=
  match e with
  | Auth source => from_auth source
  | other => Fault (InvalidArgument (flow_error_to_string other))
  end.
(* @daemon/src/error.rs:146-155 DaemonError::from *)
Definition from_vpn (e : VpnError) : DaemonError :=
  match vpn_api e ≫= classify_api with
  | Some fault => Fault fault
  | None => Internal (VpnFailed e)
  end.

(* @daemon/src/error.rs:202-213 ConnectError::from *)
Definition to_connect (e : DaemonError) : ErrorCode * string :=
  match e with
  | Fault f => (fault_code f, fault_to_string f)
  | Internal _ => (CodeInternal, "internal error")
  end.

(** ** Properties *)

(** What a client sees of an upstream failure. *)
Definition upstream_view (e : ApiError) : ErrorCode :=
  match e with
  | Request _ | BuildHttpClient _ => CodeUnavailable
  | HttpStatus st _ => if bool_decide (st ∈ [401; 403]) then CodeUnauthenticated else CodeInternal
  | ApiStatus c _ _ => if bool_decide (c < 0) then CodeUnauthenticated else CodeInternal
  | _ => CodeInternal
  end.

Lemma classify_api_view e :
  match classify_api e with
  | Some f => fault_code f = upstream_view e ∧ upstream_view e ≠ CodeInternal
  | None => upstream_view e = CodeInternal
  end.
Proof.
  destruct e as [| | | | | |st ? | | | | | | |c ? ?]; cbn; try (split; done); try done.
  - destruct (Z.eqb_spec st 401) as [->|H1]; [done|].
    destruct (Z.eqb_spec st 403) as [->|H2]; [done|]. cbn.
    rewrite bool_decide_eq_false_2; [done|]. rewrite !elem_of_cons, elem_of_nil. naive_solver.
  - destruct (Z.ltb_spec c 0) as [Hc|Hc]; cbn.
    + rewrite bool_decide_eq_true_2 by done. done.
    + rewrite bool_decide_eq_false_2 by lia. done.
Qed.

(** What a client of the RPC sees of a failed flow: network trouble is
    "unavailable", an upstream 401/403 or a negative API code is
    "unauthenticated", whichever flow it failed in; a wrong provider is an
    invalid argument; and everything internal has the one opaque text, so two
    internal errors cannot be told apart. *)
Theorem failures_classified :
  (∀ e, (to_connect (from_flow (Auth (AuthApi e)))).1 = upstream_view e ∧
        (to_connect (from_vpn (VpnApi e))).1 = upstream_view e) ∧
  (∀ e, (∀ s, e ≠ Auth s) → to_connect (from_flow e) =
        (CodeInvalidArgument, "invalid argument: " +:+ flow_error_to_string e)) ∧
  (∀ e, (∀ s, e ≠ VpnApi s) → to_connect (from_vpn e) = (CodeInternal, "internal error")) ∧
  (∀ e1 e2, (to_connect e1).1 = CodeInternal → (to_connect e2).1 = CodeInternal →
        to_connect e1 = to_connect e2).
Proof.
  assert (Hi : ∀ e, (to_connect e).1 = CodeInternal → to_connect e = (CodeInternal, "internal error")).
  { intros [[]|]; cbn; done. }
  split; [|split; [|split]].
  - intros e. pose proof (classify_api_view e) as Hc. cbn. unfold from_auth, from_vpn. cbn [auth_api vpn_api mbind option_bind].
    destruct (classify_api e) as [f|]; cbn; [destruct Hc as [-> _]; done|]. by rewrite Hc.
  - intros [s| | |]; cbn; [|done..]. intros Hs. by destruct (Hs s).
  - intros [s| | | |]; cbn; [|done..]. intros Hs. by destruct (Hs s).
  - intros e1 e2 H1 H2. by rewrite (Hi _ H1), (Hi _ H2).
Qed.

End display.
End Faults.
