(* ===== verification/AuthMachine.v ===== *)
(** * The daemon's auth coordinator ([daemon/src/state.rs], auth half)

    [AuthMachine] owns the tenant, the signing data, the shared cookie jar and
    the current [AuthState]; each operation builds the right client, runs a
    login flow through it and applies the state it returned. *)

From S2P Require Import Prelude RustStr Net Models Signing Api Requests Login VpnState Negotiate Persist Faults.
Import Models Signing Api Requests Login Negotiate Persist Faults.

Module AuthMachine.

(** [DEFAULT_MATCH_BASE_URL] is a URL ([expect] of [MatchEndpoint::default]). *)
Class MatchUrl `{Urls} : Type := {
  match_url : Url;
  match_url_parses : url_parse DEFAULT_MATCH_BASE_URL = Ok match_url;
}.

(** The HTTP pool is known by the interface it is bound to. *)
Abbreviation HttpPool := (option string).

(* @daemon/src/state.rs:44-70 AuthMachine *)
Record AuthMachine : Type := {
  am_state : AuthState;
  am_http_pool : HttpPool;
  am_identity : ClientIdentity;
  am_tenant : option TenantConfig;
  am_signing : option PersistedSigningConfig;
  am_cookies : CookieStore;
  am_knock_token : option string;
  am_totp : option PersistedTotpConfig;
  am_login_api_version : LoginApiVersion;
  am_oauth_pending : option OAuthPending;
  am_device_login_pending : option DeviceLoginPending;
}.

(** ** Field updates *)

Definition set_state (s : AuthState) (m : AuthMachine) : AuthMachine := {|
  am_state := s; am_http_pool := am_http_pool m; am_identity := am_identity m;
  am_tenant := am_tenant m; am_signing := am_signing m; am_cookies := am_cookies m;
  am_knock_token := am_knock_token m; am_totp := am_totp m;
  am_login_api_version := am_login_api_version m; am_oauth_pending := am_oauth_pending m;
  am_device_login_pending := am_device_login_pending m |}.
Definition set_cookies (c : CookieStore) (m : AuthMachine) : AuthMachine := {|
  am_state := am_state m; am_http_pool := am_http_pool m; am_identity := am_identity m;
  am_tenant := am_tenant m; am_signing := am_signing m; am_cookies := c;
  am_knock_token := am_knock_token m; am_totp := am_totp m;
  am_login_api_version := am_login_api_version m; am_oauth_pending := am_oauth_pending m;
  am_device_login_pending := am_device_login_pending m |}.
Definition set_pending (o : option OAuthPending) (d : option DeviceLoginPending) (m : AuthMachine) :
    AuthMachine := {|
  am_state := am_state m; am_http_pool := am_http_pool m; am_identity := am_identity m;
  am_tenant := am_tenant m; am_signing := am_signing m; am_cookies := am_cookies m;
  am_knock_token := am_knock_token m; am_totp := am_totp m;
  am_login_api_version := am_login_api_version m; am_oauth_pending := o;
  am_device_login_pending := d |}.
Definition set_version (v : LoginApiVersion) (m : AuthMachine) : AuthMachine := {|
  am_state := am_state m; am_http_pool := am_http_pool m; am_identity := am_identity m;
  am_tenant := am_tenant m; am_signing := am_signing m; am_cookies := am_cookies m;
  am_knock_token := am_knock_token m; am_totp := am_totp m;
  am_login_api_version := v; am_oauth_pending := am_oauth_pending m;
  am_device_login_pending := am_device_login_pending m |}.
Definition set_tenant (t : TenantConfig) (s : PersistedSigningConfig) (m : AuthMachine) : AuthMachine := {|
  am_state := am_state m; am_http_pool := am_http_pool m; am_identity := am_identity m;
  am_tenant := Some t; am_signing := Some s; am_cookies := am_cookies m;
  am_knock_token := am_knock_token m; am_totp := am_totp m;
  am_login_api_version := am_login_api_version m; am_oauth_pending := am_oauth_pending m;
  am_device_login_pending := am_device_login_pending m |}.
Definition set_pool (p : HttpPool) (m : AuthMachine) : AuthMachine := {|
  am_state := am_state m; am_http_pool := p; am_identity := am_identity m;
  am_tenant := am_tenant m; am_signing := am_signing m; am_cookies := am_cookies m;
  am_knock_token := am_knock_token m; am_totp := am_totp m;
  am_login_api_version := am_login_api_version m; am_oauth_pending := am_oauth_pending m;
  am_device_login_pending := am_device_login_pending m |}.

(* @daemon/src/state.rs:291-293 AuthMachine::set_totp *)
Definition set_totp (c : option PersistedTotpConfig) (m : AuthMachine) : AuthMachine := {|
  am_state := am_state m; am_http_pool := am_http_pool m; am_identity := am_identity m;
  am_tenant := am_tenant m; am_signing := am_signing m; am_cookies := am_cookies m;
  am_knock_token := am_knock_token m; am_totp := c;
  am_login_api_version := am_login_api_version m; am_oauth_pending := am_oauth_pending m;
  am_device_login_pending := am_device_login_pending m |}.

(* @daemon/src/state.rs:345-349 AuthMachine::clear_session *)
Definition clear_session (m : AuthMachine) : AuthMachine := {|
  am_state := am_state m; am_http_pool := am_http_pool m; am_identity := am_identity m;
  am_tenant := am_tenant m; am_signing := am_signing m;
  am_cookies := cookies_clear (am_cookies m);
  am_knock_token := None; am_totp := None;
  am_login_api_version := am_login_api_version m; am_oauth_pending := am_oauth_pending m;
  am_device_login_pending := am_device_login_pending m |}.

(** The machine of a daemon started without credentials. *)
(* @daemon/src/daemon.rs:104-119 Daemon::new *)
Definition auth_machine_fresh (pool : HttpPool) (id : ClientIdentity) : AuthMachine := {|
  am_state := Unconfigured; am_http_pool := pool; am_identity := id; am_tenant := None;
  am_signing := None; am_cookies := cookies_empty; am_knock_token := None; am_totp := None;
  am_login_api_version := Legacy; am_oauth_pending := None; am_device_login_pending := None |}.

(** ** Clients *)

(* @daemon/src/state.rs:323-341 AuthMachine::build_hooks *)
Definition build_hooks (m : AuthMachine) : ApiHooks := {|
  identity := am_identity m;
  knock_token := am_knock_token m;
  signer := match am_signing m with
            | Some s => {|
                enabled := ps_enabled s; root_key_version := 0; signing_input_params := 0;
                algorithms := []; rules := []; activation_code := Some (ps_activation_code s);
                Signing.device_id := Some (ps_device_id s); hmac_key_base64 := None;
                shared_secret := None |}
            | None => signing_config_default
            end |}.

Section clients.
Context `{Urls}.

(* @daemon/src/state.rs:305-313 AuthMachine::build_tenant_client *)
Definition build_tenant_client (m : AuthMachine) : option ApiClient :=
  tenant ← am_tenant m;
  endpoint ← result_ok (parse_base_url (tc_base_url tenant));
  Some {| base_url := endpoint; hooks := build_hooks m |}.

(* @daemon/src/state.rs:316-321 AuthMachine::build_match_client *)
Definition build_match_client `{!MatchUrl} (url : option string) (m : AuthMachine) : ApiClient :=
  let endpoint := match url with
                  | None => match_url
                  | Some u => default match_url (result_ok (parse_base_url u))
                  end in
  {| base_url := endpoint; hooks := build_hooks m |}.
End clients.

(** ** Operations *)

Section operations.
Context {W : Type} `{Urls} `{!Http W} `{Crypto} `{Serde} `{Random W} `{ErrorText} `{!MatchUrl}.
Abbreviation op A := (M (AuthMachine * W) DaemonError A).

(** Run a call of a client on the machine's jar. *)
Definition through {E A} (call : M (CookieStore * W) E A) : M (AuthMachine * W) E A :=
  λ '(m, w), let '((jar, w1), r) := call (am_cookies m, w) in ((set_cookies jar m, w1), r).
Definition update (f : AuthMachine → AuthMachine) : op unit := λ '(m, w), ((f m, w), Ok tt).
Definition gets {A} (f : AuthMachine → A) : op A := λ '(m, w), ((m, w), Ok (f m)).

(* @daemon/src/state.rs:298-301 AuthMachine::tenant_client *)
Definition tenant_client : op ApiClient :=
  let! c := gets build_tenant_client in m_lift (ok_or c (Fault NotConfigured)).

(** [let client = self.tenant_client()?; flow(&client).await?]. *)
Definition tenant_flow {A} (f : ApiClient → LoginApiVersion → M (CookieStore * W) FlowError A) : op A :=
  let! c := tenant_client in
  let! v := gets am_login_api_version in
  m_map_err from_flow (through (f c v)).

(* @daemon/src/state.rs:76-112 AuthMachine::activate *)
Definition activate (code : string) (base_url backup_url match_base_url : option string) : op unit :=
  let! match_client := gets (build_match_client match_base_url) in
  let! response := m_map_err (from_auth ∘ AuthApi)
                     (through (send (W:=W) de_activate match_client (ActivateRequest code))) in
  do! match data response with
      | Some d =>
          let update_ := extract_activation_update d in
          update (λ m, set_tenant
            {| tc_base_url := default "" (or_else (up_base_url update_) base_url);
               tc_backup_url := or_else (up_backup_url update_) backup_url;
               tc_use_backup := default false (up_use_backup update_);
               tc_name := default "" (up_name update_) |}
            {| ps_enabled := false; ps_activation_code := code;
               ps_device_id := Api.device_id (am_identity m) |} m)
      | None => m_ret tt
      end in
  update (set_state Configured).

(* @daemon/src/state.rs:115-125 AuthMachine::refresh_login_api_version *)
Definition refresh_login_api_version : op unit :=
  let! client := gets build_tenant_client in
  match client with
  | None => m_ret tt
  | Some c =>
      let! setting := m_try (E:=ApiError) (through (send (W:=W) de_login_setting c GetLoginSettingRequest)) in
      match setting with
      | Ok s => if is_some_and (data s) is_v1 then update (set_version V1) else m_ret tt
      | Err _ => m_ret tt
      end
  end.

(* @daemon/src/state.rs:128-142 AuthMachine::login *)
Definition am_login (account password login_scene account_type : string) : op unit :=
  let! s := tenant_flow (λ c v, login c v login_scene account_type account password) in
  update (set_state s).

(* @daemon/src/state.rs:145-159 AuthMachine::send_login_code *)
Definition am_send_login_code (account login_type login_scene account_type : string) : op unit :=
  tenant_flow (λ c v, send_login_code c v login_scene account_type login_type account).

(* @daemon/src/state.rs:162-178 AuthMachine::verify_login_code *)
Definition am_verify_login_code (account code login_type login_scene account_type : string) : op unit :=
  let! s := tenant_flow (λ c v, verify_login_code c v login_scene account_type login_type account code) in
  update (set_state s).

(* @daemon/src/state.rs:181-194 AuthMachine::send_mfa_code *)
Definition am_send_mfa_code (mfa_type account login_scene : string) : op unit :=
  tenant_flow (λ c v, send_mfa_code c v login_scene mfa_type account).

(* @daemon/src/state.rs:197-213 AuthMachine::verify_mfa *)
Definition am_verify_mfa (mfa_type account : string) (code password : option string) (login_scene : string) :
    op unit :=
  let! s := tenant_flow (λ c v, verify_mfa c v login_scene mfa_type account code password) in
  update (set_state s).

(* @daemon/src/state.rs:216-220 AuthMachine::skip_challenge *)
Definition am_skip_challenge (login_scene : string) : op unit :=
  let! s := tenant_flow (λ c _, skip_challenge c login_scene) in
  update (set_state s).

(* @daemon/src/state.rs:223-228 AuthMachine::start_oauth *)
Definition am_start_oauth (alias_key : string) : op unit :=
  let! p := tenant_flow (λ c _, start_oauth c alias_key) in
  update (λ m, set_state AwaitingOauth (set_pending (Some p) (am_device_login_pending m) m)).

(** The pending flow is taken before anything can fail. *)
(* @daemon/src/state.rs:231-241 AuthMachine::complete_oauth *)
Definition am_complete_oauth (code state : string) : op unit :=
  let! pending := gets am_oauth_pending in
  do! update (λ m, set_pending None (am_device_login_pending m) m) in
  let! pending := m_lift (ok_or pending (Fault (InvalidArgument "no pending OAuth flow"))) in
  do! tenant_flow (λ c _, complete_oauth c pending code state) in
  update (set_state Authenticated).

(* @daemon/src/state.rs:244-249 AuthMachine::start_device_login *)
Definition am_start_device_login (alias_key : string) : op unit :=
  let! p := tenant_flow (λ c _, start_device_login c alias_key) in
  update (λ m, set_state AwaitingDeviceLogin (set_pending (am_oauth_pending m) (Some p) m)).

(* @daemon/src/state.rs:252-255 AuthMachine::complete_device_login *)
Definition am_complete_device_login : op unit :=
  update (λ m, set_state Authenticated (set_pending (am_oauth_pending m) None m)).

(** Never fails: the server's answer is only logged. *)
(* @daemon/src/state.rs:259-272 AuthMachine::logout *)
Definition am_logout (logout_all : bool) : op unit :=
  let! client := gets build_tenant_client in
  do! match client with
      | Some c => do! m_try (E:=ApiError) (through (send (W:=W) de_value c (LogoutRequest logout_all))) in m_ret tt
      | None => m_ret tt
      end in
  update (λ m, set_state Configured (set_pending None None (clear_session m))).

(* @daemon/src/state.rs:279-288 AuthMachine::restore_session *)
Definition restore_session (m : AuthMachine) : AuthMachine :=
  match am_tenant m with
  | None => m
  | Some _ => set_state (if cookies_is_empty (am_cookies m) then Configured else Authenticated) m
  end.

End operations.

(** ** Persistence *)

(** [saved_at] is the text of the current time. *)
(* @daemon/src/state.rs:438-451 AuthMachine::to_credentials *)
Definition to_credentials (saved_at : string) (m : AuthMachine) : option PersistedCredentials :=
  tenant ← am_tenant m;
  signing ← am_signing m;
  Some {| pc_tenant := tenant; pc_signing := signing; pc_cookies := values (am_cookies m);
          pc_knock_token := am_knock_token m; pc_totp := am_totp m;
          pc_login_api_version := am_login_api_version m; pc_last_vpn_request := None;
          pc_saved_at := saved_at |}.

(* @daemon/src/state.rs:454-460 AuthMachine::to_credentials_with_vpn *)
Definition to_credentials_with_vpn (saved_at : string) (vpn_request : option PersistedVpnRequest)
    (m : AuthMachine) : option PersistedCredentials :=
  creds ← to_credentials saved_at m;
  Some {| pc_tenant := pc_tenant creds; pc_signing := pc_signing creds; pc_cookies := pc_cookies creds;
          pc_knock_token := pc_knock_token creds; pc_totp := pc_totp creds;
          pc_login_api_version := pc_login_api_version creds; pc_last_vpn_request := vpn_request;
          pc_saved_at := pc_saved_at creds |}.

(* @daemon/src/state.rs:466-483 AuthMachine::restore_from_credentials *)
Definition restore_from_credentials (creds : PersistedCredentials) (pool : HttpPool)
    (id : ClientIdentity) : AuthMachine := {|
  am_state := Unconfigured; am_http_pool := pool; am_identity := id;
  am_tenant := Some (pc_tenant creds); am_signing := Some (pc_signing creds);
  am_cookies := with_values (pc_cookies creds); am_knock_token := pc_knock_token creds;
  am_totp := pc_totp creds; am_login_api_version := pc_login_api_version creds;
  am_oauth_pending := None; am_device_login_pending := None |}.

(** ** The session message *)

(** [LoginCodeType] of the RPC schema. *)
Inductive LoginCodeType : Type := CodeTypeUnspecified | CodeTypeMobile | CodeTypeEmail.

(* @proto/src/lib.rs:14-20 LoginCodeType::wire *)
Definition wire (t : LoginCodeType) : string :=
  match t with CodeTypeEmail => "email" | _ => "mobile" end.
(* @proto/src/lib.rs:24-31 LoginCodeType::from *)
Definition login_code_type_from (value : string) : LoginCodeType :=
  if bool_decide (value = "email") then CodeTypeEmail else CodeTypeMobile.

Inductive SessionState : Type :=
  | SessUnconfigured | SessConfigured | SessAwaitingOtp | SessAwaitingMfa | SessAwaitingOauth
  | SessAwaitingDeviceLogin | SessAuthenticated.

Inductive Challenge : Type :=
  | OtpChallenge (masked_target : string) (login_type : LoginCodeType)
  | MfaChallenge (mfa_type : string) (auth_list : list string) (can_skip : bool)
      (masked_mobile masked_email : string)
  | OauthChallenge (alias_key state poll_token : string)
  | DeviceLoginChallenge (login_url alias_key poll_token : string).

(** At most one of the four challenge fields is ever set. *)
Record Session : Type := {
  se_state : SessionState; se_tenant_name : string; se_base_url : string;
  se_challenge : option Challenge;
}.

(* @daemon/src/state.rs:354-433 AuthMachine::to_session_proto *)
Definition to_session_proto (m : AuthMachine) : Session := {|
  se_state := match am_state m with
              | Unconfigured => SessUnconfigured
              | Configured => SessConfigured
              | AwaitingOtp _ _ => SessAwaitingOtp
              | AwaitingMfa _ _ _ _ _ => SessAwaitingMfa
              | AwaitingOauth => SessAwaitingOauth
              | AwaitingDeviceLogin => SessAwaitingDeviceLogin
              | Authenticated => SessAuthenticated
              end;
  se_tenant_name := default "" (tc_name <$> am_tenant m);
  se_base_url := default "" (tc_base_url <$> am_tenant m);
  se_challenge :=
    match am_state m with
    | AwaitingOtp target ty => Some (OtpChallenge target (login_code_type_from ty))
    | AwaitingMfa t l s mo e => Some (MfaChallenge t l s mo e)
    | AwaitingOauth =>
        (λ p, OauthChallenge (oa_alias_key p) (oauth_state p) (oa_poll_token p)) <$> am_oauth_pending m
    | AwaitingDeviceLogin =>
        (λ p, DeviceLoginChallenge (dl_login_url p) (dl_alias_key p) (dl_poll_token p))
          <$> am_device_login_pending m
    | Unconfigured | Configured | Authenticated => None
    end |}.

(** ** Properties *)

(** A session survives a restart: what the daemon saves of a machine with a
    tenant, restored with the same identity, is the same tenant, signing data,
    cookies, tokens and API version, so that every request it sends is
    decorated as before; and the session is recognised as authenticated
    exactly when there are cookies. *)
Theorem session_survives_restart saved_at vpn m creds pool :
  to_credentials_with_vpn saved_at vpn m = Some creds →
  let m' := restore_session (restore_from_credentials creds pool (am_identity m)) in
  am_tenant m' = am_tenant m ∧ am_signing m' = am_signing m ∧
  values (am_cookies m') = values (am_cookies m) ∧ am_totp m' = am_totp m ∧
  am_login_api_version m' = am_login_api_version m ∧ build_hooks m' = build_hooks m ∧
  pc_last_vpn_request creds = vpn ∧
  (am_state m' = Authenticated ↔ values (am_cookies m) ≠ ∅) ∧
  (am_state m' = Configured ↔ values (am_cookies m) = ∅).
Proof.
  unfold to_credentials_with_vpn, to_credentials.
  destruct (am_tenant m) as [t|] eqn:Ht; [|done]. destruct (am_signing m) as [s|] eqn:Hs; [|done].
  intros [= <-]. unfold restore_session. cbn [restore_from_credentials am_tenant pc_tenant am_cookies].
  unfold cookies_is_empty. cbn. unfold build_hooks. cbn. rewrite Hs.
  case_bool_decide as Hc; cbn; naive_solver.
Qed.

Section facts.
Context {W : Type} `{Urls} `{!Http W} `{Crypto} `{Serde} `{Random W} `{ErrorText} `{!MatchUrl}.
Implicit Types m : AuthMachine.
Abbreviation op A := (M (AuthMachine * W) DaemonError A).

(** A call through the jar changes only the jar. *)
Lemma through_frame {E A} (call : M (CookieStore * W) E A) m w m' w' r :
  through call (m, w) = ((m', w'), r) → m' = set_cookies (am_cookies m') m.
Proof.
  unfold through. destruct (call _) as [[jar w1] r1]. intros [= <- <- <-]. done.
Qed.

Lemma set_cookies_id m : set_cookies (am_cookies m) m = m.
Proof. destruct m. done. Qed.

Lemma tenant_flow_frame {A} (f : ApiClient → LoginApiVersion → M (CookieStore * W) FlowError A) m w m' w' r :
  tenant_flow f (m, w) = ((m', w'), r) → m' = set_cookies (am_cookies m') m.
Proof.
  unfold tenant_flow, tenant_client, m_bind, gets, m_lift, m_map_err.
  destruct (build_tenant_client m) as [c|]; cbn [ok_or].
  - destruct (through _ _) as [[m1 w1] r1] eqn:E. apply through_frame in E. intros [= -> _ _]. done.
  - intros [= <- _ _]. by rewrite set_cookies_id.
Qed.

(** Logging out always works, whatever the server answers and even when it
    cannot be reached: the machine is configured, with no cookies, tokens or
    pending flow left; tenant, signing data, identity and connection pool
    stay. *)
Theorem logout_clears logout_all m w :
  ∃ w' listener n, am_logout logout_all (m, w) =
    (({| am_state := Configured; am_http_pool := am_http_pool m; am_identity := am_identity m;
         am_tenant := am_tenant m; am_signing := am_signing m;
         am_cookies := {| values := ∅; has_listener := listener; notifications := n |};
         am_knock_token := None; am_totp := None;
         am_login_api_version := am_login_api_version m;
         am_oauth_pending := None; am_device_login_pending := None |}, w'), Ok tt).
Proof.
  unfold am_logout, m_bind, gets, update, m_try.
  destruct (build_tenant_client m) as [c|].
  - destruct (through _ (m, w)) as [[m1 w1] r1] eqn:E. apply through_frame in E. rewrite E.
    do 3 eexists. reflexivity.
  - do 3 eexists. reflexivity.
Qed.

(** The operations that move the login on. *)
Inductive login_op : op unit → Prop :=
  | LoginOp a p s t : login_op (am_login a p s t)
  | SendLoginCodeOp a l s t : login_op (am_send_login_code a l s t)
  | VerifyLoginCodeOp a c l s t : login_op (am_verify_login_code a c l s t)
  | SendMfaCodeOp t a s : login_op (am_send_mfa_code t a s)
  | VerifyMfaOp t a c p s : login_op (am_verify_mfa t a c p s)
  | SkipOp s : login_op (am_skip_challenge s)
  | StartOauthOp k : login_op (am_start_oauth k)
  | StartDeviceOp k : login_op (am_start_device_login k).

Lemma tenant_flow_unconfigured {A} (f : ApiClient → LoginApiVersion → M (CookieStore * W) FlowError A) m w :
  build_tenant_client m = None → tenant_flow f (m, w) = ((m, w), Err (Fault NotConfigured)).
Proof. intros Hc. unfold tenant_flow, tenant_client, m_bind, gets, m_lift. by rewrite Hc. Qed.

Lemma flow_then_update {A} (f : ApiClient → LoginApiVersion → M (CookieStore * W) FlowError A)
    (k : A → AuthMachine → AuthMachine) m w :
  m_bind (tenant_flow f) (λ a, update (k a)) (m, w) =
  match tenant_flow f (m, w) with
  | ((m1, w1), Ok a) => ((k a m1, w1), Ok tt)
  | (mw, Err e) => (mw, Err e)
  end.
Proof. unfold m_bind. destruct (tenant_flow f (m, w)) as [[m1 w1] [a|e]]; done. Qed.

(** One operation of [login_op]. *)
Lemma login_op_outcome (o : op unit) m w m' w' r :
  login_op o → o (m, w) = ((m', w'), r) →
  (∀ e, r = Err e → m' = set_cookies (am_cookies m') m) ∧
  (build_tenant_client m = None → m' = m ∧ w' = w ∧ r = Err (Fault NotConfigured)) ∧
  am_tenant m' = am_tenant m ∧ am_signing m' = am_signing m ∧ am_identity m' = am_identity m ∧
  am_totp m' = am_totp m.
Proof.
  intros Ho Hr.
  assert (Hk : ∃ (A : Type) (f : ApiClient → LoginApiVersion → M (CookieStore * W) FlowError A) (k : A → AuthMachine → AuthMachine),
    (∀ a m1, am_tenant (k a m1) = am_tenant m1 ∧ am_signing (k a m1) = am_signing m1 ∧
             am_identity (k a m1) = am_identity m1 ∧ am_totp (k a m1) = am_totp m1) ∧
    o (m, w) = match tenant_flow f (m, w) with
               | ((m1, w1), Ok a) => ((k a m1, w1), Ok tt)
               | (mw, Err e) => (mw, Err e)
               end).
  { clear Hr. destruct Ho.
    - exists AuthState, (λ c v, login c v s t a p), set_state. split; [by intros ? []|apply flow_then_update].
    - exists unit, (λ c v, send_login_code c v s t l a), (λ _ m1, m1). split; [done|].
      unfold am_send_login_code. destruct (tenant_flow _ _) as [[m1 w1] [[]|e]]; reflexivity.
    - exists AuthState, (λ c' v, verify_login_code c' v s t l a c), set_state.
      split; [by intros ? []|apply flow_then_update].
    - exists unit, (λ c v, send_mfa_code c v s t a), (λ _ m1, m1). split; [done|].
      unfold am_send_mfa_code. destruct (tenant_flow _ _) as [[m1 w1] [[]|e]]; reflexivity.
    - exists AuthState, (λ c' v, verify_mfa c' v s t a c p), set_state.
      split; [by intros ? []|apply flow_then_update].
    - exists AuthState, (λ c _, skip_challenge c s), set_state. split; [by intros ? []|apply flow_then_update].
    - exists OAuthPending, (λ c _, start_oauth c k),
        (λ p m1, set_state AwaitingOauth (set_pending (Some p) (am_device_login_pending m1) m1)).
      split; [by intros ? []|apply flow_then_update].
    - exists DeviceLoginPending, (λ c _, start_device_login c k),
        (λ p m1, set_state AwaitingDeviceLogin (set_pending (am_oauth_pending m1) (Some p) m1)).
      split; [by intros ? []|apply flow_then_update]. }
  destruct Hk as (A & f & k & Hk & Heq). rewrite Hr in Heq.
  destruct (build_tenant_client m) as [c|] eqn:Hc.
  - destruct (tenant_flow f (m, w)) as [[m1 w1] [a|e]] eqn:Hf; apply tenant_flow_frame in Hf;
      injection Heq as -> -> ->.
    + split; [done|]. split; [done|]. destruct (Hk a m1) as (-> & -> & -> & ->). by rewrite Hf.
    + split; [done|]. split; [done|]. by rewrite Hf.
  - rewrite tenant_flow_unconfigured in Heq by done. injection Heq as -> -> ->.
    by rewrite set_cookies_id.
Qed.

(** C35: A failed login operation - a password or a code that is sent, asked
    for or verified, a challenge that is skipped, an OAuth or a device login
    that is started - leaves no trace in the machine but cookies the server may
    have set; before activation it fails with "not configured" and contacts
    nobody.  Completing an OAuth login is the exception: it uses the pending
    flow up also when it fails, and changes nothing else but cookies; without a
    pending flow or a tenant it contacts nobody.  None of these touches the
    tenant, the signing data, the identity or the one-time-code secret.
    Completing a device login, which cannot fail, and logout are not among
    them. *)
Theorem login_ops_atomic m w m' w' r :
  (∀ o, login_op o → o (m, w) = ((m', w'), r) →
    (∀ e, r = Err e → m' = set_cookies (am_cookies m') m) ∧
    (build_tenant_client m = None → m' = m ∧ w' = w ∧ r = Err (Fault NotConfigured)) ∧
    am_tenant m' = am_tenant m ∧ am_signing m' = am_signing m ∧ am_identity m' = am_identity m ∧
    am_totp m' = am_totp m) ∧
  (∀ code state, am_complete_oauth code state (m, w) = ((m', w'), r) →
    let taken := set_pending None (am_device_login_pending m) m in
    (∀ e, r = Err e → m' = set_cookies (am_cookies m') taken) ∧
    (am_oauth_pending m = None ∨ build_tenant_client m = None → m' = taken ∧ w' = w ∧ is_ok r = false) ∧
    am_tenant m' = am_tenant m ∧ am_signing m' = am_signing m ∧ am_identity m' = am_identity m ∧
    am_totp m' = am_totp m).
Proof.
  split; [intros o; apply login_op_outcome|]. intros code state_ Hr taken.
  unfold am_complete_oauth, m_bind, gets, update, m_lift in Hr. fold taken in Hr.
  destruct (am_oauth_pending m) as [p|] eqn:Hp; cbn [ok_or] in Hr.
  2:{ injection Hr as <- <- <-. rewrite set_cookies_id. by auto 10. }
  destruct (build_tenant_client m) as [c|] eqn:Hc.
  - destruct (tenant_flow _ _) as [[m1 w1] [[]|e]] eqn:Hf; apply tenant_flow_frame in Hf; injection Hr as <- <- <-.
    + split; [done|]. split; [by intros [|]|]. by rewrite Hf.
    + split; [intros e' _; exact Hf|]. split; [by intros [|]|]. by rewrite Hf.
  - assert (Hc' : build_tenant_client taken = None) by (unfold build_tenant_client in *; exact Hc).
    rewrite tenant_flow_unconfigured in Hr by done. injection Hr as <- <- <-. rewrite set_cookies_id. by auto 10.
Qed.

(** Completing an OAuth login uses the pending flow up even when it fails:
    the machine stays in [AwaitingOauth] without a pending flow, announces no
    challenge, and a second attempt is refused without contacting the server. *)
Theorem failed_oauth_cannot_be_retried code state m w m' w' e code' state' :
  am_state m = AwaitingOauth →
  am_complete_oauth code state (m, w) = ((m', w'), Err e) →
  am_state m' = AwaitingOauth ∧ se_challenge (to_session_proto m') = None ∧
  am_complete_oauth code' state' (m', w') =
    ((m', w'), Err (Fault (InvalidArgument "no pending OAuth flow"))).
Proof.
  intros Hst. unfold am_complete_oauth, m_bind, gets, update, m_lift.
  assert (Hid : ∀ m1, am_oauth_pending m1 = None → set_pending None (am_device_login_pending m1) m1 = m1).
  { intros [] Hn. cbn in *. by subst. }
  assert (Hend : ∀ m1, am_state m1 = AwaitingOauth → am_oauth_pending m1 = None →
     se_challenge (to_session_proto m1) = None).
  { intros m1 Ha Hb. unfold to_session_proto. cbn. by rewrite Ha, Hb. }
  destruct (am_oauth_pending m) as [p|] eqn:Hp; cbn [ok_or].
  - destruct (tenant_flow _ _) as [[m1 w1] [[]|e1]] eqn:Hf; [done|].
    intros [= -> -> ->]. apply tenant_flow_frame in Hf.
    assert (Hs1 : am_state m' = AwaitingOauth) by (rewrite Hf; done).
    assert (Hs2 : am_oauth_pending m' = None) by (rewrite Hf; done).
    split; [done|]. split; [by apply Hend|]. rewrite Hs2. cbn [ok_or]. by rewrite Hid.
  - intros [= <- <- _]. split; [done|]. split; [by apply Hend|]. cbn. done.
Qed.

End facts.

(** ** Witnesses *)

Module AuthSample.
#[global] Instance random : Random nat := { random_32 w := (w, []); url_safe_no_pad := of_bytes }.
#[global] Instance error_text : ErrorText := {
  status_display := show_int; header_value_error := "bad value"; header_name_error := "bad name";
  hmac_key_error := "bad key" }.
#[global] Instance match_url_ : MatchUrl := {
  match_url := (DEFAULT_MATCH_BASE_URL : Url); match_url_parses := eq_refl }.
Definition pending : OAuthPending :=
  {| oa_alias_key := "lark"; oauth_state := "s"; oa_poll_token := "t"; pkce_verifier := "v"; oa_url := "u" |}.
(** Activated, with one cookie, in the middle of an OAuth login. *)
Definition machine : AuthMachine := {|
  am_state := AwaitingOauth; am_http_pool := None; am_identity := identity_default "id";
  am_tenant := Some {| tc_base_url := "https://t"; tc_backup_url := None; tc_use_backup := false; tc_name := "T" |};
  am_signing := Some {| ps_enabled := false; ps_activation_code := "code"; ps_device_id := "id" |};
  am_cookies := with_values {["session" := "1"]}; am_knock_token := None; am_totp := None;
  am_login_api_version := Legacy; am_oauth_pending := Some pending; am_device_login_pending := None |}.
End AuthSample.

Lemma session_survives_restart_witness :
  ∃ creds, to_credentials_with_vpn "now" None AuthSample.machine = Some creds ∧
    am_state (restore_session (restore_from_credentials creds None (identity_default "id"))) = Authenticated.
Proof.
  destruct (to_credentials_with_vpn "now" None AuthSample.machine) as [creds|] eqn:E; [|discriminate E].
  exists creds. split; [reflexivity|].
  destruct (session_survives_restart "now" None AuthSample.machine creds None E)
    as (_ & _ & _ & _ & _ & _ & _ & Ha & _).
  apply Ha. intros Hn. apply (f_equal (lookup "session")) in Hn. vm_compute in Hn. discriminate Hn.
Defined.

(** A login before the activation, and an OAuth login whose completion fails. *)
Lemma login_ops_atomic_witness :
  am_state (am_login (W:=nat) "a" "p" "feilian" "account" (auth_machine_fresh None (identity_default "id"), 0%nat)).1.1
    = Unconfigured ∧
  ∃ m' w' e, am_complete_oauth (W:=nat) "c" "s" (AuthSample.machine, 0%nat) = ((m', w'), Err e) ∧
    m' = set_cookies (am_cookies m') (set_pending None (am_device_login_pending AuthSample.machine) AuthSample.machine).
Proof.
  split.
  - set (m := auth_machine_fresh None (identity_default "id")).
    destruct (am_login (W:=nat) "a" "p" "feilian" "account" (m, 0%nat)) as [[m' w'] r] eqn:E.
    destruct (login_ops_atomic (W:=nat) m 0%nat m' w' r) as [Hop _].
    destruct (Hop _ (LoginOp "a" "p" "feilian" "account") E) as (_ & H & _).
    destruct (H eq_refl) as (-> & _). reflexivity.
  - assert (Hok : is_ok (am_complete_oauth (W:=nat) "c" "s" (AuthSample.machine, 0%nat)).2 = false)
      by (vm_compute; reflexivity).
    destruct (am_complete_oauth (W:=nat) "c" "s" (AuthSample.machine, 0%nat)) as [[m' w'] [u|e]] eqn:E;
      [discriminate Hok|].
    destruct (login_ops_atomic (W:=nat) AuthSample.machine 0%nat m' w' (Err e)) as [_ Hc].
    destruct (Hc "c" "s" E) as (He & _). exists m', w', e. split; [reflexivity|]. exact (He e eq_refl).
Defined.

Lemma failed_oauth_cannot_be_retried_witness :
  ∃ m' w', (am_complete_oauth (W:=nat) "c" "s" (m', w')).2
    = Err (Fault (InvalidArgument "no pending OAuth flow")).
Proof.
  assert (Hok : is_ok (am_complete_oauth (W:=nat) "c" "s" (AuthSample.machine, 0%nat)).2 = false)
    by (vm_compute; reflexivity).
  destruct (am_complete_oauth (W:=nat) "c" "s" (AuthSample.machine, 0%nat)) as [[m' w'] [u|e]] eqn:E;
    [discriminate Hok|].
  exists m', w'.
  destruct (failed_oauth_cannot_be_retried (W:=nat) "c" "s" AuthSample.machine 0%nat m' w' e "c" "s" eq_refl E)
    as (_ & _ & H). rewrite H. reflexivity.
Defined.

End AuthMachine.
