(* ===== verification/Transport.v ===== *)
(** * The FeiLian TCP transport ([tunnel/src/transport.rs])

    WireGuard datagrams carried over one TCP connection: each datagram is a
    frame of a 32-bit little-endian length and the payload.  The sender dials
    lazily, keeps one connection and re-dials when the destination changes or
    a write failed; the reader cuts the byte stream back into datagrams.

    The TCP stack and the dialer are behind the interface [TcpNet]; its laws
    are the ones of a byte stream. *)

From S2P Require Import Prelude RustStr Net.

Module Transport.

(** A byte is a [Z] in [0, 255]. *)
Abbreviation byte := Z (only parsing).
Definition is_byte (b : Z) : Prop := 0 ≤ b < 256.

(** [u32::to_le_bytes], [u32::from_le_bytes]. *)
Definition to_le_bytes (n : Z) : list byte :=
  [Z.land n 255; Z.land (Z.shiftr n 8) 255; Z.land (Z.shiftr n 16) 255; Z.land (Z.shiftr n 24) 255].
Definition from_le_bytes (b0 b1 b2 b3 : byte) : Z :=
  Z.lor b0 (Z.lor (Z.shiftl b1 8) (Z.lor (Z.shiftl b2 16) (Z.shiftl b3 24))).

(* @tunnel/src/transport.rs:15-15 MAX_FEILIAN_TCP_FRAME *)
Definition MAX_FEILIAN_TCP_FRAME : Z := 65535.

Section transport.
(** The world, the dialer's error and the write half of a connection. *)
Context {W DialErr Conn : Type}.

(* @tunnel/src/transport.rs:23-51 TunnelTransportError *)
Inductive TunnelTransportError : Type :=
  | Dial (destination : SocketAddr) (source : DialErr)
  | Send (destination : SocketAddr) (len : Z) (source : io_error)
  | Recv (source : io_error)
  | RecvClosed
  | InvalidFrame (frame_len : Z) (peer : SocketAddr).

(* @tunnel/src/transport.rs:53-62 TunnelTransportError::io_kind *)
Definition tte_io_kind (e : TunnelTransportError) : io_kind :=
  match e with
  | Dial _ _ => OtherKind
  | Send _ _ source | Recv source => io_error_kind source
  | RecvClosed => ConnectionAborted
  | InvalidFrame _ _ => InvalidData
  end.

(* @tunnel/src/transport.rs:93-96 TcpWriterState *)
Record TcpWriterState : Type := { destination : SocketAddr; writer : Conn }.

(* @tunnel/src/transport.rs:81-87 FeilianTcpSend *)
Record FeilianTcpSend : Type := {
  local_addr : SocketAddr;
  state : option TcpWriterState;   (* behind a mutex held for a whole send *)
}.

(** What the transport asks of the network: [Dialer::connect_tcp] (the write
    half of the new connection), [write_all], and starting the reader task. *)
Class TcpNet : Type := {
  connect_tcp : SocketAddr → M W DialErr Conn;
  write_all : Conn → list byte → M W io_error unit;
  spawn_reader : Conn → SocketAddr → W → W;
}.
Context `{TcpNet}.

(* @tunnel/src/transport.rs:214-225 tcp_pair *)
Definition tcp_pair (addr : SocketAddr) : FeilianTcpSend :=
  {| local_addr := addr; state := None |}.

(* @tunnel/src/transport.rs:111-123 FeilianTcpTransportFactory::bind *)
Definition bind (addr_v4 addr_v6 : Z) (p : Z) : FeilianTcpSend * FeilianTcpSend :=
  (tcp_pair (sock (V4 addr_v4) p), tcp_pair (sock (V6 addr_v6) p)).

(** The checked frame length of a payload: [u32::try_from], then the range. *)
Definition frame_len_of (payload : list byte) : option Z :=
  opt_filter (λ len, negb (len =? 0) && (len <=? MAX_FEILIAN_TCP_FRAME))
    (u32_try_from (Z.of_nat (length payload))).

(** Dial when there is no connection or it goes elsewhere; on failure the old
    state stays. *)
Definition ensure_connected (st : option TcpWriterState) (dst : SocketAddr) :
    M W TunnelTransportError TcpWriterState :=
  let should_connect := is_none_or st (λ cur, negb (bool_decide (destination cur = dst))) in
  match should_connect, st with
  | false, Some cur => m_ret cur
  | _, _ => λ w,
      match connect_tcp dst w with
      | (w1, Err e) => (w1, Err (Dial dst e))
      | (w1, Ok c) => (spawn_reader c dst w1, Ok {| destination := dst; writer := c |})
      end
  end.

(* @tunnel/src/transport.rs:129-193 FeilianTcpSend::send_to *)
Definition send_to (s : FeilianTcpSend) (payload : list byte) (dst : SocketAddr) (w : W) :
    W * FeilianTcpSend * result TunnelTransportError unit :=
  match frame_len_of payload with
  | None => (w, s, Err (InvalidFrame (Z.of_nat (length payload)) dst))
  | Some frame_len =>
      match ensure_connected (state s) dst w with
      | (w1, Err e) => (w1, s, Err e)
      | (w1, Ok cur) =>
          match m_bind (write_all (writer cur) (to_le_bytes frame_len))
                       (λ _, write_all (writer cur) payload) w1 with
          | (w2, Ok _) => (w2, {| local_addr := local_addr s; state := Some cur |}, Ok tt)
          | (w2, Err e) =>
              (w2, {| local_addr := local_addr s; state := None |},
               Err (Send dst (Z.of_nat (length payload)) e))
          end
      end
  end.

End transport.
Arguments TunnelTransportError : clear implicits.
Arguments FeilianTcpSend : clear implicits.
Arguments TcpWriterState : clear implicits.
Arguments TcpNet : clear implicits.

(** Why the reader task returned. *)
Inductive ReaderStop : Type :=
  | StreamEnded          (* read_exact failed: the stream ended or errored *)
  | BadLength (len : Z)
  | ReceiverGone
  | Running.             (* only when the fuel was short *)

(** The reader on the bytes the peer sends before the stream ends; [room] is
    how many more frames the receiving side takes before it is dropped
    ([None]: it never is). *)
(* @tunnel/src/transport.rs:227-255 read_feilian_tcp_frames *)
Fixpoint read_frames (fuel : nat) (s : list byte) (room : option nat) :
    list (list byte) * ReaderStop :=
  match fuel with
  | O => ([], Running)
  | S fuel' =>
      match s with
      | b0 :: b1 :: b2 :: b3 :: s' =>
          let frame_len := from_le_bytes b0 b1 b2 b3 in
          if (frame_len =? 0) || (MAX_FEILIAN_TCP_FRAME <? frame_len) then ([], BadLength frame_len)
          else if Z.of_nat (length s') <? frame_len then ([], StreamEnded)
          else
            let payload := take (Z.to_nat frame_len) s' in
            match room with
            | Some O => ([], ReceiverGone)
            | _ =>
                let '(fs, stop) :=
                  read_frames fuel' (drop (Z.to_nat frame_len) s') (pred <$> room) in
                (payload :: fs, stop)
            end
      | _ => ([], StreamEnded)
      end
  end.

(** A frame takes at least five bytes, so the length of the stream is enough. *)
Definition read_feilian_tcp_frames (s : list byte) (room : option nat) :=
  read_frames (S (length s)) s room.

(** ** Lemmas *)

Definition frame (payload : list byte) : list byte :=
  to_le_bytes (Z.of_nat (length payload)) ++ payload.
Definition payload_ok (payload : list byte) : Prop :=
  0 < Z.of_nat (length payload) ≤ MAX_FEILIAN_TCP_FRAME.

Lemma frame_len_of_spec payload :
  frame_len_of payload = if decide (payload_ok payload) then Some (Z.of_nat (length payload)) else None.
Proof.
  unfold frame_len_of, payload_ok, u32_try_from, u32_max, MAX_FEILIAN_TCP_FRAME, opt_filter.
  repeat case_decide; repeat case_match; bool_hyps; try done; lia.
Qed.

(** Bit [k] of byte [i] of [n], put back in its place. *)
Lemma byte_testbit n i k : 0 ≤ i → 0 ≤ k →
  Z.testbit (Z.land (Z.shiftr n i) 255) (k - i) = Z.testbit n k && (i <=? k) && (k <? i + 8).
Proof.
  intros Hi Hk. destruct (Z.leb_spec i k).
  - rewrite Z.land_spec, Z.shiftr_spec by lia. replace (k - i + i) with k by lia.
    change 255 with (Z.ones 8). rewrite Z.testbit_ones_nonneg, andb_true_r by lia.
    f_equal. destruct (Z.ltb_spec (k - i) 8), (Z.ltb_spec k (i + 8)); lia.
  - rewrite Z.testbit_neg_r by lia. by rewrite andb_false_r.
Qed.

Lemma from_to_le_bytes n : 0 ≤ n ≤ u32_max →
  match to_le_bytes n with
  | [b0; b1; b2; b3] => from_le_bytes b0 b1 b2 b3 = n
  | _ => False
  end.
Proof.
  intros Hn. unfold u32_max in Hn. cbn [to_le_bytes]. unfold from_le_bytes.
  apply Z.bits_inj'. intros k Hk. rewrite !Z.lor_spec, !Z.shiftl_spec by lia.
  pose proof (byte_testbit n 0 k ltac:(lia) Hk) as H0. rewrite Z.shiftr_0_r, Z.sub_0_r in H0.
  rewrite H0, !byte_testbit by lia.
  assert (Hhi : 32 ≤ k → Z.testbit n k = false).
  { intros. apply Z.testbit_false; [lia|]. rewrite Z.div_small; [done|].
    assert (2 ^ 32 ≤ 2 ^ k) by (apply Z.pow_le_mono_r; lia). lia. }
  destruct (Z.testbit n k); [|done]. cbn.
  repeat match goal with
  | |- context [?a <=? ?b] => destruct (Z.leb_spec a b)
  | |- context [?a <? ?b] => destruct (Z.ltb_spec a b)
  end; cbn; try done; try lia.
  all: specialize (Hhi ltac:(lia)); done.
Qed.

Lemma read_frames_payload fuel payload rest room :
  payload_ok payload → room ≠ Some O →
  read_frames (S fuel) (frame payload ++ rest) room =
  let '(fs, stop) := read_frames fuel rest (pred <$> room) in (payload :: fs, stop).
Proof.
  intros Hp Hroom. unfold payload_ok, MAX_FEILIAN_TCP_FRAME in Hp.
  pose proof (from_to_le_bytes (Z.of_nat (length payload)) ltac:(unfold u32_max; lia)) as Hle.
  unfold frame, to_le_bytes in *. cbn [read_frames app] in *. rewrite Hle.
  unfold MAX_FEILIAN_TCP_FRAME.
  destruct (Z.eqb_spec (Z.of_nat (length payload)) 0); [lia|].
  destruct (Z.ltb_spec 65535 (Z.of_nat (length payload))); [lia|]. cbn [orb].
  rewrite length_app. destruct (Z.ltb_spec (Z.of_nat (length payload + length rest)) (Z.of_nat (length payload))); [lia|].
  rewrite Nat2Z.id, take_app_length, drop_app_length.
  destruct room as [[|room]|]; done.
Qed.

(** A frame cut short before its last byte. *)
Definition truncated (s : list byte) : Prop :=
  ∃ payload k, payload_ok payload ∧ (k < length (frame payload))%nat ∧ s = take k (frame payload).

Lemma read_frames_truncated fuel s room :
  truncated s → read_frames (S fuel) s room = ([], StreamEnded).
Proof.
  intros (payload & k & Hp & Hk & ->). unfold payload_ok, MAX_FEILIAN_TCP_FRAME in Hp.
  pose proof (from_to_le_bytes (Z.of_nat (length payload)) ltac:(unfold u32_max; lia)) as Hle.
  unfold frame, to_le_bytes in *. cbn [app] in *.
  destruct k as [|[|[|[|k]]]]; try done. cbn [take read_frames]. rewrite Hle.
  unfold MAX_FEILIAN_TCP_FRAME.
  destruct (Z.eqb_spec (Z.of_nat (length payload)) 0); [lia|].
  destruct (Z.ltb_spec 65535 (Z.of_nat (length payload))); [lia|]. cbn [orb].
  cbn [length] in Hk. rewrite length_take.
  destruct (Z.ltb_spec (Z.of_nat (k `min` length payload)) (Z.of_nat (length payload))); [done|lia].
Qed.

Lemma read_frames_concat fuel payloads tail :
  Forall payload_ok payloads → truncated tail → (length payloads < fuel)%nat →
  read_frames fuel (concat (map frame payloads) ++ tail) None = (payloads, StreamEnded).
Proof.
  intros Hok Ht. revert fuel. induction Hok as [|p ps Hp Hps IH]; intros fuel Hf.
  - destruct fuel as [|fuel]; [lia|]. by apply read_frames_truncated.
  - destruct fuel as [|fuel]; [lia|]. cbn [map concat length] in *.
    rewrite <- app_assoc, read_frames_payload by done. cbn [fmap option_fmap option_map].
    rewrite IH by lia. done.
Qed.

Lemma frame_length payload : length (frame payload) = (4 + length payload)%nat.
Proof. done. Qed.

Lemma frames_length payloads : (length payloads ≤ length (concat (map frame payloads)))%nat.
Proof.
  induction payloads as [|p ps IH]; [done|]. cbn [map concat length].
  rewrite length_app, frame_length. lia.
Qed.

(** With enough fuel the reader always stops: every frame it takes shortens
    the stream. *)
Lemma read_frames_stops fuel s room : (length s < fuel)%nat → (read_frames fuel s room).2 ≠ Running.
Proof.
  revert s room. induction fuel as [|fuel IH]; intros s room Hlen; [lia|]. cbn [read_frames].
  destruct s as [|b0 [|b1 [|b2 [|b3 s]]]]; try done. case_match; [done|]. case_match; [done|].
  cbn [length] in Hlen.
  assert (Hd : (length (drop (Z.to_nat (from_le_bytes b0 b1 b2 b3)) s) < fuel)%nat)
    by (rewrite length_drop; lia).
  destruct room as [[|room]|]; [done| |].
  - specialize (IH _ (Some room) Hd). cbn. by case_match.
  - specialize (IH _ None Hd). cbn. by case_match.
Qed.

(** ** The sender over a byte stream *)
Section stream.
Context {W DialErr Conn : Type} `{EqDecision Conn}.
Context (net : TcpNet W DialErr Conn).
Local Existing Instance net.

(** The laws of the network: [sent c w] is what was written to connection [c];
    a new connection has nothing written to it, a completed write appends, and
    nothing else changes what was written. *)
Class StreamLaws (sent : Conn → W → list byte) : Prop := {
  sent_connect dst w w' c : connect_tcp dst w = (w', Ok c) → sent c w' = [];
  sent_write c bs w w' : write_all c bs w = (w', Ok tt) → sent c w' = sent c w ++ bs;
  sent_spawn c dst w c' : sent c' (spawn_reader c dst w) = sent c' w;
}.

(** A run of sends that stops at the first failure. *)
Fixpoint send_all (s : FeilianTcpSend Conn) (payloads : list (list byte)) (dst : SocketAddr) (w : W) :
    W * FeilianTcpSend Conn * result (TunnelTransportError DialErr) unit :=
  match payloads with
  | [] => (w, s, Ok tt)
  | p :: ps =>
      match send_to s p dst w with
      | (w1, s1, Ok _) => send_all s1 ps dst w1
      | (w1, s1, Err e) => (w1, s1, Err e)
      end
  end.

Context (sent : Conn → W → list byte) `{!StreamLaws sent}.

(** A send that succeeds on a connection to [dst] appends the frame. *)
Lemma send_to_ok_reuse s cur payload w w' s' :
  state s = Some cur → send_to s payload (destination cur) w = (w', s', Ok tt) →
  payload_ok payload ∧ state s' = Some cur ∧
  sent (writer cur) w' = sent (writer cur) w ++ frame payload.
Proof.
  intros Hst. unfold send_to. rewrite frame_len_of_spec, Hst.
  destruct (decide (payload_ok payload)) as [Hp|]; [|done].
  unfold ensure_connected, is_none_or. rewrite bool_decide_eq_true_2 by done. cbn [negb m_ret].
  unfold m_bind. destruct (write_all _ (to_le_bytes _) w) as [w1 [[]|e]] eqn:H1; [|done].
  destruct (write_all _ payload w1) as [w2 [[]|e]] eqn:H2; [|done].
  intros [= <- <-]. split; [done|]. split; [done|].
  rewrite (sent_write _ _ _ _ H2), (sent_write _ _ _ _ H1). unfold frame. by rewrite <- app_assoc.
Qed.

Lemma send_to_ok_dial s payload dst w w' s' :
  state s = None → send_to s payload dst w = (w', s', Ok tt) →
  payload_ok payload ∧ ∃ cur, state s' = Some cur ∧ destination cur = dst ∧
  sent (writer cur) w' = frame payload.
Proof.
  intros Hst. unfold send_to. rewrite frame_len_of_spec, Hst.
  destruct (decide (payload_ok payload)) as [Hp|]; [|done].
  unfold ensure_connected. cbn [is_none_or].
  destruct (connect_tcp dst w) as [w0 [c|e]] eqn:H0; [|done]. cbn [writer].
  unfold m_bind. destruct (write_all c (to_le_bytes _) _) as [w1 [[]|e]] eqn:H1; [|done].
  destruct (write_all c payload w1) as [w2 [[]|e]] eqn:H2; [|done].
  intros [= <- <-]. split; [done|]. eexists. split; [done|]. split; [done|]. cbn [writer].
  rewrite (sent_write _ _ _ _ H2), (sent_write _ _ _ _ H1), sent_spawn, (sent_connect _ _ _ _ H0).
  done.
Qed.

Lemma send_all_reuse ps s cur w w' s' :
  state s = Some cur → send_all s ps (destination cur) w = (w', s', Ok tt) →
  Forall payload_ok ps ∧ state s' = Some cur ∧
  sent (writer cur) w' = sent (writer cur) w ++ concat (map frame ps).
Proof.
  revert s w. induction ps as [|p ps IH]; intros s w Hst; cbn [send_all].
  - intros [= <- <-]. rewrite app_nil_r. done.
  - destruct (send_to s p (destination cur) w) as [[w1 s1] [[]|e]] eqn:Hs; [|done].
    intros Hall. destruct (send_to_ok_reuse _ _ _ _ _ _ Hst Hs) as (Hp & Hst1 & Hw1).
    destruct (IH _ _ Hst1 Hall) as (Hps & Hst' & Hw').
    split; [by constructor|]. split; [done|].
    rewrite Hw', Hw1. cbn [map concat]. by rewrite <- app_assoc.
Qed.

Lemma nil_truncated : truncated [].
Proof. exists [0], 0%nat. unfold payload_ok, MAX_FEILIAN_TCP_FRAME. cbn. repeat split; lia. Qed.

(** C20: What a fresh sender puts on the wire for a run of datagrams to one
    destination is what the peer's frame reader cuts back: when every send
    succeeds, one connection carries them all, and reading its byte stream
    returns exactly the datagrams, in order. *)
Theorem send_read_roundtrip ps s dst w w' s' :
  state s = None → ps ≠ [] → send_all s ps dst w = (w', s', Ok tt) →
  ∃ cur, state s' = Some cur ∧ destination cur = dst ∧
    read_feilian_tcp_frames (sent (writer cur) w') None = (ps, StreamEnded).
Proof.
  intros Hst Hne Hall. destruct ps as [|p ps]; [done|]. cbn [send_all] in Hall.
  destruct (send_to s p dst w) as [[w1 s1] [[]|e]] eqn:Hs; [|done].
  destruct (send_to_ok_dial _ _ _ _ _ _ Hst Hs) as (Hp & cur & Hst1 & <- & Hw1).
  destruct (send_all_reuse _ _ _ _ _ _ Hst1 Hall) as (Hps & Hst' & Hw').
  exists cur. split; [done|]. split; [done|]. rewrite Hw', Hw1.
  change (frame p ++ concat (map frame ps)) with (concat (map frame (p :: ps))).
  rewrite <- (app_nil_r (concat _)) at 1.
  apply read_frames_concat; [by constructor|apply nil_truncated|].
  pose proof (frames_length (p :: ps)). rewrite app_nil_r. lia.
Qed.

(** What a send leaves behind, on every branch: a datagram of an illegal
    length is refused before the network or the connection is touched; after a
    success the kept connection goes to the datagram's destination; after a
    failed write no connection is kept, so that the next send dials; after a
    failed dial the old connection is kept. *)
Theorem send_to_outcomes s payload dst w :
  match send_to s payload dst w with
  | (_, s', Ok _) => payload_ok payload ∧ ∃ cur, state s' = Some cur ∧ destination cur = dst
  | (w', s', Err (InvalidFrame n p)) =>
      ¬ payload_ok payload ∧ w' = w ∧ s' = s ∧ n = Z.of_nat (length payload) ∧ p = dst
  | (_, s', Err (Dial d _)) => payload_ok payload ∧ s' = s ∧ d = dst ∧
      (∀ cur, state s = Some cur → destination cur ≠ dst)
  | (_, s', Err (Send d n _)) =>
      payload_ok payload ∧ state s' = None ∧ d = dst ∧ n = Z.of_nat (length payload)
  | (_, _, Err _) => False
  end.
Proof.
  unfold send_to. rewrite frame_len_of_spec.
  destruct (decide (payload_ok payload)) as [Hp|Hp]; [|done].
  destruct (ensure_connected (state s) dst w) as [w1 [cur|e]] eqn:He.
  - assert (destination cur = dst).
    { unfold ensure_connected in He. destruct (state s) as [c|]; cbn [is_none_or] in He.
      - case_bool_decide; cbn in He; [congruence|].
        destruct (connect_tcp dst w) as [? [?|?]]; naive_solver.
      - destruct (connect_tcp dst w) as [? [?|?]]; naive_solver. }
    destruct (m_bind _ _ w1) as [w2 [[]|e]]; cbn; [|done]. eauto.
  - unfold ensure_connected in He. destruct (state s) as [c|]; cbn [is_none_or] in He.
    + case_bool_decide; cbn in He; [done|].
      destruct (connect_tcp dst w) as [? [?|?]]; simplify_eq. naive_solver.
    + destruct (connect_tcp dst w) as [? [?|?]]; simplify_eq. naive_solver.
Qed.

End stream.

(** A network that never fails: connections are numbered, and the world keeps
    what was written to each. *)
Module Loopback.

Abbreviation world := (list (list byte)).
#[global] Instance net : TcpNet world Empty_set nat := {
  connect_tcp _ w := (w ++ [[]], Ok (length w));
  write_all c bs w := (alter (.++ bs) c w, if decide (c < length w)%nat then Ok tt
                                           else Err (IoError OtherKind "gone"));
  spawn_reader _ _ w := w;
}.
Definition sent (c : nat) (w : world) : list byte := default [] (w !! c).

#[global] Instance laws : StreamLaws net sent.
Proof.
  split; unfold sent.
  - intros dst w w' c Hc. injection Hc as <- <-. by rewrite lookup_app_r, Nat.sub_diag by done.
  - intros c bs w w' Hc. cbn [write_all net] in Hc. case_decide as Hlt; [|done].
    injection Hc as <-. destruct (lookup_lt_is_Some_2 w c Hlt) as [x Hx].
    by rewrite list_lookup_alter_eq, Hx.
  - done.
Qed.

End Loopback.

Definition peer : SocketAddr := sock (V4 (v4 10 0 0 1)) 443.

Lemma send_read_roundtrip_witness :
  ∃ cur, Loopback.sent (writer cur) [concat (map frame [[1; 2; 3]; [255]])]
         = concat (map frame [[1; 2; 3]; [255]]) ∧
  read_feilian_tcp_frames (Loopback.sent (writer cur) [concat (map frame [[1; 2; 3]; [255]])]) None
  = ([[1; 2; 3]; [255]], StreamEnded).
Proof.
  destruct (send_read_roundtrip Loopback.net Loopback.sent [[1; 2; 3]; [255]]
    (tcp_pair peer) peer [] [concat (map frame [[1; 2; 3]; [255]])]
    {| local_addr := peer; state := Some {| destination := peer; writer := 0%nat |} |})
    as (cur & Hst & _ & Hrd); [done|done|vm_compute; done|].
  exists cur. split; [|exact Hrd]. injection Hst as <-. done.
Defined.

(** The frame reader is exact on any stream made of well-formed frames and
    a truncated last one: it delivers every complete datagram in order, drops
    the truncated one, and stops; and on every stream whatever it stops within
    its fuel. *)
Theorem reader_exact payloads tail s room :
  Forall payload_ok payloads → truncated tail →
  read_feilian_tcp_frames (concat (map frame payloads) ++ tail) None = (payloads, StreamEnded) ∧
  (read_feilian_tcp_frames s room).2 ≠ Running.
Proof.
  intros Hps Ht. split.
  - apply read_frames_concat; [done|done|].
    pose proof (frames_length payloads). rewrite length_app. lia.
  - apply read_frames_stops. lia.
Qed.

Lemma reader_exact_witness :
  read_feilian_tcp_frames ([1; 0; 0; 0; 42] ++ [2; 0; 0; 0; 9]) None = ([[42]], StreamEnded).
Proof.
  apply (reader_exact [[42]] [2; 0; 0; 0; 9] [] None).
  - repeat constructor; vm_compute; done.
  - exists [9; 9], 5%nat. repeat split; vm_compute; try done; lia.
Defined.

End Transport.
