(* ===== verification/FeilianRecv.v ===== *)
(** * The receiving side of the FeiLian TCP transport
    ([tunnel/src/transport.rs])

    Every connection the sender dials gets a reader task that cuts its byte
    stream into datagrams and puts them into one bounded channel, from which
    WireGuard receives.  [Transport.read_feilian_tcp_frames] is the reader on a
    whole stream; here the bytes arrive in pieces, several readers share the
    channel, and the channel holds them back when it is full.  A step is a
    function of the state; [step] and [run] say which can follow one another. *)

From S2P Require Import Prelude RustStr Net Transport.
Import Transport.

Module FeilianRecv.

(** [mpsc::channel(256)]. *)
Definition CHANNEL : nat := 256%nat.

(** ** State *)

(** What a reader is doing: reading a frame, waiting for room for a datagram,
    or it has returned. *)
Inductive Status : Type := Reading | Holding (payload : list byte) | Stopped.

(** A reader task: its peer, the bytes that arrived and are not read yet, and
    whether the stream has ended. *)
Record Reader : Type := { r_source : SocketAddr; r_buf : list byte; r_eof : bool; r_status : Status }.

(** The channel with its two ends.  An entry also says which reader sent it,
    which the code does not keep. *)
(* @tunnel/src/transport.rs:89-91 FeilianTcpRecv *)
Record FeilianTcpRecv : Type := {
  incoming : list (nat * (list byte * SocketAddr));
  receiver_open : bool;
  sender_open : bool;      (* a [FeilianTcpSend] with a clone of the channel *)
  readers : list Reader;
}.

Definition set_reader (i : nat) (x : Reader) (s : FeilianTcpRecv) : FeilianTcpRecv :=
  {| incoming := incoming s; receiver_open := receiver_open s; sender_open := sender_open s;
     readers := <[i := x]> (readers s) |}.
Definition set_incoming (l : list (nat * (list byte * SocketAddr))) (s : FeilianTcpRecv) : FeilianTcpRecv :=
  {| incoming := l; receiver_open := receiver_open s; sender_open := sender_open s; readers := readers s |}.
Definition with_status (t : Status) (x : Reader) : Reader :=
  {| r_source := r_source x; r_buf := r_buf x; r_eof := r_eof x; r_status := t |}.

(* @tunnel/src/transport.rs:214-225 tcp_pair *)
Definition channel_new : FeilianTcpRecv :=
  {| incoming := []; receiver_open := true; sender_open := true; readers := [] |}.

(** [tokio::spawn(read_feilian_tcp_frames(..))] of [send_to], after a dial. *)
Definition spawn_reader (source : SocketAddr) (s : FeilianTcpRecv) : FeilianTcpRecv :=
  {| incoming := incoming s; receiver_open := receiver_open s; sender_open := sender_open s;
     readers := readers s ++ [{| r_source := source; r_buf := []; r_eof := false; r_status := Reading |}] |}.
Definition drop_receiver (s : FeilianTcpRecv) : FeilianTcpRecv :=
  {| incoming := []; receiver_open := false; sender_open := sender_open s; readers := readers s |}.
Definition drop_sender (s : FeilianTcpRecv) : FeilianTcpRecv :=
  {| incoming := incoming s; receiver_open := receiver_open s; sender_open := false; readers := readers s |}.

(** ** The reader *)

(** The two [read_exact]s of a turn on what has arrived. *)
Inductive ReadOutcome : Type := NeedMore | BadFrame (len : Z) | GotFrame (payload rest : list byte).
Definition read_frame (buf : list byte) : ReadOutcome :=
  match buf with
  | b0 :: b1 :: b2 :: b3 :: s' =>
      let frame_len := from_le_bytes b0 b1 b2 b3 in
      if (frame_len =? 0) || (MAX_FEILIAN_TCP_FRAME <? frame_len) then BadFrame frame_len
      else if Z.of_nat (length s') <? frame_len then NeedMore
      else GotFrame (take (Z.to_nat frame_len) s') (drop (Z.to_nat frame_len) s')
  | _ => NeedMore
  end.

(** One turn of the reader [i]; [None]: it waits. *)
(* @tunnel/src/transport.rs:227-255 read_feilian_tcp_frames *)
Definition reader_turn (i : nat) (s : FeilianTcpRecv) : option FeilianTcpRecv :=
  x ← readers s !! i;
  match r_status x with
  | Stopped => None
  | Reading =>
      match read_frame (r_buf x) with
      | NeedMore => if r_eof x then Some (set_reader i (with_status Stopped x) s) else None
      | BadFrame _ => Some (set_reader i (with_status Stopped x) s)
      | GotFrame payload rest =>
          Some (set_reader i {| r_source := r_source x; r_buf := rest; r_eof := r_eof x; r_status := Holding payload |} s)
      end
  | Holding payload =>
      if negb (receiver_open s) then Some (set_reader i (with_status Stopped x) s)
      else if (length (incoming s) <? CHANNEL)%nat
      then Some (set_incoming (incoming s ++ [(i, (payload, r_source x))]) (set_reader i (with_status Reading x) s))
      else None
  end.

(** ** The receiver *)

Definition is_stopped (x : Reader) : bool := match r_status x with Stopped => true | _ => false end.

(** The next datagram, in a pooled buffer; [None]: it waits. *)
(* @tunnel/src/transport.rs:203-211 FeilianTcpRecv::recv_from *)
Definition recv_from {DialErr} (pooled : list byte) (s : FeilianTcpRecv) :
    option (FeilianTcpRecv * result (TunnelTransportError DialErr) (list byte * SocketAddr)) :=
  match incoming s with
  | (_, (payload, source)) :: l =>
      let packet := firstn 0 pooled in
      Some (set_incoming l s, Ok (packet ++ payload, source))
  | [] =>
      if sender_open s || negb (forallb is_stopped (readers s)) then None
      else Some (s, Err RecvClosed)
  end.

(** ** Runs *)

(** The bytes of a connection that come in, the datagrams that go out. *)
Inductive Label : Type := Tau | Arrived (i : nat) (bytes : list byte) | Delivered (i : nat) (packet : list byte) (source : SocketAddr).

Definition arrive (i : nat) (bytes : list byte) (s : FeilianTcpRecv) : option FeilianTcpRecv :=
  x ← readers s !! i;
  if r_eof x || is_stopped x then None
  else Some (set_reader i {| r_source := r_source x; r_buf := r_buf x ++ bytes; r_eof := false; r_status := r_status x |} s).
Definition end_stream (i : nat) (s : FeilianTcpRecv) : option FeilianTcpRecv :=
  x ← readers s !! i;
  Some (set_reader i {| r_source := r_source x; r_buf := r_buf x; r_eof := true; r_status := r_status x |} s).

Inductive step {DialErr : Type} : FeilianTcpRecv → Label → FeilianTcpRecv → Prop :=
  | step_spawn s source : sender_open s = true → step s Tau (spawn_reader source s)
  | step_drop_sender s : step s Tau (drop_sender s)
  | step_drop_receiver s : step s Tau (drop_receiver s)
  | step_arrive i bytes s s' : arrive i bytes s = Some s' → step s (Arrived i bytes) s'
  | step_end i s s' : end_stream i s = Some s' → step s Tau s'
  | step_reader i s s' : reader_turn i s = Some s' → step s Tau s'
  | step_recv i e l pooled packet source s s' :
      incoming s = (i, e) :: l → recv_from (DialErr:=DialErr) pooled s = Some (s', Ok (packet, source)) →
      step s (Delivered i packet source) s'.

Inductive run {DialErr : Type} : list Label → FeilianTcpRecv → Prop :=
  | run_nil : run [] channel_new
  | run_snoc tr s l s' : run tr s → step (DialErr:=DialErr) s l s' → run (tr ++ [l]) s'.

(** What arrived on a connection, and what was delivered of it. *)
Definition arrived_on (i : nat) (l : Label) : list byte :=
  match l with Arrived j bytes => if decide (i = j) then bytes else [] | _ => [] end.
Definition delivered_on (i : nat) (l : Label) : list (list byte) :=
  match l with Delivered j packet _ => if decide (i = j) then [packet] else [] | _ => [] end.
Definition stream (i : nat) (tr : list Label) : list byte := concat (map (arrived_on i) tr).
Definition datagrams (i : nat) (tr : list Label) : list (list byte) := concat (map (delivered_on i) tr).

(** The datagrams of a whole stream. *)
Definition frames (s : list byte) : list (list byte) := (read_feilian_tcp_frames s None).1.

(** ** Lemmas *)

(** Enough fuel is enough. *)
Lemma read_frames_fuel f1 f2 s room : (length s < f1)%nat → (length s < f2)%nat →
  read_frames f1 s room = read_frames f2 s room.
Proof.
  revert f2 s room. induction f1 as [|f1 IH]; intros f2 s room H1' H2'; [lia|].
  destruct f2 as [|f2]; [lia|]. cbn [read_frames].
  destruct s as [|b0 [|b1 [|b2 [|b3 s]]]]; try done. destruct (_ || _)%bool; [done|].
  destruct (_ <? _); [done|]. cbn [length] in *. set (n := Z.to_nat _).
  assert (Hn : (length (drop n s) ≤ length s)%nat) by (rewrite length_drop; lia).
  destruct room as [[|room]|]; [done| |]; rewrite (IH f2) by lia; done.
Qed.

(** The batch reader, one turn at a time. *)
Lemma frames_unfold s :
  frames s = match read_frame s with GotFrame payload rest => payload :: frames rest | _ => [] end.
Proof.
  unfold frames at 1, read_feilian_tcp_frames. cbn [read_frames]. unfold read_frame.
  destruct s as [|b0 [|b1 [|b2 [|b3 s]]]]; try done. destruct (_ || _)%bool; [done|].
  destruct (_ <? _); [done|]. set (rest := drop _ s). change (pred <$> None) with (@None nat).
  rewrite (read_frames_fuel _ (S (length rest))); [|unfold rest; rewrite length_drop; cbn; lia|lia].
  fold (read_feilian_tcp_frames rest None). unfold frames. by destruct (read_feilian_tcp_frames rest None).
Qed.

(** A frame that is read is the front of what was there. *)
Lemma read_frame_split s payload rest : read_frame s = GotFrame payload rest →
  ∃ front, s = front ++ rest ∧ ∀ y, read_frame (front ++ y) = GotFrame payload y.
Proof.
  unfold read_frame. destruct s as [|b0 [|b1 [|b2 [|b3 s]]]]; try done. set (n := from_le_bytes b0 b1 b2 b3).
  destruct (_ || _)%bool eqn:Hn; [done|].
  destruct (Z.ltb_spec (Z.of_nat (length s)) n) as [|Hl]; [done|]. intros [= <- <-].
  assert (Hlen : length (take (Z.to_nat n) s) = Z.to_nat n).
  { rewrite length_take. bool_hyps. lia. }
  exists (b0 :: b1 :: b2 :: b3 :: take (Z.to_nat n) s). split; [cbn; by rewrite take_drop|].
  intros y. cbn [app]. fold n. rewrite Hn, length_app, Hlen.
  destruct (Z.ltb_spec (Z.of_nat (Z.to_nat n + length y)) n); [bool_hyps; lia|].
  f_equal; [by apply take_app_length'|by apply drop_app_length'].
Qed.

(** The datagrams of reader [i] in the channel, and the one it holds. *)
Definition queued (i : nat) (l : list (nat * (list byte * SocketAddr))) : list (list byte) :=
  omap (λ e, if decide (e.1 = i) then Some e.2.1 else None) l.
Definition held (x : Reader) : list (list byte) :=
  match r_status x with Holding payload => [payload] | _ => [] end.

(** What is known of a reader of which [T] arrived, [D] was delivered and [Q]
    is in the channel: it has read whole frames, and the receiver got a prefix
    of them, the rest being on its way. *)
Definition reader_ok (T : list byte) (D Q : list (list byte)) (open : bool) (x : Reader) : Prop :=
  ∃ consumed got,
    T = consumed ++ r_buf x ∧ (∀ y, frames (consumed ++ y) = got ++ frames y) ∧ D `prefix_of` got ∧
    (open = true → got = D ++ Q ++ held x ∧ (r_status x = Stopped → frames (r_buf x) = [])).

Lemma reader_ok_new source open : reader_ok [] [] [] open {| r_source := source; r_buf := []; r_eof := false; r_status := Reading |}.
Proof. exists [], []. split; [done|]. split; [done|]. split; [done|]. done. Qed.

Lemma reader_ok_arrive T D Q open x bytes : reader_ok T D Q open x → is_stopped x = false →
  reader_ok (T ++ bytes) D Q open
    {| r_source := r_source x; r_buf := r_buf x ++ bytes; r_eof := false; r_status := r_status x |}.
Proof.
  intros (consumed & got & -> & Hf & Hp & Ho) Hs. exists consumed, got. cbn. rewrite <- app_assoc.
  split; [done|]. split; [done|]. split; [done|]. intros Hop. destruct (Ho Hop) as [Hg _].
  split; [exact Hg|]. intros Hst. unfold is_stopped in Hs. by rewrite Hst in Hs.
Qed.

Lemma reader_ok_eof T D Q open x eof : reader_ok T D Q open x →
  reader_ok T D Q open {| r_source := r_source x; r_buf := r_buf x; r_eof := eof; r_status := r_status x |}.
Proof. done. Qed.

Lemma reader_ok_stop T D Q open x : reader_ok T D Q open x →
  held x = [] ∧ frames (r_buf x) = [] ∨ open = false → reader_ok T D Q open (with_status Stopped x).
Proof.
  intros (consumed & got & -> & Hf & Hp & Ho) Hcase. exists consumed, got. split; [done|]. split; [done|].
  split; [done|]. intros Hop. destruct Hcase as [[Hh Hb]|Hc]; [|congruence].
  destruct (Ho Hop) as [Hg _]. rewrite Hh in Hg. split; [exact Hg|done].
Qed.

Lemma reader_ok_read T D Q open x payload rest : reader_ok T D Q open x → r_status x = Reading →
  read_frame (r_buf x) = GotFrame payload rest →
  reader_ok T D Q open {| r_source := r_source x; r_buf := rest; r_eof := r_eof x; r_status := Holding payload |}.
Proof.
  intros (consumed & got & -> & Hf & Hp & Ho) Hst Hr.
  destruct (read_frame_split _ _ _ Hr) as (front & Hb & Hy). exists (consumed ++ front), (got ++ [payload]). cbn.
  split; [by rewrite Hb, app_assoc|]. split; [|split].
  - intros y. rewrite <- app_assoc, Hf, frames_unfold, Hy. by rewrite <- app_assoc.
  - by apply prefix_app_r.
  - intros Hop. destruct (Ho Hop) as [-> _]. split; [|done]. unfold held. rewrite Hst. cbn.
    by rewrite app_nil_r, <- app_assoc.
Qed.

Lemma reader_ok_push T D Q open x payload : reader_ok T D Q open x → r_status x = Holding payload →
  reader_ok T D (Q ++ [payload]) open (with_status Reading x).
Proof.
  intros (consumed & got & -> & Hf & Hp & Ho) Hst. exists consumed, got. split; [done|]. split; [done|].
  split; [done|]. intros Hop. destruct (Ho Hop) as [-> _]. unfold held. rewrite Hst. cbn.
  by rewrite app_nil_r.
Qed.

Lemma reader_ok_recv T D Q x payload : reader_ok T D (payload :: Q) true x → reader_ok T (D ++ [payload]) Q true x.
Proof.
  intros (consumed & got & -> & Hf & Hp & Ho). destruct (Ho eq_refl) as [Hg Hst].
  exists consumed, got. split; [done|]. split; [done|]. rewrite Hg. rewrite <- app_assoc. cbn.
  split; [by exists (Q ++ held x); rewrite <- app_assoc|]. done.
Qed.

Lemma reader_ok_closed T D Q open x : reader_ok T D Q open x → reader_ok T D [] false x.
Proof. intros (consumed & got & -> & Hf & Hp & _). by exists consumed, got. Qed.

(** *** Runs *)

Lemma stream_snoc i tr l : stream i (tr ++ [l]) = stream i tr ++ arrived_on i l.
Proof. unfold stream. rewrite map_app, concat_app. cbn. by rewrite app_nil_r. Qed.
Lemma datagrams_snoc i tr l : datagrams i (tr ++ [l]) = datagrams i tr ++ delivered_on i l.
Proof. unfold datagrams. rewrite map_app, concat_app. cbn. by rewrite app_nil_r. Qed.
Lemma queued_snoc i l j e : queued i (l ++ [(j, e)]) = queued i l ++ (if decide (j = i) then [e.1] else []).
Proof. unfold queued. rewrite omap_app. cbn. by destruct (decide (j = i)). Qed.

#[local] Arguments queued : simpl never.

(** What is known of the connection [i], whether it was dialed or not. *)
Definition conn_ok (T : list byte) (D Q : list (list byte)) (open : bool) (x : option Reader) : Prop :=
  match x with Some x => reader_ok T D Q open x | None => T = [] ∧ D = [] ∧ Q = [] end.
Definition conns_ok (tr : list Label) (s : FeilianTcpRecv) : Prop :=
  ∀ i, conn_ok (stream i tr) (datagrams i tr) (queued i (incoming s)) (receiver_open s) (readers s !! i).
Definition channel_ok (s : FeilianTcpRecv) : Prop :=
  (length (incoming s) ≤ CHANNEL)%nat ∧ (receiver_open s = false → incoming s = []).

Lemma conns_tau tr s' :
  (∀ i, conn_ok (stream i tr) (datagrams i tr) (queued i (incoming s')) (receiver_open s') (readers s' !! i)) →
  conns_ok (tr ++ [Tau]) s'.
Proof. intros Hi i. rewrite stream_snoc, datagrams_snoc. cbn. rewrite !app_nil_r. apply Hi. Qed.

(** A silent step of the reader [j] that leaves the channel. *)
Lemma conns_reader tr s j x x' : conns_ok tr s → readers s !! j = Some x →
  (∀ T D Q, reader_ok T D Q (receiver_open s) x → reader_ok T D Q (receiver_open s) x') →
  conns_ok (tr ++ [Tau]) (set_reader j x' s).
Proof.
  intros Hc Hx Hok. apply conns_tau. intros i. cbn. specialize (Hc i). destruct (decide (j = i)) as [<-|Hne].
  - rewrite list_lookup_insert_eq by by eapply lookup_lt_Some. rewrite Hx in Hc. by apply Hok.
  - by rewrite list_lookup_insert_ne.
Qed.

Lemma conns_turn j tr s s' : conns_ok tr s → reader_turn j s = Some s' → conns_ok (tr ++ [Tau]) s'.
Proof.
  intros Hc. unfold reader_turn. destruct (readers s !! j) as [x|] eqn:Hx; [|done]. cbn [mbind option_bind].
  destruct (r_status x) as [|payload|] eqn:Hst; [| |done].
  - pose proof (frames_unfold (r_buf x)) as Hf. destruct (read_frame (r_buf x)) as [|n|p rest] eqn:Hr.
    + destruct (r_eof x); [|done]. intros [= <-]. apply conns_reader with x; [done..|]. intros T D Q Hok.
      apply reader_ok_stop; [done|]. left. unfold held. by rewrite Hst.
    + intros [= <-]. apply conns_reader with x; [done..|]. intros T D Q Hok.
      apply reader_ok_stop; [done|]. left. unfold held. by rewrite Hst.
    + intros [= <-]. apply conns_reader with x; [done..|]. intros T D Q Hok. by apply reader_ok_read.
  - destruct (receiver_open s) eqn:Ho; cbn [negb].
    + destruct (_ <? _)%nat; [|done]. intros [= <-]. apply conns_tau. intros i. cbn. specialize (Hc i).
      rewrite queued_snoc. cbn. rewrite Ho in *. destruct (decide (j = i)) as [<-|Hne].
      * rewrite list_lookup_insert_eq by by eapply lookup_lt_Some. rewrite Hx in Hc. by apply reader_ok_push.
      * rewrite list_lookup_insert_ne by done. by rewrite app_nil_r.
    + intros [= <-]. apply conns_reader with x; [done..|]. intros T D Q Hok.
      apply reader_ok_stop; [done|]. by right.
Qed.

Lemma conns_step {DialErr} tr s l s' : conns_ok tr s → channel_ok s → step (DialErr:=DialErr) s l s' →
  conns_ok (tr ++ [l]) s'.
Proof.
  intros Hc [_ Hopen] Hs. destruct Hs as [s source|s|s|j bytes s s' Ha|j s s' He|j s s' Ht|j e l pooled packet source s s' Hl Hr].
  - apply conns_tau. intros i. cbn. specialize (Hc i). destruct (lt_eq_lt_dec i (length (readers s))) as [[Hi| ->]|Hi].
    + by rewrite lookup_app_l.
    + rewrite lookup_app_r, Nat.sub_diag by lia. cbn. rewrite (proj2 (lookup_ge_None _ _)) in Hc by lia.
      destruct Hc as (-> & -> & ->). apply reader_ok_new.
    + rewrite lookup_ge_None_2; [|rewrite length_app; cbn; lia]. by rewrite lookup_ge_None_2 in Hc by lia.
  - by apply conns_tau.
  - apply conns_tau. intros i. specialize (Hc i). cbn. destruct (readers s !! i); [|cbn in *; tauto].
    by eapply reader_ok_closed.
  - unfold arrive in Ha. destruct (readers s !! j) as [x|] eqn:Hx; [|done]. cbn in Ha.
    destruct (r_eof x); [done|]. destruct (is_stopped x) eqn:Hst; [done|]. injection Ha as <-.
    intros i. rewrite stream_snoc, datagrams_snoc. cbn. rewrite app_nil_r. specialize (Hc i).
    destruct (decide (i = j)) as [->|Hne].
    + rewrite list_lookup_insert_eq by by eapply lookup_lt_Some. rewrite Hx in Hc. by apply reader_ok_arrive.
    + rewrite list_lookup_insert_ne by done. by rewrite app_nil_r.
  - unfold end_stream in He. destruct (readers s !! j) as [x|] eqn:Hx; [|done]. injection He as <-.
    by apply conns_reader with x.
  - by eapply conns_turn.
  - unfold recv_from in Hr. destruct e as [payload src]. rewrite Hl in Hr. cbn in Hr. injection Hr as <- <- <-.
    assert (Ho : receiver_open s = true).
    { destruct (receiver_open s); [done|]. by rewrite Hopen in Hl. }
    intros i. rewrite stream_snoc, datagrams_snoc. cbn. rewrite app_nil_r. specialize (Hc i). rewrite Hl in Hc.
    unfold queued in Hc. cbn in Hc. rewrite Ho in *. destruct (decide (i = j)) as [->|Hne].
    + rewrite decide_True in Hc by done. destruct (readers s !! j); [by apply reader_ok_recv|].
      by destruct Hc as (_ & _ & [=]).
    + rewrite decide_False in Hc by congruence. by rewrite app_nil_r.
Qed.

Lemma channel_step {DialErr} s l s' : channel_ok s → step (DialErr:=DialErr) s l s' → channel_ok s'.
Proof.
  intros [Hl Ho] Hs. destruct Hs as [s source|s|s|j bytes s s' Ha|j s s' He|j s s' Ht|j e l pooled packet source s s' Hi Hr].
  - done.
  - done.
  - split; [cbn; lia|done].
  - unfold arrive in Ha. destruct (readers s !! j); [|done]. cbn in Ha. by destruct (_ || _)%bool; simplify_eq.
  - unfold end_stream in He. destruct (readers s !! j); [|done]. by simplify_eq/=.
  - unfold reader_turn in Ht. destruct (readers s !! j) as [x|]; [|done]. cbn [mbind option_bind] in Ht.
    destruct (r_status x); [repeat case_match; simplify_eq; split; cbn; auto| |done].
    destruct (receiver_open s) eqn:Hop; cbn [negb] in Ht; [|simplify_eq; split; cbn; auto].
    destruct (Nat.ltb_spec (length (incoming s)) CHANNEL); [|done]. simplify_eq. split; cbn.
    + rewrite length_app. cbn. lia.
    + congruence.
  - unfold recv_from in Hr. rewrite Hi in Hr. destruct e. cbn in Hr. simplify_eq. split; cbn.
    + rewrite Hi in Hl. cbn in Hl. lia.
    + intros Hop. by rewrite Ho in Hi.
Qed.

Lemma delivery_ok {DialErr} tr s : run (DialErr:=DialErr) tr s → conns_ok tr s ∧ channel_ok s.
Proof.
  induction 1 as [|tr s l s' Hr [Hc Hch] Hs].
  - split; [by intros i|]. split; [cbn; lia|done].
  - split; [by eapply conns_step|by eapply channel_step].
Qed.

(** Steps keep the peer of every connection, and what is sent carries it. *)
Definition source_of (i : nat) (s : FeilianTcpRecv) : option SocketAddr := r_source <$> readers s !! i.

Lemma source_set_reader i j x x' s : readers s !! j = Some x → r_source x' = r_source x →
  source_of i (set_reader j x' s) = source_of i s.
Proof.
  intros Hx Hs. unfold source_of. cbn. destruct (decide (i = j)) as [->|Hne].
  - rewrite list_lookup_insert_eq by by eapply lookup_lt_Some. rewrite Hx. cbn. by rewrite Hs.
  - by rewrite list_lookup_insert_ne.
Qed.

Lemma source_step {DialErr} s l s' i a : step (DialErr:=DialErr) s l s' → source_of i s = Some a → source_of i s' = Some a.
Proof.
  intros Hs Ha. destruct Hs as [s source|s|s|j bytes s s' Hx|j s s' Hx|j s s' Hx|j e l pooled packet source s s' Hi Hr]; try done.
  - unfold source_of in *. cbn. destruct (readers s !! i) eqn:Hx; [|done]. by erewrite lookup_app_l_Some.
  - unfold arrive in Hx. destruct (readers s !! j) as [x|] eqn:Hj; [|done]. cbn in Hx.
    repeat case_match; simplify_eq; by erewrite source_set_reader.
  - unfold end_stream in Hx. destruct (readers s !! j) as [x|] eqn:Hj; [|done]. simplify_eq/=.
    by erewrite source_set_reader.
  - unfold reader_turn in Hx. destruct (readers s !! j) as [x|] eqn:Hj; [|done]. cbn [mbind option_bind] in Hx.
    repeat case_match; simplify_eq; change (source_of i (set_incoming ?l ?t)) with (source_of i t);
      by erewrite source_set_reader.
  - unfold recv_from in Hr. rewrite Hi in Hr. destruct e. cbn in Hr. by simplify_eq.
Qed.

Definition sources_ok (tr : list Label) (s : FeilianTcpRecv) : Prop :=
  (∀ i p a, (i, (p, a)) ∈ incoming s → source_of i s = Some a) ∧
  (∀ i p a, Delivered i p a ∈ tr → source_of i s = Some a).

Lemma incoming_step {DialErr} s l s' e : step (DialErr:=DialErr) s l s' → e ∈ incoming s' →
  e ∈ incoming s ∨ source_of e.1 s' = Some e.2.2.
Proof.
  intros Hs He. destruct Hs as [s source|s|s|j bytes s s' Hx|j s s' Hx|j s s' Hx|j e0 l pooled packet source s s' Hi Hr]; auto.
  - by apply elem_of_nil in He.
  - unfold arrive in Hx. destruct (readers s !! j) as [x|] eqn:Hj; [|done]. cbn in Hx.
    repeat case_match; simplify_eq; auto.
  - unfold end_stream in Hx. destruct (readers s !! j) as [x|] eqn:Hj; [|done]. simplify_eq/=. auto.
  - unfold reader_turn in Hx. destruct (readers s !! j) as [x|] eqn:Hj; [|done]. cbn [mbind option_bind] in Hx.
    repeat case_match; simplify_eq; cbn in He; auto.
    apply elem_of_app in He as [He|He]; [by left|right]. apply list_elem_of_singleton in He as ->.
    unfold source_of. cbn. rewrite list_lookup_insert_eq by by eapply lookup_lt_Some. done.
  - unfold recv_from in Hr. rewrite Hi in Hr. destruct e0. cbn in Hr. simplify_eq/=. left. rewrite Hi. by right.
Qed.

Lemma sources_run {DialErr} tr s : run (DialErr:=DialErr) tr s → sources_ok tr s.
Proof.
  induction 1 as [|tr s l s' Hr [Hi Hd] Hs]; [by split; intros i p a ?%elem_of_nil|]. split.
  - intros i p a He. destruct (incoming_step _ _ _ _ Hs He) as [He'|He']; [|exact He'].
    eapply source_step; [exact Hs|]. by eapply Hi.
  - intros i p a [He|He%list_elem_of_singleton]%elem_of_app.
    + eapply source_step; [exact Hs|]. by eapply Hd.
    + eapply source_step; [exact Hs|]. subst l. inversion Hs; subst.
      match goal with H : recv_from _ _ = _, E : incoming s = _ |- _ =>
        unfold recv_from in H; rewrite E in H; destruct e; cbn in H; simplify_eq end.
      eapply Hi. match goal with E : incoming s = _ |- _ => rewrite E end. by left.
Qed.

(** More bytes only add datagrams. *)
Lemma frames_prefix s more : frames s `prefix_of` frames (s ++ more).
Proof.
  remember (length s) as n eqn:Hn. revert s Hn. induction (lt_wf n) as [n _ IH]. intros s ->.
  rewrite (frames_unfold s). destruct (read_frame s) as [|k|p rest] eqn:Hr; [apply prefix_nil..|].
  destruct (read_frame_split _ _ _ Hr) as (front & Hs & Hy). rewrite Hs, <- app_assoc, (frames_unfold (front ++ _)), Hy.
  apply prefix_cons. apply (IH (length rest)); [|done]. rewrite Hs, length_app.
  assert (front ≠ []); [|destruct front; [done|cbn; lia]].
  intros ->. specialize (Hy []). cbn in Hy. by unfold read_frame in Hy.
Qed.

Lemma frames_concat ps : Forall payload_ok ps → frames (concat (map frame ps)) = ps.
Proof.
  intros Hps. pose proof (frames_length ps) as Hl. unfold frames, read_feilian_tcp_frames.
  pose proof (read_frames_concat (S (length (concat (map frame ps)))) ps [] Hps nil_truncated ltac:(lia)) as Hr.
  rewrite app_nil_r in Hr. by rewrite Hr.
Qed.

(** When the readers are done with what arrived and the channel is empty. *)
Lemma reader_ok_idle T D x : reader_ok T D [] true x → held x = [] → frames (r_buf x) = [] → D = frames T.
Proof.
  intros (consumed & got & -> & Hf & _ & Ho) Hh Hb. destruct (Ho eq_refl) as [Hg _].
  rewrite Hh in Hg. cbn in Hg. rewrite app_nil_r in Hg. rewrite Hf, Hb, app_nil_r. done.
Qed.

Lemma idle_delivered i tr s : conns_ok tr s → receiver_open s = true → incoming s = [] →
  (∀ x, readers s !! i = Some x → is_stopped x = true ∨ reader_turn i s = None) →
  datagrams i tr = frames (stream i tr).
Proof.
  intros Hc Ho Hi Ht. specialize (Hc i). rewrite Hi, Ho in Hc. change (queued i []) with (@nil (list byte)) in Hc.
  destruct (readers s !! i) as [x|] eqn:Hx; [|by destruct Hc as (-> & -> & _)]. cbn in Hc.
  specialize (Ht x eq_refl). unfold is_stopped in Ht. apply (reader_ok_idle _ _ x Hc).
  - unfold held. destruct (r_status x) as [|p|] eqn:Hst; [done| |done]. destruct Ht as [|Ht]; [done|].
    unfold reader_turn in Ht. rewrite Hx in Ht. cbn [mbind option_bind] in Ht. by rewrite Hst, Ho, Hi in Ht.
  - destruct (r_status x) as [|p|] eqn:Hst.
    + destruct Ht as [|Ht]; [done|]. unfold reader_turn in Ht. rewrite Hx in Ht. cbn [mbind option_bind] in Ht.
      rewrite Hst in Ht. rewrite frames_unfold. by destruct (read_frame (r_buf x)).
    + destruct Ht as [|Ht]; [done|]. unfold reader_turn in Ht. rewrite Hx in Ht. cbn [mbind option_bind] in Ht.
      by rewrite Hst, Ho, Hi in Ht.
    + destruct Hc as (? & ? & _ & _ & _ & Hst'). by apply Hst'.
Qed.

(** ** Properties *)

(** C19: What WireGuard receives over TCP is what the peers sent.  However the
    bytes of the connections are cut up, and however their readers and the
    receiver interleave: of each connection exactly the leading datagrams of
    its byte stream have been delivered, in order, none twice and none of
    another connection, each with the address that was dialed; never more than
    256 wait in the channel.  Nothing is lost: when the channel is empty and
    the reader has nothing to do, or when the receiver is told that the
    transport is closed, every datagram that arrived has been delivered; so a
    peer that sent the frames of some datagrams has had them delivered. *)
Theorem feilian_delivery {DialErr} tr s i : run (DialErr:=DialErr) tr s →
  datagrams i tr `prefix_of` frames (stream i tr) ∧
  (∀ p a, Delivered i p a ∈ tr → source_of i s = Some a) ∧
  (length (incoming s) ≤ CHANNEL)%nat ∧
  (∀ ps, Forall payload_ok ps → stream i tr `prefix_of` concat (map frame ps) → datagrams i tr `prefix_of` ps) ∧
  (receiver_open s = true →
   incoming s = [] ∧ reader_turn i s = None ∨
   (∃ pooled s' e, recv_from (DialErr:=DialErr) pooled s = Some (s', Err e)) →
   datagrams i tr = frames (stream i tr) ∧
   ∀ ps, Forall payload_ok ps → stream i tr = concat (map frame ps) → datagrams i tr = ps).
Proof.
  intros Hr. destruct (delivery_ok tr s Hr) as [Hc [Hlen _]]. destruct (sources_run tr s Hr) as [_ Hsrc].
  assert (Hpre : datagrams i tr `prefix_of` frames (stream i tr)).
  { specialize (Hc i). destruct (readers s !! i) as [x|]; cbn in Hc; [|destruct Hc as (_ & -> & _); apply prefix_nil].
    destruct Hc as (consumed & got & -> & Hf & Hp & _). rewrite Hf. by apply prefix_app_r. }
  split; [exact Hpre|]. split; [by intros p a; apply Hsrc|]. split; [exact Hlen|]. split.
  - intros ps Hps [more Hmore]. rewrite <- (frames_concat ps Hps), Hmore. etrans; [exact Hpre|apply frames_prefix].
  - intros Ho Hcase. assert (Hd : datagrams i tr = frames (stream i tr)).
    { destruct Hcase as [[Hi Ht]|(pooled & s' & e & He)].
      - apply (idle_delivered i tr s); [done..|]. intros x _. by right.
      - unfold recv_from in He. destruct (incoming s) as [|[j [p a]] l] eqn:Hi; [|done].
        destruct (sender_open s || negb (forallb is_stopped (readers s)))%bool eqn:Hall; [done|].
        apply (idle_delivered i tr s); [done..|]. intros x Hx. left. bool_hyps.
        apply (proj1 (forallb_forall _ _) ltac:(eassumption)). apply list_elem_of_In. by eapply list_elem_of_lookup_2. }
    split; [exact Hd|]. intros ps Hps Hs. by rewrite Hd, Hs, frames_concat.
Qed.

(** ** Witnesses *)

(** A connection on which one datagram of two bytes comes in, in two pieces. *)
Module OneDatagram.
Definition peer : SocketAddr := sock (V4 (v4 10 0 0 1)) 443.
Definition front : list byte := [2; 0; 0].
Definition back : list byte := [0; 7; 8].
End OneDatagram.

Lemma feilian_delivery_witness :
  ∃ tr s, run (DialErr:=unit) tr s ∧ stream 0 tr = concat (map frame [[7; 8]]) ∧ datagrams 0 tr = [[7; 8]].
Proof.
  set (s1 := spawn_reader OneDatagram.peer channel_new).
  destruct (arrive 0 OneDatagram.front s1) as [s2|] eqn:E2; [|discriminate E2].
  destruct (arrive 0 OneDatagram.back s2) as [s3|] eqn:E3; [|injection E2 as <-; discriminate E3].
  injection E2 as <-. injection E3 as <-.
  set (tr3 := (([] ++ [Tau]) ++ [Arrived 0 OneDatagram.front]) ++ [Arrived 0 OneDatagram.back]).
  assert (Hr : ∃ s, run (DialErr:=unit) (((tr3 ++ [Tau]) ++ [Tau]) ++ [Delivered 0 [7; 8] OneDatagram.peer]) s ∧
    receiver_open s = true ∧ incoming s = [] ∧ reader_turn 0 s = None).
  { eexists. split; [|split; [|split]].
    - eapply run_snoc; [eapply run_snoc; [eapply run_snoc; [|]|]|].
      + eapply run_snoc; [eapply run_snoc; [eapply run_snoc; [apply run_nil|by apply step_spawn]|]|];
          apply step_arrive; reflexivity.
      + apply (step_reader 0). reflexivity.
      + apply (step_reader 0). reflexivity.
      + eapply (step_recv 0 _ [] []); reflexivity.
    - reflexivity.
    - reflexivity.
    - reflexivity. }
  destruct Hr as (s & Hr & Ho & Hi & Ht). eexists _, s. split; [exact Hr|]. split; [reflexivity|].
  destruct (feilian_delivery _ s 0 Hr) as (_ & _ & _ & _ & Hd).
  destruct (Hd Ho (or_introl (conj Hi Ht))) as [_ Hps]. apply Hps; [|reflexivity].
  apply Forall_singleton. split; vm_compute; [reflexivity|discriminate].
Defined.

End FeilianRecv.
