(* ===== verification/Session.v ===== *)
(** * A tunnel session ([tunnel/src/session.rs])

    The configuration of a tunnel from the node's answer, the order in which
    a session brings up the TUN device, the outbound context, the bypass, the
    routes, the DNS server, the WireGuard device and the liveness probe, and
    how [stop] takes them down.  Routes, DNS, outbound and TUN parts are the
    definitions of the other files; the TUN driver, WireGuard and the key
    codecs are behind [TunDriver] and [KeyCodec]. *)

From S2P Require Import Prelude RustStr Net Models Signing Api VpnState.
From S2P Require Import Routes Interface Dialer DnsConfig DnsResolver Outbound TunDns.
Import Models Signing Api.
Import Routes(IpNet, IpNetwork, RouteManager).

Module Session.

(** ** Errors *)

(* @tunnel/src/session.rs:36-109 Error *)
Inductive SessionError : Type :=
  | InvalidConfig (reason : string)
  | InvalidIpv4Address (value : string)
  | InvalidIpv4Prefix (prefix : Z)
  | InvalidMtu (mtu : Z)
  | InvalidIpv6Address (value : string)
  | InvalidIpv6Network (value : string)
  | InvalidIpv6NetworkFamily (value : string)
  | SRoute (source : Routes.RouteError)
  | TunCreate (source : io_error)
  | SOutbound (source : Outbound.ContextError)
  | Device (source : string)
  | ResolveEndpoint (source : Outbound.ResolverError)
  | EmptyEndpointResolution
  | InvalidKey (name : string)
  | SDnsServer (address : SocketAddr) (source : io_error).

(** ** Keys *)

(** Hexadecimal text, and the public key of a private one (X25519). *)
Class KeyCodec : Type := {
  hex_decode : string → option (list ascii);
  public_key : list ascii → list ascii;
}.

(* @tunnel/src/session.rs:744-757 decode_key *)
Definition decode_key `{Crypto, KeyCodec} (name value : string) : result SessionError (list ascii) :=
  let trimmed := trim value in
  let bytes := match base64_decode trimmed with
               | Ok b => Some b
               | Err _ => hex_decode trimmed
               end in
  match bytes with
  | Some b => if bool_decide (length b = 32%nat) then Ok b else Err (InvalidKey name)
  | None => Err (InvalidKey name)
  end.

(* @tunnel/src/session.rs:113-119 LocalTunnelParams *)
Record LocalTunnelParams : Type := {
  lp_private_key : string; lp_public_key : string; lp_port : Z; lp_dns : option string;
}.

(* @tunnel/src/session.rs:27-27 ANDROID_LOCAL_PORT_START *)
Definition ANDROID_LOCAL_PORT_START : Z := 12912.

(** The first of [n] ports from [p] on that is free, 0 when none is. *)
Fixpoint first_free (free : Z → bool) (n : nat) (p : Z) : Z :=
  match n with
  | O => 0
  | S n' => if free p then p else first_free free n' (p + 1)
  end.
(** [free] is whether [0.0.0.0:port] can be bound. *)
(* @tunnel/src/session.rs:663-670 choose_local_port *)
Definition choose_local_port (free : Z → bool) : Z :=
  first_free free (Z.to_nat (65535 - ANDROID_LOCAL_PORT_START)) ANDROID_LOCAL_PORT_START.

(* @tunnel/src/session.rs:190-198 LocalTunnelParams::from_secret *)
Definition from_secret `{Crypto, KeyCodec} (free : Z → bool) (secret : list ascii) : LocalTunnelParams := {|
  lp_private_key := base64_encode secret; lp_public_key := base64_encode (public_key secret);
  lp_port := choose_local_port free; lp_dns := None |}.

(** [secret] is the 32 random bytes, which [StaticSecret::from] takes as they are. *)
(* @tunnel/src/session.rs:179-183 LocalTunnelParams::generate *)
Definition local_params_generate `{Crypto, KeyCodec} (free : Z → bool) (secret : list ascii) : LocalTunnelParams :=
  from_secret free secret.

(* @tunnel/src/session.rs:185-188 LocalTunnelParams::from_private_key *)
Definition from_private_key `{Crypto, KeyCodec} (free : Z → bool) (value : string) :
    result SessionError LocalTunnelParams :=
  let? secret := decode_key "local_private_key" value in
  Ok (from_secret free secret).

(** ** The configuration *)

(** [endpoint.host()]: a domain or an address, as its text. *)
Class UrlHost `{Urls} : Type := url_host_text : Url → option string.

(* @tunnel/src/session.rs:121-153 TunnelConfig *)
Record TunnelConfig `{Urls, IpNet} : Type := {
  interface_name : string;
  local_addr : string;
  local_addr_v6 : option string;
  local_prefix : option Z;
  mtu : Z;
  local_private_key : string;
  local_public_key : string;
  local_port : Z;
  server_public_key : string;
  server_preshared_key : option string;
  tc_endpoint : Url;
  tc_protocol_mode : ProtocolMode;
  protocol_version : option string;
  outbound_interface : option string;
  tc_routes : list IpNetwork;
  full_tunnel : bool;
  ipv6_enabled : bool;
  dns : DnsConfig.DnsConfig;
  route_system_dns : bool;
  dns_listen_port : Z;
  dns_listen_host : option string;
  fallback_dns : option (list string);
}.

(** What the daemon fills in after building the configuration. *)
Record LocalSettings : Type := {
  ls_outbound : option string; ls_port : Z; ls_host : option string;
  ls_fallback : option (list string); ls_route_system_dns : bool; ls_tun : option string;
}.

Section config.
Context `{Urls, IpNet, DnsConfig.Unicode, DnsConfig.UrlParser, DnsConfig.WildMatch}.

(** The Linux default. *)
(* @tunnel/src/session.rs:655-661 default_interface_name *)
Definition default_interface_name : string := "wg0".

(* @tunnel/src/session.rs:202-250 TunnelConfig::from_vpn_conn *)
Definition from_vpn_conn (conn : VpnConnResponse) (p : LocalTunnelParams) (endpoint : Url)
    (mode : ProtocolMode) (route_mode : Routes.VpnRouteMode) : result SessionError TunnelConfig :=
  if vpn_mtu (conn_setting conn) <=? 0 then Err (InvalidConfig "vpn_mtu must be positive")
  else
    let ipv6 := is_some_and (conn_ipv6 conn) (λ v, negb (str_is_empty (trim v))) in
    let full := match route_mode with Routes.RouteFull => true | Routes.RouteSplit => false end in
    let? networks := map_err SRoute (Routes.networks_from_vpn_conn conn route_mode ipv6) in
    Ok {| interface_name := default_interface_name;
          local_addr := conn_ip conn; local_addr_v6 := conn_ipv6 conn;
          local_prefix := conn_ip_mask conn; mtu := vpn_mtu (conn_setting conn);
          local_private_key := lp_private_key p; local_public_key := lp_public_key p;
          local_port := lp_port p; server_public_key := conn_public_key conn;
          server_preshared_key := conn_preshared_key conn; tc_endpoint := endpoint;
          tc_protocol_mode := mode; protocol_version := conn_protocol_version conn;
          outbound_interface := None; tc_routes := networks; full_tunnel := full;
          ipv6_enabled := ipv6; dns := DnsConfig.from_vpn_conn conn (lp_dns p) full;
          route_system_dns := true; dns_listen_port := 0; dns_listen_host := None;
          fallback_dns := None |}.

(** The overrides of [Daemon::start_session]. *)
(* @daemon/src/daemon.rs:619-628 Daemon::start_session *)
Definition with_local_settings (s : LocalSettings) (c : TunnelConfig) : TunnelConfig := {|
  interface_name := default (interface_name c) (opt_filter (λ n, negb (str_is_empty (trim n))) (ls_tun s));
  local_addr := local_addr c; local_addr_v6 := local_addr_v6 c; local_prefix := local_prefix c;
  mtu := mtu c; local_private_key := local_private_key c; local_public_key := local_public_key c;
  local_port := local_port c; server_public_key := server_public_key c;
  server_preshared_key := server_preshared_key c; tc_endpoint := tc_endpoint c;
  tc_protocol_mode := tc_protocol_mode c; protocol_version := protocol_version c;
  outbound_interface := ls_outbound s; tc_routes := tc_routes c; full_tunnel := full_tunnel c;
  ipv6_enabled := ipv6_enabled c; dns := dns c; route_system_dns := ls_route_system_dns s;
  dns_listen_port := ls_port s; dns_listen_host := ls_host s; fallback_dns := ls_fallback s |}.

Definition with_routes (l : list IpNetwork) (c : TunnelConfig) : TunnelConfig := {|
  interface_name := interface_name c; local_addr := local_addr c; local_addr_v6 := local_addr_v6 c;
  local_prefix := local_prefix c; mtu := mtu c; local_private_key := local_private_key c;
  local_public_key := local_public_key c; local_port := local_port c;
  server_public_key := server_public_key c; server_preshared_key := server_preshared_key c;
  tc_endpoint := tc_endpoint c; tc_protocol_mode := tc_protocol_mode c;
  protocol_version := protocol_version c; outbound_interface := outbound_interface c;
  tc_routes := l; full_tunnel := full_tunnel c; ipv6_enabled := ipv6_enabled c; dns := dns c;
  route_system_dns := route_system_dns c; dns_listen_port := dns_listen_port c;
  dns_listen_host := dns_listen_host c; fallback_dns := fallback_dns c |}.

(* @tunnel/src/session.rs:280-305 TunnelSession::route_system_dns_into_tunnel *)
Definition route_system_dns_into_tunnel (system : list IpAddr) (c : TunnelConfig) : TunnelConfig :=
  if full_tunnel c then c
  else if negb (route_system_dns c) then c
  else
    match Routes.dns_host_routes system (ipv6_enabled c) with
    | [] => c
    | hosts => with_routes (tc_routes c ++ hosts) c
    end.

(** [ProtocolIdentifier::new(construction, identifier)]. *)
(* @tunnel/src/session.rs:30-30 STANDARD_NOISE_CONSTRUCTION *)
Definition STANDARD_NOISE_CONSTRUCTION : string := "Noise_IKpsk2_25519_ChaChaPoly_BLAKE2s".
(* @tunnel/src/session.rs:31-31 FEILIAN_V2_PROTOCOL_IDENTIFIER *)
Definition FEILIAN_V2_PROTOCOL_IDENTIFIER : string := "CorpLink v1 vpn@feilian-----------".
(* @tunnel/src/session.rs:681-699 feilian_protocol_identifier *)
Definition feilian_protocol_identifier (c : TunnelConfig) : option (string * string) :=
  if bool_decide (trim <$> protocol_version c = Some "v2")
  then Some (STANDARD_NOISE_CONSTRUCTION, FEILIAN_V2_PROTOCOL_IDENTIFIER) else None.

(** A WireGuard peer as the program configures it. *)
Record Peer : Type := {
  peer_public_key : list ascii; peer_endpoint : SocketAddr; peer_allowed_ips : list IpNetwork;
  peer_keepalive : Z; peer_preshared_key : option (list ascii);
}.
(* @tunnel/src/session.rs:28-28 WIREGUARD_KEEPALIVE_SECS *)
Definition WIREGUARD_KEEPALIVE_SECS : Z := 25.
(* @tunnel/src/session.rs:727-742 tunnel_peer *)
Definition tunnel_peer `{Crypto, KeyCodec} (c : TunnelConfig) (endpoint : SocketAddr) :
    result SessionError Peer :=
  let? key := decode_key "server_public_key" (server_public_key c) in
  let? psk := match opt_filter (λ v, negb (str_is_empty v)) (server_preshared_key c) with
              | Some v => let? k := decode_key "server_preshared_key" v in Ok (Some k)
              | None => Ok None
              end in
  Ok {| peer_public_key := key; peer_endpoint := endpoint; peer_allowed_ips := tc_routes c;
        peer_keepalive := WIREGUARD_KEEPALIVE_SECS; peer_preshared_key := psk |}.
End config.

(** ** The runtime *)

(** What the TUN driver is asked for: name, IPv4 address and prefix, MTU, and
    the IPv6 address and prefix. *)
Record TunSpec : Type := {
  ts_name : string; ts_v4 : Z * Z; ts_mtu : Z; ts_v6 : option (Z * Z);
}.

(** What the WireGuard device is built from. *)
Record WgSpec `{IpNet} : Type := {
  wg_transport : ProtocolMode; wg_dialer : Dialer.Dialer; wg_tun : Z * TunDns.VpnTun;
  wg_private_key : list ascii; wg_listen_port : Z; wg_peer : Peer;
  wg_identifier : option (string * string);
}.

(** The TUN driver, the WireGuard device, the probe's task and the system's
    host look-up.  Devices, servers and tasks are known by a number.
    [tun_drop] is what the end of a TUN device's life does; the device that a
    WireGuard device was built on ends with it, in [wg_stop]. *)
Class TunDriver (W : Type) `{IpNet} : Type := {
  tun_build : TunSpec → M W io_error Z;
  tun_device_name : Z → M W io_error string;
  tun_device_mtu : Z → M W io_error Z;
  tun_drop : Z → W → W;
  wg_build : WgSpec → M W string Z;
  wg_stop : Z → W → W;
  dns_serve : Z * Z → DnsResolver.DnsResolver → W → W * Z;
  dns_shutdown : Z → W → W;
  probe_start : Dialer.Dialer → list SocketAddr → W → W * Z;
  probe_drop : Z → W → W;
  probe_last_rx : Z → W → option Z;
  instant_now : W → Z;
  lookup_host : string → M W io_error (list SocketAddr);
  resolv_conf : W → result io_error (list IpAddr);
}.

(** The network of [a.b.c.d/p] text with its address, as the [ipnetwork] crate
    reads it. *)
Class IpNetAddr `{IpNet} : Type := net_ip : IpNetwork → IpAddr.

(** The counters of a peer, and the device's answers: its peers, and the world
    after it has stopped by itself. *)
Record PeerStats : Type := { ps_tx_bytes : Z; ps_rx_bytes : Z; ps_last_handshake : option duration }.
Class WgStatus (W : Type) : Type := { wg_peers : Z → W → list PeerStats; wg_wait : Z → W → W }.

(** [Iterator::min]: the first of the least. *)
Definition least (l : list Z) : option Z :=
  match l with [] => None | x :: l' => Some (foldl (λ a b, if b <? a then b else a) x l') end.
(* @tunnel/src/session.rs:630-637 peer_last_handshake *)
Definition peer_last_handshake (peers : list PeerStats) : option duration :=
  least (filter_map ps_last_handshake peers).

(* @tunnel/src/session.rs:155-161 TunnelStatus *)
Inductive TunnelStatus : Type := Created | RoutesApplied | Running | Stopped.

#[export] Instance TunnelStatus_eq_dec : EqDecision TunnelStatus.
Proof. solve_decision. Defined.

(* @tunnel/src/session.rs:163-171 TunnelSession *)
Record TunnelSession `{Urls, IpNet} : Type := {
  config : TunnelConfig;
  status : TunnelStatus;
  device : option Z;
  routes : option Routes.AppliedRoutes;
  bypass : option Outbound.RouteBypass;
  probe : option Z;
  dns_server : option Z;
}.

Section session.
Context `{Urls} `{!UrlHost} `{IpNet} `{!IpNetAddr} `{Crypto, KeyCodec}.
Context `{DnsConfig.Unicode, DnsConfig.UrlParser, DnsConfig.WildMatch, DnsResolver.DnsCodec} `{!Outbound.DnsNames}.
Context {W : Type} `{Dialer.Sockets W} `{DnsResolver.Udp W} `{Outbound.Os W} `{Outbound.IpRule W}
        `{RouteManager W} `{!TunDriver W}.
Abbreviation op A := (M (TunnelSession * W) SessionError A).

(* @tunnel/src/session.rs:254-265 TunnelSession::new *)
Definition session_new (c : TunnelConfig) : TunnelSession := {|
  config := c; status := Created; device := None; routes := None; bypass := None; probe := None;
  dns_server := None |}.

(** *** Field updates and effects *)

Definition set_config (c : TunnelConfig) (s : TunnelSession) : TunnelSession := {|
  config := c; status := status s; device := device s; routes := routes s; bypass := bypass s;
  probe := probe s; dns_server := dns_server s |}.
Definition set_status (t : TunnelStatus) (s : TunnelSession) : TunnelSession := {|
  config := config s; status := t; device := device s; routes := routes s; bypass := bypass s;
  probe := probe s; dns_server := dns_server s |}.
Definition set_device (d : option Z) (s : TunnelSession) : TunnelSession := {|
  config := config s; status := status s; device := d; routes := routes s; bypass := bypass s;
  probe := probe s; dns_server := dns_server s |}.
Definition set_routes (r : option Routes.AppliedRoutes) (s : TunnelSession) : TunnelSession := {|
  config := config s; status := status s; device := device s; routes := r; bypass := bypass s;
  probe := probe s; dns_server := dns_server s |}.
Definition set_bypass (b : option Outbound.RouteBypass) (s : TunnelSession) : TunnelSession := {|
  config := config s; status := status s; device := device s; routes := routes s; bypass := b;
  probe := probe s; dns_server := dns_server s |}.
Definition set_probe (p : option Z) (s : TunnelSession) : TunnelSession := {|
  config := config s; status := status s; device := device s; routes := routes s; bypass := bypass s;
  probe := p; dns_server := dns_server s |}.
Definition set_dns_server (d : option Z) (s : TunnelSession) : TunnelSession := {|
  config := config s; status := status s; device := device s; routes := routes s; bypass := bypass s;
  probe := probe s; dns_server := d |}.

Definition update (f : TunnelSession → TunnelSession) : op unit := λ '(s, w), ((f s, w), Ok tt).
Definition get : op TunnelSession := λ '(s, w), ((s, w), Ok s).
Definition run {E A} (wrap : E → SessionError) (m : M W E A) : op A :=
  λ '(s, w), let '(w1, r) := m w in ((s, w1), map_err wrap r).
Definition pure_run {A} (f : W → W * A) : op A := λ '(s, w), let '(w1, a) := f w in ((s, w1), Ok a).

(** A TUN device belongs to the function that opened it until it is handed on:
    when [m] fails, the device [dev] is dropped before the error is seen. *)
Definition dropping {A} (dev : Z) (m : op A) : op A := λ sw,
  match m sw with
  | ((s, w), Err e) => ((s, tun_drop dev w), Err e)
  | ok => ok
  end.

(** *** Starting *)

(** The IPv6 network of the configuration. *)
(* @tunnel/src/session.rs:562-597 TunnelSession::open_tun *)
Definition local_v6 (c : TunnelConfig) : result SessionError (option (Z * Z)) :=
  match opt_filter (λ v, negb (str_is_empty v)) (trim <$> local_addr_v6 c) with
  | None => Ok None
  | Some v =>
      if contains v "/" then
        match Routes.net_parse v with
        | None => Err (InvalidIpv6Network v)
        | Some n => match net_ip n with
                    | V6 a => Ok (Some (a, Routes.net_prefix n))
                    | V4 _ => Err (InvalidIpv6NetworkFamily v)
                    end
        end
      else match parse_ipv6 v with
           | Some a => Ok (Some (a, 64))
           | None => Err (InvalidIpv6Address v)
           end
  end.

(** What the device is asked for, or the first field that is wrong. *)
(* @tunnel/src/session.rs:528-597 TunnelSession::open_tun *)
Definition tun_spec (c : TunnelConfig) : result SessionError TunSpec :=
  let? addr := ok_or (parse_ipv4 (local_addr c)) (InvalidIpv4Address (local_addr c)) in
  let prefix := default 32 (local_prefix c) in
  let? prefix := ok_or (opt_filter (λ p, p <=? 32) (u8_try_from prefix)) (InvalidIpv4Prefix prefix) in
  let? m := ok_or (opt_filter (λ m, 0 <? m) (u16_try_from (mtu c))) (InvalidMtu (mtu c)) in
  let? v6 := local_v6 c in
  Ok {| ts_name := interface_name c; ts_v4 := (addr, prefix); ts_mtu := m; ts_v6 := v6 |}.

(* @tunnel/src/session.rs:527-627 TunnelSession::open_tun *)
Definition open_tun : op (Z * string) :=
  let! s := get in
  let requested := interface_name (config s) in
  let! spec := m_lift (tun_spec (config s)) in
  let! dev := run TunCreate (tun_build spec) in
  dropping dev (
    let! actual := run TunCreate (tun_device_name dev) in
    if bool_decide (actual = requested) then m_ret (dev, actual)
    else m_fail (InvalidConfig ("requested TUN interface `" +:+ requested +:+ "` but OS assigned `"
                                +:+ actual +:+ "`"))).

(* @tunnel/src/session.rs:701-725 resolve_endpoint *)
Definition resolve_endpoint (endpoint : Url) (r : Outbound.Resolver) : op SocketAddr :=
  let! host := m_lift (ok_or (url_host_text endpoint)
                             (InvalidConfig "WireGuard endpoint URL must include a host")) in
  let! port := m_lift (ok_or (url_port endpoint)
                             (InvalidConfig "WireGuard endpoint URL must include a port")) in
  let! addrs := run ResolveEndpoint (Outbound.resolve_host r host port) in
  m_lift (ok_or (hd_error addrs) EmptyEndpointResolution).

(* @tunnel/src/dns.rs:211-222 VpnTun::new *)
Definition vpn_tun_new (dev : Z) (resolver : option DnsResolver.DnsResolver) : M W io_error TunDns.VpnTun :=
  let! name := tun_device_name dev in
  let! mtu := tun_device_mtu dev in
  m_ret {| TunDns.tun_name := name; TunDns.tun_mtu := mtu; TunDns.resolver := resolver |}.

(* @tunnel/src/session.rs:308-328 TunnelSession::build_vpn_tun *)
Definition build_vpn_tun (dev : Z) (directed : Dialer.Dialer) (system : list IpAddr) :
    op (Z * TunDns.VpnTun * list SocketAddr) :=
  let! s := get in
  let! servers := pure_run (DnsConfig.resolve_vpn_servers lookup_host (dns (config s))) in
  let resolver := DnsResolver.build (dns (config s)) servers system directed in
  let! tun := run TunCreate (vpn_tun_new dev resolver) in
  m_ret (dev, tun, servers).

(** The bypass, whose failure is only logged. *)
Definition install_bypass (ctx : Outbound.OutboundContext) : op unit :=
  let! s := get in
  match Outbound.ctx_interface ctx with
  | None => m_ret tt
  | Some i =>
      let! b := m_try (run (λ _, InvalidConfig "") (Outbound.bypass_setup i (full_tunnel (config s)))) in
      match b with
      | Ok b => update (set_bypass (Some b))
      | Err _ => m_ret tt
      end
  end.

(** The optional DNS server; a host that does not parse means loopback. *)
Definition start_dns_server (servers : list SocketAddr) (system : list IpAddr) (directed : Dialer.Dialer) :
    op unit :=
  let! s := get in
  let c := config s in
  if 0 <? dns_listen_port c then
    match DnsResolver.build (dns c) servers system directed with
    | None => m_ret tt
    | Some resolver =>
        let host := default "127.0.0.1" (dns_listen_host c) in
        let port := dns_listen_port c in
        let bind_v4 := default (sock (V4 (v4 127 0 0 1)) port)
                         (parse_socket_addr (host +:+ ":" +:+ show_nat port)) in
        let! sockets := run (λ e, SDnsServer e.1 e.2) (DnsResolver.server_start bind_v4 (sock (V6 1) port)) in
        let! server := pure_run (dns_serve sockets resolver) in
        update (set_dns_server (Some server))
    end
  else m_ret tt.

(** What is left to do once the TUN device [dev] is open. *)
(* @tunnel/src/session.rs:353-457 TunnelSession::start_inner *)
Definition bring_up (private_key : list ascii) (dev : Z) (actual : string) : op unit :=
  let! s := get in
  let! ctx := run SOutbound (Outbound.context_build {|
      Outbound.configured_interface := outbound_interface (config s);
      Outbound.excluded_tun := actual;
      Outbound.oc_full_tunnel := full_tunnel (config s);
      Outbound.oc_connect_timeout := from_secs 3 |}) in
  let! system := pure_run (λ w, (w, DnsConfig.capture_system_dns (resolv_conf w) (fallback_dns (config s)))) in
  do! update (λ s, set_config (route_system_dns_into_tunnel system (config s)) s) in
  let! s := get in
  let! endpoint := resolve_endpoint (tc_endpoint (config s)) (Outbound.ctx_resolver ctx) in
  let! peer := m_lift (tunnel_peer (config s) endpoint) in
  do! install_bypass ctx in
  let! applied := run SRoute (Routes.apply actual (tc_routes (config s))) in
  do! update (λ s, set_status RoutesApplied (set_routes (Some applied) s)) in
  let! built := build_vpn_tun dev (Outbound.directed ctx) system in
  let '(tun, servers) := built : (Z * TunDns.VpnTun) * list SocketAddr in
  do! start_dns_server servers system (Outbound.directed ctx) in
  let! device := run Device (wg_build {|
      wg_transport := tc_protocol_mode (config s); wg_dialer := Outbound.directed ctx; wg_tun := tun;
      wg_private_key := private_key; wg_listen_port := local_port (config s); wg_peer := peer;
      wg_identifier := feilian_protocol_identifier (config s) |}) in
  do! update (set_device (Some device)) in
  let! p := pure_run (probe_start (Outbound.routed ctx) servers) in
  update (λ s, set_status Running (set_probe (Some p) s)).

(** The device is dropped on every early return, also from the functions it
    is moved into, so before [start] calls [stop]. *)
(* @tunnel/src/session.rs:330-457 TunnelSession::start_inner *)
Definition start_inner : op unit :=
  let! s := get in
  let! private_key := m_lift (decode_key "local_private_key" (local_private_key (config s))) in
  let! tun := open_tun in
  let '(dev, actual) := tun : Z * string in
  dropping dev (bring_up private_key dev actual).

(** *** Stopping *)

(** Take a handle out and release it. *)
Definition release {A} (field : TunnelSession → option A) (clear : TunnelSession → TunnelSession)
    (free : A → W → W) : op unit :=
  λ '(s, w), match field s with
             | Some a => ((clear s, free a w), Ok tt)
             | None => ((s, w), Ok tt)
             end.

(* @tunnel/src/session.rs:459-486 TunnelSession::stop *)
Definition stop : op unit :=
  do! release probe (set_probe None) probe_drop in
  do! release dns_server (set_dns_server None) dns_shutdown in
  let! s := get in
  do! match routes s with
      | Some r => do! update (set_routes None) in run SRoute (Routes.remove r)
      | None => m_ret tt
      end in
  do! release bypass (set_bypass None) Outbound.bypass_teardown in
  do! release device (set_device None) wg_stop in
  update (set_status Stopped).

(* @tunnel/src/session.rs:267-278 TunnelSession::start *)
Definition start : op unit := λ sw,
  match start_inner sw with
  | (sw1, Ok _) => (sw1, Ok tt)
  | (sw1, Err e) => ((stop sw1).1, Err e)
  end.

(* @tunnel/src/session.rs:492-495 TunnelSession::last_probe_rx_elapsed *)
Definition last_probe_rx_elapsed (s : TunnelSession) (w : W) : option duration :=
  p ← probe s; TunDns.last_rx_elapsed (instant_now w) (probe_last_rx p w).

(** The device's own questions, which only read it. *)
(* @tunnel/src/session.rs:504-513 TunnelSession::last_handshake *)
Definition last_handshake `{!WgStatus W} (s : TunnelSession) (w : W) : option duration :=
  d ← device s; peer_last_handshake (wg_peers d w).
(* @tunnel/src/session.rs:519-525 TunnelSession::peer_stats *)
Definition peer_stats `{!WgStatus W} (s : TunnelSession) (w : W) : list PeerStats :=
  match device s with Some d => wg_peers d w | None => [] end.
(* @tunnel/src/session.rs:497-502 TunnelSession::wait *)
Definition session_wait `{!WgStatus W} : op unit := λ '(s, w),
  match device s with
  | Some d => ((set_status Stopped s, wg_wait d w), Ok tt)
  | None => ((s, w), Ok tt)
  end.

(** ** A small program logic

    [wp m Q E s]: from session [s], whatever the world, [m] ends in a session
    that satisfies [Q] with its answer, or [E] with its error. *)
Definition wp {A} (m : op A) (Q : A → TunnelSession → Prop) (E : SessionError → TunnelSession → Prop)
    (s : TunnelSession) : Prop :=
  ∀ w, match m (s, w) with
       | ((s', _), Ok a) => Q a s'
       | ((s', _), Err e) => E e s'
       end.

Lemma wp_bind {A B} (m : op A) (k : A → op B) Q E s :
  wp m (λ a s', wp (k a) Q E s') E s → wp (m_bind m k) Q E s.
Proof.
  intros Hm w. specialize (Hm w). unfold m_bind. destruct (m (s, w)) as [[s' w'] [a|e]]; [apply Hm|done].
Qed.

Lemma wp_ret {A} (a : A) Q E s : Q a s → wp (m_ret a) Q E s.
Proof. intros H' w. exact H'. Qed.
Lemma wp_fail {A} e Q E s : E e s → wp (A:=A) (m_fail e) Q E s.
Proof. intros H' w. exact H'. Qed.
Lemma wp_lift {A} (r : result SessionError A) Q E s :
  (∀ a, r = Ok a → Q a s) → (∀ e, E e s) → wp (m_lift r) Q E s.
Proof. intros H1' H2' w. cbn. destruct r; auto. Qed.
Lemma wp_get Q E s : Q s s → wp get Q E s.
Proof. intros H' w. exact H'. Qed.
Lemma wp_update f Q E s : Q tt (f s) → wp (update f) Q E s.
Proof. intros H' w. exact H'. Qed.
Lemma wp_run {X A} (wrap : X → SessionError) (m : M W X A) Q E s :
  (∀ w w' a, m w = (w', Ok a) → Q a s) → (∀ x, E (wrap x) s) → wp (run wrap m) Q E s.
Proof. intros H1' H2' w. cbn. destruct (m w) as [w' [a|x]] eqn:Hm; cbn; eauto. Qed.
Lemma wp_pure_run {A} (f : W → W * A) Q E s : (∀ a, Q a s) → wp (pure_run f) Q E s.
Proof. intros H' w. cbn. destruct (f w). auto. Qed.
Lemma wp_try {X A} (wrap : X → SessionError) (m : M W X A) Q E s :
  (∀ r, Q r s) → wp (m_try (run wrap m)) Q E s.
Proof. intros H' w. unfold m_try, run. destruct (m w) as [w' [a|x]]; apply H'. Qed.
Lemma wp_dropping {A} dev (m : op A) Q E s : wp m Q E s → wp (dropping dev m) Q E s.
Proof. intros Hm w. specialize (Hm w). unfold dropping. by destruct (m (s, w)) as [[s' w'] [a|e]]. Qed.
Lemma wp_release {A} (field : TunnelSession → option A) clear free Q E s :
  Q tt (match field s with Some _ => clear s | None => s end) → wp (release field clear free) Q E s.
Proof. intros H' w. cbn. destruct (field s); exact H'. Qed.

Ltac wp_step :=
  lazymatch goal with
  | |- wp (m_bind _ _) _ _ _ => apply wp_bind
  | |- wp (m_ret _) _ _ _ => apply wp_ret
  | |- wp (m_fail _) _ _ _ => apply wp_fail
  | |- wp (m_lift _) _ _ _ => apply wp_lift
  | |- wp get _ _ _ => apply wp_get
  | |- wp (update _) _ _ _ => apply wp_update
  | |- wp (run _ _) _ _ _ => apply wp_run
  | |- wp (pure_run _) _ _ _ => apply wp_pure_run
  | |- wp (m_try (run _ _)) _ _ _ => apply wp_try
  | |- wp (release _ _ _) _ _ _ => apply wp_release
  | |- wp (dropping _ _) _ _ _ => apply wp_dropping
  end.

(** *** Stopping *)

(** What a stopped session has left. *)
Definition all_released (s : TunnelSession) : Prop :=
  status s = Stopped ∧ device s = None ∧ routes s = None ∧ bypass s = None ∧ probe s = None
  ∧ dns_server s = None.

Lemma stop_spec s :
  wp stop (λ _ s', all_released s' ∧ config s' = config s)
    (λ e s', (∃ a x, routes s = Some a ∧ e = SRoute x) ∧
             probe s' = None ∧ dns_server s' = None ∧ routes s' = None ∧
             bypass s' = bypass s ∧ device s' = device s ∧ status s' = status s ∧ config s' = config s) s.
Proof.
  unfold stop. wp_step. wp_step. wp_step. wp_step. wp_step. wp_step.
  set (s1 := match dns_server _ with Some _ => _ | None => _ end).
  assert (H1' : probe s1 = None ∧ dns_server s1 = None ∧ routes s1 = routes s ∧ bypass s1 = bypass s
              ∧ device s1 = device s ∧ status s1 = status s ∧ config s1 = config s).
  { unfold s1. destruct (probe s) eqn:Hp; cbn; destruct (dns_server s) eqn:Hd; cbn; auto 10. }
  clearbody s1. destruct H1' as (Hp & Hd & Hr & Hb & Hdev & Hst & Hc).
  wp_step.
  assert (Hrest : ∀ s2, probe s2 = None → dns_server s2 = None → routes s2 = None → config s2 = config s →
    wp (m_bind (release bypass (set_bypass None) Outbound.bypass_teardown) (λ _,
        m_bind (release device (set_device None) wg_stop) (λ _, update (set_status Stopped))))
      (λ _ s', all_released s' ∧ config s' = config s)
      (λ e s', (∃ a x, routes s = Some a ∧ e = SRoute x) ∧ probe s' = None ∧ dns_server s' = None ∧
         routes s' = None ∧ bypass s' = bypass s ∧ device s' = device s ∧ status s' = status s ∧
         config s' = config s) s2).
  { intros s2 ? ? ? ?. repeat wp_step. unfold all_released.
    destruct (bypass s2) eqn:Hb2; cbn; destruct (device s2) eqn:Hd2; cbn; auto 10. }
  rewrite Hr. destruct (routes s) as [a|] eqn:Ha; wp_step.
  - wp_step. wp_step; [intros; by apply Hrest|]. intros x. cbn. eauto 12.
  - apply Hrest; congruence.
Qed.

(** A stop answers what removing the routes answers. *)
Lemma stop_answer s w :
  let w1 := match probe s with Some p => probe_drop p w | None => w end in
  let w2 := match dns_server s with Some x => dns_shutdown x w1 | None => w1 end in
  is_ok (stop (s, w)).2 = match routes s with Some a => is_ok (Routes.remove a w2).2 | None => true end.
Proof.
  unfold stop, m_bind, release, get, update, run, m_ret.
  destruct s as [c st [d|] [a|] [b|] [p|] [x|]]; cbn; try done;
    match goal with |- context [Routes.remove ?a ?w] => by destruct (Routes.remove a w) as [w3 [[]|e]] end.
Qed.

(** Stopping is safe to repeat and is the way to release everything: a stop
    that works leaves nothing; a stop fails only when the routes cannot be
    removed, and then it has released the probe and the DNS server but still
    holds the bypass and the running device; a second stop always works and
    releases them. *)
Theorem stop_releases s w :
  match stop (s, w) with
  | ((s', w'), Ok _) => all_released s'
  | ((s', w'), Err e) =>
      (∃ a x, routes s = Some a ∧ e = SRoute x) ∧
      bypass s' = bypass s ∧ device s' = device s ∧
      probe s' = None ∧ dns_server s' = None ∧ routes s' = None ∧
      ∃ s2 w2, stop (s', w') = ((s2, w2), Ok tt) ∧ all_released s2
  end.
Proof.
  pose proof (stop_spec s w) as Hs. destruct (stop (s, w)) as [[s' w'] [[]|e]]; [tauto|].
  destruct Hs as (He & Hp & Hd & Hr & Hb & Hdev & _). split; [done|]. do 5 (split; [done|]).
  pose proof (stop_spec s' w') as H2'. destruct (stop (s', w')) as [[s2 w2] [[]|e2]].
  - exists s2, w2. tauto.
  - destruct H2' as ((a & x & Ha & _) & _). congruence.
Qed.

(** *** Starting *)

Lemma open_tun_spec Q E s :
  (∀ dev, Q (dev, interface_name (config s)) s) → (∀ e, E e s) → wp open_tun Q E s.
Proof.
  intros HQ HE. unfold open_tun. repeat wp_step; auto. intros spec _. repeat wp_step; auto.
  intros _ _ dev _. repeat wp_step; auto. intros _ _ actual _. case_bool_decide as Ha; wp_step; auto.
  subst. auto.
Qed.

Lemma resolve_endpoint_spec endpoint r Q E s :
  (∀ a, Q a s) → (∀ e, E e s) → wp (resolve_endpoint endpoint r) Q E s.
Proof.
  intros HQ HE. unfold resolve_endpoint. repeat wp_step; auto. intros host _. repeat wp_step; auto.
  intros port _. repeat wp_step; auto. intros _ _ addrs _. wp_step; auto.
Qed.

Lemma build_vpn_tun_spec dev directed system Q E s :
  (∀ a, Q a s) → (∀ e, E e s) → wp (build_vpn_tun dev directed system) Q E s.
Proof.
  intros HQ HE. unfold build_vpn_tun. repeat wp_step. intros servers. repeat wp_step; auto.
  intros _ _ tun _. wp_step. auto.
Qed.

Lemma install_bypass_spec ctx Q E s :
  (∀ b, Q tt (set_bypass b s)) → bypass s = None → wp (install_bypass ctx) Q E s.
Proof.
  intros HQ Hb. unfold install_bypass. repeat wp_step.
  assert (Hs : set_bypass None s = s) by (destruct s; cbn in *; by subst).
  destruct (Outbound.ctx_interface ctx).
  - repeat wp_step. intros [b|e]; wp_step; [apply HQ|]. rewrite <- Hs. apply HQ.
  - wp_step. rewrite <- Hs. apply HQ.
Qed.

(** Whether the session runs a DNS server of its own. *)
Definition wants_dns_server (c : TunnelConfig) : bool :=
  (0 <? dns_listen_port c) && negb (DnsConfig.is_disabled (dns c)).

Lemma start_dns_server_spec servers system directed Q E s :
  (∀ d, (is_some d = wants_dns_server (config s)) → Q tt (set_dns_server d s)) →
  dns_server s = None → (∀ e, E e s) → wp (start_dns_server servers system directed) Q E s.
Proof.
  intros HQ Hd HE. unfold start_dns_server. repeat wp_step.
  assert (Hs : set_dns_server None s = s) by (destruct s; cbn in *; by subst).
  unfold wants_dns_server in HQ. destruct (0 <? dns_listen_port (config s)); cbn in HQ.
  2:{ wp_step. rewrite <- Hs. by apply HQ. }
  unfold DnsResolver.build. destruct (DnsConfig.is_disabled (dns (config s))); cbn in HQ.
  { wp_step. rewrite <- Hs. by apply HQ. }
  repeat wp_step; auto. intros _ _ sockets _. repeat wp_step. intros server. wp_step. by apply HQ.
Qed.

Lemma apply_interface ifname networks w w' a :
  Routes.apply ifname networks w = (w', Ok a) → Routes.interface_name a = ifname.
Proof.
  unfold Routes.apply, m_bind, m_map_err, m_ret.
  destruct (Routes.manager_new w) as [w1 [[]|e]]; cbn; [|done].
  destruct (Routes.apply_loop _ _ w1) as [w2 [added|e]]; [|done]. by intros [= _ <-].
Qed.

(** The session that a successful start leaves; the system's DNS servers may
    have been added to its routes. *)
Definition running (c : TunnelConfig) (s : TunnelSession) : Prop :=
  status s = Running ∧ is_some (device s) = true ∧ is_some (probe s) = true ∧
  (∃ a, routes s = Some a ∧ Routes.interface_name a = interface_name c) ∧
  is_some (dns_server s) = wants_dns_server c ∧
  ∃ system, config s = route_system_dns_into_tunnel system c.

Lemma route_system_dns_frame system c :
  let c' := route_system_dns_into_tunnel system c in
  wants_dns_server c' = wants_dns_server c ∧ interface_name c' = interface_name c.
Proof.
  unfold route_system_dns_into_tunnel. destruct (full_tunnel c); [done|].
  destruct (negb _); [done|]. destruct (Routes.dns_host_routes _ _); done.
Qed.

(** What a failure once the TUN device is open leaves. *)
Definition half_started (s : TunnelSession) : Prop :=
  device s = None ∧ probe s = None ∧ (routes s = None ∨ status s = RoutesApplied).

Lemma bring_up_spec c key dev actual :
  wp (bring_up key dev actual) (λ _ s', actual = interface_name c → running c s') (λ _, half_started) (session_new c).
Proof.
  assert (Hnone : ∀ s, device s = None → probe s = None → routes s = None → half_started s)
    by (unfold half_started; auto).
  unfold bring_up. repeat wp_step; [|by auto]. intros _ _ ctx _.
  repeat wp_step. intros system. repeat wp_step. cbn [config session_new set_config].
  destruct (route_system_dns_frame system c) as [Hw Hn].
  set (c' := route_system_dns_into_tunnel system c) in *.
  apply resolve_endpoint_spec; [|by auto]. intros endpoint. repeat wp_step; [|by auto]. intros peer _.
  wp_step. apply install_bypass_spec; [|done]. intros b. repeat wp_step; [|by auto].
  assert (Hlate : ∀ s, device s = None → probe s = None → status s = RoutesApplied → half_started s)
    by (unfold half_started; auto).
  intros w1 w2 applied Happ. apply apply_interface in Happ. repeat wp_step.
  apply build_vpn_tun_spec; [|by auto]. intros [tun servers]. wp_step.
  apply start_dns_server_spec; [|done|by auto]. intros d Hd. repeat wp_step; [|by auto].
  intros _ _ device_ _. repeat wp_step. intros p. wp_step. cbn in Hd, Happ |- *. intros ->.
  unfold running. cbn. rewrite Hd, Hw. eauto 12.
Qed.

Lemma start_inner_spec c :
  wp start_inner (λ _ s', running c s') (λ _, half_started) (session_new c).
Proof.
  assert (Hnew : half_started (session_new c)) by (unfold half_started; auto).
  unfold start_inner. repeat wp_step; [|done]. intros key _. wp_step.
  apply open_tun_spec; [|done]. intros dev. wp_step. intros w.
  pose proof (bring_up_spec c key dev (interface_name c) w) as Hb. cbn [config session_new] in *.
  destruct (bring_up _ _ _ _) as [[s' w'] [a|e]]; [by apply Hb|exact Hb].
Qed.

(** A start, on every outcome. *)
Lemma start_outcome_spec c w :
  match start (session_new c, w) with
  | ((s', _), Ok _) => running c s'
  | ((s', w'), Err e) =>
      (start_inner (session_new c, w)).2 = Err e ∧
      device s' = None ∧ probe s' = None ∧ dns_server s' = None ∧ routes s' = None ∧
      (all_released s' ∨
       is_ok (stop (start_inner (session_new c, w)).1).2 = false ∧ status s' = RoutesApplied)
  end.
Proof.
  unfold start. pose proof (start_inner_spec c w) as Hi.
  destruct (start_inner (session_new c, w)) as [[s1 w1] [[]|e]] eqn:Hsi; [exact Hi|].
  destruct Hi as (Hdev & Hp & Hrs). cbn [fst snd]. pose proof (stop_spec s1 w1) as Hs.
  destruct (stop (s1, w1)) as [[s2 w2] [[]|e2]]; cbn [fst snd is_ok].
  - destruct Hs as [Hall _]. split; [done|]. pose proof Hall as (_ & ? & ? & _ & ? & ?). by auto 10.
  - destruct Hs as ((a & x & Hr & ->) & ? & ? & ? & ? & ? & Hst & _). split; [done|].
    split; [congruence|]. do 3 (split; [done|]). right. split; [done|]. rewrite Hst.
    destruct Hrs; congruence.
Qed.

(** Starting a session, on every outcome: a start that works leaves a
    running device and probe, the routes on the configured interface, and a
    DNS server exactly when a port is configured and the tunnel has DNS
    servers; a start that fails leaves no device, probe, DNS server or routes,
    and nothing at all unless removing the routes failed too. *)
Theorem start_outcome c w :
  match start (session_new c, w) with
  | ((s', _), Ok _) => running c s'
  | ((s', w'), Err e) =>
      (start_inner (session_new c, w)).2 = Err e ∧
      device s' = None ∧ probe s' = None ∧ dns_server s' = None ∧ routes s' = None ∧
      (all_released s' ∨
       is_ok (stop (start_inner (session_new c, w)).1).2 = false ∧ status s' = RoutesApplied)
  end.
Proof. apply start_outcome_spec. Qed.

End session.

(** ** Properties of the configuration *)

(** An IPv6 address that the node assigned: none, one with its own prefix, or
    one that gets the prefix 64. *)
Inductive assigned_v6 `{IpNet} `{!IpNetAddr} (text : option string) : option (Z * Z) → Prop :=
  | NoV6 : text = None ∨ (∃ v, text = Some v ∧ trim v = "") → assigned_v6 text None
  | NetworkV6 v n a : text = Some v → contains (trim v) "/" = true → Routes.net_parse (trim v) = Some n →
      net_ip n = V6 a → assigned_v6 text (Some (a, Routes.net_prefix n))
  | PlainV6 v a : text = Some v → trim v ≠ "" → contains (trim v) "/" = false →
      parse_ipv6 (trim v) = Some a → assigned_v6 text (Some (a, 64)).

(** The fields of an assignment that are well-formed, up to the IPv6 address. *)
Definition good_v4 `{Urls, IpNet} (c : TunnelConfig) : Prop := is_Some (parse_ipv4 (local_addr c)).
Definition good_prefix `{Urls, IpNet} (c : TunnelConfig) : Prop :=
  ∀ p, local_prefix c = Some p → 0 ≤ p ≤ 32.
Definition good_mtu `{Urls, IpNet} (c : TunnelConfig) : Prop := 1 ≤ mtu c ≤ 65535.

(** Why an assignment is refused: the first of its fields that is wrong. *)
Inductive refused_assignment `{Urls} `{IpNet} `{!IpNetAddr} (c : TunnelConfig) : SessionError → Prop :=
  | BadV4 : parse_ipv4 (local_addr c) = None → refused_assignment c (InvalidIpv4Address (local_addr c))
  | BadPrefix p : good_v4 c → local_prefix c = Some p → ¬ 0 ≤ p ≤ 32 → refused_assignment c (InvalidIpv4Prefix p)
  | BadMtu : good_v4 c → good_prefix c → ¬ 1 ≤ mtu c ≤ 65535 → refused_assignment c (InvalidMtu (mtu c))
  | BadV6Network v : good_v4 c → good_prefix c → good_mtu c → local_addr_v6 c = Some v →
      contains (trim v) "/" = true → Routes.net_parse (trim v) = None → refused_assignment c (InvalidIpv6Network (trim v))
  | BadV6Family v n a : good_v4 c → good_prefix c → good_mtu c → local_addr_v6 c = Some v →
      contains (trim v) "/" = true → Routes.net_parse (trim v) = Some n → net_ip n = V4 a →
      refused_assignment c (InvalidIpv6NetworkFamily (trim v))
  | BadV6 v : good_v4 c → good_prefix c → good_mtu c → local_addr_v6 c = Some v → trim v ≠ "" →
      contains (trim v) "/" = false → parse_ipv6 (trim v) = None → refused_assignment c (InvalidIpv6Address (trim v)).

Lemma local_v6_spec `{Urls} `{IpNet} `{!IpNetAddr} (c : TunnelConfig) :
  good_v4 c → good_prefix c → good_mtu c →
  match local_v6 c with Ok v6 => assigned_v6 (local_addr_v6 c) v6 | Err e => refused_assignment c e end.
Proof.
  intros Ha Hp Hm. unfold local_v6. destruct (local_addr_v6 c) as [v|] eqn:Hv; cbn [fmap option_fmap option_map opt_filter];
    [|by repeat constructor].
  destruct (str_is_empty (trim v)) eqn:He; cbn [negb].
  { constructor. right. exists v. split; [done|]. by destruct (trim v). }
  assert (Hne : trim v ≠ "") by (intros Hz; by rewrite Hz in He).
  destruct (contains (trim v) "/") eqn:Hs.
  - destruct (Routes.net_parse (trim v)) as [n|] eqn:Hn; [destruct (net_ip n) eqn:Hi|]; by econstructor.
  - destruct (parse_ipv6 (trim v)) eqn:Hi; by econstructor.
Qed.

Lemma prefix_in_range p :
  opt_filter (λ p, p <=? 32) (u8_try_from p) = if decide (0 ≤ p ≤ 32) then Some p else None.
Proof.
  unfold u8_try_from. destruct (decide (0 ≤ p < 256)), (decide (0 ≤ p ≤ 32)); cbn [opt_filter]; try lia; [..|done].
  - by rewrite (proj2 (Z.leb_le _ _)) by lia.
  - by rewrite (proj2 (Z.leb_gt _ _)) by lia.
Qed.
Lemma mtu_in_range m :
  opt_filter (λ m, 0 <? m) (u16_try_from m) = if decide (1 ≤ m ≤ 65535) then Some m else None.
Proof.
  unfold u16_try_from. destruct (decide (0 ≤ m < 65536)), (decide (1 ≤ m ≤ 65535)); cbn [opt_filter]; try lia; [..|done].
  - by rewrite (proj2 (Z.ltb_lt _ _)) by lia.
  - by rewrite (proj2 (Z.ltb_ge _ _)) by lia.
Qed.

(** What the driver must be asked for: the configured name, the assigned IPv4
    address with its prefix or 32, the MTU, and the IPv6 address. *)
Record requests `{Urls} `{IpNet} `{!IpNetAddr} (c : TunnelConfig) (spec : TunSpec) : Prop := {
  rq_name : ts_name spec = interface_name c;
  rq_v4 : parse_ipv4 (local_addr c) = Some (ts_v4 spec).1;
  rq_prefix : local_prefix c = Some (ts_v4 spec).2 ∨ local_prefix c = None ∧ (ts_v4 spec).2 = 32;
  rq_prefix_range : 0 ≤ (ts_v4 spec).2 ≤ 32;
  rq_mtu : ts_mtu spec = mtu c ∧ 1 ≤ mtu c ≤ 65535;
  rq_v6 : assigned_v6 (local_addr_v6 c) (ts_v6 spec);
}.

Lemma tun_spec_spec `{Urls} `{IpNet} `{!IpNetAddr} (c : TunnelConfig) :
  match tun_spec c with Ok spec => requests c spec | Err e => refused_assignment c e end.
Proof.
  unfold tun_spec. destruct (parse_ipv4 (local_addr c)) as [a|] eqn:Ha; cbn [ok_or result_bind]; [|by constructor].
  assert (Hv4 : good_v4 c) by by exists a.
  rewrite prefix_in_range. destruct (decide (0 ≤ _ ≤ 32)) as [Hp|Hp]; cbn [ok_or result_bind].
  2:{ destruct (local_prefix c) as [p|] eqn:E; cbn in *; [by apply BadPrefix|lia]. }
  assert (Hgp : good_prefix c) by (intros p E; by rewrite E in Hp).
  rewrite mtu_in_range. destruct (decide (1 ≤ _ ≤ 65535)) as [Hm|Hm]; cbn [ok_or result_bind]; [|by constructor].
  pose proof (local_v6_spec c Hv4 Hgp Hm) as Hv. destruct (local_v6 c) as [v6|e]; cbn [result_bind]; [|exact Hv].
  split; cbn; [done|done| |done|done|done]. destruct (local_prefix c); cbn; auto.
Qed.

(** C37: Opening the TUN device, on every outcome.  An assignment with a field
    out of range is refused for the first such field, in the order IPv4
    address, prefix (0 to 32), MTU (1 to 65535), IPv6 address, and the system
    is not touched; otherwise the driver is asked, once, for the configured
    name, the assigned IPv4 address with its prefix or 32, the MTU, and the
    IPv6 address with its own prefix or 64, whose prefix is at most 128 as
    long as a parsed IPv6 network has such a prefix; and a device that has no
    name, or not the one asked for, is dropped and is an error. *)
Theorem open_tun_outcome `{Urls} `{IpNet} `{!IpNetAddr} {W} `{!TunDriver W} (s : TunnelSession) (w : W) :
  (∀ t n a, Routes.net_parse t = Some n → net_ip n = V6 a → 0 ≤ Routes.net_prefix n ≤ 128) →
  (∃ e, refused_assignment (config s) e ∧ open_tun (s, w) = ((s, w), Err e)) ∨
  (∃ spec, requests (config s) spec ∧ (∀ a p, ts_v6 spec = Some (a, p) → 0 ≤ p ≤ 128) ∧
     let '(w1, built) := tun_build spec w in
     match built with
     | Err e => open_tun (s, w) = ((s, w1), Err (TunCreate e))
     | Ok dev =>
         let '(w2, named) := tun_device_name dev w1 in
         match named with
         | Err e => open_tun (s, w) = ((s, tun_drop dev w2), Err (TunCreate e))
         | Ok n =>
             if decide (n = interface_name (config s)) then open_tun (s, w) = ((s, w2), Ok (dev, n))
             else ∃ reason, open_tun (s, w) = ((s, tun_drop dev w2), Err (InvalidConfig reason))
         end
     end).
Proof.
  intros Hnet. unfold open_tun, m_bind, get, m_lift.
  pose proof (tun_spec_spec (config s)) as Hs. destruct (tun_spec (config s)) as [spec|e]; [right|left; eauto].
  exists spec. split; [done|]. split.
  { intros a p Hv. pose proof (rq_v6 _ _ Hs) as H6. inversion H6 as [? Hn|v n a' ? ? Hn Hi Hx|v a' ? ? ? ? Hx];
      rewrite Hv in *; [done|injection Hx as -> <-; by eapply Hnet|injection Hx as -> <-; lia]. }
  cbn [run]. destruct (tun_build spec w) as [w1 [dev|e]]; cbn [map_err]; [|done].
  unfold dropping, m_bind. cbn [run]. destruct (tun_device_name dev w1) as [w2 [n|e]]; cbn [map_err]; [|done].
  destruct (decide (n = interface_name (config s))) as [Hn|Hn].
  - by rewrite bool_decide_eq_true_2.
  - rewrite bool_decide_eq_false_2 by done. cbn. eauto.
Qed.

(** The characters of hexadecimal text. *)
Definition is_hex_text (s : string) : bool :=
  forallb (λ c, let z := RustStr.code c in
                ((48 <=? z) && (z <=? 57)) || ((65 <=? z) && (z <=? 70)) || ((97 <=? z) && (z <=? 102)))
          (bytes_of s).

(** A key is 32 bytes or it is refused, and hexadecimal keys are refused:
    their 64 characters are base64 text of 48 bytes, so that the hexadecimal
    reading is never tried. *)
Theorem hex_keys_refused `{Crypto, KeyCodec} name value :
  (∀ s, String.length s = 64%nat → is_hex_text s = true →
        ∃ b, base64_decode s = Ok b ∧ length b = 48%nat) →
  (∀ k, decode_key name value = Ok k → length k = 32%nat) ∧
  (String.length (trim value) = 64%nat → is_hex_text (trim value) = true →
   decode_key name value = Err (InvalidKey name)).
Proof.
  intros Hb. split.
  - intros k. unfold decode_key. destruct (match base64_decode _ with Ok _ => _ | Err _ => _ end); [|done].
    case_bool_decide; congruence.
  - intros Hl Hx. unfold decode_key. destruct (Hb _ Hl Hx) as (b & -> & Hlen).
    rewrite bool_decide_eq_false_2; [done|]. by rewrite Hlen.
Qed.

(** The local port is the first free one from 12912 on; 0, the system's
    choice, when there is none; 65535 is never tried. *)
Theorem choose_local_port_spec free :
  let p := choose_local_port free in
  (p = 0 ∧ (∀ q, 12912 ≤ q < 65535 → free q = false)) ∨
  (12912 ≤ p < 65535 ∧ free p = true ∧ ∀ q, 12912 ≤ q < p → free q = false).
Proof.
  cbn zeta. unfold choose_local_port, ANDROID_LOCAL_PORT_START.
  assert (Hgen : ∀ n p, 12912 ≤ p → p + Z.of_nat n = 65535 → (∀ q, 12912 ≤ q < p → free q = false) →
    let r := first_free free n p in
    (r = 0 ∧ (∀ q, 12912 ≤ q < 65535 → free q = false)) ∨
    (12912 ≤ r < 65535 ∧ free r = true ∧ ∀ q, 12912 ≤ q < r → free q = false)).
  { intros n. induction n as [|n IH]; intros p Hp Hn Hq; cbn [first_free].
    - left. split; [done|]. intros q Hr. apply Hq. lia.
    - destruct (free p) eqn:Hf; [right; split; [lia|done]|].
      apply IH; [lia|lia|]. intros q Hr. destruct (decide (q = p)) as [->|]; [done|]. apply Hq. lia. }
  apply Hgen; [lia|lia|]. intros q Hr. lia.
Qed.

Module KeySample.
#[global] Instance keys : KeyCodec := { hex_decode s := Some (bytes_of s); public_key k := k }.
(** Base64 by lengths: four characters are three bytes. *)
#[global] Instance lengths : Crypto := {
  hmac_new k := Some (λ m, m); sha256 b := b; sha1 b := b; base64_encode := of_bytes;
  base64_decode s := Ok (take (length (bytes_of s) / 4 * 3) (bytes_of s)); hex_encode := of_bytes;
  aes256_cbc_pkcs7 k iv p := Some p; http_sign_header_to_vec v f s := s;
}.
Definition hex_key : string := "00112233445566778899aabbccddeeff00112233445566778899aabbccddeeff".
End KeySample.

Lemma hex_keys_refused_witness :
  decode_key "server_public_key" KeySample.hex_key = Err (InvalidKey "server_public_key").
Proof.
  apply (hex_keys_refused "server_public_key" KeySample.hex_key); [|vm_compute; reflexivity|vm_compute; reflexivity].
  intros s Hs _. eexists. split; [reflexivity|].
  assert (Hl : length (bytes_of s) = 64%nat).
  { rewrite <- Hs. clear Hs. induction s as [|a s IH]; [reflexivity|]. cbn. f_equal. exact IH. }
  rewrite length_take, Hl. reflexivity.
Defined.

(** A driver that keeps what it was asked for. *)
Module TunSample.
Import Echo Routes.SimpleNet.
#[export] Instance net_addr : IpNetAddr := λ n, n.1.
#[export] Instance driver : TunDriver (list TunSpec) := {
  tun_build spec w := (w ++ [spec], Ok (Z.of_nat (length w)));
  tun_device_name t w := (w, Ok "wg0");
  tun_device_mtu _ w := (w, Ok 1400); tun_drop _ w := w; wg_build _ w := (w, Ok 0); wg_stop _ w := w;
  dns_serve _ _ w := (w, 0); dns_shutdown _ w := w; probe_start _ _ w := (w, 0); probe_drop _ w := w;
  probe_last_rx _ _ := None; instant_now _ := 0; lookup_host _ w := (w, Ok []); resolv_conf _ := Ok [] }.
Definition assigned (v6 : string) (m : Z) : TunnelConfig := {|
  interface_name := "wg0"; local_addr := "10.0.0.2"; local_addr_v6 := Some v6; local_prefix := None; mtu := m;
  local_private_key := ""; local_public_key := ""; local_port := 1; server_public_key := "";
  server_preshared_key := None; tc_endpoint := ("" : Url); tc_protocol_mode := Udp; protocol_version := None;
  outbound_interface := None; tc_routes := []; full_tunnel := false; ipv6_enabled := true;
  dns := {| DnsConfig.full_tunnel := false; DnsConfig.vpn_servers := []; DnsConfig.split_matchers := [];
            DnsConfig.dynamic := {| DnsConfig.exact_v4 := ∅; DnsConfig.exact_v6 := ∅; DnsConfig.wildcard_v4 := [];
              DnsConfig.suffix_v4 := [] |}; DnsConfig.cfg_central_dns := None; DnsConfig.cfg_ip_nats := [] |};
  route_system_dns := false; dns_listen_port := 0; dns_listen_host := None; fallback_dns := None |}.

Lemma prefix_bound (t : string) (n : Routes.IpNetwork) a :
  Routes.net_parse t = Some n → net_ip n = V6 a → 0 ≤ Routes.net_prefix n ≤ 128.
Proof.
  cbn. destruct (split_once "/" t) as [[x p]|].
  - destruct (parse_ip x); cbn; [|done]. destruct (parse_uint 128 p) as [v|] eqn:Hp; cbn; [|done].
    intros [= <-] _. cbn. by apply parse_uint_bound in Hp.
  - destruct (parse_ip t) as [i|]; cbn; [|done]. intros [= <-] _. cbn. destruct (is_ipv4 i); lia.
Qed.
End TunSample.

(** An IPv6 network, and a zero MTU, for which the driver is not asked. *)
#[local] Existing Instances TunSample.net_addr TunSample.driver.
Lemma open_tun_outcome_witness :
  (∃ spec, requests (TunSample.assigned "fd00::2/126" 1400) spec ∧ is_some_and (ts_v6 spec) (λ v, v.2 =? 126) = true ∧
     open_tun (session_new (TunSample.assigned "fd00::2/126" 1400), []) =
       ((session_new (TunSample.assigned "fd00::2/126" 1400), [spec]), Ok (0, "wg0"))) ∧
  (∃ e, refused_assignment (TunSample.assigned "fd00::2" 0) e ∧
     open_tun (session_new (TunSample.assigned "fd00::2" 0), []) =
       ((session_new (TunSample.assigned "fd00::2" 0), []), Err e)).
Proof.
  split.
  - assert (Hall : match open_tun (session_new (TunSample.assigned "fd00::2/126" 1400), []) with
      | ((_, [spec]), Ok (0, "wg0")) => is_some_and (ts_v6 spec) (λ v, v.2 =? 126) = true
      | _ => False end) by (vm_compute; reflexivity).
    destruct (open_tun_outcome (session_new (TunSample.assigned "fd00::2/126" 1400)) [] TunSample.prefix_bound)
      as [(e & _ & Ho)|(spec & Hr & _ & Ho)]; [rewrite Ho in Hall; destruct Hall|].
    exists spec. split; [exact Hr|]. cbn [app tun_build tun_device_name TunSample.driver length] in Ho.
    rewrite decide_True in Ho by reflexivity. rewrite Ho in Hall. split; [exact Hall|exact Ho].
  - destruct (open_tun_outcome (session_new (TunSample.assigned "fd00::2" 0)) [] TunSample.prefix_bound)
      as [(e & He & Ho)|(spec & Hr & _ & Ho)]; [exists e; split; [exact He|exact Ho]|].
    exfalso. destruct (rq_mtu _ _ Hr) as [_ Hm]. cbn in Hm. lia.
Defined.

End Session.
