(* ===== verification/Footprint.v ===== *)
(** * What a tunnel leaves on the machine

    A session changes six parts of the system: the routing table, the policy
    rules of the bypass, the TUN devices, and the WireGuard devices, DNS
    servers and probes that run.  [held] reads them off the world.  The
    theorems follow them through [Session.start], [Session.stop], an attempt
    and the reconnect loop of [Daemon]: at every point the machine has what it
    had and what the handles of the session stand for, so that nothing is left
    when they are released, and what a failed release leaves is named.  The
    laws of the parts are those of [Routes] and [Outbound]; [Footprint] adds
    which call touches which part, and that the routes through a TUN device
    end with it. *)

From S2P Require Import Prelude RustStr Net Models Signing Api VpnState.
From S2P Require Import Routes Interface Dialer DnsConfig DnsResolver Outbound TunDns Session.
Import Signing Api.
Import Routes(IpNet, IpNetwork, RouteManager, RouteTable, table).
Import Session(TunnelConfig, TunnelSession, KeyCodec, UrlHost, IpNetAddr, TunDriver).

Module Footprint.
#[local] Existing Instances Routes.Route_eq_dec Routes.Route_countable.

(** ** The parts *)

(** A WireGuard device is kept with the TUN device it was built on. *)
Record Held : Type := {
  h_routes : gset Routes.Route;
  h_rules : gset (list string);
  h_tuns : gset Z;
  h_devices : gmap Z Z;
  h_servers : gset Z;
  h_probes : gset Z;
}.

(** All but one part, or but what the end of a device changes. *)
Definition but_routes (h : Held) := (h_rules h, h_tuns h, h_devices h, h_servers h, h_probes h).
Definition but_rules (h : Held) := (h_routes h, h_tuns h, h_devices h, h_servers h, h_probes h).
Definition but_tuns (h : Held) := (h_rules h, h_devices h, h_servers h, h_probes h).
Definition but_devices (h : Held) := (h_routes h, h_rules h, h_tuns h, h_servers h, h_probes h).
Definition but_servers (h : Held) := (h_routes h, h_rules h, h_tuns h, h_devices h, h_probes h).
Definition but_probes (h : Held) := (h_routes h, h_rules h, h_tuns h, h_devices h, h_servers h).

(** Something new is in the set, or the set is as it was. *)
Definition adds (o : option Z) (before after : gset Z) : Prop :=
  match o with Some d => d ∉ before ∧ after = {[d]} ∪ before | None => after = before end.

(** The routes that do not go through an interface. *)
Definition off (ifname : string) (t : gset Routes.Route) : gset Routes.Route :=
  filter (λ r, Routes.rt_if_name r ≠ ifname) t.

(** Which call touches which part.  The device that the program opens is new:
    no route goes through it, and the only routes that opening it adds go
    through it; when it ends, and with the WireGuard device that was built on
    it it does, its routes end too. *)
Class Footprint (W : Type) `{Dialer.Sockets W} `{DnsResolver.Udp W} `{Outbound.Os W} `{Outbound.RuleTable W}
    `{RouteTable W} `{IpNet} `{!TunDriver W} : Type := {
  held : W → Held;
  dev_name : Z → string;
  held_routes w : h_routes (held w) = table w;
  held_rules w : h_rules (held w) = Outbound.rules w;
  held_sys {T} (e : Dialer.SockE T) : keeps held (Dialer.sys e);
  held_udp_send s p a : keeps held (DnsResolver.udp_send s p a);
  held_udp_recv s n t : keeps held (DnsResolver.udp_recv s n t);
  held_sleep d w : held (Outbound.os_sleep d w) = held w;
  held_tun_build spec w :
    let '(w', r) := Session.tun_build spec w in
    match r with
    | Err _ => held w' = held w
    | Ok t =>
        but_tuns (held w') = but_tuns (held w) ∧ adds (Some t) (h_tuns (held w)) (h_tuns (held w')) ∧
        off (dev_name t) (h_routes (held w)) = h_routes (held w) ∧
        off (dev_name t) (h_routes (held w')) = h_routes (held w)
    end;
  held_tun_name t : keeps held (Session.tun_device_name t);
  tun_name_ok t w n : (Session.tun_device_name t w).2 = Ok n → n = dev_name t;
  held_tun_mtu d : keeps held (Session.tun_device_mtu d);
  held_tun_drop t w :
    but_tuns (held (Session.tun_drop t w)) = but_tuns (held w) ∧
    h_tuns (held (Session.tun_drop t w)) = h_tuns (held w) ∖ {[t]} ∧
    h_routes (held (Session.tun_drop t w)) = off (dev_name t) (h_routes (held w));
  held_lookup_host h : keeps held (Session.lookup_host h);
  held_manager : keeps held Routes.manager_new;
  held_route_add r : keeps (but_routes ∘ held) (Routes.route_add r);
  held_route_delete r : keeps (but_routes ∘ held) (Routes.route_delete r);
  held_ip_rule args : keeps (but_rules ∘ held) (Outbound.ip_rule args);
  held_wg_build spec w :
    let '(w', r) := Session.wg_build spec w in
    match r with
    | Err _ => held w' = held w
    | Ok d => but_devices (held w') = but_devices (held w) ∧ h_devices (held w) !! d = None ∧
              h_devices (held w') = <[d := (Session.wg_tun spec).1]> (h_devices (held w))
    end;
  held_wg_stop d t w :
    h_devices (held w) !! d = Some t →
    let h := held (Session.wg_stop d w) in
    (h_rules h, h_servers h, h_probes h) = (h_rules (held w), h_servers (held w), h_probes (held w)) ∧
    h_devices h = delete d (h_devices (held w)) ∧ h_tuns h = h_tuns (held w) ∖ {[t]} ∧
    h_routes h = off (dev_name t) (h_routes (held w));
  held_serve s r w :
    let '(w', x) := Session.dns_serve s r w in
    but_servers (held w') = but_servers (held w) ∧ adds (Some x) (h_servers (held w)) (h_servers (held w'));
  held_shutdown x w :
    but_servers (held (Session.dns_shutdown x w)) = but_servers (held w) ∧
    h_servers (held (Session.dns_shutdown x w)) = h_servers (held w) ∖ {[x]};
  held_probe_start d l w :
    let '(w', p) := Session.probe_start d l w in
    but_probes (held w') = but_probes (held w) ∧ adds (Some p) (h_probes (held w)) (h_probes (held w'));
  held_probe_drop p w :
    but_probes (held (Session.probe_drop p w)) = but_probes (held w) ∧
    h_probes (held (Session.probe_drop p w)) = h_probes (held w) ∖ {[p]};
}.

(** Both rules of the bypass, and a table of rules with them. *)
Definition with_rules (l : gset (list string)) : gset (list string) :=
  {[Outbound.fwmark_rule]} ∪ ({[Outbound.suppress_rule]} ∪ l).

(** Everything is as it was, but perhaps for rules of the bypass; [leaks] is
    that some can stay at all. *)
Definition rules_within (leaks : Prop) (before after : gset (list string)) : Prop :=
  after = before ∨ (leaks ∧ before ⊆ after ∧ after ⊆ with_rules before).
Definition settled (leaks : Prop) (h0 h : Held) : Prop :=
  but_rules h = but_rules h0 ∧ rules_within leaks (h_rules h0) (h_rules h).

(** Neither rule of the bypass is there. *)
Definition no_rules (h : Held) : Prop :=
  Outbound.fwmark_rule ∉ h_rules h ∧ Outbound.suppress_rule ∉ h_rules h.

(** The system can refuse a rule of the bypass, or the removal of a rule that
    is there. *)
Definition refused (W : Type) `{Outbound.Os W} `{Outbound.RuleTable W} : Prop :=
  (∃ i w, is_ok (Outbound.bypass_setup (W:=W) i true w).2 = false) ∨ ¬ Outbound.rule_deletes W.

(** ** The account of a session *)

Section account.
Context `{Urls} `{IpNet} {W : Type} `{Dialer.Sockets W} `{DnsResolver.Udp W} `{Outbound.Os W} `{Outbound.RuleTable W}
        `{RouteTable W} `{!TunDriver W} `{!Footprint W}.
(** [full] is that a full tunnel is wanted. *)
Variables full leaks : Prop.

(** While the session's TUN device [t] lives, the routes that do not go
    through it are those that were there, and the session has the routes that
    its configuration wants; without it the table is as it was. *)
Definition routes_account (tun : option Z) (s : TunnelSession) (before after : gset Routes.Route) : Prop :=
  match tun with
  | Some t =>
      off (dev_name t) before = before ∧ off (dev_name t) after = before ∧
      match Session.routes s with
      | Some a =>
          Routes.interface_name a = dev_name t ∧ Forall (λ r, Routes.rt_if_name r = dev_name t) (Routes.routes a) ∧
          NoDup (Routes.routes a) ∧ list_to_set (Routes.routes a) ⊆ after ∧
          list_to_set (Routes.system_routes (Routes.interface_name a) (Session.tc_routes (Session.config s))) ⊆ after
      | None => True
      end
  | None =>
      after = before ∧
      match Session.routes s with Some a => before ## list_to_set (Routes.routes a) | None => True end
  end.

(** Both rules with a bypass that installed them. *)
Definition rules_account (b : option Outbound.RouteBypass) (before after : gset (list string)) : Prop :=
  if is_some_and b Outbound.installed then full ∧ after = with_rules before else rules_within leaks before after.

Definition devices_account (tun device : option Z) (before after : gmap Z Z) : Prop :=
  match device with
  | Some d => ∃ t, tun = Some t ∧ before !! d = None ∧ after = <[d := t]> before
  | None => after = before
  end.

(** [accounts h0 tun s h]: a machine that had [h0] and on which [s] runs, with
    the TUN device [tun], has [h]. *)
Definition accounts (h0 : Held) (tun : option Z) (s : TunnelSession) (h : Held) : Prop :=
  routes_account tun s (h_routes h0) (h_routes h) ∧
  rules_account (Session.bypass s) (h_rules h0) (h_rules h) ∧
  adds tun (h_tuns h0) (h_tuns h) ∧
  devices_account tun (Session.device s) (h_devices h0) (h_devices h) ∧
  adds (Session.dns_server s) (h_servers h0) (h_servers h) ∧
  adds (Session.probe s) (h_probes h0) (h_probes h).

End account.

(** ** Calls that touch nothing *)

Section untouched.
Context `{IpNet} `{DnsConfig.Unicode, DnsConfig.UrlParser, DnsConfig.WildMatch, DnsResolver.DnsCodec} `{!Outbound.DnsNames}.
Context {W : Type} `{Dialer.Sockets W} `{DnsResolver.Udp W} `{Outbound.Os W} `{Outbound.RuleTable W} `{RouteTable W}
        `{!TunDriver W} `{!Footprint W}.
#[local] Hint Resolve held_udp_send held_udp_recv held_tun_name held_tun_mtu held_lookup_host
  held_manager : rust.
#[local] Hint Extern 1 (keeps _ (m_bind _ _)) => apply keeps_bind; [|intros ?] : rust.

Lemma held_call {T E} (f : io_error → E) (e : Dialer.SockE T) : keeps held (m_map_err f (Dialer.sys e)).
Proof. apply keeps_map_err, held_sys. Qed.
#[local] Hint Resolve held_call held_sys : rust.

Lemma held_bind_udp_to d a : keeps held (Dialer.bind_udp_to d a).
Proof. apply Dialer.keeps_bind_udp_to. intros T e. apply held_sys. Qed.
#[local] Hint Resolve held_bind_udp_to : rust.

Lemma held_send_query r server wire : keeps held (Outbound.send_query r server wire).
Proof. unfold Outbound.send_query. auto 10 with rust. Qed.

Lemma held_query_servers r wire t ss last : keeps held (Outbound.query_servers r wire t ss last).
Proof.
  revert last. induction ss as [|s ss IH]; intros last w; cbn [Outbound.query_servers]; [done|].
  pose proof (held_send_query r s wire w) as Hq.
  destruct (Outbound.send_query r s wire w) as [w1 [m|e]]; cbn [fst] in Hq; [|by rewrite IH].
  destruct (Outbound.extract_addrs m t); [by rewrite IH|exact Hq].
Qed.
#[local] Hint Resolve held_query_servers : rust.

Lemma held_query_record r n t : keeps held (Outbound.query_record r n t).
Proof. unfold Outbound.query_record. auto with rust. Qed.
#[local] Hint Resolve held_query_record : rust.

Lemma held_resolve_host r host port : keeps held (Outbound.resolve_host r host port).
Proof.
  unfold Outbound.resolve_host. destruct (_ !! host); [auto with rust|].
  destruct (parse_ip host); [auto with rust|].
  apply keeps_bind; [auto with rust|intros name]. do 2 (apply keeps_bind; [auto with rust|intros ?]).
  destruct (_ ++ _); auto with rust.
Qed.

Lemma held_server_start b4 b6 : keeps held (DnsResolver.server_start b4 b6).
Proof. unfold DnsResolver.server_start, DnsResolver.server_bind_udp. auto 20 with rust. Qed.

Lemma held_context_build config : keeps held (Outbound.context_build config).
Proof.
  intros w. unfold Outbound.context_build. destruct (Interface.resolve _ _ _ _ _); [|done].
  assert (Hl : held (Outbound.lookup_tun_with_retry (Outbound.excluded_tun config) w).1 = held w).
  { unfold Outbound.lookup_tun_with_retry. generalize Outbound.TUN_LOOKUP_RETRIES. intros n. revert w.
    induction n as [|n IH]; intros w; cbn [Outbound.lookup_tun]; [done|].
    destruct (Interface.lookup _ _); [done|]. destruct n; [done|]. rewrite IH. apply held_sleep. }
  destruct (Outbound.lookup_tun_with_retry _ w) as [w1 t]. destruct (Outbound.system_dns_servers _); exact Hl.
Qed.

Lemma held_vpn_servers c w : held (DnsConfig.resolve_vpn_servers Session.lookup_host c w).1 = held w.
Proof.
  unfold DnsConfig.resolve_vpn_servers.
  assert (Hf : ∀ l w found, held (foldl (λ '(w, found) spec,
      match Session.lookup_host spec w with
      | (w1, Ok addrs) => (w1, found ++ addrs)
      | (w1, Err _) => (w1, found)
      end) (w, found) l).1 = held w).
  { intros l. induction l as [|x l IH]; intros w0 found; cbn [foldl]; [done|].
    pose proof (held_lookup_host x w0) as Hx. destruct (Session.lookup_host x w0) as [w1 [a|e]]; by rewrite IH. }
  specialize (Hf (DnsConfig.vpn_servers c) w []). destruct (foldl _ _ _) as [w1 found]. exact Hf.
Qed.

End untouched.

(** ** Sets and rules *)

Lemma adds_release d X Y : adds (Some d) X Y → Y ∖ {[d]} = X.
Proof. intros [Hd ->]. set_solver. Qed.

Lemma adds_new x X Y Z : Y = X → adds x Y Z → adds x X Z.
Proof. by intros ->. Qed.

Lemma adds_keep {x X Y Z} : Y = Z → adds x X Y → adds x X Z.
Proof. by intros ->. Qed.

(** One more rule stays within bounds, and both rules make the bound. *)
Lemma bound_one (f r : list string) (X Y : gset (list string)) :
  X ⊆ Y → Y ⊆ {[f]} ∪ ({[r]} ∪ X) → X ⊆ {[f]} ∪ Y ∧ {[f]} ∪ Y ⊆ {[f]} ∪ ({[r]} ∪ X).
Proof. set_solver. Qed.
Lemma bound_both (f r : list string) (X Y : gset (list string)) :
  X ⊆ Y → Y ⊆ {[f]} ∪ ({[r]} ∪ X) → {[r]} ∪ ({[f]} ∪ Y) = {[f]} ∪ ({[r]} ∪ X).
Proof. set_solver. Qed.
Lemma within_bounds leaks X Y : rules_within leaks X Y → X ⊆ Y ∧ Y ⊆ with_rules X.
Proof. unfold rules_within, with_rules. intros [->|(_ & ? & ?)]; [set_solver|done]. Qed.

Lemma off_off n t : off n (off n t) = off n t.
Proof. unfold off. set_solver. Qed.
Lemma off_add n r t : Routes.rt_if_name r = n → off n ({[r]} ∪ t) = off n t.
Proof. unfold off. set_solver. Qed.
Lemma off_delete n r t : Routes.rt_if_name r = n → off n (t ∖ {[r]}) = off n t.
Proof. unfold off. set_solver. Qed.
(** A table without routes through an interface is disjoint from such routes. *)
Lemma off_disjoint n t l :
  off n t = t → Forall (λ r, Routes.rt_if_name r = n) l → t ## list_to_set l.
Proof.
  intros Ht Hl r Hr Hin. apply elem_of_list_to_set in Hin. rewrite Forall_forall in Hl.
  rewrite <- Ht in Hr. apply elem_of_filter in Hr as [Hne _]. by apply Hne, Hl.
Qed.

Lemma added_wanted (X A S : gset Routes.Route) : X ## A → X ∪ A = X ∪ S → A ⊆ S.
Proof. set_solver. Qed.
Lemma Forall_added (P : Routes.Route → Prop) added wanted :
  Forall P wanted → (list_to_set added : gset Routes.Route) ⊆ list_to_set wanted → Forall P added.
Proof.
  rewrite !Forall_forall. intros Hw Hs r Hr. apply Hw, (elem_of_list_to_set (C:=gset Routes.Route)), Hs.
  by apply elem_of_list_to_set.
Qed.

Lemma route_dns_full `{Urls} `{IpNet} system c :
  Session.full_tunnel (Session.route_system_dns_into_tunnel system c) = Session.full_tunnel c.
Proof.
  unfold Session.route_system_dns_into_tunnel. destruct (Session.full_tunnel c) eqn:E; [done|].
  destruct (negb _); [done|]. destruct (Routes.dns_host_routes _ _); exact E.
Qed.

(** ** The logic of a session's operations *)

Section session.
Context `{Urls} `{!UrlHost} `{IpNet} `{!IpNetAddr} `{Crypto, KeyCodec}.
Context `{DnsConfig.Unicode, DnsConfig.UrlParser, DnsConfig.WildMatch, DnsResolver.DnsCodec} `{!Outbound.DnsNames}.
Context {W : Type} `{Dialer.Sockets W} `{DnsResolver.Udp W} `{Outbound.Os W} `{Outbound.RuleTable W} `{RouteTable W}
        `{!TunDriver W} `{!Footprint W}.
Variables (full leaks : Prop) (h0 : Held).

(** The machine is accounted for, by the session [s] with the TUN device [tun]. *)
Definition acc (tun : option Z) (sw : TunnelSession * W) : Prop := accounts full leaks h0 tun sw.1 (held sw.2).
Definition at_ (tun : option Z) (s : TunnelSession) (sw : TunnelSession * W) : Prop := sw.1 = s ∧ acc tun sw.

(** *** What a part that changes does to the account *)

Lemma accounts_routes tun s r h h' :
  accounts full leaks h0 tun s h → but_routes h' = but_routes h →
  routes_account tun (Session.set_routes r s) (h_routes h0) (h_routes h') →
  accounts full leaks h0 tun (Session.set_routes r s) h'.
Proof. intros (_ & A) [= E1 E2 E3 E4 E5] Hr. unfold accounts. cbn. by rewrite E1, E2, E3, E4, E5. Qed.
Lemma accounts_rules tun s b h h' :
  accounts full leaks h0 tun s h → but_rules h' = but_rules h →
  rules_account full leaks b (h_rules h0) (h_rules h') → accounts full leaks h0 tun (Session.set_bypass b s) h'.
Proof.
  intros (A1 & _ & A) [= E1 E2 E3 E4 E5] Hr. unfold accounts. cbn. rewrite E1, E2, E3, E4, E5. auto 10.
Qed.
Lemma accounts_device tun s d h h' :
  accounts full leaks h0 tun s h → but_devices h' = but_devices h →
  devices_account tun d (h_devices h0) (h_devices h') → accounts full leaks h0 tun (Session.set_device d s) h'.
Proof.
  intros (A1 & A2 & A3 & _ & A) [= E1 E2 E3 E4 E5] Hd. unfold accounts. cbn. rewrite E1, E2, E3, E4, E5. auto 10.
Qed.
Lemma accounts_server tun s d h h' :
  accounts full leaks h0 tun s h → but_servers h' = but_servers h → adds d (h_servers h0) (h_servers h') →
  accounts full leaks h0 tun (Session.set_dns_server d s) h'.
Proof.
  intros (A1 & A2 & A3 & A4 & _ & A) [= E1 E2 E3 E4 E5] Hd. unfold accounts. cbn. rewrite E1, E2, E3, E4, E5. auto 10.
Qed.
Lemma accounts_probe tun s p h h' :
  accounts full leaks h0 tun s h → but_probes h' = but_probes h → adds p (h_probes h0) (h_probes h') →
  accounts full leaks h0 tun (Session.set_probe p s) h'.
Proof.
  intros (A1 & A2 & A3 & A4 & A5 & _) [= E1 E2 E3 E4 E5] Hd. unfold accounts. cbn. rewrite E1, E2, E3, E4, E5. auto 10.
Qed.

(** The end of the TUN device ends its routes. *)
Lemma accounts_drop t s w :
  Session.device s = None → accounts full leaks h0 (Some t) s (held w) →
  accounts full leaks h0 None s (held (Session.tun_drop t w)).
Proof.
  intros Hdev (A1 & A2 & A3 & A4 & A5 & A6). destruct (held_tun_drop t w) as ([= E1 E2 E3 E4] & Ht & Hr).
  unfold accounts, devices_account in *. rewrite Hdev in *. rewrite E1, E2, E3, E4, Ht, Hr.
  destruct A1 as (F1 & F2 & F3). split; [split; [done|]|].
  - destruct (Session.routes s) as [a|]; [|done]. apply off_disjoint with (dev_name t); tauto.
  - split; [done|]. split; [exact (adds_release _ _ _ A3)|]. auto.
Qed.

(** A session that differs in what is not accounted for. *)
Definition same_handles (s s' : TunnelSession) : Prop :=
  Session.routes s' = Session.routes s ∧ Session.bypass s' = Session.bypass s ∧
  Session.device s' = Session.device s ∧ Session.dns_server s' = Session.dns_server s ∧
  Session.probe s' = Session.probe s ∧
  (Session.routes s = None ∨ Session.tc_routes (Session.config s') = Session.tc_routes (Session.config s)).

Lemma accounts_same tun s s' h :
  same_handles s s' → accounts full leaks h0 tun s h → accounts full leaks h0 tun s' h.
Proof.
  intros (Hr & Hb & Hd & Hn & Hp & Hc) (A1 & A2). unfold accounts. rewrite Hb, Hd, Hn, Hp.
  split; [|exact A2]. unfold routes_account in *. rewrite Hr. destruct tun; [|exact A1].
  destruct (Session.routes s); [|exact A1]. destruct Hc as [|Hc]; [done|]. by rewrite Hc.
Qed.

(** *** Steps with a TUN device of their own, or none *)

Section steps.
Variable tun : option Z.
Abbreviation spec P m Q := (hoare (E:=Session.SessionError) P m Q (λ _, acc tun)).

Lemma at_acc s sw : at_ tun s sw → acc tun sw.
Proof. by intros [_ ?]. Qed.

(** A step that leaves session and machine alone. *)
Lemma at_bind {A B} s (m : M (TunnelSession * W) Session.SessionError A) (k : A → M _ _ B) Q :
  spec (at_ tun s) m (λ _, at_ tun s) → (∀ a, spec (at_ tun s) (k a) Q) → spec (at_ tun s) (m_bind m k) Q.
Proof. apply hoare_bind. Qed.

Lemma at_get {B} s (k : TunnelSession → M _ _ B) Q :
  spec (at_ tun s) (k s) Q → spec (at_ tun s) (m_bind Session.get k) Q.
Proof. intros Hk [s' w] [Hs Ha]. cbn in Hs |- *. subst s'. by apply (Hk (s, w)). Qed.

Lemma at_lift {A} s (r : result Session.SessionError A) : spec (at_ tun s) (m_lift r) (λ _, at_ tun s).
Proof. apply hoare_lift; [done|]. intros e sw. apply at_acc. Qed.

Lemma at_ret {A} s (a : A) : hoare (E:=Session.SessionError) (at_ tun s) (m_ret a) (λ _, at_ tun s) (λ _, acc tun).
Proof. by apply hoare_ret. Qed.

Lemma at_run {X A} s (wrap : X → Session.SessionError) (m : M W X A) :
  keeps held m → spec (at_ tun s) (Session.run wrap m) (λ _, at_ tun s).
Proof.
  intros Hm [s' w] [Hs Ha]. cbn in *. specialize (Hm w). unfold acc in Ha. cbn in Ha.
  destruct (m w) as [w' [a|e]]; cbn in *; unfold at_, acc; cbn; rewrite Hm; by subst.
Qed.

Lemma at_pure_run {A} s (f : W → W * A) :
  (∀ w, held (f w).1 = held w) → spec (at_ tun s) (Session.pure_run f) (λ _, at_ tun s).
Proof.
  intros Hf [s' w] [Hs Ha]. cbn in *. specialize (Hf w). unfold acc in Ha. cbn in Ha.
  destruct (f w) as [w' a]; cbn in *; unfold at_, acc; cbn; rewrite Hf; by subst.
Qed.

(** A change of the session, with the calls on the world that it accounts
    for. *)
Lemma at_update {B} s (f : TunnelSession → TunnelSession) (k : unit → M _ _ B) (P : TunnelSession * W → Prop) Q :
  (∀ w, P (s, w) → acc tun (f s, w)) → spec (at_ tun (f s)) (k tt) Q →
  spec (λ sw, sw.1 = s ∧ P sw) (m_bind (Session.update f) k) Q.
Proof.
  intros HP Hk [s' w] [Hs Ha]. cbn in Hs |- *. subst s'. apply (Hk (f s, w)). split; [done|]. by apply HP.
Qed.

Lemma at_resolve_endpoint s e r : spec (at_ tun s) (Session.resolve_endpoint e r) (λ _, at_ tun s).
Proof.
  unfold Session.resolve_endpoint. apply at_bind; [apply at_lift|intros host].
  apply at_bind; [apply at_lift|intros port]. apply at_bind; [|intros addrs; apply at_lift].
  apply at_run, held_resolve_host.
Qed.

(** What is read of the TUN device for WireGuard is of that device. *)
Lemma at_build_vpn_tun s dev d system :
  spec (at_ tun s) (Session.build_vpn_tun dev d system) (λ r sw, r.1.1 = dev ∧ at_ tun s sw).
Proof.
  unfold Session.build_vpn_tun. apply at_get. apply at_bind; [apply at_pure_run, held_vpn_servers|intros servers].
  apply at_bind; [|intros tun'; by apply hoare_ret]. apply at_run.
  apply keeps_bind; [apply held_tun_name|intros name]. apply keeps_bind; [apply held_tun_mtu|intros m; apply keeps_ret].
Qed.

Hypothesis refusal_leaks : full → refused W → leaks.

(** The rules after a setup of the bypass, whatever came of it. *)
Lemma bypass_account i (wanted : bool) w w' r rules0 :
  (wanted = true → full) → rules_within leaks rules0 (Outbound.rules w) →
  Outbound.bypass_setup i wanted w = (w', r) →
  rules_account full leaks (result_ok r) rules0 (Outbound.rules w').
Proof.
  intros Hl Hw Hr. unfold rules_account. destruct (within_bounds _ _ _ Hw) as [Hlow Hup].
  pose proof (Outbound.bypass_rules_spec i wanted w) as Hb. rewrite Hr in Hb.
  destruct r as [b|e]; cbn [result_ok is_some_and].
  - unfold Outbound.bypass_setup in Hr. destruct wanted; cbn [negb] in Hr.
    + apply m_bind_ok in Hr as (w1 & [] & _ & Hr). apply m_bind_ok in Hr as (w2 & [] & _ & Hr).
      injection Hr as _ <-. cbn [Outbound.installed]. destruct Hb as [-> _]. split; [by apply Hl|].
      clear -Hlow Hup. unfold with_rules in *. set_solver.
    + injection Hr as <- <-. exact Hw.
  - destruct Hb as [-> Hb]. assert (leaks) as Hleak.
    { apply refusal_leaks; [by apply Hl|]. left. exists i, w. by rewrite Hr. }
    right. rewrite Hb. destruct (is_ok _); [|done]. split; [done|]. by apply bound_one.
Qed.

Lemma held_bypass_setup i wanted : keeps (but_rules ∘ held) (Outbound.bypass_setup i wanted).
Proof.
  assert (Hadd : ∀ args, keeps (but_rules ∘ held) (Outbound.ip_rule_add (W:=W) args)).
  { intros args. unfold Outbound.ip_rule_add. apply keeps_bind; [apply keeps_map_err, held_ip_rule|].
    intros [ok err]. apply keeps_if; [apply keeps_fail|apply keeps_ret]. }
  unfold Outbound.bypass_setup. apply keeps_if; [apply keeps_ret|].
  do 2 (apply keeps_bind; [apply Hadd|intros ?]). apply keeps_ret.
Qed.

Lemma at_install_bypass s ctx :
  (Session.full_tunnel (Session.config s) = true → full) → Session.bypass s = None →
  spec (at_ tun s) (Session.install_bypass ctx) (λ _ sw, ∃ b, at_ tun (Session.set_bypass b s) sw).
Proof.
  intros Hl Hb. unfold Session.install_bypass. apply at_get.
  assert (Hs : Session.set_bypass None s = s) by (destruct s; cbn in *; by subst).
  destruct (Outbound.ctx_interface ctx) as [i|].
  2:{ intros sw Hsw. exists None. by rewrite Hs. }
  intros [s' w] [Hs' Ha]. cbn in Hs'. subst s'. unfold acc in Ha. cbn [fst snd] in Ha.
  unfold m_bind, m_try, Session.run.
  pose proof (held_bypass_setup i (Session.full_tunnel (Session.config s)) w) as Hk. cbn in Hk.
  destruct (Outbound.bypass_setup i _ w) as [w' r] eqn:Hr. cbn [fst] in Hk.
  apply (bypass_account i _ w w' r (h_rules h0)) in Hr; [|done|].
  2:{ destruct Ha as (_ & Ha & _). unfold rules_account in Ha. by rewrite Hb, held_rules in Ha. }
  rewrite <- held_rules in Hr. destruct r as [b|e]; cbn; [exists (Some b)|exists None].
  - split; [done|]. by apply accounts_rules with (held w).
  - split; [done|]. unfold acc. cbn [fst snd]. rewrite <- Hs. by apply accounts_rules with (held w).
Qed.

Lemma at_start_dns_server s servers system directed :
  Session.dns_server s = None →
  spec (at_ tun s) (Session.start_dns_server servers system directed)
    (λ _ sw, ∃ d, at_ tun (Session.set_dns_server d s) sw).
Proof.
  intros Hd. unfold Session.start_dns_server. apply at_get.
  assert (Hs : Session.set_dns_server None s = s) by (destruct s; cbn in *; by subst).
  assert (Hret : spec (at_ tun s) (m_ret tt) (λ _ sw, ∃ d, at_ tun (Session.set_dns_server d s) sw)).
  { apply hoare_ret. intros sw Hsw. exists None. by rewrite Hs. }
  destruct (0 <? _); [|exact Hret].
  destruct (DnsResolver.build _ _ _ _) as [resolver|]; [|exact Hret].
  apply at_bind; [apply at_run, held_server_start|]. intros sockets [s' w] [Hs' Ha]. cbn in Hs'. subst s'.
  unfold acc in Ha. cbn [fst snd] in Ha. unfold m_bind, Session.pure_run, Session.update.
  pose proof (held_serve sockets resolver w) as Hx. destruct (Session.dns_serve _ _ w) as [w' x].
  destruct Hx as [Hk Hx]. exists (Some x). split; [done|]. apply accounts_server with (held w); [done|done|].
  destruct Ha as (_ & _ & _ & _ & Ha & _). rewrite Hd in Ha. by apply adds_new with (h_servers (held w)).
Qed.

Lemma at_probe_start s d l :
  Session.probe s = None →
  spec (at_ tun s) (Session.pure_run (Session.probe_start d l))
    (λ p sw, sw.1 = s ∧ acc tun (Session.set_probe (Some p) s, sw.2)).
Proof.
  intros Hp [s' w] [Hs Ha]. cbn in Hs. subst s'. unfold acc in Ha |- *. cbn [fst snd] in Ha |- *.
  cbn [Session.pure_run]. pose proof (held_probe_start d l w) as Hx.
  destruct (Session.probe_start d l w) as [w' p]. destruct Hx as [Hk Hx]. cbn. split; [done|].
  apply accounts_probe with (held w); [done|done|]. destruct Ha as (_ & _ & _ & _ & _ & Ha). rewrite Hp in Ha.
  by apply adds_new with (h_probes (held w)).
Qed.

End steps.

(** *** With the TUN device [t] *)

Section with_tun.
Variable t : Z.
Abbreviation spec P m Q := (hoare (E:=Session.SessionError) P m Q (λ _, acc (Some t))).

(** The routes that do not go through an interface, and the other parts. *)
Definition beside (ifname : string) (w : W) := (but_routes (held w), off ifname (table w)).

Lemma beside_add n r : Routes.rt_if_name r = n → keeps (beside n) (Routes.route_add r).
Proof.
  intros Hr w. unfold beside. pose proof (held_route_add r w) as Hk. cbn in Hk.
  destruct (Routes.route_add r w) as [w' [[]|e]] eqn:Ha; cbn [fst] in *; f_equal; try exact Hk.
  - apply Routes.table_add_ok in Ha as [_ ->]. by apply off_add.
  - by apply Routes.table_add_err in Ha as [-> _].
Qed.
Lemma beside_delete n r : Routes.rt_if_name r = n → keeps (beside n) (Routes.route_delete r).
Proof.
  intros Hr w. unfold beside. pose proof (held_route_delete r w) as Hk. cbn in Hk.
  destruct (Routes.route_delete r w) as [w' [[]|e]] eqn:Ha; cbn [fst] in *; f_equal; try exact Hk.
  - apply Routes.table_delete_ok in Ha as ->. by apply off_delete.
  - by apply Routes.table_delete_err in Ha as ->.
Qed.
Lemma beside_manager n : keeps (beside n) Routes.manager_new.
Proof. intros w. unfold beside. by rewrite <- !held_routes, held_manager. Qed.

Lemma system_routes_via n l : Forall (λ r, Routes.rt_if_name r = n) (Routes.system_routes n l).
Proof. unfold Routes.system_routes. apply Forall_fmap, Forall_true. by intros x. Qed.

Lemma at_apply s :
  Session.routes s = None →
  spec (at_ (Some t) s) (Session.run Session.SRoute (Routes.apply (dev_name t) (Session.tc_routes (Session.config s))))
    (λ a sw, sw.1 = s ∧ acc (Some t) (Session.set_routes (Some a) s, sw.2)).
Proof.
  intros Hn [s' w] [Hs Ha]. cbn in Hs. subst s'. unfold acc in Ha |- *. cbn [fst snd] in Ha |- *.
  cbn [Session.run].
  pose proof (Routes.keeps_apply (beside (dev_name t)) _ (beside_manager _) (beside_add _) (beside_delete _)
    _ _ (system_routes_via (dev_name t) (Session.tc_routes (Session.config s))) w) as Hb.
  pose proof (f_equal fst Hb) as Hk. pose proof (f_equal snd Hb) as Hoff. cbn in Hk, Hoff. clear Hb.
  pose proof Ha as ((F1 & F2 & _) & _). rewrite held_routes in F2.
  destruct (Routes.apply _ _ w) as [w' [a|e]] eqn:E; cbn [fst map_err snd] in *.
  - split; [done|]. apply accounts_routes with (held w); [done|done|].
    apply Routes.apply_ok_spec in E as (Hi & Hnd & Hd & Ht & Hsys).
    cbn [Session.set_routes Session.routes Session.config routes_account].
    rewrite (held_routes w'), Hoff, Hi, F2. split_and!; try done.
    + apply (Forall_added _ _ _ (system_routes_via _ (Session.tc_routes (Session.config s)))).
      apply (added_wanted (table w)); [done|]. by rewrite <- Ht.
    + rewrite Ht. apply union_subseteq_r.
    + rewrite Hsys. apply union_subseteq_r.
  - replace s with (Session.set_routes None s) by (destruct s; cbn in *; by subst).
    apply accounts_routes with (held w); [done|done|]. cbn. split; [done|]. split; [|done].
    by rewrite held_routes, Hoff.
Qed.

Lemma at_wg_build s x :
  Session.device s = None → (Session.wg_tun x).1 = t →
  spec (at_ (Some t) s) (Session.run Session.Device (Session.wg_build x))
    (λ d sw, sw.1 = s ∧ acc (Some t) (Session.set_device (Some d) s, sw.2)).
Proof.
  intros Hd Hx [s' w] [Hs Ha]. cbn in Hs. subst s'. unfold acc in Ha |- *. cbn [fst snd] in Ha |- *.
  cbn [Session.run]. pose proof (held_wg_build x w) as Hb.
  destruct (Session.wg_build x w) as [w' [d|e]]; cbn [map_err fst snd].
  - destruct Hb as (Hk & Hnew & Hb). split; [done|]. apply accounts_device with (held w); [done|done|].
    destruct Ha as (_ & _ & _ & Ha & _). unfold devices_account in *. rewrite Hd in Ha.
    exists t. by rewrite <- Ha, <- Hx.
  - by rewrite Hb.
Qed.

Hypothesis refusal_leaks : full → refused W → leaks.

(** The session is up: its device runs. *)
Definition up (sw : TunnelSession * W) : Prop := acc (Some t) sw ∧ is_Some (Session.device sw.1).

(** Everything from the open device on is accounted for, however it ends; a
    failure leaves no WireGuard device. *)
Lemma bring_up_accounts c key :
  (Session.full_tunnel c = true → full) →
  spec (at_ (Some t) (Session.session_new c)) (Session.bring_up key t (dev_name t)) (λ _, up).
Proof.
  intros Hfull. unfold Session.bring_up. apply at_get.
  apply at_bind; [apply at_run, held_context_build|intros ctx].
  apply at_bind; [by apply at_pure_run|intros system].
  apply at_update with (P := acc (Some t)).
  { intros w. apply accounts_same. split_and!; try done. by left. }
  cbn [Session.config Session.session_new Session.set_config].
  set (c' := Session.route_system_dns_into_tunnel system c).
  apply at_get. apply at_bind; [apply at_resolve_endpoint|intros endpoint].
  apply at_bind; [apply at_lift|intros peer].
  eapply hoare_bind; [apply at_install_bypass; [done|by unfold c'; cbn; rewrite route_dns_full|done]|].
  intros _ sw [b Hb]. revert sw Hb.
  match goal with |- ∀ sw, at_ _ ?s sw → _ => set (s2 := s) end.
  match goal with |- ∀ sw, at_ _ s2 sw → match ?m sw with _ => _ end => change (spec (at_ (Some t) s2) m (λ _, up)) end.
  eapply hoare_bind; [apply (at_apply s2); done|]. intros applied.
  apply (at_update _ s2 _ _ (λ sw, acc (Some t) (Session.set_routes (Some applied) s2, sw.2))).
  { intros w. apply accounts_same. split_and!; try done. by right. }
  match goal with |- hoare (at_ _ ?s) _ _ _ => set (s3 := s) end.
  eapply hoare_bind; [apply at_build_vpn_tun|intros [tun servers]]. cbn [fst].
  intros sw [Htun Hsw]. revert sw Hsw.
  match goal with |- ∀ sw, at_ _ s3 sw → match ?m sw with _ => _ end => change (spec (at_ (Some t) s3) m (λ _, up)) end.
  eapply hoare_bind; [by apply at_start_dns_server|]. intros _ sw [x Hx]. revert sw Hx.
  match goal with |- ∀ sw, at_ _ ?s sw → _ => set (s4 := s) end.
  match goal with |- ∀ sw, at_ _ s4 sw → match ?m sw with _ => _ end => change (spec (at_ (Some t) s4) m (λ _, up)) end.
  eapply hoare_bind; [by apply (at_wg_build s4)|]. intros device.
  apply (at_update _ s4 _ _ (λ sw, acc (Some t) (Session.set_device (Some device) s4, sw.2))); [done|].
  eapply hoare_bind; [by apply at_probe_start|]. intros p [s' w] [Hs Ha]. cbn in Hs. subst s'.
  unfold Session.update, up, acc in Ha |- *. cbn [fst snd] in Ha |- *. split; [|by exists device].
  revert Ha. apply accounts_same. split_and!; try done. by right.
Qed.

End with_tun.

(** *** Starting *)

Lemma at_open_tun s :
  Session.device s = None → Session.routes s = None →
  hoare (E:=Session.SessionError) (at_ None s) Session.open_tun
    (λ r sw, r.2 = dev_name r.1 ∧ at_ (Some r.1) s sw) (λ _, at_ None s).
Proof.
  intros Hdev Hr [s' w] [Hs Ha]. cbn in Hs. subst s'. unfold acc in Ha. cbn [fst snd] in Ha.
  unfold Session.open_tun, m_bind, Session.get, m_lift. destruct (Session.tun_spec _) as [spec_|e]; [|done].
  cbn [Session.run]. pose proof (held_tun_build spec_ w) as Hb.
  destruct (Session.tun_build spec_ w) as [w1 [t|e]]; cbn [map_err].
  2:{ split; [done|]. unfold acc. cbn. by rewrite Hb. }
  assert (Ha1 : accounts full leaks h0 (Some t) s (held w1)).
  { destruct Hb as ([= E1 E2 E3 E4] & Ht & Hoff & Hoff').
    destruct Ha as ((A1 & _) & A2 & A3 & A4 & A5 & A6). unfold accounts, devices_account, adds in *.
    rewrite Hdev in *. rewrite E1, E2, E3, E4, A1 in *. rewrite A3 in Ht. split_and!; try done; try apply Ht.
    unfold routes_account. by rewrite Hr. }
  unfold Session.dropping, m_bind. cbn [Session.run].
  pose proof (held_tun_name t w1) as Hk. pose proof (tun_name_ok t w1) as Hn.
  destruct (Session.tun_device_name t w1) as [w2 [n|e]]; cbn [map_err fst snd] in *; rewrite <- Hk in Ha1.
  - specialize (Hn n eq_refl). case_bool_decide as Hd; cbn; [done|]. split; [done|]. by apply accounts_drop.
  - split; [done|]. by apply accounts_drop.
Qed.

Hypothesis refusal_leaks : full → refused W → leaks.

Lemma start_inner_accounts c :
  (Session.full_tunnel c = true → full) →
  hoare (E:=Session.SessionError) (at_ None (Session.session_new c)) Session.start_inner
    (λ _ sw, ∃ t, up t sw) (λ _, acc None).
Proof.
  intros Hfull. unfold Session.start_inner. apply at_get. apply at_bind; [apply at_lift|intros key].
  eapply hoare_bind.
  { eapply hoare_conseq; [by apply (at_open_tun (Session.session_new c))|done| |intros e sw; apply at_acc].
    intros r sw Hr. exact Hr. }
  intros [dev actual] [s w] [Hn [Hs Ha]]. cbn in Hn, Hs. subst s actual. unfold Session.dropping.
  pose proof (bring_up_accounts dev refusal_leaks c key Hfull (Session.session_new c, w) (conj eq_refl Ha)) as Hb.
  pose proof (Session.bring_up_spec c key dev (dev_name dev) w) as Hdev.
  destruct (Session.bring_up _ _ _ _) as [[s1 w1] [a|e]]; [by exists dev|]. apply accounts_drop; [apply Hdev|exact Hb].
Qed.

(** *** Stopping *)

Lemma at_release {A B} tun s (field : TunnelSession → option A) clear (free : A → W → W) (k : unit → M _ _ B) Q R :
  (field s = None → clear s = s) →
  (∀ a w, field s = Some a → acc tun (s, w) → acc tun (clear s, free a w)) →
  hoare (E:=Session.SessionError) (at_ tun (clear s)) (k tt) Q R →
  hoare (at_ tun s) (m_bind (Session.release field clear free) k) Q R.
Proof.
  intros Hn Hs Hk [s' w] [Heq Ha]. cbn in Heq. subst s'. unfold m_bind, Session.release.
  destruct (field s) as [a|] eqn:Hf; apply Hk; (split; [|by auto]); cbn; [done|by rewrite Hn].
Qed.

Lemma acc_probe_drop tun s p w :
  Session.probe s = Some p → acc tun (s, w) → acc tun (Session.set_probe None s, Session.probe_drop p w).
Proof.
  intros Hp Ha. unfold acc in *. cbn [fst snd] in *. destruct (held_probe_drop p w) as [Hk Hd].
  apply accounts_probe with (held w); [done|done|]. cbn. rewrite Hd.
  destruct Ha as (_ & _ & _ & _ & _ & Ha). rewrite Hp in Ha. by apply adds_release.
Qed.
Lemma acc_shutdown tun s x w :
  Session.dns_server s = Some x → acc tun (s, w) → acc tun (Session.set_dns_server None s, Session.dns_shutdown x w).
Proof.
  intros Hx Ha. unfold acc in *. cbn [fst snd] in *. destruct (held_shutdown x w) as [Hk Hd].
  apply accounts_server with (held w); [done|done|]. cbn. rewrite Hd.
  destruct Ha as (_ & _ & _ & _ & Ha & _). rewrite Hx in Ha. by apply adds_release.
Qed.

(** The routes are let go, whether or not their removal works: the session's
    own go with its TUN device, and without it they are gone already. *)
Lemma acc_remove tun s a w :
  Session.routes s = Some a → acc tun (s, w) → acc tun (Session.set_routes None s, (Routes.remove a w).1).
Proof.
  intros Hr Ha. unfold acc in *. cbn [fst snd] in *. pose proof Ha as (A1 & _). unfold routes_account in A1.
  rewrite Hr in A1. destruct tun as [t|].
  - destruct A1 as (F1 & F2 & _ & Hvia & _).
    pose proof (Routes.keeps_remove (beside (dev_name t)) _ (beside_manager _) (beside_delete _) a Hvia w) as Hb.
    pose proof (f_equal fst Hb) as Hk. pose proof (f_equal snd Hb) as Hoff. cbn in Hk, Hoff.
    apply accounts_routes with (held w); [done|done|]. cbn. split; [done|]. split; [|done].
    by rewrite held_routes, Hoff, <- held_routes.
  - destruct A1 as [E Hd]. rewrite <- E, held_routes in Hd.
    pose proof (Routes.keeps_remove (but_routes ∘ held) (λ _, True) (λ w, f_equal but_routes (held_manager w))
      (λ r _, held_route_delete r) a (Forall_true _ _ (λ _, I)) w) as Hk.
    apply accounts_routes with (held w); [done|exact Hk|]. cbn. split; [|done].
    by rewrite held_routes, Routes.remove_absent, <- held_routes.
Qed.

Hypothesis h0_rules : no_rules h0.

Lemma acc_bypass_teardown tun s b w :
  Session.bypass s = Some b → acc tun (s, w) → acc tun (Session.set_bypass None s, Outbound.bypass_teardown b w).
Proof.
  intros Hb Ha. unfold acc in *. cbn [fst snd] in *. pose proof Ha as (_ & A2 & _). rewrite Hb in A2.
  assert (Hk : but_rules (held (Outbound.bypass_teardown b w)) = but_rules (held w)).
  { unfold Outbound.bypass_teardown, Outbound.ip_rule_del. destruct (Outbound.installed b); [|done].
    etrans; [exact (held_ip_rule _ _)|exact (held_ip_rule _ _)]. }
  apply accounts_rules with (held w); [done|done|]. unfold rules_account in *. cbn [is_some_and] in *.
  destruct (Outbound.installed b) eqn:Hi; [|by unfold Outbound.bypass_teardown; rewrite Hi]. destruct A2 as [Hfull A2].
  destruct h0_rules as [Hf Hs]. rewrite held_rules in A2 |- *.
  destruct (Outbound.bypass_teardown_rules b (h_rules h0) w Hi Hf Hs A2) as [-> Hobeys].
  destruct (decide (Outbound.bypass_left b w = ∅)) as [He|Hne]; [left; rewrite He; set_solver|right].
  split; [apply refusal_leaks; [done|]; right; by intros Hd; apply Hne, Hobeys|].
  pose proof (Outbound.bypass_left_two b w) as Htwo. unfold with_rules. clear -Htwo. set_solver.
Qed.

(** What is left when every handle but the bypass is gone. *)
Lemma accounts_but_rules s h :
  accounts full leaks h0 None s h → Session.device s = None → Session.dns_server s = None → Session.probe s = None →
  but_rules h = but_rules h0.
Proof.
  intros ((A1 & _) & _ & A3 & A4 & A5 & A6) Hd Hn Hp. unfold devices_account in *.
  rewrite Hd in A4. rewrite Hn in A5. rewrite Hp in A6. cbn in A3, A4, A5, A6. unfold but_rules.
  by rewrite A1, A3, A4, A5, A6.
Qed.
Lemma accounts_released s h :
  accounts full leaks h0 None s h → Session.bypass s = None → Session.device s = None →
  Session.dns_server s = None → Session.probe s = None → settled leaks h0 h.
Proof.
  intros Ha Hb ? ? ?. split; [by apply accounts_but_rules with s|]. destruct Ha as (_ & A2 & _).
  unfold rules_account in A2. by rewrite Hb in A2.
Qed.

(** The WireGuard device takes its TUN device with it. *)
Lemma acc_wg_stop tun s d w :
  Session.device s = Some d → Session.routes s = None → acc tun (s, w) →
  acc None (Session.set_device None s, Session.wg_stop d w).
Proof.
  intros Hd Hr (A1 & A2 & A3 & A4 & A5 & A6). cbn [fst snd] in *. rewrite Hd in A4. destruct A4 as (t & -> & Hnew & Hdev).
  destruct (held_wg_stop d t w) as ([= E1 E2 E3] & Hds & Hts & Hrs); [by rewrite Hdev, lookup_insert_eq|].
  destruct A1 as (_ & F2 & _). unfold acc, accounts. cbn [fst snd Session.set_device Session.device Session.bypass Session.dns_server Session.probe].
  rewrite E1, E2, E3, Hts, Hrs, F2, Hds, Hdev. unfold routes_account. cbn. rewrite Hr. split; [done|]. split; [done|].
  split; [exact (adds_release _ _ _ A3)|]. split; [|done]. by rewrite delete_insert_id.
Qed.

(** The session owns its TUN device: there is none, or its device has it. *)
Definition owned (tun : option Z) (s : TunnelSession) : Prop := tun = None ∨ is_Some (Session.device s).

Lemma stop_rest tun s :
  Session.routes s = None → Session.probe s = None → Session.dns_server s = None → owned tun s →
  hoare (E:=Session.SessionError) (at_ tun s)
    (m_bind (Session.release Session.bypass (Session.set_bypass None) Outbound.bypass_teardown) (λ _,
      m_bind (Session.release Session.device (Session.set_device None) Session.wg_stop) (λ _,
        Session.update (Session.set_status Session.Stopped))))
    (λ _ sw, settled leaks h0 (held sw.2)) (λ _ _, False).
Proof.
  intros Hr Hp Hn Ho. apply at_release.
  { intros Hb. destruct s; cbn in *; by subst. }
  { intros b w Hb. by apply acc_bypass_teardown. }
  intros [s' w] [Heq Ha]. cbn in Heq. subst s'. unfold m_bind, Session.release.
  cbn [Session.device Session.set_bypass]. destruct (Session.device s) as [d|] eqn:Hd; cbn.
  - apply (acc_wg_stop _ _ d) in Ha; [|done|done]. by eapply accounts_released.
  - destruct Ho as [->|[x Hx]]; [|congruence]. by eapply accounts_released.
Qed.

(** A stop that works settles the machine; one that fails has let go of the
    routes, the probe and the DNS server only. *)
Lemma stop_accounts tun s :
  owned tun s → hoare (at_ tun s) Session.stop (λ _ sw, settled leaks h0 (held sw.2)) (λ _, acc tun).
Proof.
  intros Ho. unfold Session.stop. apply at_release.
  { intros Hn. destruct s; cbn in *; by subst. } { intros p w Hp. by apply acc_probe_drop. }
  apply at_release.
  { intros Hn. destruct s; cbn in *; by subst. } { intros x w Hx. by apply acc_shutdown. }
  set (s1 := Session.set_dns_server None _). assert (Ho1 : owned tun s1) by exact Ho.
  assert (Hs1 : Session.probe s1 = None ∧ Session.dns_server s1 = None) by done. clearbody s1.
  destruct Hs1 as [Hp Hn]. intros [s' w] [Heq Ha]. cbn in Heq. subst s'. unfold m_bind at 1, Session.get.
  destruct (Session.routes s1) as [a|] eqn:Hr.
  - pose proof (acc_remove tun s1 a w Hr Ha) as Ha1. unfold m_bind at 1 2, Session.update at 1, Session.run.
    destruct (Routes.remove a w) as [w1 [[]|e]]; cbn [map_err fst] in *; [|exact Ha1].
    pose proof (stop_rest tun (Session.set_routes None s1) eq_refl Hp Hn Ho1 (Session.set_routes None s1, w1) (conj eq_refl Ha1)) as Hs.
    by destruct (m_bind _ _ _) as [sw [a1|e]].
  - unfold m_bind at 1. cbn [m_ret].
    pose proof (stop_rest tun s1 Hr Hp Hn Ho1 (s1, w) (conj eq_refl Ha)) as Hs.
    by destruct (m_bind _ _ _) as [sw [a1|e]].
Qed.

(** Stopping, once more if the first stop failed, settles the machine. *)
Definition stop_settles (s : TunnelSession) (w : W) : Prop :=
  match Session.stop (s, w) with
  | ((_, w1), Ok _) => settled leaks h0 (held w1)
  | ((s1, w1), Err _) =>
      ∀ w2, held w2 = held w1 →
      ∃ s3 w3, Session.stop (s1, w2) = ((s3, w3), Ok tt) ∧ settled leaks h0 (held w3)
  end.

Lemma stop_without_routes tun s w :
  Session.routes s = None → owned tun s → acc tun (s, w) →
  ∃ s1 w1, Session.stop (s, w) = ((s1, w1), Ok tt) ∧ settled leaks h0 (held w1).
Proof.
  intros Hr Ho Ha. pose proof (stop_accounts tun s Ho (s, w) (conj eq_refl Ha)) as Hs.
  pose proof (Session.stop_answer s w) as Hok. cbn zeta in Hok. rewrite Hr in Hok.
  destruct (Session.stop (s, w)) as [[s1 w1] [[]|e]]; [|done]. by exists s1, w1.
Qed.

Lemma stop_settles_spec tun s w : owned tun s → acc tun (s, w) → stop_settles s w.
Proof.
  intros Ho Ha. unfold stop_settles. pose proof (stop_accounts tun s Ho (s, w) (conj eq_refl Ha)) as Hs.
  pose proof (Session.stop_spec s w) as Hsp. destruct (Session.stop (s, w)) as [[s1 w1] [[]|e]]; [exact Hs|].
  destruct Hsp as (_ & _ & _ & Hr & _ & Hd & _). intros w2 Hw2. apply (stop_without_routes tun); [done| |].
  - unfold owned. by rewrite Hd.
  - unfold acc in *. cbn [fst snd] in *. by rewrite Hw2.
Qed.

(** The world in which a stop comes to the routes. *)
Definition before_routes (s : TunnelSession) (w : W) : W :=
  let w1 := match Session.probe s with Some p => Session.probe_drop p w | None => w end in
  match Session.dns_server s with Some x => Session.dns_shutdown x w1 | None => w1 end.

Lemma before_routes_table s w : table (before_routes s w) = h_routes (held w).
Proof.
  rewrite <- held_routes. unfold before_routes.
  set (w1 := match Session.probe s with Some p => Session.probe_drop p w | None => w end).
  assert (E1 : h_routes (held w1) = h_routes (held w)).
  { unfold w1. destruct (Session.probe s) as [p|]; [|done]. by destruct (held_probe_drop p w) as [[= ? ?] _]. }
  destruct (Session.dns_server s) as [x|]; [|done]. destruct (held_shutdown x w1) as [[= ? ?] _]. congruence.
Qed.

(** The stop of a session that is up works, where routes that are there can be
    deleted and the route manager opens. *)
Lemma stop_works t s w :
  Routes.deletes_present W → (∀ w : W, is_ok (Routes.manager_new w).2 = true) →
  acc (Some t) (s, w) → is_ok (Session.stop (s, w)).2 = true.
Proof.
  intros Hdel Hopen ((_ & _ & Hr) & _). cbn [fst snd] in Hr. rewrite Session.stop_answer.
  destruct (Session.routes s) as [a|]; [|done]. destruct Hr as (_ & _ & Hnd & Hin & _).
  destruct (Routes.remove_present a (before_routes s w)) as (w3 & Hrm & _); [done|apply Hopen|done| |].
  - by rewrite before_routes_table.
  - unfold before_routes in Hrm. by rewrite Hrm.
Qed.

(** *** A start, with its clean-up *)

Lemma accounts_settled s h : Session.all_released s → settled leaks h0 h → accounts full leaks h0 None s h.
Proof.
  intros (_ & Hd & Hr & Hb & Hp & Hn) [[= E1 E2 E3 E4 E5] Hl].
  unfold accounts, routes_account, rules_account, devices_account. rewrite Hd, Hr, Hb, Hp, Hn. cbn. auto 10.
Qed.

Lemma settled_at c w : settled leaks h0 (held w) → at_ None (Session.session_new c) (Session.session_new c, w).
Proof.
  intros [[= E1 E2 E3 E4 E5] Hr]. split; [done|].
  unfold acc, accounts, routes_account, rules_account, devices_account. cbn. auto 10.
Qed.

Lemma start_accounts c :
  (Session.full_tunnel c = true → full) →
  hoare (at_ None (Session.session_new c)) Session.start (λ _ sw, ∃ t, up t sw) (λ _, acc None).
Proof.
  intros Hl sw Hsw. unfold Session.start. pose proof (start_inner_accounts c Hl sw Hsw) as Hi.
  destruct (Session.start_inner sw) as [[s1 w1] [a|e]]; [exact Hi|].
  pose proof (stop_accounts None s1 (or_introl eq_refl) (s1, w1) (conj eq_refl Hi)) as Hs.
  pose proof (Session.stop_spec s1 w1) as Hsp.
  destruct (Session.stop (s1, w1)) as [[s2 w2] [[]|e2]]; [|exact Hs].
  apply accounts_settled; [apply Hsp|exact Hs].
Qed.

End session.

Lemma settled_refl leaks h : settled leaks h h.
Proof. split; [done|by left]. Qed.

(** ** Properties *)

(** C10: A session accounts for everything it does to the machine, from a world
    without the rules of the bypass; the laws say what a call did, and no
    deletion is assumed to work.  A
    session that runs has opened one TUN device, one WireGuard device on it
    and one probe, has its DNS server and its bypass, and the routes its
    configuration wants; the routes that do not go through its TUN device are
    those that were there.  Stopping it leaves the routing table, the rules
    and the devices, DNS servers and probes as they were before the start; a
    stop can fail only at removing the routes, which works where routes that
    are there can be deleted and the route manager opens, and then a second
    stop does it.  A start that fails leaves all but the rules as it was: those
    too, unless the failed session still holds its bypass, which happens only
    when its routes had been applied and their removal then fails; stopping
    it again releases the bypass.  The one other exception to "as it was" is
    rules of the bypass, in a full tunnel, when the system refuses one of them
    or the removal of one that is there. *)
Theorem session_leaves_no_trace `{Urls} `{!UrlHost} `{IpNet} `{!IpNetAddr} `{Crypto, KeyCodec}
    `{DnsConfig.Unicode, DnsConfig.UrlParser, DnsConfig.WildMatch, DnsResolver.DnsCodec} `{!Outbound.DnsNames}
    {W : Type} `{Dialer.Sockets W} `{DnsResolver.Udp W} `{Outbound.Os W} `{Outbound.RuleTable W} `{RouteTable W}
    `{!TunDriver W} `{!Footprint W} (c : TunnelConfig) (w : W) :
  no_rules (held w) →
  let full := Session.full_tunnel c = true in
  let leaks := full ∧ refused W in
  match Session.start (Session.session_new c, w) with
  | ((s, w1), Ok _) =>
      (∃ t d p,
         adds (Some t) (h_tuns (held w)) (h_tuns (held w1)) ∧ h_devices (held w1) = <[d := t]> (h_devices (held w)) ∧
         adds (Some p) (h_probes (held w)) (h_probes (held w1)) ∧ dev_name t = Session.interface_name c) ∧
      off (Session.interface_name c) (h_routes (held w1)) = h_routes (held w) ∧
      list_to_set (Routes.system_routes (Session.interface_name c) (Session.tc_routes (Session.config s)))
        ⊆ h_routes (held w1) ∧
      adds (Session.dns_server s) (h_servers (held w)) (h_servers (held w1)) ∧
      rules_account full leaks (Session.bypass s) (h_rules (held w)) (h_rules (held w1)) ∧
      ∀ w2, held w2 = held w1 →
        stop_settles leaks (held w) s w2 ∧
        (Routes.deletes_present W → (∀ w : W, is_ok (Routes.manager_new w).2 = true) →
         is_ok (Session.stop (s, w2)).2 = true)
  | ((s, w1), Err _) =>
      but_rules (held w1) = but_rules (held w) ∧
      rules_account full leaks (Session.bypass s) (h_rules (held w)) (h_rules (held w1)) ∧
      (Session.bypass s = None ∨
       let '(sw1, _) := Session.start_inner (Session.session_new c, w) in
       is_some (Session.routes sw1.1) = true ∧ is_ok (Session.stop sw1).2 = false) ∧
      ∀ w2, held w2 = held w1 → stop_settles leaks (held w) s w2
  end.
Proof.
  intros Hrules full leaks.
  assert (Hleak : full → refused W → leaks) by by intros.
  pose proof (start_accounts full leaks (held w) Hleak Hrules c (λ x, x) (Session.session_new c, w)
    (settled_at _ _ _ c w (settled_refl _ _))) as Ha.
  pose proof (Session.start_outcome_spec c w) as Ho.
  destruct (Session.start (Session.session_new c, w)) as [[s w1] [[]|e]].
  - destruct Ha as (t & Ha & [d Hdev]). cbn [fst] in Hdev. destruct Ho as (_ & _ & Hp & (a & Hr & Hi) & _).
    pose proof Ha as (A1 & A2 & A3 & A4 & A5 & A6). unfold routes_account in A1. cbn [fst snd] in *.
    rewrite Hr, Hi in A1. destruct A1 as (_ & F2 & Hn & _ & _ & _ & Hin). rewrite <- Hn in F2.
    rewrite Hdev in A4. destruct A4 as (? & [= <-] & _ & Hds).
    destruct (Session.probe s) as [p|]; [|done]. split; [by exists t, d, p|].
    do 4 (split; [done|]). intros w2 Hw2.
    assert (Ha2 : acc full leaks (held w) (Some t) (s, w2)) by (unfold acc in *; cbn in *; by rewrite Hw2).
    split; [|intros Hdel Hopen; by apply (stop_works full leaks (held w) t)].
    apply stop_settles_spec with full (Some t); [done|done|right; by eexists|done].
  - destruct Ho as (_ & Hd & Hp & Hn & Hr & Hb).
    split; [by apply (accounts_but_rules full leaks (held w) s)|]. split; [apply Ha|]. split.
    + destruct Hb as [Hb|[Hb _]]; [left; apply Hb|right].
      destruct (Session.start_inner _) as [[s1 w3] r]. cbn [fst] in Hb |- *. split; [|exact Hb].
      rewrite Session.stop_answer in Hb. by destruct (Session.routes s1).
    + intros w2 Hw2. apply stop_settles_spec with full None; [done|done|by left|]. unfold acc in *. cbn in *. by rewrite Hw2.
Qed.

(** C39: A start that fails once its routes are applied leaves the rules of the
    bypass, where deleting a route that is not there is refused: the TUN device
    is dropped first and its routes go with it, so that the removal of the
    routes fails at the first one, and the clean-up ends before it comes to
    the bypass; the session that still holds it is thrown away. *)
Theorem failed_start_keeps_bypass `{Urls} `{!UrlHost} `{IpNet} `{!IpNetAddr} `{Crypto, KeyCodec}
    `{DnsConfig.Unicode, DnsConfig.UrlParser, DnsConfig.WildMatch, DnsResolver.DnsCodec} `{!Outbound.DnsNames}
    {W : Type} `{Dialer.Sockets W} `{DnsResolver.Udp W} `{Outbound.Os W} `{Outbound.RuleTable W} `{RouteTable W}
    `{!TunDriver W} `{!Footprint W} (c : TunnelConfig) (w : W) s1 w1 e a b :
  no_rules (held w) → Routes.refuses_absent W →
  Session.start_inner (Session.session_new c, w) = ((s1, w1), Err e) →
  Session.routes s1 = Some a → Routes.routes a ≠ [] → Session.bypass s1 = Some b → Outbound.installed b = true →
  ∃ s w', Session.start (Session.session_new c, w) = ((s, w'), Err e) ∧
    Session.bypass s = Some b ∧ but_rules (held w') = but_rules (held w) ∧
    h_rules (held w') = with_rules (h_rules (held w)).
Proof.
  intros Hrules Href Hs Hr Hne Hb Hi.
  set (full := Session.full_tunnel c = true). set (leaks := full ∧ refused W).
  assert (Hleak : full → refused W → leaks) by by intros.
  pose proof (settled_at full leaks (held w) c w (settled_refl _ _)) as Hat.
  pose proof (start_inner_accounts full leaks (held w) Hleak c (λ x, x) _ Hat) as Ha. rewrite Hs in Ha.
  pose proof (start_accounts full leaks (held w) Hleak Hrules c (λ x, x) _ Hat) as Ha'.
  pose proof (Session.start_outcome_spec c w) as Ho.
  assert (Hstop : is_ok (Session.stop (s1, w1)).2 = false).
  { rewrite Session.stop_answer, Hr. apply Routes.remove_absent_fails; [done| |done].
    destruct Ha as ((A1 & Hd) & _). cbn [fst snd] in *. rewrite Hr, <- A1 in Hd.
    rewrite <- (before_routes_table s1 w1) in Hd. exact Hd. }
  unfold Session.start in *. rewrite Hs in *.
  pose proof (Session.stop_spec s1 w1) as Hsp. destruct (Session.stop (s1, w1)) as [[s w'] [|e']]; [done|].
  destruct Hsp as (_ & _ & _ & _ & Hb' & _). rewrite Hb in Hb'. exists s, w'. split; [done|]. split; [done|].
  destruct Ho as (_ & Hd & Hp & Hn & Hr' & _).
  split; [by apply (accounts_but_rules full leaks (held w) s)|]. destruct Ha' as (_ & A2 & _).
  unfold rules_account in A2. cbn [fst snd] in A2. rewrite Hb' in A2. cbn in A2. rewrite Hi in A2. apply A2.
Qed.

End Footprint.
