(* ===== verification/Supervisor.v ===== *)
(** * The tunnel supervisor ([daemon/src/supervisor.rs])

    The loop that watches a running session.  Which branch of the loop's
    [select!] fires next, and what the clocks and the network read at that
    moment, is the environment's; what the loop makes of it is modelled. *)

From S2P Require Import Prelude RustStr Net Models Signing Api VpnState.
From S2P Require Import Reconnect Interface Dialer DnsConfig DnsResolver Outbound Routes TunDns Session.

Import Api(Urls, Url).
Import Routes(IpNet, IpNetwork).

Module Supervisor.
#[local] Existing Instance Interface.NetworkSnapshot_eq_dec.
Import Reconnect(ReconnectEvent, HandshakeTimeout, NetworkChanged, TransportFailed).

(* @daemon/src/supervisor.rs:29-29 LIVENESS_POLL *)
Definition LIVENESS_POLL : duration := from_secs 3.
Definition NETWORK_POLL : duration := from_secs 5.
Definition REPORT_INTERVAL : duration := from_mins 1.
(* @daemon/src/supervisor.rs:35-35 CONNECT_TIMEOUT *)
Definition CONNECT_TIMEOUT : duration := from_secs 15.
(* @daemon/src/supervisor.rs:40-40 LIVENESS_TIMEOUT *)
Definition LIVENESS_TIMEOUT : duration := from_secs 30.

(* @daemon/src/supervisor.rs:43-56 SupervisorOutcome *)
Inductive SupervisorOutcome : Type :=
  | Trigger (event : ReconnectEvent) (was_healthy : bool)
  | OutcomeKickOut (was_healthy : bool)
  | OutcomeCancelled.

(* @daemon/src/supervisor.rs:59-68 LivenessStatus *)
Inductive LivenessStatus : Type := Healthy | ConnectTimedOut | Stalled.

#[export] Instance LivenessStatus_eq_dec : EqDecision LivenessStatus.
Proof. solve_decision. Defined.

(* @daemon/src/supervisor.rs:70-76 liveness_status *)
Definition liveness_status (probe_age : option duration) (session_age : duration) : LivenessStatus :=
  match probe_age with
  | None => if CONNECT_TIMEOUT <? session_age then ConnectTimedOut else Healthy
  | Some age => if LIVENESS_TIMEOUT <? age then Stalled else Healthy
  end.

(** The branches of the [select!]. *)
Inductive Turn : Type := TCancelled | TDeviceStopped | TLiveness | TNetwork | TReport.

Section run.
Context `{Urls} `{IpNet} {W : Type} `{Outbound.Os W} `{!Session.TunDriver W}.
(** The state [T] of everything while the loop runs: it has a world, the
    environment picks the next branch, and a report may change it.
    [blocking_ok] is whether a blocking task completes. *)
Context {T : Type} (world : T → W) (next_turn : T → T * Turn) (report : T → T * bool)
        (blocking_ok : W → bool).

(* @outbound/src/snapshot.rs:45-56 NetworkSnapshot::capture *)
Definition capture (w : W) : option Interface.NetworkSnapshot :=
  if blocking_ok w then Some (Interface.capture_blocking (Outbound.os_default_if w)) else None.

(** What the loop knows while it runs. *)
Record Watch : Type := {
  w_session : Session.TunnelSession;
  w_outbound : option string;
  w_last_net : Interface.NetworkSnapshot;
  w_started : Z;
}.

Definition probe_age (v : Watch) (t : T) : option duration :=
  Session.last_probe_rx_elapsed (w_session v) (world t).
Definition was_healthy (v : Watch) (t : T) : bool := is_some (probe_age v t).
Definition session_age (v : Watch) (t : T) : duration :=
  Z.max (Session.instant_now (world t) - w_started v) 0.

(** One turn: the outcome when the loop returns. *)
Definition take_turn (v : Watch) (turn : Turn) (t : T) : T * option SupervisorOutcome :=
  match turn with
  | TCancelled => (t, Some OutcomeCancelled)
  | TDeviceStopped => (t, Some (Trigger TransportFailed (was_healthy v t)))
  | TLiveness =>
      if bool_decide (liveness_status (probe_age v t) (session_age v t) = Healthy) then (t, None)
      else (t, Some (Trigger HandshakeTimeout (was_healthy v t)))
  | TNetwork =>
      match w_outbound v with
      | Some name =>
          if blocking_ok (world t) && Interface.pinned_present (Outbound.os_interfaces (world t)) name
          then (t, None) else (t, Some (Trigger NetworkChanged (was_healthy v t)))
      | None =>
          match capture (world t) with
          | None => (t, None)
          | Some now =>
              if bool_decide (now = w_last_net v) then (t, None)
              else (t, Some (Trigger NetworkChanged (was_healthy v t)))
          end
      end
  | TReport =>
      let '(t1, kicked) := report t in
      if kicked then (t1, Some (OutcomeKickOut (was_healthy v t1))) else (t1, None)
  end.

(** [fuel] turns of the loop; [None] when it is still running after them. *)
Fixpoint turns (v : Watch) (fuel : nat) (t : T) : T * option SupervisorOutcome :=
  match fuel with
  | O => (t, None)
  | S fuel' =>
      let '(t1, turn) := next_turn t in
      match take_turn v turn t1 with
      | (t2, Some o) => (t2, Some o)
      | (t2, None) => turns v fuel' t2
      end
  end.

(** A failed first snapshot counts as no default interface. *)
(* @daemon/src/supervisor.rs:86-177 run *)
Definition run (session : Session.TunnelSession) (outbound : option string) (fuel : nat) (t : T) :
    T * option SupervisorOutcome :=
  turns {| w_session := session; w_outbound := outbound;
           w_last_net := default {| Interface.default_interface := None |} (capture (world t));
           w_started := Session.instant_now (world t) |} fuel t.

(** What every branch and every report maintains, the loop maintains. *)
Section maintains.
Variable R : T → T → Prop.
Context `{!PreOrder R}.
Hypothesis turn_maintains : ∀ t, R t (next_turn t).1.
Hypothesis report_maintains : ∀ t, R t (report t).1.
Lemma take_turn_maintains v turn t : R t (take_turn v turn t).1.
Proof.
  destruct turn; cbn [take_turn]; [done|done|by case_match|by repeat case_match|].
  pose proof (report_maintains t) as Hr. by destruct (report t) as [t1 []].
Qed.
Lemma turns_maintain v n t : R t (turns v n t).1.
Proof.
  revert t. induction n as [|n IH]; intros t; cbn [turns]; [done|].
  pose proof (turn_maintains t) as Hn. destruct (next_turn t) as [t1 turn]. cbn [fst] in Hn.
  pose proof (take_turn_maintains v turn t1) as Ht.
  destruct (take_turn v turn t1) as [t2 [o|]]; cbn [fst] in *; [by etransitivity|].
  etransitivity; [exact Hn|]. by etransitivity; [exact Ht|].
Qed.
Lemma run_maintains session outbound n t : R t (run session outbound n t).1.
Proof. apply turns_maintain. Qed.
End maintains.
Lemma run_keeps {O} (obs : T → O) session outbound n t :
  (∀ t, obs (next_turn t).1 = obs t) → (∀ t, obs (report t).1 = obs t) →
  obs (run session outbound n t).1 = obs t.
Proof.
  intros Hn Hr.
  assert (PreOrder (λ t t', obs t' = obs t)) by (split; [by intros x|intros x y z; congruence]).
  by apply (run_maintains (λ t t', obs t' = obs t)).
Qed.

(** The loop answers that it was cancelled at a turn that says so. *)
Lemma run_cancelled (P : T → Prop) session outbound n t :
  (∀ t, (next_turn t).2 = TCancelled → P (next_turn t).1) →
  (run session outbound n t).2 = Some OutcomeCancelled → P (run session outbound n t).1.
Proof.
  intros HP. unfold run. match goal with |- context [turns ?v n t] => generalize v end.
  revert t. induction n as [|n IH]; intros t v; cbn [turns]; [done|].
  specialize (HP t). destruct (next_turn t) as [t1 turn]. cbn [fst snd] in HP.
  destruct (take_turn v turn t1) as [t2 [o|]] eqn:Ht; [|apply IH]. intros [= ->].
  destruct turn; cbn [take_turn] in Ht; [by injection Ht as <-; apply HP|..];
    [done|by case_match|by repeat case_match|by destruct (report t1) as [t3 []]].
Qed.

(** ** Properties *)

(** Why a turn ends the loop. *)
Definition reason (v : Watch) (turn : Turn) (t : T) (o : SupervisorOutcome) : Prop :=
  match o with
  | OutcomeCancelled => turn = TCancelled
  | OutcomeKickOut h => turn = TReport ∧ (report t).2 = true ∧ h = was_healthy v (report t).1
  | Trigger e h =>
      h = was_healthy v t ∧
      match e with
      | TransportFailed => turn = TDeviceStopped
      | HandshakeTimeout =>
          turn = TLiveness ∧
          match probe_age v t with
          | None => CONNECT_TIMEOUT < session_age v t
          | Some age => LIVENESS_TIMEOUT < age
          end
      | NetworkChanged =>
          turn = TNetwork ∧
          match w_outbound v with
          | Some name => blocking_ok (world t) = false ∨
                         Interface.pinned_present (Outbound.os_interfaces (world t)) name = false
          | None => ∃ now, capture (world t) = Some now ∧ now ≠ w_last_net v
          end
      | _ => False
      end
  end.

Lemma take_turn_reason v turn t o : (take_turn v turn t).2 = Some o ↔ reason v turn t o.
Proof.
  unfold reason. destruct turn; cbn [take_turn].
  - split; [by intros [= <-]|]. destruct o as [e h|h|]; [|by intros [? _]|done]. destruct e; naive_solver.
  - split; [by intros [= <-]|]. destruct o as [e h|h|]; [|by intros [? _]|done].
    destruct e; cbn; naive_solver.
  - unfold liveness_status. destruct (probe_age v t) as [age|] eqn:Ha.
    + destruct (Z.ltb_spec LIVENESS_TIMEOUT age) as [Hl|Hl]; case_bool_decide; try done; cbn;
        (destruct o as [[] h|h|]; split; try naive_solver; intros (_ & _ & ?); lia).
    + destruct (Z.ltb_spec CONNECT_TIMEOUT (session_age v t)) as [Hl|Hl]; case_bool_decide; try done; cbn;
        (destruct o as [[] h|h|]; split; try naive_solver; intros (_ & _ & ?); lia).
  - destruct (w_outbound v) as [name|].
    + destruct (blocking_ok (world t)), (Interface.pinned_present _ _); cbn;
        (destruct o as [[] h|h|]; split; naive_solver).
    + destruct (capture (world t)) as [now|]; [case_bool_decide as Hn|]; cbn;
        (destruct o as [[] h|h|]; split; naive_solver).
  - destruct (report t) as [t1 [|]]; cbn; (destruct o as [[] h|h|]; split; naive_solver).
Qed.

(** Why the supervisor gives a tunnel up: it returns at the first turn that
    has a reason and with that reason — cancellation, a stopped device, no
    probe reply within 15 s of the start, no reply for 30 s, a default network
    that differs from the one at the start (or a pinned interface that is
    gone), or a force-logout — it says whether a probe was ever answered, and
    as long as no turn has a reason it keeps running. *)
Theorem supervisor_reasons v fuel t :
  match (turns v fuel t).2 with
  | Some o => ∃ k t0, (k < fuel)%nat ∧ turns v k t = (t0, None) ∧
                let '(t1, turn) := next_turn t0 in reason v turn t1 o
  | None => ∀ k, (k < fuel)%nat → ∃ t0, turns v k t = (t0, None) ∧
                let '(t1, turn) := next_turn t0 in ∀ o, ¬ reason v turn t1 o
  end.
Proof.
  revert t. induction fuel as [|fuel IH]; intros t; cbn [turns snd]; [intros k Hk; lia|].
  destruct (next_turn t) as [t1 turn] eqn:Hn.
  destruct (take_turn v turn t1) as [t2 [o|]] eqn:Ht.
  - exists 0%nat, t. split; [lia|]. split; [done|]. rewrite Hn. apply take_turn_reason. by rewrite Ht.
  - specialize (IH t2). destruct ((turns v fuel t2).2) as [o|].
    + destruct IH as (k & t0 & Hk & Hr & Hreason). exists (S k), t0. split; [lia|].
      cbn [turns]. by rewrite Hn, Ht.
    + intros [|k] Hk.
      * exists t. split; [done|]. rewrite Hn. intros o Ho. apply take_turn_reason in Ho. by rewrite Ht in Ho.
      * destruct (IH k) as (t0 & Hr & Hno); [lia|]. exists t0. cbn [turns]. by rewrite Hn, Ht.
Qed.

End run.
End Supervisor.
