(* ===== verification/Store.v ===== *)
(** * The daemon's files as the daemon uses them

    The interface between the daemon core and its two files, with what it
    promises, and the implementation of [daemon/src/persist.rs] on the file
    system of [Persist]. *)

From S2P Require Import Prelude RustStr Net Models Signing Api Requests Login VpnState Negotiate Persist.
Import Persist.

Module Store.

(** The two files. *)
Class Store (W : Type) : Type := {
  save_credentials : PersistedCredentials → string → M W PersistError unit;
  load_credentials : string → W → result PersistError (option PersistedCredentials);
  remove_credentials : string → M W PersistError unit;
  save_config : DaemonConfig → string → M W PersistError unit;
  load_config : string → W → result PersistError DaemonConfig;
}.

(** What they promise of a path in good order: a save that works is what is
    loaded next, a save that fails changes nothing that is loaded, and a file
    that is removed loads as no credentials.  [store_apart p q w]: saving to
    [p] does not concern the file [q]. *)
Class StoreLaws (W : Type) `{Store W} : Type := {
  store_ok : string → W → Prop;
  save_then_load c p w w' :
    store_ok p w → save_credentials c p w = (w', Ok tt) → load_credentials p w' = Ok (Some c);
  failed_save_keeps c p w w' e :
    store_ok p w → save_credentials c p w = (w', Err e) → load_credentials p w' = load_credentials p w;
  remove_then_load p w w' :
    remove_credentials p w = (w', Ok tt) → load_credentials p w' = Ok None;
  save_then_load_config c p w w' :
    store_ok p w → save_config c p w = (w', Ok tt) → load_config p w' = Ok c;
  failed_save_keeps_config c p w w' e :
    store_ok p w → save_config c p w = (w', Err e) → load_config p w' = load_config p w;
  store_apart : string → string → W → Prop;
  config_save_apart c p q w :
    store_apart p q w → load_credentials q (save_config c p w).1 = load_credentials q w;
  credentials_save_apart c p q w :
    store_apart p q w → load_config q (save_credentials c p w).1 = load_config q w;
}.

(** ** The implementation *)
Section files.
Context `{PersistSerde}.
Variable cut : list ascii → list (list ascii).
Hypothesis cut_concat : ∀ b, concat (cut b) = b.

(** A fault of a removal is one that is not "not found". *)
Definition removal_fault (w : Writer) : option io_error :=
  opt_filter (λ e, negb (bool_decide (io_error_kind e = NotFound))) (hd None (w_faults w)).
Definition remove_file (p : string) : M Writer PersistError unit := λ w,
  let '(fs, r) := creds_delete (w_fs w) p (removal_fault w) in
  ({| w_handle := w_handle w; w_fs := fs; w_faults := tl (w_faults w) |}, r).

Definition file_store : Store Writer := {|
  save_credentials := creds_save cut;
  load_credentials p w := creds_load (w_fs w) p None;
  remove_credentials := remove_file;
  save_config := config_save cut;
  load_config p w := load_or_default (w_fs w) p None;
|}.
#[local] Existing Instance file_store.

Lemma load_content fs fs' p : content fs p = content fs' p → creds_load fs p None = creds_load fs' p None.
Proof. intros Hc. unfold creds_load, fs_read. by rewrite Hc. Qed.

(** What writing a value leaves, whatever fails in it. *)
Definition save_json (json : result string (list ascii)) (p : string) : M Writer PersistError unit :=
  let! b := m_lift (map_err Serialize json) in atomic_write p (cut b).
Lemma save_outcome json p w :
  path_ok p (w_fs w) →
  let '(w', r) := save_json json p w in
  path_ok p (w_fs w') ∧
  match r with
  | Ok _ => ∃ b, json = Ok b ∧ content (w_fs w') p = Some b ∧
            ∀ x, survives (w_fs w') p x → x = Some b ∨ survives (w_fs w) p x
  | Err _ => content (w_fs w') p = content (w_fs w) p ∧
             ∀ x, survives (w_fs w') p x → survives (w_fs w) p x
  end.
Proof.
  intros Hok. unfold save_json, m_bind, m_lift.
  destruct json as [b|e]; cbn [map_err]; [|done].
  pose proof (safe_write_script (w_fs w) p (cut b) Hok w eq_refl) as Hs.
  unfold atomic_write. destruct (m_for _ _ w) as [w' [[]|e]].
  - destruct Hs as (Hp & Hc & Hx). rewrite cut_concat in Hc, Hx. eauto 10.
  - destruct Hs as (Hp & Hc & Hx). eauto.
Qed.
Lemma save_leaves_alone json p q w :
  apart p q (w_fs w) → content (w_fs (save_json json p w).1) q = content (w_fs w) q.
Proof.
  intros Ha. unfold save_json, m_bind, m_lift. destruct json as [b|e]; [|done].
  by apply (write_leaves_alone p q (w_fs w)).
Qed.

Lemma removed_content fs p fs' : creds_delete fs p None = (fs', Ok tt) → content fs' p = None.
Proof.
  unfold creds_delete, fs_remove, content. destruct (dir fs !! p) as [i|] eqn:Hd.
  - intros [= <-]. cbn. by rewrite lookup_delete_eq.
  - cbn. intros [= <-]. by rewrite Hd.
Qed.

Lemma failed_removal fs p e fs' :
  io_error_kind e ≠ NotFound → creds_delete fs p (Some e) ≠ (fs', Ok tt).
Proof. intros Hk. unfold creds_delete, fs_remove. by rewrite bool_decide_eq_false_2. Qed.

Lemma load_config_content fs fs' p :
  content fs p = content fs' p → load_or_default fs p None = load_or_default fs' p None.
Proof. intros Hc. unfold load_or_default, fs_read. by rewrite Hc. Qed.

Lemma removal_loads p w w' : remove_file p w = (w', Ok tt) → creds_load (w_fs w') p None = Ok None.
Proof.
  unfold remove_file. destruct (creds_delete _ _ _) as [fs r] eqn:Hd.
  intros [= <- ->]. unfold removal_fault in Hd. cbn [w_fs].
  destruct (hd None (w_faults w)) as [e|]; cbn [opt_filter] in Hd.
  - destruct (bool_decide (io_error_kind e = NotFound)) eqn:Hk; cbn [negb] in Hd.
    + apply removed_content in Hd. unfold creds_load, fs_read. by rewrite Hd.
    + apply bool_decide_eq_false in Hk. by apply failed_removal in Hd.
  - apply removed_content in Hd. unfold creds_load, fs_read. by rewrite Hd.
Qed.

#[local] Instance file_store_laws : StoreLaws Writer.
Proof.
  refine {| store_ok p w := path_ok p (w_fs w); store_apart p q w := apart p q (w_fs w) |}.
  - intros c p w w' Hok Hs. pose proof (save_outcome (creds_to_json c) p w Hok) as Ho.
    change (save_json (creds_to_json c) p w = (w', Ok tt)) in Hs. rewrite Hs in Ho.
    destruct Ho as (_ & b & Hb & Hc & _). cbn. unfold creds_load, fs_read. rewrite Hc. cbn.
    by rewrite (creds_json_roundtrip _ _ Hb).
  - intros c p w w' e Hok Hs. pose proof (save_outcome (creds_to_json c) p w Hok) as Ho.
    change (save_json (creds_to_json c) p w = (w', Err e)) in Hs. rewrite Hs in Ho.
    apply load_content, Ho.
  - intros p w w'. apply removal_loads.
  - intros c p w w' Hok Hs. pose proof (save_outcome (config_to_json c) p w Hok) as Ho.
    change (save_json (config_to_json c) p w = (w', Ok tt)) in Hs. rewrite Hs in Ho.
    destruct Ho as (_ & b & Hb & Hc & _). cbn. unfold load_or_default, fs_read. rewrite Hc. cbn.
    by rewrite (config_json_roundtrip _ _ Hb).
  - intros c p w w' e Hok Hs. pose proof (save_outcome (config_to_json c) p w Hok) as Ho.
    change (save_json (config_to_json c) p w = (w', Err e)) in Hs. rewrite Hs in Ho.
    apply load_config_content, Ho.
  - intros c p q w Ha. apply load_content. exact (save_leaves_alone (config_to_json c) p q w Ha).
  - intros c p q w Ha. apply load_config_content. exact (save_leaves_alone (creds_to_json c) p q w Ha).
Defined.

(** ** The specification: one value that survives

    The credentials file as the daemon may think of it: the credentials it
    holds, and those a power loss may leave. *)
Record Kept : Type := {
  kept : option PersistedCredentials;
  may_survive : list (option PersistedCredentials);
}.

(** What happens to the file: a save or a removal, with the faults it meets (a
    crash is a fault after which nothing follows), and a power loss that
    leaves the [k]-th version of the directory. *)
Inductive FileEvent : Type :=
  | ESave (c : PersistedCredentials) (faults : list (option io_error))
  | ERemove (fault : option io_error)
  | EPowerLoss (k : nat).

Definition power_loss (k : nat) (fs : Fs) : Fs := {|
  dir := default (dir fs) ((dir fs :: past_dirs fs) !! k); past_dirs := [];
  inodes := (λ n, {| volatile := durable n; durable := durable n; mode_bits := mode_bits n |}) <$> inodes fs;
  next_ino := next_ino fs |}.

(** The event on the file system; whether the operation reported success. *)
Definition happens (p : string) (ev : FileEvent) (fs : Fs) : Fs * bool :=
  match ev with
  | ESave c faults =>
      let '(w, r) := creds_save cut c p {| w_handle := None; w_fs := fs; w_faults := faults |} in
      (w_fs w, is_ok r)
  | ERemove fault =>
      let '(w, r) := remove_file p {| w_handle := None; w_fs := fs; w_faults := [fault] |} in
      (w_fs w, is_ok r)
  | EPowerLoss k => (power_loss k fs, true)
  end.

(** The event on the value. *)
Inductive allowed : FileEvent → bool → Kept → Kept → Prop :=
  | Saved c faults a :
      allowed (ESave c faults) true a {| kept := Some c; may_survive := Some c :: may_survive a |}
  | NotSaved c faults a : allowed (ESave c faults) false a a
  | Removed fault a : allowed (ERemove fault) true a {| kept := None; may_survive := None :: may_survive a |}
  | NotRemoved fault a : allowed (ERemove fault) false a a
  | PowerLost k c a : c ∈ may_survive a → allowed (EPowerLoss k) true a {| kept := c; may_survive := [c] |}.

Inductive allowed_all : list FileEvent → list bool → Kept → Kept → Prop :=
  | AllowedNil a : allowed_all [] [] a a
  | AllowedCons ev ok a a1 evs oks a2 :
      allowed ev ok a a1 → allowed_all evs oks a1 a2 → allowed_all (ev :: evs) (ok :: oks) a a2.
Fixpoint happen_all (p : string) (evs : list FileEvent) (fs : Fs) : Fs * list bool :=
  match evs with
  | [] => (fs, [])
  | ev :: evs' =>
      let '(fs1, ok) := happens p ev fs in
      let '(fs2, oks) := happen_all p evs' fs1 in (fs2, ok :: oks)
  end.

(** The bytes of a value of the file. *)
Definition written (o : option PersistedCredentials) (b : option (list ascii)) : Prop :=
  match o with Some c => ∃ l, creds_to_json c = Ok l ∧ b = Some l | None => b = None end.
Definition represents (p : string) (a : Kept) (fs : Fs) : Prop :=
  path_ok p fs ∧ written (kept a) (content fs p) ∧
  ∀ b, survives fs p b → ∃ c, c ∈ may_survive a ∧ written c b.

Lemma written_loads p a fs : written (kept a) (content fs p) → creds_load fs p None = Ok (kept a).
Proof.
  unfold creds_load, fs_read. destruct (kept a) as [c|]; cbn [written].
  - intros (l & Hl & ->). cbn. by rewrite (creds_json_roundtrip _ _ Hl).
  - by intros ->.
Qed.

Lemma save_represents p c faults a fs :
  represents p a fs →
  let '(fs', ok) := happens p (ESave c faults) fs in
  ∃ a', allowed (ESave c faults) ok a a' ∧ represents p a' fs'.
Proof.
  intros (Hok & Hw & Hs). cbn [happens].
  pose proof (save_outcome (creds_to_json c) p {| w_handle := None; w_fs := fs; w_faults := faults |} Hok) as Ho.
  change (creds_save cut c p) with (save_json (creds_to_json c) p).
  destruct (save_json (creds_to_json c) p _) as [w' [[]|e]]; cbn [w_fs is_ok] in *.
  - destruct Ho as (Hok' & l & Hl & Hc & Hx). eexists. split; [apply Saved|]. split; [done|].
    split; [rewrite Hc; by exists l|]. intros b [->|Hb]%Hx; cbn.
    + exists (Some c). split; [by left|by exists l].
    + destruct (Hs b Hb) as (c' & Hc' & Hw'). exists c'. split; [by right|done].
  - destruct Ho as (Hok' & Hc & Hx). eexists. split; [apply NotSaved|]. split; [done|].
    split; [by rewrite Hc|]. eauto.
Qed.

Lemma path_ok_delete p fs : path_ok p fs → path_ok p (set_dir (delete p (dir fs)) fs).
Proof.
  intros [Hne Hall]. split; [done|]. cbn. rewrite lookup_delete_ne by done.
  intros d Hd. apply elem_of_cons in Hd as [->|Hd]; [|by apply Hall].
  rewrite lookup_delete_eq, lookup_delete_ne by done. split; [done|]. apply Hall. by left.
Qed.

Lemma remove_represents p fault a fs :
  represents p a fs →
  let '(fs', ok) := happens p (ERemove fault) fs in
  ∃ a', allowed (ERemove fault) ok a a' ∧ represents p a' fs'.
Proof.
  intros (Hok & Hw & Hs). cbn [happens]. unfold remove_file, removal_fault. cbn [w_fs w_faults hd].
  assert (Hkeep : ∃ a', allowed (ERemove fault) false a a' ∧ represents p a' fs)
    by (exists a; split; [apply NotRemoved|done]).
  unfold creds_delete, fs_remove.
  destruct (opt_filter _ fault) as [e|] eqn:Hf.
  { destruct fault as [e'|]; [|done]. cbn in Hf. destruct (bool_decide _) eqn:Hk in Hf; [done|].
    injection Hf as <-. by rewrite Hk. }
  clear Hf. destruct (dir fs !! p) as [i|] eqn:Hd; cbn [is_ok w_fs].
  - eexists. split; [apply Removed|]. split; [by apply path_ok_delete|]. split.
    + unfold content. cbn. by rewrite lookup_delete_eq.
    + intros b (d & Hin & ->). cbn in Hin. apply elem_of_cons in Hin as [->|Hin]; cbn.
      * exists None. split; [by left|]. cbn. by rewrite lookup_delete_eq.
      * destruct (Hs (i ← d !! p; durable <$> inodes fs !! i)) as (c & Hc & Hwc); [by exists d|].
        exists c. split; [by right|done].
  - cbn. eexists. split; [apply Removed|]. split; [done|]. split.
    + unfold content. cbn. by rewrite Hd.
    + intros b Hb. destruct (Hs b Hb) as (c & Hc & Hwc). exists c. split; [by right|done].
Qed.

Lemma power_loss_represents p k a fs :
  represents p a fs → ∃ a', allowed (EPowerLoss k) true a a' ∧ represents p a' (power_loss k fs).
Proof.
  intros ([Hne Hall] & _ & Hs).
  set (d := default (dir fs) ((dir fs :: past_dirs fs) !! k)).
  assert (Hd : d ∈ dir fs :: past_dirs fs).
  { unfold d. destruct ((dir fs :: past_dirs fs) !! k) as [x|] eqn:Hk; cbn; [|by left].
    by eapply list_elem_of_lookup_2. }
  destruct (Hs (i ← d !! p; durable <$> inodes fs !! i)) as (c & Hc & Hw); [by exists d|].
  assert (Hread : ∀ f : Inode → list ascii, (∀ n, f {| volatile := durable n; durable := durable n;
      mode_bits := mode_bits n |} = durable n) →
    (i ← d !! p; f <$> inodes (power_loss k fs) !! i) = (i ← d !! p; durable <$> inodes fs !! i)).
  { intros f Hf. destruct (d !! p) as [i|]; [|done]. cbn. rewrite lookup_fmap.
    destruct (inodes fs !! i); cbn; [by rewrite Hf|done]. }
  exists {| kept := c; may_survive := [c] |}. split; [by apply PowerLost|]. split; [|split].
  - split; [done|]. cbn. fold d. intros x Hx. apply elem_of_cons in Hx as [->|Hx]; [|by apply elem_of_nil in Hx].
    destruct (Hall d Hd) as [Hp Ht]. split.
    + intros i Hi. destruct (Hp i Hi) as (Hlt & _ & Hne'). done.
    + intros i Hi. destruct (Ht i Hi) as [Hlt [n Hn]]. split; [done|]. by rewrite lookup_fmap, Hn.
  - unfold content. change (dir (power_loss k fs)) with d. by rewrite (Hread volatile).
  - intros b (x & Hx & ->). cbn [dir past_dirs power_loss] in Hx. fold d in Hx.
    apply elem_of_cons in Hx as [->|Hx]; [|by apply elem_of_nil in Hx].
    exists c. split; [by left|]. by rewrite (Hread durable).
Qed.

(** C23: The files refine their specification: whatever saves and removals are
    made, whatever fails in them, and whenever the power is lost, the file
    reads as credentials that were saved in full (or as none), never as part
    of them: a save that reports success is what is read, one that fails
    changes nothing, and a power loss leaves one of the values the file had
    since the last one. *)
Theorem files_refine_value p evs fs a :
  represents p a fs →
  let '(fs', oks) := happen_all p evs fs in
  ∃ a', allowed_all evs oks a a' ∧ represents p a' fs' ∧ creds_load fs' p None = Ok (kept a').
Proof.
  revert fs a. induction evs as [|ev evs IH]; intros fs a Hr; cbn [happen_all].
  { exists a. split; [constructor|]. split; [done|]. apply written_loads, Hr. }
  assert (Hstep : let '(fs1, ok) := happens p ev fs in ∃ a1, allowed ev ok a a1 ∧ represents p a1 fs1).
  { destruct ev as [c faults|fault|k];
      [by apply save_represents|by apply remove_represents|by apply power_loss_represents]. }
  destruct (happens p ev fs) as [fs1 ok]. destruct Hstep as (a1 & Hal & Hr1).
  specialize (IH fs1 a1 Hr1). destruct (happen_all p evs fs1) as [fs2 oks].
  destruct IH as (a2 & Hal2 & Hr2 & Hl). exists a2. split; [by econstructor|done].
Qed.

End files.
(** A serializer of credentials that differ in the time they were saved at. *)
Module Stamped.
#[global] Instance tenant_eq_dec : EqDecision TenantConfig. Proof. solve_decision. Defined.
#[global] Instance signing_eq_dec : EqDecision PersistedSigningConfig. Proof. solve_decision. Defined.
#[global] Instance totp_eq_dec : EqDecision PersistedTotpConfig. Proof. solve_decision. Defined.
#[global] Instance version_eq_dec : EqDecision Login.LoginApiVersion. Proof. solve_decision. Defined.
#[global] Instance creds_eq_dec : EqDecision PersistedCredentials. Proof. solve_decision. Defined.
Definition creds (saved_at : string) : PersistedCredentials := {|
  pc_tenant := {| tc_base_url := "https://t"; tc_backup_url := None; tc_use_backup := false; tc_name := "T" |};
  pc_signing := {| ps_enabled := false; ps_activation_code := "code"; ps_device_id := "id" |};
  pc_cookies := {["session" := "1"]}; pc_knock_token := None; pc_totp := None;
  pc_login_api_version := Login.Legacy; pc_last_vpn_request := None; pc_saved_at := saved_at |}.
#[global] Instance serde : PersistSerde.
Proof.
  refine {| config_to_json _ := Err "no"; config_of_json _ := Err "no";
            creds_to_json c := if decide (c = creds (pc_saved_at c)) then Ok (bytes_of (pc_saved_at c)) else Err "no";
            creds_of_json b := Ok (creds (of_bytes b)) |}.
  - intros c b [=].
  - intros c b. case_decide as Hc; [|done]. intros [= <-]. by rewrite of_bytes_of, <- Hc.
Defined.
(** A save, a save that fails when it syncs, a power loss, a save. *)
Definition history : list FileEvent :=
  [ESave (creds "monday") []; ESave (creds "tuesday") [None; None; None; Some (IoError PermissionDenied "full")];
   EPowerLoss 0; ESave (creds "friday") []].
End Stamped.

Lemma files_refine_value_witness :
  ∃ oks a', oks = [true; false; true; true] ∧
    allowed_all Stamped.history oks {| kept := None; may_survive := [None] |} a' ∧ kept a' = Some (Stamped.creds "friday").
Proof.
  assert (Hr : represents "credentials.json" {| kept := None; may_survive := [None] |} empty_fs).
  { split; [|split].
    - apply empty_path_ok. discriminate.
    - unfold content. cbn [dir empty_fs]. by rewrite lookup_empty.
    - intros b (d & Hd & ->). cbn [dir past_dirs empty_fs] in Hd.
      apply elem_of_cons in Hd as [->|Hd]; [|by apply elem_of_nil in Hd].
      exists None. split; [by left|]. by rewrite lookup_empty. }
  pose proof (files_refine_value (λ b, [b]) (λ b, app_nil_r b) "credentials.json" Stamped.history empty_fs
    {| kept := None; may_survive := [None] |} Hr) as Hf.
  assert (Hrun : let '(fs, oks) := happen_all (λ b, [b]) "credentials.json" Stamped.history empty_fs in
    oks = [true; false; true; true] ∧ creds_load fs "credentials.json" None = Ok (Some (Stamped.creds "friday")))
    by (vm_compute; split; reflexivity).
  destruct (happen_all _ _ _ _) as [fs oks]. destruct Hrun as [Hoks Hload]. destruct Hf as (a' & Hal & _ & Hl).
  exists oks, a'. split; [exact Hoks|]. split; [exact Hal|]. rewrite Hl in Hload. by injection Hload.
Defined.

End Store.
