(* ===== verification/Daemon.v ===== *)
(** * The daemon core ([daemon/src/daemon.rs], [daemon/src/latency.rs])

    The serialised inner state, the operations that connect, disconnect and
    persist, one connect attempt from configuration to teardown, and the
    reconnect loop around it.  A spawned task is a value in the state; what
    the rest of the daemon does while a task waits is the environment's. *)

From S2P Require Import Prelude RustStr Net Reconnect Models Signing Api Requests Login VpnState Negotiate Persist Faults.
From S2P Require Import AuthMachine Store Routes Interface Dialer DnsConfig DnsResolver Outbound TunDns Session Supervisor.
Import Models Signing Api Requests Login Negotiate Persist Faults AuthMachine Store.
Import Routes(IpNet, IpNetwork, RouteManager).
Import Session(TunnelConfig, TunnelSession, LocalTunnelParams, KeyCodec, UrlHost, IpNetAddr, TunDriver).
Import Supervisor(SupervisorOutcome, Trigger, OutcomeKickOut, OutcomeCancelled, Turn).

Module Daemon.

(** ** What the daemon uses of the system *)

(** Beside the files ([Store]): the text of the current time, free local ports, whether an HTTP
    pool bound to an interface can be built, and whether a blocking task
    completes. *)
Class Host (W : Type) : Type := {
  timestamp_text : W → string;
  port_free : W → Z → bool;
  pool_builds : option string → W → bool;
  blocking_ok : W → bool;
  totp_from_url : string → option (Z → string);
}.

(** ** The state *)

(** A spawned connect loop: its request and its cancellation token. *)
Record Task : Type := { task_request : VpnRequest; task_cancel : nat }.

(* @daemon/src/daemon.rs:42-62 DaemonInner *)
Record DaemonInner `{Urls, IpNet} : Type := {
  d_auth : AuthMachine;
  d_vpn : option (VpnMachine ApiClient TunnelSession);
  d_config : DaemonConfig;
  d_config_path : string;
  d_credential_path : string;
  d_broadcasts : list Tunnel;        (* sent on the watch channel, oldest first *)
  d_tunnel_task : option Task;
  d_active_outbound : option string;
  (* the tokens created so far, and those that are cancelled *)
  d_next_token : nat;
  d_cancelled : gset nat;
}.

Section daemon.
Context `{Urls} `{!UrlHost} `{IpNet} `{!IpNetAddr} `{Crypto, KeyCodec, Serde, ErrorText}.
Context `{DnsConfig.Unicode, DnsConfig.UrlParser, DnsConfig.WildMatch, DnsResolver.DnsCodec} `{!Outbound.DnsNames}.
Context {W : Type} `{!Http W} `{Random W} `{Dialer.Sockets W} `{DnsResolver.Udp W} `{Outbound.Os W}
        `{Outbound.IpRule W} `{RouteManager W} `{!TunDriver W} `{Store W} `{Host W}.
Abbreviation St := (DaemonInner * W)%type.
Abbreviation op A := (M (DaemonInner * W) DaemonError A).
Implicit Types d : DaemonInner.

(** *** Field updates *)

Definition set_auth (a : AuthMachine) d : DaemonInner := {|
  d_auth := a; d_vpn := d_vpn d; d_config := d_config d; d_config_path := d_config_path d;
  d_credential_path := d_credential_path d; d_broadcasts := d_broadcasts d;
  d_tunnel_task := d_tunnel_task d; d_active_outbound := d_active_outbound d;
  d_next_token := d_next_token d; d_cancelled := d_cancelled d |}.
(** [vpn = m], and [vpn_watch_tx.send(..)] when [sent]. *)
Definition set_vpn (m : VpnMachine ApiClient TunnelSession) (sent : bool) d : DaemonInner := {|
  d_auth := d_auth d; d_vpn := Some m; d_config := d_config d; d_config_path := d_config_path d;
  d_credential_path := d_credential_path d;
  d_broadcasts := if sent then d_broadcasts d ++ [to_tunnel_proto m] else d_broadcasts d;
  d_tunnel_task := d_tunnel_task d; d_active_outbound := d_active_outbound d;
  d_next_token := d_next_token d; d_cancelled := d_cancelled d |}.
Definition set_config_ (c : DaemonConfig) d : DaemonInner := {|
  d_auth := d_auth d; d_vpn := d_vpn d; d_config := c; d_config_path := d_config_path d;
  d_credential_path := d_credential_path d; d_broadcasts := d_broadcasts d;
  d_tunnel_task := d_tunnel_task d; d_active_outbound := d_active_outbound d;
  d_next_token := d_next_token d; d_cancelled := d_cancelled d |}.
Definition set_task (t : option Task) d : DaemonInner := {|
  d_auth := d_auth d; d_vpn := d_vpn d; d_config := d_config d; d_config_path := d_config_path d;
  d_credential_path := d_credential_path d; d_broadcasts := d_broadcasts d;
  d_tunnel_task := t; d_active_outbound := d_active_outbound d;
  d_next_token := d_next_token d; d_cancelled := d_cancelled d |}.
Definition set_active_outbound (o : option string) d : DaemonInner := {|
  d_auth := d_auth d; d_vpn := d_vpn d; d_config := d_config d; d_config_path := d_config_path d;
  d_credential_path := d_credential_path d; d_broadcasts := d_broadcasts d;
  d_tunnel_task := d_tunnel_task d; d_active_outbound := o;
  d_next_token := d_next_token d; d_cancelled := d_cancelled d |}.
Definition next_token d : DaemonInner := {|
  d_auth := d_auth d; d_vpn := d_vpn d; d_config := d_config d; d_config_path := d_config_path d;
  d_credential_path := d_credential_path d; d_broadcasts := d_broadcasts d;
  d_tunnel_task := d_tunnel_task d; d_active_outbound := d_active_outbound d;
  d_next_token := S (d_next_token d); d_cancelled := d_cancelled d |}.
Definition cancel (t : nat) d : DaemonInner := {|
  d_auth := d_auth d; d_vpn := d_vpn d; d_config := d_config d; d_config_path := d_config_path d;
  d_credential_path := d_credential_path d; d_broadcasts := d_broadcasts d;
  d_tunnel_task := d_tunnel_task d; d_active_outbound := d_active_outbound d;
  d_next_token := d_next_token d; d_cancelled := {[t]} ∪ d_cancelled d |}.
Definition is_cancelled (t : nat) (s : St) : bool := bool_decide (t ∈ d_cancelled s.1).

(** *** Access to the parts *)

Definition upd (f : DaemonInner → DaemonInner) : op unit := λ '(d, w), ((f d, w), Ok tt).
Definition inner : op DaemonInner := λ '(d, w), ((d, w), Ok d).
(** A call of the auth machine. *)
Definition on_auth {E A} (m : M (AuthMachine * W) E A) : M St E A :=
  λ '(d, w), let '((a, w1), r) := m (d_auth d, w) in ((set_auth a d, w1), r).
(** A call of an API client, on the shared jar. *)
Definition on_jar {E A} (m : M (CookieStore * W) E A) : M St E A := on_auth (through m).
Definition on_world {E A} (m : M W E A) : M St E A :=
  λ '(d, w), let '(w1, r) := m w in ((d, w1), r).

(** ** Building and persisting *)

(* @daemon/src/daemon.rs:82-138 Daemon::new *)
Definition daemon_new (dev : string) (c : DaemonConfig) (config_path credential_path : string)
    (credentials : option PersistedCredentials) (w : W) : DaemonInner :=
  let identity := to_client_identity dev c in
  let pool := if pool_builds (dc_outbound_interface c) w then dc_outbound_interface c else None in
  {| d_auth := match credentials with
               | Some creds => restore_from_credentials creds pool identity
               | None => auth_machine_fresh pool identity
               end;
     d_vpn := None; d_config := c; d_config_path := config_path; d_credential_path := credential_path;
     d_broadcasts := [tunnel_default]; d_tunnel_task := None; d_active_outbound := None;
     d_next_token := 0; d_cancelled := ∅ |}.

(** A failed save is only logged. *)
(* @daemon/src/daemon.rs:153-169 Daemon::persist_credentials *)
Definition persist_credentials : op unit := λ '(d, w),
  if negb (bool_decide (am_state (d_auth d) = Authenticated)) then ((d, w), Ok tt)
  else
    let vpn_request := d_vpn d ≫= current_persisted_request in
    match to_credentials_with_vpn (timestamp_text w) vpn_request (d_auth d) with
    | None => ((d, w), Ok tt)
    | Some creds => ((d, (save_credentials creds (d_credential_path d) w).1), Ok tt)
    end.

(* @daemon/src/daemon.rs:175-187 Daemon::install_cookie_persist_listener *)
Definition install_cookie_persist_listener : op unit :=
  upd (λ d, set_auth (set_cookies (set_listener (am_cookies (d_auth d))) (d_auth d)) d).

(* @daemon/src/daemon.rs:190-198 Daemon::delete_credentials *)
Definition delete_credentials : op unit :=
  λ '(d, w), ((d, (remove_credentials (d_credential_path d) w).1), Ok tt).

(* @daemon/src/daemon.rs:201-209 Daemon::persist_config *)
Definition persist_config : op unit :=
  λ '(d, w), ((d, (save_config (d_config d) (d_config_path d) w).1), Ok tt).

(* @daemon/src/daemon.rs:212-218 Daemon::require_configured *)
Definition require_configured : op unit :=
  let! d := inner in
  match am_state (d_auth d) with
  | Unconfigured => m_fail (Fault NotConfigured)
  | _ => m_ret tt
  end.

(* @daemon/src/daemon.rs:221-227 Daemon::require_authenticated *)
Definition require_authenticated : op unit :=
  let! d := inner in
  match am_state (d_auth d) with
  | Authenticated => m_ret tt
  | _ => m_fail (Fault NotAuthenticated)
  end.

(* @daemon/src/daemon.rs:235-239 Daemon::restore_auth_state *)
Definition restore_auth_state : op unit := upd (λ d, set_auth (restore_session (d_auth d)) d).

(** ** Transitions of the VPN machine *)

(* @daemon/src/daemon.rs:769-776 Daemon::vpn_transition *)
Definition vpn_transition (f : VpnMachine ApiClient TunnelSession → VpnMachine ApiClient TunnelSession) d :
    DaemonInner :=
  match d_vpn d with Some m => set_vpn (f m) true d | None => d end.

(* @daemon/src/daemon.rs:748-756 Daemon::mark_disconnected *)
Definition mark_disconnected d : DaemonInner := vpn_transition set_disconnected (set_active_outbound None d).

(* @daemon/src/daemon.rs:758-766 Daemon::mark_failed *)
Definition mark_failed (error : string) d : DaemonInner :=
  vpn_transition (set_failed error) (set_active_outbound None d).

(* @daemon/src/daemon.rs:275-321 Daemon::connect_tunnel *)
Definition connect_tunnel (request : VpnRequest) : op Tunnel :=
  let! d := inner in
  if negb (bool_decide (am_state (d_auth d) = Authenticated)) then m_fail (Fault NotAuthenticated)
  else
    do! match d_vpn d with
        | Some _ => m_ret tt
        | None =>
            let! c := m_lift (ok_or (build_tenant_client (d_auth d)) (Fault NotAuthenticated)) in
            upd (λ d, next_token (set_vpn (vpn_machine_new c (d_next_token d)) false d))
        end in
    let! d := inner in
    match d_vpn d with
    | None => m_fail (Fault NotAuthenticated)       (* not reached: the machine was just ensured *)
    | Some vpn =>
        if negb (vm_can_connect vpn) then
          m_fail (Fault (InvalidArgument "tunnel is already connecting or connected; disconnect first"))
        else
          let client := default (api_client vpn) (build_tenant_client (d_auth d)) in
          let vpn := {| state := state vpn; api_client := client; tunnel_session := tunnel_session vpn;
                        cancel_token := cancel_token vpn |} in
          let vpn := set_connecting request (d_next_token d) vpn in
          do! upd (λ d, next_token (set_vpn vpn true d)) in
          do! upd (set_task (Some {| task_request := request; task_cancel := cancel_token vpn |})) in
          m_ret (to_tunnel_proto vpn)
    end.

(** The machine is disconnecting, its token cancelled. *)
(* @daemon/src/daemon.rs:326-335 Daemon::disconnect_tunnel *)
Definition disconnect_begin d : DaemonInner :=
  match d_vpn d with
  | Some vpn => let vpn := set_disconnecting vpn in cancel (cancel_token vpn) (set_vpn vpn true d)
  | None => d
  end.
(** [wait] is the end of the task that is awaited, with what happened until
    then. *)
(* @daemon/src/daemon.rs:323-351 Daemon::disconnect_tunnel *)
Definition disconnect_tunnel (wait : Task → St → St) : op Tunnel := λ '(d, w),
  let d1 := disconnect_begin d in
  let '(d2, w2) := match d_tunnel_task d1 with
                   | Some task => wait task (set_task None d1, w)
                   | None => (d1, w)
                   end in
  let d3 := vpn_transition set_disconnected d2 in
  ((d3, w2), Ok (match d_vpn d3 with Some vpn => to_tunnel_proto vpn | None => tunnel_default end)).

(* @daemon/src/daemon.rs:357-400 Daemon::reconnect_if_outbound_changed *)
Definition reconnect_if_outbound_changed (wait : Task → St → St) : op unit := λ '(d, w),
  let outbound := dc_outbound_interface (d_config d) in
  if bool_decide (outbound = d_active_outbound d) then ((d, w), Ok tt)
  else
    let d1 := if pool_builds outbound w then set_auth (set_pool outbound (d_auth d)) d else d in
    match d_vpn d1 with
    | None => ((d1, w), Ok tt)
    | Some vpn =>
        match current_request (state vpn) with
        | None => ((d1, w), Ok tt)
        | Some request =>
            let d2 := cancel (cancel_token vpn) (set_task None d1) in
            let s3 := match d_tunnel_task d1 with Some task => wait task (d2, w) | None => (d2, w) end in
            let '(s4, _) := connect_tunnel request s3 in (s4, Ok tt)
        end
    end.

(* @daemon/src/daemon.rs:246-266 Daemon::maybe_auto_resume *)
Definition maybe_auto_resume : op unit := λ '(d, w),
  if negb (dc_auto_reconnect (d_config d)) then ((d, w), Ok tt)
  else
    match load_credentials (d_credential_path d) w with
    | Ok (Some creds) =>
        match pc_last_vpn_request creds with
        | Some persisted => let '(s, _) := connect_tunnel (resume_request persisted) (d, w) in (s, Ok tt)
        | None => ((d, w), Ok tt)
        end
    | _ => ((d, w), Ok tt)
    end.

(** ** One connect attempt *)

(* @daemon/src/latency.rs:20-33 probe_latency *)
Definition probe_latency (client : ApiClient) (timeout : duration) (s : CookieStore * W) :
    (CookieStore * W) * option duration :=
  let start := Session.instant_now s.2 in
  match vpn_ping client s with
  | (s1, Ok _) =>
      let elapsed := Z.max (Session.instant_now s1.2 - start) 0 in
      (s1, if timeout <? elapsed then None else Some elapsed)
  | (s1, Err _) => (s1, None)
  end.

(** The probes of the nodes that have a client, in the order of the list; see
    [rank_dots_sorted] for the order in which they finish. *)
Fixpoint probe_all (build : VpnDot → option ApiClient) (i : nat) (dots : list VpnDot)
    (s : CookieStore * W) : (CookieStore * W) * list (nat * option duration) :=
  match dots with
  | [] => (s, [])
  | dot :: dots' =>
      match build dot with
      | None => probe_all build (S i) dots' s
      | Some client =>
          let '(s1, rtt) := probe_latency client DEFAULT_PROBE_TIMEOUT s in
          let '(s2, rest) := probe_all build (S i) dots' s1 in (s2, (i, rtt) :: rest)
      end
  end.
Definition rank_by_probing (build : VpnDot → option ApiClient) (dots : list VpnDot)
    (s : CookieStore * W) : (CookieStore * W) * list VpnDot :=
  if (length dots <=? 1)%nat then (s, dots)
  else let '(s1, finished) := probe_all build 0 dots s in (s1, rank_dots_by_latency dots finished).

(* @daemon/src/daemon.rs:707-721 Daemon::compute_otp *)
Definition compute_otp (manual : option string) : op (option string) := λ '(d, w),
  ((d, w), Ok match manual with
              | Some code => Some code
              | None =>
                  config ← am_totp (d_auth d);
                  generate_totp totp_from_url
                    {| totp_url := pt_url config; time_diff_seconds := pt_time_diff_seconds config |}
                    (now_seconds w)
              end).

(* @daemon/src/daemon.rs:74-79 ReportParams *)
Record ReportParams : Type := { rp_assigned_ip : string; rp_pub_key : string; rp_mode : VpnConnectMode }.

(** A failed report is only logged. *)
(* @daemon/src/daemon.rs:687-703 Daemon::send_report *)
Definition send_report (client : ApiClient) (r : ReportParams) (t : VpnReportType) (s : St) : St * bool :=
  match on_jar (send (W:=W) de_value client
          (VpnReportRequest (report_wire t) (rp_assigned_ip r) (rp_pub_key r) (android_name (rp_mode r)))) s with
  | (s1, Ok response) => (s1, is_force_logout response)
  | (s1, Err _) => (s1, false)
  end.

(** The tenant's VPN domain, when it can be fetched and is not blank. *)
Definition fetch_vpn_domain (client : ApiClient) : op (option string) :=
  let! r := m_try (E:=ApiError) (on_jar (send (W:=W) de_vpn_setting client GetVpnSettingRequest)) in
  m_ret (response ← result_ok r; setting ← data response;
         opt_filter (λ domain, negb (str_is_empty (trim domain))) (vs_vpn_domain setting)).

(* @daemon/src/daemon.rs:1005-1010 vpn_route_mode *)
Definition vpn_route_mode (m : VpnConnectMode) : Routes.VpnRouteMode :=
  match m with Full => Routes.RouteFull | Split => Routes.RouteSplit end.

(** [Display] of a session's error. *)
Variable session_error_to_string : Session.SessionError → string.

(** Run the session's own operations on the world. *)
Definition on_session {A} (m : M (TunnelSession * W) Session.SessionError A) (x : TunnelSession) (s : St) :
    St * (TunnelSession * result Session.SessionError A) :=
  let '((x1, w1), r) := m (x, s.2) in ((s.1, w1), (x1, r)).

(* @daemon/src/daemon.rs:572-642 Daemon::start_session *)
Definition start_session (c : VpnConfigResult) (conn : VpnConnResponse) (p : LocalTunnelParams)
    (request : VpnRequest) (transport : ProtocolMode) : op TunnelSession :=
  do! upd (λ d, set_active_outbound (dc_outbound_interface (d_config d)) d) in
  let! d := inner in
  let cfg := d_config d in
  let! tunnel := m_lift (map_err (λ e, Internal (TunnelError ("failed to build tunnel config: "
                                                            +:+ session_error_to_string e)))
      (Session.from_vpn_conn conn p (wireguard_endpoint (res_endpoint c)) transport
         (vpn_route_mode (mode request)))) in
  let tunnel := Session.with_local_settings {|
      Session.ls_outbound := dc_outbound_interface cfg;
      Session.ls_port := default 0 (dc_dns_listen_port cfg ≫= u16_try_from);
      Session.ls_host := dc_dns_listen_host cfg; Session.ls_fallback := dc_fallback_dns cfg;
      Session.ls_route_system_dns := default true (dc_route_system_dns cfg);
      Session.ls_tun := dc_tun_interface cfg |} tunnel in
  λ s, match on_session Session.start (Session.session_new tunnel) s with
       | (s1, (session, Ok _)) => (s1, Ok session)
       | (s1, (_, Err e)) =>
           (s1, Err (Internal (TunnelError ("failed to start tunnel: " +:+ session_error_to_string e))))
       end.

(* @daemon/src/daemon.rs:637-651 Daemon::mark_connected *)
Definition mark_connected (c : VpnConfigResult) (ip : string) (transport : ProtocolMode) : op unit :=
  let dot := res_dot c in
  do! upd (vpn_transition (set_connected {|
        Core.dot_id := default 0 (Models.dot_id dot); Core.dot_name := default "" (Models.dot_name dot);
        endpoint := url_to_string (wireguard_endpoint (res_endpoint c)); assigned_ip := ip;
        active_protocol_mode := transport |})) in
  persist_credentials.

(** [next_turn] is what the environment lets the supervisor see next,
    [turns] how many turns are looked at. *)
Variable next_turn : nat → St → St * Turn.

(* @daemon/src/daemon.rs:657-679 Daemon::supervise *)
Definition supervise (session : TunnelSession) (client : ApiClient) (r : ReportParams) (token : nat)
    (turns : nat) (s : St) : St * option SupervisorOutcome :=
  Supervisor.run snd (next_turn token) (send_report client r ReportConnected) blocking_ok
    session (dc_outbound_interface (d_config s.1)) turns s.

(** [None]: the supervisor is still running after [turns] turns. *)
(* @daemon/src/daemon.rs:446-569 Daemon::connect_once *)
Definition connect_once (request : VpnRequest) (token : nat) (turns : nat) :
    op (option SupervisorOutcome) :=
  do! upd (vpn_transition set_configuring) in
  let! d := inner in
  let! client := m_lift (ok_or (build_tenant_client (d_auth d)) (Fault NotAuthenticated)) in
  let! vpn_domain := fetch_vpn_domain client in
  let! local := λ '(d, w), let '(w1, secret) := random_32 w in
                           ((d, w1), Ok (Session.from_secret (port_free w1) secret)) in
  let! code := compute_otp (otp request) in
  let! d := inner in
  let hooks := build_hooks (d_auth d) in
  let outbound := dc_outbound_interface (d_config d) in
  let! pool_ok := λ '(d, w), ((d, w), Ok (pool_builds outbound w)) in
  let builders := dot_client_builders pool_ok hooks vpn_domain outbound in
  let! result := m_map_err from_vpn (on_jar (vpn_config_from_dot_list (W:=W)
      (λ endpoint, (builders.1 endpoint).1)
      (rank_by_probing (λ dot, fst <$> builders.2 dot)) client
      {| cr_mode := mode request; cr_public_key := Session.lp_public_key local;
         cr_location_id := location_id request; cr_otp := code; cr_sign_token := None;
         cr_not_auto := true; cr_reconnect := reconnect request |})) in
  let! conn := m_lift (ok_or (data (res_response result))
                             (Internal (TunnelError "/vpn/conn returned no data"))) in
  let transport := effective_transport (dot_protocol_mode (res_dot result)) (protocol_mode request) in
  let! session := start_session result conn local request transport in
  do! mark_connected result (conn_ip conn) transport in
  let! d := inner in
  let! pool_ok := λ '(d, w), ((d, w), Ok (pool_builds (dc_outbound_interface (d_config d)) w)) in
  let report_client := (build_dot_api_client pool_ok (res_endpoint result) (build_hooks (d_auth d)) vpn_domain
                          (dc_outbound_interface (d_config d))).1 in
  let r := {| rp_assigned_ip := conn_ip conn; rp_pub_key := Session.lp_public_key local;
              rp_mode := mode request |} in
  λ s,
    let '(s1, _) := send_report report_client r ReportConnected s in
    match supervise session report_client r token turns s1 with
    | (s2, None) => (s2, Ok None)
    | (s2, Some outcome) =>
        let '(s3, _) := on_session Session.stop session s2 in
        let '(s4, _) := send_report report_client r ReportDisconnected s3 in
        (s4, Ok (Some outcome))
    end.

End daemon.

(** ** The reconnect loop *)

Section connect_loop.
Context `{Urls} `{IpNet} `{ErrorText} {W : Type}.
Abbreviation St := (DaemonInner * W)%type.

(** One attempt ([connect_once]; [None] is an attempt still supervised when it
    ran out of turns), and sleeping until a time has passed or the token is
    cancelled ([false]). *)
Variable attempt : St → St * result DaemonError (option SupervisorOutcome).
Variable sleep_unless_cancelled : duration → St → St * bool.

(* @daemon/src/daemon.rs:725-746 Daemon::handle_decision *)
Definition handle_decision (decision : Reconnect.ReconnectDecision) (s : St) : St * bool :=
  let on_inner f (s : St) : St := (f s.1, s.2) in
  match decision with
  | Reconnect.Retry after _ | Reconnect.SwitchNode after _ =>
      match sleep_unless_cancelled after (on_inner (vpn_transition set_reconnecting) s) with
      | (s1, true) => (s1, true)
      | (s1, false) => (on_inner mark_disconnected s1, false)
      end
  | Reconnect.Stop => (on_inner (mark_failed "maximum reconnect attempts exceeded") s, false)
  end.

(** One turn of the loop: it comes to its head again, is inside an attempt, or
    has returned. *)
Inductive LoopState : Type :=
  | LoopHead (c : Reconnect.ReconnectController) (s : St)
  | LoopInside (s : St)
  | LoopEnded (s : St).
Definition record_and_decide (c : Reconnect.ReconnectController) (event : Reconnect.ReconnectEvent)
    (s : St) : LoopState :=
  let '(c1, decision) := Reconnect.record c event in
  match handle_decision decision s with
  | (s1, true) => LoopHead c1 s1
  | (s1, false) => LoopEnded s1
  end.
(* @daemon/src/daemon.rs:402-442 Daemon::run_connect_loop *)
Definition loop_turn (token : nat) (c : Reconnect.ReconnectController) (s : St) : LoopState :=
  match attempt s with
  | (s1, Ok None) => LoopInside s1
  | (s1, Ok (Some OutcomeCancelled)) => LoopEnded (mark_disconnected s1.1, s1.2)
  | (s1, Ok (Some (OutcomeKickOut was_healthy))) =>
      record_and_decide (if was_healthy then Reconnect.reset c else c) Reconnect.ServerKickOut s1
  | (s1, Ok (Some (Trigger event was_healthy))) =>
      record_and_decide (if was_healthy then Reconnect.reset c else c) event s1
  | (s1, Err error) =>
      let s2 := (mark_failed (daemon_error_to_string error) s1.1, s1.2) in
      if is_cancelled token s2 then LoopEnded s2 else record_and_decide c Reconnect.TransportFailed s2
  end.
(** [None]: still running after [fuel] attempts, or in one of them. *)
(* @daemon/src/daemon.rs:402-442 Daemon::run_connect_loop *)
Fixpoint connect_loop (token : nat) (fuel : nat) (c : Reconnect.ReconnectController) (s : St) : option St :=
  match fuel with
  | O => None
  | S fuel' =>
      match loop_turn token c s with
      | LoopHead c1 s1 => connect_loop token fuel' c1 s1
      | LoopInside _ => None
      | LoopEnded s1 => Some s1
      end
  end.
(* @daemon/src/daemon.rs:402-442 Daemon::run_connect_loop *)
Definition run_connect_loop (token fuel : nat) (s : St) : option St :=
  connect_loop token fuel (Reconnect.new Reconnect.android_compatible_default) s.

End connect_loop.

(** ** The reconnect loop, proved *)

Section loop_facts.
Context `{Urls} `{IpNet} `{ErrorText} {W : Type}.
Abbreviation St := (DaemonInner * W)%type.
Variable attempt : St → St * result DaemonError (option SupervisorOutcome).
Variable sleep : duration → St → St * bool.
Variable token : nat.
Abbreviation loop := (connect_loop attempt sleep token).
Implicit Types s : St.

(** Where a loop may leave the machine. *)
Definition at_rest (d : DaemonInner) : Prop :=
  d_active_outbound d = None ∧
  match d_vpn d with Some vpn => can_connect (state vpn) = true | None => True end.

Lemma mark_disconnected_at_rest d : at_rest (mark_disconnected d).
Proof.
  unfold at_rest, mark_disconnected, vpn_transition. cbn.
  destruct (d_vpn d) eqn:Hv; cbn; rewrite ?Hv; by split.
Qed.
Lemma mark_failed_at_rest e d : at_rest (mark_failed e d).
Proof.
  unfold at_rest, mark_failed, vpn_transition. cbn.
  destruct (d_vpn d) eqn:Hv; cbn; rewrite ?Hv; by split.
Qed.

Lemma handle_decision_rest decision s s1 :
  handle_decision sleep decision s = (s1, false) → at_rest s1.1.
Proof.
  unfold handle_decision.
  destruct decision as [a n|a n|]; [| |intros [= <-]; apply mark_failed_at_rest];
    destruct (sleep _ _) as [s2 []]; try done; intros [= <-]; apply mark_disconnected_at_rest.
Qed.

Lemma loop_turn_rest c s s1 : loop_turn attempt sleep token c s = LoopEnded s1 → at_rest s1.1.
Proof.
  assert (Hgo : ∀ c ev s0, record_and_decide sleep c ev s0 = LoopEnded s1 → at_rest s1.1).
  { intros c0 ev s0. unfold record_and_decide. destruct (Reconnect.record c0 ev) as [c1 decision].
    destruct (handle_decision sleep decision s0) as [s2 []] eqn:Hd; [done|].
    intros [= <-]. by eapply handle_decision_rest. }
  unfold loop_turn. destruct (attempt s) as [s2 [[[ev h|h|]|]|e]]; [apply Hgo|apply Hgo| |done|].
  - intros [= <-]. apply mark_disconnected_at_rest.
  - destruct (is_cancelled _ _); [intros [= <-]; apply mark_failed_at_rest|apply Hgo].
Qed.

(** The reconnect loop never ends in the middle: whatever the attempts did
    and whenever it was cancelled, when it returns the machine is disconnected
    or failed, so that a new connect is accepted, and no outbound interface is
    recorded as active. *)
Theorem loop_ends_at_rest fuel c s s' :
  loop fuel c s = Some s' → at_rest s'.1.
Proof.
  revert c s. induction fuel as [|fuel IH]; intros c s; cbn [connect_loop]; [done|].
  destruct (loop_turn attempt sleep token c s) as [c1 s1|s1|s1] eqn:Ht; [apply IH|done|].
  intros [= <-]. by apply loop_turn_rest in Ht.
Qed.

Lemma cancelled_transition f s :
  is_cancelled token s = true → is_cancelled token (vpn_transition f s.1, s.2) = true.
Proof. unfold is_cancelled, vpn_transition. cbn. by destruct (d_vpn s.1). Qed.

(** C24: Cancelling ends the loop: when the token is cancelled by the time an
    attempt is over, however it ended, the loop makes no other attempt: it
    returns with the machine disconnected or failed, without waiting, as a
    sleep on a cancelled token does. *)
Theorem cancelled_loop_ends fuel c s :
  (∀ after s, is_cancelled token s = true → (sleep after s).2 = false) →
  is_cancelled token (attempt s).1 = true → (attempt s).2 ≠ Ok None →
  ∃ s', loop (S fuel) c s = Some s' ∧ at_rest s'.1.
Proof.
  intros Hsleep Hc Hr.
  assert (Hend : ∃ s', loop_turn attempt sleep token c s = LoopEnded s').
  { assert (Hgo : ∀ c ev s, is_cancelled token s = true → ∃ s', record_and_decide sleep c ev s = LoopEnded s').
    { intros c0 ev s0 Hc0. unfold record_and_decide. destruct (Reconnect.record c0 ev) as [c1 decision].
      unfold handle_decision. destruct decision as [a n|a n|]; [| |by eauto];
        pose proof (Hsleep a _ (cancelled_transition set_reconnecting s0 Hc0)) as Hs;
        destruct (sleep _ _) as [s1 b]; cbn in Hs; subst; eauto. }
    unfold loop_turn. destruct (attempt s) as [s1 [[[ev h|h|]|]|e]]; [by apply Hgo|by apply Hgo|by eauto|done|].
    pose proof (cancelled_transition (set_failed (daemon_error_to_string e)) (set_active_outbound None s1.1, s1.2) Hc)
      as Hf. unfold mark_failed. cbn [fst snd] in Hf. rewrite Hf. eauto. }
  destruct Hend as [s' Hend]. exists s'. cbn [connect_loop]. rewrite Hend.
  split; [done|]. by eapply loop_turn_rest.
Qed.

(** The loop of a task that nobody cancels. *)
Definition live s : Prop := token ∉ d_cancelled s.1 ∧ is_some (d_vpn s.1) = true.
Hypothesis sleep_live : ∀ d s, live s → live (sleep d s).1 ∧ (sleep d s).2 = true.

Lemma transition_live f s : live s → live (vpn_transition f s.1, s.2).
Proof. unfold live, vpn_transition. cbn. destruct (d_vpn s.1) eqn:Hv; cbn; rewrite ?Hv; tauto. Qed.
Lemma mark_failed_live e s : live s → live (mark_failed e s.1, s.2).
Proof. unfold live, mark_failed, vpn_transition. cbn. destruct (d_vpn s.1) eqn:Hv; cbn; rewrite ?Hv; tauto. Qed.

Definition gave_up (s : St) : Prop :=
  ∃ vpn r a, d_vpn s.1 = Some vpn ∧ state vpn = Failed r "maximum reconnect attempts exceeded" a ∧
             d_active_outbound s.1 = None.

Lemma stop_gives_up s :
  live s → ∃ s', handle_decision sleep Reconnect.Stop s = (s', false) ∧ gave_up s'.
Proof.
  intros [_ Hv]. eexists. split; [reflexivity|]. unfold gave_up, mark_failed, vpn_transition. cbn.
  destruct (d_vpn s.1) as [vpn|] eqn:Hv'; [|done]. cbn. eauto 10.
Qed.

Lemma decision_live decision s :
  live s → decision ≠ Reconnect.Stop →
  ∃ s', handle_decision sleep decision s = (s', true) ∧ live s'.
Proof.
  intros Hl Hd. unfold handle_decision.
  destruct decision as [a n|a n|]; [| |done];
    destruct (sleep_live a (vpn_transition set_reconnecting s.1, s.2)) as [Hs Hb];
    try (by apply transition_live); destruct (sleep _ _) as [s2 b]; cbn in *; subst; eauto.
Qed.

Lemma record_default_stop n ev :
  0 ≤ n ≤ 8 →
  let '(c, decision) := Reconnect.record {| Reconnect.policy := Reconnect.android_compatible_default;
                                            Reconnect.attempts := n |} ev in
  c = {| Reconnect.policy := Reconnect.android_compatible_default; Reconnect.attempts := n + 1 |} ∧
  (decision = Reconnect.Stop ↔ n = 8).
Proof.
  intros Hn. unfold Reconnect.record. cbn [Reconnect.policy Reconnect.attempts].
  assert (u32_saturating_add n 1 = n + 1) as -> by (unfold u32_saturating_add, u32_max; lia).
  destruct (Z.ltb_spec (Reconnect.max_attempts Reconnect.android_compatible_default) (n + 1)) as [Hl|Hl];
    cbn in Hl; [split; [done|]; split; [lia|done]|].
  destruct (_ || _)%bool; (split; [done|]; split; [done|lia]).
Qed.

(** What an attempt of a tunnel that never works answers. *)
Definition never_healthy (r : result DaemonError (option SupervisorOutcome)) : Prop :=
  match r with
  | Ok None | Ok (Some OutcomeCancelled) => False
  | Ok (Some (OutcomeKickOut h)) | Ok (Some (Trigger _ h)) => h = false
  | Err _ => True
  end.

Lemma unhealthy_turn s :
  live s → live (attempt s).1 → never_healthy (attempt s).2 →
  ∃ s2 ev, live s2 ∧ ∀ c, loop_turn attempt sleep token c s = record_and_decide sleep c ev s2.
Proof.
  intros Hs Hl Hn. unfold loop_turn. destruct (attempt s) as [s1 r]. cbn [fst snd] in Hl, Hn.
  destruct r as [[[ev h|h|]|]|e]; cbn in Hn; try done; subst; [by eauto..|].
  apply (mark_failed_live (daemon_error_to_string e)) in Hl.
  assert (is_cancelled token (mark_failed (daemon_error_to_string e) s1.1, s1.2) = false) as ->
    by (apply bool_decide_eq_false_2; apply Hl). eauto.
Qed.

(** C25: The loop gives up: when every attempt fails or loses its tunnel before
    one probe is answered, and nobody cancels, it ends after exactly nine
    attempts, with the machine failed for "maximum reconnect attempts
    exceeded"; eight attempts are never enough and more fuel changes
    nothing. *)
Theorem gives_up_after_nine s :
  (∀ s, live s → live (attempt s).1 ∧ never_healthy (attempt s).2) → live s →
  ∃ s', gave_up s' ∧
    ∀ fuel, run_connect_loop attempt sleep token fuel s = if (fuel <? 9)%nat then None else Some s'.
Proof.
  intros Hatt Hs. unfold run_connect_loop.
  change (Reconnect.new Reconnect.android_compatible_default) with
    {| Reconnect.policy := Reconnect.android_compatible_default; Reconnect.attempts := Z.of_nat (9 - 9) |}.
  assert (Hgen : ∀ k s, (k < 9)%nat → live s → ∃ s', gave_up s' ∧ ∀ fuel,
    loop fuel {| Reconnect.policy := Reconnect.android_compatible_default;
                 Reconnect.attempts := Z.of_nat (9 - S k) |} s = if (fuel <? S k)%nat then None else Some s').
  { clear s Hs. intros k. induction k as [|k IH]; intros s Hk Hs.
    all: destruct (Hatt s Hs) as [Hl1 Hn1]; destruct (unhealthy_turn s Hs Hl1 Hn1) as (s2 & ev & Hl2 & Heq).
    - destruct (stop_gives_up s2 Hl2) as (s3 & Hd & Hg). exists s3. split; [done|].
      intros [|fuel]; [done|]. cbn [connect_loop]. rewrite Heq. unfold record_and_decide.
      change (Z.of_nat (9 - 1)) with 8.
      pose proof (record_default_stop 8 ev ltac:(lia)) as Hr.
      destruct (Reconnect.record _ ev) as [c1 decision]. destruct Hr as [_ Hr].
      rewrite (proj2 Hr eq_refl), Hd. done.
    - pose proof (record_default_stop (Z.of_nat (9 - S (S k))) ev ltac:(lia)) as Hr.
      destruct (Reconnect.record _ ev) as [c1 decision] eqn:Hrec. destruct Hr as [Hc Hr].
      destruct (decision_live decision s2 Hl2) as (s3 & Hd & Hl3); [intros Hst; apply Hr in Hst; lia|].
      destruct (IH s3 ltac:(lia) Hl3) as (s' & Hg & Hf). exists s'. split; [done|].
      intros [|fuel]; [done|]. cbn [connect_loop]. rewrite Heq. unfold record_and_decide. rewrite Hrec, Hd, Hc.
      replace (Z.of_nat (9 - S (S k)) + 1) with (Z.of_nat (9 - S k)) by lia. by rewrite Hf. }
  apply (Hgen 8%nat s ltac:(lia) Hs).
Qed.

(** A tunnel that worked is always brought back: when every attempt had a
    probe answered before it was lost, however often it is lost, the loop
    never gives up. *)
Theorem healthy_never_gives_up fuel s :
  (∀ s, live s → live (attempt s).1 ∧ ∃ ev, (attempt s).2 = Ok (Some (Trigger ev true))) → live s →
  run_connect_loop attempt sleep token fuel s = None.
Proof.
  intros Hatt Hs. unfold run_connect_loop.
  assert (Hgen : ∀ c, Reconnect.policy c = Reconnect.android_compatible_default → loop fuel c s = None).
  2:{ by apply Hgen. }
  revert s Hs. induction fuel as [|fuel IH]; intros s Hs c Hc; [done|].
  cbn [connect_loop]. unfold loop_turn.
  destruct (Hatt s Hs) as [Hl (ev & Hr)]. destruct (attempt s) as [s1 r]. cbn in Hl, Hr. subst r.
  pose proof (record_default_stop 0 ev ltac:(lia)) as Hrec. unfold record_and_decide, Reconnect.reset. rewrite Hc.
  destruct (Reconnect.record _ ev) as [c1 decision]. destruct Hrec as [-> Hst].
  destruct (decision_live decision s1 Hl) as (s2 & -> & Hl2); [intros Hd; apply Hst in Hd; lia|].
  by apply IH.
Qed.

End loop_facts.

(** ** Connecting and disconnecting, proved *)

Section connect_facts.
Context `{Urls} `{IpNet} `{Crypto, ErrorText} {W : Type} `{Store W} `{Host W}.
Abbreviation St := (DaemonInner * W)%type.
Implicit Types d : DaemonInner.

(** The tokens in use are below the next one. *)
Definition tokens_ok d : Prop :=
  (∀ t, t ∈ d_cancelled d → (t < d_next_token d)%nat) ∧
  (∀ vpn, d_vpn d = Some vpn → (cancel_token vpn < d_next_token d)%nat).

(** A connect that is accepted. *)
Definition connecting (request : VpnRequest) d d' : Prop :=
  ∃ vpn, d_vpn d' = Some vpn ∧ state vpn = Connecting request ∧
    (∀ c, build_tenant_client (d_auth d) = Some c → api_client vpn = c) ∧
    d_tunnel_task d' = Some {| task_request := request; task_cancel := cancel_token vpn |} ∧
    (d_next_token d ≤ cancel_token vpn)%nat ∧ cancel_token vpn ∉ d_cancelled d' ∧
    d_broadcasts d' = d_broadcasts d ++ [to_tunnel_proto vpn] ∧
    d_auth d' = d_auth d ∧ d_config d' = d_config d ∧ d_cancelled d' = d_cancelled d ∧ tokens_ok d'.

Definition idle d : bool := match d_vpn d with Some vpn => vm_can_connect vpn | None => true end.

Lemma connect_tunnel_accepted request d (w : W) :
  tokens_ok d → am_state (d_auth d) = Authenticated → idle d = true →
  (d_vpn d = None → is_some (build_tenant_client (d_auth d)) = true) →
  ∃ d' t, connect_tunnel request (d, w) = ((d', w), Ok t) ∧ connecting request d d' ∧
          t_state t = StateConnecting.
Proof.
  intros [Hc Hv] Ha Hi Hb. unfold connect_tunnel, inner, upd, m_bind, m_lift, m_ret.
  rewrite bool_decide_eq_true_2 by done. cbn [negb].
  assert (Hfresh : ∀ n, (d_next_token d ≤ n)%nat → n ∉ d_cancelled d).
  { intros n Hn Hin. apply Hc in Hin. lia. }
  destruct (d_vpn d) as [vpn|] eqn:Hvpn.
  - unfold idle in Hi. rewrite Hvpn in Hi. rewrite Hvpn, Hi. cbn [negb].
    do 2 eexists. split; [reflexivity|]. split; [|done].
    eexists. split; [reflexivity|]. cbn. split; [done|]. split; [by intros c ->|].
    split; [done|]. split; [lia|]. split; [by apply Hfresh|]. do 4 (split; [done|]).
    split; cbn; [intros t Ht; apply Hc in Ht; lia|intros v [= <-]; cbn; lia].
  - destruct (build_tenant_client (d_auth d)) as [c|] eqn:Hbc; [|by specialize (Hb eq_refl)].
    cbn. rewrite Hbc. do 2 eexists. split; [reflexivity|]. split; [|done].
    eexists. split; [reflexivity|]. cbn. split; [done|]. split; [intros c' Hc'; cbn; congruence|].
    split; [done|]. split; [lia|]. split; [apply Hfresh; lia|]. do 4 (split; [done|]).
    split; cbn; [intros t Ht; apply Hc in Ht; lia|intros v [= <-]; cbn; lia].
Qed.

(** A connect, case by case. *)
Lemma connect_tunnel_cases request d (w : W) :
  tokens_ok d →
  let '((d', w'), r) := connect_tunnel request (d, w) in
  w' = w ∧
  match r with
  | Ok t => am_state (d_auth d) = Authenticated ∧ idle d = true ∧ connecting request d d' ∧
            t_state t = StateConnecting ∧ idle d' = false
  | Err e =>
      d_tunnel_task d' = d_tunnel_task d ∧ d_broadcasts d' = d_broadcasts d ∧ d_vpn d' = d_vpn d ∧
      (am_state (d_auth d) ≠ Authenticated ∧ e = Fault NotAuthenticated ∨
       d_vpn d = None ∧ build_tenant_client (d_auth d) = None ∧ e = Fault NotAuthenticated ∨
       idle d = false ∧ ∃ m, e = Fault (InvalidArgument m))
  end.
Proof.
  intros Htok. destruct (decide (am_state (d_auth d) = Authenticated)) as [Ha|Ha].
  2:{ unfold connect_tunnel, inner, m_bind, m_fail. rewrite bool_decide_eq_false_2 by done. cbn. tauto. }
  destruct (idle d) eqn:Hi.
  - destruct (d_vpn d) as [vpn|] eqn:Hv; [|destruct (build_tenant_client (d_auth d)) as [c|] eqn:Hb].
    3:{ unfold connect_tunnel, inner, m_bind, m_fail, m_lift. rewrite bool_decide_eq_true_2 by done.
        cbn [negb]. rewrite Hv. rewrite Hb. cbn. tauto. }
    all: destruct (connect_tunnel_accepted request d w Htok Ha Hi) as (d' & t & -> & Hc & Ht);
      [by rewrite ?Hv, ?Hb|]; split; [done|]; do 2 (split; [done|]); split; [done|]; split; [done|];
      destruct Hc as (vpn' & Hv' & Hst & _); unfold idle; rewrite Hv'; unfold vm_can_connect; by rewrite Hst.
  - unfold connect_tunnel, inner, upd, m_bind, m_fail, m_ret. rewrite bool_decide_eq_true_2 by done.
    cbn [negb]. unfold idle in Hi. destruct (d_vpn d) as [vpn|] eqn:Hv; [|done].
    rewrite Hv, Hi. cbn. rewrite Hv. do 4 (split; [done|]). right. right. split; [done|]. eauto.
Qed.

(** The machine shows no tunnel that could still be up or coming up. *)
Definition between_tunnels d : Prop :=
  ∀ vpn, d_vpn d = Some vpn → state vpn = Disconnected ∨ ∃ r e n, state vpn = Failed r e n.
Lemma idle_between d : if idle d then between_tunnels d else ¬ between_tunnels d.
Proof.
  unfold idle, between_tunnels, vm_can_connect. destruct (d_vpn d) as [vpn|]; [|done].
  destruct (state vpn) eqn:Hs; cbn;
    [intros v [= <-]; by left| | | | |intros v [= <-]; right; eauto|];
    intros Hn; destruct (Hn vpn eq_refl) as [Hd|(r & e & n & Hd)]; congruence.
Qed.
Lemma connect_needs_client request d (w : W) t :
  d_vpn d = None → (connect_tunnel request (d, w)).2 = Ok t → is_some (build_tenant_client (d_auth d)) = true.
Proof.
  intros Hv. unfold connect_tunnel, inner, m_bind, m_fail, m_lift. destruct (bool_decide _); cbn [negb]; [|done].
  rewrite Hv. by destruct (build_tenant_client (d_auth d)).
Qed.

(** C38: Connecting, on every branch.  A connect is accepted exactly when the
    session is authenticated, the machine is disconnected, failed or not there
    yet, and, when it is not there yet, the tenant has a usable address: it is
    announced as connecting, has one task with the given request and a token of
    its own that nobody has cancelled, and keeps the next connect out.  A
    refusal says which of these is missing, in this order, and touches neither
    the machine nor the task nor what the watchers see. *)
Theorem connect_tunnel_outcome request d (w : W) :
  tokens_ok d →
  let '((d', w'), r) := connect_tunnel request (d, w) in
  w' = w ∧
  match r with
  | Ok t =>
      am_state (d_auth d) = Authenticated ∧ between_tunnels d ∧
      (d_vpn d = None → is_some (build_tenant_client (d_auth d)) = true) ∧
      connecting request d d' ∧ t_state t = StateConnecting ∧ ¬ between_tunnels d'
  | Err e =>
      d_tunnel_task d' = d_tunnel_task d ∧ d_broadcasts d' = d_broadcasts d ∧ d_vpn d' = d_vpn d ∧
      (am_state (d_auth d) ≠ Authenticated ∧ e = Fault NotAuthenticated ∨
       d_vpn d = None ∧ build_tenant_client (d_auth d) = None ∧ e = Fault NotAuthenticated ∨
       ¬ between_tunnels d ∧ ∃ m, e = Fault (InvalidArgument m))
  end.
Proof.
  intros Htok. pose proof (connect_tunnel_cases request d w Htok) as Hc.
  pose proof (connect_needs_client request d w) as Hn. pose proof (idle_between d) as Hi.
  destruct (connect_tunnel request (d, w)) as [[d' w'] [t|e]]; destruct Hc as [-> Hc]; split; [done| |done|].
  - destruct Hc as (Ha & Hidle & Hcon & Ht & Hi'). rewrite Hidle in Hi. pose proof (idle_between d') as Hn'.
    rewrite Hi' in Hn'. eauto 8.
  - destruct Hc as (H1' & H2' & H3' & Hwhy). do 3 (split; [done|]).
    destruct Hwhy as [?|[?|[Hidle Hm]]]; [by left|by right; left|]. rewrite Hidle in Hi. by right; right.
Qed.

(** Disconnecting and connecting overlap: while a disconnect waits for the
    old task, whose end leaves the machine disconnected, another connect can
    be accepted; the disconnect then overwrites that connect's state, so that
    the daemon reports a disconnected tunnel, accepts yet another connect, and
    the new task runs on with a token that was never cancelled. *)
Theorem disconnect_loses_new_connect request d vpn task (w : W) :
  tokens_ok d → am_state (d_auth d) = Authenticated →
  d_vpn d = Some vpn → d_tunnel_task d = Some task →
  let wait (_ : Task) (s : St) := (connect_tunnel request (mark_disconnected s.1, s.2)).1 in
  ∃ d' t n, disconnect_tunnel wait (d, w) = ((d', w), Ok t) ∧ t_state t = StateDisconnected ∧
    idle d' = true ∧ d_tunnel_task d' = Some {| task_request := request; task_cancel := n |} ∧
    n ∉ d_cancelled d'.
Proof.
  intros [Hc Hv] Ha Hvpn Htask wait. unfold disconnect_tunnel, disconnect_begin, wait. cbn zeta. rewrite Hvpn. cbn [d_tunnel_task cancel set_vpn].
  rewrite Htask. cbn [fst snd].
  set (d1 := mark_disconnected _).
  assert (Hlt := Hv _ Hvpn).
  assert (Htok : tokens_ok d1).
  { unfold d1, mark_disconnected, vpn_transition. cbn. split; cbn.
    - intros t Ht. apply elem_of_union in Ht as [Ht|Ht]; [apply elem_of_singleton in Ht; cbn in Ht; lia|by apply Hc].
    - intros v [= <-]. cbn. exact Hlt. }
  destruct (connect_tunnel_accepted request d1 w Htok) as (d' & t & -> & Hcon & _); [done|done|done|].
  destruct Hcon as (vpn' & Hv' & _ & _ & Ht' & _ & Hn & _). cbn [fst].
  unfold vpn_transition. rewrite Hv'. cbn. do 3 eexists. split; [reflexivity|].
  split; [done|]. split; [done|]. split; [exact Ht'|]. exact Hn.
Qed.

(** A failed tunnel is restarted by a change of the outbound interface: the
    failed state still has its request, so that the change starts a new
    connect although no tunnel was active. *)
Theorem outbound_change_restarts_failed d vpn request e a (w : W) wait :
  tokens_ok d → am_state (d_auth d) = Authenticated → d_vpn d = Some vpn →
  state vpn = Failed request e a → d_tunnel_task d = None → d_active_outbound d = None →
  is_some (dc_outbound_interface (d_config d)) = true →
  ∃ d' vpn', reconnect_if_outbound_changed wait (d, w) = ((d', w), Ok tt) ∧
    d_vpn d' = Some vpn' ∧ state vpn' = Connecting request ∧ is_some (d_tunnel_task d') = true.
Proof.
  intros [Hc Hv] Ha Hvpn Hst Htask Hact Hout. unfold reconnect_if_outbound_changed. cbn zeta.
  rewrite bool_decide_eq_false_2.
  2:{ rewrite Hact. intros Heq. by rewrite Heq in Hout. }
  set (d1 := if pool_builds _ _ then _ else _).
  assert (Hd1 : d_vpn d1 = Some vpn ∧ d_tunnel_task d1 = None ∧ am_state (d_auth d1) = Authenticated ∧
                d_cancelled d1 = d_cancelled d ∧ d_next_token d1 = d_next_token d).
  { unfold d1. destruct (pool_builds _ _); cbn; auto. }
  destruct Hd1 as (Hv1 & Ht1 & Ha1 & Hc1 & Hn1). rewrite Hv1, Hst. cbn [current_request]. rewrite Ht1.
  set (d2 := cancel _ _).
  assert (Hlt := Hv _ Hvpn).
  assert (Htok : tokens_ok d2).
  { unfold d2. split; cbn; rewrite ?Hc1, ?Hn1.
    - intros t Ht. apply elem_of_union in Ht as [Ht|Ht]; [apply elem_of_singleton in Ht; lia|by apply Hc].
    - rewrite Hv1. intros v [= <-]. exact Hlt. }
  assert (Hi : idle d2 = true) by (unfold idle, d2; cbn; rewrite Hv1; unfold vm_can_connect; by rewrite Hst).
  destruct (connect_tunnel_accepted request d2 w Htok Ha1 Hi) as (d' & t & -> & Hcon & _);
    [unfold d2; cbn; by rewrite Hv1|].
  destruct Hcon as (vpn' & Hv' & Hs' & _ & Ht' & _). exists d', vpn'. rewrite Ht'. done.
Qed.

End connect_facts.

(** ** A restart, proved against the files' interface *)

Section restart.
Context `{Urls} `{IpNet} `{Crypto, ErrorText} {W : Type} `{StoreLaws W} `{Host W}.
Implicit Types d : DaemonInner.

Lemma build_tenant_client_some m m' :
  am_tenant m' = am_tenant m → is_some (build_tenant_client m') = is_some (build_tenant_client m).
Proof.
  intros Ht. unfold build_tenant_client. rewrite Ht. destruct (am_tenant m) as [t|]; [|done]. cbn.
  destruct (result_ok _); done.
Qed.

(** What a new process does with the files of the old one. *)
Definition restarted (dev : string) (c : DaemonConfig) (config_path path : string) (w : W) : DaemonInner :=
  let d := daemon_new dev c config_path path (default None (result_ok (load_credentials path w))) w in
  (restore_auth_state (d, w)).1.1.

(** C1: A restart resumes: when the credentials were saved while a tunnel was
    up or coming up, a new daemon on the same files is authenticated again
    with the same tenant, cookies and signing data and, if told to reconnect
    on start, connects with the request that was in flight, all but its
    one-time code; if not told to, it starts nothing. *)
Theorem restart_resumes_tunnel d vpn r creds (w w1 : W) dev c config_path :
  store_ok (d_credential_path d) w →
  is_some (build_tenant_client (d_auth d)) = true → values (am_cookies (d_auth d)) ≠ ∅ →
  d_vpn d = Some vpn → current_request (state vpn) = Some r →
  to_credentials_with_vpn (timestamp_text w) (current_persisted_request vpn) (d_auth d) = Some creds →
  save_credentials creds (d_credential_path d) w = (w1, Ok tt) →
  let d' := restarted dev c config_path (d_credential_path d) w1 in
  am_state (d_auth d') = Authenticated ∧ am_tenant (d_auth d') = am_tenant (d_auth d) ∧
  values (am_cookies (d_auth d')) = values (am_cookies (d_auth d)) ∧
  am_signing (d_auth d') = am_signing (d_auth d) ∧
  (dc_auto_reconnect c = false → maybe_auto_resume (d', w1) = ((d', w1), Ok tt)) ∧
  (dc_auto_reconnect c = true → ∃ d2, maybe_auto_resume (d', w1) = ((d2, w1), Ok tt) ∧
     connecting {| mode := mode r; location_id := location_id r; otp := None;
                   reconnect := reconnect r; protocol_mode := protocol_mode r |} d' d2).
Proof.
  intros Hok Hclient Hcook Hvpn Hr Hcreds Hsave d'.
  pose proof (save_then_load _ _ _ _ Hok Hsave) as Hload.
  unfold to_credentials_with_vpn, to_credentials in Hcreds.
  destruct (am_tenant (d_auth d)) as [t|] eqn:Ht; [|done].
  destruct (am_signing (d_auth d)) as [sg|] eqn:Hsg; [|done]. cbn in Hcreds. injection Hcreds as Hcreds.
  assert (Hd' : am_state (d_auth d') = Authenticated ∧ am_tenant (d_auth d') = Some t ∧
     values (am_cookies (d_auth d')) = values (am_cookies (d_auth d)) ∧
     am_signing (d_auth d') = Some sg ∧ d_vpn d' = None ∧ d_config d' = c ∧
     d_credential_path d' = d_credential_path d ∧ d_cancelled d' = ∅).
  { unfold d', restarted. rewrite Hload. subst creds. cbn. unfold restore_session. cbn.
    unfold cookies_is_empty. cbn. rewrite bool_decide_eq_false_2 by done. done. }
  clearbody d'. destruct Hd' as (Ha & Htn & Hck & Hsn & Hvn & Hcf & Hp & Hcan).
  split; [done|]. split; [done|]. split; [done|]. split; [done|].
  unfold maybe_auto_resume. rewrite Hcf, Hp, Hload. split; intros Hauto; rewrite Hauto; [done|]. cbn [negb].
  assert (Hlast : pc_last_vpn_request creds = Some {|
      p_mode := mode_to_string (mode r); p_location_id := location_id r;
      p_protocol_mode := protocol_mode r; p_reconnect := reconnect r |}).
  { subst creds. cbn [pc_last_vpn_request]. unfold current_persisted_request. by rewrite Hr. }
  rewrite Hlast. unfold resume_request.
  cbn [p_mode p_location_id p_protocol_mode p_reconnect]. rewrite mode_parse_to_string. cbn [from_option id].
  destruct (connect_tunnel_accepted {| mode := mode r; location_id := location_id r; otp := None;
      reconnect := reconnect r; protocol_mode := protocol_mode r |} d' w1) as (d2 & t2 & -> & Hcon & _).
  - split; [rewrite Hcan; intros n Hn; by apply elem_of_empty in Hn|by rewrite Hvn].
  - done.
  - unfold idle. by rewrite Hvn.
  - intros _. rewrite (build_tenant_client_some (d_auth d)); [done|]. by rewrite Htn.
  - by exists d2.
Qed.

End restart.

(** ** Witnesses *)

(** A world that is the two files. *)
Module DaemonSample.
Definition World : Type := option PersistedCredentials * option DaemonConfig.
Definition no_files : World := (None, None).
#[global] Instance store : Store World := {
  save_credentials c _ w := ((Some c, w.2), Ok tt); load_credentials _ w := Ok w.1;
  remove_credentials _ w := ((None, w.2), Ok tt); save_config c _ w := ((w.1, Some c), Ok tt);
  load_config _ w := Ok (default config_default w.2) }.
#[global] Instance store_laws : StoreLaws World.
Proof.
  refine {| store_ok := λ _ _, True; store_apart := λ _ _ _, True |}; cbn; try done.
  - intros c p w w' _ [= <-]. reflexivity.
  - intros p w w' [= <-]. reflexivity.
  - intros c p w w' _ [= <-]. reflexivity.
Defined.
#[global] Instance host : Host World := {
  timestamp_text _ := "now"; port_free _ _ := true; pool_builds _ _ := true; blocking_ok _ := true;
  totp_from_url _ := None }.
#[global] Instance net : IpNet := {
  Routes.IpNetwork := string; Routes.net_parse s := Some s; Routes.net_of_ip _ := "";
  Routes.net_is_v4 _ := true; Routes.net_network _ := V4 0; Routes.net_prefix _ := 0 }.
Definition auth : AuthMachine := set_state Authenticated AuthSample.machine.
Definition vpn (s : VpnState) : VpnMachine ApiClient TunnelSession :=
  {| state := s; api_client := Echo.client; tunnel_session := None; cancel_token := 0 |}.
Definition inner_ (s : VpnState) (o : option string) (task : option Task) : DaemonInner := {|
  d_auth := auth; d_vpn := Some (vpn s);
  d_config := {| dc_identity := identity_config_default; dc_outbound_interface := o;
                 dc_fallback_dns := None; dc_tun_interface := None; dc_auto_reconnect := true;
                 dc_dns_listen_port := None; dc_dns_listen_host := None; dc_route_system_dns := None |};
  d_config_path := "config.json"; d_credential_path := "credentials.json"; d_broadcasts := [];
  d_tunnel_task := task; d_active_outbound := None; d_next_token := 1; d_cancelled := ∅ |}.
Definition d0 : DaemonInner :=
  inner_ (Connecting vpn_request_default) None (Some {| task_request := vpn_request_default; task_cancel := 0 |}).
Lemma tokens s o task : tokens_ok (inner_ s o task).
Proof. split; cbn; [intros t Ht; by apply elem_of_empty in Ht|intros v [= <-]; cbn; lia]. Qed.
Definition fails (s : DaemonInner * World) : (DaemonInner * World) * result DaemonError (option SupervisorOutcome) :=
  (s, Ok (Some (Trigger Reconnect.HandshakeTimeout false))).
Definition works (s : DaemonInner * World) : (DaemonInner * World) * result DaemonError (option SupervisorOutcome) :=
  (s, Ok (Some (Trigger Reconnect.HandshakeTimeout true))).
Definition sleep (t : duration) (s : DaemonInner * World) : (DaemonInner * World) * bool := (s, true).
Lemma d0_live : live 0 (d0, no_files).
Proof. split; [cbn; set_solver|done]. Qed.
End DaemonSample.

Lemma loop_ends_at_rest_witness :
  ∃ s', connect_loop DaemonSample.fails DaemonSample.sleep 0 9
          (Reconnect.new Reconnect.android_compatible_default) (DaemonSample.d0, DaemonSample.no_files) = Some s' ∧ at_rest s'.1.
Proof.
  destruct (connect_loop DaemonSample.fails DaemonSample.sleep 0 9
    (Reconnect.new Reconnect.android_compatible_default) (DaemonSample.d0, DaemonSample.no_files)) as [s'|] eqn:E.
  - exists s'. split; [reflexivity|]. exact (loop_ends_at_rest _ _ _ _ _ _ _ E).
  - apply (f_equal is_some) in E. vm_compute in E. discriminate E.
Defined.

Lemma cancelled_loop_ends_witness :
  ∃ s', connect_loop DaemonSample.fails (λ _ s, (s, negb (is_cancelled 0 s))) 0 1
          (Reconnect.new Reconnect.android_compatible_default) (cancel 0 DaemonSample.d0, DaemonSample.no_files) = Some s' ∧ at_rest s'.1.
Proof.
  apply (cancelled_loop_ends DaemonSample.fails (λ _ s, (s, negb (is_cancelled 0 s))) 0%nat 0%nat).
  - intros after s Hs. cbn [snd]. by rewrite Hs.
  - vm_compute. reflexivity.
  - discriminate.
Defined.

Lemma gives_up_after_nine_witness :
  ∃ s', run_connect_loop DaemonSample.fails DaemonSample.sleep 0 9 (DaemonSample.d0, DaemonSample.no_files) = Some s'
        ∧ gave_up s'.
Proof.
  destruct (gives_up_after_nine DaemonSample.fails DaemonSample.sleep 0%nat) with (s := (DaemonSample.d0, DaemonSample.no_files))
    as (s' & Hg & Hf).
  - intros t s Hs. split; [exact Hs|reflexivity].
  - intros s Hs. split; [exact Hs|reflexivity].
  - exact DaemonSample.d0_live.
  - exists s'. split; [exact (Hf 9%nat)|exact Hg].
Defined.

Lemma healthy_never_gives_up_witness :
  run_connect_loop DaemonSample.works DaemonSample.sleep 0 20 (DaemonSample.d0, DaemonSample.no_files) = None.
Proof.
  apply (healthy_never_gives_up DaemonSample.works DaemonSample.sleep 0%nat).
  - intros t s Hs. split; [exact Hs|reflexivity].
  - intros s Hs. split; [exact Hs|eexists; reflexivity].
  - exact DaemonSample.d0_live.
Defined.

Lemma connect_tunnel_outcome_witness :
  let failed := DaemonSample.inner_ (Failed vpn_request_default "lost" 0) None None in
  (∃ d' t, connect_tunnel vpn_request_default (failed, DaemonSample.no_files) = ((d', DaemonSample.no_files), Ok t) ∧
     connecting vpn_request_default failed d' ∧ ¬ between_tunnels d') ∧
  ∃ d' m, connect_tunnel vpn_request_default (DaemonSample.d0, DaemonSample.no_files) =
    ((d', DaemonSample.no_files), Err (Fault (InvalidArgument m))) ∧ d_tunnel_task d' = d_tunnel_task DaemonSample.d0.
Proof.
  cbn zeta. split.
  - pose proof (connect_tunnel_outcome vpn_request_default _ DaemonSample.no_files
      (DaemonSample.tokens (Failed vpn_request_default "lost" 0) None None)) as Hc.
    destruct (connect_tunnel _ _) as [[d' w'] [t|e]] eqn:Hr; [|discriminate Hr].
    destruct Hc as (-> & _ & _ & _ & Hcon & _ & Hn). by exists d', t.
  - pose proof (connect_tunnel_outcome vpn_request_default DaemonSample.d0 DaemonSample.no_files
      (DaemonSample.tokens _ _ _)) as Hc.
    destruct (connect_tunnel _ _) as [[d' w'] [t|e]] eqn:Hr; [discriminate Hr|].
    destruct Hc as (-> & Ht & _ & _ & [[Ha _]|[[Hv _]|(_ & m & ->)]]); [by destruct Ha|discriminate Hv|].
    by exists d', m.
Defined.

Lemma disconnect_loses_new_connect_witness :
  ∃ d' t n, disconnect_tunnel (λ _ s, (connect_tunnel vpn_request_default (mark_disconnected s.1, s.2)).1)
      (DaemonSample.d0, DaemonSample.no_files) = ((d', DaemonSample.no_files), Ok t) ∧
    t_state t = StateDisconnected ∧ idle d' = true ∧
    d_tunnel_task d' = Some {| task_request := vpn_request_default; task_cancel := n |} ∧ n ∉ d_cancelled d'.
Proof.
  exact (disconnect_loses_new_connect vpn_request_default DaemonSample.d0 _ _ DaemonSample.no_files
    (DaemonSample.tokens _ _ _) eq_refl eq_refl eq_refl).
Defined.

Lemma outbound_change_restarts_failed_witness :
  ∃ d' vpn', reconnect_if_outbound_changed (λ _ s, s)
      (DaemonSample.inner_ (Failed vpn_request_default "x" 0) (Some "eth0") None, DaemonSample.no_files)
      = ((d', DaemonSample.no_files), Ok tt) ∧
    d_vpn d' = Some vpn' ∧ state vpn' = Connecting vpn_request_default ∧ is_some (d_tunnel_task d') = true.
Proof.
  apply (outbound_change_restarts_failed _ (DaemonSample.vpn (Failed vpn_request_default "x" 0))
    vpn_request_default "x" 0 DaemonSample.no_files (λ _ s, s) (DaemonSample.tokens _ _ _));
    reflexivity.
Defined.

Lemma restart_resumes_tunnel_witness :
  ∃ creds, am_state (d_auth (restarted "dev" (d_config DaemonSample.d0) "config.json" "credentials.json"
                              ((Some creds, None) : DaemonSample.World))) = Authenticated.
Proof.
  destruct (to_credentials_with_vpn "now" (current_persisted_request (DaemonSample.vpn (Connecting vpn_request_default)))
              DaemonSample.auth) as [creds|] eqn:E; [|discriminate E].
  exists creds.
  apply (restart_resumes_tunnel (W:=DaemonSample.World) DaemonSample.d0
    (DaemonSample.vpn (Connecting vpn_request_default)) vpn_request_default creds DaemonSample.no_files (Some creds, None)
    "dev" (d_config DaemonSample.d0) "config.json").
  - exact I.
  - reflexivity.
  - intros Hn. apply (f_equal (lookup "session")) in Hn. vm_compute in Hn. discriminate Hn.
  - reflexivity.
  - reflexivity.
  - exact E.
  - reflexivity.
Defined.

End Daemon.
