(* ===== verification/ConnectTask.v ===== *)
(** * The spawned connect task ([run_connect_loop] over [connect_once])

    The loop of [Daemon] with the attempt it makes in the source, and what a
    client sees of it: the abstract specification is the state machine of the
    tunnel as the watch channel shows it, and the task refines it. *)

From S2P Require Import Prelude RustStr Net Reconnect Models Signing Api Requests Login VpnState Negotiate Persist Faults.
From S2P Require Import AuthMachine Store Routes Interface Dialer DnsConfig DnsResolver Outbound TunDns Session Supervisor Daemon.
Import Models Signing Api Requests Login Negotiate Persist Faults AuthMachine Store.
Import Routes(IpNet, IpNetwork, RouteManager).
Import Session(TunnelConfig, TunnelSession, LocalTunnelParams, KeyCodec, UrlHost, IpNetAddr, TunDriver).
Import Supervisor(SupervisorOutcome, Trigger, OutcomeKickOut, OutcomeCancelled, Turn).
Import Daemon.

Module ConnectTask.

(** ** The task *)

Section task.
Context `{Urls} `{!UrlHost} `{IpNet} `{!IpNetAddr} `{Crypto, KeyCodec, Serde, ErrorText}.
Context `{DnsConfig.Unicode, DnsConfig.UrlParser, DnsConfig.WildMatch, DnsResolver.DnsCodec} `{!Outbound.DnsNames}.
Context {W : Type} `{!Http W} `{Random W} `{Dialer.Sockets W} `{DnsResolver.Udp W} `{Outbound.Os W}
        `{Outbound.IpRule W} `{RouteManager W} `{!TunDriver W} `{Store W} `{Host W}.
Abbreviation St := (DaemonInner * W)%type.
Abbreviation op A := (M (DaemonInner * W) DaemonError A).
Variable session_error_to_string : Session.SessionError → string.
(** The environment: what the supervisor of a token sees next, and a sleep. *)
Variable next_turn : nat → St → St * Turn.
Variable sleep : duration → St → St * bool.

Definition attempt_of (task : Task) (turns : nat) : op (option SupervisorOutcome) :=
  connect_once session_error_to_string next_turn (task_request task) (task_cancel task) turns.
(* @daemon/src/daemon.rs:311-315 Daemon::connect_tunnel *)
Definition connect_task (task : Task) (turns fuel : nat) (s : St) : option St :=
  run_connect_loop (attempt_of task turns) sleep (task_cancel task) fuel s.

(** The points the task passes: its head before each attempt, an attempt that
    is still supervised, its end. *)
Inductive task_reaches (task : Task) (turns : nat) (s : St) : LoopState → Prop :=
  | TaskStarts :
      task_reaches task turns s (LoopHead (Reconnect.new Reconnect.android_compatible_default) s)
  | TaskTurns c s1 :
      task_reaches task turns s (LoopHead c s1) →
      task_reaches task turns s (loop_turn (attempt_of task turns) sleep (task_cancel task) c s1).

Lemma connect_task_reaches task turns fuel s s' :
  connect_task task turns fuel s = Some s' → task_reaches task turns s (LoopEnded s').
Proof.
  unfold connect_task, run_connect_loop.
  generalize (TaskStarts task turns s). generalize (Reconnect.new Reconnect.android_compatible_default).
  generalize s at 2 3. induction fuel as [|fuel IH]; intros s1 c Hr; cbn [connect_loop]; [done|].
  apply TaskTurns in Hr. destruct (loop_turn _ _ _ _ _) as [c2 s2|s2|s2]; [by apply IH|done|].
  by intros [= <-].
Qed.

(** ** The specification: the tunnel as a client sees it *)

(** Where the task is, by the state shown: before an attempt, under
    supervision, asleep before the next attempt. A disconnect may have begun. *)
Definition at_head (st : TunnelState) : Prop := st = StateConnecting ∨ st = StateReconnecting ∨ st = StateDisconnecting.
Definition supervised (st : TunnelState) : Prop := st = StateConnected ∨ st = StateDisconnecting.
Definition asleep (st : TunnelState) : Prop := st = StateReconnecting ∨ st = StateDisconnecting.

(** Which state the watch channel may show after which. *)
Inductive next_state : TunnelState → TunnelState → Prop :=
  | Configures st : at_head st → next_state st StateConfiguring
  | Connects : next_state StateConfiguring StateConnected
  | Fails : next_state StateConfiguring StateFailed
  | GivesUp st : supervised st ∨ st = StateFailed → next_state st StateFailed
  | Retries st : supervised st ∨ st = StateFailed → next_state st StateReconnecting
  | Asked st : supervised st ∨ asleep st → next_state st StateDisconnecting
  | Ends st : supervised st ∨ asleep st → next_state st StateDisconnected.

(** The messages [ts] lead from [a] to [b]. *)
Fixpoint path (a : TunnelState) (ts : list Tunnel) (b : TunnelState) : Prop :=
  match ts with
  | [] => a = b
  | t :: ts' => next_state a (t_state t) ∧ path (t_state t) ts' b
  end.
(** A message shows the request's mode, unless the tunnel is disconnected. *)
Definition shows (r : VpnRequest) (t : Tunnel) : Prop :=
  t_state t = StateDisconnected ∨ t_mode t = vpn_mode_to_proto (mode r).

(** The machine shows the state [st] of the request [r], which is the last
    value sent. *)
Definition at_state (r : VpnRequest) (st : TunnelState) (d : DaemonInner) : Prop :=
  ∃ vpn, d_vpn d = Some vpn ∧ t_state (to_tunnel_proto vpn) = st ∧
    (st ≠ StateDisconnected → current_request (state vpn) = Some r) ∧
    last (d_broadcasts d) = Some (to_tunnel_proto vpn).
Definition moves (r : VpnRequest) (a b : TunnelState) (d d' : DaemonInner) : Prop :=
  at_state r b d' ∧
  ∃ ts, d_broadcasts d' = d_broadcasts d ++ ts ∧ path a ts b ∧ Forall (shows r) ts.

Lemma path_app a ts b ts' c : path a ts b → path b ts' c → path a (ts ++ ts') c.
Proof.
  revert a. induction ts as [|t ts IH]; intros a; cbn; [by intros ->|].
  intros [Hn Hp] Hp'. split; [done|]. by apply IH.
Qed.

Lemma moves_refl r a d : at_state r a d → moves r a a d d.
Proof. intros Ha. split; [done|]. exists []. by rewrite app_nil_r. Qed.
Lemma moves_trans r a b c d1 d2 d3 : moves r a b d1 d2 → moves r b c d2 d3 → moves r a c d1 d3.
Proof.
  intros (_ & ts & Hb & Hp & Hs) (Hc & ts' & Hb' & Hp' & Hs'). split; [done|].
  exists (ts ++ ts'). rewrite Hb', Hb, app_assoc. split; [done|].
  split; [by eapply path_app|by apply Forall_app].
Qed.

Lemma shows_request {C S} (vpn : VpnMachine C S) r :
  current_request (state vpn) = Some r → shows r (to_tunnel_proto vpn).
Proof.
  unfold shows, to_tunnel_proto. destruct (state vpn); cbn; intros [= ->]; by right.
Qed.

(** One transition of the machine. *)
Lemma transition_moves f r a b d :
  at_state r a d → a ≠ StateDisconnected → next_state a b →
  (∀ vpn, current_request (state vpn) = Some r →
     t_state (to_tunnel_proto (f vpn)) = b ∧
     (b ≠ StateDisconnected → current_request (state (f vpn)) = Some r)) →
  moves r a b d (vpn_transition f d).
Proof.
  intros (vpn & Hv & Hst & Hr & Hl) Ha Hn Hf. specialize (Hr Ha).
  destruct (Hf vpn Hr) as [Hb Hr']. unfold vpn_transition. rewrite Hv. split.
  - exists (f vpn). cbn. split; [done|]. split; [done|]. split; [done|]. by rewrite last_snoc.
  - exists [to_tunnel_proto (f vpn)]. cbn. split; [done|]. split; [by rewrite Hb|].
    constructor; [|constructor].
    destruct (decide (b = StateDisconnected)) as [->|Hd]; [by left|by apply shows_request, Hr'].
Qed.

(** ** What leaves the tunnel alone *)

Definition same_tunnel (s s' : St) : Prop :=
  d_vpn s'.1 = d_vpn s.1 ∧ d_broadcasts s'.1 = d_broadcasts s.1.
Definition silent {E A} (m : M St E A) : Prop := ∀ s, same_tunnel s (m s).1.

#[local] Instance same_tunnel_preorder : PreOrder same_tunnel.
Proof. split; [by split|]. intros s1 s2 s3 [Hv Hb] [Hv' Hb']. split; congruence. Qed.

Lemma same_tunnel_moves r a s s' : same_tunnel s s' → at_state r a s.1 → moves r a a s.1 s'.1.
Proof.
  intros [Hv Hb] (vpn & Hvpn & Hrest). split.
  - exists vpn. rewrite Hv, Hb. done.
  - exists []. by rewrite app_nil_r.
Qed.

Lemma silent_pure {E A} (f : St → result E A) : silent (λ s, (s, f s)).
Proof. intros s. by split. Qed.
Lemma silent_bind {E A B} (m : M St E A) (k : A → M St E B) :
  silent m → (∀ a, silent (k a)) → silent (m_bind m k).
Proof.
  intros Hm Hk s. unfold m_bind. specialize (Hm s). destruct (m s) as [s1 [a|e]]; [|exact Hm].
  etransitivity; [exact Hm|apply Hk].
Qed.
Lemma silent_map_err {E F A} (f : E → F) (m : M St E A) : silent m → silent (m_map_err f m).
Proof. intros Hm s. unfold m_map_err. specialize (Hm s). by destruct (m s). Qed.
Lemma silent_try {E F A} (m : M St E A) : silent m → silent (m_try (F:=F) m).
Proof. intros Hm s. unfold m_try. specialize (Hm s). by destruct (m s). Qed.
Lemma silent_on_jar {E A} (m : M (CookieStore * W) E A) : silent (on_jar m).
Proof. intros [d w]. unfold on_jar, on_auth. by destruct (through m _) as [[a w1] r]. Qed.
Lemma silent_inner : silent inner.
Proof. intros [d w]. by split. Qed.
Lemma silent_persist : silent persist_credentials.
Proof. intros [d w]. unfold persist_credentials. by repeat case_match. Qed.
Lemma silent_compute_otp manual : silent (compute_otp manual).
Proof. intros [d w]. by split. Qed.
Lemma silent_fetch_vpn_domain client : silent (fetch_vpn_domain client).
Proof. apply silent_bind; [apply silent_try, silent_on_jar|]. intros a. apply silent_pure. Qed.
Lemma silent_send_report client r t s : same_tunnel s (send_report client r t s).1.
Proof.
  unfold send_report.
  pose proof (silent_on_jar (send (W:=W) de_value client
    (VpnReportRequest (report_wire t) (rp_assigned_ip r) (rp_pub_key r) (android_name (rp_mode r)))) s) as Hs.
  by destruct (on_jar _ s) as [s1 [x|e]].
Qed.
Lemma silent_on_session {A} (m : M (TunnelSession * W) Session.SessionError A) x s :
  same_tunnel s (on_session m x s).1.
Proof. unfold on_session. by destruct (m _) as [[x1 w1] r]. Qed.
Lemma silent_start_session c conn p request transport :
  silent (start_session session_error_to_string c conn p request transport).
Proof.
  unfold start_session. apply silent_bind; [by intros [d w]|intros []].
  apply silent_bind; [apply silent_inner|intros d].
  apply silent_bind; [apply silent_pure|intros tunnel]. intros s.
  match goal with |- context [on_session ?m ?x s] => pose proof (silent_on_session m x s) as Hs end.
  by destruct (on_session _ _ s) as [s1 [x [[]|e]]].
Qed.

(** What the others do while the task waits: anything that leaves the tunnel
    alone, and the beginning of a disconnect, which then waits for this task. *)
Inductive interferes : St → St → Prop :=
  | Elsewhere s s' : same_tunnel s s' → interferes s s'
  | DisconnectBegins d w : interferes (d, w) (disconnect_begin d, w)
  | Later s1 s2 s3 : interferes s1 s2 → interferes s2 s3 → interferes s1 s3.
(** Nobody else connects, and no other disconnect ends, while the task runs. *)
Definition tunnel_left : Prop :=
  (∀ token s, interferes s (next_turn token s).1) ∧ (∀ d s, interferes s (sleep d s).1).
Hypothesis Henv : tunnel_left.

(** From a state in [P] of [r] to another one. *)
Definition within (r : VpnRequest) (P : TunnelState → Prop) (s s' : St) : Prop :=
  ∀ a, P a → at_state r a s.1 → ∃ b, P b ∧ moves r a b s.1 s'.1.
#[local] Instance within_preorder r P : PreOrder (within r P).
Proof.
  split; [intros s a Ha Hs; exists a; split; [done|by apply moves_refl]|].
  intros s1 s2 s3 Hfst Hsnd a Ha Hs. destruct (Hfst a Ha Hs) as (b & Hb & Hm).
  destruct (Hsnd b Hb (proj1 Hm)) as (c & Hc & Hm'). exists c. split; [done|by eapply moves_trans].
Qed.
Lemma same_tunnel_within r P s s' : same_tunnel s s' → within r P s s'.
Proof. intros Hs a Ha Hat. exists a. split; [done|by apply same_tunnel_moves]. Qed.
Lemma disconnect_begin_moves r a d :
  at_state r a d → supervised a ∨ asleep a → moves r a StateDisconnecting d (disconnect_begin d).
Proof.
  intros Ha Hs. assert (Hd : a ≠ StateDisconnected) by (by destruct Hs as [[->| ->]|[->| ->]]).
  pose proof (transition_moves set_disconnecting r a StateDisconnecting d Ha Hd (Asked a Hs)) as Hm.
  assert (Hv : is_Some (d_vpn d)) by (destruct Ha as (vpn & -> & _); done). destruct Hv as [vpn Hv].
  unfold vpn_transition in Hm. rewrite Hv in Hm. unfold disconnect_begin. rewrite Hv. apply Hm.
  intros v Hr. cbn. by rewrite (into_request_current _ _ Hr).
Qed.
Lemma interferes_within r P s s' :
  (∀ a, P a → supervised a ∨ asleep a) → P StateDisconnecting → interferes s s' → within r P s s'.
Proof.
  intros HP Hd. induction 1 as [s s' Hs|d w|s1 s2 s3 _ IH1 _ IH2]; [by apply same_tunnel_within| |by etransitivity].
  intros a Ha Hs. exists StateDisconnecting. split; [done|]. by apply disconnect_begin_moves, HP.
Qed.
Lemma turn_within r token s : within r supervised s (next_turn token s).1.
Proof. apply interferes_within; [by left|by right|apply Henv]. Qed.
Lemma sleep_within r after s : within r asleep s (sleep after s).1.
Proof. apply interferes_within; [by right|by right|apply Henv]. Qed.

(** ** One attempt *)

(** [ends m a ok berr]: from the state [a] of [r], [m] moves to a state in [ok]
    when it succeeds and to [berr] when it fails. *)
Definition ends {A} (r : VpnRequest) (m : op A) (a : TunnelState) (ok : TunnelState → Prop) (berr : TunnelState) : Prop :=
  ∀ s, at_state r a s.1 →
    match m s with
    | (s', Ok _) => ∃ b, ok b ∧ moves r a b s.1 s'.1
    | (s', Err _) => moves r a berr s.1 s'.1
    end.

Lemma ends_silent {A B} r (m : op A) (k : A → op B) a ok :
  silent m → (∀ x, ends r (k x) a ok a) → ends r (m_bind m k) a ok a.
Proof.
  intros Hm Hk s Ha. unfold m_bind. specialize (Hm s).
  destruct (m s) as [s1 [x|e]]; cbn [fst] in Hm; apply (same_tunnel_moves _ _ _ _ Hm) in Ha; [|done].
  specialize (Hk x s1 (proj1 Ha)). destruct (k x s1) as [s2 [y|e]]; [|by eapply moves_trans].
  destruct Hk as (b & Hb & Hm'). exists b. split; [done|by eapply moves_trans].
Qed.
Lemma ends_then {A B} r (m : op A) (k : A → op B) a b ok berr :
  ends r m a (eq b) b → (∀ x, ends r (k x) b ok berr) → (∀ s, is_ok (m s).2 = true) →
  ends r (m_bind m k) a ok berr.
Proof.
  intros Hm Hk Hok s Ha. unfold m_bind. specialize (Hm s Ha). specialize (Hok s).
  destruct (m s) as [s1 [x|e]]; [|done]. destruct Hm as (b' & <- & Hm).
  specialize (Hk x s1 (proj1 Hm)). destruct (k x s1) as [s2 [y|e]]; [|by eapply moves_trans].
  destruct Hk as (c & Hc & Hm'). exists c. split; [done|by eapply moves_trans].
Qed.
Lemma ends_transition r f a b :
  a ≠ StateDisconnected → next_state a b →
  (∀ vpn, current_request (state vpn) = Some r →
     t_state (to_tunnel_proto (f vpn)) = b ∧
     (b ≠ StateDisconnected → current_request (state (f vpn)) = Some r)) →
  ends r (upd (vpn_transition f)) a (eq b) b.
Proof. intros Ha Hn Hf [d w] Hs. cbn. exists b. split; [done|]. by eapply transition_moves. Qed.

Lemma ends_mark_connected r c ip transport :
  ends r (mark_connected c ip transport) StateConfiguring (eq StateConnected) StateConnected.
Proof.
  apply ends_then with (b := StateConnected); [| |by intros [d w]].
  - apply ends_transition; [done|constructor|]. intros vpn Hr. unfold set_connected, transition. cbn.
    apply into_request_current in Hr. by rewrite Hr.
  - intros [] s Hs. pose proof (silent_persist s) as Hp.
    destruct (persist_credentials s) as [s1 [[]|e]]; [exists StateConnected; split; [done|]|]; by apply same_tunnel_moves.
Qed.

Lemma supervise_within q session client r token n s :
  within q supervised s (supervise next_turn session client r token n s).1.
Proof.
  apply (Supervisor.run_maintains _ _ _ _ (within q supervised)); [apply turn_within|].
  intros s1. apply same_tunnel_within, silent_send_report.
Qed.

Lemma ends_tail {B} r (k : op B) P a berr :
  P a → (∀ s, within r P s (k s).1 ∧ is_ok (k s).2 = true) → ends r k a P berr.
Proof.
  intros Ha Hk s Hs. destruct (Hk s) as [Ht Hok]. destruct (k s) as [s1 [x|e]]; [|done]. by apply Ht.
Qed.

(** What follows the connection in an attempt: reports, supervision, stop. *)
Lemma tail_within q session token r n (client : DaemonInner → bool → ApiClient) s :
  let k := (let! d := inner in
            let! pool_ok := λ '(d, w), ((d, w), Ok (pool_builds (dc_outbound_interface (d_config d)) w)) in
            λ s, let '(s1, _) := send_report (client d pool_ok) r ReportConnected s in
                 match supervise next_turn session (client d pool_ok) r token n s1 with
                 | (s2, None) => (s2, Ok None)
                 | (s2, Some outcome) =>
                     let '(s3, _) := on_session Session.stop session s2 in
                     let '(s4, _) := send_report (client d pool_ok) r ReportDisconnected s3 in
                     (s4, Ok (Some outcome))
                 end) : op (option SupervisorOutcome) in
  within q supervised s (k s).1 ∧ is_ok (k s).2 = true.
Proof.
  destruct s as [d w]. cbn zeta. unfold m_bind, inner. cbn beta iota. set (c := client _ _).
  pose proof (silent_send_report c r ReportConnected (d, w)) as Hr.
  destruct (send_report c r ReportConnected _) as [s1 b1]. cbn [fst] in Hr.
  pose proof (supervise_within q session c r token n s1) as Hs.
  apply (same_tunnel_within q supervised) in Hr.
  destruct (supervise _ _ _ _ _ _ _) as [s2 [o|]]; cbn [fst] in Hs.
  2:{ split; [by etransitivity|done]. }
  pose proof (silent_on_session Session.stop session s2) as Ht.
  destruct (on_session _ _ _) as [s3 x]. cbn [fst] in Ht.
  pose proof (silent_send_report c r ReportDisconnected s3) as Hd.
  destruct (send_report c r ReportDisconnected _) as [s4 b4]. cbn [fst] in Hd.
  split; [|done]. etransitivity; [exact Hr|]. etransitivity; [exact Hs|].
  apply same_tunnel_within. by etransitivity.
Qed.

(** An attempt is configured and fails, or was connected when it ends. *)
Lemma attempt_ends task n a :
  at_head a → ends (task_request task) (attempt_of task n) a supervised StateConfiguring.
Proof.
  intros Ha. unfold attempt_of, connect_once. set (r := task_request task).
  apply ends_then with (b := StateConfiguring); [| |by intros [d w]].
  { apply ends_transition; [by destruct Ha as [->|[->| ->]]|by constructor|].
    intros vpn Hr. cbn. apply into_request_current in Hr. by rewrite Hr. }
  intros []. repeat (apply ends_silent;
    [first [by intros [d w]; cbn; try case_match|apply silent_inner|apply silent_pure
           |apply silent_fetch_vpn_domain|apply silent_compute_otp|apply silent_map_err, silent_on_jar
           |apply silent_start_session]|intros ?]).
  apply ends_then with (b := StateConnected); [apply ends_mark_connected| |].
  - intros []. apply ends_tail; [by left|apply tail_within].
  - intros [d w]. unfold mark_connected, m_bind, upd, persist_credentials. by repeat case_match.
Qed.

(** ** The loop *)

Lemma mark_moves r a b d f :
  at_state r a d → a ≠ StateDisconnected → next_state a b →
  (∀ vpn, current_request (state vpn) = Some r →
     t_state (to_tunnel_proto (f vpn)) = b ∧
     (b ≠ StateDisconnected → current_request (state (f vpn)) = Some r)) →
  moves r a b d (vpn_transition f (set_active_outbound None d)).
Proof. intros Ha Hd Hn Hf. exact (transition_moves f r a b (set_active_outbound None d) Ha Hd Hn Hf). Qed.

Lemma mark_failed_moves r a e d :
  at_state r a d → a ≠ StateDisconnected → next_state a StateFailed →
  moves r a StateFailed d (mark_failed e d).
Proof.
  intros Ha Hd Hn. apply mark_moves; [done..|]. intros vpn Hr. cbn.
  by rewrite (into_request_current _ _ Hr).
Qed.
Lemma mark_disconnected_moves r a d :
  at_state r a d → a ≠ StateDisconnected → next_state a StateDisconnected →
  moves r a StateDisconnected d (mark_disconnected d).
Proof. intros Ha Hd Hn. by apply mark_moves. Qed.
Lemma reconnecting_moves r a d :
  at_state r a d → supervised a ∨ a = StateFailed →
  moves r a StateReconnecting d (vpn_transition set_reconnecting d).
Proof.
  intros Ha Hs. apply transition_moves; [done|by destruct Hs as [[->| ->]| ->]|by constructor|].
  intros vpn Hr. cbn. by rewrite (into_request_current _ _ Hr).
Qed.

(** Where a turn of the loop may come to, from [d] showing [a]. *)
Definition comes_to (r : VpnRequest) (a : TunnelState) (d : DaemonInner) (l : LoopState (W:=W)) : Prop :=
  match l with
  | LoopHead _ s' => ∃ b, at_head b ∧ moves r a b d s'.1
  | LoopInside s' => ∃ b, supervised b ∧ moves r a b d s'.1
  | LoopEnded s' => ∃ b, (b = StateDisconnected ∨ b = StateFailed) ∧ moves r a b d s'.1
  end.

Lemma comes_to_trans r a b d1 d2 (l : LoopState (W:=W)) :
  moves r a b d1 d2 → comes_to r b d2 l → comes_to r a d1 l.
Proof.
  intros Hm. destruct l as [c s|s|s]; cbn; intros (x & Hx & Hm'); (exists x; split; [done|by eapply moves_trans]).
Qed.

Lemma decide_comes_to c ev r a s :
  at_state r a s.1 → supervised a ∨ a = StateFailed →
  comes_to r a s.1 (record_and_decide sleep c ev s).
Proof.
  intros Ha Hs. assert (a ≠ StateDisconnected) by (by destruct Hs as [[->| ->]| ->]).
  unfold record_and_decide. destruct (Reconnect.record c ev) as [c1 decision].
  assert (Hretry : ∀ after, comes_to r a s.1
    match (match sleep after (vpn_transition set_reconnecting s.1, s.2) with
           | (s1, true) => (s1, true) | (s1, false) => ((mark_disconnected s1.1, s1.2), false) end) with
    | (s1, true) => LoopHead c1 s1 | (s1, false) => LoopEnded s1 end).
  { intros after. pose proof (reconnecting_moves r a s.1 Ha Hs) as Hm.
    destruct (sleep_within r after (vpn_transition set_reconnecting s.1, s.2) _ ltac:(by left) (proj1 Hm))
      as (b & Hb & Hsl). destruct (sleep after _) as [s1 goes]. cbn [fst] in Hsl.
    pose proof (moves_trans _ _ _ _ _ _ _ Hm Hsl) as Hm1.
    destruct goes; cbn [comes_to]; [exists b; split; [by right|done]|]. exists StateDisconnected. split; [by left|].
    eapply moves_trans; [exact Hm1|].
    apply mark_disconnected_moves; [apply Hm1|by destruct Hb as [->| ->]|constructor; by right]. }
  unfold handle_decision. destruct decision as [after n|after n|]; [apply Hretry..|].
  cbn. exists StateFailed. split; [by right|]. apply mark_failed_moves; [done..|by constructor].
Qed.

Lemma turn_comes_to task n c a s :
  at_head a → at_state (task_request task) a s.1 →
  comes_to (task_request task) a s.1 (loop_turn (attempt_of task n) sleep (task_cancel task) c s).
Proof.
  intros Hs Ha. unfold loop_turn. pose proof (attempt_ends task n a Hs s Ha) as Hm.
  destruct (attempt_of task n s) as [s1 [[[ev h|h|]|]|e]]; [..|].
  1-3: destruct Hm as (b & Hb & Hm).
  1,2: eapply comes_to_trans; [exact Hm|]; apply decide_comes_to; [apply Hm|by left].
  - exists StateDisconnected. split; [by left|]. eapply moves_trans; [exact Hm|].
    apply mark_disconnected_moves; [apply Hm|by destruct Hb as [->| ->]|constructor; by left].
  - exact Hm.
  - pose proof (moves_trans _ _ _ _ _ _ _ Hm
      (mark_failed_moves _ _ (daemon_error_to_string e) _ (proj1 Hm) ltac:(done) Fails)) as Hf.
    destruct (is_cancelled _ _); [exists StateFailed; split; [by right|exact Hf]|].
    eapply comes_to_trans; [exact Hf|].
    apply (decide_comes_to _ _ _ _ (mark_failed (daemon_error_to_string e) s1.1, s1.2)); [apply Hf|by right].
Qed.

Lemma task_comes_to task n s l :
  at_state (task_request task) StateConnecting s.1 → task_reaches task n s l →
  comes_to (task_request task) StateConnecting s.1 l.
Proof.
  intros Ha. induction 1 as [|c s1 _ IH]; cbn.
  - exists StateConnecting. split; [by left|by apply moves_refl].
  - destruct IH as (b & Hb & Hm). eapply comes_to_trans; [exact Hm|]. apply turn_comes_to; [done|apply Hm].
Qed.

End task.

(** ** Properties *)

Section claims.
Context `{Urls} `{!UrlHost} `{IpNet} `{!IpNetAddr} `{Crypto, KeyCodec, Serde, ErrorText}.
Context `{DnsConfig.Unicode, DnsConfig.UrlParser, DnsConfig.WildMatch, DnsResolver.DnsCodec} `{!Outbound.DnsNames}.
Context {W : Type} `{!Http W} `{Random W} `{Dialer.Sockets W} `{DnsResolver.Udp W} `{Outbound.Os W}
        `{Outbound.IpRule W} `{RouteManager W} `{!TunDriver W} `{Store W} `{Host W}.
Variable session_error_to_string : Session.SessionError → string.
Variable next_turn : nat → DaemonInner * W → (DaemonInner * W) * Turn.
Variable sleep : duration → DaemonInner * W → (DaemonInner * W) * bool.

(** C22: The connect task refines the tunnel's state machine. When an idle
    daemon with an authenticated account (and, before the first connect, a
    usable client) accepts a connect, the machine shows "connecting". As long as
    nobody else connects and no other disconnect ends - a disconnect may begin
    at any turn of the supervisor and in any sleep, and then waits for the
    task - every value sent afterwards, in however many attempts, is a step of
    the machine [next_state] from the one before and shows the mode asked for;
    the last value sent is always what the machine is; the task is at the head
    of its loop only when connecting, reconnecting or disconnecting, supervises
    only when connected or disconnecting, and ends disconnected or failed. *)
Theorem task_refines_states request turns d (w : W) :
  tunnel_left next_turn sleep → tokens_ok d → am_state (d_auth d) = Authenticated → idle d = true →
  (d_vpn d = None → is_some (build_tenant_client (d_auth d)) = true) →
  ∃ d1 t task, connect_tunnel request (d, w) = ((d1, w), Ok t) ∧ d_tunnel_task d1 = Some task ∧
    at_state request StateConnecting d1 ∧
    ∀ l, task_reaches session_error_to_string next_turn sleep task turns (d1, w) l →
         comes_to request StateConnecting d1 l.
Proof.
  intros Henv Htok Ha Hi Hc.
  destruct (connect_tunnel_accepted request d w Htok Ha Hi Hc) as (d1 & t & Hcall & Hcon & _).
  destruct Hcon as (vpn & Hv & Hst & _ & Ht & _ & _ & Hb & _).
  pose (task := {| task_request := request; task_cancel := cancel_token vpn |}). exists d1, t, task.
  assert (Hat : at_state request StateConnecting d1).
  { exists vpn. rewrite Hb, last_snoc. unfold to_tunnel_proto. by rewrite Hst. }
  do 3 (split; [done|]). intros l Hl. exact (task_comes_to _ _ _ Henv task turns (d1, w) l Hat Hl).
Qed.

End claims.
(** ** A whole system, for the witness

    A server with three nodes, a driver and a system in which every call
    succeeds; the device stops in the third turn of the supervisor, and a
    disconnect begins in the sleep before the retry, which it cancels. *)
Module Bench.
Import Echo AuthSample DnsConfig.Plain DnsResolver.Toy Outbound.Names.
#[global] Instance crypto : Crypto := Echo.crypto.
#[global] Instance host_text : UrlHost := λ _, Some "192.0.2.1".
#[global] Instance net : IpNet := DaemonSample.net.
#[global] Instance net_addr : IpNetAddr := λ _, V4 0.
#[global] Instance keys : KeyCodec := { hex_decode s := None; public_key k := k }.
Definition key : string := "0123456789abcdef0123456789abcdef".
#[global] Instance random : Random nat := { random_32 w := (w, bytes_of key); url_safe_no_pad := of_bytes }.
#[global] Instance serde : Serde := {
  json_to_vec _ := Ok []; utf8_percent_encode s _ := s;
  de_activate := Sample.fails; de_v2 := Sample.fails; de_string := Sample.fails;
  de_value _ := Ok (Sample.ok_with JNull); de_login := Sample.fails; de_links := Sample.fails;
  de_login_setting := Sample.fails; de_user := Sample.fails; de_tenant := Sample.fails;
  de_otp := Sample.fails; de_vpn_setting := Sample.fails;
  de_dots _ := Ok (Sample.ok_with [Sample.dot 1 1; Sample.dot 2 0; Sample.dot 3 0]);
  de_conn _ := Ok (Sample.ok_with {|
    conn_ip := "10.0.0.2"; conn_ipv6 := None; conn_ip_mask := Some 24;
    conn_public_key := key;
    conn_preshared_key := None; conn_sign_token := None; conn_protocol_version := None;
    conn_setting := conn_setting Sample.conn; conn_raw := None |});
  de_object _ := Ok (Sample.ok_with []) }.
#[global] Instance sockets : Dialer.Sockets nat := λ T e w, (w, Ok (Dialer.Granting.answer e)).
#[global] Instance udp : DnsResolver.Udp nat := {
  DnsResolver.udp_bind _ w := (w, Ok 3); DnsResolver.udp_send _ _ _ w := (w, Ok tt);
  DnsResolver.udp_recv _ _ _ w := (w, Ok None) }.
#[global] Instance rule : Outbound.IpRule nat := λ _ w, (w, Ok (true, "")).
#[global] Instance routes : RouteManager nat := {
  Routes.manager_new w := (w, Ok tt); Routes.route_add _ w := (w, Ok tt);
  Routes.route_delete _ w := (w, Ok tt) }.
#[global] Instance driver : TunDriver nat := {
  Session.tun_build _ w := (w, Ok 5); Session.tun_device_name _ w := (w, Ok "wg0");
  Session.tun_device_mtu _ w := (w, Ok 1400); Session.wg_build _ w := (w, Ok 6);
  Session.tun_drop _ w := w; Session.wg_stop _ w := w; Session.dns_serve _ _ w := (w, 7); Session.dns_shutdown _ w := w;
  Session.probe_start _ _ w := (w, 8); Session.probe_drop _ w := w; Session.probe_last_rx _ _ := None;
  Session.instant_now _ := 0; Session.lookup_host _ w := (w, Ok [sock (V4 0) 1]);
  Session.resolv_conf _ := Ok [] }.
#[global] Instance store : Store nat := {
  save_credentials _ _ w := (w, Ok tt); load_credentials _ _ := Ok None;
  remove_credentials _ w := (w, Ok tt); save_config _ _ w := (w, Ok tt);
  load_config _ _ := Ok config_default }.
#[global] Instance host : Host nat := {
  timestamp_text _ := "now"; port_free _ _ := true; pool_builds _ _ := true; blocking_ok _ := true;
  totp_from_url _ := None }.
#[global] Instance os : Outbound.Os nat := Outbound.OneCard.os.
Definition d0 : DaemonInner := {|
  d_auth := DaemonSample.auth; d_vpn := None; d_config := config_default;
  d_config_path := "config.json"; d_credential_path := "credentials.json"; d_broadcasts := [];
  d_tunnel_task := None; d_active_outbound := None; d_next_token := 0; d_cancelled := ∅ |}.
Definition turn (token : nat) (s : DaemonInner * nat) : (DaemonInner * nat) * Turn :=
  ((s.1, S s.2), if (S s.2 mod 3 =? 0)%nat then Supervisor.TDeviceStopped else Supervisor.TReport).
Definition sleep (t : duration) (s : DaemonInner * nat) : (DaemonInner * nat) * bool :=
  ((disconnect_begin s.1, s.2), false).
Definition run := 
  let s := (connect_tunnel vpn_request_default (d0, 0%nat)).1 in
  match d_tunnel_task s.1 with
  | Some task => connect_task (λ _, "session") turn sleep task 9 9 s
  | None => None
  end.
End Bench.

Lemma task_refines_states_witness :
  ∃ s', Bench.run = Some s' ∧ map t_state (d_broadcasts s'.1) =
    [StateConnecting; StateConfiguring; StateConnected; StateReconnecting; StateDisconnecting; StateDisconnected] ∧
  ∃ b, (b = StateDisconnected ∨ b = StateFailed) ∧
    moves vpn_request_default StateConnecting b
      (connect_tunnel (W:=nat) vpn_request_default (Bench.d0, 0%nat)).1.1 s'.1.
Proof.
  destruct (task_refines_states (W:=nat) (λ _, "session") Bench.turn Bench.sleep vpn_request_default 9 Bench.d0 0%nat)
    as (d1 & t & task & Hcall & Htask & _ & Hall).
  - split; [intros token s; apply Elsewhere; by split|intros t [dd ww]; apply DisconnectBegins].
  - split; [intros t Ht; by apply elem_of_empty in Ht|by intros v [=]].
  - reflexivity.
  - reflexivity.
  - reflexivity.
  - assert (Hend : match Bench.run with Some s' => map t_state (d_broadcasts s'.1) | None => [] end =
      [StateConnecting; StateConfiguring; StateConnected; StateReconnecting; StateDisconnecting; StateDisconnected])
      by (vm_compute; reflexivity).
    destruct Bench.run as [s'|] eqn:Hrun; [|discriminate Hend]. exists s'. split; [reflexivity|].
    split; [exact Hend|]. rewrite Hcall. unfold Bench.run in Hrun. rewrite Hcall in Hrun.
    cbn [fst] in Hrun. rewrite Htask in Hrun.
    apply connect_task_reaches in Hrun. exact (Hall _ Hrun).
Defined.

End ConnectTask.
