(* ===== verification/NoTrace.v ===== *)
(** * An attempt and the connect loop leave no trace

    The account of [Footprint] through [Daemon.connect_once] and
    [Daemon.run_connect_loop]: what they do besides running a session
    (requests, random keys, saving) and what the rest of the daemon does while
    they wait does not touch the machine. *)

From S2P Require Import Prelude RustStr Net Reconnect Models Signing Api Requests Login VpnState Negotiate Persist Faults.
From S2P Require Import AuthMachine Store Routes Interface Dialer DnsConfig DnsResolver Outbound TunDns Session Supervisor Footprint Daemon ConnectTask.
Import Models Signing Api Requests Login Negotiate Persist Faults AuthMachine Store Footprint Daemon.
Import Routes(IpNet, IpNetwork, RouteManager, RouteTable).
Import Session(TunnelConfig, TunnelSession, LocalTunnelParams, KeyCodec, UrlHost, IpNetAddr, TunDriver).

Module NoTrace.

(** Requests, random numbers and the files are not parts of the machine that
    is accounted for. *)
Class Untouched (W : Type) `{Urls} `{!Http W} `{Random W} `{Store W}
    `{IpNet} `{Dialer.Sockets W} `{DnsResolver.Udp W} `{Outbound.Os W} `{Outbound.RuleTable W} `{RouteTable W}
    `{!TunDriver W} `{!Footprint W} : Type := {
  untouched_http m u h b : keeps (held (W:=W)) (http_request m u h b);
  untouched_random (w : W) : held (random_32 w).1 = held w;
  untouched_save c p : keeps (held (W:=W)) (save_credentials c p);
}.

Section no_trace.
Context `{Urls} `{!UrlHost} `{IpNet} `{!IpNetAddr} `{Crypto, KeyCodec, Serde, ErrorText}.
Context `{DnsConfig.Unicode, DnsConfig.UrlParser, DnsConfig.WildMatch, DnsResolver.DnsCodec} `{!Outbound.DnsNames}.
Context {W : Type} `{!Http W} `{Random W} `{Dialer.Sockets W} `{DnsResolver.Udp W} `{Outbound.Os W}
        `{Outbound.RuleTable W} `{RouteTable W} `{!TunDriver W} `{Store W} `{Host W}
        `{!Footprint W} `{!Untouched W}.
Abbreviation St := (DaemonInner * W)%type.

(** ** Requests *)

Definition jar_held (x : CookieStore * W) : Held := held x.2.
Definition st_held (s : St) : Held := held s.2.
#[local] Hint Extern 1 (keeps _ (m_bind _ _)) => apply keeps_bind; [|intros ?] : rust.

Lemma held_execute c r : keeps jar_held (execute c r).
Proof.
  intros [jar w]. unfold execute. destruct (prepare c r jar (now_seconds w)) as [[[u h] b]|e]; [|done].
  pose proof (untouched_http (METHOD_ r) u h b w) as Hh.
  destruct (http_request _ _ _ _ w) as [w1 [response|e]]; cbn [fst] in Hh; [|exact Hh].
  destruct (resp_body response); [destruct (negb _)|]; exact Hh.
Qed.
#[local] Hint Resolve held_execute : rust.

Lemma held_send {T} (decode : bytes → result string (BaseResponse T)) c r : keeps jar_held (send decode c r).
Proof. unfold send. auto with rust. Qed.
#[local] Hint Resolve held_send : rust.

Lemma held_dot_attempts client req n last x : jar_held (dot_attempts client req n last x).1 = jar_held x.
Proof.
  revert last x. induction n as [|n IH]; intros last x; cbn [dot_attempts]; [done|].
  pose proof (held_send de_conn client req x) as Hs.
  destruct (send de_conn client req x) as [x1 [r|e]]; cbn [fst] in *; [done|by rewrite IH].
Qed.

Lemma held_try_dots build r dots last : keeps jar_held (try_dots build r dots last).
Proof.
  revert last. induction dots as [|d dots IH]; intros last x; cbn [try_dots]; [done|].
  destruct (from_dot d _) as [endpoint|e]; [|done].
  pose proof (held_dot_attempts (build endpoint) (conn_request r d) MAX_CONFIG_ATTEMPTS_PER_DOT last x) as Ha.
  destruct (dot_attempts _ _ _ _ x) as [x1 [response|last1]]; cbn [fst] in *; [|by rewrite IH].
  by destruct (data response).
Qed.

Lemma held_probe_all build i dots x : jar_held (probe_all build i dots x).1 = jar_held x.
Proof.
  revert i x. induction dots as [|d dots IH]; intros i x; cbn [probe_all]; [done|].
  destruct (build d) as [client|]; [|apply IH].
  assert (Hp : jar_held (probe_latency client DEFAULT_PROBE_TIMEOUT x).1 = jar_held x).
  { assert (Hv : keeps jar_held (vpn_ping client)) by (unfold vpn_ping; auto with rust).
    unfold probe_latency. specialize (Hv x). by destruct (vpn_ping client x) as [x1 [[]|e]]. }
  destruct (probe_latency client _ x) as [x1 rtt]. cbn [fst] in Hp. specialize (IH (S i) x1).
  destruct (probe_all build (S i) dots x1) as [x2 rest]. cbn [fst] in *. congruence.
Qed.

Lemma held_negotiation build rank client r :
  (∀ dots x, jar_held (rank dots x).1 = jar_held x) →
  keeps jar_held (vpn_config_from_dot_list build rank client r).
Proof.
  intros Hrank. unfold vpn_config_from_dot_list. apply keeps_bind; [auto with rust|intros locations].
  apply keeps_bind; [auto with rust|intros [|d dots]]; [auto with rust|].
  destruct (candidates r (d :: dots)) as [|c cs]; [auto with rust|]. intros x.
  assert (Ho : jar_held (order_candidates rank r (c :: cs) x).1 = jar_held x).
  { unfold order_candidates. destruct (_ && _); [apply Hrank|done]. }
  destruct (order_candidates _ _ _ x) as [x1 ranked]. cbn [fst] in Ho. rewrite <- Ho. apply held_try_dots.
Qed.

Lemma held_ranking build dots x : jar_held (rank_by_probing build dots x).1 = jar_held x.
Proof.
  unfold rank_by_probing. destruct (_ <=? 1)%nat; [done|].
  pose proof (held_probe_all build 0 dots x) as Hp. by destruct (probe_all build 0 dots x).
Qed.

(** ** The daemon's own steps *)

Lemma held_on_jar {E A} (m : M (CookieStore * W) E A) : keeps jar_held m → keeps st_held (on_jar m).
Proof.
  intros Hm [d w]. unfold on_jar, on_auth, through. specialize (Hm (am_cookies (d_auth d), w)).
  by destruct (m _) as [[jar w1] r].
Qed.
Lemma held_upd f : keeps st_held (upd f).
Proof. by intros [d w]. Qed.
Lemma held_inner : keeps st_held (inner (W:=W)).
Proof. by intros [d w]. Qed.
#[local] Hint Resolve held_on_jar held_upd held_inner : rust.

Lemma held_persist : keeps st_held (persist_credentials (W:=W)).
Proof.
  intros [d w]. unfold persist_credentials. destruct (negb _); [done|].
  destruct (to_credentials_with_vpn _ _ _) as [creds|]; [|done]. apply untouched_save.
Qed.
#[local] Hint Resolve held_persist : rust.

Lemma held_fetch_domain client : keeps st_held (fetch_vpn_domain (W:=W) client).
Proof. unfold fetch_vpn_domain. auto 10 with rust. Qed.

Lemma held_mark_connected c ip t : keeps st_held (mark_connected (W:=W) c ip t).
Proof. unfold mark_connected. auto with rust. Qed.

Lemma held_report client r t s : st_held (send_report (W:=W) client r t s).1 = st_held s.
Proof.
  unfold send_report.
  pose proof (held_on_jar _ (held_send de_value client
    (VpnReportRequest (report_wire t) (rp_assigned_ip r) (rp_pub_key r) (android_name (rp_mode r)))) s) as Hs.
  by destruct (on_jar _ s) as [s1 [response|e]].
Qed.

(** ** An attempt *)

Variable session_error_to_string : Session.SessionError → string.
Variable next_turn : nat → St → St * Supervisor.Turn.
Variables (request : VpnRequest) (h0 : Held).

(** A start can fail once its routes are applied, and not be cleaned up: their
    removal fails. *)
Definition late_failure : Prop :=
  ∃ c (w : W), let '(sw, r) := Session.start_inner (Session.session_new c, w) in
    is_ok r = false ∧ is_some (Session.routes sw.1) = true ∧ is_ok (Session.stop sw).2 = false.
(** Rules of the bypass of a full tunnel can stay. *)
Definition wants_full : Prop := mode request = Full.
Definition leaks : Prop := wants_full ∧ (refused W ∨ late_failure).
Definition clean (s : St) : Prop := settled leaks h0 (st_held s).
(** The session runs on the machine. *)
Definition runs (session : TunnelSession) (s : St) : Prop := ∃ t, up wants_full leaks h0 t (session, s.2).

Hypothesis h0_rules : no_rules h0.
Hypothesis deletes : Routes.deletes_present W.
Hypothesis opens : ∀ w : W, is_ok (Routes.manager_new w).2 = true.
Lemma refusal_leaks : wants_full → refused W → leaks.
Proof. by split; [|left]. Qed.

(** A start that failed: the machine is as it was, but for the rules that stay. *)
Lemma failed_start_clean c w :
  settled leaks h0 (held w) → (Session.full_tunnel c = true → wants_full) →
  let '((_, w1), r) := Session.start (Session.session_new c, w) in
  is_ok r = false → settled leaks h0 (held w1).
Proof.
  intros Hs Hf. pose proof (start_accounts wants_full leaks h0 refusal_leaks h0_rules c Hf _ (settled_at _ _ _ c w Hs)) as Ha.
  pose proof (Session.start_outcome_spec c w) as Ho.
  destruct (Session.start (Session.session_new c, w)) as [[s w1] [[]|e]]; [done|]. intros _.
  destruct Ho as (He & Hd & Hp & Hn & Hr & [Hall|[Hstop _]]).
  - by apply accounts_released with wants_full s; [|apply Hall|..].
  - split; [by apply (accounts_but_rules wants_full leaks h0 s)|]. destruct Ha as (_ & A2 & _).
    unfold rules_account in A2. cbn [fst snd] in A2. destruct (is_some_and _ _); [|exact A2].
    destruct A2 as [Hfull A2]. right. rewrite A2. split; [|unfold with_rules; set_solver]. split; [done|]. right.
    exists c, w. destruct (Session.start_inner _) as [[s1 w2] r]. cbn [fst snd] in *. subst r.
    split; [done|]. split; [|done]. rewrite Session.stop_answer in Hstop. by destruct (Session.routes s1).
Qed.

Hypothesis turn_held : ∀ t s, st_held (next_turn t s).1 = st_held s.

(** A step that leaves the machine alone. *)
Lemma clean_bind {A B} (m : M St DaemonError A) (k : A → M St DaemonError B) Q :
  keeps st_held m → (∀ a, hoare clean (k a) Q (λ _, clean)) → hoare clean (m_bind m k) Q (λ _, clean).
Proof.
  intros Hm Hk. apply hoare_bind with (λ _, clean); [|exact Hk]. intros s Hs. specialize (Hm s). unfold clean in *.
  destruct (m s) as [s1 [a|e]]; cbn in Hm; by rewrite Hm.
Qed.

Lemma from_conn_full conn p endpoint t route_mode c :
  Session.from_vpn_conn conn p endpoint t route_mode = Ok c →
  Session.full_tunnel c = true → route_mode = Routes.RouteFull.
Proof.
  unfold Session.from_vpn_conn. destruct (_ <=? 0); [done|].
  destruct (Routes.networks_from_vpn_conn _ _ _) as [n|e]; cbn; [|done]. intros [= <-]. by destruct route_mode.
Qed.

Lemma clean_start_session c conn p transport :
  hoare clean (start_session session_error_to_string c conn p request transport)
    runs (λ _, clean).
Proof.
  unfold start_session. apply clean_bind; [apply held_upd|intros _].
  apply clean_bind; [apply held_inner|intros d].
  destruct (Session.from_vpn_conn _ _ _ _ _) as [tunnel|e] eqn:Hc.
  2:{ intros s Hs. exact Hs. }
  cbn [map_err]. eapply hoare_bind; [apply (hoare_lift (Ok tunnel) clean (λ t s, t = tunnel ∧ clean s)); [|done]|].
  { intros t s [= ->] Hs. done. }
  intros t s [-> Hs]. cbv beta zeta. unfold on_session.
  match goal with |- context [Session.session_new ?x] => set (tc := x) end.
  assert (Hl : Session.full_tunnel tc = true → wants_full).
  { intros Hf. apply (from_conn_full _ _ _ _ _ _ Hc) in Hf. unfold wants_full. by destruct (mode request). }
  pose proof (start_accounts wants_full leaks h0 refusal_leaks h0_rules tc Hl _ (settled_at _ _ _ tc s.2 Hs)) as Ha.
  pose proof (failed_start_clean tc s.2 Hs Hl) as Hf.
  destruct (Session.start (Session.session_new tc, s.2)) as [[x w1] [[]|e]]; [exact Ha|by apply Hf].
Qed.

(** The supervisor only waits, reports and reads. *)
Lemma held_supervise session client r token turns s :
  st_held (supervise next_turn session client r token turns s).1 = st_held s.
Proof.
  apply (Supervisor.run_keeps _ _ _ _ st_held); [apply turn_held|apply held_report].
Qed.

(** Supervising, stopping and reporting. *)
Lemma clean_run_session session client r token turns s :
  runs session s →
  let res := (let '(s1, _) := send_report client r ReportConnected s in
    match supervise next_turn session client r token turns s1 with
    | (s2, None) => (s2, Ok None)
    | (s2, Some outcome) =>
        let '(s3, _) := on_session Session.stop session s2 in
        let '(s4, _) := send_report client r ReportDisconnected s3 in
        (s4, Ok (Some outcome))
    end : St * result DaemonError (option Supervisor.SupervisorOutcome)) in
  match res with
  | (s', Ok None) => runs session s'
  | (s', _) => clean s'
  end.
Proof.
  intros Ha. cbv zeta. pose proof (held_report client r ReportConnected s) as H1'.
  destruct (send_report client r ReportConnected s) as [s1 kicked]. cbn [fst] in H1'.
  pose proof (held_supervise session client r token turns s1) as H2'.
  destruct (supervise next_turn session client r token turns s1) as [s2 [outcome|]]; cbn [fst] in H2'.
  2:{ destruct Ha as (t & Ha & Hd). exists t. split; [|done]. unfold acc, st_held in *. cbn in *. by rewrite H2', H1'. }
  unfold on_session. destruct Ha as (t & Ha & Hd).
  assert (Hat : at_ wants_full leaks h0 (Some t) session (session, s2.2)).
  { split; [done|]. unfold acc, st_held in *. cbn in *. by rewrite H2', H1'. }
  pose proof (stop_accounts wants_full leaks h0 refusal_leaks h0_rules (Some t) session (or_intror Hd) _ Hat) as Hs.
  pose proof (stop_works wants_full leaks h0 t session s2.2 deletes opens (proj2 Hat)) as Hok.
  destruct (Session.stop (session, s2.2)) as [[x w3] r3]. cbn in Hs |- *.
  pose proof (held_report client r ReportDisconnected (s2.1, w3)) as H3'.
  destruct (send_report client r ReportDisconnected (s2.1, w3)) as [s4 k4]. cbn [fst] in H3'.
  unfold clean. rewrite H3'. by destruct r3.
Qed.

Lemma clean_connect_once token turns :
  hoare clean (connect_once session_error_to_string next_turn request token turns)
    (λ o s, match o with Some _ => clean s | None => ∃ session, runs session s end)
    (λ _, clean).
Proof.
  unfold connect_once. apply clean_bind; [apply held_upd|intros _].
  apply clean_bind; [apply held_inner|intros d]. apply clean_bind; [apply keeps_lift|intros client].
  apply clean_bind; [apply held_fetch_domain|intros domain].
  apply clean_bind.
  { intros [d' w]. pose proof (untouched_random w) as Hr. by destruct (random_32 w). }
  intros local. apply clean_bind; [by intros [d' w]|intros code].
  apply clean_bind; [apply held_inner|intros d1]. apply clean_bind; [by intros [d' w]|intros pool_ok].
  apply clean_bind.
  { apply keeps_map_err, held_on_jar, held_negotiation. intros dots x. apply held_ranking. }
  intros result. apply clean_bind; [apply keeps_lift|intros conn].
  eapply hoare_bind; [apply clean_start_session|]. intros session.
  assert (Hacc : ∀ {A B} (m : M St DaemonError A) (k : A → M St DaemonError B) Q,
    keeps st_held m → (∀ s e, (m s).2 ≠ Err e) →
    (∀ a, hoare (runs session) (k a) Q (λ _, clean)) →
    hoare (runs session) (m_bind m k) Q (λ _, clean)).
  { intros A B m k Q Hm Hok Hk s Hs. specialize (Hm s). specialize (Hok s). unfold m_bind.
    destruct (m s) as [s1 [a|e]]; cbn [fst snd] in *; [|by destruct (Hok e)]. apply Hk.
    destruct Hs as (t & Ha & Hd). exists t. split; [|done]. unfold acc, st_held in *. cbn in *. by rewrite Hm. }
  apply Hacc; [apply held_mark_connected| |intros _].
  { intros [d' w] e. unfold mark_connected, m_bind, upd, persist_credentials.
    destruct (negb _); [done|]. by destruct (to_credentials_with_vpn _ _ _). }
  apply Hacc; [apply held_inner|by intros [d' w]|intros d2]. apply Hacc; [by intros [d' w]|by intros [d' w]|].
  intros pool_ok2 s Hs.
  pose proof (clean_run_session session
    (build_dot_api_client pool_ok2 (res_endpoint result) (build_hooks (d_auth d2)) domain
       (dc_outbound_interface (d_config d2))).1
    {| rp_assigned_ip := conn_ip conn; rp_pub_key := Session.lp_public_key local; rp_mode := mode request |}
    token turns s Hs) as Hr. cbv zeta in Hr |- *.
  match goal with |- match ?x with _ => _ end => match type of Hr with match ?y with _ => _ end => change x with y end end.
  destruct (let '(_, _) := _ in _) as [s' [[o|]|e]]; [exact Hr|by exists session|exact Hr].
Qed.

(** ** The loop *)

Variable sleep : duration → St → St * bool.
Hypothesis sleep_held : ∀ t s, st_held (sleep t s).1 = st_held s.

Lemma held_transition f (s : St) : st_held (vpn_transition f s.1, s.2) = st_held s.
Proof. done. Qed.

Lemma held_decision decision s : st_held (handle_decision sleep decision s).1 = st_held s.
Proof.
  unfold handle_decision. destruct decision as [a n|a n|]; [| |done].
  all: pose proof (sleep_held a (vpn_transition set_reconnecting s.1, s.2)) as Hs;
    destruct (sleep a _) as [s1 []]; exact Hs.
Qed.

Lemma clean_turn token turns c s :
  clean s →
  match loop_turn (connect_once session_error_to_string next_turn request token turns) sleep token c s with
  | LoopHead _ s' | LoopEnded s' => clean s'
  | LoopInside s' => ∃ session, runs session s'
  end.
Proof.
  intros Hs.
  assert (Hrec : ∀ c ev s, clean s →
    match record_and_decide sleep c ev s with
    | LoopHead _ s' | LoopEnded s' => clean s'
    | LoopInside _ => False
    end).
  { intros c0 ev s0 Hs0. unfold record_and_decide. destruct (Reconnect.record c0 ev) as [c1 decision].
    pose proof (held_decision decision s0) as Hd. unfold clean in *.
    destruct (handle_decision sleep decision s0) as [s1 []]; cbn [fst] in Hd; by rewrite Hd. }
  assert (Hrec' : ∀ c ev s, clean s →
    match record_and_decide sleep c ev s with
    | LoopHead _ s' | LoopEnded s' => clean s'
    | LoopInside s' => ∃ session, runs session s'
    end).
  { intros c0 ev s0 Hs0. specialize (Hrec c0 ev s0 Hs0). by destruct (record_and_decide sleep c0 ev s0). }
  unfold loop_turn. pose proof (clean_connect_once token turns s Hs) as Ho.
  destruct (connect_once _ _ request token turns s) as [s1 [[[ev h|h|]|]|e]].
  - by apply Hrec'.
  - by apply Hrec'.
  - exact Ho.
  - exact Ho.
  - destruct (is_cancelled _ _); [exact Ho|by apply Hrec'].
Qed.

Lemma clean_loop token turns fuel c s s' :
  clean s →
  connect_loop (connect_once session_error_to_string next_turn request token turns) sleep token fuel c s = Some s' →
  clean s'.
Proof.
  revert c s. induction fuel as [|fuel IH]; intros c s Hs; cbn [connect_loop]; [done|].
  pose proof (clean_turn token turns c s Hs) as Ht.
  destruct (loop_turn _ sleep token c s) as [c1 s1|s1|s1]; [by apply IH|done|congruence].
Qed.

End no_trace.

(** ** Properties *)

(** C3: However a tunnel is kept up, the machine comes back as it was: when the
    connect loop of a request ends, after any number of attempts, failed,
    lost, kicked out or cancelled, the routing table and the TUN and WireGuard
    devices, DNS servers and probes are exactly those before the connect, and
    so are the policy rules, but for rules of the bypass, when a full tunnel
    was asked for and either the system can refuse one of them or the removal
    of one that is there, or a start can fail once its routes are applied
    without being able to remove them.  Assumed: the rules were not there
    before; routes that are there can be deleted and the route manager opens,
    so that the stop of a session that ran works; and neither requests, random
    numbers and files, nor what happens while the supervisor waits and the
    loop sleeps, touch the tunnel's part of the machine. *)
Theorem connect_leaves_no_trace `{Urls} `{!UrlHost} `{IpNet} `{!IpNetAddr} `{Crypto, KeyCodec, Serde, ErrorText}
    `{DnsConfig.Unicode, DnsConfig.UrlParser, DnsConfig.WildMatch, DnsResolver.DnsCodec} `{!Outbound.DnsNames}
    {W : Type} `{!Http W} `{Random W} `{Dialer.Sockets W} `{DnsResolver.Udp W} `{Outbound.Os W}
    `{Outbound.RuleTable W} `{RouteTable W} `{!TunDriver W} `{Store W} `{Host W} `{!Footprint W} `{!Untouched W}
    show (next_turn : nat → DaemonInner * W → (DaemonInner * W) * Supervisor.Turn) sleep request token turns fuel
    (s s' : DaemonInner * W) :
  no_rules (held s.2) → Routes.deletes_present W → (∀ w : W, is_ok (Routes.manager_new w).2 = true) →
  (∀ t s, held (next_turn t s).1.2 = held s.2) → (∀ t s, held (sleep t s).1.2 = held s.2) →
  run_connect_loop (connect_once show next_turn request token turns) sleep token fuel s = Some s' →
  but_rules (held s'.2) = but_rules (held s.2) ∧
  rules_within (mode request = Full ∧ (refused W ∨ late_failure (W:=W))) (h_rules (held s.2)) (h_rules (held s'.2)).
Proof.
  intros Hrules Hdel Hopen Hturn Hsleep Hrun.
  exact (clean_loop show next_turn request (held s.2) Hrules Hdel Hopen Hturn sleep Hsleep
    token turns fuel _ s s' (settled_refl _ _) Hrun).
Qed.

(** ** A machine, for the witnesses

    The system of [ConnectTask.Bench] on a machine that keeps its routes, rules,
    devices, servers and probes, and refuses nothing. *)
Module Machine.
Import Echo AuthSample DnsConfig.Plain DnsResolver.Toy Outbound.Names ConnectTask.Bench.
#[local] Existing Instances Routes.Route_eq_dec Routes.Route_countable.
Record World : Type := { clock : nat; parts : Held }.
Definition with_parts (h : Held) (w : World) : World := {| clock := clock w; parts := h |}.
Definition with_routes (x : gset Routes.Route) (h : Held) : Held := {|
  h_routes := x; h_rules := h_rules h; h_tuns := h_tuns h; h_devices := h_devices h; h_servers := h_servers h; h_probes := h_probes h |}.
Definition with_rules (x : gset (list string)) (h : Held) : Held := {|
  h_routes := h_routes h; h_rules := x; h_tuns := h_tuns h; h_devices := h_devices h; h_servers := h_servers h; h_probes := h_probes h |}.
Definition with_tuns (x : gset Z) (h : Held) : Held := {|
  h_routes := h_routes h; h_rules := h_rules h; h_tuns := x; h_devices := h_devices h; h_servers := h_servers h; h_probes := h_probes h |}.
Definition with_devices (x : gmap Z Z) (h : Held) : Held := {|
  h_routes := h_routes h; h_rules := h_rules h; h_tuns := h_tuns h; h_devices := x; h_servers := h_servers h; h_probes := h_probes h |}.
Definition with_servers (x : gset Z) (h : Held) : Held := {|
  h_routes := h_routes h; h_rules := h_rules h; h_tuns := h_tuns h; h_devices := h_devices h; h_servers := x; h_probes := h_probes h |}.
Definition with_probes (x : gset Z) (h : Held) : Held := {|
  h_routes := h_routes h; h_rules := h_rules h; h_tuns := h_tuns h; h_devices := h_devices h; h_servers := h_servers h; h_probes := x |}.
Definition on_parts (f : Held → Held) (w : World) : World := with_parts (f (parts w)) w.
(** The calls of the smaller system, which only move the clock. *)
Definition lift {E A} (m : M nat E A) : M World E A :=
  λ w, let '(n, r) := m (clock w) in ({| clock := n; parts := parts w |}, r).

#[global] Instance http : Http World := {
  http_request m u h b := lift (http_request m u h b); now_seconds w := now_seconds (clock w);
  cookie_parse := cookie_parse; header_value_ok := header_value_ok; header_name_ok := header_name_ok;
  from_utf8_lossy := from_utf8_lossy; json_from_slice := json_from_slice }.
#[global] Instance random : Random World := {
  random_32 w := (w, bytes_of key); url_safe_no_pad := of_bytes }.
#[global] Instance sockets : Dialer.Sockets World := λ T e, lift (Dialer.sys e).
#[global] Instance udp : DnsResolver.Udp World := {
  DnsResolver.udp_bind a := lift (DnsResolver.udp_bind a);
  DnsResolver.udp_send s p a := lift (DnsResolver.udp_send s p a);
  DnsResolver.udp_recv s n t := lift (DnsResolver.udp_recv s n t) }.
#[global] Instance rule_cmd : Outbound.IpRule World := λ args w,
  let '(l, r) := Outbound.RuleSet.run args (h_rules (parts w)) in (on_parts (with_rules l) w, r).
#[global] Instance rule_table : Outbound.RuleTable World.
Proof.
  refine {| Outbound.rules w := h_rules (parts w) |}.
  - intros r w. pose proof (Outbound.RuleSet.add_law r (h_rules (parts w))) as Hl.
    unfold Outbound.ip_rule, rule_cmd. by destruct (Outbound.RuleSet.run _ _) as [l res].
  - done.
Defined.
#[global] Instance manager : RouteManager World := {
  Routes.manager_new w := (w, Ok tt);
  Routes.route_add r w :=
    if decide (r ∈ h_routes (parts w)) then (w, Err (IoError AlreadyExists "exists"))
    else (on_parts (with_routes ({[r]} ∪ h_routes (parts w))) w, Ok tt);
  Routes.route_delete r w :=
    if decide (r ∈ h_routes (parts w)) then (on_parts (with_routes (h_routes (parts w) ∖ {[r]})) w, Ok tt)
    else (w, Err (IoError NotFound "missing")) }.
#[global] Instance routes : RouteTable World.
Proof.
  refine {| Routes.table w := h_routes (parts w) |}; cbn.
  - done.
  - intros r w w'. case_decide; intros [= <-]. done.
  - intros r w w' e. case_decide; intros [= <- <-]. done.
  - intros r w w'. case_decide; intros [= <-]. done.
  - intros r w w' e. by case_decide; intros [= <- <-].
Defined.
#[global] Instance os : Outbound.Os World := {
  Outbound.os_interfaces _ := [Outbound.OneCard.card]; Outbound.os_default_if _ := Some Outbound.OneCard.card;
  Outbound.os_dns_conf _ := Ok [V4 (v4 9 9 9 9)]; Outbound.os_sleep _ w := w }.
#[global] Instance driver : TunDriver World := {
  Session.tun_build _ w :=
    if decide (off "wg0" (h_routes (parts w)) = h_routes (parts w)) then
      let t := fresh (h_tuns (parts w)) in (on_parts (with_tuns ({[t]} ∪ h_tuns (parts w))) w, Ok t)
    else (w, Err (IoError AlreadyExists "wg0"));
  Session.tun_drop t w := on_parts (λ h, with_tuns (h_tuns h ∖ {[t]}) (with_routes (off "wg0" (h_routes h)) h)) w;
  Session.tun_device_name _ w := (w, Ok "wg0");
  Session.tun_device_mtu _ w := (w, Ok 1400);
  Session.wg_build spec w :=
    if Session.wg_listen_port spec =? 0 then (w, Err "port")
    else
      let d := fresh (dom (h_devices (parts w)) : gset Z) in
      (on_parts (with_devices (<[d := (Session.wg_tun spec).1]> (h_devices (parts w)))) w, Ok d);
  Session.wg_stop d w :=
    match h_devices (parts w) !! d with
    | Some t => on_parts (λ h, with_devices (delete d (h_devices h))
                  (with_tuns (h_tuns h ∖ {[t]}) (with_routes (off "wg0" (h_routes h)) h))) w
    | None => w
    end;
  Session.dns_serve _ _ w :=
    let d := fresh (h_servers (parts w)) in (on_parts (with_servers ({[d]} ∪ h_servers (parts w))) w, d);
  Session.dns_shutdown d w := on_parts (with_servers (h_servers (parts w) ∖ {[d]})) w;
  Session.probe_start _ _ w :=
    let d := fresh (h_probes (parts w)) in (on_parts (with_probes ({[d]} ∪ h_probes (parts w))) w, d);
  Session.probe_drop d w := on_parts (with_probes (h_probes (parts w) ∖ {[d]})) w;
  Session.probe_last_rx _ _ := None; Session.instant_now _ := 0;
  Session.lookup_host _ w := (w, Ok [sock (V4 0) 1]); Session.resolv_conf _ := Ok [] }.
#[global] Instance store : Store World := {
  save_credentials _ _ w := (w, Ok tt); load_credentials _ _ := Ok None;
  remove_credentials _ w := (w, Ok tt); save_config _ _ w := (w, Ok tt);
  load_config _ _ := Ok config_default }.
#[global] Instance host : Host World := {
  timestamp_text _ := "now"; port_free _ _ := true; pool_builds _ _ := true; blocking_ok _ := true;
  totp_from_url _ := None }.
#[global] Instance footprint : Footprint World.
Proof.
  refine {| held := parts; dev_name _ := "wg0" |}; try done.
  - intros spec w. cbn. case_decide as Ho; [|done]. split; [done|]. split; [split; [apply is_fresh|done]|]. done.
  - by intros t w n [= <-].
  - intros r w. cbn. by case_decide.
  - intros r w. cbn. by case_decide.
  - intros args w. cbn. unfold Outbound.ip_rule, rule_cmd. by destruct (Outbound.RuleSet.run _ _).
  - intros x w. cbn. destruct (_ =? 0); [done|]. split; [done|]. split; [|done].
    apply not_elem_of_dom, is_fresh.
  - intros d t w Hd. cbn in *. by rewrite Hd.
  - intros s r w. split; [done|]. split; [apply is_fresh|done].
  - intros d l w. split; [done|]. split; [apply is_fresh|done].
Defined.
#[global] Instance untouched : Untouched World.
Proof. by split. Defined.

Definition nothing : Held := {| h_routes := ∅; h_rules := ∅; h_tuns := ∅; h_devices := ∅; h_servers := ∅; h_probes := ∅ |}.
(** A full tunnel with two routes and a DNS server, on a local port. *)
Definition config_on (port : Z) : TunnelConfig := {|
  Session.interface_name := "wg0"; Session.local_addr := "10.0.0.2"; Session.local_addr_v6 := None;
  Session.local_prefix := Some 24; Session.mtu := 1400; Session.local_private_key := key;
  Session.local_public_key := key; Session.local_port := port; Session.server_public_key := key;
  Session.server_preshared_key := None; Session.tc_endpoint := ("udp://192.0.2.1:443" : Url);
  Session.tc_protocol_mode := Udp; Session.protocol_version := None; Session.outbound_interface := None;
  Session.tc_routes := ["0.0.0.0/1"; "128.0.0.0/1"]; Session.full_tunnel := true;
  Session.ipv6_enabled := false;
  Session.dns := {| DnsConfig.full_tunnel := true; DnsConfig.vpn_servers := ["10.0.0.53:53"];
                    DnsConfig.split_matchers := []; DnsConfig.dynamic := {| DnsConfig.exact_v4 := ∅;
                      DnsConfig.exact_v6 := ∅; DnsConfig.wildcard_v4 := []; DnsConfig.suffix_v4 := [] |};
                    DnsConfig.cfg_central_dns := None; DnsConfig.cfg_ip_nats := [] |};
  Session.route_system_dns := true; Session.dns_listen_port := 5353; Session.dns_listen_host := None;
  Session.fallback_dns := None |}.
Definition turn (token : nat) (s : DaemonInner * World) : (DaemonInner * World) * Supervisor.Turn :=
  ((s.1, {| clock := S (clock s.2); parts := parts s.2 |}),
   if (S (clock s.2) mod 3 =? 0)%nat then Supervisor.TDeviceStopped else Supervisor.TReport).
Definition sleep (t : duration) (s : DaemonInner * World) : (DaemonInner * World) * bool := (s, false).
Definition idle : World := {| clock := 0; parts := nothing |}.
Definition start : DaemonInner * World := (connect_tunnel vpn_request_default (d0, idle)).1.
Definition run : option (DaemonInner * World) :=
  run_connect_loop (connect_once (λ _, "session") turn vpn_request_default 0 9) sleep 0 9 start.
End Machine.

Lemma machine_deletes : Routes.deletes_present Machine.World.
Proof. intros r w Hr. cbn. by rewrite decide_True. Qed.
Lemma machine_refuses : Routes.refuses_absent Machine.World.
Proof. intros r w Hr. cbn. by rewrite decide_False. Qed.

Lemma machine_empty : no_rules Machine.nothing.
Proof. split; intros Hin; by apply elem_of_empty in Hin. Qed.

Lemma connect_leaves_no_trace_witness :
  ∃ s', Machine.run = Some s' ∧
    map t_state (d_broadcasts s'.1) =
      [StateConnecting; StateConfiguring; StateConnected; StateReconnecting; StateDisconnected] ∧
    but_rules (held s'.2) = but_rules Machine.nothing.
Proof.
  assert (Hend : match Machine.run with Some s' => map t_state (d_broadcasts s'.1) | None => [] end =
      [StateConnecting; StateConfiguring; StateConnected; StateReconnecting; StateDisconnected])
    by (vm_compute; reflexivity).
  destruct Machine.run as [s'|] eqn:Hrun; [|discriminate Hend].
  exists s'. split; [reflexivity|]. split; [exact Hend|].
  refine (proj1 (connect_leaves_no_trace (W:=Machine.World) (λ _, "session") Machine.turn Machine.sleep
           vpn_request_default 0 9 9 Machine.start s' _ _ _ _ _ _)).
  - exact machine_empty.
  - exact machine_deletes.
  - reflexivity.
  - reflexivity.
  - reflexivity.
  - exact Hrun.
Defined.

Lemma session_leaves_no_trace_witness :
  ∃ s w1 w2, Session.start (Session.session_new (Machine.config_on 12912), Machine.idle) = ((s, w1), Ok tt) ∧
    is_some (Session.bypass s) = true ∧ Session.stop (s, w1) = w2 ∧ but_rules (held w2.1.2) = but_rules Machine.nothing.
Proof.
  pose proof (session_leaves_no_trace (W:=Machine.World) (Machine.config_on 12912) Machine.idle machine_empty) as Hs.
  cbv zeta in Hs.
  assert (Hok : is_ok (Session.start (Session.session_new (Machine.config_on 12912), Machine.idle)).2 = true)
    by (vm_compute; reflexivity).
  assert (Hb : is_some (Session.bypass (Session.start (Session.session_new (Machine.config_on 12912), Machine.idle)).1.1) = true)
    by (vm_compute; reflexivity).
  destruct (Session.start _) as [[s w1] [[]|e]]; [|discriminate Hok].
  destruct Hs as (_ & _ & _ & _ & _ & Hstop). destruct (Hstop w1 eq_refl) as [Hset Hworks].
  specialize (Hworks machine_deletes (λ _, eq_refl)). unfold stop_settles in Hset.
  exists s, w1. destruct (Session.stop (s, w1)) as [[s2 w2] [[]|e]]; [|discriminate Hworks].
  eexists. split; [reflexivity|]. split; [exact Hb|]. split; [reflexivity|]. exact (proj1 Hset).
Defined.

(** WireGuard refuses port 0, when the routes are applied. *)
Lemma failed_start_keeps_bypass_witness :
  ∃ s w1 e b, Session.start (Session.session_new (Machine.config_on 0), Machine.idle) = ((s, w1), Err e) ∧
    Session.bypass s = Some b ∧ h_routes (held w1) = ∅ ∧ h_rules (held w1) = with_rules ∅.
Proof.
  destruct (Session.start_inner (Session.session_new (Machine.config_on 0), Machine.idle)) as [[s1 w1] r] eqn:Hi.
  assert (Hall : match Session.start_inner (Session.session_new (Machine.config_on 0), Machine.idle) with
    | ((s, _), Err _) => (match Session.routes s with Some a => negb (bool_decide (Routes.routes a = [])) | None => false end)
                         && is_some_and (Session.bypass s) Outbound.installed = true
    | _ => False end) by (vm_compute; reflexivity).
  rewrite Hi in Hall. destruct r as [a|e]; [destruct Hall|].
  destruct (Session.routes s1) as [a|] eqn:Hr; [|discriminate Hall].
  destruct (Session.bypass s1) as [b|] eqn:Hb; [|rewrite andb_false_r in Hall; discriminate Hall].
  apply andb_prop in Hall as [Hne Hin]. apply negb_true_iff, bool_decide_eq_false in Hne.
  assert (Hempty : no_rules (held Machine.idle)) by exact machine_empty.
  destruct (failed_start_keeps_bypass (Machine.config_on 0) Machine.idle s1 w1 e a b
    Hempty machine_refuses Hi Hr Hne Hb Hin) as (s & w' & Hs & Hb' & Hbut & Hrules).
  exists s, w', e, b. split; [exact Hs|]. split; [exact Hb'|]. split; [|exact Hrules].
  exact (f_equal (λ x, x.1.1.1.1) Hbut).
Defined.

End NoTrace.
