(* ===== verification/System.v ===== *)
(** * The daemon as a system of interleaved steps

    The connect task and the RPCs share the daemon's state under a lock that
    each of them takes and releases several times.  Here every critical section
    is one step: the task's, by the place it is at in [run_connect_loop]
    ([daemon/src/daemon.rs]), and the beginnings and ends of the operations that
    wait for a task.  The theorems say when two tunnels can and cannot run at
    once. *)

From S2P Require Import Prelude RustStr Net Reconnect Models Signing Api Requests Login VpnState Negotiate Persist Faults.
From S2P Require Import AuthMachine Store Routes Dialer Outbound Session Supervisor Daemon.
Import Models Signing Api Requests Login Negotiate Persist Faults AuthMachine Store.
Import Routes(IpNet, IpNetwork).
Import Supervisor(SupervisorOutcome, Trigger, OutcomeKickOut, OutcomeCancelled).
Import Daemon.

Module System.

Section system.
Context `{Urls} `{IpNet} `{Crypto, ErrorText} {W : Type} `{Store W} `{Host W}.
Implicit Types d : DaemonInner.

(** ** The task *)

(** Where a task is between two of its critical sections: before an attempt,
    in one, supervising its tunnel, after a failed attempt was reported, after
    the controller decided ([failed]: on a failed attempt), asleep, and about
    to report that it was cancelled. *)
Inductive Pc : Type :=
  | PcHead (c : Reconnect.ReconnectController)
  | PcAttempt (c : Reconnect.ReconnectController)
  | PcSupervised (c : Reconnect.ReconnectController)
  | PcFailed (c : Reconnect.ReconnectController)
  | PcDecided (c : Reconnect.ReconnectController) (decision : Reconnect.ReconnectDecision) (failed : bool)
  | PcSleeping (c : Reconnect.ReconnectController)
  | PcCancelled.

Definition decided (c : Reconnect.ReconnectController) (event : Reconnect.ReconnectEvent) (failed : bool) : Pc :=
  let '(c1, decision) := Reconnect.record c event in PcDecided c1 decision failed.

(** The errors that an attempt of a task can end with. *)
Variable fails : Task → DaemonError → Prop.

(** One critical section of a task, or a branch between two; [None]: it has
    returned.  What an attempt does besides (requests, the session) leaves the
    machine alone.  The steps are those that the loop can make, and more: at
    which moments of an attempt it ends, and on what it depends, is left open,
    so that they say what can go wrong at most, and nothing of what must
    happen. *)
(* @daemon/src/daemon.rs:402-442 Daemon::run_connect_loop *)
Inductive task_step (t : Task) : Pc → DaemonInner → option Pc → DaemonInner → Prop :=
  | Configuring_ c d : task_step t (PcHead c) d (Some (PcAttempt c)) (vpn_transition set_configuring d)
  | Working c o d : task_step t (PcAttempt c) d (Some (PcAttempt c)) (set_active_outbound o d)
  | Failing c e d :
      fails t e → task_step t (PcAttempt c) d (Some (PcFailed c)) (mark_failed (daemon_error_to_string e) d)
  | Connecting_ c info d :
      task_step t (PcAttempt c) d (Some (PcSupervised c)) (vpn_transition (set_connected info) d)
  | SupervisedCancelled c d :
      task_cancel t ∈ d_cancelled d → task_step t (PcSupervised c) d (Some PcCancelled) d
  | Losing c ev was_healthy d :
      task_step t (PcSupervised c) d
        (Some (decided (if (was_healthy : bool) then Reconnect.reset c else c) ev false)) d
  | FailedCancelled c d : task_cancel t ∈ d_cancelled d → task_step t (PcFailed c) d None d
  | FailedGoesOn c d :
      task_cancel t ∉ d_cancelled d →
      task_step t (PcFailed c) d (Some (decided c Reconnect.TransportFailed true)) d
  | Retrying c decision failed d :
      decision ≠ Reconnect.Stop →
      task_step t (PcDecided c decision failed) d (Some (PcSleeping c)) (vpn_transition set_reconnecting d)
  | GivingUp c failed d :
      task_step t (PcDecided c Reconnect.Stop failed) d None (mark_failed "maximum reconnect attempts exceeded" d)
  | Slept c d : task_step t (PcSleeping c) d (Some (PcHead c)) d
  | SleepCancelled c d : task_cancel t ∈ d_cancelled d → task_step t (PcSleeping c) d (Some PcCancelled) d
  | Ending d : task_step t PcCancelled d None (mark_disconnected d).

Inductive task_steps (t : Task) : option Pc → DaemonInner → option Pc → DaemonInner → Prop :=
  | StepsRefl o d : task_steps t o d o d
  | StepsCons pc d o1 d1 o2 d2 :
      task_step t pc d o1 d1 → task_steps t o1 d1 o2 d2 → task_steps t (Some pc) d o2 d2.

(** ** The system *)

Record Running : Type := { r_task : Task; r_pc : Pc }.
Definition token (r : Running) : nat := task_cancel (r_task r).

(** An operation that waits for the end of a task (of none: [None]). *)
Inductive Waiter : Type :=
  | WaitDisconnect (awaited : option nat)
  | WaitOutbound (awaited : option nat) (request : VpnRequest).
Definition awaits (w : Waiter) : option nat := match w with WaitDisconnect a | WaitOutbound a _ => a end.

Record Sys : Type := { sys_d : DaemonInner; sys_w : W; sys_tasks : list Running; sys_waiters : list Waiter }.
Implicit Types s : Sys.

(** The critical section after the wait of a disconnect; the one before it is
    [disconnect_begin]. *)
(* @daemon/src/daemon.rs:339-344 Daemon::disconnect_tunnel *)
Definition disconnect_end d : DaemonInner := vpn_transition set_disconnected d.
(** The request and the state when there is something to reconnect. *)
(* @daemon/src/daemon.rs:358-391 Daemon::reconnect_if_outbound_changed *)
Definition outbound_begin d (w : W) : option (VpnRequest * DaemonInner) :=
  let outbound := dc_outbound_interface (d_config d) in
  if bool_decide (outbound = d_active_outbound d) then None
  else
    let d1 := if pool_builds outbound w then set_auth (set_pool outbound (d_auth d)) d else d in
    vpn ← d_vpn d1; request ← current_request (state vpn); Some (request, cancel (cancel_token vpn) d1).

(** The rest of the daemon's state may change freely. *)
Definition same_machine d d' : Prop :=
  d_vpn d' = d_vpn d ∧ d_tunnel_task d' = d_tunnel_task d ∧
  d_next_token d' = d_next_token d ∧ d_cancelled d' = d_cancelled d.

(** An accepted connect spawns its task. *)
Definition accepts (request : VpnRequest) s s' : Prop :=
  ∃ t task, connect_tunnel request (sys_d s, sys_w s) = ((sys_d s', sys_w s'), Ok t) ∧
    d_tunnel_task (sys_d s') = Some task ∧ sys_waiters s' = sys_waiters s ∧
    sys_tasks s' = sys_tasks s ++ [{| r_task := task;
                                      r_pc := PcHead (Reconnect.new Reconnect.android_compatible_default) |}].
Definition refuses (request : VpnRequest) s s' : Prop :=
  ∃ e, connect_tunnel request (sys_d s, sys_w s) = ((sys_d s', sys_w s'), Err e) ∧
    sys_waiters s' = sys_waiters s ∧ sys_tasks s' = sys_tasks s.

Definition ready (w : Waiter) s : Prop := ∀ r, r ∈ sys_tasks s → awaits w ≠ Some (token r).
Definition without (l1 l2 : list Waiter) s : Sys :=
  {| sys_d := sys_d s; sys_w := sys_w s; sys_tasks := sys_tasks s; sys_waiters := l1 ++ l2 |}.

Section steps.
(** The states in which a connect that is accepted is looked at. *)
Variable may_connect : Sys → Prop.

(** A critical section of a task, or of an RPC of the tunnel. *)
Inductive tunnel_step : Sys → Sys → Prop :=
  | StepTask l1 l2 t pc o d d' w ws :
      task_step t pc d o d' →
      tunnel_step {| sys_d := d; sys_w := w; sys_tasks := l1 ++ {| r_task := t; r_pc := pc |} :: l2; sys_waiters := ws |}
               {| sys_d := d'; sys_w := w;
                  sys_tasks := l1 ++ match o with Some pc' => [{| r_task := t; r_pc := pc' |}] | None => [] end ++ l2;
                  sys_waiters := ws |}
  | StepConnect request s s' : may_connect s → accepts request s s' → tunnel_step s s'
  | StepRefused request s s' : refuses request s s' → tunnel_step s s'
  | StepDisconnect d w ts ws :
      tunnel_step {| sys_d := d; sys_w := w; sys_tasks := ts; sys_waiters := ws |}
               {| sys_d := set_task None (disconnect_begin d); sys_w := w; sys_tasks := ts;
                  sys_waiters := ws ++ [WaitDisconnect (task_cancel <$> d_tunnel_task d)] |}
  | StepDisconnected d w ts l1 a l2 :
      ready (WaitDisconnect a) {| sys_d := d; sys_w := w; sys_tasks := ts; sys_waiters := l1 ++ WaitDisconnect a :: l2 |} →
      tunnel_step {| sys_d := d; sys_w := w; sys_tasks := ts; sys_waiters := l1 ++ WaitDisconnect a :: l2 |}
               {| sys_d := disconnect_end d; sys_w := w; sys_tasks := ts; sys_waiters := l1 ++ l2 |}
  | StepOutbound d w ts ws request d' :
      outbound_begin d w = Some (request, d') →
      tunnel_step {| sys_d := d; sys_w := w; sys_tasks := ts; sys_waiters := ws |}
               {| sys_d := set_task None d'; sys_w := w; sys_tasks := ts;
                  sys_waiters := ws ++ [WaitOutbound (task_cancel <$> d_tunnel_task d) request] |}
  | StepReconnects l1 a request l2 s s' :
      sys_waiters s = l1 ++ WaitOutbound a request :: l2 → ready (WaitOutbound a request) s →
      may_connect (without l1 l2 s) → accepts request (without l1 l2 s) s' → tunnel_step s s'
  | StepReconnectRefused l1 a request l2 s s' :
      sys_waiters s = l1 ++ WaitOutbound a request :: l2 → ready (WaitOutbound a request) s →
      refuses request (without l1 l2 s) s' → tunnel_step s s'.

Inductive sys_step : Sys → Sys → Prop :=
  | StepTunnel s s' : tunnel_step s s' → sys_step s s'
  | StepOther d d' w w' ts ws :
      same_machine d d' →
      sys_step {| sys_d := d; sys_w := w; sys_tasks := ts; sys_waiters := ws |}
               {| sys_d := d'; sys_w := w'; sys_tasks := ts; sys_waiters := ws |}.

(** From a daemon without a machine and without a task. *)
Inductive sys_reaches : Sys → Prop :=
  | SysStarts d w :
      d_vpn d = None → d_tunnel_task d = None → d_cancelled d = ∅ →
      sys_reaches {| sys_d := d; sys_w := w; sys_tasks := []; sys_waiters := [] |}
  | SysSteps s s' : sys_reaches s → sys_step s s' → sys_reaches s'.
End steps.

(** ** The steps are the program's *)

(** A disconnect is its two critical sections with the wait in between. *)
Lemma disconnect_sections wait d (w : W) :
  let d1 := disconnect_begin d in
  let s2 := match d_tunnel_task d with Some t => wait t (set_task None d1, w) | None => (d1, w) end in
  (disconnect_tunnel wait (d, w)).1 = (disconnect_end s2.1, s2.2).
Proof.
  cbn zeta. unfold disconnect_tunnel, disconnect_begin. destruct (d_vpn d) as [vpn|]; cbn.
  - destruct (d_tunnel_task d) as [t|]; [|done]. by destruct (wait t _).
  - destruct (d_tunnel_task d) as [t|]; [|done]. by destruct (wait t _).
Qed.

(** What a turn of the loop does once its attempt is over is a run of steps, a
    sleep being one in which nothing happens. *)
Section turn.
Variable attempt : DaemonInner * W → (DaemonInner * W) * result DaemonError (option SupervisorOutcome).
Variable sleep : duration → DaemonInner * W → (DaemonInner * W) * bool.
Variable t : Task.
Hypothesis sleeps : ∀ after (s : DaemonInner * W), (sleep after s).1.1 = s.1 ∧
  ((sleep after s).2 = false → task_cancel t ∈ d_cancelled s.1).
Hypothesis attempts : ∀ (s s1 : DaemonInner * W) e, attempt s = (s1, Err e) → fails t e.

Definition outcome_of (r : LoopState (W:=W)) (o : option Pc) (d : DaemonInner) : Prop :=
  match r with
  | LoopHead c' s' => task_steps t o d (Some (PcHead c')) s'.1
  | LoopEnded s' => task_steps t o d None s'.1
  | LoopInside _ => False
  end.

Lemma decide_steps c ev failed (s : DaemonInner * W) :
  outcome_of (record_and_decide sleep c ev s) (Some (decided c ev failed)) s.1.
Proof.
  unfold record_and_decide, decided. destruct (Reconnect.record c ev) as [c1 decision]. unfold handle_decision.
  assert (Hsleep : ∀ after decision', decision' ≠ Reconnect.Stop →
    outcome_of (match match sleep after (vpn_transition set_reconnecting s.1, s.2) with
                      | (s1, true) => (s1, true) | (s1, false) => ((mark_disconnected s1.1, s1.2), false) end with
                | (s1, true) => LoopHead c1 s1 | (s1, false) => LoopEnded s1 end)
      (Some (PcDecided c1 decision' failed)) s.1).
  { intros after decision' Hd. pose proof (sleeps after (vpn_transition set_reconnecting s.1, s.2)) as [Hs Hc].
    cbn [fst] in Hs, Hc. destruct (sleep _ _) as [s1 []]; cbn [fst snd outcome_of] in *; rewrite Hs;
      (eapply StepsCons; [by apply Retrying|]).
    - eapply StepsCons; [apply Slept|apply StepsRefl].
    - eapply StepsCons; [apply SleepCancelled; by apply Hc|]. eapply StepsCons; [apply Ending|apply StepsRefl]. }
  destruct decision as [after n|after n|]; [by apply Hsleep..|].
  eapply StepsCons; [apply GivingUp|apply StepsRefl].
Qed.

Lemma loop_turn_steps c (s s1 : DaemonInner * W) r :
  attempt s = (s1, r) → (r = Ok (Some OutcomeCancelled) → task_cancel t ∈ d_cancelled s1.1) →
  match r with
  | Ok None => loop_turn attempt sleep (task_cancel t) c s = LoopInside s1
  | Ok (Some _) => outcome_of (loop_turn attempt sleep (task_cancel t) c s) (Some (PcSupervised c)) s1.1
  | Err _ => outcome_of (loop_turn attempt sleep (task_cancel t) c s) (Some (PcAttempt c)) s1.1
  end.
Proof.
  intros Ha Hc. unfold loop_turn. rewrite Ha. destruct r as [[[ev h|h|]|]|e]; [| | |done|].
  - pose proof (decide_steps (if h then Reconnect.reset c else c) ev false s1) as Hd.
    destruct (record_and_decide _ _ _ _); cbn [outcome_of] in *; [|done|]; (eapply StepsCons; [apply Losing|exact Hd]).
  - pose proof (decide_steps (if h then Reconnect.reset c else c) Reconnect.ServerKickOut false s1) as Hd.
    destruct (record_and_decide _ _ _ _); cbn [outcome_of] in *; [|done|]; (eapply StepsCons; [apply Losing|exact Hd]).
  - eapply StepsCons; [apply SupervisedCancelled; by apply Hc|]. eapply StepsCons; [apply Ending|apply StepsRefl].
  - cbn zeta. set (s2 := (mark_failed (daemon_error_to_string e) s1.1, s1.2)).
    assert (Hfail : ∀ o d', task_steps t (Some (PcFailed c)) s2.1 o d' → task_steps t (Some (PcAttempt c)) s1.1 o d')
      by (intros o d'; apply StepsCons, Failing; by eapply attempts).
    unfold is_cancelled. case_bool_decide as Hcan.
    + apply Hfail. eapply StepsCons; [by apply FailedCancelled|apply StepsRefl].
    + pose proof (decide_steps c Reconnect.TransportFailed true s2) as Hd.
      destruct (record_and_decide _ _ _ _); cbn [outcome_of] in *; [|done|]; apply Hfail;
        (eapply StepsCons; [by apply FailedGoesOn|exact Hd]).
Qed.
End turn.

(** ** One tunnel *)

(** The place in the loop at which the machine shows a failure that the task
    has not given up on. *)
Definition gap (pc : Pc) : bool :=
  match pc with PcFailed _ | PcDecided _ _ true => true | _ => false end.
(** No operation waits and no task is in the gap. *)
Definition calm s : Prop := sys_waiters s = [] ∧ ∀ r, r ∈ sys_tasks s → gap (r_pc r) = false.

(** The task the daemon would cancel, while it refuses another connect. *)
Definition in_charge d (r : Running) : Prop :=
  ∃ vpn, d_vpn d = Some vpn ∧ cancel_token vpn = token r ∧ token r ∉ d_cancelled d ∧
    d_tunnel_task d = Some (r_task r) ∧ (gap (r_pc r) = true ∨ can_connect (state vpn) = false).
(** A task on its way out, which somebody waits for. *)
Definition leaving d (ws : list Waiter) (r : Running) : Prop :=
  token r ∈ d_cancelled d ∧ ∃ w, w ∈ ws ∧ awaits w = Some (token r).

Definition invariant s : Prop :=
  tokens_ok (sys_d s) ∧
  match sys_tasks s with
  | [] => True
  | [r] => sys_waiters s = [] ∧ in_charge (sys_d s) r ∨ leaving (sys_d s) (sys_waiters s) r
  | _ => False
  end.

Lemma tokens_transition f d :
  (∀ vpn, cancel_token (f vpn) = cancel_token vpn) → tokens_ok d → tokens_ok (vpn_transition f d).
Proof.
  intros Hf [Hc Hv]. unfold vpn_transition. destruct (d_vpn d) as [vpn|] eqn:Hvpn; [|by split; [|rewrite Hvpn]].
  split; [exact Hc|]. cbn. intros v [= <-]. rewrite Hf. by apply Hv.
Qed.
Lemma tokens_cancel vpn d : d_vpn d = Some vpn → tokens_ok d → tokens_ok (cancel (cancel_token vpn) d).
Proof.
  intros Hvpn [Hc Hv]. split; [|exact Hv]. cbn. intros t Ht.
  apply elem_of_union in Ht as [->%elem_of_singleton|Ht]; [by apply Hv|by apply Hc].
Qed.

(** What a step of the task does to the tokens and the machine. *)
Lemma task_step_frame t pc d o d' :
  task_step t pc d o d' →
  d_tunnel_task d' = d_tunnel_task d ∧ d_next_token d' = d_next_token d ∧ d_cancelled d' = d_cancelled d ∧
  (tokens_ok d → tokens_ok d') ∧
  ∀ vpn, d_vpn d = Some vpn → ∃ vpn', d_vpn d' = Some vpn' ∧ cancel_token vpn' = cancel_token vpn ∧
    (task_cancel t ∉ d_cancelled d → gap pc = true ∨ can_connect (state vpn) = false →
     ∀ pc', o = Some pc' → gap pc' = true ∨ can_connect (state vpn') = false).
Proof.
  intros Hs. assert (Hgo : ∀ f e, (∀ vpn, cancel_token (f vpn) = cancel_token vpn) →
    d' = vpn_transition f (set_active_outbound e d) ∨ d' = vpn_transition f d →
    (∀ vpn pc', task_cancel t ∉ d_cancelled d → o = Some pc' → gap pc' = true ∨ can_connect (state (f vpn)) = false) →
    d_tunnel_task d' = d_tunnel_task d ∧ d_next_token d' = d_next_token d ∧ d_cancelled d' = d_cancelled d ∧
    (tokens_ok d → tokens_ok d') ∧
    ∀ vpn, d_vpn d = Some vpn → ∃ vpn', d_vpn d' = Some vpn' ∧ cancel_token vpn' = cancel_token vpn ∧
      (task_cancel t ∉ d_cancelled d → gap pc = true ∨ can_connect (state vpn) = false →
       ∀ pc', o = Some pc' → gap pc' = true ∨ can_connect (state vpn') = false)).
  { intros f e Hf Hd Hst. split; [|split; [|split; [|split]]].
    1-3: destruct Hd as [->| ->]; unfold vpn_transition; cbn; by destruct (d_vpn d).
    - intros Hok. destruct Hd as [->| ->]; by apply tokens_transition.
    - intros vpn Hvpn. exists (f vpn). split; [|split; [apply Hf|by eauto]].
      destruct Hd as [->| ->]; unfold vpn_transition; cbn; by rewrite Hvpn. }
  destruct Hs as [c d|c o d|c e d _|c info d|c d ?|c ev wh d|c d ?|c d ?|c dec f d ?|c f d|c d|c d ?|d].
  - eapply (Hgo _ None); [|by right|]; [done|]. intros vpn pc' _ [= <-]. by right.
  - split; [done|split; [done|split; [done|split; [by intros [? ?]|]]]]. intros vpn Hvpn. exists vpn. split; [exact Hvpn|]. split; [done|]. intros _ Hor pc' [= <-]. exact Hor.
  - eapply (Hgo _ None); [|by left|]; [done|]. intros vpn pc' _ [= <-]. by left.
  - eapply (Hgo _ None); [|by right|]; [done|]. intros vpn pc' _ [= <-]. by right.
  - split; [done|split; [done|split; [done|split; [by intros [? ?]|]]]]. intros vpn Hvpn. exists vpn. split; [exact Hvpn|]. split; [done|]. intros Hn. done.
  - split; [done|split; [done|split; [done|split; [by intros [? ?]|]]]]. intros vpn Hvpn. exists vpn. split; [exact Hvpn|]. split; [done|].
    intros _ [Hg|Hc] pc' _; [done|by right].
  - split; [done|split; [done|split; [done|split; [by intros [? ?]|]]]]. intros vpn Hvpn. exists vpn. split; [exact Hvpn|]. done.
  - split; [done|split; [done|split; [done|split; [by intros [? ?]|]]]]. intros vpn Hvpn. exists vpn. split; [exact Hvpn|]. split; [done|].
    intros _ _ pc' [= <-]. left. unfold decided. by destruct (Reconnect.record _ _).
  - eapply (Hgo _ None); [|by right|]; [done|]. intros vpn pc' _ [= <-]. by right.
  - eapply (Hgo _ None); [|by left|]; [done|]. intros vpn pc' _ [=].
  - split; [done|split; [done|split; [done|split; [by intros [? ?]|]]]]. intros vpn Hvpn. exists vpn. split; [exact Hvpn|]. split; [done|].
    intros _ [Hg|Hc] pc' [= <-]; [done|by right].
  - split; [done|split; [done|split; [done|split; [by intros [? ?]|]]]]. intros vpn Hvpn. exists vpn. split; [exact Hvpn|]. done.
  - eapply (Hgo _ None); [|by left|]; [done|]. intros vpn pc' _ [=].
Qed.

Lemma connect_refused request d (w : W) d' w' e :
  connect_tunnel request (d, w) = ((d', w'), Err e) → d' = d ∧ w' = w.
Proof.
  unfold connect_tunnel, inner, upd, m_bind, m_lift, m_ret, m_fail.
  destruct (negb _); [by intros [= <- <- _]|]. destruct (d_vpn d) as [vpn|] eqn:Hv.
  - rewrite Hv. destruct (negb _); [by intros [= <- <- _]|done].
  - destruct (build_tenant_client (d_auth d)) as [c|]; cbn; [done|by intros [= <- <- _]].
Qed.

Lemma accept_invariant request s s' : invariant s → calm s → accepts request s s' → invariant s'.
Proof.
  intros [Htok Hi] [Hw Hg] (t & task & Hc & Ht & Hws & Hts).
  pose proof (connect_tunnel_cases request (sys_d s) (sys_w s) Htok) as Hcase. rewrite Hc in Hcase.
  destruct Hcase as (_ & _ & Hidle & (vpn & Hv & Hst & _ & Htask & _ & Hn & _ & _ & _ & _ & Htok') & _).
  split; [exact Htok'|]. rewrite Hts, Hws, Hw. destruct (sys_tasks s) as [|r [|]]; cbn [app]; [|exfalso|done].
  - left. split; [done|]. exists vpn. unfold token. cbn [r_task]. rewrite Ht in Htask. injection Htask as ->.
    do 4 (split; [done|]). right. by rewrite Hst.
  - destruct Hi as [[_ (vpn0 & Hv0 & _ & _ & _ & Hor)]|(_ & w & Hin & _)].
    + unfold idle in Hidle. rewrite Hv0 in Hidle. unfold vm_can_connect in Hidle.
      rewrite (Hg r) in Hor by (by left). destruct Hor as [|Hor]; [done|]. by rewrite Hor in Hidle.
    + rewrite Hw in Hin. by apply elem_of_nil in Hin.
Qed.

(** An operation that need not wait any more: nothing runs, or somebody else
    waits for it. *)
Lemma without_leaving l1 x l2 s :
  invariant s → sys_waiters s = l1 ++ x :: l2 → ready x s →
  sys_tasks s = [] ∨ ∃ r, sys_tasks s = [r] ∧ leaving (sys_d s) (l1 ++ l2) r.
Proof.
  intros [_ Hi] Hws Hr. destruct (sys_tasks s) as [|r [|]] eqn:Hts; [by left| |done]. right. exists r. split; [done|].
  destruct Hi as [[Hw _]|(Hc & w & Hin & Ha)]; [rewrite Hws in Hw; by destruct l1|].
  split; [exact Hc|]. exists w. split; [|exact Ha]. rewrite Hws in Hin.
  apply elem_of_app in Hin as [Hin|[->|Hin]%elem_of_cons]; [set_solver| |set_solver].
  exfalso. apply (Hr r); [rewrite Hts; by left|exact Ha].
Qed.
Lemma without_invariant l1 x l2 s :
  invariant s → sys_waiters s = l1 ++ x :: l2 → ready x s → invariant (without l1 l2 s).
Proof.
  intros Hi Hws Hr. split; [apply Hi|]. cbn.
  destruct (without_leaving _ _ _ _ Hi Hws Hr) as [->|(r & -> & Hl)]; [done|by right].
Qed.

(** A machine cancelled, and its task taken to be waited for. *)
Lemma cancelled_invariant d d1 (w : W) ts ws wt :
  invariant {| sys_d := d; sys_w := w; sys_tasks := ts; sys_waiters := ws |} →
  (∀ vpn, d_vpn d = Some vpn → d_cancelled d1 = {[cancel_token vpn]} ∪ d_cancelled d) →
  (d_vpn d = None → d_cancelled d1 = d_cancelled d) → tokens_ok d1 →
  awaits wt = task_cancel <$> d_tunnel_task d →
  invariant {| sys_d := set_task None d1; sys_w := w; sys_tasks := ts; sys_waiters := ws ++ [wt] |}.
Proof.
  intros [_ Hi] Hc Hc0 Htok Ha. split; [exact Htok|]. cbn in Hi |- *. destruct ts as [|r [|]]; [done| |done]. right.
  destruct Hi as [[-> (vpn & Hv & Hcan & _ & Ht & _)]|(Hcan & w' & Hin & Haw)].
  - split; [cbn; rewrite (Hc vpn Hv), Hcan; set_solver|]. exists wt. split; [by left|]. by rewrite Ha, Ht.
  - split; [|exists w'; split; [set_solver|exact Haw]]. cbn.
    destruct (d_vpn d) as [vpn|] eqn:Hv; [rewrite (Hc vpn eq_refl); set_solver|by rewrite Hc0].
Qed.

(** The beginning of a change of the outbound interface cancels the machine. *)
Lemma outbound_begin_frame d (w : W) request d' :
  outbound_begin d w = Some (request, d') →
  ∃ vpn, d_vpn d = Some vpn ∧ d_cancelled d' = {[cancel_token vpn]} ∪ d_cancelled d ∧
    d_next_token d' = d_next_token d ∧ (tokens_ok d → tokens_ok d').
Proof.
  intros Ho. unfold outbound_begin in Ho. case_bool_decide; [done|].
  set (d1 := if pool_builds _ _ then _ else _) in Ho.
  assert (Hd1 : d_vpn d1 = d_vpn d ∧ d_cancelled d1 = d_cancelled d ∧ d_next_token d1 = d_next_token d)
    by (unfold d1; by destruct (pool_builds _ _)).
  destruct Hd1 as (Hv1 & Hc1 & Hn1). destruct (d_vpn d1) as [vpn|] eqn:Hv; [|done]. cbn in Ho.
  destruct (current_request (state vpn)) as [rq|]; [|done]. injection Ho as <- <-.
  exists vpn. split; [done|]. split; [cbn; by rewrite Hc1|]. split; [done|]. intros [Hc0 Hv0].
  apply tokens_cancel; [exact Hv|]. split; rewrite ?Hc1, ?Hn1, ?Hv; [exact Hc0|]. by rewrite Hv1.
Qed.
Lemma disconnect_begin_tokens d : tokens_ok d → tokens_ok (disconnect_begin d).
Proof.
  unfold disconnect_begin. destruct (d_vpn d) as [vpn|] eqn:Hv; [|done].
  change (cancel_token (set_disconnecting vpn)) with (cancel_token vpn).
  intros [Hc0 Hv0]. specialize (Hv0 vpn Hv). split; cbn; [|by intros v [= <-]].
  intros t [->%elem_of_singleton|Ht]%elem_of_union; [done|by apply Hc0].
Qed.
Lemma transition_frame f d :
  d_tunnel_task (vpn_transition f d) = d_tunnel_task d ∧ d_next_token (vpn_transition f d) = d_next_token d ∧
  d_cancelled (vpn_transition f d) = d_cancelled d.
Proof. unfold vpn_transition. by destruct (d_vpn d). Qed.

Lemma outbound_invariant d (w : W) ts ws request d' :
  outbound_begin d w = Some (request, d') →
  invariant {| sys_d := d; sys_w := w; sys_tasks := ts; sys_waiters := ws |} →
  invariant {| sys_d := set_task None d'; sys_w := w; sys_tasks := ts;
               sys_waiters := ws ++ [WaitOutbound (task_cancel <$> d_tunnel_task d) request] |}.
Proof.
  intros Ho Hi. destruct (outbound_begin_frame _ _ _ _ Ho) as (vpn & Hv & Hc & Hn & Htok).
  eapply cancelled_invariant; [exact Hi| | |apply Htok, Hi|done].
  - intros v Hv'. rewrite Hv in Hv'. by injection Hv' as <-.
  - by rewrite Hv.
Qed.

Lemma tunnel_invariant s s' : tunnel_step calm s s' → invariant s → invariant s'.
Proof.
  destruct 1 as [l1 l2 t pc o d d' w ws Ht|request s s' Hm Ha|request s s' Hr|d w ts ws|d w ts l1 a l2 Hr|
                 d w ts ws request d' Ho|l1 a request l2 s s' Hws Hr Hm Ha|l1 a request l2 s s' Hws Hr Hf].
  - intros [Htok Hi]. cbn in Htok, Hi. destruct (task_step_frame _ _ _ _ _ Ht) as (Htask & _ & Hcan & Htk & Hmach).
    split; [by apply Htk|]. cbn. destruct l1 as [|r1 l1]; [|by destruct l1]. destruct l2; [|done].
    destruct o as [pc'|]; [|done]. cbn [app] in *. destruct Hi as [[Hw (vpn & Hvpn & Hct & Hnc & Htt & Hor)]|[Hl Hw]].
    + left. split; [exact Hw|]. destruct (Hmach vpn Hvpn) as (vpn' & Hv' & Hc' & Hor').
      exists vpn'. rewrite Hcan, Htask. split; [done|]. split; [by rewrite Hc'|]. split; [done|]. split; [done|]. by apply Hor'.
    + right. split; [by rewrite Hcan|exact Hw].
  - intros Hi. by eapply accept_invariant.
  - destruct Hr as (e & Hc & Hws & Hts). apply connect_refused in Hc as [Hd _]. unfold invariant. by rewrite Hd, Hws, Hts.
  - intros Hi. eapply cancelled_invariant; [exact Hi| | | |done]; unfold disconnect_begin.
    + by intros vpn ->.
    + by intros ->.
    + apply disconnect_begin_tokens, Hi.
  - intros Hi. pose proof (without_leaving _ _ _ _ Hi eq_refl Hr) as Hl. destruct Hi as [Htok _].
    split; [by apply tokens_transition|]. cbn in Hl |- *.
    destruct Hl as [->|(r & -> & Hc & Hw)]; [done|]. right. split; [|exact Hw].
    unfold disconnect_end, vpn_transition. by destruct (d_vpn d).
  - intros Hi. by eapply outbound_invariant.
  - intros Hi. apply (without_invariant l1 (WaitOutbound a request) l2) in Hi; [|done..]. by eapply accept_invariant.
  - intros Hi. apply (without_invariant l1 (WaitOutbound a request) l2) in Hi; [|done..].
    destruct Hf as (e & Hc & Hw & Hts). apply connect_refused in Hc as [Hd _].
    unfold invariant. rewrite Hd, Hw, Hts. exact Hi.
Qed.
Lemma step_invariant s s' : sys_step calm s s' → invariant s → invariant s'.
Proof.
  destruct 1 as [s s' Ht|d d' w w' ts ws (Hv & Ht & Hn & Hc)]; [by apply tunnel_invariant|].
  intros [[Hc0 Hv0] Hi]. cbn in Hc0, Hv0, Hi. split; cbn.
  - split; rewrite ?Hc, ?Hn, ?Hv; done.
  - unfold in_charge, leaving in *. by rewrite Hv, Ht, Hc.
Qed.

Lemma reaches_invariant s : sys_reaches calm s → invariant s.
Proof.
  induction 1 as [d w Hv Ht Hc|s s' _ IH Hs]; [|by eapply step_invariant].
  split; [|done]. cbn. split; [rewrite Hc; intros t Hin; by apply elem_of_empty in Hin|by rewrite Hv].
Qed.

Lemma invariant_one_tunnel s :
  invariant s →
  (length (sys_tasks s) <= 1)%nat ∧
  (∀ r, r ∈ sys_tasks s →
     (sys_waiters s = [] → in_charge (sys_d s) r) ∧ (sys_waiters s ≠ [] → leaving (sys_d s) (sys_waiters s) r)) ∧
  ∀ a, sys_waiters s = [WaitDisconnect a] → ready (WaitDisconnect a) s → sys_tasks s = [].
Proof.
  intros Hr. pose proof Hr as [_ Hi]. split; [|split].
  - destruct (sys_tasks s) as [|r [|]]; cbn; done || lia.
  - intros r Hin. destruct (sys_tasks s) as [|r0 [|]]; [by apply elem_of_nil in Hin| |done].
    apply list_elem_of_singleton in Hin as ->. destruct Hi as [[Hw Hc]|Hl]; [by split|].
    split; [|done]. intros Hw. destruct Hl as (_ & w & Hin & _). rewrite Hw in Hin. by apply elem_of_nil in Hin.
  - intros a Hw Ha. destruct (without_leaving [] (WaitDisconnect a) [] s Hr Hw Ha) as [Hn|(r & _ & _ & w & Hin & _)]; [done|].
    by apply elem_of_nil in Hin.
Qed.

(** ** Whenever connects are accepted *)

(** Tasks have tokens of their own; the task that the daemon holds is the one
    that its machine would cancel, and nobody has cancelled it; whoever waits for
    a task waits for one that is cancelled. *)
Record sane s : Prop := {
  sane_tokens : tokens_ok (sys_d s);
  sane_distinct : NoDup (map token (sys_tasks s));
  sane_issued : Forall (λ r, (token r < d_next_token (sys_d s))%nat) (sys_tasks s);
  sane_held task : d_tunnel_task (sys_d s) = Some task →
    task_cancel task ∉ d_cancelled (sys_d s) ∧
    ∃ vpn, d_vpn (sys_d s) = Some vpn ∧ cancel_token vpn = task_cancel task;
  sane_awaited x k : x ∈ sys_waiters s → awaits x = Some k → k ∈ d_cancelled (sys_d s);
}.

Lemma sane_accept request s s' : sane s → accepts request s s' → sane s'.
Proof.
  intros [Htok Hnd Hlt _ Hw] (t & task & Hc & Ht & Hws & Hts).
  pose proof (connect_tunnel_cases request (sys_d s) (sys_w s) Htok) as Hcase. rewrite Hc in Hcase.
  destruct Hcase as (_ & _ & _ & (vpn & Hv & _ & _ & Htask & Hge & Hn & _ & _ & _ & Hcan & Htok') & _).
  rewrite Ht in Htask. injection Htask as ->. pose proof (proj2 Htok' vpn Hv) as Hnew.
  split; [exact Htok'| | | |]; rewrite ?Hts, ?Hws, ?Hcan.
  - rewrite map_app. apply NoDup_snoc; [done|]. cbn. intros Hin. apply list_elem_of_fmap in Hin as (r & Hr & Hin).
    rewrite Forall_forall in Hlt. specialize (Hlt r Hin). cbn in *. unfold token in *. cbn in *. lia.
  - apply Forall_app. split; [|rewrite Forall_singleton; exact Hnew].
    apply (Forall_impl _ _ _ Hlt). intros r Hr. cbn in *. lia.
  - rewrite Ht. intros task [= <-]. cbn. split; [by rewrite <- Hcan|by exists vpn].
  - exact Hw.
Qed.
Lemma sane_without l1 x l2 s : sane s → sys_waiters s = l1 ++ x :: l2 → sane (without l1 l2 s).
Proof. intros [] Hws. split; try done. cbn. intros y k Hy. apply sane_awaited0. rewrite Hws. set_solver. Qed.

(** A machine cancelled, and its task taken to be waited for. *)
Lemma sane_cancelled d d1 (w : W) ts ws wt :
  sane {| sys_d := d; sys_w := w; sys_tasks := ts; sys_waiters := ws |} →
  (∀ vpn, d_vpn d = Some vpn → d_cancelled d1 = {[cancel_token vpn]} ∪ d_cancelled d) →
  (d_vpn d = None → d_cancelled d1 = d_cancelled d) → tokens_ok d1 → d_next_token d1 = d_next_token d →
  awaits wt = task_cancel <$> d_tunnel_task d →
  sane {| sys_d := set_task None d1; sys_w := w; sys_tasks := ts; sys_waiters := ws ++ [wt] |}.
Proof.
  intros [_ Hnd Hlt Hh Hw] Hc Hc0 Htok Hn Ha. cbn in *.
  assert (Hgrows : d_cancelled d ⊆ d_cancelled d1)
    by (destruct (d_vpn d) as [vpn|]; [rewrite (Hc vpn eq_refl); set_solver|by rewrite Hc0]).
  split; cbn; [exact Htok|exact Hnd|by rewrite Hn|done|].
  intros x k [Hx| ->%list_elem_of_singleton]%elem_of_app Hk; [by apply Hgrows, (Hw x)|].
  rewrite Ha in Hk. destruct (d_tunnel_task d) as [task|]; [|done]. injection Hk as <-.
  destruct (Hh task eq_refl) as (_ & vpn & Hv & <-). rewrite (Hc vpn Hv). set_solver.
Qed.

Lemma sane_outbound d (w : W) ts ws request d' :
  outbound_begin d w = Some (request, d') →
  sane {| sys_d := d; sys_w := w; sys_tasks := ts; sys_waiters := ws |} →
  sane {| sys_d := set_task None d'; sys_w := w; sys_tasks := ts;
          sys_waiters := ws ++ [WaitOutbound (task_cancel <$> d_tunnel_task d) request] |}.
Proof.
  intros Ho Hi. destruct (outbound_begin_frame _ _ _ _ Ho) as (vpn & Hv & Hc & Hn & Htok).
  eapply sane_cancelled; [exact Hi| | |apply Htok, Hi|done|done].
  - intros v Hv'. rewrite Hv in Hv'. by injection Hv' as <-.
  - by rewrite Hv.
Qed.

(** A step of a task keeps its token and what the daemon holds. *)
Lemma sane_task l1 l2 t pc o d d' (w : W) ws :
  task_step t pc d o d' →
  sane {| sys_d := d; sys_w := w; sys_tasks := l1 ++ {| r_task := t; r_pc := pc |} :: l2; sys_waiters := ws |} →
  sane {| sys_d := d'; sys_w := w;
          sys_tasks := l1 ++ match o with Some pc' => [{| r_task := t; r_pc := pc' |}] | None => [] end ++ l2;
          sys_waiters := ws |}.
Proof.
  intros Ht [Htok Hnd Hlt Hh Hw]. destruct (task_step_frame _ _ _ _ _ Ht) as (Htask & Hn & Hcan & Htk & Hmach). cbn in *.
  assert (Hsub : map token (l1 ++ match o with Some pc' => [{| r_task := t; r_pc := pc' |}] | None => [] end ++ l2)
    `sublist_of` map token (l1 ++ {| r_task := t; r_pc := pc |} :: l2)).
  { rewrite !map_app. apply sublist_app; [done|]. destruct o; cbn; [done|]. by apply sublist_cons. }
  split; cbn; [by apply Htk|by eapply sublist_NoDup| | |by rewrite Hcan].
  - rewrite Hn. apply Forall_app in Hlt as [Hl1 [Hx Hl2]%Forall_cons]. rewrite !Forall_app.
    split; [done|]. split; [|done]. destruct o; [by rewrite Forall_singleton|constructor].
  - rewrite Htask, Hcan. intros task Hd. destruct (Hh task Hd) as (Hnc & vpn & Hv & Hct). split; [done|].
    destruct (Hmach vpn Hv) as (vpn' & Hv' & Hct' & _). exists vpn'. split; [done|]. congruence.
Qed.

Lemma sane_step may_connect s s' : sys_step may_connect s s' → sane s → sane s'.
Proof.
  destruct 1 as [s s' Hs|d d' w w' ts ws (Hv & Ht & Hn & Hc)].
  2:{ intros [[Hc0 Hv0] Hnd Hlt Hh Hw]. cbn in *. split; cbn; rewrite ?Hc, ?Hn, ?Hv, ?Ht; try done. by split; rewrite ?Hc, ?Hn, ?Hv. }
  destruct Hs as [l1 l2 t pc o d d' w ws Ht|request s s' Hm Ha|request s s' Hr|d w ts ws|d w ts l1 a l2 Hr|
                 d w ts ws request d' Ho|l1 a request l2 s s' Hws Hr Hm Ha|l1 a request l2 s s' Hws Hr Hf].
  - by apply sane_task.
  - intros Hi. by eapply sane_accept.
  - destruct Hr as (e & Hc & Hws & Hts). apply connect_refused in Hc as [Hd _].
    intros []. split; rewrite ?Hd, ?Hws, ?Hts; done.
  - intros Hi. eapply sane_cancelled; [exact Hi|unfold disconnect_begin..|done].
    + by intros vpn ->.
    + by intros ->.
    + by apply disconnect_begin_tokens, Hi.
    + by destruct (d_vpn d).
  - intros [Htok Hnd Hlt Hh Hw]. cbn in *. destruct (transition_frame set_disconnected d) as (Ht & Hn & Hc).
    unfold disconnect_end. split; cbn; rewrite ?Ht, ?Hn, ?Hc; [by apply tokens_transition|done|done| |].
    + intros task Hd. destruct (Hh task Hd) as (Hnc & vpn & Hv & Hct). split; [done|].
      unfold vpn_transition. rewrite Hv. by exists (set_disconnected vpn).
    + intros x k Hx. apply Hw. set_solver.
  - intros Hi. by eapply sane_outbound.
  - intros Hi. eapply sane_accept; [|exact Ha]. by eapply sane_without.
  - intros Hi. apply (sane_without l1 (WaitOutbound a request) l2) in Hi; [|done]. destruct Hi.
    destruct Hf as (e & Hc & Hw & Hts). apply connect_refused in Hc as [Hd _].
    split; rewrite ?Hd, ?Hw, ?Hts; done.
Qed.

Lemma reaches_sane may_connect s : sys_reaches may_connect s → sane s.
Proof.
  induction 1 as [d w Hv Ht Hc|s s' _ IH Hs]; [|by eapply sane_step].
  split; cbn; [split; [rewrite Hc; intros t Hin; by apply elem_of_empty in Hin|by rewrite Hv]|constructor|constructor|by rewrite Ht|].
  intros x k Hx. by apply elem_of_nil in Hx.
Qed.

Lemma sys_reaches_mono (P Q : Sys → Prop) s : (∀ s, P s → Q s) → sys_reaches P s → sys_reaches Q s.
Proof.
  intros Hi. induction 1 as [d w Hv Ht Hc|s s' _ IH Hs]; [by apply SysStarts|]. eapply SysSteps; [exact IH|].
  destruct Hs as [s s' Hs|]; [|by apply StepOther]. apply StepTunnel.
  destruct Hs as [l1 l2 t pc o d d' w ws Ht|r s s' Hm Ha|r s s' Hr|d w ts ws|d w ts l1 a l2 Hr|d w ts ws r d' Ho|
                  l1 a r l2 s s' Hws Hr Hm Ha|l1 a r l2 s s' Hws Hr Hf].
  - by apply StepTask.
  - by apply StepConnect with r; [apply Hi|].
  - by apply StepRefused with r.
  - apply StepDisconnect.
  - by apply StepDisconnected.
  - by apply StepOutbound.
  - by apply StepReconnects with l1 a r l2; [| |apply Hi|].
  - by apply StepReconnectRefused with l1 a r l2.
Qed.

(** One tunnel at a time: however the connect tasks, the RPCs and the rest
    of the daemon interleave, as long as no connect is accepted while an
    operation waits for a task or while a task that goes on shows a failure, at
    most one task runs.  When nothing waits it is the one the daemon would
    cancel, nobody has cancelled it, and but for that moment the machine refuses
    another connect; when something waits the task is cancelled and somebody
    waits for its end; and when the last waiting disconnect answers, nothing
    runs. *)
Theorem one_tunnel s :
  sys_reaches calm s →
  (length (sys_tasks s) <= 1)%nat ∧
  (∀ r, r ∈ sys_tasks s →
     (sys_waiters s = [] → in_charge (sys_d s) r) ∧ (sys_waiters s ≠ [] → leaving (sys_d s) (sys_waiters s) r)) ∧
  ∀ a, sys_waiters s = [WaitDisconnect a] → ready (WaitDisconnect a) s → sys_tasks s = [].
Proof. intros Hr. by apply invariant_one_tunnel, reaches_invariant. Qed.

(** C40: The moment in which a second tunnel can be started: when a task runs,
    nothing waits for it and the machine would accept a connect, the task shows
    a failed attempt and has not given up; a connect of an authenticated session
    is accepted then; both tasks run, nobody has cancelled either, and a
    disconnect cancels and awaits only the new one. *)
Theorem failed_attempt_race s r request :
  sys_reaches calm s → sys_waiters s = [] → sys_tasks s = [r] → idle (sys_d s) = true →
  am_state (d_auth (sys_d s)) = Authenticated →
  gap (r_pc r) = true ∧
  ∃ s' r', accepts request s s' ∧ sys_tasks s' = [r; r'] ∧ token r ≠ token r' ∧
    token r ∉ d_cancelled (sys_d s') ∧ token r' ∉ d_cancelled (sys_d s') ∧
    token r ∉ d_cancelled (disconnect_begin (sys_d s')) ∧ token r' ∈ d_cancelled (disconnect_begin (sys_d s')) ∧
    d_tunnel_task (sys_d s') = Some (r_task r').
Proof.
  intros Hr Hw Hts Hidle Ha. apply reaches_invariant in Hr as [Htok Hi]. rewrite Hts in Hi.
  destruct Hi as [[_ (vpn & Hv & Hct & Hnc & Htt & Hgap)]|(_ & x & Hin & _)];
    [|rewrite Hw in Hin; by apply elem_of_nil in Hin].
  split; [unfold idle, vm_can_connect in Hidle; rewrite Hv in Hidle; destruct Hgap; congruence|].
  destruct (connect_tunnel_accepted request (sys_d s) (sys_w s) Htok Ha Hidle) as (d' & t & Hc & Hcon & _);
    [by rewrite Hv|].
  destruct Hcon as (vpn' & Hv' & _ & _ & Ht' & Hle & Hn' & _ & _ & _ & Hcan & _).
  set (r' := {| r_task := {| task_request := request; task_cancel := cancel_token vpn' |};
                r_pc := PcHead (Reconnect.new Reconnect.android_compatible_default) |}).
  exists {| sys_d := d'; sys_w := sys_w s; sys_tasks := [r; r']; sys_waiters := [] |}, r'.
  assert (Hne : token r ≠ cancel_token vpn').
  { pose proof (proj2 Htok vpn Hv) as Hlt. rewrite Hct in Hlt. lia. }
  split; [exists t, (r_task r'); by rewrite Hts, Hw|]. split; [done|]. split; [exact Hne|]. cbn [sys_d].
  split; [by rewrite Hcan|]. split; [exact Hn'|]. unfold disconnect_begin. rewrite Hv'. cbn.
  split; [|split; [set_solver|exact Ht']]. rewrite Hcan. intros [Hin%elem_of_singleton|Hin]%elem_of_union; done.
Qed.

End system.

(** ** Witnesses *)

Module Race.
Import Echo AuthSample.
Abbreviation World := DaemonSample.World.
Definition fresh : DaemonInner := {|
  d_auth := DaemonSample.auth; d_vpn := None; d_config := config_default;
  d_config_path := "config.json"; d_credential_path := "credentials.json"; d_broadcasts := [];
  d_tunnel_task := None; d_active_outbound := None; d_next_token := 0; d_cancelled := ∅ |}.
Definition s0 : Sys (W:=World) := {| sys_d := fresh; sys_w := DaemonSample.no_files; sys_tasks := []; sys_waiters := [] |}.
Definition d1 : DaemonInner := (connect_tunnel vpn_request_default (fresh, DaemonSample.no_files)).1.1.
Definition task : Task := {| task_request := vpn_request_default; task_cancel := 1 |}.
Definition at_ (d : DaemonInner) (pc : Pc) : Sys (W:=World) :=
  {| sys_d := d; sys_w := DaemonSample.no_files; sys_tasks := [{| r_task := task; r_pc := pc |}]; sys_waiters := [] |}.
Definition c0 : Reconnect.ReconnectController := Reconnect.new Reconnect.android_compatible_default.
Definition refused : DaemonError := Fault NotAuthenticated.
Definition fails (t : Task) (e : DaemonError) : Prop := e = refused.
Definition failed : Sys (W:=World) :=
  at_ (mark_failed (daemon_error_to_string refused) (vpn_transition set_configuring d1)) (PcFailed c0).
Lemma failed_reached : sys_reaches fails calm failed.
Proof.
  apply SysSteps with (at_ (vpn_transition set_configuring d1) (PcAttempt c0)).
  2:{ exact (StepTunnel fails calm _ _ (StepTask fails calm [] [] task (PcAttempt c0) (Some (PcFailed c0)) _ _ _ _ (Failing fails task c0 refused _ eq_refl))). }
  apply SysSteps with (at_ d1 (PcHead c0)).
  2:{ exact (StepTunnel fails calm _ _ (StepTask fails calm [] [] task (PcHead c0) (Some (PcAttempt c0)) _ _ _ _ (Configuring_ fails task c0 _))). }
  apply SysSteps with s0; [by apply SysStarts|].
  apply StepTunnel, StepConnect with vpn_request_default.
  - split; [reflexivity|]. intros r Hr. by apply elem_of_nil in Hr.
  - eexists _, _. split; [vm_compute; reflexivity|]. split; [vm_compute; reflexivity|]. split; reflexivity.
Qed.
End Race.

Lemma one_tunnel_witness :
  length (sys_tasks Race.failed) = 1%nat ∧ in_charge (sys_d Race.failed) {| r_task := Race.task; r_pc := PcFailed Race.c0 |}.
Proof.
  split; [reflexivity|].
  apply (proj1 (proj2 (one_tunnel Race.fails Race.failed Race.failed_reached)) _ (list_elem_of_here _ _)). reflexivity.
Defined.

Lemma failed_attempt_race_witness :
  ∃ s' r', accepts vpn_request_default Race.failed s' ∧ length (sys_tasks s') = 2%nat ∧
    token r' ∉ d_cancelled (sys_d s').
Proof.
  destruct (failed_attempt_race Race.fails Race.failed {| r_task := Race.task; r_pc := PcFailed Race.c0 |} vpn_request_default
    Race.failed_reached eq_refl eq_refl eq_refl eq_refl) as (_ & s' & r' & Ha & Ht & _ & _ & Hn & _).
  exists s', r'. split; [exact Ha|]. split; [by rewrite Ht|exact Hn].
Defined.

End System.
