(* ===== verification/Startup.v ===== *)
(** * The process ([daemon/src/main.rs], [daemon/src/token.rs], [daemon/src/ui.rs])

    What the process does before it serves, in which order, with which error it
    gives up, which signals end it, and what it takes down then.  The server
    loop is the environment's: what it leaves when a signal stops it, or the
    error it dies of. *)

From S2P Require Import Prelude RustStr Net Models Signing Api Requests Login VpnState Negotiate Persist Faults.
From S2P Require Import AuthMachine Store Routes Interface Dialer Outbound Session Daemon.
Import Models Signing Api Requests Login Negotiate Persist Faults AuthMachine Store.
Import Routes(IpNet, IpNetwork).
Import Interface(NetInterface, ni_is_loopback, ni_ipv4).
Import Daemon.

Module Startup.

(** [path.join(name)], of a relative name. *)
Definition path_join (dir_ name : string) : string :=
  if str_is_empty dir_ || ends_with dir_ "/" then dir_ +:+ name else dir_ +:+ "/" +:+ name.

(* @daemon/src/main.rs:50-66 Args *)
Record Args : Type := { config_dir : option string; listen : SocketAddr; log_level : string }.

(* @daemon/src/main.rs:81-115 InitError *)
Inductive InitError : Type :=
  | LoadConfig (path : string) (source : PersistError)
  | LogLevelParse (log_level source : string)
  | SaveConfig (path : string) (source : PersistError)
  | LoadCredentials (path : string) (source : PersistError)
  | BindListener (listen : SocketAddr) (source : io_error)
  | Serve (source : io_error).

(** [identity.ensure_full()] in place. *)
Definition with_identity (id : DeviceIdentityConfig) (c : DaemonConfig) : DaemonConfig := {|
  dc_identity := id; dc_outbound_interface := dc_outbound_interface c;
  dc_fallback_dns := dc_fallback_dns c; dc_tun_interface := dc_tun_interface c;
  dc_auto_reconnect := dc_auto_reconnect c; dc_dns_listen_port := dc_dns_listen_port c;
  dc_dns_listen_host := dc_dns_listen_host c; dc_route_system_dns := dc_route_system_dns c |}.

(** The machine and the listener: the configuration directory and device
    identifier of the machine, the parser of log filters, and [bind]. *)
Class Machine (W : Type) : Type := {
  user_config_dir : option string;
  machine_id : string;
  log_filter : string → result string unit;
  bind_listener : SocketAddr → M W io_error unit;
}.

(* @daemon/src/main.rs:280-284 default_config_dir *)
Definition default_config_dir {W} `{Machine W} : string := path_join (default "." user_config_dir) "rustylink".

Section main.
Context `{Urls} `{IpNet} `{Crypto, Serde, ErrorText}.
Context {W : Type} `{Random W} `{Store W} `{Host W} `{!Session.TunDriver W} `{Machine W}.
Abbreviation St := (DaemonInner * W)%type.
Implicit Types s : St.

(* @daemon/src/main.rs:68-76 default_log_level *)
Definition default_log_level (debug_assertions : bool) : string := if debug_assertions then "debug" else "info".

(* @daemon/src/token.rs:7-11 generate_token *)
Definition generate_token (w : W) : W * string := let '(w1, b) := random_32 w in (w1, hex_encode b).

(** The operations between the arguments and the listener, on the files of
    the directory; the daemon they make and the access token. *)
(* @daemon/src/main.rs:135-176 main *)
Definition prepare_daemon (config_path credential_path : string) : M W InitError (DaemonInner * string) :=
  let! config := λ w, (w, map_err (LoadConfig config_path) (load_config config_path w)) in
  let config := with_identity (ensure_full machine_id (dc_identity config)).1 config in
  do! m_map_err (SaveConfig config_path) (save_config config config_path) in
  let! token := λ w, let '(w1, t) := generate_token w in (w1, Ok t) in
  let! credentials := λ w, (w, map_err (LoadCredentials credential_path) (load_credentials credential_path w)) in
  λ w,
    let d := daemon_new machine_id config config_path credential_path credentials w in
    let s := (install_cookie_persist_listener (d, w)).1 in
    let s := (restore_auth_state s).1 in
    let '(d, w) := (maybe_auto_resume s).1 in
    (w, Ok (d, token)).

(** [serving]: what the server does until a signal stops it, or it fails. *)
Variable serving : St → St * result io_error unit.
(** The end of a task that is awaited. *)
Variable wait : Task → St → St.

(** The daemon the process leaves behind, if one was made. *)
(* @daemon/src/main.rs:117-254 main *)
Definition main (args : Args) (w : W) : (option DaemonInner * W) * result InitError unit :=
  match log_filter (log_level args) with
  | Err e => ((None, w), Err (LogLevelParse (log_level args) e))
  | Ok _ =>
      let dir_ := default default_config_dir (config_dir args) in
      match prepare_daemon (path_join dir_ "config.json") (path_join dir_ "credentials.json") w with
      | (w1, Err e) => ((None, w1), Err e)
      | (w1, Ok (d, token)) =>
          match bind_listener (listen args) w1 with
          | (w2, Err e) => ((Some d, w2), Err (BindListener (listen args) e))
          | (w2, Ok _) =>
              match serving (d, w2) with
              | ((d3, w3), Err e) => ((Some d3, w3), Err (Serve e))
              | (s3, Ok _) =>
                  let '((d4, w4), _) := disconnect_tunnel wait s3 in ((Some d4, w4), Ok tt)
              end
          end
      end
  end.

End main.

(** *** The signals

    A future is when it is ready, if ever.  [ctrl_c] is ready with a signal or
    with an error, which the code does not look at; [terminate] is the
    registration of the handler and when it receives a signal.  When both are
    ready [tie] says which of the two [select!] polls first. *)
(* @daemon/src/main.rs:286-307 shutdown_signal *)
Definition shutdown_signal (tie : bool) (ctrl_c : option (Z * result io_error unit))
    (terminate : result io_error (option Z)) : option (Z * string) :=
  let ctrl_c := (λ c, (c.1, "received SIGINT")) <$> ctrl_c in
  let terminate :=
    match terminate with
    | Ok received => (λ n, (n, "received SIGTERM")) <$> received
    | Err _ => Some (0, "received SIGTERM")
    end in
  match ctrl_c, terminate with
  | Some c, Some t => if (c.1 <? t.1) || (c.1 =? t.1) && tie then Some c else Some t
  | Some c, None => Some c
  | None, t => t
  end.

(** *** What the user sees *)

(** [SocketAddr]'s [Display]. *)
Class AddrText : Type := addr_text : SocketAddr → string.

(* @daemon/src/main.rs:260-278 access_urls *)
Definition access_urls `{AddrText} (interfaces : list NetInterface) (listen : SocketAddr) (token : string) :
    list string :=
  let hosts :=
    if ip_is_unspecified (ip listen)
    then V4 (v4 127 0 0 1)
         :: flat_map (λ i, if ni_is_loopback i then [] else map V4 (ni_ipv4 i)) interfaces
    else [ip listen] in
  map (λ host, "http://" +:+ addr_text (sock host (port listen)) +:+ "/?token=" +:+ token) hosts.

(** An embedded file: its media type and bytes. *)
Definition Asset : Type := string * bytes.
Inductive UiResponse : Type := NotFound404 | Found (content_type : string) (body : bytes).
Section ui.
Variable get : string → option Asset.
(* @daemon/src/ui.rs:16-25 Assets::serve *)
Definition serve (path : string) : UiResponse :=
  match or_else (get path) (get "index.html") with
  | None => NotFound404
  | Some (ty, data) => Found ty data
  end.
(* @daemon/src/ui.rs:28-31 handler *)
Definition handler (uri_path : string) : UiResponse := serve (trim_start_matches "/" uri_path).
End ui.

(** ** Properties *)

(** A complete identity is what the requests carry, on any machine. *)
Lemma full_identity dev c :
  is_full (dc_identity c) = true → to_client_identity dev c = to_client_identity "" c.
Proof.
  unfold is_full. intros [Hd Hall]%andb_true_iff. cbn -[is_some_and non_blank] in Hall.
  rewrite !andb_true_iff in Hall. unfold to_client_identity. rewrite Hd.
  assert (Hf : ∀ f x y, is_some_and f non_blank = true →
    default x (opt_filter non_blank f) = default y (opt_filter non_blank f)).
  { intros [v|] x y Hv; [|done]. cbn in Hv |- *. by rewrite Hv. }
  f_equal; apply Hf; tauto.
Qed.

(** The laws of identity completion. *)
Lemma ensure_full_full dev c : non_blank dev = true → is_full (ensure_full dev c).1 = true.
Proof.
  intros Hdev. unfold ensure_full. destruct (is_full c) eqn:Hf; [done|].
  unfold is_full. cbn -[merge_field non_blank]. rewrite !merge_field_full by reflexivity.
  destruct (non_blank (di_device_id c)) eqn:Hd; by rewrite ?Hd, ?Hdev.
Qed.

(** With a handler, the server is told to stop at the first moment at which one
    of the two is ready, and never when none is. *)
Lemma stops_at_first_signal tie c received :
  match shutdown_signal tie c (Ok received) with
  | None => c = None ∧ received = None
  | Some (n, _) => (fst <$> c = Some n ∨ received = Some n) ∧
      (∀ m, fst <$> c = Some m → n <= m) ∧ (∀ m, received = Some m → n <= m)
  end.
Proof.
  unfold shutdown_signal. destruct c as [[c r]|], received as [t|]; cbn.
  - destruct (c <? t) eqn:Hlt, (c =? t) eqn:He; cbn; [..|destruct tie|]; cbn; naive_solver lia.
  - naive_solver lia.
  - naive_solver lia.
  - done.
Qed.

(** A handler that cannot be registered counts as a signal: the server is told
    to stop as soon as it serves. *)
Lemma unregistered_stops_at_once tie c e :
  (∀ n r, c = Some (n, r) → 0 <= n) → fst <$> shutdown_signal tie c (Err e) = Some 0.
Proof.
  intros Hc. unfold shutdown_signal. destruct c as [[c r]|]; cbn; [|done].
  specialize (Hc c r eq_refl). destruct (c <? 0) eqn:Hlt; [lia|].
  destruct (c =? 0) eqn:He, tie; cbn; f_equal; lia.
Qed.

Section facts.
Context `{Urls} `{IpNet} `{Crypto, Serde, ErrorText}.
Context {W : Type} `{Random W} `{StoreLaws W} `{Host W} `{!Session.TunDriver W} `{Machine W}.
Abbreviation St := (DaemonInner * W)%type.

(** Drawing random bytes leaves the files alone. *)
Definition random_elsewhere : Prop :=
  ∀ w, (∀ p, load_credentials p (random_32 w).1 = load_credentials p w) ∧
       ∀ p, load_config p (random_32 w).1 = load_config p w.

Lemma connect_tunnel_keeps request d (w : W) :
  let s' := (connect_tunnel request (d, w)).1 in
  s'.2 = w ∧ d_auth s'.1 = d_auth d ∧ d_config s'.1 = d_config d ∧ d_credential_path s'.1 = d_credential_path d.
Proof.
  unfold connect_tunnel, inner, upd, m_bind, m_lift, m_ret, m_fail. cbn zeta.
  destruct (negb _); [done|]. destruct (d_vpn d) as [vpn|] eqn:Hv.
  - rewrite Hv. by destruct (negb _).
  - destruct (build_tenant_client (d_auth d)) as [c|]; cbn; done.
Qed.
Lemma auto_resume_keeps d (w : W) :
  let s' := (maybe_auto_resume (d, w)).1 in
  s'.2 = w ∧ d_auth s'.1 = d_auth d ∧ d_config s'.1 = d_config d ∧ d_credential_path s'.1 = d_credential_path d.
Proof.
  unfold maybe_auto_resume. destruct (negb _); [done|]. destruct (load_credentials _ w) as [[creds|]|e]; [|done..].
  destruct (pc_last_vpn_request creds) as [p|]; [|done].
  pose proof (connect_tunnel_keeps (resume_request p) d w) as Hc. by destruct (connect_tunnel _ _).
Qed.

(** The daemon of a process on these credentials. *)
Definition started (c : DaemonConfig) (config_path path : string) (creds : option PersistedCredentials) (w : W) :
    DaemonInner :=
  (restore_auth_state (install_cookie_persist_listener (daemon_new machine_id c config_path path creds w, w)).1).1.1.

(** What a start that works has done. *)
Lemma prepared config_path path (w w' : W) d token :
  random_elsewhere → store_ok config_path w → store_apart config_path path w →
  prepare_daemon config_path path w = (w', Ok (d, token)) →
  ∃ c creds, load_config config_path w = Ok c ∧ load_credentials path w = Ok creds ∧
    load_credentials path w' = Ok creds ∧
    let c' := with_identity (ensure_full machine_id (dc_identity c)).1 c in
    load_config config_path w' = Ok c' ∧
    (d, w') = (maybe_auto_resume (started c' config_path path creds w', w')).1.
Proof.
  intros Hrand Hok Hap. unfold prepare_daemon, m_bind, m_map_err.
  destruct (load_config config_path w) as [c|e] eqn:Hc; cbn [map_err]; [|done].
  set (c' := with_identity _ c). pose proof (config_save_apart c' config_path path w Hap) as Hcred.
  destruct (save_config c' config_path w) as [w1 [[]|e]] eqn:Hs; cbn [map_err fst] in *; [|done].
  apply (save_then_load_config _ _ _ _ Hok) in Hs. unfold generate_token.
  destruct (Hrand w1) as [Hr1 Hr2]. destruct (random_32 w1) as [w2 b]. cbn [fst] in Hr1, Hr2.
  rewrite Hr1, Hcred. destruct (load_credentials path w) as [creds|e] eqn:Hl; cbn [map_err]; [|done].
  change (restore_auth_state _).1 with (started c' config_path path creds w2, w2).
  destruct (auto_resume_keeps (started c' config_path path creds w2) w2) as (Hw & _).
  destruct (maybe_auto_resume _) as [[d2 w2'] u] eqn:Hm. cbn [fst snd] in Hw. subst w2'. intros [= <- <- _].
  exists c, creds. split; [done|]. split; [done|]. split; [by rewrite Hr1, Hcred|].
  split; [by rewrite Hr2|]. unfold c' in Hm. by rewrite Hm.
Qed.

(** C5: Starting, on every branch: nothing is written before the configuration
    has been read, nor when it cannot be; a configuration that cannot be
    written stops the start with both files as they were; credentials that
    cannot be read stop it too, and are not overwritten; otherwise the stored
    configuration is the one that was there with its identity completed, the
    daemon is built from it and from the credentials, and the session is
    restored before a tunnel is resumed. *)
Theorem startup_outcome config_path path (w : W) :
  random_elsewhere → store_ok config_path w → store_apart config_path path w →
  let '(w', r) := prepare_daemon config_path path w in
  match r with
  | Err (LoadConfig p e) => p = config_path ∧ w' = w ∧ load_config config_path w = Err e
  | Err (SaveConfig p e) =>
      p = config_path ∧ load_config config_path w' = load_config config_path w ∧
      load_credentials path w' = load_credentials path w
  | Err (LoadCredentials p e) =>
      p = path ∧ load_credentials path w = Err e ∧ load_credentials path w' = Err e
  | Err _ => False
  | Ok (d, token) =>
      ∃ c creds, load_config config_path w = Ok c ∧ load_credentials path w = Ok creds ∧
        load_credentials path w' = Ok creds ∧
        let c' := with_identity (ensure_full machine_id (dc_identity c)).1 c in
        load_config config_path w' = Ok c' ∧
        (d, w') = (maybe_auto_resume (started c' config_path path creds w', w')).1
  end.
Proof.
  intros Hrand Hok Hap. destruct (prepare_daemon config_path path w) as [w' [[d token]|e]] eqn:Hp.
  { by apply (prepared _ _ _ _ _ _ Hrand Hok Hap) in Hp. }
  revert Hp. unfold prepare_daemon, m_bind, m_map_err.
  destruct (load_config config_path w) as [c|e0] eqn:Hc; cbn [map_err]; [|by intros [= <- <-]].
  set (c' := with_identity _ c). pose proof (config_save_apart c' config_path path w Hap) as Hcred.
  destruct (save_config c' config_path w) as [w1 [[]|e0]] eqn:Hs; cbn [map_err fst] in *.
  2:{ intros [= <- <-]. split; [done|]. split; [|done]. rewrite <- Hc. by eapply failed_save_keeps_config. }
  unfold generate_token. destruct (Hrand w1) as [Hr1 _]. destruct (random_32 w1) as [w2 b]. cbn [fst] in Hr1.
  rewrite Hr1, Hcred. destruct (load_credentials path w) as [creds|e0] eqn:Hl; cbn [map_err].
  { by destruct (maybe_auto_resume _) as [[d2 w2'] u]. }
  intros [= <- <-]. split; [done|]. split; [done|]. by rewrite Hr1, Hcred.
Qed.

(** The device identity is settled at the first start: what a start leaves
    on disk is the configuration it runs with, its identity is complete, so
    that no later start changes it, and the requests of this process and of
    every later one on that configuration carry the same identity, even on a
    machine that reports another identifier. *)
Theorem identity_settled config_path path (w w' : W) d token :
  random_elsewhere → store_ok config_path w → store_apart config_path path w → non_blank machine_id = true →
  prepare_daemon config_path path w = (w', Ok (d, token)) →
  load_config config_path w' = Ok (d_config d) ∧
  ∀ dev, ensure_full dev (dc_identity (d_config d)) = (dc_identity (d_config d), false) ∧
         am_identity (d_auth d) = to_client_identity dev (d_config d).
Proof.
  intros Hrand Hok Hap Hid Hp. destruct (prepared _ _ _ _ _ _ Hrand Hok Hap Hp) as (c & creds & _ & _ & _ & Hload & Hd).
  set (c' := with_identity _ c) in *.
  assert (Hfull : is_full (dc_identity c') = true) by by apply ensure_full_full.
  destruct (auto_resume_keeps (started c' config_path path creds w') w') as (_ & Ha & Hc & _).
  rewrite <- Hd in Ha, Hc. cbn [fst] in Ha, Hc. change (d_config (started c' config_path path creds w')) with c' in Hc.
  rewrite Hc, Ha. split; [done|]. intros dev. split; [unfold ensure_full; by rewrite Hfull|].
  rewrite (full_identity dev c' Hfull), <- (full_identity machine_id c' Hfull).
  unfold started, daemon_new. cbn. unfold restore_session. by destruct creds; cbn; repeat case_match.
Qed.

(** The process, from its arguments. *)
Section process.
Variable serving : St → St * result io_error unit.
Variable wait : Task → St → St.
Definition path_of (args : Args) (name : string) : string := path_join (default default_config_dir (config_dir args)) name.

Lemma prepare_error config_path path w w' e :
  prepare_daemon config_path path w = (w', Err e) →
  match e with LoadConfig _ _ | SaveConfig _ _ | LoadCredentials _ _ => True | _ => False end.
Proof.
  unfold prepare_daemon, m_bind, m_map_err.
  destruct (load_config config_path w) as [c|e0]; cbn [map_err]; [|by intros [= _ <-]].
  destruct (save_config _ _ w) as [w1 [[]|e0]]; cbn [map_err]; [|by intros [= _ <-]].
  destruct (generate_token w1) as [w2 t]. destruct (load_credentials path w2) as [creds|e0]; cbn [map_err].
  - by destruct (maybe_auto_resume _) as [[d2 w2'] u].
  - by intros [= _ <-].
Qed.

(** The task the daemon holds runs on the machine's token. *)
Definition holds (t : Task) d : Prop :=
  d_tunnel_task d = Some t ∧ ∃ vpn, d_vpn d = Some vpn ∧ cancel_token vpn = task_cancel t.

(** C27: The end of the process, on every branch.  When the server has stopped
    after a signal, the tunnel is taken down: the token of the task that the
    daemon then holds is cancelled before its end is awaited, so that a task
    that ends when it is cancelled is not [alive] any more, and the machine is
    disconnected.  Every other end is an error, and one that comes after the
    daemon was built, a listener that cannot be bound or a server that dies,
    leaves the daemon as it then was, a resumed tunnel and its task included.
    Assumed: once the server has stopped nothing connects. *)
Theorem main_outcome (alive : Task → W → Prop) args w :
  (∀ t s, is_cancelled (task_cancel t) s = true → ¬ alive t (wait t s).2) →
  (∀ t s, d_tunnel_task s.1 = None → d_tunnel_task (wait t s).1 = None) →
  let '((o, w'), r) := main serving wait args w in
  match r with
  | Ok _ => ∃ d0 token w1 w2 d3 w3 d,
      prepare_daemon (path_of args "config.json") (path_of args "credentials.json") w = (w1, Ok (d0, token)) ∧
      bind_listener (listen args) w1 = (w2, Ok tt) ∧ serving (d0, w2) = ((d3, w3), Ok tt) ∧ o = Some d ∧
      (∀ t, holds t d3 → ¬ alive t w') ∧
      d_tunnel_task d = None ∧ ∀ vpn, d_vpn d = Some vpn → state vpn = Disconnected
  | Err (LogLevelParse l e) => o = None ∧ w' = w ∧ l = log_level args
  | Err (BindListener l e) => l = listen args ∧ ∃ d token w1, o = Some d ∧
      prepare_daemon (path_of args "config.json") (path_of args "credentials.json") w = (w1, Ok (d, token)) ∧
      bind_listener l w1 = (w', Err e)
  | Err (Serve e) => ∃ d s, o = Some d ∧ serving s = ((d, w'), Err e)
  | Err e => o = None ∧
      prepare_daemon (path_of args "config.json") (path_of args "credentials.json") w = (w', Err e)
  end.
Proof.
  intros Halive Hwait. unfold main. destruct (log_filter _) as [u|e]; [|done].
  fold (path_of args "config.json"). fold (path_of args "credentials.json").
  destruct (prepare_daemon _ _ w) as [w1 [[d token]|e]] eqn:Hp.
  2:{ apply prepare_error in Hp as He. by destruct e. }
  destruct (bind_listener _ w1) as [w2 [[]|e]] eqn:Hb; [|split; [done|]; by exists d, token, w1].
  destruct (serving (d, w2)) as [[d3 w3] [[]|e]] eqn:Hs; [|by exists d3, (d, w2)].
  unfold disconnect_tunnel. set (d5 := disconnect_begin d3).
  set (s6 := match d_tunnel_task d5 with Some _ => _ | None => _ end).
  assert (Ht : d_tunnel_task s6.1 = None).
  { unfold s6. destruct (d_tunnel_task d5) as [t|] eqn:Ht; [by apply Hwait|done]. }
  assert (Hend : ∀ t, holds t d3 → ¬ alive t s6.2).
  { intros t (Hheld & vpn & Hv & Htok). unfold s6, d5, disconnect_begin. rewrite Hv. cbn [d_tunnel_task cancel set_vpn].
    rewrite Hheld. apply Halive. unfold is_cancelled. apply bool_decide_eq_true_2. cbn. rewrite Htok. set_solver. }
  clearbody s6. destruct s6 as [d6 w6]. cbn [fst snd] in Ht, Hend. eexists d, token, w1, w2, d3, w3, _.
  split; [done|]. split; [exact Hb|]. split; [exact Hs|]. split; [reflexivity|]. split; [exact Hend|].
  unfold vpn_transition. destruct (d_vpn d6) as [vpn|] eqn:Hv; cbn; [|by rewrite Hv].
  split; [done|]. by intros v [= <-].
Qed.
End process.

End facts.

(** ** Witnesses *)

(** A machine whose port is taken, over the two files of [DaemonSample]. *)
Module Desk.
Import Echo AuthSample.
Definition World : Type := DaemonSample.World.
#[global] Instance random : Random World :=
  { random_32 w := (w, bytes_of "0123456789abcdef"); url_safe_no_pad := of_bytes }.
#[global] Instance net : IpNet := DaemonSample.net.
#[global] Instance machine : Machine World := {
  user_config_dir := Some "/root/.config"; machine_id := "id";
  log_filter s := if str_is_empty s then Err "empty" else Ok tt;
  bind_listener a w := (w, if port a =? 7878 then Err (IoError AddrInUse "Address already in use") else Ok tt) }.
#[global] Instance driver : Session.TunDriver World := {
  Session.tun_build _ w := (w, Ok 5); Session.tun_device_name _ w := (w, Ok "wg0");
  Session.tun_device_mtu _ w := (w, Ok 1400); Session.wg_build _ w := (w, Ok 6);
  Session.tun_drop _ w := w; Session.wg_stop _ w := w; Session.dns_serve _ _ w := (w, 7); Session.dns_shutdown _ w := w;
  Session.probe_start _ _ w := (w, 8); Session.probe_drop _ w := w; Session.probe_last_rx _ _ := None;
  Session.instant_now _ := 0; Session.lookup_host _ w := (w, Ok [sock (V4 0) 1]);
  Session.resolv_conf _ := Ok [] }.
Definition request : PersistedVpnRequest :=
  {| p_mode := "Full"; p_location_id := None; p_protocol_mode := FeilianTcp; p_reconnect := true |}.
Definition config : DaemonConfig := {|
  dc_identity := identity_config_default; dc_outbound_interface := None; dc_fallback_dns := None;
  dc_tun_interface := None; dc_auto_reconnect := true; dc_dns_listen_port := None;
  dc_dns_listen_host := None; dc_route_system_dns := None |}.
(** The files of a daemon that was stopped while its tunnel was up. *)
Definition world : World := (to_credentials_with_vpn "now" (Some request) DaemonSample.auth, Some config).
Definition args (p : Z) : Args := {| config_dir := None; listen := sock (V4 (v4 127 0 0 1)) p; log_level := "info" |}.
Definition serving (s : DaemonInner * World) : (DaemonInner * World) * result io_error unit := (s, Ok tt).
Definition wait (t : Task) (s : DaemonInner * World) : DaemonInner * World := (mark_disconnected s.1, s.2).
(** A task that removes a file when it is cancelled and ends, by which it is
    known to run. *)
Definition alive (t : Task) (w : World) : Prop := is_some w.2 = true.
Definition ends (t : Task) (s : DaemonInner * World) : DaemonInner * World :=
  if is_cancelled (task_cancel t) s then (mark_disconnected s.1, (s.2.1, None)) else s.
End Desk.

(** Starting a second daemon with auto-reconnect brings a tunnel up before the
    port is found taken: the process ends with an error, its connecting
    tunnel neither cancelled nor awaited. *)
Theorem taken_port_abandons_tunnel :
  match main Desk.serving Desk.wait (Desk.args 7878) Desk.world with
  | ((Some d, _), Err (BindListener _ _)) =>
      match d_tunnel_task d with
      | Some task => bool_decide (task_cancel task ∈ d_cancelled d) = false ∧
                     t_state <$> last (d_broadcasts d) = Some StateConnecting
      | None => False
      end
  | _ => False
  end.
Proof. vm_compute. split; reflexivity. Qed.

Lemma desk_random : random_elsewhere (W:=Desk.World).
Proof. intros w. split; reflexivity. Qed.

Lemma startup_outcome_witness :
  ∃ d token w', prepare_daemon (W:=Desk.World) "config.json" "credentials.json" Desk.world = (w', Ok (d, token)) ∧
    am_state (d_auth d) = Authenticated ∧ w'.1 = Desk.world.1.
Proof.
  pose proof (startup_outcome (W:=Desk.World) "config.json" "credentials.json" Desk.world desk_random I I) as Ho.
  assert (Hok : match prepare_daemon (W:=Desk.World) "config.json" "credentials.json" Desk.world with
    | (_, Ok (d, _)) => am_state (d_auth d) = Authenticated | _ => False end) by (vm_compute; reflexivity).
  destruct (prepare_daemon _ _ _) as [w' [[d token]|e]]; [|contradiction].
  exists d, token, w'. split; [reflexivity|]. split; [exact Hok|].
  destruct Ho as (c & creds & _ & Hl & Hl' & _).
  change (Ok (E:=PersistError) Desk.world.1 = Ok creds) in Hl. change (Ok (E:=PersistError) w'.1 = Ok creds) in Hl'.
  rewrite <- Hl in Hl'. by injection Hl'.
Defined.

Lemma identity_settled_witness :
  ∃ d token w', prepare_daemon (W:=Desk.World) "config.json" "credentials.json" Desk.world = (w', Ok (d, token)) ∧
    ensure_full "other" (dc_identity (d_config d)) = (dc_identity (d_config d), false).
Proof.
  assert (Hok : is_ok (prepare_daemon (W:=Desk.World) "config.json" "credentials.json" Desk.world).2 = true)
    by (vm_compute; reflexivity).
  destruct (prepare_daemon _ _ _) as [w' [[d token]|e]] eqn:E; [|discriminate Hok].
  exists d, token, w'. split; [reflexivity|].
  exact (proj1 (proj2 (identity_settled (W:=Desk.World) "config.json" "credentials.json" Desk.world w' d token
    desk_random I I eq_refl E) "other")).
Defined.

Lemma main_outcome_witness :
  ∃ d w' d3 w3 t, main Desk.serving Desk.ends (Desk.args 7879) Desk.world = ((Some d, w'), Ok tt) ∧
    holds t d3 ∧ Desk.alive t w3 ∧ ¬ Desk.alive t w' ∧ d_tunnel_task d = None.
Proof.
  pose proof (main_outcome (W:=Desk.World) Desk.serving Desk.ends Desk.alive (Desk.args 7879) Desk.world) as Ho.
  assert (Hok : is_ok (main Desk.serving Desk.ends (Desk.args 7879) Desk.world).2 = true) by (vm_compute; reflexivity).
  set (t := {| task_request := resume_request Desk.request; task_cancel := 1 |} : Task).
  assert (Hp : match prepare_daemon (path_of (Desk.args 7879) "config.json")
      (path_of (Desk.args 7879) "credentials.json") Desk.world with
    | (w, Ok (d, _)) => d_tunnel_task d = Some t ∧ cancel_token <$> d_vpn d = Some 1%nat ∧ Desk.alive t w
    | _ => False end) by (vm_compute; repeat split).
  destruct (main _ _ _ _) as [[o w'] [[]|e]]; [|discriminate Hok].
  destruct Ho as (d0 & token & w1 & w2 & d3 & w3 & d & Hprep & [= <-] & [= <- <-] & -> & Hend & Ht & _).
  { intros t' s Hc. unfold Desk.ends. rewrite Hc. by unfold Desk.alive. }
  { intros t' [d w] Hd. unfold Desk.ends. destruct (is_cancelled _ _); [|exact Hd].
    unfold mark_disconnected, vpn_transition. cbn. by destruct (d_vpn d). }
  rewrite Hprep in Hp. destruct Hp as (Htask & Hv & Hw).
  assert (Hh : holds t d0).
  { split; [exact Htask|]. destruct (d_vpn d0) as [vpn|]; [|done]. exists vpn. by injection Hv as ->. }
  exists d, w', d0, w1, t. by auto 10.
Defined.

End Startup.
