(* ===== verification/AuthService.v ===== *)
(** * The authentication RPCs ([daemon/src/service/auth.rs])

    Each handler takes the fields of its request, calls the auth coordinator
    under the daemon's lock, runs the side effects of a login and answers with
    the session.  What the rest of the daemon does while a device login waits
    between two polls is the environment's. *)

From S2P Require Import Prelude RustStr Net Models Signing Api Requests Login VpnState Negotiate Persist Faults.
From S2P Require Import AuthMachine Store Routes Dialer Outbound Session Daemon.
Import Models Signing Api Requests Login Negotiate Persist Faults AuthMachine Store.
Import Routes(IpNet, IpNetwork).
Import Daemon.

Module AuthService.

(* @daemon/src/service/auth.rs:23-23 DEFAULT_LOGIN_SCENE *)
Definition DEFAULT_LOGIN_SCENE : string := "feilian".

(** At [&str] and [String], where the default is the empty string. *)
(* @daemon/src/daemon.rs:1018-1026 DefaultOrExt::non_default_or *)
Definition non_default_or (value fallback : string) : string :=
  if bool_decide (value = "") then fallback else value.

(** The numbers of a JSON object; [{}] is the empty object. *)
(* @daemon/src/service/auth.rs:535-550 all_green_security_report *)
Definition all_green_security_report : list SecurityReportItem :=
  let item k d := {| sr_key := k; sr_level := 0; sr_data := d |} in
  let usb : option JsonObject := Some [("usbStatus", JInt (-1))] in
  [item "root" None; item "certificate" None; item "wifi" None; item "wifi_wep" None;
   item "network" (Some []); item "password" None; item "lock_image" None;
   item "debug_off" usb; item "debug_on" usb].

Record ThirdPartyProvider : Type := {
  pr_alias_key : string; pr_name : string; pr_login_url : string;
  pr_is_custom : bool; pr_supports_poll : bool;
}.
(* @daemon/src/service/auth.rs:291-298 pb::ThirdPartyProvider *)
Definition provider_of (info : ThirdPartyLoginInfo) : ThirdPartyProvider := {|
  pr_alias_key := default "" (or_else (tp_alias_key info) (tp_alias info));
  pr_name := default "" (or_else (tp_name info) (tp_full_title info));
  pr_login_url := default "" (or_else (tp_login_url info) (tp_url info));
  pr_is_custom := default false (tp_is_custom info);
  pr_supports_poll := is_some (tp_token info) |}.

Section service.
Context `{Urls} `{IpNet} `{Crypto, Serde, ErrorText} `{!MatchUrl}.
Context {W : Type} `{!Http W} `{Random W} `{Store W} `{Host W} `{!Session.TunDriver W}.
Abbreviation St := (DaemonInner * W)%type.
Abbreviation op A := (M (DaemonInner * W) DaemonError A).

(** [inner.auth.call().await]. *)
Definition auth {A} (m : M (AuthMachine * W) DaemonError A) : op A := on_auth m.
Definition authenticated : op bool :=
  let! d := inner in m_ret (bool_decide (am_state (d_auth d) = Authenticated)).

(* @daemon/src/service/auth.rs:38-41 AuthServiceImpl::current_session *)
Definition current_session : op Session := let! d := inner in m_ret (to_session_proto (d_auth d)).

(* @daemon/src/service/auth.rs:45-53 AuthServiceImpl::maybe_persist_and_broadcast *)
Definition maybe_persist_and_broadcast : op unit :=
  let! a := authenticated in
  if (a : bool) then persist_credentials else m_ret tt.

(** *** After a login *)

(** A failed fetch is only logged. *)
(* @daemon/src/service/auth.rs:482-506 AuthServiceImpl::maybe_fetch_totp *)
Definition maybe_fetch_totp : op unit :=
  let! d := inner in
  match build_tenant_client (d_auth d) with
  | None => m_ret tt
  | Some client =>
      let! r := m_try (E:=VpnError) (on_jar (fetch_totp (W:=W) client)) in
      match r with
      | Ok (Some config) =>
          upd (λ d, set_auth (set_totp (Some {| pt_url := totp_url config;
                                pt_time_diff_seconds := time_diff_seconds config |}) (d_auth d)) d)
      | Ok None | Err _ => m_ret tt
      end
  end.

(** A failed report is only logged. *)
(* @daemon/src/service/auth.rs:509-524 AuthServiceImpl::maybe_report_security *)
Definition maybe_report_security : op unit :=
  let! d := inner in
  match build_tenant_client (d_auth d) with
  | None => m_ret tt
  | Some client =>
      do! m_try (E:=ApiError) (on_jar (send (W:=W) de_string client
            (SecurityReportRequest None all_green_security_report None))) in
      m_ret tt
  end.

(* @daemon/src/service/auth.rs:469-479 AuthServiceImpl::post_login *)
Definition post_login : op unit :=
  let! a := authenticated in
  if negb a then m_ret tt else do! maybe_fetch_totp in maybe_report_security.

(** What the handlers of a login do after the coordinator's call. *)
Definition logged_in : op Session :=
  do! post_login in do! maybe_persist_and_broadcast in current_session.

(** *** Handlers *)

(* @daemon/src/service/auth.rs:58-66 AuthServiceImpl::get_session *)
Definition get_session : op Session := current_session.

(* @daemon/src/service/auth.rs:68-99 AuthServiceImpl::activate *)
Definition rpc_activate (code base_url backup_url match_base_url : option string) : op Session :=
  do! auth (activate (default "" code) base_url backup_url match_base_url) in
  do! auth refresh_login_api_version in
  do! maybe_persist_and_broadcast in
  current_session.

(* @daemon/src/service/auth.rs:101-127 AuthServiceImpl::login *)
Definition rpc_login (account password login_scene account_type : string) : op Session :=
  do! require_configured in
  do! auth (am_login account password (non_default_or login_scene DEFAULT_LOGIN_SCENE)
              (non_default_or account_type "account")) in
  logged_in.

(** [None] is an unknown value of the enum. *)
Definition login_type_text (t : option LoginCodeType) : string := wire (default CodeTypeUnspecified t).

(* @daemon/src/service/auth.rs:129-157 AuthServiceImpl::request_login_code *)
Definition rpc_request_login_code (account : string) (login_type : option LoginCodeType)
    (login_scene account_type : string) : op string :=
  do! require_configured in
  do! auth (am_send_login_code account (login_type_text login_type)
              (non_default_or login_scene DEFAULT_LOGIN_SCENE) (non_default_or account_type "account")) in
  m_ret "".

(* @daemon/src/service/auth.rs:159-190 AuthServiceImpl::verify_login_code *)
Definition rpc_verify_login_code (account code : string) (login_type : option LoginCodeType)
    (login_scene account_type : string) : op Session :=
  do! require_configured in
  do! auth (am_verify_login_code account code (login_type_text login_type)
              (non_default_or login_scene DEFAULT_LOGIN_SCENE) (non_default_or account_type "account")) in
  logged_in.

(* @daemon/src/service/auth.rs:192-213 AuthServiceImpl::request_mfa_code *)
Definition rpc_request_mfa_code (mfa_type account login_scene : string) : op string :=
  do! require_configured in
  do! auth (am_send_mfa_code mfa_type account (non_default_or login_scene DEFAULT_LOGIN_SCENE)) in
  m_ret "".

(* @daemon/src/service/auth.rs:215-247 AuthServiceImpl::verify_mfa *)
Definition rpc_verify_mfa (mfa_type account : string) (code password : option string)
    (login_scene : string) : op Session :=
  do! require_configured in
  do! auth (am_verify_mfa mfa_type account code password (non_default_or login_scene DEFAULT_LOGIN_SCENE)) in
  logged_in.

(* @daemon/src/service/auth.rs:249-268 AuthServiceImpl::skip_pending_challenge *)
Definition rpc_skip_pending_challenge (login_scene : string) : op Session :=
  do! require_configured in
  do! auth (am_skip_challenge (non_default_or login_scene DEFAULT_LOGIN_SCENE)) in
  logged_in.

(** A client for a query, or the fault when there is none. *)
Definition client_or (f : RpcFault) : op ApiClient :=
  let! d := inner in m_lift (ok_or (build_tenant_client (d_auth d)) (Fault f)).

(* @daemon/src/service/auth.rs:270-304 AuthServiceImpl::list_third_party_providers *)
Definition rpc_list_third_party_providers : op (list ThirdPartyProvider) :=
  do! require_configured in
  let! client := client_or NotConfigured in
  let! links := m_map_err from_flow (on_jar (third_party_login_links (W:=W) client)) in
  m_ret (map provider_of (default [] (data (links_response links)))).

(** The URL to open and the state to expect; [polling] is never set. *)
(* @daemon/src/service/auth.rs:306-326 AuthServiceImpl::start_third_party_login *)
Definition rpc_start_third_party_login (alias_key : string) : op (string * string * bool) :=
  do! require_configured in
  do! auth (am_start_oauth alias_key) in
  let! d := inner in
  m_ret (match am_oauth_pending (d_auth d) with
         | Some p => (oa_url p, oauth_state p, false)
         | None => ("", "", false)
         end).

(* @daemon/src/service/auth.rs:328-346 AuthServiceImpl::complete_third_party_login *)
Definition rpc_complete_third_party_login (code state : string) : op Session :=
  do! require_configured in
  do! auth (am_complete_oauth code state) in
  logged_in.

(* @daemon/src/service/auth.rs:348-369 AuthServiceImpl::start_device_login *)
Definition rpc_start_device_login (alias_key : string) : op (Session * string) :=
  do! require_configured in
  do! auth (am_start_device_login alias_key) in
  let! d := inner in
  let! session := current_session in
  m_ret (session, default "" (dl_login_url <$> am_device_login_pending (d_auth d))).

(** *** Device login *)

Definition POLL_INTERVAL : duration := from_secs 2.
Definition DEVICE_LOGIN_TIMEOUT : duration := from_mins 2.

(** A sleep: the time passes, and whatever the rest of the daemon does in it. *)
Variable pause : duration → St → St.

(** [fuel] polls; [None]: still polling after them. *)
(* @daemon/src/service/auth.rs:401-426 AuthServiceImpl::complete_device_login *)
Fixpoint poll_token (client : ApiClient) (token : string) (deadline : Z) (fuel : nat) : op (option unit) :=
  match fuel with
  | O => m_ret None
  | S fuel' => λ s,
      if deadline <=? Session.instant_now s.2
      then (s, Err (Fault (Unavailable "device login timed out waiting for user")))
      else
        match on_jar (send (W:=W) de_login client (ThirdPartyTokenCheckRequest token)) s with
        | (s1, Ok _) => (s1, Ok (Some tt))
        | (s1, Err _) => poll_token client token deadline fuel' (pause POLL_INTERVAL s1)
        end
  end.

(* @daemon/src/service/auth.rs:371-441 AuthServiceImpl::complete_device_login *)
Definition rpc_complete_device_login (fuel : nat) : op (option Session) :=
  do! require_configured in
  let! d := inner in
  let! pending := m_lift (ok_or (am_device_login_pending (d_auth d))
                                (Fault (InvalidArgument "no pending device login flow"))) in
  let! client := client_or NotConfigured in
  let! start := λ s, (s, Ok (Session.instant_now s.2)) in
  let! polled := poll_token client (dl_poll_token pending) (start + DEVICE_LOGIN_TIMEOUT) fuel in
  match polled with
  | None => m_ret None
  | Some _ =>
      do! auth am_complete_device_login in
      let! session := logged_in in m_ret (Some session)
  end.

(* @daemon/src/service/auth.rs:443-459 AuthServiceImpl::logout *)
Definition rpc_logout (logout_all : bool) : op Session :=
  do! require_configured in
  do! auth (am_logout logout_all) in
  do! delete_credentials in
  current_session.

(** *** The service *)

Inductive AuthRequest : Type :=
  | GetSession
  | Activate (code base_url backup_url match_base_url : option string)
  | PasswordLogin (account password login_scene account_type : string)
  | RequestLoginCode (account : string) (login_type : option LoginCodeType) (login_scene account_type : string)
  | VerifyLoginCode (account code : string) (login_type : option LoginCodeType)
      (login_scene account_type : string)
  | RequestMfaCode (mfa_type account login_scene : string)
  | VerifyMfa (mfa_type account : string) (code password : option string) (login_scene : string)
  | SkipPendingChallenge (login_scene : string)
  | ListThirdPartyProviders
  | StartThirdPartyLogin (alias_key : string)
  | CompleteThirdPartyLogin (code state : string)
  | StartDeviceLogin (alias_key : string)
  | CompleteDeviceLogin
  | Logout (logout_all : bool).

Inductive AuthReply : Type :=
  | ReplySession (s : Session)
  | ReplyCode (code : string)
  | ReplyProviders (l : list ThirdPartyProvider)
  | ReplyThirdParty (auth_url state : string) (polling : bool)
  | ReplyDevice (s : Session) (login_url : string)
  | StillPolling.

Definition reply {A} (f : A → AuthReply) (m : op A) : op AuthReply := let! a := m in m_ret (f a).
(** [fuel] bounds the polls of a device login. *)
Definition serve_auth (fuel : nat) (r : AuthRequest) : op AuthReply :=
  match r with
  | GetSession => reply ReplySession get_session
  | Activate c b k m => reply ReplySession (rpc_activate c b k m)
  | PasswordLogin a p s t => reply ReplySession (rpc_login a p s t)
  | RequestLoginCode a l s t => reply ReplyCode (rpc_request_login_code a l s t)
  | VerifyLoginCode a c l s t => reply ReplySession (rpc_verify_login_code a c l s t)
  | RequestMfaCode t a s => reply ReplyCode (rpc_request_mfa_code t a s)
  | VerifyMfa t a c p s => reply ReplySession (rpc_verify_mfa t a c p s)
  | SkipPendingChallenge s => reply ReplySession (rpc_skip_pending_challenge s)
  | ListThirdPartyProviders => reply ReplyProviders rpc_list_third_party_providers
  | StartThirdPartyLogin k => reply (λ t, ReplyThirdParty t.1.1 t.1.2 t.2) (rpc_start_third_party_login k)
  | CompleteThirdPartyLogin c s => reply ReplySession (rpc_complete_third_party_login c s)
  | StartDeviceLogin k => reply (λ t, ReplyDevice t.1 t.2) (rpc_start_device_login k)
  | CompleteDeviceLogin =>
      reply (λ o, match o with Some s => ReplySession s | None => StillPolling end)
            (rpc_complete_device_login fuel)
  | Logout a => reply ReplySession (rpc_logout a)
  end.

End service.
End AuthService.
