(* ===== verification/AuthInvariant.v ===== *)
(** * The auth coordinator stays well-formed

    A well-formedness invariant of the auth coordinator that every RPC, the
    cookie listener and a restart preserve, also when other requests are served
    while a device login waits between two polls. *)

From S2P Require Import Prelude RustStr Net Models Signing Api Requests Login VpnState Negotiate Persist Faults.
From S2P Require Import AuthMachine Store Routes Dialer Outbound Session Daemon AuthService.
Import Models Signing Api Requests Login Negotiate Persist Faults AuthMachine Store.
Import Routes(IpNet, IpNetwork).
Import Daemon AuthService.

Module AuthInvariant.

(** ** Calls that can only answer some values *)

Definition yields {St E A} (m : M St E A) (Q : A → Prop) : Prop :=
  ∀ s s' a, m s = (s', Ok a) → Q a.
Lemma yields_ret {St E A} (a : A) (Q : A → Prop) : Q a → yields (St:=St) (m_ret (E:=E) a) Q.
Proof. intros Ha s s' a' [= _ <-]. exact Ha. Qed.
Lemma yields_bind {St E A B} (m : M St E A) (k : A → M St E B) Q :
  (∀ a, yields (k a) Q) → yields (m_bind m k) Q.
Proof. intros Hk s s' b. unfold m_bind. destruct (m s) as [s1 [a|e]]; [apply Hk|done]. Qed.

(** The states a login leads to. *)
Definition logs_in (s : AuthState) : Prop :=
  match s with Authenticated | AwaitingOtp _ _ | AwaitingMfa _ _ _ _ _ => True | _ => False end.
Lemma next_auth_state_logs_in r : logs_in (next_auth_state r).
Proof. unfold next_auth_state. by destruct (next_login_step r). Qed.
#[export] Hint Resolve next_auth_state_logs_in yields_ret yields_bind : rust.

Section flows.
Context {W : Type} `{Urls} `{!Http W} `{Crypto} `{Serde}.
Lemma login_yields c v s t a p : yields (login (W:=W) c v s t a p) logs_in.
Proof. unfold login. eauto with rust. Qed.
Lemma verify_login_code_yields c v s t l a k : yields (verify_login_code (W:=W) c v s t l a k) logs_in.
Proof. unfold verify_login_code. eauto with rust. Qed.
Lemma verify_mfa_yields c v s t a k p : yields (verify_mfa (W:=W) c v s t a k p) logs_in.
Proof. unfold verify_mfa. eauto with rust. Qed.
Lemma skip_challenge_yields c s : yields (skip_challenge (W:=W) c s) logs_in.
Proof. unfold skip_challenge. eauto with rust. Qed.
End flows.

(** ** The invariant *)

Definition in_session (s : AuthState) : bool :=
  match s with Unconfigured | Configured => false | _ => true end.

(** A tenant and its signing data come together; a machine that was never
    activated has none; whoever is past the activation has a tenant that can
    be addressed, under the condition [C]; a device login that is awaited is
    known.  [T] is what else is known of the tenant. *)
Record auth_ok `{Urls} (C : Prop) (T : option TenantConfig → Prop) (m : AuthMachine) : Prop := {
  ok_signing : is_some (am_tenant m) = is_some (am_signing m);
  ok_unconfigured : am_state m = Unconfigured → am_tenant m = None;
  ok_client : C → in_session (am_state m) = true → is_some (build_tenant_client m) = true;
  ok_device : am_state m = AwaitingDeviceLogin → is_some (am_device_login_pending m) = true;
  ok_tenant : T (am_tenant m);
}.
Definition any_tenant : option TenantConfig → Prop := λ _, True.

Section machine.
Context {W : Type} `{Urls} `{!Http W} `{Crypto} `{Serde} `{Random W} `{ErrorText} `{!MatchUrl}.
Implicit Types m : AuthMachine.
Abbreviation op A := (M (AuthMachine * W) DaemonError A).
Variables (C : Prop) (T : option TenantConfig → Prop).

(** Machines that differ in their cookies, tokens, version or pool. *)
Definition similar m m' : Prop :=
  am_state m' = am_state m ∧ am_tenant m' = am_tenant m ∧ am_signing m' = am_signing m ∧
  am_device_login_pending m' = am_device_login_pending m.
Lemma similar_ok m m' : similar m m' → auth_ok C T m → auth_ok C T m'.
Proof.
  intros (Hs & Ht & Hg & Hd) []. pose proof (build_tenant_client_some m m' Ht) as Hc.
  split; rewrite ?Hs, ?Ht, ?Hg, ?Hd, ?Hc; done.
Qed.
Lemma set_cookies_ok c m : auth_ok C T m → auth_ok C T (set_cookies c m).
Proof. by apply similar_ok. Qed.

Lemma has_client m m' :
  am_tenant m' = am_tenant m → is_some (build_tenant_client m) = true → is_some (build_tenant_client m') = true.
Proof. intros Ht. by rewrite (build_tenant_client_some m m' Ht). Qed.

Definition preserves {E A} (o : M (AuthMachine * W) E A) : Prop := ∀ s, auth_ok C T s.1 → auth_ok C T (o s).1.1.

Lemma preserves_through {E A} (call : M (CookieStore * W) E A) : preserves (through call).
Proof. intros [m w] Hm. unfold through. destruct (call _) as [[jar w1] r]. by apply set_cookies_ok. Qed.

(** A tenant flow that answers: there was a client. *)
Lemma tenant_flow_ok {A} (f : ApiClient → LoginApiVersion → M (CookieStore * W) FlowError A) (Q : A → Prop)
    m w m1 w1 a :
  (∀ c v, yields (f c v) Q) → tenant_flow f (m, w) = ((m1, w1), Ok a) →
  similar m m1 ∧ is_some (build_tenant_client m1) = true ∧ Q a.
Proof.
  intros Hf Ht. pose proof (tenant_flow_frame _ _ _ _ _ _ Ht) as Hfr.
  unfold tenant_flow, tenant_client, m_bind, gets, m_lift, m_map_err in Ht.
  destruct (build_tenant_client m) as [c|] eqn:Hc; cbn [ok_or] in Ht; [|done].
  split; [by rewrite Hfr|]. split.
  { apply (has_client m); [by rewrite Hfr|by rewrite Hc]. }
  unfold through in Ht. destruct (f c _ _) as [[jar w2] [x|e]] eqn:Hr; cbn in Ht; [|done].
  injection Ht as _ _ <-. by eapply Hf.
Qed.

(** A flow and the update with its answer. *)
Lemma preserves_flow {A} (f : ApiClient → LoginApiVersion → M (CookieStore * W) FlowError A) (Q : A → Prop)
    (k : A → AuthMachine → AuthMachine) :
  (∀ c v, yields (f c v) Q) →
  (∀ a m, Q a → is_some (build_tenant_client m) = true → auth_ok C T m → auth_ok C T (k a m)) →
  preserves (m_bind (tenant_flow f) (λ a, update (k a))).
Proof.
  intros Hf Hk [m w] Hm. unfold m_bind, update.
  destruct (tenant_flow f (m, w)) as [[m1 w1] [a|e]] eqn:Ht; cbn [fst].
  - destruct (tenant_flow_ok _ Q _ _ _ _ _ Hf Ht) as (Hs & Hc & Ha).
    apply Hk; [done..|]. by eapply similar_ok.
  - apply tenant_flow_frame in Ht. rewrite Ht. by apply set_cookies_ok.
Qed.

(** A state past the activation, with a client. *)
Lemma set_state_ok s m :
  in_session s = true → s ≠ AwaitingDeviceLogin → is_some (build_tenant_client m) = true →
  auth_ok C T m → auth_ok C T (set_state s m).
Proof.
  intros Hs Hd Hc []. split; [done|by destruct s|intros _ _; by apply (has_client m)|done|done].
Qed.
Lemma logs_in_ok s m :
  logs_in s → is_some (build_tenant_client m) = true → auth_ok C T m → auth_ok C T (set_state s m).
Proof. intros Hs. by apply set_state_ok; destruct s. Qed.
Lemma configured_ok m m' :
  am_tenant m' = am_tenant m → am_signing m' = am_signing m → am_state m' = Configured →
  auth_ok C T m → auth_ok C T m'.
Proof. intros Ht Hg Hs []. split; rewrite ?Hs, ?Ht, ?Hg; done. Qed.

Lemma preserves_unit_flow (f : ApiClient → LoginApiVersion → M (CookieStore * W) FlowError unit) :
  preserves (tenant_flow f).
Proof.
  intros [m w] Hm. destruct (tenant_flow f (m, w)) as [[m1 w1] r] eqn:Ht.
  apply tenant_flow_frame in Ht. rewrite Ht. by apply set_cookies_ok.
Qed.

Lemma preserves_login_op (o : op unit) : login_op o → preserves o.
Proof.
  destruct 1; [apply (preserves_flow _ logs_in); [|by intros; apply logs_in_ok]| |
               apply (preserves_flow _ logs_in); [|by intros; apply logs_in_ok]| |
               apply (preserves_flow _ logs_in); [|by intros; apply logs_in_ok]|
               apply (preserves_flow _ logs_in); [|by intros; apply logs_in_ok]|
               apply (preserves_flow _ (λ _, True)); [done|]|apply (preserves_flow _ (λ _, True)); [done|]].
  - intros. apply login_yields.
  - apply preserves_unit_flow.
  - intros. apply verify_login_code_yields.
  - apply preserves_unit_flow.
  - intros. apply verify_mfa_yields.
  - intros. apply skip_challenge_yields.
  - intros p m _ Hc []. split; [done..|intros _ _; by apply (has_client m)|done|done].
  - intros p m _ Hc []. split; [done..|intros _ _; by apply (has_client m)|done|done].
Qed.

Lemma preserves_activate c b k u : (∀ t, T t) → preserves (activate c b k u).
Proof.
  intros HT [m w] Hm. unfold activate, m_bind, gets, m_map_err, update.
  pose proof (preserves_through (send (W:=W) de_activate (build_match_client u m) (ActivateRequest c)) (m, w) Hm) as Ht.
  destruct (through _ (m, w)) as [[m1 w1] [r|e]]; cbn in *; [|done].
  destruct (data r); cbn; split; cbn; try done. apply Ht.
Qed.

Lemma preserves_refresh : preserves refresh_login_api_version.
Proof.
  intros [m w] Hm. unfold refresh_login_api_version, m_bind, gets, m_try, update.
  destruct (build_tenant_client m) as [c|]; [|done].
  pose proof (preserves_through (send (W:=W) de_login_setting c GetLoginSettingRequest) (m, w) Hm) as Ht.
  destruct (through _ (m, w)) as [[m1 w1] [r|e]]; cbn in *; [|done].
  destruct (is_some_and _ _); cbn; [by apply (similar_ok m1)|done].
Qed.

Lemma preserves_complete_oauth c s : preserves (am_complete_oauth c s).
Proof.
  intros [m w] Hm. unfold am_complete_oauth, m_bind, gets, update, m_lift.
  assert (Hm1 : auth_ok C T (set_pending None (am_device_login_pending m) m)) by (by apply (similar_ok m)).
  destruct (am_oauth_pending m) as [p|]; cbn [ok_or]; [|done].
  apply (preserves_flow (λ c' _, complete_oauth c' p c s) (λ _, True) (λ _, set_state Authenticated))
    with (s := (_, w)); [done| |exact Hm1].
  intros _ m1 _ Hc. by apply set_state_ok.
Qed.

Lemma preserves_logout a : preserves (am_logout a).
Proof.
  intros [m w] Hm. unfold am_logout, m_bind, gets, m_try, update.
  destruct (build_tenant_client m) as [c|].
  - pose proof (preserves_through (send (W:=W) de_value c (LogoutRequest a)) (m, w) Hm) as Ht.
    destruct (through _ (m, w)) as [[m1 w1] r]. cbn in *. by apply (configured_ok m1).
  - cbn. by apply (configured_ok m).
Qed.

End machine.
(** ** The handlers *)

Section service.
Context `{Urls} `{IpNet} `{Crypto, Serde, ErrorText} `{!MatchUrl}.
Context {W : Type} `{!Http W} `{Random W} `{Store W} `{Host W} `{!Session.TunDriver W}.
Abbreviation St := (DaemonInner * W)%type.
Abbreviation op A := (M (DaemonInner * W) DaemonError A).
Implicit Types s : St.

Section handlers.
Variables (C : Prop) (T : option TenantConfig → Prop).

Definition keeps {E A} (m : M St E A) : Prop := ∀ s, auth_ok C T (d_auth s.1) → auth_ok C T (d_auth (m s).1.1).

Lemma keeps_pure {E A} (f : St → result E A) : keeps (λ s, (s, f s)).
Proof. by intros s. Qed.
Lemma keeps_inner : keeps inner.
Proof. by intros [d w]. Qed.
Lemma auth_keeps_bind {E A B} (m : M St E A) (k : A → M St E B) :
  keeps m → (∀ a, keeps (k a)) → keeps (m_bind m k).
Proof.
  intros Hm Hk s Hs. unfold m_bind. specialize (Hm s Hs). destruct (m s) as [s1 [a|e]]; [by apply Hk|done].
Qed.
Lemma auth_keeps_try {E F A} (m : M St E A) : keeps m → keeps (m_try (F:=F) m).
Proof. intros Hm s Hs. unfold m_try. specialize (Hm s Hs). by destruct (m s). Qed.
Lemma auth_keeps_map_err {E F A} (f : E → F) (m : M St E A) : keeps m → keeps (m_map_err f m).
Proof. intros Hm s Hs. unfold m_map_err. specialize (Hm s Hs). by destruct (m s). Qed.
Lemma keeps_on_auth {E A} (m : M (AuthMachine * W) E A) : preserves C T m → keeps (on_auth m).
Proof.
  intros Hm [d w] Hs. unfold on_auth. specialize (Hm (d_auth d, w) Hs). by destruct (m _) as [[a w1] r].
Qed.
Lemma keeps_on_jar {E A} (m : M (CookieStore * W) E A) : keeps (on_jar m).
Proof. apply keeps_on_auth, preserves_through. Qed.
Lemma keeps_persist : keeps persist_credentials.
Proof. intros [d w] Hs. unfold persist_credentials. by repeat case_match. Qed.
Lemma keeps_delete : keeps delete_credentials.
Proof. by intros [d w]. Qed.
Lemma keeps_configured : keeps require_configured.
Proof. apply auth_keeps_bind; [apply keeps_inner|]. intros d. destruct (am_state _); apply keeps_pure. Qed.
Lemma keeps_set_totp c : keeps (upd (λ d, set_auth (set_totp c (d_auth d)) d)).
Proof. intros [d w] Hs. by apply (similar_ok C T (d_auth d)). Qed.

#[local] Hint Resolve keeps_pure keeps_inner auth_keeps_bind auth_keeps_try auth_keeps_map_err keeps_on_jar keeps_on_auth
  keeps_persist keeps_delete keeps_configured keeps_set_totp preserves_login_op preserves_activate
  preserves_refresh preserves_complete_oauth preserves_logout : keeps.
#[local] Hint Constructors login_op : keeps.
#[local] Hint Extern 2 (keeps (m_ret _)) => apply keeps_pure : keeps.
#[local] Hint Extern 2 (keeps (m_lift _)) => apply keeps_pure : keeps.

Lemma keeps_session : keeps current_session.
Proof. unfold current_session. auto with keeps. Qed.
Lemma keeps_maybe_persist : keeps maybe_persist_and_broadcast.
Proof.
  unfold maybe_persist_and_broadcast, authenticated. apply auth_keeps_bind; [auto with keeps|].
  intros []; auto with keeps.
Qed.
Lemma keeps_fetch_totp : keeps maybe_fetch_totp.
Proof.
  apply auth_keeps_bind; [apply keeps_inner|]. intros d. destruct (build_tenant_client _); [|apply keeps_pure].
  apply auth_keeps_bind; [auto with keeps|]. intros [[config|]|e]; auto with keeps.
Qed.
Lemma keeps_report_security : keeps maybe_report_security.
Proof.
  apply auth_keeps_bind; [apply keeps_inner|]. intros d. destruct (build_tenant_client _); auto with keeps.
Qed.
Lemma keeps_logged_in : keeps logged_in.
Proof.
  apply auth_keeps_bind; [|intros _; apply auth_keeps_bind; [apply keeps_maybe_persist|intros _; apply keeps_session]].
  apply auth_keeps_bind; [unfold authenticated; auto with keeps|]. intros []; cbn [negb]; [|apply keeps_pure].
  apply auth_keeps_bind; [apply keeps_fetch_totp|intros _; apply keeps_report_security].
Qed.
#[local] Hint Resolve keeps_session keeps_maybe_persist keeps_logged_in : keeps.

(** A pause keeps the coordinator in order, and its tenant where [C]. *)
Definition gentle (pause : duration → St → St) : Prop :=
  ∀ t s, auth_ok C T (d_auth s.1) →
    auth_ok C T (d_auth (pause t s).1) ∧ (C → am_tenant (d_auth (pause t s).1) = am_tenant (d_auth s.1)).

Lemma poll_keeps pause client token deadline fuel s :
  gentle pause → auth_ok C T (d_auth s.1) →
  auth_ok C T (d_auth (poll_token pause client token deadline fuel s).1.1) ∧
  (C → am_tenant (d_auth (poll_token pause client token deadline fuel s).1.1) = am_tenant (d_auth s.1)).
Proof.
  intros Hp. revert s. induction fuel as [|fuel IH]; intros s Hs; cbn [poll_token]; [done|].
  destruct (_ <=? _); [done|].
  pose proof (keeps_on_jar (send (W:=W) de_login client (ThirdPartyTokenCheckRequest token)) s Hs) as Hk.
  assert (Ht : ∀ {A} (m : M (CookieStore * W) ApiError A), am_tenant (d_auth (on_jar m s).1.1) = am_tenant (d_auth s.1)).
  { intros A m. destruct s as [d w]. unfold on_jar, on_auth, through. by destruct (m _) as [[jar w1] r]. }
  specialize (Ht _ (send (W:=W) de_login client (ThirdPartyTokenCheckRequest token))).
  destruct (on_jar _ s) as [s1 [r|e]]; cbn [fst] in *; [done|].
  destruct (Hp POLL_INTERVAL s1 Hk) as [Hk1 Ht1]. destruct (IH _ Hk1) as [Hk2 Ht2].
  split; [done|]. intros HC. by rewrite Ht2, Ht1.
Qed.

Lemma finish_keeps s :
  (C → is_some (build_tenant_client (d_auth s.1)) = true) → auth_ok C T (d_auth s.1) →
  auth_ok C T (d_auth ((do! auth am_complete_device_login in
                    let! session := logged_in in m_ret (Some session)) s).1.1).
Proof.
  destruct s as [d w]. cbn [fst]. intros Hc [].
  assert (Hk : keeps (m_bind logged_in (λ session, m_ret (E:=DaemonError) (Some session)))) by auto with keeps.
  apply (Hk (set_auth (set_state Authenticated (set_pending (am_oauth_pending (d_auth d)) None (d_auth d))) d, w)).
  split; [done..|intros HC _; exact (has_client (d_auth d) _ eq_refl (Hc HC))|done|done].
Qed.

Lemma keeps_device_login pause fuel : gentle pause → keeps (rpc_complete_device_login pause fuel).
Proof.
  intros Hp. apply auth_keeps_bind; [apply keeps_configured|intros _].
  intros [d w] Hs. unfold m_bind at 1, inner. cbn [fst].
  unfold m_bind at 1, m_lift at 1. destruct (am_device_login_pending (d_auth d)) as [p|]; cbn [ok_or]; [|done].
  unfold client_or, m_bind at 1, inner, m_bind at 1, m_lift. cbn [fst].
  destruct (build_tenant_client (d_auth d)) as [c|] eqn:Hc; cbn [ok_or]; [|done].
  unfold m_bind at 1. cbn [snd]. unfold m_bind at 1.
  pose proof (poll_keeps pause c (dl_poll_token p) (Session.instant_now w + DEVICE_LOGIN_TIMEOUT) fuel (d, w) Hp Hs)
    as [Hk Ht].
  destruct (poll_token _ _ _ _ _ _) as [[d1 w1] [[[]|]|e]]; cbn [fst] in Hk, Ht |- *; [|done..].
  apply finish_keeps; [|done]. intros HC. apply (has_client (d_auth d)); [by apply Ht|by rewrite Hc].
Qed.

(** Requests that cannot give the daemon another tenant. *)
Definition same_tenant (r : AuthRequest) : bool := match r with Activate _ _ _ _ => false | _ => true end.

Lemma serve_keeps pause fuel r :
  same_tenant r = true ∨ (∀ t, T t) → (r = CompleteDeviceLogin → gentle pause) →
  keeps (serve_auth pause fuel r).
Proof.
  intros HT Hp.
  destruct r; cbn [serve_auth]; (apply auth_keeps_bind; [|intros ?; apply keeps_pure]);
    try by (unfold get_session; auto with keeps).
  - destruct HT as [[=]|HT]. unfold rpc_activate, auth. eauto 10 with keeps.
  - unfold rpc_login, auth. eauto 10 with keeps.
  - unfold rpc_request_login_code, auth. eauto 10 with keeps.
  - unfold rpc_verify_login_code, auth. eauto 10 with keeps.
  - unfold rpc_request_mfa_code, auth. eauto 10 with keeps.
  - unfold rpc_verify_mfa, auth. eauto 10 with keeps.
  - unfold rpc_skip_pending_challenge, auth. eauto 10 with keeps.
  - unfold rpc_list_third_party_providers, client_or. eauto 10 with keeps.
  - unfold rpc_start_third_party_login, auth. eauto 10 with keeps.
  - unfold rpc_complete_third_party_login, auth. eauto 10 with keeps.
  - unfold rpc_start_device_login, auth. eauto 10 with keeps.
  - by apply keeps_device_login, Hp.
  - unfold rpc_logout, auth. eauto 10 with keeps.
Qed.

End handlers.

(** ** Reachable daemons *)

(** What the rest of the daemon may do while a device login waits: serve any
    request that is [let_in], another wait included, absorb cookies, save. *)
Inductive meanwhile (let_in : AuthRequest → bool) : St → St → Prop :=
  | Waits d w w' : meanwhile let_in (d, w) (d, w')
  | AbsorbsCookies c d w s :
      meanwhile let_in (set_auth (set_cookies c (d_auth d)) d, w) s → meanwhile let_in (d, w) s
  | ServesOther pause fuel r s s' :
      let_in r = true → (∀ t s, meanwhile let_in s (pause t s)) →
      meanwhile let_in (serve_auth pause fuel r s).1 s' → meanwhile let_in s s'
  | SavesMeanwhile s s' : meanwhile let_in (persist_credentials s).1 s' → meanwhile let_in s s'.
Definition others_served (let_in : AuthRequest → bool) (pause : duration → St → St) : Prop :=
  ∀ t s, meanwhile let_in s (pause t s).

(** What is let in leaves the tenant. *)
Definition tenant_stays (let_in : AuthRequest → bool) : Prop := ∀ r, let_in r = true → same_tenant r = true.

Lemma meanwhile_shape let_in s s' :
  meanwhile let_in s s' → auth_ok False any_tenant (d_auth s.1) → auth_ok False any_tenant (d_auth s'.1).
Proof.
  induction 1 as [| |pause fuel r s s' Hr _ IHp _ IH|s s' _ IH]; intros Hs; [done| | |].
  - apply IHmeanwhile. by apply set_cookies_ok.
  - apply IH. apply serve_keeps; [by right| |done]. intros _ t s1 Hs1. split; [by apply IHp|done].
  - apply IH. by apply keeps_persist.
Qed.
Lemma meanwhile_keeps C let_in s s' :
  tenant_stays let_in → meanwhile let_in s s' → ∀ T, auth_ok C T (d_auth s.1) → auth_ok C T (d_auth s'.1).
Proof.
  intros Hl. induction 1 as [| |pause fuel r s s' Hr _ IHp _ IH|s s' _ IH]; intros T Hs; [done| | |].
  - apply IHmeanwhile. by apply set_cookies_ok.
  - apply IH. apply serve_keeps; [left; by apply Hl| |done]. intros _ t s1 Hs1. split; [by apply IHp|]. intros _.
    apply (ok_tenant C (λ o, o = am_tenant (d_auth s1.1))), IHp. by destruct Hs1.
  - apply IH. by apply keeps_persist.
Qed.
Lemma others_gentle C T let_in pause : tenant_stays let_in → others_served let_in pause → gentle C T pause.
Proof.
  intros Hl Hp t s Hs. pose proof (meanwhile_keeps C _ _ _ Hl (Hp t s)) as Hm. split; [by apply Hm|]. intros _.
  apply (ok_tenant C (λ o, o = am_tenant (d_auth s.1))), Hm. by destruct Hs.
Qed.
Lemma others_gentle_shape let_in pause : others_served let_in pause → gentle False any_tenant pause.
Proof. intros Hp t s Hs. split; [by eapply meanwhile_shape|done]. Qed.

(** A daemon that starts, with or without credentials that are [stored],
    serves requests, and saves when its cookies change. *)
Definition usable_address (creds : PersistedCredentials) : Prop :=
  is_ok (parse_base_url (tc_base_url (pc_tenant creds))) = true.
Inductive auth_reaches (stored : PersistedCredentials → Prop) (pause : duration → St → St) : St → Prop :=
  | StartsFresh dev c config_path path w :
      auth_reaches stored pause (restore_auth_state (daemon_new dev c config_path path None w, w)).1
  | StartsRestored dev c config_path path creds w :
      stored creds →
      auth_reaches stored pause (restore_auth_state (daemon_new dev c config_path path (Some creds) w, w)).1
  | Serves fuel r s : auth_reaches stored pause s → auth_reaches stored pause (serve_auth pause fuel r s).1
  | Saves s : auth_reaches stored pause s → auth_reaches stored pause (persist_credentials s).1.

(** Whatever is stored, the invariant but for the client; with usable
    addresses, all of it. *)
Lemma starts_ok (C : Prop) dev c config_path path creds w :
  (C → usable_address creds) →
  auth_ok C any_tenant (d_auth (restore_auth_state (W:=W) (daemon_new dev c config_path path (Some creds) w, w)).1.1).
Proof.
  intros Hurl. cbn. unfold restore_session. cbn. split; cbn; [done|by case_match| |by case_match|done].
  intros HC _. specialize (Hurl HC). unfold build_tenant_client. cbn. unfold usable_address in Hurl.
  by destruct (parse_base_url (tc_base_url (pc_tenant creds))).
Qed.
Lemma reaches_ok C stored pause s :
  gentle C any_tenant pause → (C → ∀ creds, stored creds → usable_address creds) →
  auth_reaches stored pause s → auth_ok C any_tenant (d_auth s.1).
Proof.
  intros Hp Hst Hr. induction Hr as [dev c cp p w|dev c cp p creds w Hs|fuel r s _ IH|s _ IH].
  - by split.
  - apply starts_ok. intros HC. by apply Hst.
  - apply serve_keeps; [by right|by intros _|done].
  - by apply keeps_persist.
Qed.

(** C2: The auth coordinator stays well-formed.  Whatever requests are served,
    activations and further waits while a device login waits between two polls
    included, whatever the server answers, and across restarts on whatever
    credentials, a tenant and its signing data come together, a machine that
    was never activated has none, and an awaited device login is known.  If no
    activation is let in while a device login waits, and every session that is
    restored holds a usable address, then moreover whoever is past the
    activation (awaiting a code or a provider, or authenticated) has a tenant
    that a client can be built for, so that the check for a client that follows
    the check for a session never fails. *)
Theorem auth_state_wellformed let_in stored pause s :
  others_served let_in pause → auth_reaches stored pause s →
  let m := d_auth s.1 in
  is_some (am_tenant m) = is_some (am_signing m) ∧
  (am_state m = Unconfigured → am_tenant m = None) ∧
  (am_state m = AwaitingDeviceLogin → is_some (am_device_login_pending m) = true) ∧
  (tenant_stays let_in → (∀ creds, stored creds → usable_address creds) →
   in_session (am_state m) = true → is_some (build_tenant_client m) = true).
Proof.
  intros Hp Hr. cbn zeta.
  pose proof (reaches_ok False stored pause s (others_gentle_shape _ _ Hp) ltac:(done) Hr) as [Hg Hu _ Hd _].
  split; [exact Hg|]. split; [exact Hu|]. split; [exact Hd|]. intros Hl Hst.
  by apply (ok_client True _ _ (reaches_ok True stored pause s (others_gentle _ _ _ _ Hl Hp) (λ _, Hst) Hr)).
Qed.

End service.

(** ** Witnesses *)

(** Two files and a clock; the server authenticates a password, and a device
    token once five seconds have passed. *)
Module Office.
Import Echo AuthSample.
Record World : Type := { files : DaemonSample.World; clock : Z }.
#[global] Instance random : Random World :=
  { random_32 w := (w, bytes_of "0123456789abcdef"); url_safe_no_pad := of_bytes }.
#[global] Instance net : IpNet := DaemonSample.net.
#[global] Instance crypto : Crypto := Echo.crypto.
Definition on_files {A} (m : M DaemonSample.World PersistError A) : M World PersistError A := λ w,
  let '(f, r) := m (files w) in ({| files := f; clock := clock w |}, r).
#[global] Instance store : Store World := {
  save_credentials c p := on_files (save_credentials c p); load_credentials p w := load_credentials p (files w);
  remove_credentials p := on_files (remove_credentials p); save_config c p := on_files (save_config c p);
  load_config p w := load_config p (files w) }.
#[global] Instance host : Host World := {
  timestamp_text _ := "now"; port_free _ _ := true; pool_builds _ _ := true; blocking_ok _ := true;
  totp_from_url _ := None }.
#[global] Instance driver : Session.TunDriver World := {
  Session.tun_build _ w := (w, Ok 5); Session.tun_device_name _ w := (w, Ok "wg0");
  Session.tun_device_mtu _ w := (w, Ok 1400); Session.wg_build _ w := (w, Ok 6);
  Session.tun_drop _ w := w; Session.wg_stop _ w := w; Session.dns_serve _ _ w := (w, 7); Session.dns_shutdown _ w := w;
  Session.probe_start _ _ w := (w, 8); Session.probe_drop _ w := w; Session.probe_last_rx _ _ := None;
  Session.instant_now := clock; Session.lookup_host _ w := (w, Ok [sock (V4 0) 1]);
  Session.resolv_conf _ := Ok [] }.
#[global] Instance http : Http World := {
  http_request m u h b w := (w, Ok {| status := 200; set_cookie := [Some "session=2"];
    resp_body := Ok (bytes_of (if clock w <? from_secs 5 then "wait" else "ok")) |});
  now_seconds w := clock w; cookie_parse s := split_once "=" s;
  header_value_ok _ := true; header_name_ok _ := true;
  from_utf8_lossy := of_bytes; json_from_slice _ := None }.
Definition once_ok {T} (x : T) : decoder T := λ b, if bool_decide (of_bytes b = "ok") then Ok (Sample.ok_with x) else Err "wait".
Definition login_result_ : LoginResult := {|
  login_result := None; lr_url := None; lr_auth := None; lr_timestamp := None; need_verify := None;
  lr_token := None; vpn_token := None; csrf_token := None; lr_uid := None; need_mfa := None;
  mfa_token := None; lr_raw := None |}.
#[global] Instance serde : Serde := {
  json_to_vec _ := Ok []; utf8_percent_encode s _ := s;
  de_activate := Sample.fails; de_v2 _ := Ok (Sample.ok_with {| v2_result := Some "success"; v2_next := None |});
  de_string := Sample.fails;
  de_value _ := Ok (Sample.ok_with JNull); de_login := once_ok login_result_; de_links := Sample.fails;
  de_login_setting := Sample.fails; de_user := Sample.fails; de_tenant := Sample.fails;
  de_otp := Sample.fails; de_vpn_setting := Sample.fails;
  de_dots := Sample.fails; de_conn := Sample.fails; de_object := Sample.fails }.
Definition pending : DeviceLoginPending :=
  {| dl_login_url := "https://t/login"; dl_alias_key := "lark"; dl_poll_token := "token" |}.
Definition daemon (a : AuthMachine) : DaemonInner := {|
  d_auth := a; d_vpn := None; d_config := config_default; d_config_path := "config.json";
  d_credential_path := "credentials.json"; d_broadcasts := []; d_tunnel_task := None; d_active_outbound := None;
  d_next_token := 0; d_cancelled := ∅ |}.
Definition machine : AuthMachine := set_state Configured AuthSample.machine.
Definition waiting : AuthMachine := set_state AwaitingDeviceLogin (set_pending None (Some pending) machine).
Definition world : World := {| files := DaemonSample.no_files; clock := 0 |}.
(** A sleep in which somebody logs out. *)
Definition sleep (t : duration) (s : DaemonInner * World) : DaemonInner * World :=
  let '(d, w) := (reply ReplySession (rpc_logout false) s).1 in (d, {| files := files w; clock := clock s.2 + t |}).
Definition creds : PersistedCredentials := default (Stamped.creds "now") (to_credentials_with_vpn "now" None DaemonSample.auth).
End Office.

Lemma office_served : others_served (W:=Office.World) same_tenant Office.sleep.
Proof.
  intros t s. apply (ServesOther _ (λ _ s, s) 0 (Logout false)); [reflexivity|intros _ [d w]; apply Waits|].
  destruct (serve_auth _ 0 (Logout false) s).1 as [d w] eqn:Hs.
  assert (Office.sleep t s = (d, {| Office.files := Office.files w; Office.clock := Office.clock s.2 + t |})) as ->.
  { unfold Office.sleep. change (reply ReplySession (rpc_logout false) s) with
      (serve_auth (λ _ s, s) 0 (Logout false) s). by rewrite Hs. }
  apply Waits.
Qed.

(** A daemon on a saved session, asked for a device login that was never
    started, and for a password login. *)
Lemma auth_state_wellformed_witness :
  ∃ s, auth_reaches (W:=Office.World) usable_address Office.sleep s ∧ am_state (d_auth s.1) = Authenticated ∧
       is_some (am_tenant (d_auth s.1)) = is_some (am_signing (d_auth s.1)) ∧
       is_some (build_tenant_client (d_auth s.1)) = true.
Proof.
  set (s0 := (restore_auth_state (daemon_new "id" config_default "config.json" "credentials.json"
                (Some Office.creds) Office.world, Office.world)).1).
  set (s1 := (serve_auth Office.sleep 9 (PasswordLogin "a" "p" "" "") (serve_auth Office.sleep 9 CompleteDeviceLogin s0).1).1).
  assert (Hr : auth_reaches usable_address Office.sleep s1) by (apply Serves, Serves, StartsRestored; reflexivity).
  assert (Hst : am_state (d_auth s1.1) = Authenticated) by (vm_compute; reflexivity).
  exists s1. destruct (auth_state_wellformed same_tenant usable_address Office.sleep s1 office_served Hr) as (Hg & _ & _ & Hc).
  split; [exact Hr|]. split; [exact Hst|]. split; [exact Hg|].
  apply Hc; [intros r Hr'; exact Hr'|intros creds Hu; exact Hu|rewrite Hst; reflexivity].
Defined.

End AuthInvariant.
