(* ===== verification/AuthFlows.v ===== *)
(** * What the authentication RPCs do, from end to end

    Which requests are refused without contacting anybody, the end of a device
    login, what a login leaves in the credentials file and what the next start
    makes of it, and what a logout removes: proved against the interface of
    the store. *)

From S2P Require Import Prelude RustStr Net Models Signing Api Requests Login VpnState Negotiate Persist Faults.
From S2P Require Import AuthMachine Store Routes Dialer Outbound Session Daemon Startup AuthService AuthInvariant.
Import Models Signing Api Requests Login Negotiate Persist Faults AuthMachine Store.
Import Routes(IpNet, IpNetwork).
Import Daemon Startup AuthService AuthInvariant.

Module AuthFlows.

Section flows.
Context `{Urls} `{IpNet} `{Crypto, Serde, ErrorText} `{!MatchUrl}.
Context {W : Type} `{!Http W} `{Random W} `{StoreLaws W} `{Host W} `{!Session.TunDriver W} `{!Machine W}.
Abbreviation St := (DaemonInner * W)%type.
Abbreviation op A := (M (DaemonInner * W) DaemonError A).
Variable pause : duration → St → St.
Implicit Types s : St.

Lemma bind_configured {A} (m : op A) s :
  (do! require_configured in m) s =
    if bool_decide (am_state (d_auth s.1) = Unconfigured) then (s, Err (Fault NotConfigured)) else m s.
Proof. destruct s as [d w]. unfold require_configured, m_bind, inner, m_fail, m_ret. cbn. by destruct (am_state _). Qed.

(** *** Refusals *)

Definition for_anyone (r : AuthRequest) : bool :=
  match r with GetSession | Activate _ _ _ _ => true | _ => false end.

Lemma same_pending m : set_pending (am_oauth_pending m) (am_device_login_pending m) m = m.
Proof. by destruct m. Qed.
Lemma same_auth d : set_auth (d_auth d) d = d.
Proof. by destruct d. Qed.

(** Requests are refused at the door: before an activation everything but
    reading the session and activating is answered "no tenant configured", and
    completing a provider's or a device login that was not started "no pending
    flow"; such a request contacts nobody, writes nothing and changes nothing. *)
Theorem refused_at_the_door fuel r s :
  (am_state (d_auth s.1) = Unconfigured → for_anyone r = false →
     serve_auth pause fuel r s = (s, Err (Fault NotConfigured))) ∧
  (am_state (d_auth s.1) ≠ Unconfigured →
    (∀ c t, r = CompleteThirdPartyLogin c t → am_oauth_pending (d_auth s.1) = None →
       serve_auth pause fuel r s = (s, Err (Fault (InvalidArgument "no pending OAuth flow")))) ∧
    (r = CompleteDeviceLogin → am_device_login_pending (d_auth s.1) = None →
       serve_auth pause fuel r s = (s, Err (Fault (InvalidArgument "no pending device login flow"))))).
Proof.
  split.
  - intros Hu Hr. destruct r; try done; cbn [serve_auth]; unfold reply, m_bind at 1;
      unfold rpc_login, rpc_request_login_code, rpc_verify_login_code, rpc_request_mfa_code, rpc_verify_mfa,
        rpc_skip_pending_challenge, rpc_list_third_party_providers, rpc_start_third_party_login,
        rpc_complete_third_party_login, rpc_start_device_login, rpc_complete_device_login, rpc_logout;
      rewrite bind_configured, Hu; done.
  - intros Hu. split.
    + intros c t -> Hp. cbn [serve_auth]. unfold reply, m_bind at 1, rpc_complete_third_party_login.
      rewrite bind_configured, bool_decide_eq_false_2 by done. destruct s as [d w]. cbn [fst snd] in *.
      unfold auth, m_bind, on_auth, am_complete_oauth, m_bind, gets, update, m_lift. rewrite Hp. cbn [ok_or].
      pose proof (same_pending (d_auth d)) as Hsame. rewrite Hp in Hsame. by rewrite Hsame, same_auth.
    + intros -> Hp. cbn [serve_auth]. unfold reply, m_bind at 1, rpc_complete_device_login.
      rewrite bind_configured, bool_decide_eq_false_2 by done. destruct s as [d w]. cbn [fst snd] in *.
      unfold m_bind at 1, inner, m_bind at 1, m_lift. cbn [fst]. by rewrite Hp.
Qed.

(** *** The end of a device login *)

(** A sleep lasts, and the clock is monotonic across a request. *)
Definition clock_runs : Prop :=
  (∀ t s, Session.instant_now s.2 + t <= Session.instant_now (pause t s).2) ∧
  ∀ meth u h b w, Session.instant_now w <= Session.instant_now (http_request meth u h b w).1.

Lemma execute_clock c r jar w : clock_runs → Session.instant_now w <= Session.instant_now (execute c r (jar, w)).1.2.
Proof.
  intros [_ Hh]. unfold execute. destruct (prepare c r jar _) as [[[u h] b]|e]; [|cbn; lia].
  pose proof (Hh (METHOD_ r) u h b w) as Hw. destruct (http_request _ u h b w) as [w1 [x|e]]; cbn in *; [|done].
  destruct (resp_body x); [|done]. by destruct (negb _).
Qed.
Lemma send_clock {T} (de : decoder T) c r s :
  clock_runs → Session.instant_now s.2 <= Session.instant_now (on_jar (send (W:=W) de c r) s).1.2.
Proof.
  intros Hc. destruct s as [d w]. unfold on_jar, on_auth, through, send, m_bind, m_lift.
  pose proof (execute_clock c r (am_cookies (d_auth d)) w Hc) as Hw.
  destruct (execute c r _) as [[jar w1] [x|e]]; done.
Qed.

Abbreviation poll := (poll_token pause).

(** With the deadline at most [n] intervals away, [n + 1] polls are enough to
    come to an end, and more fuel makes no difference. *)
Lemma poll_ends client token deadline n s :
  clock_runs → deadline - Session.instant_now s.2 <= Z.of_nat n * POLL_INTERVAL →
  let run fuel := poll client token deadline fuel s in
  (∀ more, run (more + S n)%nat = run (S n)) ∧
  match (run (S n)).2 with
  | Ok None => False
  | Ok (Some _) => True
  | Err e => e = Fault (Unavailable "device login timed out waiting for user") ∧
             deadline <= Session.instant_now (run (S n)).1.2
  end.
Proof.
  intros Hc. cbn zeta. assert (Hpos : 0 < POLL_INTERVAL) by done. revert s.
  induction n as [|n IH]; intros s Hd.
  - assert (Hle : deadline <= Session.instant_now s.2) by lia.
    split; [intros more; rewrite Nat.add_comm|]; cbn [poll_token Nat.add];
      by rewrite (proj2 (Z.leb_le _ _) Hle).
  - pose proof (send_clock de_login client (ThirdPartyTokenCheckRequest token) s Hc) as Hs.
    assert (Hstep : ∀ f, poll client token deadline (S f) s =
      if deadline <=? Session.instant_now s.2
      then (s, Err (Fault (Unavailable "device login timed out waiting for user")))
      else match on_jar (send (W:=W) de_login client (ThirdPartyTokenCheckRequest token)) s with
           | (s1, Ok _) => (s1, Ok (Some tt))
           | (s1, Err _) => poll client token deadline f (pause POLL_INTERVAL s1)
           end) by done.
    destruct (on_jar _ s) as [s1 r]. cbn [fst] in Hs.
    destruct (IH (pause POLL_INTERVAL s1)) as [Hmore Hend]; [pose proof (proj1 Hc POLL_INTERVAL s1); lia|].
    split; [intros more; rewrite <- plus_n_Sm|]; rewrite !Hstep; destruct (Z.leb_spec deadline (Session.instant_now s.2));
      try done; by destruct r.
Qed.

(** What follows a login leaves of the coordinator: its tenant, signing data,
    version, state and pending flows. *)
Definition same_login (m m' : AuthMachine) : Prop :=
  similar m m' ∧ am_oauth_pending m' = am_oauth_pending m ∧ am_login_api_version m' = am_login_api_version m.
Definition same_rest (d d' : DaemonInner) : Prop := d' = set_auth (d_auth d') d.
Definition framed {E A} (m : M St E A) : Prop :=
  ∀ s, same_login (d_auth s.1) (d_auth (m s).1.1) ∧ same_rest s.1 (m s).1.1.

Lemma framed_pure {E A} (f : St → result E A) : framed (λ s, (s, f s)).
Proof. intros [d w]. split; [done|]. unfold same_rest. cbn. by rewrite same_auth. Qed.
Lemma framed_bind {E A B} (m : M St E A) (k : A → M St E B) :
  framed m → (∀ a, framed (k a)) → framed (m_bind m k).
Proof.
  intros Hm Hk s. unfold m_bind. specialize (Hm s). destruct (m s) as [s1 [a|e]]; [|done].
  specialize (Hk a s1). unfold framed, same_login, similar, same_rest in *. cbn [fst] in *.
  destruct Hm as [Hm Hr], Hk as [Hk Hr']. split; [intuition congruence|]. rewrite Hr in Hr'. rewrite Hr'. done.
Qed.
Lemma framed_try {E F A} (m : M St E A) : framed m → framed (m_try (F:=F) m).
Proof. intros Hm s. unfold m_try. specialize (Hm s). by destruct (m s). Qed.
Lemma framed_on_jar {E A} (m : M (CookieStore * W) E A) : framed (on_jar m).
Proof. intros [d w]. unfold on_jar, on_auth, through. by destruct (m _) as [[jar w1] r]. Qed.
Lemma framed_inner : framed inner.
Proof. intros [d w]. split; [done|]. unfold same_rest. cbn. by rewrite same_auth. Qed.
Lemma framed_set_totp c : framed (upd (λ d, set_auth (set_totp c (d_auth d)) d)).
Proof. by intros [d w]. Qed.

Lemma framed_post_login : framed post_login.
Proof.
  unfold post_login, authenticated, maybe_fetch_totp, maybe_report_security.
  assert (Hr : ∀ {E A} (r : result E A), framed (λ s, (s, r))) by (intros; apply framed_pure).
  apply framed_bind; [apply framed_bind; [apply framed_inner|intros; apply Hr]|].
  intros []; cbn [negb]; [|apply Hr]. apply framed_bind.
  - apply framed_bind; [apply framed_inner|intros d]. destruct (build_tenant_client _); [|apply Hr].
    apply framed_bind; [apply framed_try, framed_on_jar|].
    intros [[config|]|e]; [apply framed_set_totp|apply Hr..].
  - intros _. apply framed_bind; [apply framed_inner|intros d]. destruct (build_tenant_client _); [|apply Hr].
    apply framed_bind; [apply framed_try, framed_on_jar|intros; apply Hr].
Qed.

Lemma post_login_ok s : (post_login s).2 = Ok tt.
Proof.
  destruct s as [d w].
  unfold post_login, authenticated, maybe_fetch_totp, maybe_report_security, m_bind at 1, m_bind at 1, inner.
  cbn. case_bool_decide; cbn [negb]; [|done].
  assert (Hf : ∀ s, ∃ s1, maybe_fetch_totp s = (s1, Ok tt)).
  { intros [d0 w0]. unfold maybe_fetch_totp, m_bind at 1, inner. cbn [fst].
    destruct (build_tenant_client _); [|by eauto]. unfold m_bind, m_try.
    destruct (on_jar _ _) as [[d1 w1] [[c|]|e]]; cbn; eauto. }
  destruct (Hf (d, w)) as [[d1 w1] Hs1]. unfold m_bind at 1. change (
    match maybe_fetch_totp (d, w) with (s1, Ok a) => maybe_report_security s1 | (s1, Err e) => (s1, Err e) end.2 = Ok tt).
  rewrite Hs1. unfold maybe_report_security, m_bind at 1, inner. cbn [fst].
  destruct (build_tenant_client _); [|done]. unfold m_bind, m_try. by destruct (on_jar _ _).
Qed.

(** What a save leaves of the world. *)
Definition saved (d : DaemonInner) (w : W) : W :=
  match to_credentials_with_vpn (timestamp_text w) (d_vpn d ≫= current_persisted_request) (d_auth d) with
  | Some creds => (save_credentials creds (d_credential_path d) w).1
  | None => w
  end.
Lemma logged_in_saves s :
  let d := (post_login s).1.1 in let w := (post_login s).1.2 in
  logged_in s = ((d, if bool_decide (am_state (d_auth d) = Authenticated) then saved d w else w),
                 Ok (to_session_proto (d_auth d))).
Proof.
  cbn zeta. pose proof (post_login_ok s) as Hok. unfold logged_in, m_bind at 1.
  destruct (post_login s) as [[d w] r]. cbn in Hok. subst. cbn [fst snd].
  unfold maybe_persist_and_broadcast, authenticated, current_session, m_bind, inner, m_ret. cbn [fst snd].
  unfold persist_credentials, saved. case_bool_decide as Ha; cbn [negb]; [|done].
  rewrite bool_decide_eq_true_2 by done. cbn [negb].
  by destruct (to_credentials_with_vpn _ _ _).
Qed.

(** The tail of a completed device login. *)
Definition finished (s : St) : St * result DaemonError (option Session) :=
  (do! auth am_complete_device_login in let! session := logged_in in m_ret (Some session)) s.
Lemma finished_session s :
  ∃ session, (finished s).2 = Ok (Some session) ∧ session = to_session_proto (d_auth (finished s).1.1) ∧
    am_state (d_auth (finished s).1.1) = Authenticated ∧ am_device_login_pending (d_auth (finished s).1.1) = None.
Proof.
  destruct s as [d w].
  set (s0 := (set_auth (set_state Authenticated (set_pending (am_oauth_pending (d_auth d)) None (d_auth d))) d, w) : St).
  assert (Hf : finished (d, w) = ((logged_in s0).1, Ok (Some (to_session_proto (d_auth (post_login s0).1.1))))).
  { change (finished (d, w)) with (m_bind logged_in (λ session, m_ret (E:=DaemonError) (Some session)) s0).
    unfold m_bind. by rewrite logged_in_saves. }
  rewrite Hf, logged_in_saves. destruct (framed_post_login s0) as [[(Hs & _ & _ & Hp) _] _].
  cbn [fst snd]. eauto.
Qed.

(** The polls of a device login: one when it starts, and one every two seconds
    for two minutes. *)
Definition polls_at_most : nat := 61.

Lemma device_login_cases fuel s :
  rpc_complete_device_login pause fuel s =
    if bool_decide (am_state (d_auth s.1) = Unconfigured) then (s, Err (Fault NotConfigured))
    else match am_device_login_pending (d_auth s.1) with
         | None => (s, Err (Fault (InvalidArgument "no pending device login flow")))
         | Some p =>
             match build_tenant_client (d_auth s.1) with
             | None => (s, Err (Fault NotConfigured))
             | Some client =>
                 match poll client (dl_poll_token p) (Session.instant_now s.2 + DEVICE_LOGIN_TIMEOUT) fuel s with
                 | (s1, Ok (Some _)) => finished s1
                 | (s1, Ok None) => (s1, Ok None)
                 | (s1, Err e) => (s1, Err e)
                 end
             end
         end.
Proof.
  destruct s as [d w]. unfold rpc_complete_device_login. rewrite bind_configured. cbn [fst snd].
  case_bool_decide; [done|]. unfold m_bind at 1, inner. cbn [fst]. unfold m_bind at 1, m_lift at 1.
  destruct (am_device_login_pending (d_auth d)) as [p|]; cbn [ok_or]; [|done].
  unfold client_or, m_bind at 1, inner, m_bind at 1, m_lift. cbn [fst].
  destruct (build_tenant_client (d_auth d)) as [c|]; cbn [ok_or]; [|done].
  unfold m_bind at 1. cbn [snd]. unfold m_bind at 1.
  by destruct (poll_token _ _ _ _ _ _) as [s1 [[[]|]|e]].
Qed.

(** C6: Completing a device login comes to an end: whatever the server answers,
    and whatever else the daemon serves in the meantime, 61 polls are enough,
    and the answer is then either the session, authenticated and with no flow
    pending any more, or one of three refusals: nothing to complete, no
    tenant, or, not before the two minutes are over, a timeout. *)
Theorem device_login_ends s :
  clock_runs →
  let run fuel := rpc_complete_device_login pause fuel s in
  (∀ more, run (more + polls_at_most)%nat = run polls_at_most) ∧
  let '(s', r) := run polls_at_most in
  match r with
  | Ok None => False
  | Ok (Some session) =>
      session = to_session_proto (d_auth s'.1) ∧ se_state session = SessAuthenticated ∧
      am_device_login_pending (d_auth s'.1) = None
  | Err e =>
      s' = s ∧ e = Fault NotConfigured ∨
      s' = s ∧ e = Fault (InvalidArgument "no pending device login flow") ∧
        am_device_login_pending (d_auth s.1) = None ∨
      e = Fault (Unavailable "device login timed out waiting for user") ∧
        Session.instant_now s.2 + from_mins 2 <= Session.instant_now s'.2
  end.
Proof.
  intros Hc. cbn zeta beta.
  destruct (bool_decide (am_state (d_auth s.1) = Unconfigured)) eqn:Hu;
    [|destruct (am_device_login_pending (d_auth s.1)) as [p|] eqn:Hp;
      [destruct (build_tenant_client (d_auth s.1)) as [c|] eqn:Hb|]];
    (split; [intros more|]); rewrite !device_login_cases, Hu, ?Hp, ?Hb; [done|by auto| | |done|by auto 7|done|by auto 7].
  1, 2: destruct (poll_ends c (dl_poll_token p) (Session.instant_now s.2 + DEVICE_LOGIN_TIMEOUT) 60 s Hc) as [Hmore Hend];
    [assert (DEVICE_LOGIN_TIMEOUT = Z.of_nat 60 * POLL_INTERVAL) as -> by done; lia|].
  { unfold polls_at_most. by rewrite Hmore. }
  change (S 60) with polls_at_most in Hend. destruct (poll _ _ _ polls_at_most s) as [s1 [[[]|]|e]]; cbn [fst snd] in Hend.
  - destruct (finished_session s1) as (session & Hr & Heq & Hs & Hn). destruct (finished s1) as [s' r].
    cbn [fst snd] in *. subst. unfold to_session_proto. by rewrite Hs.
  - done.
  - auto.
Qed.

(** *** What a login leaves on disk *)

(** The requests that complete a login. *)
Definition completes_login (r : AuthRequest) : bool :=
  match r with
  | PasswordLogin _ _ _ _ | VerifyLoginCode _ _ _ _ _ | VerifyMfa _ _ _ _ _ | SkipPendingChallenge _
  | CompleteThirdPartyLogin _ _ | CompleteDeviceLogin => true
  | _ => false
  end.

Lemma login_answer fuel r s s' session :
  completes_login r = true → serve_auth pause fuel r s = (s', Ok (ReplySession session)) →
  ∃ s0, logged_in s0 = (s', Ok session).
Proof.
  intros Hr.
  assert (Hgo : ∀ (m : op unit), reply ReplySession (do! require_configured in do! m in logged_in) s
      = (s', Ok (ReplySession session)) → ∃ s0, logged_in s0 = (s', Ok session)).
  { intros m (s1 & x & Hx & [= -> ->])%m_bind_ok. apply m_bind_ok in Hx as (s2 & [] & _ & Hx).
    apply m_bind_ok in Hx as (s3 & [] & _ & Hx). by exists s3. }
  destruct r; try done; try apply Hgo. cbn [serve_auth]. intros (s1 & x & Hx & Heq)%m_bind_ok.
  rewrite device_login_cases in Hx.
  case_bool_decide; [done|]. destruct (am_device_login_pending _) as [p|]; [|done].
  destruct (build_tenant_client _) as [c|]; [|done].
  destruct (poll_token _ _ _ _ _ _) as [s2 [[[]|]|e]]; [|injection Hx as <- <-; discriminate Heq|done].
  unfold finished in Hx. apply m_bind_ok in Hx as (s3 & [] & _ & Hx). apply m_bind_ok in Hx as (s4 & y & Hl & [= -> <-]).
  exists s3. injection Heq as -> ->. done.
Qed.

(** What the next start makes of the credentials of a machine with a tenant. *)
Lemma restored_session c config_path path creds w m saved_at vpn :
  to_credentials_with_vpn saved_at vpn m = Some creds →
  let m' := d_auth (started c config_path path (Some creds) w) in
  am_tenant m' = am_tenant m ∧ am_signing m' = am_signing m ∧ values (am_cookies m') = values (am_cookies m) ∧
  am_login_api_version m' = am_login_api_version m ∧
  (values (am_cookies m) ≠ ∅ → am_state m' = Authenticated).
Proof.
  unfold to_credentials_with_vpn, to_credentials.
  destruct (am_tenant m) as [t|]; [|done]. destruct (am_signing m) as [sg|]; [|done]. intros [= <-].
  unfold started, daemon_new. cbn. unfold restore_session. cbn. unfold cookies_is_empty. cbn.
  do 4 (split; [done|]). intros Hne. by rewrite bool_decide_eq_false_2.
Qed.

(** The next start on files in which a save of such credentials was the last
    thing that happened to them. *)
Lemma start_after_save creds path w0 saved_at vpn m config_path w1 d token :
  to_credentials_with_vpn saved_at vpn m = Some creds → values (am_cookies m) ≠ ∅ →
  store_ok path w0 → (save_credentials creds path w0).2 = Ok tt →
  let w := (save_credentials creds path w0).1 in
  random_elsewhere → store_ok config_path w → store_apart config_path path w →
  prepare_daemon config_path path w = (w1, Ok (d, token)) →
  am_state (d_auth d) = Authenticated ∧ am_tenant (d_auth d) = am_tenant m ∧
  am_signing (d_auth d) = am_signing m ∧ values (am_cookies (d_auth d)) = values (am_cookies m) ∧
  am_login_api_version (d_auth d) = am_login_api_version m.
Proof.
  intros Hc Hck Hst Hsave w Hrand Hcok Hap Hprep.
  assert (Hload : load_credentials path w = Ok (Some creds)).
  { eapply save_then_load; [exact Hst|]. rewrite <- Hsave. unfold w. by destruct (save_credentials _ _ _). }
  destruct (prepared _ _ _ _ _ _ Hrand Hcok Hap Hprep) as (c & creds' & _ & Hload' & _ & _ & Heq).
  rewrite Hload in Hload'. injection Hload' as <-.
  destruct (auto_resume_keeps (started (with_identity (ensure_full machine_id (dc_identity c)).1 c) config_path
    path (Some creds) w1) w1) as (_ & Hda & _).
  rewrite <- Heq in Hda. cbn [fst] in Hda. rewrite Hda.
  destruct (restored_session (with_identity (ensure_full machine_id (dc_identity c)).1 c) config_path
    path creds w1 _ _ _ Hc) as (Ht & Hg & Hv & Hver & Hst'). auto.
Qed.

(** C4: A login survives a restart: when a login request answers that the
    session is authenticated, its last step was to save the session; if that
    save worked, every later start of a daemon on the files it left, with
    whatever configuration and whether or not it resumes a tunnel, is
    authenticated again, with the same tenant, signing data, cookies and login
    version.  (A session without a single cookie is not recognised.) *)
Theorem login_survives_restart fuel r s s' session :
  others_served same_tenant pause → auth_ok True any_tenant (d_auth s.1) → completes_login r = true →
  serve_auth pause fuel r s = (s', Ok (ReplySession session)) → se_state session = SessAuthenticated →
  let path := d_credential_path s'.1 in let m := d_auth s'.1 in
  ∃ creds w0, s'.2 = (save_credentials creds path w0).1 ∧
    (store_ok path w0 → (save_credentials creds path w0).2 = Ok tt → values (am_cookies m) ≠ ∅ →
     ∀ config_path w1 d token, random_elsewhere → store_ok config_path s'.2 → store_apart config_path path s'.2 →
       prepare_daemon config_path path s'.2 = (w1, Ok (d, token)) →
       am_state (d_auth d) = Authenticated ∧ am_tenant (d_auth d) = am_tenant m ∧
       am_signing (d_auth d) = am_signing m ∧ values (am_cookies (d_auth d)) = values (am_cookies m) ∧
       am_login_api_version (d_auth d) = am_login_api_version m).
Proof.
  intros Hp Hs Hr Hserve Hauth. cbn zeta.
  assert (Hok : auth_ok True any_tenant (d_auth s'.1)).
  { pose proof (serve_keeps True any_tenant pause fuel r (or_intror (λ _, I)) (λ _, others_gentle _ _ _ _ (λ _, id) Hp) s Hs) as Hk.
    by rewrite Hserve in Hk. }
  apply login_answer in Hserve as [s0 Hl]; [|done]. rewrite logged_in_saves in Hl. injection Hl as Hw Hsession.
  destruct s' as [d' w']. cbn [fst snd] in *. injection Hw as Hd Hw. rewrite <- Hsession in Hauth. rewrite Hd in *.
  assert (Ha : am_state (d_auth d') = Authenticated) by (revert Hauth; cbn; by destruct (am_state (d_auth d'))).
  rewrite bool_decide_eq_true_2 in Hw by done. unfold saved in Hw.
  destruct (to_credentials_with_vpn _ _ _) as [creds|] eqn:Hc.
  2:{ exfalso. destruct Hok as [Hsg _ Hcl _ _]. rewrite Ha in Hcl. specialize (Hcl I eq_refl).
      unfold to_credentials_with_vpn, to_credentials in Hc. unfold build_tenant_client in Hcl.
      destruct (am_tenant (d_auth d')); [|done]. by destruct (am_signing (d_auth d')). }
  exists creds, (post_login s0).1.2. split; [done|]. intros Hst Hsave Hck config_path w1 d token Hrand Hcok Hap Hprep.
  eapply (start_after_save creds _ (post_login s0).1.2); try done; by rewrite ?Hw.
Qed.

(** What a logout does. *)
Lemma serve_logout fuel logout_all s :
  am_state (d_auth s.1) ≠ Unconfigured →
  ∃ w1 m, serve_auth pause fuel (Logout logout_all) s =
      ((set_auth m s.1, (remove_credentials (d_credential_path s.1) w1).1), Ok (ReplySession (to_session_proto m))) ∧
    am_state m = Configured ∧ am_tenant m = am_tenant (d_auth s.1) ∧ values (am_cookies m) = ∅ ∧
    am_totp m = None ∧ am_knock_token m = None ∧ am_oauth_pending m = None ∧ am_device_login_pending m = None.
Proof.
  intros Hu. destruct s as [d w]. cbn [fst snd] in *.
  assert (Hm : ∃ w1 m, am_logout logout_all (d_auth d, w) = ((m, w1), Ok tt) ∧ am_state m = Configured ∧
    am_tenant m = am_tenant (d_auth d) ∧ values (am_cookies m) = ∅ ∧ am_totp m = None ∧ am_knock_token m = None ∧
    am_oauth_pending m = None ∧ am_device_login_pending m = None).
  { unfold am_logout, m_bind, gets, update, m_try. destruct (build_tenant_client (d_auth d)) as [c|]; [|by do 2 eexists].
    destruct (through _ (d_auth d, w)) as [[m1 w1] r1] eqn:E. apply through_frame in E. rewrite E. by do 2 eexists. }
  destruct Hm as (w1 & m & Hm & Hfacts). exists w1, m. split; [|exact Hfacts].
  cbn [serve_auth]. unfold reply, m_bind at 1, rpc_logout. rewrite bind_configured, bool_decide_eq_false_2 by done.
  unfold auth, m_bind, on_auth. by rewrite Hm.
Qed.

(** C29: Logging out works whatever the server answers: a configured daemon
    answers the session as configured, with no challenge; the coordinator
    keeps its tenant but no cookie, token or pending flow; a tunnel that is up
    stays up, its task not cancelled.  The credentials file is removed, and
    once that worked the next start is a daemon without even a tenant. *)
Theorem logout_outcome logout_all s :
  am_state (d_auth s.1) ≠ Unconfigured →
  let path := d_credential_path s.1 in
  ∃ w1 m, serve_auth pause 0 (Logout logout_all) s =
      ((set_auth m s.1, (remove_credentials path w1).1), Ok (ReplySession (to_session_proto m))) ∧
    am_state m = Configured ∧ am_tenant m = am_tenant (d_auth s.1) ∧ values (am_cookies m) = ∅ ∧
    am_totp m = None ∧ am_knock_token m = None ∧ am_oauth_pending m = None ∧ am_device_login_pending m = None ∧
    ((remove_credentials path w1).2 = Ok tt →
     ∀ config_path w2 d token, random_elsewhere → store_ok config_path (remove_credentials path w1).1 →
       store_apart config_path path (remove_credentials path w1).1 →
       prepare_daemon config_path path (remove_credentials path w1).1 = (w2, Ok (d, token)) →
       am_state (d_auth d) = Unconfigured ∧ am_tenant (d_auth d) = None ∧ d_vpn d = None).
Proof.
  intros Hu. cbn zeta. destruct (serve_logout 0 logout_all s Hu) as (w1 & m & Hserve & Hfacts). destruct s as [d w]. cbn [fst snd] in *.
  exists w1, m. split; [exact Hserve|]. do 7 (split; [apply Hfacts|]).
  intros Hrem config_path w2 d2 token Hrand Hcok Hap Hprep.
  assert (Hload : load_credentials (d_credential_path d) (remove_credentials (d_credential_path d) w1).1 = Ok None).
  { apply (remove_then_load _ w1). rewrite <- Hrem. by destruct (remove_credentials _ _). }
  destruct (prepared _ _ _ _ _ _ Hrand Hcok Hap Hprep) as (c & creds & _ & Hl & Hl' & _ & Heq).
  rewrite Hload in Hl. injection Hl as <-.
  assert (Hnone : maybe_auto_resume (started (with_identity (ensure_full machine_id (dc_identity c)).1 c) config_path
    (d_credential_path d) None w2, w2) = ((started (with_identity (ensure_full machine_id (dc_identity c)).1 c) config_path
    (d_credential_path d) None w2, w2), Ok tt)).
  { unfold maybe_auto_resume. destruct (negb _); [done|].
    change (d_credential_path (started _ _ ?p _ _)) with p. by rewrite Hl'. }
  rewrite Hnone in Heq. by injection Heq as ->.
Qed.

End flows.

(** ** Witnesses *)

Module OfficeMachine.
Import Echo AuthSample Office.
#[global] Instance office : Machine World := {
  user_config_dir := Some "/root/.config"; machine_id := "id"; log_filter _ := Ok tt; bind_listener _ w := (w, Ok tt) }.
#[global] Instance laws : StoreLaws World.
Proof.
  refine {| store_ok := λ _ _, True; store_apart := λ _ _ _, True |}; cbn; try done.
  - intros c p w w' _ [= <-]. reflexivity.
  - intros p w w' [= <-]. reflexivity.
  - intros c p w w' _ [= <-]. reflexivity.
Defined.
Lemma random_ : random_elsewhere (W:=World).
Proof. intros w. split; reflexivity. Qed.
End OfficeMachine.

Lemma refused_at_the_door_witness :
  serve_auth (W:=Office.World) Office.sleep 9 (Logout true)
    (Office.daemon (auth_machine_fresh None (identity_default "id")), Office.world)
  = ((Office.daemon (auth_machine_fresh None (identity_default "id")), Office.world), Err (Fault NotConfigured)).
Proof.
  apply (refused_at_the_door (W:=Office.World) Office.sleep 9 (Logout true)
    (Office.daemon (auth_machine_fresh None (identity_default "id")), Office.world)); reflexivity.
Defined.

(** A logout is lost on a device login that waits: somebody logs out between
    two polls, and the login completes all the same, with an authenticated
    session that is saved. *)
Theorem device_login_overrides_logout :
  match rpc_complete_device_login (W:=Office.World) Office.sleep polls_at_most
          (Office.daemon Office.waiting, Office.world) with
  | ((d, w), Ok (Some session)) =>
      se_state session = SessAuthenticated ∧ am_state (d_auth d) = Authenticated ∧
      is_some (Office.files w).1 = true
  | _ => False
  end.
Proof. vm_compute. repeat split; reflexivity. Qed.

Lemma device_login_ends_witness :
  ∃ session, (rpc_complete_device_login (W:=Office.World) Office.sleep polls_at_most
                (Office.daemon Office.waiting, Office.world)).2 = Ok (Some session) ∧
    se_state session = SessAuthenticated.
Proof.
  destruct (device_login_ends (W:=Office.World) Office.sleep (Office.daemon Office.waiting, Office.world)) as [_ Hend].
  { split.
    - intros t [d w]. unfold Office.sleep.
      destruct (reply ReplySession (rpc_logout false) (d, w)).1 as [d' w']. cbn. lia.
    - intros m u h b w. cbn. lia. }
  assert (Hok : match (rpc_complete_device_login (W:=Office.World) Office.sleep polls_at_most
      (Office.daemon Office.waiting, Office.world)).2 with Ok (Some _) => true | _ => false end = true)
    by (vm_compute; reflexivity).
  destruct (rpc_complete_device_login _ _ _) as [s' [[session|]|e]]; try discriminate Hok.
  exists session. split; [reflexivity|]. apply Hend.
Defined.

Lemma login_survives_restart_witness :
  ∃ s' session w1 d token,
    serve_auth (W:=Office.World) Office.sleep 0 (PasswordLogin "a" "p" "" "") (Office.daemon Office.machine, Office.world)
      = (s', Ok (ReplySession session)) ∧
    prepare_daemon (W:=Office.World) "config.json" "credentials.json" s'.2 = (w1, Ok (d, token)) ∧
    am_state (d_auth d) = Authenticated.
Proof.
  pose (s := (Office.daemon Office.machine, Office.world)).
  assert (Hrun : match serve_auth (W:=Office.World) Office.sleep 0 (PasswordLogin "a" "p" "" "") s with
    | (s', Ok (ReplySession session)) => se_state session = SessAuthenticated ∧
        d_credential_path s'.1 = "credentials.json" ∧ values (am_cookies (d_auth s'.1)) !! "session" = Some "2" ∧
        is_ok (prepare_daemon (W:=Office.World) "config.json" "credentials.json" s'.2).2 = true
    | _ => False end) by (vm_compute; repeat split; reflexivity).
  destruct (serve_auth _ _ _ s) as [s' [[session| | | | |]|e]] eqn:Hserve; try contradiction.
  destruct Hrun as (Hst & Hpath & Hck & Hprep).
  assert (Hs : auth_ok True any_tenant (d_auth s.1)) by (split; done).
  destruct (login_survives_restart (W:=Office.World) Office.sleep 0 (PasswordLogin "a" "p" "" "") s s' session
    office_served Hs eq_refl Hserve Hst) as (creds & w0 & _ & Hall).
  rewrite Hpath in Hall.
  destruct (prepare_daemon _ _ s'.2) as [w1 [[d token]|e]] eqn:E; [|discriminate Hprep].
  exists s', session, w1, d, token. split; [exact Hserve|]. split; [exact E|].
  assert (Hne : values (am_cookies (d_auth s'.1)) ≠ ∅) by (intros Hn; rewrite Hn in Hck; discriminate Hck).
  exact (proj1 (Hall I eq_refl Hne "config.json" w1 d token OfficeMachine.random_ I I E)).
Defined.

Lemma logout_outcome_witness :
  ∃ s' session, serve_auth (W:=Office.World) Office.sleep 0 (Logout true) (Office.daemon DaemonSample.auth, Office.world)
    = (s', Ok (ReplySession session)) ∧ am_state (d_auth s'.1) = Configured.
Proof.
  destruct (logout_outcome (W:=Office.World) Office.sleep true (Office.daemon DaemonSample.auth, Office.world))
    as (w1 & m & Hs & Hm & _); [discriminate|].
  do 2 eexists. split; [exact Hs|exact Hm].
Defined.

End AuthFlows.
