(* ===== verification/VpnService.v ===== *)
(** * The tunnel RPCs ([daemon/src/service/vpn.rs])

    Connecting and disconnecting are the daemon's; the locations and their
    latencies come from the tenant's server and from the nodes.  The probes of
    the nodes run at once: each is made against the world the one before it in
    the list left, and the order in which their answers come in is the
    environment's.  Watching the tunnel is a stream over the watch channel, of
    which every subscriber sees the latest value when it looks. *)

From S2P Require Import Prelude RustStr Net Models Signing Api Requests Login VpnState Negotiate Persist Faults.
From S2P Require Import AuthMachine Store Routes Dialer Outbound Session Daemon ConnectTask.
Import Models Signing Api Requests Login Negotiate Persist Faults AuthMachine Store.
Import Routes(IpNet, IpNetwork).
Import Daemon.

Module VpnService.

(** *** What the client sees of a node *)

Record VpnLocation : Type := {
  vl_id : Z; vl_name : string; vl_display_name : string; vl_mode : VpnMode;
  vl_protocol_mode : PbProtocolMode; vl_supported_protocols : list PbProtocolMode; vl_delay_ms : Z;
}.
(* @daemon/src/daemon.rs:950-962 project_vpn_location *)
Definition project_vpn_location (dot : VpnDot) : VpnLocation :=
  let '(p, supported) := protocol_modes_from_dot (dot_protocol_mode dot) in {|
    vl_id := default 0 (Models.dot_id dot); vl_name := default "" (Models.dot_name dot);
    vl_display_name := default "" (Models.dot_name dot); vl_mode := mode_from_dot (dot_mode dot);
    vl_protocol_mode := p; vl_supported_protocols := supported; vl_delay_ms := 0 |}.

Record DotLatency : Type := { dl_dot_id : Z; dl_dot_name : string; latency_ms : Z; reachable : bool }.

(** [Duration::as_millis]. *)
Definition as_millis (d : duration) : Z := d / 1000000.
(* @daemon/src/service/vpn.rs:215-219 duration_ms *)
Definition duration_ms (value : option duration) (fallback : Z) : Z :=
  match value with
  | None => fallback
  | Some d => default i32_max (i32_try_from (as_millis d))
  end.

(** The comparison is [Ordering::Greater] exactly when this is [false]. *)
(* @daemon/src/service/vpn.rs:183-187 VpnServiceImpl::probe_dot_latency *)
Definition latency_le (a b : DotLatency) : bool :=
  match reachable a, reachable b with
  | true, false => true
  | false, true => false
  | _, _ => latency_ms a <=? latency_ms b
  end.

Section service.
Context `{Urls} `{!Session.UrlHost} `{IpNet} `{!Session.IpNetAddr} `{Crypto, Session.KeyCodec, Serde, ErrorText}.
Context {W : Type} `{!Http W} `{Random W} `{Store W} `{Host W} `{!Session.TunDriver W}.
Abbreviation St := (DaemonInner * W)%type.
Abbreviation op A := (M (DaemonInner * W) DaemonError A).

(** What every query of the tenant's server begins with. *)
(* @daemon/src/service/vpn.rs:82-89 VpnServiceImpl::list_vpn_locations *)
Definition session_client : op ApiClient :=
  do! require_authenticated in
  let! d := inner in
  m_lift (ok_or (build_tenant_client (d_auth d)) (Fault NotAuthenticated)).

(** A query, its failure as an API error of the VPN. *)
Definition query {T} (decode : decoder T) (client : ApiClient) (r : SendableRequest) : op (BaseResponse T) :=
  m_map_err (from_vpn ∘ VpnApi) (on_jar (send (W:=W) decode client r)).

(* @daemon/src/service/vpn.rs:36-50 VpnServiceImpl::get_tunnel *)
Definition get_tunnel : op Tunnel :=
  let! d := inner in m_ret (match d_vpn d with Some vpn => to_tunnel_proto vpn | None => tunnel_default end).

(* @daemon/src/service/vpn.rs:52-67 VpnServiceImpl::connect_tunnel *)
Definition rpc_connect_tunnel (m : option VpnMode) (p : option PbProtocolMode) (loc : option Z)
    (code : option string) (reconn : bool) : op Tunnel :=
  connect_tunnel (vpn_request_from_proto m p loc code reconn).

(* @daemon/src/service/vpn.rs:69-77 VpnServiceImpl::disconnect_tunnel *)
Definition rpc_disconnect_tunnel (wait : Task → St → St) : op Tunnel := disconnect_tunnel wait.

(* @daemon/src/service/vpn.rs:79-105 VpnServiceImpl::list_vpn_locations *)
Definition list_vpn_locations : op (list VpnLocation) :=
  let! client := session_client in
  let! resp := query de_dots client GetVpnLocationsRequest in
  m_ret (map project_vpn_location (default [] (data resp))).

(** The probe of one node, or of none when its endpoint cannot be built. *)
(* @daemon/src/service/vpn.rs:145-176 VpnServiceImpl::probe_dot_latency *)
Definition probe_dot (build : VpnDot → option ApiClient) (dot : VpnDot) (s : CookieStore * W) :
    (CookieStore * W) * DotLatency :=
  let '(s1, rtt) := match build dot with
                    | Some client => probe_latency client DEFAULT_PROBE_TIMEOUT s
                    | None => (s, None)
                    end in
  (s1, {| dl_dot_id := default 0 (Models.dot_id dot); dl_dot_name := default "" (Models.dot_name dot);
          latency_ms := duration_ms rtt 0; reachable := is_some rtt |}).
Fixpoint probe_dots (build : VpnDot → option ApiClient) (dots : list VpnDot) (s : CookieStore * W) :
    (CookieStore * W) * list DotLatency :=
  match dots with
  | [] => (s, [])
  | dot :: dots' =>
      let '(s1, l) := probe_dot build dot s in
      let '(s2, rest) := probe_dots build dots' s1 in (s2, l :: rest)
  end.

(** The latencies that the probes' tasks measure, each node's once. *)
(* @daemon/src/service/vpn.rs:107-176 VpnServiceImpl::probe_dot_latency *)
Definition collect_latencies : op (list DotLatency) :=
  let! client := session_client in
  let! resp := query de_dots client GetVpnLocationsRequest in
  let dots := default [] (data resp) in
  let! vpn_domain := fetch_vpn_domain client in
  let! d := inner in
  let outbound := dc_outbound_interface (d_config d) in
  let! pool_ok := λ '(d, w), ((d, w), Ok (pool_builds outbound w)) in
  let builders := dot_client_builders pool_ok (build_hooks (d_auth d)) vpn_domain outbound in
  on_jar (λ s, let '(s1, l) := probe_dots (λ dot, fst <$> builders.2 dot) dots s in (s1, Ok l)).

(** What is collected of the tasks as they end: their results, up to the first
    task that cannot be joined ([None]). *)
(* @daemon/src/service/vpn.rs:178-181 VpnServiceImpl::probe_dot_latency *)
Fixpoint joined (ends : list (option DotLatency)) : list DotLatency :=
  match ends with Some result :: ends' => result :: joined ends' | _ => [] end.

(** [arrival]: how the tasks end, and in which order. *)
(* @daemon/src/service/vpn.rs:107-193 VpnServiceImpl::probe_dot_latency *)
Definition probe_dot_latency (arrival : list DotLatency → list (option DotLatency)) : op (list DotLatency) :=
  let! results := collect_latencies in
  m_ret (sort_by latency_le (joined (arrival results))).

End service.

(** ** Properties *)

Lemma duration_ms_bounds o : 0 <= default 0 o → 0 <= duration_ms o 0 <= i32_max.
Proof.
  intros Ho. unfold duration_ms. destruct o as [d|]; [|unfold i32_max; lia]. cbn in Ho.
  unfold i32_try_from, as_millis. pose proof (Z.div_pos d 1000000 Ho ltac:(lia)) as Hd.
  destruct (decide _) as [Hr|Hr]; cbn; unfold i32_max in *; lia.
Qed.

(** What the order looks at. *)
Definition key (l : DotLatency) : bool * Z := (reachable l, latency_ms l).
Definition key_le (a b : bool * Z) : Prop :=
  match a.1, b.1 with true, false => True | false, true => False | _, _ => a.2 <= b.2 end.
#[local] Instance key_le_antisymm : AntiSymm (=) key_le.
Proof. intros [[] a] [[] b]; unfold key_le; cbn; intros; f_equal; try done; lia. Qed.
Lemma latency_le_key a b : latency_le a b = true ↔ key_le (key a) (key b).
Proof. unfold latency_le, key_le, key. cbn. destruct (reachable a), (reachable b); rewrite ?Z.leb_le; done. Qed.

Lemma sorted_by_latency l : StronglySorted key_le (map key (sort_by latency_le l)).
Proof.
  assert (Hs : StronglySorted (λ x y, latency_le x y = true) (sort_by latency_le l)).
  { apply sort_by_sorted; unfold latency_le; intros x y.
    - destruct (reachable x), (reachable y); try done; rewrite Z.leb_gt, Z.leb_le; lia.
    - intros z. destruct (reachable x), (reachable y), (reachable z); try done; rewrite !Z.leb_le; lia. }
  induction Hs as [|x xs Hs IH Hall]; cbn [map]; constructor; [done|].
  apply Forall_map. eapply Forall_impl; [exact Hall|]. intros y. apply latency_le_key.
Qed.

(** The key order decides: the ranking does not depend on the arrivals but for
    nodes with the same latency. *)
Lemma ranking_unique l l' :
  l ≡ₚ l' → map key (sort_by latency_le l) = map key (sort_by latency_le l').
Proof.
  intros Hp. apply (StronglySorted_unique key_le); [apply sorted_by_latency..|].
  by rewrite !sort_by_perm, Hp.
Qed.

(** Tasks that all end with their result are all collected. *)
Lemma joined_all ends l : ends ≡ₚ map Some l → joined ends ≡ₚ l.
Proof.
  intros Hp. destruct (Permutation_map_inv _ _ Hp) as (l' & -> & ->). clear Hp.
  induction l' as [|x l' IH]; cbn; [done|]. by constructor.
Qed.

Section facts.
Context `{Urls} `{!Session.UrlHost} `{IpNet} `{!Session.IpNetAddr} `{Crypto, Session.KeyCodec, Serde, ErrorText}.
Context {W : Type} `{!Http W} `{Random W} `{Store W} `{Host W} `{!Session.TunDriver W}.
Abbreviation St := (DaemonInner * W)%type.

Lemma probe_dot_result build dot (s : CookieStore * W) :
  let l := (probe_dot build dot s).2 in
  dl_dot_id l = default 0 (Models.dot_id dot) ∧ 0 <= latency_ms l <= i32_max ∧
  (reachable l = false → latency_ms l = 0) ∧ (build dot = None → reachable l = false).
Proof.
  unfold probe_dot. cbn zeta.
  assert (Hrtt : ∀ c, 0 <= default 0 (probe_latency c DEFAULT_PROBE_TIMEOUT s).2).
  { intros c. unfold probe_latency. destruct (vpn_ping c s) as [s1 [[]|e]]; cbn; [|lia].
    destruct (_ <? _); cbn; lia. }
  destruct (build dot) as [c|]; [|cbn; unfold i32_max; by repeat split].
  specialize (Hrtt c). destruct (probe_latency c _ s) as [s1 rtt]. cbn [snd] in *. split; [done|].
  split; [by apply duration_ms_bounds|]. split; [|done]. cbn. by destruct rtt.
Qed.

Lemma probe_dots_results build dots (s : CookieStore * W) :
  let l := (probe_dots build dots s).2 in
  map dl_dot_id l = map (λ d, default 0 (Models.dot_id d)) dots ∧
  Forall (λ l, 0 <= latency_ms l <= i32_max ∧ (reachable l = false → latency_ms l = 0)) l.
Proof.
  revert s. induction dots as [|dot dots IH]; intros s; cbn [probe_dots]; [by split; [|constructor]|].
  pose proof (probe_dot_result build dot s) as Hd. cbn zeta in Hd. destruct (probe_dot build dot s) as [s1 l].
  specialize (IH s1). destruct (probe_dots build dots s1) as [s2 rest]. cbn [snd map] in *.
  destruct Hd as (Hid & Hb & Hr & _), IH as [Hm Hall]. split; [by rewrite Hid, Hm|]. constructor; [by split|done].
Qed.

Lemma session_client_ok (s s' : St) client :
  session_client s = (s', Ok client) →
  s' = s ∧ am_state (d_auth s.1) = Authenticated ∧ build_tenant_client (d_auth s.1) = Some client.
Proof.
  destruct s as [d w]. unfold session_client, require_authenticated, m_bind, inner, m_fail, m_ret, m_lift. cbn.
  destruct (am_state (d_auth d)); try done. destruct (build_tenant_client (d_auth d)); [|done]. by intros [= <- <-].
Qed.

(** C28: Probing the nodes: the answer has exactly one latency for every node of
    the tenant's list, the reachable ones first and the faster before the
    slower, each within 32 bits and an unreachable one shown as 0; and in
    whatever order the probes finish, all of them with a result, what is listed
    at each rank is the same, nodes that tie apart.  Only an authenticated session is answered. *)
Theorem probe_results_ranked arrival arrival' (s s' : St) results :
  (∀ l, arrival l ≡ₚ map Some l) → (∀ l, arrival' l ≡ₚ map Some l) →
  probe_dot_latency (W:=W) arrival s = (s', Ok results) →
  am_state (d_auth s.1) = Authenticated ∧
  (∃ client dots s1, build_tenant_client (d_auth s.1) = Some client ∧
     query de_dots client GetVpnLocationsRequest s = (s1, Ok dots) ∧
     map dl_dot_id results ≡ₚ map (λ d, default 0 (Models.dot_id d)) (default [] (data dots))) ∧
  StronglySorted key_le (map key results) ∧
  Forall (λ l, 0 <= latency_ms l <= i32_max ∧ (reachable l = false → latency_ms l = 0)) results ∧
  ∃ results', probe_dot_latency (W:=W) arrival' s = (s', Ok results') ∧ map key results' = map key results.
Proof.
  intros Hp Hp' (s1 & l & Hc & [= <- <-])%m_bind_ok. pose proof Hc as Hcollect.
  destruct s as [d w]. cbn [fst].
  apply m_bind_ok in Hc as (s2 & client & Hcl & Hc). apply m_bind_ok in Hc as (s3 & dots & Hq & Hc).
  apply m_bind_ok in Hc as (s4 & domain & _ & Hc). apply m_bind_ok in Hc as (s5 & d5 & _ & Hc).
  apply m_bind_ok in Hc as (s6 & pool_ok & _ & Hc). destruct s6 as [d6 w6].
  unfold on_jar, on_auth, through in Hc.
  destruct (session_client_ok _ _ _ Hcl) as (-> & Ha & Hb).
  match type of Hc with context [probe_dots ?b ?ds ?s] => pose proof (probe_dots_results b ds s) as [Hid Hall] end.
  destruct (probe_dots _ _ _) as [[jar w7] l']. cbn [snd] in Hid, Hall. injection Hc as _ Hl. subst l'.
  split; [exact Ha|]. split; [|split; [apply sorted_by_latency|split]].
  - exists client, dots, s3. split; [exact Hb|]. split; [exact Hq|]. by rewrite sort_by_perm, (joined_all _ _ (Hp _)), Hid.
  - rewrite sort_by_perm, (joined_all _ _ (Hp _)). exact Hall.
  - exists (sort_by latency_le (joined (arrival' l))). split; [|apply ranking_unique; by rewrite !joined_all].
    unfold probe_dot_latency, m_bind at 1. by rewrite Hcollect.
Qed.

End facts.

(** ** Watching the tunnel

    A watch channel keeps the last value sent and counts the sends; a receiver
    remembers the count it has seen.  The stream yields the current value first,
    and then the current value whenever it looks and there is an unseen one. *)
Record WatchReceiver : Type := { seen : option nat }.
(* @daemon/src/daemon.rs:146-149 Daemon::subscribe_tunnel *)
Definition subscribe_tunnel : WatchReceiver := {| seen := None |}.
(** One poll of the stream; [sent] is what was sent so far, the initial value
    of the channel first. *)
Definition watch_poll (r : WatchReceiver) (sent : list Tunnel) : WatchReceiver * option Tunnel :=
  if bool_decide (seen r = Some (length sent)) then (r, None)
  else ({| seen := Some (length sent) |}, last sent).
(** [polls] is the channel at every poll. *)
Fixpoint watch_polls (r : WatchReceiver) (polls : list (list Tunnel)) : list Tunnel :=
  match polls with
  | [] => []
  | sent :: polls' => let '(r1, o) := watch_poll r sent in option_list o ++ watch_polls r1 polls'
  end.
(* @daemon/src/service/vpn.rs:195-205 VpnServiceImpl::watch_tunnel *)
Definition watch_tunnel (polls : list (list Tunnel)) : list Tunnel := watch_polls subscribe_tunnel polls.

(** The polls of a receiver see ever more of the values sent. *)
Fixpoint growing (before : list Tunnel) (polls : list (list Tunnel)) : Prop :=
  match polls with
  | [] => True
  | sent :: polls' => (∃ more, sent = before ++ more) ∧ growing sent polls'
  end.

Lemma last_sublist {A} (l : list A) : option_list (last l) `sublist_of` l.
Proof.
  destruct (last l) as [x|] eqn:Hl; [|apply sublist_nil_l]. apply last_Some in Hl as [l' ->].
  by apply sublist_inserts_l.
Qed.

Lemma list_last_cons {A} (x d : A) l : List.last (x :: l) d = List.last l x.
Proof.
  revert x d. induction l as [|y l IH]; intros x d; [done|].
  change (List.last (x :: y :: l) d) with (List.last (y :: l) d). by rewrite (IH y d), (IH y x).
Qed.

Lemma last_app_ne {A} (l k : list A) : k ≠ [] → last (l ++ k) = last k.
Proof. intros Hk. rewrite last_app. destruct (last k) eqn:E; [done|]. by apply last_None in E. Qed.

Lemma watch_polls_spec polls : ∀ before r,
  growing before polls → seen r = Some (length before) →
  ∃ after, List.last polls before = before ++ after ∧ watch_polls r polls `sublist_of` after ∧
    (after ≠ [] → last (watch_polls r polls) = last after).
Proof.
  induction polls as [|sent polls IH]; intros before r Hg Hs.
  { exists []. cbn. by rewrite app_nil_r. }
  cbn in Hg. destruct Hg as [[more ->] Hg]. cbn [watch_polls]. unfold watch_poll. rewrite Hs.
  rewrite list_last_cons. case_bool_decide as Hb.
  - injection Hb as Hb. rewrite length_app in Hb. destruct more; [|cbn in Hb; lia].
    rewrite app_nil_r in *. cbn [option_list app]. by apply IH.
  - destruct (IH (before ++ more) {| seen := Some (length (before ++ more)) |} Hg eq_refl) as (after & Hlast & Hsub & Hend).
    exists (more ++ after). split; [by rewrite Hlast, <- app_assoc|].
    assert (Hm : more ≠ []) by (intros ->; by rewrite app_nil_r in Hb).
    rewrite last_app_ne by done. split; [apply sublist_app; [apply last_sublist|exact Hsub]|].
    intros _. destruct after as [|a after].
    + apply sublist_nil_r in Hsub. rewrite Hsub, !app_nil_r. by destruct (last more).
    + rewrite (last_app_ne more), <- (Hend ltac:(done)) by done. rewrite last_app.
      rewrite (Hend ltac:(done)). by destruct (last (a :: after)) eqn:E; [|apply last_None in E].
Qed.

(** A client that watches the tunnel sees, from a value that was current when it
    subscribed, some of the values sent, in the order in which they were sent
    and none twice; and once it has looked, the last it saw is the last sent. *)
Theorem watch_tunnel_spec before polls :
  before ≠ [] → growing before polls → polls ≠ [] →
  watch_tunnel polls `sublist_of` List.last polls before ∧
  last (watch_tunnel polls) = last (List.last polls before).
Proof.
  intros Hb Hg Hp. destruct polls as [|sent polls]; [done|]. cbn in Hg. destruct Hg as [[more ->] Hg].
  unfold watch_tunnel. cbn [watch_polls]. unfold watch_poll. cbn [seen subscribe_tunnel].
  destruct (watch_polls_spec polls (before ++ more) {| seen := Some (length (before ++ more)) |} Hg eq_refl)
    as (after & Hlast & Hsub & Hend).
  rewrite list_last_cons, Hlast. rewrite bool_decide_eq_false_2 by done.
  split; [apply sublist_app; [apply last_sublist|exact Hsub]|]. destruct after as [|a after].
  - apply sublist_nil_r in Hsub. rewrite Hsub, !app_nil_r. by destruct (last (before ++ more)).
  - rewrite (last_app_ne (before ++ more)) by done. rewrite last_app, (Hend ltac:(done)).
    by destruct (last (a :: after)) eqn:E; [|apply last_None in E].
Qed.

(** ** Witness *)

Lemma probe_results_ranked_witness :
  ∃ s' results results', probe_dot_latency (W:=nat) (map Some) (ConnectTask.Bench.d0, 0%nat) = (s', Ok results) ∧
    length results = 3%nat ∧
    probe_dot_latency (W:=nat) (λ l, rev (map Some l)) (ConnectTask.Bench.d0, 0%nat) = (s', Ok results') ∧
    map key results' = map key results.
Proof.
  assert (Hrun : match (probe_dot_latency (W:=nat) (map Some) (ConnectTask.Bench.d0, 0%nat)).2 with
    | Ok l => length l = 3%nat | Err _ => False end) by (vm_compute; reflexivity).
  destruct (probe_dot_latency (map Some) _) as [s' [results|e]] eqn:E; [|contradiction].
  destruct (probe_results_ranked (W:=nat) (map Some) (λ l, rev (map Some l)) _ _ _ (λ l, reflexivity (map Some l))
    (λ l, Permutation_sym (Permutation_rev (map Some l))) E) as (_ & _ & _ & _ & results' & Hr & Hk).
  exists s', results, results'. split; [reflexivity|]. split; [exact Hrun|]. by split.
Defined.

End VpnService.
