(* ===== verification/MetaService.v ===== *)
(** * The configuration and metadata RPCs ([daemon/src/service/meta.rs])

    What the client sees of the configuration, a partial update of it, with
    the save and the reconnect that follow, the user's profile and the network
    interfaces. *)

From S2P Require Import Prelude RustStr Net Models Signing Api Requests Login VpnState Negotiate Persist Faults.
From S2P Require Import AuthMachine Store Routes Interface Dialer Outbound Session Daemon VpnService.
Import Models Signing Api Requests Login Negotiate Persist Faults AuthMachine Store.
Import Routes(IpNet, IpNetwork).
Import Interface(InterfaceInfo, ii_name, ii_index, ii_is_up, ii_is_loopback, ii_has_gateway, ii_is_default,
  ii_ipv4_addrs, ii_ipv6_addrs, NetInterface).
Import Daemon VpnService.

Module MetaService.

(** *** Configuration *)

(** The selector of an [OutboundInterface] message. *)
Inductive Selector : Type := Auto | Name (name : string).
(** [Configuration] of the RPC schema; an absent selector is a message without
    one. *)
Record Configuration : Type := {
  cf_outbound_interface : option Selector;
  cf_auto_reconnect_on_start : option bool;
  cf_dns_listen_port : option Z;
  cf_tun_interface : option string;
  cf_dns_listen_host : option string;
  cf_route_system_dns : option bool;
}.

(* @daemon/src/daemon.rs:816-837 DaemonConfig::to_configuration_proto *)
Definition to_configuration_proto (c : DaemonConfig) : Configuration := {|
  cf_outbound_interface := Some match dc_outbound_interface c with Some name => Name name | None => Auto end;
  cf_auto_reconnect_on_start := Some (dc_auto_reconnect c);
  cf_dns_listen_port := dc_dns_listen_port c;
  cf_tun_interface := dc_tun_interface c;
  cf_dns_listen_host := dc_dns_listen_host c;
  cf_route_system_dns := Some (default true (dc_route_system_dns c)) |}.

(** An absent field keeps the value; a blank text clears it. *)
Definition update_text (u old : option string) : option string :=
  match u with
  | None => old
  | Some t => let t := trim t in if str_is_empty t then None else Some t
  end.
(* @daemon/src/service/meta.rs:83-121 MetaServiceImpl::update_configuration *)
Definition apply_update (u : Configuration) (c : DaemonConfig) : DaemonConfig := {|
  dc_identity := dc_identity c;
  dc_outbound_interface :=
    match cf_outbound_interface u with
    | None => dc_outbound_interface c
    | Some (Name name) => if str_is_empty name then None else Some name
    | Some Auto => None
    end;
  dc_fallback_dns := dc_fallback_dns c;
  dc_tun_interface := update_text (cf_tun_interface u) (dc_tun_interface c);
  dc_auto_reconnect := default (dc_auto_reconnect c) (cf_auto_reconnect_on_start u);
  dc_dns_listen_port :=
    match cf_dns_listen_port u with
    | None => dc_dns_listen_port c
    | Some p => if 0 <? p then Some p else None
    end;
  dc_dns_listen_host := update_text (cf_dns_listen_host u) (dc_dns_listen_host c);
  dc_route_system_dns := match cf_route_system_dns u with Some b => Some b | None => dc_route_system_dns c end |}.

(** *** The user and the interfaces *)

Record PbUserInfo : Type := { pu_uid : string; pu_name : string; pu_email : string; pu_mobile : string }.
(* @daemon/src/daemon.rs:938-947 project_user_info *)
Definition project_user_info (user : option UserInfo) : PbUserInfo :=
  let user := default user_info_default user in
  {| pu_uid := default "" (ui_uid user); pu_name := default "" (ui_name user);
     pu_email := default "" (ui_email user); pu_mobile := default "" (ui_mobile user) |}.

Record PbNetworkInterface : Type := {
  pi_name : string; pi_index : Z; pi_is_up : bool; pi_is_loopback : bool; pi_has_gateway : bool;
  pi_is_default : bool; pi_ipv4_addrs : list string; pi_ipv6_addrs : list string;
}.
(** [IpAddr]'s [Display]. *)
Class IpText : Type := ip_text : IpAddr → string.
(** The interfaces and the name of the one selected automatically. *)
(* @daemon/src/service/meta.rs:139-169 MetaServiceImpl::list_network_interfaces *)
Definition list_network_interfaces `{IpText} (interfaces : list InterfaceInfo) : list PbNetworkInterface * string :=
  (map (λ info, {| pi_name := ii_name info; pi_index := ii_index info; pi_is_up := ii_is_up info;
                   pi_is_loopback := ii_is_loopback info; pi_has_gateway := ii_has_gateway info;
                   pi_is_default := ii_is_default info;
                   pi_ipv4_addrs := map ip_text (ii_ipv4_addrs info);
                   pi_ipv6_addrs := map ip_text (ii_ipv6_addrs info) |}) interfaces,
   default "" (ii_name <$> List.find ii_is_default interfaces)).

(** The time since the start, in whole seconds. *)
(* @daemon/src/daemon.rs:140-143 Daemon::uptime_seconds *)
Definition uptime_seconds (elapsed : duration) : Z :=
  let secs := elapsed / nanos_per_sec in
  if decide (secs < 2 ^ 63) then secs else 2 ^ 63 - 1.
(** [version] is the package's. *)
(* @daemon/src/service/meta.rs:32-40 MetaServiceImpl::ping *)
Definition ping (version : string) (elapsed : duration) : string * Z := (version, uptime_seconds elapsed).

Section service.
Context `{Urls} `{IpNet} `{Crypto, Serde, ErrorText}.
Context {W : Type} `{!Http W} `{Store W} `{Host W}.
Abbreviation St := (DaemonInner * W)%type.
Abbreviation op A := (M (DaemonInner * W) DaemonError A).

(* @daemon/src/service/meta.rs:42-62 MetaServiceImpl::get_user_info *)
Definition get_user_info : op PbUserInfo :=
  let! client := session_client in
  let! resp := query de_user client GetUserInfoRequest in
  m_ret (project_user_info (data resp)).

(* @daemon/src/service/meta.rs:64-75 MetaServiceImpl::get_configuration *)
Definition get_configuration : op Configuration :=
  let! d := inner in m_ret (to_configuration_proto (d_config d)).

(** [wait] is the end of a task that is awaited. *)
Variable wait : Task → St → St.
(* @daemon/src/service/meta.rs:77-137 MetaServiceImpl::update_configuration *)
Definition update_configuration (u : Configuration) : op Configuration :=
  do! upd (λ d, set_config_ (apply_update u (d_config d)) d) in
  do! persist_config in
  do! reconnect_if_outbound_changed wait in
  get_configuration.

End service.

(** ** Properties *)

(** A configuration in order: no empty interface name, no text that is blank or
    has white space around it, no port 0. *)
Definition text_ok (o : option string) : Prop := ∀ t, o = Some t → t ≠ "" ∧ trim t = t.
Definition config_ok (c : DaemonConfig) : Prop :=
  dc_outbound_interface c ≠ Some "" ∧ text_ok (dc_tun_interface c) ∧ text_ok (dc_dns_listen_host c) ∧
  ∀ p, dc_dns_listen_port c = Some p → 0 < p.

Lemma update_text_same o : text_ok o → update_text o o = o.
Proof. destruct o as [t|]; [|done]. intros Ho. destruct (Ho t eq_refl) as [Hne Ht]. cbn. rewrite Ht. by destruct t. Qed.
Lemma update_text_ok u o : text_ok o → text_ok (update_text u o).
Proof.
  intros Ho. destruct u as [t|]; [|done]. unfold update_text. intros x.
  destruct (str_is_empty (trim t)) eqn:He; [done|]. intros [= <-]. split; [|apply trim_idemp].
  intros Hn. by rewrite Hn in He.
Qed.
Lemma update_text_idemp u o : update_text u (update_text u o) = update_text u o.
Proof. by destruct u. Qed.

(** What one field of an update does: an absent one keeps the value. *)
Definition sets {A B} (field : option A) (becomes : A → B → Prop) (old new : B) : Prop :=
  match field with Some a => becomes a new | None => new = old end.
Definition becomes_interface (x : Selector) (new : option string) : Prop :=
  x = Auto ∧ new = None ∨ ∃ n, x = Name n ∧ (n = "" ∧ new = None ∨ n ≠ "" ∧ new = Some n).
Definition becomes_port (p : Z) (new : option Z) : Prop := 0 < p ∧ new = Some p ∨ p <= 0 ∧ new = None.
Definition becomes_text (t : string) (new : option string) : Prop :=
  trim t = "" ∧ new = None ∨ trim t ≠ "" ∧ new = Some (trim t).

Lemma update_text_sets u o : sets u becomes_text o (update_text u o).
Proof.
  destruct u as [t|]; [|done]. unfold sets, becomes_text, update_text.
  destruct (trim t) as [|a x]; cbn; [by left|by right].
Qed.

(** C30: A partial update of the configuration does what each of its fields
    says: an interface that is named is chosen, an empty name and the automatic
    selector clear the choice, a port of 0 clears the port, a blank text clears
    and another one is stored without the white space around it, the switches
    take the given value, and an absent field keeps its value; the device
    identity and the fallback servers are never touched.  Applied twice it is
    applied once; it leaves a configuration in order in order; and reading the
    configuration and writing it back as it was read changes nothing that can
    be read. *)
Theorem update_roundtrip u c :
  let c' := apply_update u c in
  (sets (cf_outbound_interface u) becomes_interface (dc_outbound_interface c) (dc_outbound_interface c') ∧
   sets (cf_auto_reconnect_on_start u) eq (dc_auto_reconnect c) (dc_auto_reconnect c') ∧
   sets (cf_dns_listen_port u) becomes_port (dc_dns_listen_port c) (dc_dns_listen_port c') ∧
   sets (cf_tun_interface u) becomes_text (dc_tun_interface c) (dc_tun_interface c') ∧
   sets (cf_dns_listen_host u) becomes_text (dc_dns_listen_host c) (dc_dns_listen_host c') ∧
   sets (cf_route_system_dns u) (λ b new, new = Some b) (dc_route_system_dns c) (dc_route_system_dns c')) ∧
  dc_identity c' = dc_identity c ∧ dc_fallback_dns c' = dc_fallback_dns c ∧
  apply_update u c' = c' ∧ (config_ok c → config_ok c') ∧
  (config_ok c → to_configuration_proto (apply_update (to_configuration_proto c) c) = to_configuration_proto c).
Proof.
  cbn zeta. split; [|split; [done|split; [done|split; [|split]]]].
  - split; [|split; [|split; [|split; [apply update_text_sets|split; [apply update_text_sets|]]]]]; cbn.
    + destruct (cf_outbound_interface u) as [[|[|a n]]|]; cbn; [by left| | |done]; right; eexists; (split; [done|]);
        [by left|by right].
    + by destruct (cf_auto_reconnect_on_start u).
    + destruct (cf_dns_listen_port u) as [p|]; [|done]. unfold becomes_port, sets.
      destruct (Z.ltb_spec 0 p); [by left|right; split; [lia|done]].
    + by destruct (cf_route_system_dns u).
  - unfold apply_update. cbn. rewrite !update_text_idemp.
    by destruct u as [[[]|] [] [p|] [] [] []]; cbn.
  - intros (Ho & Ht & Hh & Hp). split; [|split; [by apply update_text_ok|split; [by apply update_text_ok|]]]; cbn.
    + destruct (cf_outbound_interface u) as [[|[|a n]]|]; cbn; done.
    + destruct (cf_dns_listen_port u) as [q|]; [|done]. intros p. destruct (Z.ltb_spec 0 q); [|done]. by intros [= <-].
  - intros (Ho & Ht & Hh & Hp). unfold to_configuration_proto, apply_update. cbn.
    rewrite !update_text_same by done. f_equal.
    + destruct (dc_outbound_interface c) as [[|a n]|]; done.
    + destruct (dc_dns_listen_port c) as [p|]; [|done]. specialize (Hp p eq_refl). by destruct (Z.ltb_spec 0 p); [|lia].
Qed.

Section facts.
Context `{Urls} `{IpNet} `{Crypto, Serde, ErrorText}.
Context {W : Type} `{!Http W} `{StoreLaws W} `{Host W}.
Abbreviation St := (DaemonInner * W)%type.
Implicit Types d : DaemonInner.

Lemma update_configuration_steps wait u d (w : W) :
  let c' := apply_update u (d_config d) in
  let w1 := (save_config c' (d_config_path d) w).1 in
  update_configuration wait u (d, w) =
    ((reconnect_if_outbound_changed wait (set_config_ c' d, w1)).1,
     Ok (to_configuration_proto (d_config (reconnect_if_outbound_changed wait (set_config_ c' d, w1)).1.1))).
Proof.
  cbn zeta.
  assert (Hr : ∀ s : St, (reconnect_if_outbound_changed wait s).2 = Ok tt).
  { intros [d1 w1]. unfold reconnect_if_outbound_changed. cbn zeta. case_bool_decide; [done|].
    destruct (d_vpn _) as [vpn|]; [|done]. destruct (current_request _) as [r|]; [|done].
    by destruct (connect_tunnel r _) as [s4 r4]. }
  set (s1 := (set_config_ _ d, _) : St). specialize (Hr s1).
  change (update_configuration wait u (d, w)) with
    (m_bind (reconnect_if_outbound_changed wait) (λ _, get_configuration) s1).
  unfold m_bind. destruct (reconnect_if_outbound_changed wait s1) as [[d1 w1] r]. cbn in Hr. by subst.
Qed.

Lemma reconnect_keeps_config wait d (w : W) :
  (∀ t (s : St), d_config (wait t s).1 = d_config s.1) →
  d_config (reconnect_if_outbound_changed wait (d, w)).1.1 = d_config d.
Proof.
  intros Hw. unfold reconnect_if_outbound_changed. cbn zeta. case_bool_decide; [done|].
  set (d1 := if pool_builds _ _ then _ else _). assert (Hd1 : d_config d1 = d_config d) by (unfold d1; by case_match).
  destruct (d_vpn d1) as [vpn|]; [|exact Hd1]. destruct (current_request _) as [r|]; [|exact Hd1].
  set (s3 := match d_tunnel_task d1 with Some _ => _ | None => _ end).
  assert (Hs3 : d_config s3.1 = d_config d) by (unfold s3; destruct (d_tunnel_task d1); [by rewrite Hw|done]).
  destruct s3 as [d3 w3]. cbn in Hs3. rewrite <- Hs3.
  unfold connect_tunnel, inner, upd, m_bind, m_lift, m_ret, m_fail.
  destruct (negb _); [done|]. destruct (d_vpn d3) as [v|] eqn:Hv.
  - rewrite Hv. by destruct (negb _).
  - destruct (build_tenant_client (d_auth d3)) as [c|]; cbn; done.
Qed.

(** Updating the configuration: the answer is the configuration as it now
    is; it was saved before anything was reconnected, and once the save worked
    it is what the next start loads; when the outbound interface is the one the
    tunnel uses, nothing but the configuration changes. *)
Theorem update_configuration_outcome wait u d (w : W) :
  (∀ t (s : St), d_config (wait t s).1 = d_config s.1) →
  let c' := apply_update u (d_config d) in
  let '((d', w'), r) := update_configuration wait u (d, w) in
  let save := save_config c' (d_config_path d) w in
  r = Ok (to_configuration_proto c') ∧ d_config d' = c' ∧
  (store_ok (d_config_path d) w → save.2 = Ok tt → load_config (d_config_path d) save.1 = Ok c') ∧
  (dc_outbound_interface c' = d_active_outbound d → d' = set_config_ c' d ∧ w' = save.1).
Proof.
  intros Hw. cbn zeta. rewrite update_configuration_steps. set (c' := apply_update u (d_config d)).
  pose proof (reconnect_keeps_config wait (set_config_ c' d) (save_config c' (d_config_path d) w).1 Hw) as Hc.
  destruct (reconnect_if_outbound_changed wait _) as [[d' w'] r] eqn:Hr. cbn [fst] in *.
  split; [by rewrite Hc|]. split; [exact Hc|]. split.
  - intros Hok Hs. eapply save_then_load_config; [exact Hok|]. rewrite <- Hs. by destruct (save_config _ _ _).
  - intros Ho. unfold reconnect_if_outbound_changed in Hr. cbn zeta in Hr.
    rewrite bool_decide_eq_true_2 in Hr by done. by injection Hr as <- <- _.
Qed.

(** The end of a task that is awaited: the machine is disconnected or failed,
    the same session is authenticated, and nobody else has connected,
    disconnected or changed the configuration meanwhile. *)
Definition ended (s s' : St) : Prop :=
  (∃ vpn vpn', d_vpn s.1 = Some vpn ∧ d_vpn s'.1 = Some vpn' ∧ cancel_token vpn' = cancel_token vpn ∧
     (state vpn' = Disconnected ∨ ∃ r e a, state vpn' = Failed r e a)) ∧
  am_state (d_auth s'.1) = am_state (d_auth s.1) ∧ d_config s'.1 = d_config s.1 ∧
  d_cancelled s'.1 = d_cancelled s.1 ∧ d_next_token s'.1 = d_next_token s.1 ∧
  ∃ ts, d_broadcasts s'.1 = d_broadcasts s.1 ++ ts.

(** C26: Choosing another outbound interface while a tunnel has a request
    restarts it: the token of the task that runs is cancelled before its end is
    awaited, and after it, whether the task ended disconnected or failed, a new
    task with the same request and a token of its own, which nobody has
    cancelled, connects; a watcher sees what the old task showed while it
    ended and then, last, connecting.  Assumed: a task that is cancelled ends,
    and nobody else uses the daemon while it is awaited. *)
Theorem outbound_update_reconnects wait u d vpn request task (w : W) :
  tokens_ok d → am_state (d_auth d) = Authenticated →
  d_vpn d = Some vpn → current_request (state vpn) = Some request →
  d_tunnel_task d = Some task → task_cancel task = cancel_token vpn →
  dc_outbound_interface (apply_update u (d_config d)) ≠ d_active_outbound d →
  (∀ s, d_vpn s.1 ≠ None → is_cancelled (task_cancel task) s = true → ended s (wait task s)) →
  ∃ d' w' n ts t, update_configuration wait u (d, w) =
      ((d', w'), Ok (to_configuration_proto (apply_update u (d_config d)))) ∧
    d_tunnel_task d' = Some {| task_request := request; task_cancel := n |} ∧ n ∉ d_cancelled d' ∧
    task_cancel task ∈ d_cancelled d' ∧ n ≠ task_cancel task ∧
    d_broadcasts d' = d_broadcasts d ++ ts ++ [t] ∧ t_state t = StateConnecting.
Proof.
  intros [Hc Hv] Ha Hvpn Hreq Htask Htoken Hout Hwait. rewrite update_configuration_steps.
  set (c' := apply_update u (d_config d)) in *. set (w1 := (save_config c' _ w).1).
  assert (Hlt := Hv _ Hvpn).
  assert (Hr : ∃ d' w' n ts t, reconnect_if_outbound_changed wait (set_config_ c' d, w1) = ((d', w'), Ok tt) ∧
    d_config d' = c' ∧ d_tunnel_task d' = Some {| task_request := request; task_cancel := n |} ∧
    n ∉ d_cancelled d' ∧ task_cancel task ∈ d_cancelled d' ∧ n ≠ task_cancel task ∧
    d_broadcasts d' = d_broadcasts d ++ ts ++ [t] ∧ t_state t = StateConnecting).
  2:{ destruct Hr as (d' & w' & n & ts & t & -> & Hcfg & Hrest). exists d', w', n, ts, t. cbn [fst]. by rewrite Hcfg. }
  unfold reconnect_if_outbound_changed. cbn zeta. rewrite bool_decide_eq_false_2 by done.
  set (d1 := if pool_builds _ _ then _ else _).
  assert (Hd1 : d_vpn d1 = Some vpn ∧ d_tunnel_task d1 = Some task ∧ am_state (d_auth d1) = Authenticated ∧
    d_cancelled d1 = d_cancelled d ∧ d_next_token d1 = d_next_token d ∧ d_broadcasts d1 = d_broadcasts d ∧
    d_config d1 = c') by (unfold d1; by destruct (pool_builds _ _)).
  destruct Hd1 as (Hv1 & Ht1 & Ha1 & Hc1 & Hn1 & Hb1 & Hcf1). rewrite Hv1, Hreq, Ht1.
  set (s2 := (cancel _ _, w1) : St). destruct (Hwait s2) as (Hm & Ha3 & Hcf3 & Hc3 & Hn3 & ts & Hb3).
  { cbn. by rewrite Hv1. }
  { unfold is_cancelled, s2. apply bool_decide_eq_true_2. cbn. rewrite Htoken. set_solver. }
  destruct (wait task s2) as [d3 w3]. cbn in Hm, Ha3, Hcf3, Hc3, Hn3, Hb3.
  rewrite Hc1 in Hc3. rewrite Hn1 in Hn3. rewrite Hb1 in Hb3.
  destruct Hm as (v2 & v3 & Hv2 & Hv3 & Htk & Hst). rewrite Hv1 in Hv2. injection Hv2 as <-.
  assert (Htok : tokens_ok d3).
  { split; [rewrite Hc3, Hn3|rewrite Hv3, Hn3; intros v [= <-]; by rewrite Htk].
    intros t Ht. apply elem_of_union in Ht as [Ht%elem_of_singleton|Ht]; [lia|by apply Hc]. }
  destruct (connect_tunnel_accepted request d3 w3 Htok) as (d4 & t & -> & Hcon & _); [congruence| |by rewrite Hv3|].
  { unfold idle. rewrite Hv3. unfold vm_can_connect. by destruct Hst as [->|(r & e & a & ->)]. }
  destruct Hcon as (vpn4 & Hv4 & Hst4 & _ & Ht4 & _ & Hn4 & Hb4 & _ & Hcf4 & Hcan4 & _).
  assert (Hin : task_cancel task ∈ d_cancelled d4) by (rewrite Hcan4, Hc3, Htoken; set_solver).
  exists d4, w3, (cancel_token vpn4), ts, (to_tunnel_proto vpn4). split; [done|]. split; [congruence|].
  split; [done|]. split; [done|]. split; [done|]. split; [by intros Heq; rewrite Heq in Hn4|].
  split; [by rewrite Hb4, Hb3, app_assoc|]. unfold to_tunnel_proto. by rewrite Hst4.
Qed.

End facts.


(** ** Witnesses *)

Module Settings.
Import Echo AuthSample.
(** A fixed-up interface name, a port, and a host with spaces around it. *)
Definition choose_eth1 : Configuration := {|
  cf_outbound_interface := Some (Name "eth1"); cf_auto_reconnect_on_start := Some true;
  cf_dns_listen_port := Some 5353; cf_tun_interface := Some "";
  cf_dns_listen_host := Some " 127.0.0.2 "; cf_route_system_dns := None |}.
Definition wait (t : Task) (s : DaemonInner * DaemonSample.World) : DaemonInner * DaemonSample.World :=
  (mark_disconnected s.1, s.2).
Definition fails (t : Task) (s : DaemonInner * DaemonSample.World) : DaemonInner * DaemonSample.World :=
  (mark_failed "refused" s.1, s.2).
End Settings.

Lemma update_roundtrip_witness :
  config_ok (apply_update Settings.choose_eth1 config_default) ∧
  dc_dns_listen_host (apply_update Settings.choose_eth1 config_default) = Some "127.0.0.2".
Proof.
  split; [|vm_compute; reflexivity].
  apply (update_roundtrip Settings.choose_eth1 config_default). split; [discriminate|].
  split; [intros t [=]|]. split; [intros t [=]|intros p [=]].
Defined.

Lemma update_configuration_outcome_witness :
  ∃ d' w', update_configuration Settings.wait Settings.choose_eth1 (DaemonSample.d0, DaemonSample.no_files)
    = ((d', w'), Ok (to_configuration_proto (apply_update Settings.choose_eth1 (d_config DaemonSample.d0)))).
Proof.
  pose proof (update_configuration_outcome Settings.wait Settings.choose_eth1 DaemonSample.d0 DaemonSample.no_files) as Ho.
  destruct (update_configuration _ _ _) as [[d' w'] r]. exists d', w'. f_equal.
  apply Ho. intros t [d w]. unfold Settings.wait, mark_disconnected, vpn_transition. cbn. by destruct (d_vpn d).
Defined.

(** The old task is in an attempt that fails. *)
Lemma outbound_update_reconnects_witness :
  ∃ d' w' n, update_configuration Settings.fails Settings.choose_eth1 (DaemonSample.d0, DaemonSample.no_files)
      = ((d', w'), Ok (to_configuration_proto (apply_update Settings.choose_eth1 (d_config DaemonSample.d0)))) ∧
    d_tunnel_task d' = Some {| task_request := vpn_request_default; task_cancel := n |} ∧ n ∉ d_cancelled d'.
Proof.
  destruct (outbound_update_reconnects Settings.fails Settings.choose_eth1 DaemonSample.d0
    (DaemonSample.vpn (Connecting vpn_request_default)) vpn_request_default
    {| task_request := vpn_request_default; task_cancel := 0 |} DaemonSample.no_files (DaemonSample.tokens _ _ _)
    eq_refl eq_refl eq_refl eq_refl eq_refl ltac:(discriminate)) as (d' & w' & n & ts & t & Hu & Ht & Hn & _).
  - intros [d w] Hv _. cbn in Hv. unfold Settings.fails, mark_failed, vpn_transition. cbn.
    destruct (d_vpn d) as [vpn|] eqn:E; [|done]. split; [|do 4 (split; [done|]); cbn; eauto].
    exists vpn. eexists. do 3 (split; [cbn; eauto|]). right. cbn. eauto.
  - exists d', w', n. split; [exact Hu|]. by split.
Defined.

End MetaService.
