(* ===== verification/WholeDaemon.v ===== *)
(** * The whole daemon, one critical section at a time

    [System] follows the connect tasks and the tunnel RPCs through their
    critical sections; here the other RPCs are cut the same way, and both run on
    one state.  A handler of [daemon/src/service/] takes and releases the
    daemon's lock several times; a file is written after the lock was released,
    from the snapshot taken under it; and a device login waits for minutes.  The
    theorems say that the handlers are runs of these sections, what holds
    however all of them interleave, and what a late write can undo. *)

From stdpp Require Import relations.
From S2P Require Import Prelude RustStr Net Reconnect Models Signing Api Requests Login VpnState Negotiate Persist Faults.
From S2P Require Import AuthMachine Store Routes Dialer DnsConfig DnsResolver Outbound Session Supervisor Daemon System Startup.
From S2P Require Import AuthService AuthInvariant AuthFlows VpnService MetaService.
Import Models Signing Api Requests Login Negotiate Persist Faults AuthMachine Store.
Import Routes(IpNet, IpNetwork).
Import Daemon System Startup AuthService AuthInvariant AuthFlows VpnService MetaService.

Module WholeDaemon.

Section whole.
Context `{Urls} `{!Session.UrlHost} `{IpNet} `{!Session.IpNetAddr} `{Crypto, Session.KeyCodec, Serde, ErrorText} `{!MatchUrl}.
Context {W : Type} `{!Http W} `{Random W} `{Store W} `{Host W} `{!Session.TunDriver W}.
Abbreviation St := (DaemonInner * W)%type.
Abbreviation op A := (M (DaemonInner * W) DaemonError A).

(** ** The sections of the other RPCs *)

(** A write whose snapshot was taken and whose lock was released. *)
Inductive Write : Type :=
  | WriteSession (creds : PersistedCredentials) (path : string)
  | WriteConfig (c : DaemonConfig) (path : string).
Definition perform (x : Write) (w : W) : W :=
  match x with
  | WriteSession creds path => (save_credentials creds path w).1
  | WriteConfig c path => (save_config c path w).1
  end.

(** A device login between its first section and its last: what it polls with,
    until when, and whether the server has confirmed it. *)
Record Wait : Type := { wt_client : ApiClient; wt_token : string; wt_deadline : Z; wt_confirmed : bool }.

(** The daemon's state with what is under way beside the tunnel. *)
Record Desk : Type := { de_d : DaemonInner; de_w : W; de_waits : list Wait; de_writes : list Write }.
Implicit Types x y : Desk.
Definition st x : St := (de_d x, de_w x).
Definition put (s : St) x : Desk := {| de_d := s.1; de_w := s.2; de_waits := de_waits x; de_writes := de_writes x |}.
Definition set_waits (l : list Wait) x : Desk :=
  {| de_d := de_d x; de_w := de_w x; de_waits := l; de_writes := de_writes x |}.
Definition set_writes (l : list Write) x : Desk :=
  {| de_d := de_d x; de_w := de_w x; de_waits := de_waits x; de_writes := l |}.

(** ** What is left open *)

(** What happens outside of the daemon, the passing of time included; what
    starting and stopping a session do to the machine; the errors that an
    attempt of a task can end with; the states in which a connect that is
    accepted is looked at; beside which waiting device logins an activation is
    looked at; and the credentials on which a daemon starts. *)
Record Env : Type := {
  outside : W → W → Prop;
  opens : W → W → Prop;
  closes : W → W → Prop;
  fails : Task → DaemonError → Prop;
  connects : Sys (W:=W) → Prop;
  activates : list Wait → Prop;
  stored : PersistedCredentials → Prop;
}.
(** Connects are accepted in calm moments; activations leave nobody waiting with
    another tenant, and what a daemon starts on holds a usable address. *)
Definition connects_calmly (v : Env) : Prop := ∀ s, connects v s → calm s.
Definition tenant_kept (v : Env) : Prop :=
  (∀ l, activates v l → l = []) ∧ ∀ creds, stored v creds → usable_address creds.

Variable v : Env.

(** What [persist_credentials] reads under the lock. *)
(* @daemon/src/daemon.rs:153-164 Daemon::persist_credentials *)
Definition snapshot (s : St) : option PersistedCredentials :=
  if bool_decide (am_state (d_auth s.1) = Authenticated)
  then to_credentials_with_vpn (timestamp_text s.2) (d_vpn s.1 ≫= current_persisted_request) (d_auth s.1)
  else None.

(** The token check of a waiting device login. *)
(* @daemon/src/service/auth.rs:409-413 AuthServiceImpl::complete_device_login *)
Definition check_token (client : ApiClient) (token : string) : M St ApiError (BaseResponse LoginResult) :=
  on_jar (send (W:=W) de_login client (ThirdPartyTokenCheckRequest token)).
(* @daemon/src/service/auth.rs:377-395 AuthServiceImpl::complete_device_login *)
Definition wait_for (p : DeviceLoginPending) (client : ApiClient) (s : St) : Wait :=
  {| wt_client := client; wt_token := dl_poll_token p;
     wt_deadline := Session.instant_now s.2 + DEVICE_LOGIN_TIMEOUT; wt_confirmed := false |}.
Definition confirmed (x : Wait) : Wait :=
  {| wt_client := wt_client x; wt_token := wt_token x; wt_deadline := wt_deadline x; wt_confirmed := true |}.

(** One critical section: a call of the auth coordinator under the lock, a
    request of an API client on the shared jar, a random draw, a snapshot, a
    write, a deletion, a change of the configuration, the sections of a device
    login, a client that goes away, and what happens outside. *)
Inductive section : Desk → Desk → Prop :=
  | CallsCoordinator o x : login_op o → section x (put (auth o (st x)).1 x)
  | ActivatesTenant c b k u x : activates v (de_waits x) → section x (put (auth (activate c b k u) (st x)).1 x)
  | RefreshesVersion x : section x (put (auth refresh_login_api_version (st x)).1 x)
  | CompletesOauth c t x : section x (put (auth (am_complete_oauth c t) (st x)).1 x)
  | LogsOut a x : section x (put (auth (am_logout a) (st x)).1 x)
  | Sends T (de : decoder T) client r x : section x (put (on_jar (send (W:=W) de client r) (st x)).1 x)
  | Draws x : section x (put (de_d x, (random_32 (de_w x)).1) x)
  | StoresTotp c x : section x (put (set_auth (set_totp c (d_auth (de_d x))) (de_d x), de_w x) x)
  | TakesSnapshot creds x :
      snapshot (st x) = Some creds →
      section x (set_writes (de_writes x ++ [WriteSession creds (d_credential_path (de_d x))]) x)
  | TakesConfig x :
      section x (set_writes (de_writes x ++ [WriteConfig (d_config (de_d x)) (d_config_path (de_d x))]) x)
  | Writes l1 p l2 x :
      de_writes x = l1 ++ p :: l2 → section x (set_writes (l1 ++ l2) (put (de_d x, perform p (de_w x)) x))
  | Deletes x : section x (put (delete_credentials (st x)).1 x)
  | RebuildsPool o x : section x (put (set_auth (set_pool o (d_auth (de_d x))) (de_d x), de_w x) x)
  | Configures u x : section x (put (set_config_ (apply_update u (d_config (de_d x))) (de_d x), de_w x) x)
  | StartsWait p client x :
      am_device_login_pending (d_auth (de_d x)) = Some p → build_tenant_client (d_auth (de_d x)) = Some client →
      section x (set_waits (de_waits x ++ [wait_for p client (st x)]) x)
  | Confirmed l1 t l2 x s r :
      de_waits x = l1 ++ t :: l2 → check_token (wt_client t) (wt_token t) (st x) = (s, Ok r) →
      section x (put s (set_waits (l1 ++ confirmed t :: l2) x))
  | TimesOut l1 t l2 x :
      de_waits x = l1 ++ t :: l2 → wt_confirmed t = false → wt_deadline t <= Session.instant_now (de_w x) →
      section x (set_waits (l1 ++ l2) x)
  | Finishes l1 t l2 x :
      de_waits x = l1 ++ t :: l2 → wt_confirmed t = true →
      section x (set_waits (l1 ++ l2) (put (auth am_complete_device_login (st x)).1 x))
  | GoesAway l1 t l2 x : de_waits x = l1 ++ t :: l2 → section x (set_waits (l1 ++ l2) x)
  | DropsWrite l1 p l2 x : de_writes x = l1 ++ p :: l2 → section x (set_writes (l1 ++ l2) x)
  | Meanwhile w x : outside v (de_w x) w → section x (put (de_d x, w) x).
Abbreviation sections := (rtc section).

(** ** With the tunnel *)

Record Whole : Type := { wh_desk : Desk; wh_tasks : list Running; wh_waiters : list Waiter }.
Definition sys (z : Whole) : Sys :=
  {| sys_d := de_d (wh_desk z); sys_w := de_w (wh_desk z); sys_tasks := wh_tasks z; sys_waiters := wh_waiters z |}.
Definition put_desk (k : Desk) (z : Whole) : Whole :=
  {| wh_desk := k; wh_tasks := wh_tasks z; wh_waiters := wh_waiters z |}.
Definition put_sys (s : Sys) (z : Whole) : Whole :=
  {| wh_desk := put (sys_d s, sys_w s) (wh_desk z); wh_tasks := sys_tasks s; wh_waiters := sys_waiters s |}.

(** A section of an RPC or of a task's request; a step of the tunnel; the
    session of an attempt that is opened; and the session of a supervised task
    that is closed. *)
Inductive whole_step : Whole → Whole → Prop :=
  | RpcStep k z : section (wh_desk z) k → whole_step z (put_desk k z)
  | TunnelStep s z : tunnel_step (fails v) (connects v) (sys z) s → whole_step z (put_sys s z)
  | SessionOpens l1 t c l2 w z :
      wh_tasks z = l1 ++ {| r_task := t; r_pc := PcAttempt c |} :: l2 → opens v (de_w (wh_desk z)) w →
      whole_step z (put_desk (put (de_d (wh_desk z), w) (wh_desk z)) z)
  | SessionCloses l1 t c l2 w z :
      wh_tasks z = l1 ++ {| r_task := t; r_pc := PcSupervised c |} :: l2 → closes v (de_w (wh_desk z)) w →
      whole_step z (put_desk (put (de_d (wh_desk z), w) (wh_desk z)) z).

(** A daemon that starts, with credentials or without. *)
Definition starting (dev : string) (c : DaemonConfig) (config_path path : string) (creds : option PersistedCredentials)
    (w : W) : Whole :=
  let s := (restore_auth_state (daemon_new dev c config_path path creds w, w)).1 in
  {| wh_desk := {| de_d := s.1; de_w := s.2; de_waits := []; de_writes := [] |}; wh_tasks := []; wh_waiters := [] |}.
Inductive whole_reaches : Whole → Prop :=
  | WholeStarts dev c config_path path creds w :
      (∀ cr, creds = Some cr → stored v cr) → whole_reaches (starting dev c config_path path creds w)
  | WholeSteps z z' : whole_reaches z → whole_step z z' → whole_reaches z'.

(** ** What holds throughout *)

(** [C] is what is needed for the client. *)
Definition writable (p : Write) : Prop := match p with WriteSession creds _ => usable_address creds | _ => True end.
Record desk_ok (C : Prop) (x : Desk) : Prop := {
  ok_auth : auth_ok C any_tenant (d_auth (de_d x));
  ok_waits : C → de_waits x ≠ [] → is_some (build_tenant_client (d_auth (de_d x))) = true;
  ok_writes : C → Forall writable (de_writes x);
}.

(** A call that keeps every invariant of the tenant keeps the tenant. *)
Lemma keeps_tenant C {E A} (m : M St E A) s :
  (∀ T, keeps C T m) → auth_ok C any_tenant (d_auth s.1) → am_tenant (d_auth (m s).1.1) = am_tenant (d_auth s.1).
Proof.
  intros Hm Hs. apply (ok_tenant C (λ o, o = am_tenant (d_auth s.1))), (Hm (λ o, o = am_tenant (d_auth s.1)) s).
  by destruct Hs.
Qed.
Lemma put_ok C {E A} (m : M St E A) x :
  (∀ T, keeps C T m) → desk_ok C x → desk_ok C (put (m (st x)).1 x).
Proof.
  intros Hm [Ha Hw Hp]. split; cbn; [by apply Hm| |done]. intros HC Hne.
  apply (has_client (d_auth (de_d x))); [|by apply Hw]. by apply (keeps_tenant C m (st x)).
Qed.
Lemma set_waits_ok C l x :
  (C → l ≠ [] → is_some (build_tenant_client (d_auth (de_d x))) = true) → desk_ok C x → desk_ok C (set_waits l x).
Proof. by intros Hl []. Qed.
Lemma set_writes_ok C l x : (C → Forall writable l) → desk_ok C x → desk_ok C (set_writes l x).
Proof. by intros Hl []. Qed.
Lemma similar_desk C x d w : similar (d_auth (de_d x)) (d_auth d) → desk_ok C x → desk_ok C (put (d, w) x).
Proof.
  intros Hs [Ha Hw Hp]. split; cbn; [by eapply similar_ok| |done].
  intros HC Hne. apply (has_client (d_auth (de_d x))); [apply Hs|by apply Hw].
Qed.

(** A session that is saved can be restored. *)
Lemma snapshot_usable (C : Prop) s creds :
  C → auth_ok C any_tenant (d_auth s.1) → snapshot s = Some creds → usable_address creds.
Proof.
  intros HC [_ _ Hc _ _]. unfold snapshot. case_bool_decide as Ha; [|done]. rewrite Ha in Hc. specialize (Hc HC eq_refl).
  unfold to_credentials_with_vpn, to_credentials. unfold build_tenant_client in Hc.
  destruct (am_tenant (d_auth s.1)) as [t|]; [|done]. destruct (am_signing _); [|done]. intros [= <-].
  unfold usable_address. cbn in *. by destruct (parse_base_url (tc_base_url t)).
Qed.

Lemma without_writable l1 p l2 x : de_writes x = l1 ++ p :: l2 → Forall writable (de_writes x) → Forall writable (l1 ++ l2).
Proof. intros ->. rewrite !Forall_app, Forall_cons. naive_solver. Qed.

Lemma section_ok (C : Prop) x y :
  (C → ∀ l, activates v l → l = []) → section x y → desk_ok C x → desk_ok C y.
Proof.
  intros Hact. destruct 1 as [o x Ho|c b k u x Hn|x|c t x|a x|T de c r x|x|c x|creds x Hs|x|l1 p l2 x Hw|x|o x|u x|p c x Hp Hc|
                 l1 t l2 x s r Hw Hr|l1 t l2 x Hw _ _|l1 t l2 x Hw _|l1 t l2 x Hw|l1 p l2 x Hw|w x _]; intros Hk.
  - apply put_ok; [|done]. intros T. by apply keeps_on_auth, preserves_login_op.
  - destruct Hk as [Ha _ Hp]. split; cbn; [|by intros HC; rewrite (Hact HC _ Hn)|done].
    by apply (keeps_on_auth C any_tenant _ (preserves_activate C any_tenant c b k u (λ _, I)) (st x)).
  - apply put_ok; [|done]. intros T. apply keeps_on_auth, preserves_refresh.
  - apply put_ok; [|done]. intros T. apply keeps_on_auth, preserves_complete_oauth.
  - apply put_ok; [|done]. intros T. apply keeps_on_auth, preserves_logout.
  - apply put_ok; [|done]. intros T'. apply keeps_on_jar.
  - by apply similar_desk.
  - by apply similar_desk.
  - apply set_writes_ok; [|done]. intros HC. rewrite Forall_app, Forall_singleton. split; [by apply Hk|].
    by apply (snapshot_usable C (st x)), Hs; [|apply Hk].
  - apply set_writes_ok; [|done]. intros HC. rewrite Forall_app, Forall_singleton. split; [by apply Hk|done].
  - apply set_writes_ok; [intros HC; eapply without_writable; [done|by apply Hk]|by apply similar_desk].
  - by apply similar_desk.
  - by apply similar_desk.
  - by apply similar_desk.
  - apply set_waits_ok; [|done]. by rewrite Hc.
  - pose proof (put_ok C (check_token (wt_client t) (wt_token t)) _ (λ T, keeps_on_jar C T _) Hk) as Hk1.
    rewrite Hr in Hk1. apply (set_waits_ok C (l1 ++ confirmed t :: l2)) in Hk1; [exact Hk1|].
    intros HC _. apply (ok_waits _ _ Hk1 HC). cbn. rewrite Hw. by destruct l1.
  - apply set_waits_ok; [|done]. intros HC _. apply (ok_waits _ _ Hk HC). rewrite Hw. by destruct l1.
  - assert (Hc : C → is_some (build_tenant_client (d_auth (de_d x))) = true)
      by (intros HC; apply (ok_waits _ _ Hk HC); rewrite Hw; by destruct l1).
    destruct Hk as [[] _ Hp]. split; cbn; [|intros HC _; exact (Hc HC)|done]. split; try done. intros HC _. exact (Hc HC).
  - apply set_waits_ok; [|done]. intros HC _. apply (ok_waits _ _ Hk HC). rewrite Hw. by destruct l1.
  - apply set_writes_ok; [|done]. intros HC. eapply without_writable; [done|by apply Hk].
  - by apply similar_desk.
Qed.

Lemma section_machine x y : section x y → same_machine (de_d x) (de_d y).
Proof.
  assert (Ha : ∀ {E A} (m : M (AuthMachine * W) E A) x, same_machine (de_d x) (on_auth m (st x)).1.1).
  { intros E A m z. unfold on_auth, st. by destruct (m _) as [[a w1] r]. }
  destruct 1 as [| | | | | | | | | | | | | | |l1 t l2 x s r Hw Hr| | | | |]; try apply Ha; try done.
  - pose proof (Ha _ _ (through (send (W:=W) de_login (wt_client t) (ThirdPartyTokenCheckRequest (wt_token t)))) x) as Hm.
    unfold check_token, on_jar in Hr. by rewrite Hr in Hm.
Qed.

(** The steps of the tunnel touch the coordinator's HTTP pool at most, and no
    file. *)
Lemma transition_auth f d : d_auth (vpn_transition f d) = d_auth d.
Proof. unfold vpn_transition. by destruct (d_vpn d). Qed.
Lemma connect_login request (s s' : Sys (W:=W)) :
  accepts request s s' ∨ refuses request s s' → d_auth (sys_d s') = d_auth (sys_d s) ∧ sys_w s' = sys_w s.
Proof.
  pose proof (connect_tunnel_keeps request (sys_d s) (sys_w s)) as Hk. cbn zeta in Hk.
  intros [(t & task & Hc & _)|(e & Hc & _)]; rewrite Hc in Hk; split; apply Hk.
Qed.
Lemma same_pool m : set_pool (am_http_pool m) m = m.
Proof. by destruct m. Qed.
Lemma tunnel_login (s s' : Sys (W:=W)) :
  tunnel_step (fails v) (connects v) s s' → (∃ p, d_auth (sys_d s') = set_pool p (d_auth (sys_d s))) ∧ sys_w s' = sys_w s.
Proof.
  assert (Heq : ∀ m m' : AuthMachine, m' = m → ∃ p, m' = set_pool p m)
    by (intros m m' ->; exists (am_http_pool m); by rewrite same_pool).
  destruct 1 as [l1 l2 t pc o d d' w ws Ht|request s s' _ Ha|request s s' Hr|d w ts ws|d w ts l1 a l2 _|
                 d w ts ws request d' Ho|l1 a request l2 s s' _ _ _ Ha|l1 a request l2 s s' _ _ Hf]; cbn.
  - split; [|done]. destruct Ht; apply Heq; unfold mark_failed, mark_disconnected; by rewrite ?transition_auth.
  - destruct (connect_login request s s') as [Hd Hw]; [by left|]. split; [by apply Heq|done].
  - destruct (connect_login request s s') as [Hd Hw]; [by right|]. split; [by apply Heq|done].
  - split; [|done]. apply Heq. unfold disconnect_begin. by destruct (d_vpn d).
  - split; [|done]. apply Heq, transition_auth.
  - split; [|done]. unfold outbound_begin in Ho. case_bool_decide; [done|].
    set (d1 := if pool_builds _ _ then _ else _) in Ho.
    assert (Hd1 : ∃ p, d_auth d1 = set_pool p (d_auth d)) by (unfold d1; destruct (pool_builds _ _); [by eexists|by apply Heq]).
    destruct (d_vpn d1) as [vpn|]; [|done]. cbn in Ho. destruct (current_request _); [|done]. by injection Ho as _ <-.
  - destruct (connect_login request (without l1 l2 s) s') as [Hd Hw]; [by left|]. split; [by apply Heq|done].
  - destruct (connect_login request (without l1 l2 s) s') as [Hd Hw]; [by right|]. split; [by apply Heq|done].
Qed.

Lemma whole_desk (C : Prop) z : (C → tenant_kept v) → whole_reaches z → desk_ok C (wh_desk z).
Proof.
  intros HT. induction 1 as [dev c config_path path creds w Hu|z z' _ IH Hstep];
    [|destruct Hstep as [k z Hs|s z Hs|l1 t c l2 w z _ _|l1 t c l2 w z _ _]].
  - split; cbn; [|done|constructor]. destruct creds as [cr|]; [|by split].
    apply (starts_ok C dev c config_path path cr w). intros HC. apply HT; [done|by apply Hu].
  - eapply section_ok; [|exact Hs|exact IH]. intros HC. by apply HT.
  - destruct (tunnel_login _ _ Hs) as [[p Hp] _]. apply similar_desk; [by rewrite Hp|done].
  - by apply similar_desk.
  - by apply similar_desk.
Qed.
Lemma whole_sys z : whole_reaches z → sys_reaches (fails v) (connects v) (sys z).
Proof.
  induction 1 as [dev c config_path path creds w Hu|z z' _ IH Hstep];
    [|eapply SysSteps; [exact IH|]; destruct Hstep as [k z Hs|s z Hs|l1 t c l2 w z _ _|l1 t c l2 w z _ _]].
  - apply SysStarts; by destruct creds.
  - apply section_machine in Hs. by apply (StepOther (fails v) (connects v)).
  - destruct s. by apply StepTunnel.
  - by apply (StepOther (fails v) (connects v)).
  - by apply (StepOther (fails v) (connects v)).
Qed.
(** With connects in calm moments. *)
Lemma whole_one_tunnel z : connects_calmly v → whole_reaches z → invariant (sys z).
Proof. intros Hc Hz. apply (reaches_invariant (fails v)). eapply sys_reaches_mono; [exact Hc|by apply whole_sys]. Qed.

(** ** The handlers are runs of sections *)

Lemma put_st x : put (st x) x = x.
Proof. by destruct x. Qed.
Lemma st_put s x : st (put s x) = s.
Proof. by destruct s. Qed.

(** From every desk whose waits satisfy [P]; the waits and the writes under way
    are in the end what they were. *)
Definition serves {E A} (P : list Wait → Prop) (m : M St E A) : Prop :=
  ∀ x, P (de_waits x) → sections x (put (m (st x)).1 x).
Definition anyhow : list Wait → Prop := λ _, True.

Section serves.
Variable P : list Wait → Prop.
Lemma serves_same {E A} (m : M St E A) : (∀ s, (m s).1 = s) → serves P m.
Proof. intros Hm x _. by rewrite Hm, put_st. Qed.
Lemma serves_ret {E A} (a : A) : serves P (m_ret (E:=E) a).
Proof. by apply serves_same. Qed.
Lemma serves_fail {E A} (e : E) : serves P (m_fail (A:=A) e).
Proof. by apply serves_same. Qed.
Lemma serves_lift {E A} (r : result E A) : serves P (m_lift r).
Proof. by apply serves_same. Qed.
Lemma serves_inner : serves P inner.
Proof. apply serves_same. by intros [d w]. Qed.
Lemma serves_section {E A} (m : M St E A) : (∀ x, P (de_waits x) → section x (put (m (st x)).1 x)) → serves P m.
Proof. intros Hm x Hx. by apply rtc_once, Hm. Qed.
Lemma serves_bind {E A B} (m : M St E A) (k : A → M St E B) :
  serves P m → (∀ a, serves P (k a)) → serves P (m_bind m k).
Proof.
  intros Hm Hk x Hx. unfold m_bind. specialize (Hm x Hx). destruct (m (st x)) as [s1 [a|e]]; [|exact Hm].
  etrans; [exact Hm|]. specialize (Hk a (put s1 x) Hx). rewrite st_put in Hk. exact Hk.
Qed.
Lemma serves_map_err {E F A} (f : E → F) (m : M St E A) : serves P m → serves P (m_map_err f m).
Proof. intros Hm x Hx. unfold m_map_err. specialize (Hm x Hx). by destruct (m (st x)). Qed.
Lemma serves_try {E F A} (m : M St E A) : serves P m → serves P (m_try (F:=F) m).
Proof. intros Hm x Hx. unfold m_try. specialize (Hm x Hx). by destruct (m (st x)). Qed.

(** A call of an API client is a run of requests and random draws. *)
Definition calls {E A} (m : M (CookieStore * W) E A) : Prop := serves P (on_jar m).
Lemma on_jar_same {E A} (m : M (CookieStore * W) E A) s : (∀ j, (m j).1 = j) → (on_jar m s).1 = s.
Proof.
  intros Hm. destruct s as [d w]. unfold on_jar, on_auth, through. specialize (Hm (am_cookies (d_auth d), w)).
  destruct (m _) as [[jar w1] r]. injection Hm as -> ->. cbn. destruct d as [a]. by destruct a.
Qed.
Lemma on_jar_bind {E A B} (m : M (CookieStore * W) E A) (k : A → M (CookieStore * W) E B) s :
  on_jar (m_bind m k) s = m_bind (on_jar m) (λ a, on_jar (k a)) s.
Proof.
  destruct s as [d w]. unfold on_jar, on_auth, through, m_bind.
  destruct (m _) as [[jar w1] [a|e]]; [|done]. cbn. destruct (k a _) as [[jar2 w2] r]. cbn. done.
Qed.
Lemma calls_same {E A} (m : M (CookieStore * W) E A) : (∀ j, (m j).1 = j) → calls m.
Proof. intros Hm. apply serves_same. intros s. by apply on_jar_same. Qed.
Lemma calls_bind {E A B} (m : M (CookieStore * W) E A) (k : A → M (CookieStore * W) E B) :
  calls m → (∀ a, calls (k a)) → calls (m_bind m k).
Proof. intros Hm Hk x Hx. rewrite on_jar_bind. by apply serves_bind. Qed.
Lemma calls_answer {E F A B} (f : result E A → result F B) (m : M (CookieStore * W) E A) :
  calls m → calls (λ j, let '(j1, r) := m j in (j1, f r)).
Proof.
  intros Hm x Hx. specialize (Hm x Hx). destruct x as [d w l1 l2]. unfold on_jar, on_auth, through, st in *. cbn in *.
  by destruct (m _) as [[jar w1] r].
Qed.
Lemma calls_map_err {E F A} (f : E → F) (m : M (CookieStore * W) E A) : calls m → calls (m_map_err f m).
Proof. apply (calls_answer (map_err f)). Qed.
Lemma calls_try {E F A} (m : M (CookieStore * W) E A) : calls m → calls (m_try (F:=F) m).
Proof. apply (calls_answer Ok). Qed.
Lemma calls_send {T} (de : decoder T) client r : calls (send (W:=W) de client r).
Proof. apply serves_section. intros x _. apply Sends. Qed.
Lemma calls_pkce : calls (Login.on_world pkce_pair).
Proof.
  intros x _. apply rtc_once. pose proof (Draws x) as Hd. destruct x as [d w l1 l2].
  unfold on_jar, on_auth, through, Login.on_world, pkce_pair, random_token, st in *. cbn in *.
  destruct (random_32 w) as [w1 b]. destruct d as [a]. by destruct a.
Qed.
Lemma calls_login_links client : calls (third_party_login_links (W:=W) client).
Proof.
  apply calls_bind; [apply calls_pkce|intros pair_]. apply calls_bind; [apply calls_map_err, calls_send|intros response].
  by apply calls_same.
Qed.
Lemma calls_totp client : calls (fetch_totp (W:=W) client).
Proof.
  apply calls_bind; [apply calls_map_err, calls_send|intros response]. apply calls_same. by intros [jar w].
Qed.
(** Probes: a run, whatever is made of the answers. *)
Definition probes {A} (m : CookieStore * W → (CookieStore * W) * A) : Prop :=
  calls (λ j, let '(j1, a) := m j in (j1, Ok (E:=DaemonError) a)).
Lemma probes_bind {A B} (m : CookieStore * W → (CookieStore * W) * A) (k : A → CookieStore * W → (CookieStore * W) * B) :
  probes m → (∀ a, probes (k a)) → probes (λ j, let '(j1, a) := m j in k a j1).
Proof.
  intros Hm Hk x Hx.
  pose proof (calls_bind _ (λ a j, let '(j1, b) := k a j in (j1, Ok (E:=DaemonError) b)) Hm Hk x Hx) as Hs.
  unfold on_jar, on_auth, through, m_bind in Hs |- *. destruct (st x) as [d w]. destruct (m _) as [j1 a]. exact Hs.
Qed.
Lemma probes_ret {A} (a : A) : probes (λ j, (j, a)).
Proof. by apply calls_same. Qed.
Lemma probes_latency client t : probes (probe_latency (W:=W) client t).
Proof.
  assert (Hv : calls (vpn_ping (W:=W) client))
    by (apply calls_bind; [apply calls_map_err, calls_send|intros a; by apply calls_same]).
  intros x Hx. specialize (Hv x Hx). unfold probe_latency. unfold on_jar, on_auth, through in Hv |- *.
  destruct (st x) as [d w]. cbn [snd]. by destruct (vpn_ping client (am_cookies (d_auth d), w)) as [[jar w1] [[]|e]].
Qed.
Lemma probes_dots build dots : probes (probe_dots (W:=W) build dots).
Proof.
  induction dots as [|dot dots IH]; cbn [probe_dots]; [apply probes_ret|].
  apply (probes_bind (probe_dot build dot) (λ l j, let '(s2, rest) := probe_dots build dots j in (s2, l :: rest))).
  - unfold probe_dot.
    apply (probes_bind (λ s, match build dot with Some client => probe_latency client DEFAULT_PROBE_TIMEOUT s | None => (s, None) end)
      (λ rtt s, (s, {| dl_dot_id := default 0 (Models.dot_id dot); dl_dot_name := default "" (Models.dot_name dot);
                       latency_ms := duration_ms rtt 0; reachable := is_some rtt |}))); [|intros rtt; apply probes_ret].
    destruct (build dot); [apply probes_latency|apply probes_ret].
  - intros l. apply (probes_bind (probe_dots build dots) (λ rest s, (s, l :: rest))); [exact IH|intros rest; apply probes_ret].
Qed.
Lemma serves_login_op o : login_op o → serves P (auth o).
Proof. intros Ho. apply serves_section. intros x _. by apply CallsCoordinator. Qed.
Lemma serves_refresh : serves P (auth refresh_login_api_version).
Proof. apply serves_section. intros x _. apply RefreshesVersion. Qed.
Lemma serves_complete_oauth c t : serves P (auth (am_complete_oauth c t)).
Proof. apply serves_section. intros x _. apply CompletesOauth. Qed.
Lemma serves_am_logout a : serves P (auth (am_logout a)).
Proof. apply serves_section. intros x _. apply LogsOut. Qed.
Lemma serves_totp c : serves P (upd (λ d, set_auth (set_totp c (d_auth d)) d)).
Proof. apply serves_section. intros x _. apply StoresTotp. Qed.
Lemma serves_delete : serves P delete_credentials.
Proof. apply serves_section. intros x _. apply Deletes. Qed.

(** A save: a snapshot and its write. *)
Lemma persist_snapshot s :
  persist_credentials s =
    ((s.1, match snapshot s with Some creds => (save_credentials creds (d_credential_path s.1) s.2).1 | None => s.2 end),
     Ok tt).
Proof.
  destruct s as [d w]. unfold persist_credentials, snapshot. cbn. case_bool_decide; cbn; [|done].
  by destruct (to_credentials_with_vpn _ _ _).
Qed.
Lemma at_once p x : sections (set_writes (de_writes x ++ [p]) x) (put (de_d x, perform p (de_w x)) x).
Proof.
  apply rtc_once. pose proof (Writes (de_writes x) p [] (set_writes (de_writes x ++ [p]) x) eq_refl) as Hs.
  rewrite app_nil_r in Hs. by destruct x.
Qed.
Lemma serves_persist : serves P persist_credentials.
Proof.
  intros x _. rewrite persist_snapshot. destruct (snapshot (st x)) as [creds|] eqn:Hs; [|by rewrite <- (put_st x) at 1].
  eapply rtc_l; [by apply TakesSnapshot|]. apply (at_once (WriteSession creds (d_credential_path (de_d x)))).
Qed.
Lemma serves_persist_config : serves P persist_config.
Proof.
  intros x _. eapply rtc_l; [apply TakesConfig|]. apply (at_once (WriteConfig (d_config (de_d x)) (d_config_path (de_d x)))).
Qed.
Lemma serves_configures u : serves P (upd (λ d, set_config_ (apply_update u (d_config d)) d)).
Proof. apply serves_section. intros x _. apply Configures. Qed.
End serves.

Lemma serves_send P {T} (de : decoder T) client r : serves P (on_jar (send (W:=W) de client r)).
Proof. apply calls_send. Qed.
Lemma serves_fetch_totp P client : serves P (on_jar (fetch_totp (W:=W) client)).
Proof. apply calls_totp. Qed.
Lemma serves_login_links P client : serves P (on_jar (third_party_login_links (W:=W) client)).
Proof. apply calls_login_links. Qed.
Lemma serves_probe_dots P build dots :
  serves P (on_jar (λ s, let '(s1, l) := probe_dots build dots s in (s1, Ok (E:=DaemonError) l))).
Proof. apply probes_dots. Qed.
#[local] Hint Resolve serves_ret serves_fail serves_lift serves_inner serves_map_err serves_try
  serves_send serves_fetch_totp serves_login_links serves_probe_dots serves_login_op serves_refresh serves_complete_oauth serves_am_logout serves_totp serves_delete
  serves_persist serves_persist_config serves_configures : serves.
#[local] Hint Constructors login_op : serves.
#[local] Hint Extern 1 (serves _ (m_bind _ _)) => apply serves_bind; [|intros ?] : serves.
#[local] Hint Extern 2 (serves _ (match ?o with _ => _ end)) => destruct o : serves.
#[local] Hint Extern 3 (serves _ _) => apply serves_same; by intros [??] : serves.

Lemma serves_logged_in P : serves P logged_in.
Proof.
  unfold logged_in, post_login, authenticated, maybe_fetch_totp, maybe_report_security, maybe_persist_and_broadcast,
    authenticated, current_session. auto 12 with serves.
Qed.
Lemma serves_configured P : serves P require_configured.
Proof. unfold require_configured. auto with serves. Qed.
#[local] Hint Resolve serves_logged_in serves_configured : serves.

(** The requests but the one that waits; an activation when nothing waits. *)
Lemma serves_request pause fuel r P :
  r ≠ CompleteDeviceLogin → (same_tenant r = true ∨ ∀ l, P l → activates v l) → serves P (serve_auth pause fuel r).
Proof.
  intros Hr Ha.
  assert (Hact : same_tenant r = false → ∀ c b k u, serves P (auth (activate c b k u))).
  { intros Ht c b k u. apply serves_section. intros x Hx. apply ActivatesTenant. destruct Ha as [Ha|Ha]; [by rewrite Ha in Ht|by apply Ha]. }
  destruct r; try done; cbn [serve_auth]; unfold reply, get_session, rpc_activate, rpc_login, rpc_request_login_code,
    rpc_verify_login_code, rpc_request_mfa_code, rpc_verify_mfa, rpc_skip_pending_challenge,
    rpc_list_third_party_providers, rpc_start_third_party_login, rpc_complete_third_party_login,
    rpc_start_device_login, rpc_logout, maybe_persist_and_broadcast, authenticated, current_session, client_or;
    auto 12 with serves.
Qed.

Section device.
Variable pause : duration → St → St.
(** While a device login waits, whatever else runs is a run of sections. *)
Hypothesis pause_serves : ∀ t, serves (λ l, l ≠ []) (λ s, (pause t s, Ok (E:=DaemonError) tt)).

Lemma poll_sections t l1 l2 fuel x :
  de_waits x = l1 ++ t :: l2 → wt_confirmed t = false →
  let '(s, r) := poll_token pause (wt_client t) (wt_token t) (wt_deadline t) fuel (st x) in
  sections x (set_waits (l1 ++ match r with Ok (Some _) => [confirmed t] | Ok None => [t] | Err _ => [] end ++ l2) (put s x)).
Proof.
  intros Hw Ht. revert x Hw. induction fuel as [|fuel IH]; intros x Hw; cbn [poll_token].
  { cbn. rewrite put_st, <- Hw. by destruct x. }
  destruct (Z.leb_spec (wt_deadline t) (Session.instant_now (st x).2)) as [Hd|Hd].
  { rewrite put_st. apply rtc_once. by apply (TimesOut l1 t l2). }
  change (on_jar (send (W:=W) de_login (wt_client t) (ThirdPartyTokenCheckRequest (wt_token t))) (st x))
    with (check_token (wt_client t) (wt_token t) (st x)).
  destruct (check_token (wt_client t) (wt_token t) (st x)) as [s1 [r|e]] eqn:Hc.
  { apply rtc_once. by apply (Confirmed l1 t l2 x s1 r). }
  assert (Hx1 : sections x (put s1 x)).
  { pose proof (serves_send anyhow de_login (wt_client t) (ThirdPartyTokenCheckRequest (wt_token t)) x I) as Hs.
    unfold check_token in Hc. by rewrite Hc in Hs. }
  assert (Hx2 : sections (put s1 x) (put (pause POLL_INTERVAL s1) x)).
  { pose proof (pause_serves POLL_INTERVAL (put s1 x)) as Hs. rewrite st_put in Hs. apply Hs. cbn. rewrite Hw. by destruct l1. }
  specialize (IH (put (pause POLL_INTERVAL s1) x) Hw). rewrite st_put in IH.
  destruct (poll_token pause _ _ _ fuel _) as [s2 r]. etrans; [exact Hx1|]. etrans; [exact Hx2|exact IH].
Qed.

(** The last sections of a confirmed device login. *)
Lemma finished_sections l1 t l2 x :
  de_waits x = l1 ++ t :: l2 → wt_confirmed t = true →
  sections x (set_waits (l1 ++ l2) (put (finished (st x)).1 x)).
Proof.
  intros Hw Ht. eapply rtc_l; [by apply (Finishes l1 t l2)|]. set (y := set_waits _ _).
  change (finished (st x)) with
    (m_bind logged_in (λ session, m_ret (E:=DaemonError) (Some session)) (auth am_complete_device_login (st x)).1).
  assert (Hs : serves anyhow (m_bind logged_in (λ session, m_ret (E:=DaemonError) (Some session)))) by auto with serves.
  specialize (Hs y I). unfold y in Hs at 2. change (st (set_waits ?l ?z)) with (st z) in Hs. by rewrite st_put in Hs.
Qed.

Lemma device_login_sections fuel x :
  ∃ l, sections x (set_waits l (put (rpc_complete_device_login pause fuel (st x)).1 x)) ∧
    ((rpc_complete_device_login pause fuel (st x)).2 ≠ Ok None → l = de_waits x).
Proof.
  rewrite device_login_cases.
  assert (Hrefl : sections x (set_waits (de_waits x) (put (st x) x))) by (rewrite put_st; by destruct x).
  case_bool_decide; [by exists (de_waits x)|].
  destruct (am_device_login_pending _) as [p|] eqn:Hp; [|by exists (de_waits x)].
  destruct (build_tenant_client _) as [client|] eqn:Hc; [|by exists (de_waits x)].
  set (t := wait_for p client (st x)). set (x1 := set_waits (de_waits x ++ [t]) x).
  assert (Hstart : sections x x1) by (apply rtc_once; by apply (StartsWait p client)).
  pose proof (poll_sections t (de_waits x) [] fuel x1 eq_refl eq_refl) as Hpoll.
  change (poll_token pause (wt_client t) (wt_token t) (wt_deadline t) fuel (st x1)) with
    (poll_token pause client (dl_poll_token p) (Session.instant_now (st x).2 + DEVICE_LOGIN_TIMEOUT) fuel (st x)) in Hpoll.
  destruct (poll_token _ _ _ _ _ _) as [s [[[]|]|e]].
  - exists (de_waits x). split; [|done]. etrans; [exact Hstart|]. etrans; [exact Hpoll|]. rewrite app_nil_r.
    pose proof (finished_sections (de_waits x) (confirmed t) [] (set_waits (de_waits x ++ [confirmed t]) (put s x1)) eq_refl eq_refl) as Hf.
    change (st (set_waits ?l ?z)) with (st z) in Hf. rewrite st_put, app_nil_r in Hf. exact Hf.
  - exists (de_waits x ++ [t]). split; [|done]. etrans; [exact Hstart|exact Hpoll].
  - exists (de_waits x). split; [|done]. etrans; [exact Hstart|]. rewrite app_nil_r in Hpoll. exact Hpoll.
Qed.

(** The handlers are what the sections say: every authentication request, a
    device login with all its polls included, is a run of critical sections
    from the desk it finds to the one its handler leaves, with nothing of its
    own under way any more once it has answered; an activation when it is
    looked at beside the device logins that wait, and a device login whatever
    other runs happen while it sleeps.  So are the queries of the tenant's
    server and the update of the configuration up to the reconnect. *)
Theorem handlers_are_sections fuel r x :
  same_tenant r = true ∨ activates v (de_waits x) →
  (∃ l, sections x (set_waits l (put (serve_auth pause fuel r (st x)).1 x)) ∧
     ((serve_auth pause fuel r (st x)).2 ≠ Ok StillPolling → l = de_waits x)) ∧
  sections x (put (list_vpn_locations (st x)).1 x) ∧
  (∀ arrival, sections x (put (probe_dot_latency arrival (st x)).1 x)) ∧
  sections x (put (get_user_info (st x)).1 x) ∧
  ∀ u, sections x (put ((do! upd (λ d, set_config_ (apply_update u (d_config d)) d) in persist_config) (st x)).1 x).
Proof.
  intros Hr. split.
  - assert (r = CompleteDeviceLogin ∨ r ≠ CompleteDeviceLogin) as [->|Hd] by (destruct r; auto).
    + destruct (device_login_sections fuel x) as (l & Hs & Hl). cbn [serve_auth]. unfold reply, m_bind.
      exists l. destruct (rpc_complete_device_login pause fuel (st x)) as [s1 [[session|]|e]]; (split; [exact Hs|]); cbn; auto.
    + exists (de_waits x). split; [|done].
      assert (Hs : serves (λ l, l = de_waits x) (serve_auth pause fuel r)).
      { apply serves_request; [done|]. destruct Hr as [Hr|Hr]; [by left|right]. by intros l ->. }
      exact (Hs x eq_refl).
  - assert (Hq : ∀ A (m : op A), serves anyhow m → sections x (put (m (st x)).1 x)) by (intros A m Hm; by apply Hm).
    split; [|split; [intros arrival|split; [|intros u]]]; apply Hq;
      unfold list_vpn_locations, probe_dot_latency, collect_latencies, get_user_info, session_client, query,
        require_authenticated, fetch_vpn_domain; auto 12 with serves.
Qed.
End device.

(** ** One daemon *)

(** A run of sections is a run of the whole daemon. *)
Lemma sections_steps k z : sections (wh_desk z) k → rtc whole_step z (put_desk k z).
Proof.
  intros Hs. assert (z = put_desk (wh_desk z) z) as Hz by (by destruct z). rewrite Hz at 1.
  apply (rtc_congruence (λ k, put_desk k z) (R:=section)); [|exact Hs].
  intros k0 k1 Hk. by apply (RpcStep k1 (put_desk k0 z)).
Qed.
Lemma steps_reach z z' : whole_reaches z → rtc whole_step z z' → whole_reaches z'.
Proof. intros Hz Hs. revert Hz. induction Hs as [|z z1 z' Hstep _ IH]; intros Hz; [done|]. by eapply IH, WholeSteps. Qed.

(** C8: The whole daemon.  However the sections of the RPCs, the device logins
    that wait, the writes that are under way, the connect tasks and the tunnel
    RPCs interleave: no two tasks share a token; the task that the daemon holds
    is the one its machine would cancel, and nobody has cancelled it; whoever
    waits for a task waits for one that is cancelled; a tenant and its signing
    data come together, a machine that was never activated has none, and an
    awaited device login is known.  If connects are accepted in calm moments
    only (nothing waits for a task, and no task that goes on shows a failure),
    then at most one tunnel's task runs, in charge of the machine when nothing
    waits for it and cancelled when something does, and none when the last
    waiting disconnect answers.  If activations are served only when no device
    login waits, and daemons start on usable addresses only, then whoever is past
    the activation and whoever waits for a device login has a client, and every
    session about to be written to disk has the address that a restart needs.
    [connects_calmly] is not the program's doing: [System.failed_attempt_race]
    shows what happens without. *)
Theorem whole_daemon_safe z :
  whole_reaches z →
  let d := sys_d (sys z) in
  (NoDup (map token (wh_tasks z)) ∧
   (∀ task, d_tunnel_task d = Some task → task_cancel task ∉ d_cancelled d ∧
      ∃ vpn, d_vpn d = Some vpn ∧ cancel_token vpn = task_cancel task) ∧
   (∀ op k, op ∈ wh_waiters z → awaits op = Some k → k ∈ d_cancelled d) ∧
   is_some (am_tenant (d_auth d)) = is_some (am_signing (d_auth d)) ∧
   (am_state (d_auth d) = Unconfigured → am_tenant (d_auth d) = None) ∧
   (am_state (d_auth d) = AwaitingDeviceLogin → is_some (am_device_login_pending (d_auth d)) = true)) ∧
  (connects_calmly v →
   (length (wh_tasks z) <= 1)%nat ∧
   (∀ r, r ∈ wh_tasks z →
      (wh_waiters z = [] → in_charge d r) ∧ (wh_waiters z ≠ [] → leaving d (wh_waiters z) r)) ∧
   (∀ a, wh_waiters z = [WaitDisconnect a] → ready (WaitDisconnect a) (sys z) → wh_tasks z = [])) ∧
  (tenant_kept v →
   (in_session (am_state (d_auth d)) = true ∨ de_waits (wh_desk z) ≠ [] → is_some (build_tenant_client (d_auth d)) = true) ∧
   ∀ creds path, WriteSession creds path ∈ de_writes (wh_desk z) → usable_address creds).
Proof.
  intros Hz. cbn zeta. split; [|split].
  - pose proof (reaches_sane _ _ _ (whole_sys z Hz)) as [_ Hnd _ Hh Hw].
    pose proof (whole_desk False z ltac:(done) Hz) as [[Hg Hu _ Hd _] _ _]. auto 10.
  - intros Hc. exact (invariant_one_tunnel (sys z) (whole_one_tunnel z Hc Hz)).
  - intros HT. pose proof (whole_desk True z (λ _, HT) Hz) as [[_ _ Hc _ _] Hw Hp]. split.
    + intros [Hs|Hs]; [by apply Hc|by apply Hw].
    + intros creds path Hin. specialize (Hp I). rewrite Forall_forall in Hp. by apply (Hp _ Hin).
Qed.

End whole.

(** ** A late write *)

Section late.
Context `{Urls} `{!Session.UrlHost} `{IpNet} `{!Session.IpNetAddr} `{Crypto, Session.KeyCodec, Serde, ErrorText} `{!MatchUrl}.
Context {W : Type} `{!Http W} `{Random W} `{StoreLaws W} `{Host W} `{!Session.TunDriver W} `{!Machine W}.
Variable pause : duration → DaemonInner * W → DaemonInner * W.
Variable v : Env (W:=W).

(** C31: A save that is late undoes a logout: from every authenticated daemon
    with a cookie, a save takes its snapshot and releases the lock, a logout is
    served and answered, the daemon is configured and without a cookie, and the
    write of the save is still under way; once it is done and worked, the next
    start of the daemon is authenticated again, with the tenant and the cookies
    of before the logout. *)
Theorem late_write_undoes_logout logout_all (x : Desk) creds :
  snapshot (st x) = Some creds → values (am_cookies (d_auth (de_d x))) ≠ ∅ →
  let path := d_credential_path (de_d x) in
  let x1 := set_writes (de_writes x ++ [WriteSession creds path]) x in
  ∃ x2 session,
    section v x x1 ∧ rtc (section v) x1 x2 ∧
    serve_auth pause 0 (Logout logout_all) (st x1) = (st x2, Ok (ReplySession session)) ∧
    se_state session = SessConfigured ∧ values (am_cookies (d_auth (de_d x2))) = ∅ ∧
    let x3 := set_writes (de_writes x) (put (de_d x2, perform (WriteSession creds path) (de_w x2)) x2) in
    section v x2 x3 ∧
    (store_ok path (de_w x2) → (save_credentials creds path (de_w x2)).2 = Ok tt →
     ∀ config_path w d token, random_elsewhere → store_ok config_path (de_w x3) →
       store_apart config_path path (de_w x3) → prepare_daemon config_path path (de_w x3) = (w, Ok (d, token)) →
       am_state (d_auth d) = Authenticated ∧ am_tenant (d_auth d) = am_tenant (d_auth (de_d x)) ∧
       values (am_cookies (d_auth d)) = values (am_cookies (d_auth (de_d x)))).
Proof.
  intros Hs Hck. cbn zeta. pose proof Hs as Hsnap. unfold snapshot in Hs. case_bool_decide as Ha; [|done].
  set (x1 := set_writes _ x).
  destruct (serve_logout pause 0 logout_all (st x1)) as (w1 & m & Hserve & Hm & _ & Hc & _); [cbn in *; by rewrite Ha|].
  pose proof (serves_request v pause 0 (Logout logout_all) anyhow ltac:(done) ltac:(by left) x1 I) as Hrun.
  rewrite Hserve in Hrun. cbn [fst] in Hrun. set (x2 := put _ x1) in Hrun.
  exists x2, (to_session_proto m). split; [by apply TakesSnapshot|]. split; [exact Hrun|].
  split; [exact Hserve|]. split; [cbn; by rewrite Hm|]. split; [exact Hc|]. split.
  { pose proof (Writes v (de_writes x) (WriteSession creds (d_credential_path (de_d x))) [] x2 eq_refl) as Hw.
    by rewrite app_nil_r in Hw. }
  intros Hok Hsave config_path w d token Hrand Hcok Hap Hprep.
  destruct (start_after_save creds _ _ _ _ _ config_path w d token Hs Hck Hok Hsave Hrand Hcok Hap Hprep)
    as (Hst & Ht & _ & Hv & _). done.
Qed.

End late.

(** ** Witnesses *)

Module Sample.
Import Echo AuthSample Office OfficeMachine.
#[global] Instance serde : Serde := Office.serde.
#[global] Instance crypto : Crypto := Office.crypto.
#[global] Instance net : IpNet := Office.net.
(** Time passes, and the files are the daemon's. *)
Definition time_passes (w w' : World) : Prop := files w' = files w.
(** Attempts do not fail; connects in calm moments, activations that nobody
    waits beside, and usable addresses. *)
Definition env : Env (W:=World) := {|
  outside := time_passes; opens := time_passes; closes := time_passes; fails _ _ := False;
  connects := calm; activates l := l = []; stored := usable_address |}.
Lemma calmly : connects_calmly env.
Proof. intros s Hs. exact Hs. Qed.
Lemma kept : tenant_kept env.
Proof. split; [intros l Hl; exact Hl|intros creds Hu; exact Hu]. Qed.
Definition desk (a : AuthMachine) : Desk (W:=World) :=
  {| de_d := Office.daemon a; de_w := world; de_waits := []; de_writes := [] |}.
Definition start : Whole (W:=World) := starting "id" config_default "config.json" "credentials.json" (Some creds) world.
Definition path : string := "credentials.json".
(** A save under way, and a tunnel asked for. *)
Definition saving : Desk (W:=World) := set_writes [WriteSession creds path] (wh_desk start).
Definition connected : DaemonInner * World := (connect_tunnel vpn_request_default (st saving)).1.
Definition task : Task := {| task_request := vpn_request_default; task_cancel := 1 |}.
Definition running : Running :=
  {| r_task := task; r_pc := PcHead (Reconnect.new Reconnect.android_compatible_default) |}.
Definition busy : Whole (W:=World) := {| wh_desk := put connected saving; wh_tasks := [running]; wh_waiters := [] |}.

Lemma busy_reached : whole_reaches env busy.
Proof.
  apply WholeSteps with (put_desk saving start).
  - apply WholeSteps with start; [apply WholeStarts; intros cr [= <-]; reflexivity|].
    apply RpcStep. apply (TakesSnapshot env creds). vm_compute. reflexivity.
  - apply (TunnelStep env {| sys_d := connected.1; sys_w := connected.2; sys_tasks := [running]; sys_waiters := [] |}
             (put_desk saving start)).
    apply StepConnect with vpn_request_default; [split; [reflexivity|intros r Hr; by apply elem_of_nil in Hr]|].
    eexists _, _. split; [vm_compute; reflexivity|]. split; [vm_compute; reflexivity|]. split; reflexivity.
Qed.

Lemma sleep_serves t : serves env (λ l, l ≠ []) (λ s, (Office.sleep t s, Ok (E:=DaemonError) tt)).
Proof.
  intros x _. set (s1 := (serve_auth Office.sleep 0 (Logout false) (st x)).1).
  assert (Hx : rtc (section env) x (put s1 x)).
  { exact (serves_request env Office.sleep 0 (Logout false) anyhow ltac:(done) (or_introl eq_refl) x I). }
  assert (Office.sleep t (st x) = (s1.1, {| files := files s1.2; clock := clock (st x).2 + t |})) as ->.
  { unfold Office.sleep. match goal with |- (let '(_, _) := ?r in _) = _ => change r with s1 end. by destruct s1. }
  eapply rtc_r; [exact Hx|]. by apply (Meanwhile env _ (put s1 x)).
Qed.
End Sample.

Lemma whole_daemon_safe_witness :
  in_charge (sys_d (sys Sample.busy)) Sample.running ∧ usable_address Office.creds ∧ NoDup (map token (wh_tasks Sample.busy)).
Proof.
  destruct (whole_daemon_safe Sample.env Sample.busy Sample.busy_reached) as ((Hnd & _) & Hcalm & Hkept).
  destruct (Hcalm Sample.calmly) as (_ & Hr & _). destruct (Hkept Sample.kept) as [_ Hw].
  split; [apply (Hr Sample.running (list_elem_of_here _ _)); reflexivity|].
  split; [apply (Hw Office.creds Sample.path (list_elem_of_here _ _))|exact Hnd].
Defined.

Lemma handlers_are_sections_witness :
  ∃ y, rtc (section Sample.env) (Sample.desk Office.waiting) y ∧
    am_state (d_auth (de_d y)) = Authenticated ∧ de_waits y = [].
Proof.
  destruct (handlers_are_sections Sample.env Office.sleep Sample.sleep_serves polls_at_most CompleteDeviceLogin
    (Sample.desk Office.waiting) (or_introl eq_refl)) as [(l & Hs & Hl) _].
  eexists. split; [exact Hs|]. split; [vm_compute; reflexivity|]. cbn [de_waits set_waits]. apply Hl.
  vm_compute. discriminate.
Defined.

Lemma late_write_undoes_logout_witness :
  ∃ s session w d token,
    serve_auth Office.sleep 0 (Logout true) (st (Sample.desk DaemonSample.auth)) = (s, Ok (ReplySession session)) ∧
    se_state session = SessConfigured ∧
    prepare_daemon "config.json" Sample.path (save_credentials Office.creds Sample.path s.2).1 = (w, Ok (d, token)) ∧
    am_state (d_auth d) = Authenticated.
Proof.
  destruct (late_write_undoes_logout Office.sleep Sample.env true (Sample.desk DaemonSample.auth) Office.creds)
    as (x2 & session & _ & _ & Hs & Hst & _ & _ & Hstart); [reflexivity|discriminate|].
  destruct (prepare_daemon "config.json" Sample.path (save_credentials Office.creds Sample.path (de_w x2)).1)
    as [w [[d token]|e]] eqn:E.
  - exists (st x2), session, w, d, token. split; [exact Hs|]. split; [exact Hst|]. split; [exact E|].
    exact (proj1 (Hstart I eq_refl "config.json" w d token OfficeMachine.random_ I I E)).
  - exfalso. assert (Hw : de_w x2 = (serve_auth Office.sleep 0 (Logout true) (st (Sample.desk DaemonSample.auth))).1.2)
      by exact (eq_sym (f_equal (snd ∘ fst) Hs)).
    rewrite Hw in E. vm_compute in E. discriminate E.
Defined.

End WholeDaemon.
