(* ===== verification/DaemonRuns.v ===== *)
(** * The connect task and the tunnel RPCs are runs of the whole daemon

    [WholeDaemon] proves its invariants of a system of interleaved critical
    sections.  Here the functions that [daemon/src/daemon.rs] is translated to
    are shown to be runs of that system: an attempt with its requests, its
    session, its supervision and its reports; the reconnect loop around it; and
    connecting, disconnecting and changing the outbound interface with their
    waits.  While one of them waits or sleeps, the rest of the daemon may make
    any run. *)

From stdpp Require Import relations.
From S2P Require Import Prelude RustStr Net Reconnect Models Signing Api Requests Login VpnState Negotiate Persist Faults.
From S2P Require Import AuthMachine Store Routes Interface Dialer DnsConfig DnsResolver Outbound Session Supervisor Daemon ConnectTask.
From S2P Require Import System Startup AuthService AuthInvariant AuthFlows VpnService MetaService WholeDaemon.
Import Models Signing Api Requests Login Negotiate Persist Faults AuthMachine Store.
Import Routes(IpNet, IpNetwork).
Import Supervisor(SupervisorOutcome, Trigger, OutcomeKickOut, OutcomeCancelled).
Import Daemon ConnectTask System WholeDaemon.

Module DaemonRuns.

(** ** Negotiating a node is a run of requests *)

Section negotiation.
Context `{Urls} `{!Session.UrlHost} `{IpNet} `{!Session.IpNetAddr} `{Crypto, Session.KeyCodec, Serde, ErrorText} `{!MatchUrl}.
Context {W : Type} `{!Http W} `{Random W} `{Store W} `{Host W} `{!Session.TunDriver W}.
Variable v : Env (W:=W).
Variable P : list Wait → Prop.
Abbreviation calls := (calls v P).
Abbreviation probes := (probes v P).

Lemma calls_ext {E A} (m1 m2 : M (CookieStore * W) E A) : (∀ j, m1 j = m2 j) → calls m1 → calls m2.
Proof.
  intros Hm Hc x Hx. specialize (Hc x Hx). unfold on_jar, on_auth, through, st in *. by rewrite <- Hm.
Qed.
(** What is done with the answer of a call, of probes and of the attempts on a
    node. *)
Lemma calls_then {E F A B} (m : M (CookieStore * W) E A) (k : result E A → M (CookieStore * W) F B) :
  calls m → (∀ r, calls (k r)) → calls (λ j, let '(j1, r) := m j in k r j1).
Proof.
  intros Hm Hk. apply (calls_ext (m_bind (m_try (F:=F) m) k)).
  - intros j. unfold m_bind, m_try. by destruct (m j).
  - apply calls_bind; [by apply calls_try|exact Hk].
Qed.
Lemma probes_then {F A B} (m : CookieStore * W → (CookieStore * W) * A) (k : A → M (CookieStore * W) F B) :
  probes m → (∀ a, calls (k a)) → calls (λ j, let '(j1, a) := m j in k a j1).
Proof.
  intros Hm Hk. apply (calls_ext (m_bind (λ j, let '(j1, a) := m j in (j1, Ok a)) k)).
  { intros j. unfold m_bind. by destruct (m j). }
  apply calls_bind; [|exact Hk]. intros x Hx. specialize (Hm x Hx). unfold on_jar, on_auth, through, st in Hm |- *.
  destruct (m _) as [[jar w1] a]. exact Hm.
Qed.

Lemma calls_attempts {F B} client req n last
    (k : BaseResponse VpnConnResponse + option ApiError → M (CookieStore * W) F B) :
  (∀ r, calls (k r)) → calls (λ j, let '(j1, r) := dot_attempts (W:=W) client req n last j in k r j1).
Proof.
  intros Hk. revert last. induction n as [|n IH]; intros last; cbn [dot_attempts]; [apply Hk|].
  apply (calls_ext (λ j, let '(j1, r) := send de_conn client req j in
    (match r with Ok response => k (inl response)
     | Err e => λ j, let '(j1, r) := dot_attempts client req n (Some e) j in k r j1 end) j1)).
  { intros j. by destruct (send de_conn client req j) as [j1 [r|e]]. }
  apply calls_then; [apply calls_send|]. intros [response|e]; [apply Hk|apply IH].
Qed.

Lemma calls_dots build r dots last : calls (try_dots (W:=W) build r dots last).
Proof.
  revert last. induction dots as [|d dots IH]; intros last; cbn [try_dots]; [by apply calls_same|].
  destruct (from_dot d _) as [endpoint|e]; [|by apply calls_same].
  apply (calls_ext (λ j, let '(j1, a) := dot_attempts (build endpoint) (conn_request r d) MAX_CONFIG_ATTEMPTS_PER_DOT last j in
    (match a with
     | inl response => m_lift (match data response with None => Err MissingVpnConfigData
         | Some _ => Ok {| res_dot := d; res_endpoint := endpoint; res_response := response |} end)
     | inr last => try_dots build r dots last end) j1)).
  { intros j. destruct (dot_attempts _ _ _ _ j) as [j1 [response|last1]]; [by destruct (data response)|done]. }
  apply calls_attempts. intros [response|last1]; [by apply calls_same|apply IH].
Qed.

Lemma probes_all build i dots : probes (probe_all (W:=W) build i dots).
Proof.
  revert i. induction dots as [|d dots IH]; intros i; cbn [probe_all]; [apply probes_ret|].
  destruct (build d) as [client|]; [|apply IH].
  apply (probes_bind _ _ (probe_latency client DEFAULT_PROBE_TIMEOUT)
    (λ rtt j, let '(s2, rest) := probe_all build (S i) dots j in (s2, (i, rtt) :: rest))); [apply probes_latency|].
  intros rtt. apply (probes_bind _ _ (probe_all build (S i) dots) (λ rest s, (s, (i, rtt) :: rest))); [apply IH|].
  intros rest. apply probes_ret.
Qed.
Lemma probes_ranking build dots : probes (rank_by_probing (W:=W) build dots).
Proof.
  unfold rank_by_probing. destruct (_ <=? 1)%nat; [apply probes_ret|].
  apply (probes_bind _ _ (probe_all build 0 dots) (λ finished s, (s, rank_dots_by_latency dots finished)));
    [apply probes_all|intros f; apply probes_ret].
Qed.

Lemma calls_negotiation build rank client r :
  (∀ dots, probes (rank dots)) → calls (vpn_config_from_dot_list (W:=W) build rank client r).
Proof.
  intros Hrank. unfold vpn_config_from_dot_list.
  apply calls_bind; [apply calls_map_err, calls_send|intros locations].
  apply calls_bind; [by apply calls_same|intros [|d dots]]; [by apply calls_same|].
  destruct (candidates r (d :: dots)) as [|c cs]; [by apply calls_same|].
  assert (Ho : probes (order_candidates rank r (c :: cs))).
  { unfold order_candidates. destruct (_ && _); [apply Hrank|apply probes_ret]. }
  apply (probes_then _ (λ ranked, try_dots build r (take MAX_DOT_ATTEMPTS ranked) None)); [exact Ho|].
  intros ranked. apply calls_dots.
Qed.
End negotiation.

Definition state_of `{Urls} `{IpNet} {W : Type} (z : Whole (W:=W)) : DaemonInner * W := st (wh_desk z).

(** ** The connect task *)

Section task.
Context `{Urls} `{!Session.UrlHost} `{IpNet} `{!Session.IpNetAddr} `{Crypto, Session.KeyCodec, Serde, ErrorText} `{!MatchUrl}.
Context `{DnsConfig.Unicode, DnsConfig.UrlParser, DnsConfig.WildMatch, DnsResolver.DnsCodec} `{!Outbound.DnsNames}.
Context {W : Type} `{!Http W} `{Random W} `{Dialer.Sockets W} `{DnsResolver.Udp W} `{Outbound.Os W}
        `{Outbound.IpRule W} `{Routes.RouteManager W} `{!Session.TunDriver W} `{Store W} `{Host W}.
Abbreviation St := (DaemonInner * W)%type.
Abbreviation op A := (M (DaemonInner * W) DaemonError A).
Variable v : Env (W:=W).
Variable session_error_to_string : Session.SessionError → string.
Variable next_turn : nat → St → St * Supervisor.Turn.

(** What opening and closing a session do to the machine. *)
Definition session_opens (w w' : W) : Prop := ∃ c, w' = (Session.start (Session.session_new c, w)).1.2.
Definition session_closes (w w' : W) : Prop := ∃ session, w' = (Session.stop (session, w)).1.2.
(** An attempt ends with an error that it can answer. *)
Definition attempt_fails (t : Task) (e : DaemonError) : Prop :=
  ∃ turns s s', connect_once session_error_to_string next_turn (task_request t) (task_cancel t) turns s = (s', Err e).
Definition task_env : Env (W:=W) := {|
  outside := outside v; opens := session_opens; closes := session_closes; fails := attempt_fails;
  connects := connects v; activates := activates v; stored := stored v |}.
Abbreviation steps := (rtc (whole_step task_env)).

(** The only task, at [pc]; or none. *)
Definition tasks (t : Task) (o : option Pc) : list Running :=
  match o with Some pc => [{| r_task := t; r_pc := pc |}] | None => [] end.

Variable t : Task.
(** From wherever the task is alone at [o] and the state is [s], a run leads to
    where it is alone at [o'] and the state is [s']. *)
Definition runs (o : option Pc) (s : St) (o' : option Pc) (s' : St) : Prop :=
  ∀ z, state_of z = s → wh_tasks z = tasks t o →
    ∃ z', steps z z' ∧ state_of z' = s' ∧ wh_tasks z' = tasks t o'.

Lemma runs_refl o s : runs o s o s.
Proof. intros z Hz Ht. by exists z. Qed.
Lemma runs_trans o1 s1 o2 s2 o3 s3 : runs o1 s1 o2 s2 → runs o2 s2 o3 s3 → runs o1 s1 o3 s3.
Proof.
  intros Ha Hb z Hz Ht. destruct (Ha z Hz Ht) as (z1 & Hs1 & Hz1 & Ht1).
  destruct (Hb z1 Hz1 Ht1) as (z2 & Hs2 & Hz2 & Ht2). exists z2. split; [by etrans|done].
Qed.

(** A step of the task. *)
Lemma runs_task pc o s d' : task_step attempt_fails t pc s.1 o d' → runs (Some pc) s o (d', s.2).
Proof.
  intros Hs z <- Ht. exists (put_sys {| sys_d := d'; sys_w := (state_of z).2; sys_tasks := tasks t o;
                                       sys_waiters := wh_waiters z |} z).
  split; [|done]. apply rtc_once, TunnelStep. unfold sys. rewrite Ht.
  pose proof (StepTask attempt_fails (connects v) [] [] t pc o (de_d (wh_desk z)) d' (de_w (wh_desk z)) (wh_waiters z) Hs) as Hst.
  by destruct o.
Qed.

(** A run of sections, wherever the task is. *)
Lemma runs_sections o {E A} (m : M St E A) s : serves task_env anyhow m → runs o s o (m s).1.
Proof.
  intros Hm z <- Ht. exists (put_desk (put (m (state_of z)).1 (wh_desk z)) z).
  split; [by apply sections_steps, (Hm (wh_desk z))|]. split; [apply st_put|exact Ht].
Qed.

(** The session of an attempt, and of a supervised task. *)
Lemma runs_opens c d w w' : session_opens w w' → runs (Some (PcAttempt c)) (d, w) (Some (PcAttempt c)) (d, w').
Proof.
  intros Ho z Hz Ht. exists (put_desk (put (d, w') (wh_desk z)) z). split; [|done].
  injection Hz as <- <-. apply rtc_once. by apply (SessionOpens task_env [] t c [] w').
Qed.
Lemma runs_closes c d w w' : session_closes w w' → runs (Some (PcSupervised c)) (d, w) (Some (PcSupervised c)) (d, w').
Proof.
  intros Ho z Hz Ht. exists (put_desk (put (d, w') (wh_desk z)) z). split; [|done].
  injection Hz as <- <-. apply rtc_once. by apply (SessionCloses task_env [] t c [] w').
Qed.

(** [goes o m ok err Q]: [m] is a run from [o] to [ok], and its answer satisfies
    [Q], when it succeeds, and a run to [err] when it fails. *)
Definition goes {E A} (o : option Pc) (m : M St E A) (ok err : option Pc) (Q : A → St → Prop) : Prop :=
  ∀ s, match m s with (s', Ok a) => runs o s ok s' ∧ Q a s' | (s', Err _) => runs o s err s' end.
Definition whatever {A} : A → St → Prop := λ _ _, True.
Lemma goes_bind {E A B} o (m : M St E A) o1 (k : A → M St E B) ok err Q :
  goes o m o1 err whatever → (∀ a, goes o1 (k a) ok err Q) → goes o (m_bind m k) ok err Q.
Proof.
  intros Hm Hk s. unfold m_bind. specialize (Hm s). destruct (m s) as [s1 [a|e]]; [|exact Hm].
  destruct Hm as [Hm _]. specialize (Hk a s1).
  destruct (k a s1) as [s2 [b|e]]; [split; [|apply Hk]|]; eapply runs_trans; [exact Hm|apply Hk|exact Hm|exact Hk].
Qed.
(** What stays at its place. *)
Lemma goes_serves {E A} o (m : M St E A) : serves task_env anyhow m → goes o m o o whatever.
Proof. intros Hm s. pose proof (runs_sections o m s Hm) as Hr. by destruct (m s) as [s1 [a|e]]. Qed.
Lemma goes_same {E A} o (m : M St E A) : (∀ s, (m s).1 = s) → goes o m o o whatever.
Proof. intros Hm. by apply goes_serves, serves_same. Qed.
Lemma goes_jar {E A} o (m : M (CookieStore * W) E A) : calls task_env anyhow m → goes o (on_jar m) o o whatever.
Proof. apply goes_serves. Qed.
Lemma goes_task pc o f err : (∀ d, task_step attempt_fails t pc d o (f d)) → goes (Some pc) (upd f) o err whatever.
Proof. intros Hf [d w]. split; [|done]. by apply (runs_task pc o (d, w)). Qed.

(** ** One attempt *)

(** While the task supervises, the rest of the daemon makes a run, and a turn
    that says so is one in which the token is cancelled. *)
Definition turns_run : Prop := ∀ c s,
  runs (Some (PcSupervised c)) s (Some (PcSupervised c)) (next_turn (task_cancel t) s).1 ∧
  ((next_turn (task_cancel t) s).2 = Supervisor.TCancelled → task_cancel t ∈ d_cancelled (next_turn (task_cancel t) s).1.1).
Hypothesis turn_runs : turns_run.

Lemma runs_report o client r k s : runs o s o (send_report (W:=W) client r k s).1.
Proof.
  pose proof (runs_sections o (on_jar (send de_value client
    (VpnReportRequest (report_wire k) (rp_assigned_ip r) (rp_pub_key r) (android_name (rp_mode r))))) s
    (serves_send _ _ _ _ _)) as Hr.
  unfold send_report. by destruct (on_jar _ s) as [s1 [x|e]].
Qed.
Lemma report_cancelled client r k s : d_cancelled (send_report (W:=W) client r k s).1.1 = d_cancelled s.1.
Proof.
  unfold send_report. destruct s as [d w]. unfold on_jar, on_auth, through. by destruct (send _ _ _ _) as [[j w1] [x|e]].
Qed.

Lemma goes_start_session c cfg conn p request transport :
  goes (Some (PcAttempt c)) (start_session session_error_to_string cfg conn p request transport)
    (Some (PcAttempt c)) (Some (PcAttempt c)) whatever.
Proof.
  unfold start_session. apply goes_bind with (Some (PcAttempt c)); [apply goes_task; intros d; apply Working|intros _].
  apply goes_bind with (Some (PcAttempt c)); [apply goes_same; by intros [d w]|intros d].
  apply goes_bind with (Some (PcAttempt c)); [by apply goes_same|intros tunnel [d1 w1]]. cbn zeta. unfold on_session.
  cbn [fst snd]. match goal with |- context [Session.start (Session.session_new ?cfg, ?w)] => set (config := cfg) end.
  pose proof (runs_opens c d1 w1 (Session.start (Session.session_new config, w1)).1.2 ltac:(by exists config)) as Ho.
  by destruct (Session.start (Session.session_new config, w1)) as [[x w2] [[]|e]].
Qed.

Lemma goes_mark_connected c cfg ip transport err :
  goes (Some (PcAttempt c)) (mark_connected cfg ip transport) (Some (PcSupervised c)) err whatever.
Proof.
  unfold mark_connected. apply goes_bind with (Some (PcSupervised c)); [apply goes_task; intros d; apply Connecting_|].
  intros _ s. rewrite persist_snapshot. split; [|done].
  pose proof (runs_sections (Some (PcSupervised c)) persist_credentials s (serves_persist _ _)) as Hr.
  by rewrite persist_snapshot in Hr.
Qed.

(** Once connected: the reports, the supervision and the end of the session. *)
Lemma goes_supervised c session client r turns err :
  goes (Some (PcSupervised c))
    (λ s, let '(s1, _) := send_report client r ReportConnected s in
      match supervise next_turn session client r (task_cancel t) turns s1 with
      | (s2, None) => (s2, Ok (E:=DaemonError) None)
      | (s2, Some outcome) =>
          let '(s3, _) := on_session Session.stop session s2 in
          let '(s4, _) := send_report client r ReportDisconnected s3 in
          (s4, Ok (Some outcome))
      end)
    (Some (PcSupervised c)) err
    (λ o s, o = Some OutcomeCancelled → task_cancel t ∈ d_cancelled s.1).
Proof.
  intros s. pose proof (runs_report (Some (PcSupervised c)) client r ReportConnected s) as Hr1.
  destruct (send_report client r ReportConnected s) as [s1 kicked]. cbn [fst] in Hr1.
  assert (PreOrder (λ s s', runs (Some (PcSupervised c)) s (Some (PcSupervised c)) s')).
  { split; [intros x; apply runs_refl|intros x y z; apply runs_trans]. }
  pose proof (Supervisor.run_maintains snd (next_turn (task_cancel t)) (send_report client r ReportConnected) blocking_ok
    (λ s s', runs (Some (PcSupervised c)) s (Some (PcSupervised c)) s') (λ s, proj1 (turn_runs c s))
    (runs_report _ client r ReportConnected) session (dc_outbound_interface (d_config s1.1)) turns s1) as Hr2.
  pose proof (Supervisor.run_cancelled snd (next_turn (task_cancel t)) (send_report client r ReportConnected) blocking_ok
    (λ s, task_cancel t ∈ d_cancelled s.1) session (dc_outbound_interface (d_config s1.1)) turns s1
    (λ s, proj2 (turn_runs c s))) as Hc.
  unfold supervise. destruct (Supervisor.run _ _ _ _ _ _ _ s1) as [[d2 w2] [outcome|]]; cbn [fst snd] in Hr2, Hc.
  2:{ split; [by eapply runs_trans|done]. }
  pose proof (runs_closes c d2 w2 (Session.stop (session, w2)).1.2 ltac:(by exists session)) as Hr3.
  unfold on_session. cbn [fst snd]. destruct (Session.stop (session, w2)) as [[x w3] r3]. cbn [fst snd] in Hr3.
  pose proof (runs_report (Some (PcSupervised c)) client r ReportDisconnected (d2, w3)) as Hr4.
  pose proof (report_cancelled client r ReportDisconnected (d2, w3)) as Hc4.
  destruct (send_report client r ReportDisconnected (d2, w3)) as [s4 k4]. cbn [fst] in Hr4, Hc4.
  split; [|intros [= ->]; rewrite Hc4; by apply Hc].
  eapply runs_trans; [exact Hr1|]. eapply runs_trans; [exact Hr2|]. by eapply runs_trans.
Qed.

(** An attempt begins at the head of the loop; it fails inside itself, and is
    over when its tunnel is. *)
Lemma goes_attempt c turns :
  goes (Some (PcHead c)) (connect_once session_error_to_string next_turn (task_request t) (task_cancel t) turns)
    (Some (PcSupervised c)) (Some (PcAttempt c))
    (λ o s, o = Some OutcomeCancelled → task_cancel t ∈ d_cancelled s.1).
Proof.
  unfold connect_once.
  apply goes_bind with (Some (PcAttempt c)); [apply goes_task; intros d; apply Configuring_|intros _].
  apply goes_bind with (Some (PcAttempt c)); [apply goes_same; by intros [d w]|intros d].
  apply goes_bind with (Some (PcAttempt c)); [by apply goes_same|intros client].
  apply goes_bind with (Some (PcAttempt c)).
  { apply goes_serves. unfold fetch_vpn_domain. apply serves_bind; [apply serves_try, serves_send|].
    intros r. apply serves_ret. }
  intros domain. apply goes_bind with (Some (PcAttempt c)).
  { apply goes_serves, serves_section. intros x _. pose proof (Draws task_env x) as Hd.
    unfold st. by destruct (random_32 (de_w x)) as [w1 b]. }
  intros local. apply goes_bind with (Some (PcAttempt c)); [apply goes_same; by intros [d' w]|intros code].
  apply goes_bind with (Some (PcAttempt c)); [apply goes_same; by intros [d' w]|intros d1].
  apply goes_bind with (Some (PcAttempt c)); [apply goes_same; by intros [d' w]|intros pool_ok].
  apply goes_bind with (Some (PcAttempt c)).
  { apply goes_serves, serves_map_err, calls_negotiation. intros dots. apply probes_ranking. }
  intros result. apply goes_bind with (Some (PcAttempt c)); [by apply goes_same|intros conn].
  apply goes_bind with (Some (PcAttempt c)); [apply goes_start_session|intros session].
  apply goes_bind with (Some (PcSupervised c)); [apply goes_mark_connected|intros _].
  intros [d2 w2].
  match goal with |- match m_bind inner ?k _ with _ => _ end => change (m_bind inner k (d2, w2)) with (k d2 (d2, w2)) end.
  cbv beta. unfold m_bind. apply goes_supervised.
Qed.
(** ** The loop *)

Variable sleep : duration → St → St * bool.
(** While the task sleeps, too; a sleep is cut short when the token is
    cancelled. *)
Definition sleeps_run : Prop := ∀ c after s,
  runs (Some (PcSleeping c)) s (Some (PcSleeping c)) (sleep after s).1 ∧
  ((sleep after s).2 = false → task_cancel t ∈ d_cancelled (sleep after s).1.1).
Hypothesis sleep_runs : sleeps_run.

(** Where a state of the loop finds the task. *)
Definition found (l : LoopState (W:=W)) (z : Whole (W:=W)) : Prop :=
  match l with
  | LoopHead c s => state_of z = s ∧ wh_tasks z = tasks t (Some (PcHead c))
  | LoopInside s => state_of z = s ∧ ∃ c, wh_tasks z = tasks t (Some (PcSupervised c))
  | LoopEnded s => state_of z = s ∧ wh_tasks z = []
  end.
Definition arrives (o : option Pc) (s : St) (l : LoopState (W:=W)) : Prop :=
  ∀ z, state_of z = s → wh_tasks z = tasks t o → ∃ z', steps z z' ∧ found l z'.
Lemma arrives_head o s c s' : runs o s (Some (PcHead c)) s' → arrives o s (LoopHead c s').
Proof. intros Hr z Hz Ht. destruct (Hr z Hz Ht) as (z' & Hs & Hz'). by exists z'. Qed.
Lemma arrives_end o s s' : runs o s None s' → arrives o s (LoopEnded s').
Proof. intros Hr z Hz Ht. destruct (Hr z Hz Ht) as (z' & Hs & Hz'). by exists z'. Qed.
Lemma arrives_trans o s o1 s1 l : runs o s o1 s1 → arrives o1 s1 l → arrives o s l.
Proof.
  intros Hr Ha z Hz Ht. destruct (Hr z Hz Ht) as (z1 & Hs & Hz1 & Ht1).
  destruct (Ha z1 Hz1 Ht1) as (z2 & Hs2 & Hf). exists z2. split; [by etrans|done].
Qed.

Lemma decide_arrives c ev failed s :
  arrives (Some (decided c ev failed)) s (record_and_decide sleep c ev s).
Proof.
  unfold record_and_decide, decided. destruct (Reconnect.record c ev) as [c1 decision]. unfold handle_decision.
  assert (Hsleep : ∀ after, decision ≠ Reconnect.Stop → arrives (Some (PcDecided c1 decision failed)) s
    (match match sleep after (vpn_transition set_reconnecting s.1, s.2) with
           | (s1, true) => (s1, true) | (s1, false) => ((mark_disconnected s1.1, s1.2), false) end with
     | (s1, true) => LoopHead c1 s1 | (s1, false) => LoopEnded s1 end)).
  { intros after Hd.
    eapply arrives_trans; [by apply (runs_task _ _ s), Retrying|].
    destruct (sleep_runs c1 after (vpn_transition set_reconnecting s.1, s.2)) as [Hr Hc].
    destruct (sleep after _) as [s1 []]; cbn [fst snd] in *; (eapply arrives_trans; [exact Hr|]).
    - apply arrives_head. destruct s1 as [d1 w1]. apply (runs_task _ _ (d1, w1)), Slept.
    - apply arrives_end. destruct s1 as [d1 w1].
      eapply runs_trans; [apply (runs_task _ _ (d1, w1)), SleepCancelled; by apply Hc|].
      apply (runs_task _ _ (d1, w1)), Ending. }
  destruct decision as [after n|after n|]; [by apply Hsleep..|].
  apply arrives_end, (runs_task _ _ s), GivingUp.
Qed.

Lemma turn_arrives turns c s :
  arrives (Some (PcHead c)) s
    (loop_turn (attempt_of session_error_to_string next_turn t turns) sleep (task_cancel t) c s).
Proof.
  unfold loop_turn, attempt_of. pose proof (goes_attempt c turns s) as Ha.
  destruct (connect_once _ _ _ _ _ s) as [[d1 w1] [[[ev h|h|]|]|e]] eqn:Honce; [destruct Ha as [Ha Hc]..|].
  - eapply arrives_trans; [exact Ha|]. eapply arrives_trans; [by apply (runs_task _ _ (d1, w1)), (Losing attempt_fails t c ev h)|].
    apply decide_arrives.
  - eapply arrives_trans; [exact Ha|].
    eapply arrives_trans; [by apply (runs_task _ _ (d1, w1)), (Losing attempt_fails t c Reconnect.ServerKickOut h)|].
    apply decide_arrives.
  - apply arrives_end. eapply runs_trans; [exact Ha|].
    eapply runs_trans; [apply (runs_task _ _ (d1, w1)), SupervisedCancelled; by apply Hc|].
    apply (runs_task _ _ (d1, w1)), Ending.
  - intros z Hz Ht. destruct (Ha z Hz Ht) as (z' & Hs & Hz' & Ht'). exists z'. split; [done|]. split; [done|by exists c].
  - cbn zeta. eapply arrives_trans; [exact Ha|].
    eapply arrives_trans; [apply (runs_task _ _ (d1, w1)), (Failing attempt_fails t c e); by exists turns, s, (d1, w1)|].
    cbn [fst snd]. unfold is_cancelled. case_bool_decide as Hcan.
    + apply arrives_end. apply (runs_task _ _ (_, w1)), FailedCancelled. exact Hcan.
    + eapply arrives_trans; [apply (runs_task _ _ (_, w1)); by apply FailedGoesOn|]. apply decide_arrives.
Qed.

(** C9: The connect task is a run of the whole daemon: from every state in which
    it was just spawned, whatever the rest of the daemon does while it
    supervises and sleeps, each point that the translated loop reaches - its
    head before an attempt, a supervised tunnel, its end - is reached by a run of
    critical sections with the same daemon and the same world, the task being
    at that place, whenever connects and activations are let in; so what holds
    throughout the whole daemon holds of it. *)
Theorem connect_task_is_a_run turns z l :
  wh_tasks z = tasks t (Some (PcHead (Reconnect.new Reconnect.android_compatible_default))) →
  task_reaches session_error_to_string next_turn sleep t turns (state_of z) l →
  ∃ z', steps z z' ∧ found l z' ∧
    (whole_reaches task_env z → whole_reaches task_env z').
Proof.
  intros Ht Hl.
  assert (Hr : ∃ z', steps z z' ∧ found l z').
  { induction Hl as [|c s1 _ (z1 & Hs & Hz1 & Ht1)]; [by exists z|].
    destruct (turn_arrives turns c s1 z1 Hz1 Ht1) as (z2 & Hs2 & Hf). exists z2. split; [by etrans|done]. }
  destruct Hr as (z' & Hs & Hf). exists z'. split; [done|]. split; [done|]. intros Hz. by eapply steps_reach.
Qed.
End task.

(** ** The RPCs of the tunnel *)

Section rpcs.
Context `{Urls} `{!Session.UrlHost} `{IpNet} `{!Session.IpNetAddr} `{Crypto, Session.KeyCodec, Serde, ErrorText} `{!MatchUrl}.
Context {W : Type} `{!Http W} `{Random W} `{Store W} `{Host W} `{!Session.TunDriver W}.
Abbreviation St := (DaemonInner * W)%type.
Variable v : Env (W:=W).
Abbreviation step := (whole_step v).
Abbreviation steps := (rtc step).
Abbreviation reaches := (whole_reaches v).
Implicit Types z : Whole (W:=W).

(** With another daemon, another list of tasks and of waiting operations. *)
Definition put_tunnel (d : DaemonInner) (ts : list Running) (ws : list Waiter) z : Whole :=
  put_sys {| sys_d := d; sys_w := de_w (wh_desk z); sys_tasks := ts; sys_waiters := ws |} z.

(** Waiting for a task: a run after which it is gone, nobody else having taken
    the waiting operation away; without a task there is nothing to wait for. *)
Definition waits_out (wait : Task → St → St) (o : option Task) z z' : Prop :=
  match o with
  | Some task => steps z z' ∧ state_of z' = wait task (state_of z) ∧ wh_waiters z' = wh_waiters z ∧
                 ∀ r, r ∈ wh_tasks z' → token r ≠ task_cancel task
  | None => z' = z
  end.
Lemma waits_out_ready wait o w z z' :
  awaits w = task_cancel <$> o → waits_out wait o z z' → ready w (sys z') ∧ wh_waiters z' = wh_waiters z.
Proof.
  intros Hw Ho. destruct o as [task|]; cbn in Ho, Hw.
  - destruct Ho as (_ & _ & Hws & Hr). split; [|done]. intros r Hin. rewrite Hw. intros [= Heq]. by destruct (Hr r Hin).
  - subst z'. split; [|done]. intros r _. by rewrite Hw.
Qed.
Lemma waits_out_steps wait o z z' : waits_out wait o z z' → steps z z'.
Proof. destruct o; [by intros (Hs & _)|by intros ->]. Qed.

Lemma tokens_reached z : reaches z → tokens_ok (de_d (wh_desk z)).
Proof. intros Hz. apply (reaches_sane _ _ _ (whole_sys v z Hz)). Qed.

Definition running (request : VpnRequest) (d : DaemonInner) : Running :=
  {| r_task := {| task_request := request; task_cancel := default 0%nat (cancel_token <$> d_vpn d) |};
     r_pc := PcHead (Reconnect.new Reconnect.android_compatible_default) |}.

(** A connect, from a state whose other tasks and waiters do not matter. *)
Lemma connect_accepts request (d : DaemonInner) (w : W) ts ws :
  tokens_ok d →
  match connect_tunnel request (d, w) with
  | ((d', w'), Ok t) => w' = w ∧
      accepts request {| sys_d := d; sys_w := w; sys_tasks := ts; sys_waiters := ws |}
        {| sys_d := d'; sys_w := w; sys_tasks := ts ++ [running request d']; sys_waiters := ws |}
  | ((d', w'), Err e) => d' = d ∧ w' = w ∧
      refuses request {| sys_d := d; sys_w := w; sys_tasks := ts; sys_waiters := ws |}
        {| sys_d := d; sys_w := w; sys_tasks := ts; sys_waiters := ws |}
  end.
Proof.
  intros Htok. pose proof (connect_tunnel_cases request d w Htok) as Hc.
  destruct (connect_tunnel request (d, w)) as [[d' w'] [t|e]] eqn:Hcon.
  - destruct Hc as (-> & _ & _ & (vpn & Hv & _ & _ & Ht & _) & _). split; [done|].
    exists t, {| task_request := request; task_cancel := cancel_token vpn |}. split; [exact Hcon|]. split; [exact Ht|].
    split; [done|]. cbn. unfold running. by rewrite Hv.
  - destruct (connect_refused _ _ _ _ _ _ Hcon) as [-> ->]. split; [done|]. split; [done|]. by exists e.
Qed.

(** Connecting is one section; a refusal changes nothing. *)
Lemma connect_is_a_step request z :
  reaches z →
  match connect_tunnel request (state_of z) with
  | (s', Ok t) => connects v (sys z) →
      step z (put_tunnel s'.1 (wh_tasks z ++ [running request s'.1]) (wh_waiters z) z) ∧ s'.2 = (state_of z).2
  | (s', Err e) => s' = state_of z ∧ step z z
  end.
Proof.
  intros Hz. pose proof (connect_accepts request (de_d (wh_desk z)) (de_w (wh_desk z)) (wh_tasks z) (wh_waiters z)
    (tokens_reached z Hz)) as Hc.
  unfold state_of, st. destruct (connect_tunnel request _) as [[d' w'] [t|e]].
  - destruct Hc as [-> Ha]. intros Hcalm. split; [|done]. apply TunnelStep. by apply StepConnect with request.
  - destruct Hc as (-> & -> & Hr). split; [done|].
    assert (z = put_sys (sys z) z) as Hzz by (by destruct z as [[]]). rewrite Hzz at 2.
    apply TunnelStep. by apply StepRefused with request.
Qed.

(** Disconnecting: its first section, the wait, and its last. *)
Definition disconnecting z : Whole :=
  put_tunnel (set_task None (disconnect_begin (de_d (wh_desk z)))) (wh_tasks z)
    (wh_waiters z ++ [WaitDisconnect (task_cancel <$> d_tunnel_task (de_d (wh_desk z)))]) z.
Lemma disconnecting_step z : step z (disconnecting z).
Proof. apply TunnelStep. exact (StepDisconnect (fails v) (connects v) (de_d (wh_desk z)) (de_w (wh_desk z)) (wh_tasks z) (wh_waiters z)). Qed.
Lemma disconnect_is_a_run wait z z' :
  waits_out wait (d_tunnel_task (de_d (wh_desk z))) (disconnecting z) z' →
  ∃ z1, steps z z1 ∧ state_of z1 = (disconnect_tunnel wait (state_of z)).1 ∧
    wh_waiters z1 = wh_waiters z ∧ wh_tasks z1 = wh_tasks z'.
Proof.
  intros Hw. set (a := task_cancel <$> d_tunnel_task (de_d (wh_desk z))).
  destruct (waits_out_ready wait _ (WaitDisconnect a) _ _ eq_refl Hw) as [Hr Hws]. cbn in Hws.
  exists (put_tunnel (disconnect_end (de_d (wh_desk z'))) (wh_tasks z') (wh_waiters z) z').
  split; [|split; [|done]].
  - eapply rtc_l; [apply disconnecting_step|]. etrans; [by eapply waits_out_steps|]. apply rtc_once, TunnelStep.
    unfold sys in Hr |- *. rewrite Hws in Hr |- *.
    pose proof (StepDisconnected (fails v) (connects v) (de_d (wh_desk z')) (de_w (wh_desk z')) (wh_tasks z') (wh_waiters z) a [] Hr) as Hs.
    by rewrite app_nil_r in Hs.
  - unfold state_of at 2, st. rewrite (disconnect_sections wait (de_d (wh_desk z)) (de_w (wh_desk z))).
    unfold waits_out in Hw. destruct (d_tunnel_task (de_d (wh_desk z))) as [task|] eqn:Ht.
    + destruct Hw as (_ & Hs & _). change (state_of (disconnecting z)) with (set_task None (disconnect_begin (de_d (wh_desk z))), de_w (wh_desk z)) in Hs.
      rewrite <- Hs. done.
    + subst z'. cbn. assert (Hd : d_tunnel_task (disconnect_begin (de_d (wh_desk z))) = None)
        by (unfold disconnect_begin; by destruct (d_vpn (de_d (wh_desk z)))).
      assert (set_task None (disconnect_begin (de_d (wh_desk z))) = disconnect_begin (de_d (wh_desk z))) as ->
        by (rewrite <- Hd at 1; by destruct (disconnect_begin _)). done.
Qed.

(** A changed outbound interface: without a request to restart, the pool at
    most is rebuilt. *)
Lemma outbound_quiet wait z :
  outbound_begin (de_d (wh_desk z)) (de_w (wh_desk z)) = None →
  ∃ z1, steps z z1 ∧ state_of z1 = (reconnect_if_outbound_changed wait (state_of z)).1 ∧
    wh_waiters z1 = wh_waiters z ∧ wh_tasks z1 = wh_tasks z.
Proof.
  unfold outbound_begin, state_of, st, reconnect_if_outbound_changed. case_bool_decide as Ho; [by exists z|].
  set (d1 := if pool_builds _ _ then _ else _).
  assert (Hd1 : ∃ k, rtc (section v) (wh_desk z) k ∧ st k = (d1, de_w (wh_desk z))).
  { unfold d1. destruct (pool_builds _ _); [|by exists (wh_desk z)].
    eexists. split; [apply rtc_once, (RebuildsPool v (dc_outbound_interface (d_config (de_d (wh_desk z)))))|done]. }
  destruct Hd1 as (k & Hs & Hk). intros Hn. exists (put_desk k z). split; [by apply sections_steps|]. split; [|done].
  cbn [wh_desk put_desk]. change (de_d k, de_w k) with (st k). rewrite Hk.
  destruct (d_vpn d1) as [vpn|]; [|done]. cbn in Hn. by destruct (current_request (state vpn)).
Qed.
(** With one: the first section, the wait for the old task, and the connect. *)
Definition changing (request : VpnRequest) (d : DaemonInner) z : Whole :=
  put_tunnel (set_task None d) (wh_tasks z)
    (wh_waiters z ++ [WaitOutbound (task_cancel <$> d_tunnel_task (de_d (wh_desk z))) request]) z.
Lemma changing_state wait z request d :
  outbound_begin (de_d (wh_desk z)) (de_w (wh_desk z)) = Some (request, d) →
  (reconnect_if_outbound_changed wait (state_of z)).1 =
    (connect_tunnel request
       match d_tunnel_task (de_d (wh_desk z)) with
       | Some task => wait task (set_task None d, de_w (wh_desk z)) | None => (set_task None d, de_w (wh_desk z))
       end).1.
Proof.
  unfold outbound_begin, state_of, st, reconnect_if_outbound_changed. case_bool_decide as Ho; [done|].
  set (d1 := if pool_builds _ _ then _ else _).
  assert (Ht : d_tunnel_task d1 = d_tunnel_task (de_d (wh_desk z))) by (unfold d1; by destruct (pool_builds _ _)).
  destruct (d_vpn d1) as [vpn|]; [|done]. cbn [mbind option_bind].
  destruct (current_request (state vpn)) as [rq|]; [|done]. intros [= <- <-]. rewrite Ht.
  change (set_task None (cancel (cancel_token vpn) d1)) with (cancel (cancel_token vpn) (set_task None d1)).
  by destruct (connect_tunnel rq _).
Qed.
Lemma outbound_is_a_run wait z z' request d :
  (∀ s, calm s → connects v s) → reaches z → wh_waiters z = [] →
  outbound_begin (de_d (wh_desk z)) (de_w (wh_desk z)) = Some (request, d) →
  waits_out wait (d_tunnel_task (de_d (wh_desk z))) (changing request d z) z' → wh_tasks z' = [] →
  ∃ z1, steps z z1 ∧ state_of z1 = (reconnect_if_outbound_changed wait (state_of z)).1 ∧ wh_waiters z1 = [].
Proof.
  intros Hcalm Hz Hnone Ho Hw Hts. set (a := task_cancel <$> d_tunnel_task (de_d (wh_desk z))).
  destruct (waits_out_ready wait _ (WaitOutbound a request) _ _ eq_refl Hw) as [Hr Hws].
  cbn in Hws. rewrite Hnone in Hws. cbn in Hws.
  assert (Hs1 : steps z z').
  { eapply rtc_l; [|by eapply waits_out_steps]. apply TunnelStep. by apply StepOutbound. }
  assert (Hst : state_of z' = match d_tunnel_task (de_d (wh_desk z)) with
    | Some task => wait task (set_task None d, de_w (wh_desk z)) | None => (set_task None d, de_w (wh_desk z)) end).
  { unfold waits_out in Hw. destruct (d_tunnel_task _) as [task|]; [by destruct Hw as (_ & -> & _)|by subst z']. }
  rewrite (changing_state wait z request d Ho), <- Hst.
  pose proof (connect_accepts request (de_d (wh_desk z')) (de_w (wh_desk z')) (wh_tasks z') []
    (tokens_reached z' (steps_reach v _ _ Hz Hs1))) as Hc.
  unfold state_of at 2, st. destruct (connect_tunnel request _) as [[d' w'] [t|e]].
  - destruct Hc as [-> Ha]. exists (put_tunnel d' (wh_tasks z' ++ [running request d']) [] z'). split; [|done].
    etrans; [exact Hs1|]. apply rtc_once, TunnelStep.
    apply (StepReconnects (fails v) (connects v) [] a request [] (sys z')); [exact Hws|exact Hr|apply Hcalm|exact Ha].
    split; [done|]. cbn. rewrite Hts. intros r Hin. by apply elem_of_nil in Hin.
  - destruct Hc as (-> & -> & Hf). exists (put_tunnel (de_d (wh_desk z')) (wh_tasks z') [] z'). split; [|done].
    etrans; [exact Hs1|]. apply rtc_once, TunnelStep.
    apply (StepReconnectRefused (fails v) (connects v) [] a request [] (sys z')); [exact Hws|exact Hr|exact Hf].
Qed.

(** The RPCs of the tunnel are runs of the whole daemon: from every state it can
    be in, a connect that is looked at is one section, which adds its task
    at the head of its loop, and one that is refused changes nothing;
    disconnecting is a run, whatever run happens until the awaited task is gone;
    and so is following a change of the outbound interface: the pool at most is
    rebuilt when there is no request to restart, and else the old task is
    awaited and the connect follows, when nothing else waits, no task is left, and
    connects are looked at in such moments.  In each case the state that the run ends
    in is the one the translated operation answers with. *)
Theorem tunnel_rpcs_are_runs wait z :
  reaches z →
  (∀ request, match connect_tunnel request (state_of z) with
     | (s', Ok t) => connects v (sys z) →
         ∃ z1, step z z1 ∧ state_of z1 = s' ∧ wh_tasks z1 = wh_tasks z ++ [running request s'.1]
     | (s', Err e) => s' = state_of z ∧ step z z
     end) ∧
  (∀ z', waits_out wait (d_tunnel_task (de_d (wh_desk z))) (disconnecting z) z' →
     ∃ z1, steps z z1 ∧ state_of z1 = (disconnect_tunnel wait (state_of z)).1 ∧
       wh_waiters z1 = wh_waiters z ∧ wh_tasks z1 = wh_tasks z') ∧
  match outbound_begin (de_d (wh_desk z)) (de_w (wh_desk z)) with
  | None => ∃ z1, steps z z1 ∧ state_of z1 = (reconnect_if_outbound_changed wait (state_of z)).1 ∧
      wh_tasks z1 = wh_tasks z
  | Some (request, d) => ∀ z', (∀ s, calm s → connects v s) → wh_waiters z = [] →
      waits_out wait (d_tunnel_task (de_d (wh_desk z))) (changing request d z) z' → wh_tasks z' = [] →
      ∃ z1, steps z z1 ∧ state_of z1 = (reconnect_if_outbound_changed wait (state_of z)).1 ∧ wh_waiters z1 = []
  end.
Proof.
  intros Hz. split; [|split].
  - intros request. pose proof (connect_is_a_step request z Hz) as Hc.
    destruct (connect_tunnel request (state_of z)) as [[d' w'] [t|e]]; [|exact Hc].
    intros Hcalm. destruct (Hc Hcalm) as [Hs Hw]. eexists. split; [exact Hs|]. cbn in Hw. subst w'. done.
  - intros z'. apply disconnect_is_a_run.
  - destruct (outbound_begin _ _) as [[request d]|] eqn:Ho.
    + intros z' Hcalm Hws Hw Hts. by eapply outbound_is_a_run.
    + destruct (outbound_quiet wait z Ho) as (z1 & Hs & Hst & _ & Ht). by exists z1.
Qed.

End rpcs.

(** ** Witnesses *)

Lemma tunnel_rpcs_are_runs_witness :
  ∃ z1 z2, whole_step Sample.env Sample.start z1 ∧ length (wh_tasks z1) = 1%nat ∧
    rtc (whole_step Sample.env) Sample.start z2 ∧
    state_of z2 = (disconnect_tunnel (λ _ s, s) (state_of Sample.start)).1.
Proof.
  assert (Hz : whole_reaches Sample.env Sample.start)
    by (apply WholeStarts; by intros cr [= <-]).
  destruct (tunnel_rpcs_are_runs Sample.env (λ _ s, s) Sample.start Hz) as (Hc & Hd & _).
  specialize (Hc vpn_request_default).
  assert (Hok : is_ok (connect_tunnel vpn_request_default (state_of Sample.start)).2 = true) by (vm_compute; reflexivity).
  destruct (connect_tunnel vpn_request_default (state_of Sample.start)) as [s' [tn|e]]; [|discriminate Hok].
  destruct Hc as (z1 & Hs1 & _ & Ht1); [split; [reflexivity|intros r Hr; by apply elem_of_nil in Hr]|].
  destruct (Hd (disconnecting Sample.start) eq_refl) as (z2 & Hs2 & Hst2 & _).
  exists z1, z2. split; [exact Hs1|]. split; [by rewrite Ht1|]. by split.
Defined.

(** The server, the driver and the system of [Bench]; while the task supervises
    or sleeps, somebody asks for a disconnect. *)
Module Interrupted.
Import Echo AuthSample Bench.
#[export] Instance crypto : Crypto := Bench.crypto.
#[export] Instance net : IpNet := Bench.net.
#[export] Instance serde : Serde := Bench.serde.
#[export] Instance http : Http nat := Echo.http.
Definition env : Env (W:=nat) := {|
  outside := Nat.le; opens _ _ := False; closes _ _ := False; fails _ _ := False;
  connects := calm; activates l := l = []; stored := AuthInvariant.usable_address |}.
Definition disconnects (s : DaemonInner * nat) : DaemonInner * nat := (set_task None (disconnect_begin s.1), s.2).
Definition turn (token : nat) (s : DaemonInner * nat) : (DaemonInner * nat) * Supervisor.Turn :=
  (disconnects s,
   if bool_decide (token ∈ d_cancelled (disconnects s).1) then Supervisor.TCancelled else Supervisor.TDeviceStopped).
Definition task : Task := {| task_request := vpn_request_default; task_cancel := 1 |}.
Definition sleep (after : duration) (s : DaemonInner * nat) : (DaemonInner * nat) * bool :=
  (disconnects s, negb (bool_decide (1%nat ∈ d_cancelled (disconnects s).1))).
Definition start : Whole (W:=nat) := starting "id" config_default "config.json" "credentials.json" (Some AuthInvariant.Office.creds) 0%nat.
Definition spawned : Whole (W:=nat) :=
  put_tunnel (connect_tunnel vpn_request_default (state_of start)).1.1
    (tasks task (Some (PcHead (Reconnect.new Reconnect.android_compatible_default)))) [] start.
Abbreviation steps := (rtc (whole_step (task_env env (λ _, "session") turn))).
Lemma disconnects_runs pc (s : DaemonInner * nat) : runs env (λ _, "session") turn task (Some pc) s (Some pc) (disconnects s).
Proof.
  intros z <- Ht. exists (disconnecting z). split; [apply rtc_once, disconnecting_step|]. by split.
Qed.
Definition ended : LoopState (W:=nat) := loop_turn (attempt_of (λ _, "session") turn task 9) sleep 1
  (Reconnect.new Reconnect.android_compatible_default) (state_of spawned).
End Interrupted.
Import Interrupted.

Lemma connect_task_is_a_run_witness :
  ∃ z', Interrupted.steps Interrupted.spawned z' ∧ wh_tasks z' = [] ∧
    (∀ vpn, d_vpn (de_d (wh_desk z')) = Some vpn → state vpn = Disconnected).
Proof.
  assert (Hend : match Interrupted.ended with
    | LoopEnded s => match d_vpn s.1 with Some vpn => bool_decide (t_state (state_to_tunnel_proto (state vpn)) = StateDisconnected) | None => false end
    | _ => false end = true) by (vm_compute; reflexivity).
  destruct (connect_task_is_a_run (W:=nat) Interrupted.env (λ _, "session") Interrupted.turn Interrupted.task) with
    (sleep := Interrupted.sleep) (turns := 9%nat) (z := Interrupted.spawned) (l := Interrupted.ended)
    as (z' & Hs & Hf & _).
  - intros c s. split; [apply Interrupted.disconnects_runs|]. unfold Interrupted.turn. cbn [fst snd].
    by case_bool_decide.
  - intros c after s. split; [apply Interrupted.disconnects_runs|]. unfold Interrupted.sleep. cbn [fst snd].
    by case_bool_decide.
  - reflexivity.
  - apply TaskTurns, TaskStarts.
  - exists z'. split; [exact Hs|]. destruct Interrupted.ended as [c s|s|s]; [discriminate Hend..|].
    destruct Hf as [Hst Ht]. split; [exact Ht|]. intros vpn Hv. rewrite <- Hst in Hend. cbn [fst state_of st] in Hend.
    rewrite Hv in Hend. by destruct (state vpn).
Defined.

End DaemonRuns.
